(* ===== verification/_CoqProject ===== *)
-Q . S2P
Prelude.v
FdtReader.v
FdtHeader.v
FdtStrings.v
FdtNames.v
FdtStructure.v
FdtLex.v
FdtTree.v
FdtScan.v
FdtPass.v
FdtView.v
FdtViewProofs.v
FdtAddressing.v
FdtRegRange.v
FdtMemory.v
FdtReserved.v
FdtSemantic.v
FdtReservation.v
Fdt.v
FdtEncode.v
FdtProperties.v
FdtFuel.v
FdtTests.v
KMemory.v
KBootAlloc.v
KBootFrames.v
KBootProofs.v
KMachine.v
KPaging.v
KPte.v
KTables.v
KMapProofs.v
KRangeProofs.v
KFrameWindow.v
KHeap.v
KHeapProofs.v
KKernelPaging.v
KWindow.v
KBootWindow.v
KBootFdt.v
KKernelProofs.v
KTransition.v
KEntry.v
KPlan.v
KBackingProofs.v
KKernelSample.v
KPagingProperties.v
KEntryProperties.v
KAsm.v
KTimer.v
KTimerProofs.v
KConsole.v
KLogging.v
KSyscall.v
KTrap.v
KTrapProofs.v
KTrapSteps.v
KProbe.v
KBoot.v
KBootStages.v
KBootProperties.v
KAllocator.v
KAllocatorProofs.v
KProcess.v
KImageProofs.v
KLoadProofs.v
KProcessProofs.v
KOwnership.v
KStartup.v
KMain.v
KMainProofs.v
KWaitProofs.v
KRunProofs.v
KUser.v
KTrapProperties.v
KProcessProperties.v
KMainProperties.v
KOutputProperties.v
KSample.v
KProperties.v
