(* ===== verification/Prelude.v ===== *)
(** * Barebone kernel: verification library

    A model, in Rocq, of the repository's flattened-devicetree parser
    ([fdt/src]), of its RV64 kernel ([kernel/src]) and of its user program
    ([user/init/src]), with the theorems that make them correct.  This file is
    the root; after this comment it is also the shared prelude.

    ** The program

    Firmware enters the kernel at [_start] with a hart id and the physical
    address of a devicetree blob.  The entry assembly ([boot.rs]) builds two
    Sv39 gigapages, enters the higher half, clears [.bss] and calls [main].
    [main] installs the trap vector, claims the bootstrap page tables, maps the
    blob, has [fdt] validate it, probes the time counter, claims the frame
    allocator over the blob's memory ranges, builds and activates the kernel's
    own tables, and hands heap, paging and frames to the global allocator.
    [run_kernel] then loads the embedded user image, configures the periodic
    timer, waits for two interrupts and enters user mode; from there the hart
    runs the user program and the trap handler that serves it.

    ** Conventions

    - A machine word is a [Z] in its range.  [wrapping_*] operations are
      written with [wrap]; checked ones return an option; an unchecked
      operation that overflows, an index out of range, an [expect] or
      [unreachable!] is the outcome [Panic].  [usize] has 64 bits.
    - A function that may fail returns an [outcome]: [Ok], [Err], [Panic] or
      [OutOfFuel]; a function that changes state is in the monad
      [M S E A := S -> outcome E A * S], so that the state is known on every
      path, errors included.  [no_panic] excludes [Panic] and [OutOfFuel].
    - A call that never returns is an error of type [stopped], whose state is
      the one execution ends in.
    - A loop that is not structural takes fuel, enough of it: the theorems show
      [OutOfFuel] unreachable.  Only the two waits for timer interrupts take it
      as a parameter, since they end when the interrupts have arrived.
    - Linker symbols are parameters, and so are the Cargo features of the
      build, the class [Build] of KLogging.
    - Logging.  A record is printed with the values and the line numbers of
      the source wherever a trap is handled: in the handler, in the system
      calls and at the ends of execution (KTrap, KSyscall), so that what the
      console shows of the user program is what the kernel prints.  Elsewhere
      the calls are left out; [log_returns] of KLogging shows that a call
      changes nothing but the firmware and the counter.

    ** The devicetree parser

    - FdtReader, FdtHeader, FdtStrings, FdtNames: [reader.rs], [header.rs],
      [strings.rs], [structure/name.rs]; a function of the source is the
      definition of the same name in the module of its type.
    - FdtStructure: the validating pass of [structure.rs] ([Structure::new],
      with the rescans of the validated prefix).  Its specification is in
      FdtLex (the token grammar) and FdtTree (trees, their rules, and the
      abstract machine that recognises them); FdtScan and FdtPass are the
      refinement, FdtEncode is the inverse.
    - FdtView, FdtViewProofs: nodes, properties and iterators of
      [structure/view.rs], which represent the tree of the block.
    - FdtAddressing, FdtRegRange, FdtMemory, FdtReserved, FdtSemantic: the
      rules of [structure/semantic.rs] and its submodules, each shown equal to
      a rule on trees, and the two range iterators.
    - FdtReservation: [reservation.rs].  Fdt: [fdt.rs] and [error.rs].
    - FdtProperties: [from_ptr] accepts exactly the descriptions of a
      well-formed tree and never panics; the views and iterators show exactly
      that tree; an encoded tree parses back.

    - FdtTests: the unit tests of the crate and the builder they share, all
      evaluated on the model; the builder writes what the encoder does.

    Fuel.  A token takes at least four bytes, a reservation entry sixteen and a
    [reg] entry at least one, so one more than the number of bytes of the block
    read bounds every loop of the parser.  FdtFuel bounds the numbers of ranges
    the same way.

    ** The kernel's memory

    - KMemory: addresses, ranges and frames.  KBootAlloc, KBootFrames,
      KBootProofs: the boot allocator of [memory/frame/boot_allocator.rs],
      against the list of free frames of the blob.  The fuel of [allocate] is
      the product of the numbers of ranges and reservations, since each round
      passes one of them.
    - KMachine: the hart the paging code runs on: memory, [satp], the page
      walk and the translations cached since the last fence.  An access through
      a translation the tables no longer give is [Panic].
    - KPaging, KPte, KTables, KMapProofs, KRangeProofs: entries and mapping
      functions of [arch/riscv64/paging.rs], generic in the frame window
      ([FrameAccess]) and in the allocator ([FrameAllocator]), against the
      abstract address space, a finite map from pages to leaves.
    - KKernelPaging: both capabilities, [map_fdt], [into_kernel], the kernel's
      mapping operations and the heap's backing.  KFrameWindow, KWindow,
      KBootWindow: the two windows meet [FrameAccessLaws].  KBootFdt,
      KTransition, KEntry, KPlan: from the bootstrap tables to the kernel's.
      KKernelProofs, KBackingProofs: the kernel's mapping operations over the
      real tables, what keeps the hart synchronised with them, heap pages, and
      stores to heap blocks.
    - KHeap, KHeapProofs: [memory/heap.rs] against the contract of its backing
      ([HeapBackingLaws]).  KAllocator, KAllocatorProofs: the gate of
      [memory/allocator.rs].
    - KOwnership: what Rust's types promise of frames and permissions holds at
      run time, for any sequence of calls.
    - KProperties, KPagingProperties, KEntryProperties, KBootProperties: the
      allocator yields exactly the free frames; a mapping adds exactly one page
      or none; the kernel's address space is exactly the planned one; heap
      blocks are disjoint and private.

    ** Traps, processes, startup and output

    - KAsm: the instructions of the assembly, and the bits of [sstatus].  KBoot,
      KBootStages: [boot.rs].  KProbe: the counter probe of [time.rs], with the
      trap it may take.
    - KTimer, KTimerProofs: [interrupt.rs], [time.rs], [timer.rs] and
      [firmware/sbi.rs].  Firmware and counter are the class [Environment].
    - KTrap, KTrapProofs, KTrapSteps: [trap.rs], from the entry assembly
      through the handler to the restore path, and [enter_user].
    - KSyscall: [process/syscall.rs], the ends of execution in [process.rs]
      and [user/abi].  KProcess, KImageProofs,
      KLoadProofs, KProcessProofs: [process.rs] and [process/image.rs].
    - KStartup, KMain, KMainProofs, KWaitProofs, KRunProofs: [main.rs].
    - KConsole, KLogging: [console/sbi.rs], where [prints] says what the
      firmware is sent, [logging.rs], where [record_layout] says what a line
      looks like, and the boot log of [main.rs].  KUser: [user/init/src/main.rs] over the trap handler.
    - KTrapProperties, KProcessProperties, KMainProperties, KOutputProperties:
      traps are transparent and the handler never panics; images are parsed
      and loaded exactly, and a process gets its own zeroed stacks; [main]
      enters user mode with all its invariants, or parks the hart because the
      machine lacks what the run needs, and on the board of KKernelSample it
      enters user mode; the wait for the timer and the user program end; a
      log call prints one line of the documented layout, and a run of the user
      program its two lines and the two records of its end.

    Fuel.  A piece of assembly runs through a bounded number of blocks: the
    loops of [_start] and [__high_half_start] have one round per word they
    clear.  The heap's backing loop has one round per page of the reserved
    range.  The waits for timer interrupts have as many tests as their
    theorems say are enough for the interrupts that arrive.

    FdtEncode, KSample and KKernelSample hold the concrete values the instances
    of the theorems are evaluated on.

    ** What is not modelled

    - Derived [Debug] implementations other than those of the timer's errors,
      those of [KernelHeap] and [KernelPaging], and the [Display] of entry
      permissions; the log calls other than those of trap handling and of the
      boot log; the panic and
      allocation-error handlers, which only log and halt; [fdt/src/lib.rs],
      which only declares modules; the build scripts and linker scripts.
    - Firmware, the time counter and the arrival of interrupts: parameters,
      with what the code relies on as hypotheses of the theorems that need it.
    - Interrupts other than between two tests of a waiting loop, and more than
      one hart: the kernel runs on one, and masks interrupts elsewhere.
    - Instructions the compiler generates.  Of the call of [trap_handler] the
      trap relation keeps the stack pointer, the frame and the control
      registers, as the calling convention does.
    - The memory of the assembly ([hart] of KAsm) and the translated memory of
      the paging code ([machine] of KMachine) are models of their own.  They
      meet at the values one passes to the other: the root and the devicetree
      address at [main], the context and the stack at [enter_user]. *)

From Stdlib Require Import ZArith Lia Bool.
From Stdlib Require Import Strings.Byte Strings.String.
From stdpp Require Import base list numbers gmap.
Set Default Proof Using "Type".

Local Open Scope Z_scope.

(** ** Bytes *)

Abbreviation byte := Byte.byte.

Definition u8 (b : byte) : Z := Z.of_N (Byte.to_N b).

(** The byte of an integer, wrapping modulo 256 as [as u8] does. *)
Definition byte_of (z : Z) : byte :=
  match Byte.of_N (Z.to_N (z mod 256)) with
  | Some b => b
  | None => x00
  end.

(** A byte-string literal. *)
Definition bs (s : string) : list byte := String.list_byte_of_string s.
#[global] Arguments bs : simpl never.

#[export] Instance byte_eq_decision : EqDecision byte := Byte.byte_eq_dec.

Lemma u8_range b : 0 <= u8 b < 256.
Proof.
  unfold u8. pose proof (Byte.to_N_bounded b). lia.
Qed.

Lemma u8_inj b c : u8 b = u8 c -> b = c.
Proof.
  unfold u8. intros H. apply N2Z.inj in H.
  pose proof (Byte.of_to_N b) as Hb. pose proof (Byte.of_to_N c) as Hc.
  rewrite H in Hb. congruence.
Qed.

Lemma u8_byte_of z : u8 (byte_of z) = z mod 256.
Proof.
  unfold byte_of, u8.
  pose proof (Z.mod_pos_bound z 256 ltac:(lia)) as Hr.
  destruct (Byte.of_N (Z.to_N (z mod 256))) as [b|] eqn:E.
  - apply Byte.to_of_N in E. rewrite E. lia.
  - apply Byte.of_N_None_iff in E. lia.
Qed.

Lemma byte_of_u8 b : byte_of (u8 b) = b.
Proof.
  apply u8_inj. rewrite u8_byte_of.
  apply Z.mod_small, u8_range.
Qed.

(** ** Lists measured by machine integers *)

Section zlist.
Context {A : Type}.
Implicit Types (l k : list A).

Definition zlen l : Z := Z.of_nat (length l).

(** [l.get(i)] *)
Definition zget l (i : Z) : option A :=
  if (0 <=? i) && (i <? zlen l) then l !! Z.to_nat i else None.

(** [l.get(start..end)]: the bounds are compared before anything is cut. *)
Definition zslice l (s e : Z) : option (list A) :=
  if (0 <=? s) && (s <=? e) && (e <=? zlen l)
  then Some (take (Z.to_nat (e - s)) (drop (Z.to_nat s) l))
  else None.

(** [l.get(start..)] *)
Definition zfrom l (s : Z) : option (list A) := zslice l s (zlen l).

Definition ztake (n : Z) l : list A := take (Z.to_nat n) l.
Definition zdrop (n : Z) l : list A := drop (Z.to_nat n) l.

Lemma zlen_nonneg l : 0 <= zlen l.
Proof. unfold zlen. lia. Qed.

Lemma zlen_nil : zlen [] = 0.
Proof. done. Qed.

Lemma zlen_cons a l : zlen (a :: l) = 1 + zlen l.
Proof. unfold zlen. cbn [length]. lia. Qed.

Lemma zlen_app l k : zlen (l ++ k) = zlen l + zlen k.
Proof. unfold zlen. rewrite length_app. lia. Qed.

Lemma zlen_zdrop n l : 0 <= n <= zlen l -> zlen (zdrop n l) = zlen l - n.
Proof. unfold zlen, zdrop. rewrite length_drop. lia. Qed.

Lemma zlen_ztake n l : 0 <= n <= zlen l -> zlen (ztake n l) = n.
Proof. unfold zlen, ztake. rewrite length_take. lia. Qed.

Lemma zdrop_0 l : zdrop 0 l = l.
Proof. done. Qed.

Lemma zdrop_all l : zdrop (zlen l) l = [].
Proof. unfold zdrop, zlen. rewrite Nat2Z.id. apply drop_all. Qed.

Lemma zdrop_zdrop n m l :
  0 <= n -> 0 <= m -> zdrop n (zdrop m l) = zdrop (m + n) l.
Proof.
  intros. unfold zdrop. rewrite drop_drop. f_equal. lia.
Qed.

Lemma ztake_zdrop n l : ztake n l ++ zdrop n l = l.
Proof. apply take_drop. Qed.

Lemma zslice_ok l s e :
  0 <= s -> s <= e -> e <= zlen l ->
  zslice l s e = Some (ztake (e - s) (zdrop s l)).
Proof.
  intros. unfold zslice, ztake, zdrop.
  replace (_ && _ && _) with true by (symmetry; rewrite !andb_true_iff; lia).
  done.
Qed.

Lemma zslice_none l s e :
  (s < 0 \/ e < s \/ zlen l < e) -> zslice l s e = None.
Proof.
  intros. unfold zslice.
  destruct (_ && _ && _) eqn:E; [|done].
  rewrite !andb_true_iff in E. lia.
Qed.

Lemma ztake_all l n : zlen l <= n -> ztake n l = l.
Proof. intros. unfold ztake. apply take_ge. unfold zlen in *. lia. Qed.

Lemma zfrom_ok l s : 0 <= s <= zlen l -> zfrom l s = Some (zdrop s l).
Proof.
  intros. unfold zfrom. rewrite zslice_ok by lia.
  f_equal. apply ztake_all. rewrite zlen_zdrop by lia. lia.
Qed.

Lemma zfrom_none l s : (s < 0 \/ zlen l < s) -> zfrom l s = None.
Proof. intros. apply zslice_none. lia. Qed.

Lemma ztake_app_l n l k : n <= zlen l -> ztake n (l ++ k) = ztake n l.
Proof. intros. unfold ztake. apply take_app_le. unfold zlen in *. lia. Qed.

Lemma ztake_app_exact l k : ztake (zlen l) (l ++ k) = l.
Proof. unfold ztake, zlen. rewrite Nat2Z.id. apply take_app_length. Qed.

Lemma zdrop_app_exact l k : zdrop (zlen l) (l ++ k) = k.
Proof. unfold zdrop, zlen. rewrite Nat2Z.id. apply drop_app_length. Qed.

Lemma zdrop_app_l n l k : 0 <= n <= zlen l -> zdrop n (l ++ k) = zdrop n l ++ k.
Proof. intros. unfold zdrop. apply drop_app_le. unfold zlen in *. lia. Qed.
End zlist.

(** [iter().enumerate().find(|(_, b)| p b)], counting from [i]. *)
Fixpoint find_enum {A} (p : A -> bool) (i : Z) (l : list A) : option (Z * A) :=
  match l with
  | [] => None
  | a :: l' => if p a then Some (i, a) else find_enum p (i + 1) l'
  end.

(** [iter().position(p)]. *)
Definition position_where {A} (p : A -> bool) (l : list A) : option Z :=
  fst <$> find_enum p 0 l.

Lemma find_enum_None {A} (p : A -> bool) i l :
  find_enum p i l = None <-> forallb (fun a => negb (p a)) l = true.
Proof.
  revert i. induction l as [|a l IH]; intros i; cbn; [done|].
  destruct (p a); cbn; [done|]. apply IH.
Qed.

Lemma find_enum_Some {A} (p : A -> bool) i l j a :
  find_enum p i l = Some (j, a) <->
  exists k l', l = k ++ a :: l' /\ j = i + zlen k /\ p a = true /\
               forallb (fun b => negb (p b)) k = true.
Proof.
  revert i. induction l as [|b l IH]; intros i; cbn.
  - split; [done|]. intros ([|? ?] & l' & H & _); discriminate.
  - destruct (p b) eqn:Hb.
    + split.
      * intros [= <- <-]. exists [], l. rewrite zlen_nil. repeat split; auto; lia.
      * intros (k & l' & H & Hj & Hp & Hk). destruct k as [|c k]; cbn in *.
        -- injection H as <- <-. rewrite zlen_nil in Hj. f_equal. f_equal; lia.
        -- injection H as <- H. by rewrite Hb in Hk.
    + rewrite IH. split.
      * intros (k & l' & -> & -> & Hp & Hk). exists (b :: k), l'.
        rewrite zlen_cons. cbn. rewrite Hb. repeat split; auto; lia.
      * intros (k & l' & H & Hj & Hp & Hk). destruct k as [|c k]; cbn in *.
        -- injection H as <- <-. congruence.
        -- injection H as <- ->. rewrite zlen_cons in Hj. exists k, l'.
           apply andb_true_iff in Hk as [_ Hk]. repeat split; auto; lia.
Qed.

(** What precedes the first separator, and what
    follows it when there is one. *)
Fixpoint break_on {A} (p : A -> bool) (l : list A) : list A * option (list A) :=
  match l with
  | [] => ([], None)
  | a :: l' => if p a then ([], Some l')
               else let '(k, o) := break_on p l' in (a :: k, o)
  end.

(** [slice::split(p)]: always at least one piece. *)
Fixpoint split_on {A} (p : A -> bool) (l : list A) : list (list A) :=
  match l with
  | [] => [[]]
  | a :: l' =>
      if p a then [] :: split_on p l'
      else match split_on p l' with
           | h :: t => (a :: h) :: t
           | [] => [[a]]
           end
  end.

(** [slice::splitn(n, p)]: at most [n] pieces. *)
Fixpoint splitn_on {A} (n : nat) (p : A -> bool) (l : list A) : list (list A) :=
  match n with
  | O => []
  | S O => [l]
  | S n' => match break_on p l with
            | (k, None) => [k]
            | (k, Some l') => k :: splitn_on n' p l'
            end
  end.

Lemma split_on_head {A} (p : A -> bool) l :
  exists t, split_on p l = fst (break_on p l) :: t.
Proof.
  induction l as [|a l (t & IH)]; cbn; [eauto|].
  destruct (p a); cbn; [eauto|]. rewrite IH.
  destruct (break_on p l). cbn. eauto.
Qed.

Lemma break_on_spec {A} (p : A -> bool) l :
  let '(k, o) := break_on p l in
  forallb (fun a => negb (p a)) k = true /\
  match o with
  | None => l = k
  | Some l' => exists a, l = k ++ a :: l' /\ p a = true
  end.
Proof.
  induction l as [|a l IH]; cbn; [done|].
  destruct (p a) eqn:E; cbn; [eauto|].
  destruct (break_on p l) as [k [l'|]]; cbn; rewrite E; cbn.
  - destruct IH as [-> (c & -> & Hc)]. eauto.
  - destruct IH as [-> ->]. done.
Qed.

(** ** ASCII classes of bytes *)

Definition byte_between (lo hi : Z) (b : byte) : bool := (lo <=? u8 b) && (u8 b <=? hi).
Definition is_ascii_digit (b : byte) : bool := byte_between 48 57 b.
Definition is_ascii_alphabetic (b : byte) : bool := byte_between 65 90 b || byte_between 97 122 b.
Definition is_ascii_alphanumeric (b : byte) : bool := is_ascii_alphabetic b || is_ascii_digit b.

(** [matches!(byte, b'..' | ..)]. *)
Definition one_of (s : string) (b : byte) : bool := existsb (Byte.eqb b) (bs s).

(** ** Machine integers

    The target is RV64: [usize] and [u64] are 64 bits wide. *)

Definition u32_max : Z := 2 ^ 32 - 1.
Definition u64_max : Z := 2 ^ 64 - 1.
Definition usize_max : Z := 2 ^ 64 - 1.
Definition isize_max : Z := 2 ^ 63 - 1.

Definition is_u32 (z : Z) : Prop := 0 <= z <= u32_max.
Definition is_u64 (z : Z) : Prop := 0 <= z <= u64_max.
Definition is_usize (z : Z) : Prop := 0 <= z <= usize_max.

(** [checked_add], [checked_mul] and [checked_sub] at a given maximum. *)
Definition checked_add (max a b : Z) : option Z :=
  if a + b <=? max then Some (a + b) else None.

Definition checked_mul (max a b : Z) : option Z :=
  if a * b <=? max then Some (a * b) else None.

Definition checked_sub (a b : Z) : option Z :=
  if b <=? a then Some (a - b) else None.

Lemma checked_add_Some max a b c :
  checked_add max a b = Some c <-> a + b <= max /\ c = a + b.
Proof.
  unfold checked_add. destruct (a + b <=? max) eqn:E; split; intros H.
  - injection H as <-. lia.
  - destruct H as [_ ->]. done.
  - done.
  - lia.
Qed.

Lemma checked_add_None max a b : checked_add max a b = None <-> max < a + b.
Proof. unfold checked_add. destruct (a + b <=? max) eqn:E; split; intros; try done; lia. Qed.

Lemma checked_mul_Some max a b c :
  checked_mul max a b = Some c <-> a * b <= max /\ c = a * b.
Proof.
  unfold checked_mul. destruct (a * b <=? max) eqn:E; split; intros H.
  - injection H as <-. lia.
  - destruct H as [_ ->]. done.
  - done.
  - lia.
Qed.

Lemma checked_sub_Some a b c : checked_sub a b = Some c <-> b <= a /\ c = a - b.
Proof.
  unfold checked_sub. destruct (b <=? a) eqn:E; split; intros H.
  - injection H as <-. lia.
  - destruct H as [_ ->]. done.
  - done.
  - lia.
Qed.

(** Big-endian decoding, [uN::from_be_bytes]. *)
Definition be_val (l : list byte) : Z := fold_left (fun acc b => acc * 256 + u8 b) l 0.

(** Big-endian encoding in [n] bytes, [uN::to_be_bytes]. *)
Fixpoint be_bytes (n : nat) (z : Z) : list byte :=
  match n with
  | O => []
  | S m => be_bytes m (z / 256) ++ [byte_of z]
  end.

Lemma be_val_app l k : be_val (l ++ k) = be_val l * 256 ^ zlen k + be_val k.
Proof.
  unfold be_val. rewrite fold_left_app.
  generalize (fold_left (fun acc b => acc * 256 + u8 b) l 0) as a.
  intros a. change (be_val k) with (be_val k).
  induction k as [|b k IH] using rev_ind.
  - change (zlen (@nil byte)) with 0. cbn [fold_left]. lia.
  - rewrite !fold_left_app, zlen_app. cbn [fold_left].
    rewrite IH. change (zlen [b]) with 1.
    rewrite Z.pow_add_r by (pose proof (zlen_nonneg k); lia). ring.
Qed.

Lemma be_val_range l : 0 <= be_val l < 256 ^ zlen l.
Proof.
  induction l as [|b l IH] using rev_ind.
  - change (zlen (@nil byte)) with 0. cbn. lia.
  - rewrite be_val_app, zlen_app. change (zlen [b]) with 1.
    change (be_val [b]) with (u8 b).
    rewrite Z.pow_add_r, Z.pow_1_r by (pose proof (zlen_nonneg l); lia).
    pose proof (u8_range b). lia.
Qed.

Lemma length_be_bytes n z : length (be_bytes n z) = n.
Proof. revert z. induction n; intros; cbn; [done|]. rewrite length_app, IHn. cbn. lia. Qed.

Lemma be_val_be_bytes n z : be_val (be_bytes n z) = z mod 256 ^ Z.of_nat n.
Proof.
  revert z. induction n as [|n IH]; intros z.
  - cbn. by rewrite Z.mod_1_r.
  - cbn [be_bytes]. rewrite be_val_app, IH.
    change (zlen [byte_of z]) with 1.
    change (be_val [byte_of z]) with (0 * 256 + u8 (byte_of z)).
    rewrite u8_byte_of, Nat2Z.inj_succ, Z.pow_succ_r, Z.pow_1_r by lia.
    rewrite Z.rem_mul_r by lia. lia.
Qed.

Lemma be_bytes_be_val l : be_bytes (length l) (be_val l) = l.
Proof.
  induction l as [|b l IH] using rev_ind; [done|].
  rewrite length_app, be_val_app. change (zlen [b]) with 1.
  change (be_val [b]) with (u8 b).
  replace (length l + length [b])%nat with (S (length l)) by (cbn; lia).
  cbn [be_bytes]. pose proof (u8_range b).
  replace ((be_val l * 256 ^ 1 + u8 b) / 256) with (be_val l)
    by (rewrite Z.pow_1_r, Z.div_add_l, Z.div_small by lia; lia).
  rewrite IH. f_equal. f_equal. apply u8_inj.
  rewrite u8_byte_of, Z.pow_1_r.
  rewrite (Z.add_comm (be_val l * 256)), Z_mod_plus_full, Z.mod_small; lia.
Qed.

(** Little-endian decoding, [u64::from_le_bytes]. *)
Definition le_val (l : list byte) : Z := be_val (rev l).

(** ** Outcomes

    A Rust computation returns a value, returns an error through [Result],
    panics (an [expect], an [unreachable!], an index out of bounds, or an
    arithmetic operation outside its width), or, in this model only, uses up
    the fuel of a loop.  The last case never happens with the fuels the
    definitions choose; theorems say so. *)

Inductive outcome (E A : Type) : Type :=
| Ok (a : A)
| Err (e : E)
| Panic
| OutOfFuel.

Arguments Ok {E A} a.
Arguments Err {E A} e.
Arguments Panic {E A}.
Arguments OutOfFuel {E A}.

#[export] Instance outcome_eq_decision {E A} `{EqDecision E} `{EqDecision A} :
  EqDecision (outcome E A).
Proof. solve_decision. Defined.

(** The error type of an operation that returns no [Result]. *)
Abbreviation never := Empty_set.

Definition obind {E A B} (m : outcome E A) (k : A -> outcome E B) : outcome E B :=
  match m with
  | Ok a => k a
  | Err e => Err e
  | Panic => Panic
  | OutOfFuel => OutOfFuel
  end.

(** [map_err], and the [From] conversion of the [?] operator. *)
Definition map_err {E F A} (f : E -> F) (m : outcome E A) : outcome F A :=
  match m with
  | Ok a => Ok a
  | Err e => Err (f e)
  | Panic => Panic
  | OutOfFuel => OutOfFuel
  end.

(** [expect]: panics on an error. *)
Definition expect {E F A} (m : outcome E A) : outcome F A :=
  match m with
  | Ok a => Ok a
  | Err _ => Panic
  | Panic => Panic
  | OutOfFuel => OutOfFuel
  end.

Definition expect_some {E A} (o : option A) : outcome E A :=
  match o with
  | Some a => Ok a
  | None => Panic
  end.

(** [ok_or]. *)
Definition ok_or {E A} (o : option A) (e : E) : outcome E A :=
  match o with
  | Some a => Ok a
  | None => Err e
  end.

Definition infallible {E A} (m : outcome never A) : outcome E A :=
  match m with
  | Ok a => Ok a
  | Err e => match e with end
  | Panic => Panic
  | OutOfFuel => OutOfFuel
  end.

(** Plain [+], [-] and [*]: outside the width they panic under overflow
    checks, so a proof that no panic happens shows the checked and the
    wrapping build agree. *)
Definition uadd {E} (max a b : Z) : outcome E Z := expect_some (checked_add max a b).
Definition umul {E} (max a b : Z) : outcome E Z := expect_some (checked_mul max a b).
Definition usub {E} (a b : Z) : outcome E Z := expect_some (checked_sub a b).

(** Neither a panic nor an exhausted loop. *)
Definition no_panic {E A} (m : outcome E A) : Prop :=
  match m with
  | Ok _ | Err _ => True
  | Panic | OutOfFuel => False
  end.

(** A stateful computation: [&mut self] methods.  The state is returned on
    every path, so that what an error leaves behind can be stated. *)
Definition M (S E A : Type) : Type := S -> outcome E A * S.

Definition ret {S E A} (a : A) : M S E A := fun s => (Ok a, s).
Definition throw {S E A} (e : E) : M S E A := fun s => (Err e, s).
Definition panic {S E A} : M S E A := fun s => (Panic, s).
Definition get {S E} : M S E S := fun s => (Ok s, s).
Definition put {S E} (s : S) : M S E unit := fun _ => (Ok tt, s).
Definition lift {S E A} (o : outcome E A) : M S E A := fun s => (o, s).

Definition bind {S E A B} (m : M S E A) (k : A -> M S E B) : M S E B :=
  fun s =>
    match m s with
    | (Ok a, s') => k a s'
    | (Err e, s') => (Err e, s')
    | (Panic, s') => (Panic, s')
    | (OutOfFuel, s') => (OutOfFuel, s')
    end.

(** [map_err] and [expect] under a state. *)
Definition mmap_err {S E F A} (f : E -> F) (m : M S E A) : M S F A :=
  fun s => let '(o, s') := m s in (map_err f o, s').

Definition mexpect {S E F A} (m : M S E A) : M S F A :=
  fun s => let '(o, s') := m s in (expect o, s').

Definition minfallible {S E A} (m : M S never A) : M S E A :=
  fun s => let '(o, s') := m s in (infallible o, s').

(** A method of a field: runs on the part of the state [g] selects. *)
Definition zoom {S T E A} (g : S -> T) (p : T -> S -> S) (m : M T E A) : M S E A :=
  fun s => let '(o, t) := m (g s) in (o, p t s).

(** ** Stepping through a computation *)

Lemma bind_ok {S E A B} (m : M S E A) (k : A -> M S E B) s a s' :
  m s = (Ok a, s') -> bind m k s = k a s'.
Proof. intros Hm. unfold bind. by rewrite Hm. Qed.

Lemma bind_err {S E A B} (m : M S E A) (k : A -> M S E B) s e s' :
  m s = (Err e, s') -> bind m k s = (Err e, s').
Proof. intros Hm. unfold bind. by rewrite Hm. Qed.

Lemma bind_assoc {S E A B C} (m : M S E A) (k : A -> M S E B) (h : B -> M S E C) s :
  bind m (fun x => bind (k x) h) s = bind (bind m k) h s.
Proof. unfold bind. by destruct (m s) as [[] s']. Qed.

Lemma infallible_ok {S E A} (m : M S never A) s a s' :
  m s = (Ok a, s') -> minfallible (E:=E) m s = (Ok a, s').
Proof. intros Hm. unfold minfallible. by rewrite Hm. Qed.

Declare Scope prog_scope.
Delimit Scope prog_scope with prog.

Notation "'let*' x := c1 'in' c2" := (bind c1 (fun x => c2))
  (at level 10, x pattern, c1 at level 100, c2 at level 200) : prog_scope.
Notation "'let?' x := c1 'in' c2" := (obind c1 (fun x => c2))
  (at level 10, x pattern, c1 at level 100, c2 at level 200) : prog_scope.
Open Scope prog_scope.

Lemma obind_Ok {E A B} (m : outcome E A) (k : A -> outcome E B) b :
  obind m k = Ok b <-> exists a, m = Ok a /\ k a = Ok b.
Proof.
  destruct m; cbn; split; intros H; try (destruct H as (? & H1 & H2); try discriminate); eauto.
  - injection H1 as <-. done.
  - done.
  - done.
  - done.
Qed.

Lemma no_panic_obind {E A B} (m : outcome E A) (k : A -> outcome E B) :
  no_panic m -> (forall a, m = Ok a -> no_panic (k a)) -> no_panic (obind m k).
Proof. destruct m; cbn; intuition eauto. Qed.

Lemma no_panic_map_err {E F A} (f : E -> F) (m : outcome E A) :
  no_panic (map_err f m) <-> no_panic m.
Proof. by destruct m. Qed.

(** [if bad { return Err(e) }]. *)
Definition err_if {E} (bad : bool) (e : E) : outcome E unit := if bad then Err e else Ok tt.

Lemma err_if_Ok {E} b (e : E) u : err_if b e = Ok u <-> b = false.
Proof. destruct b, u; cbn; split; congruence. Qed.

(** Splits an equation about a chain of [let?] into one fact per step. *)
Ltac chain H :=
  repeat match type of H with
  | obind _ _ = Ok _ => let a := fresh "a" in let H1 := fresh "Hc" in
      apply obind_Ok in H as (a & H1 & H)
  end.

(** [for x in [..] { body }] over an array. *)
Fixpoint for_list {X E} (body : X -> outcome E unit) (l : list X) : outcome E unit :=
  match l with
  | [] => Ok tt
  | x :: l' => let? _ := body x in for_list body l'
  end.

Lemma for_list_foldr {X E} (body : X -> outcome E unit) l :
  for_list body l = foldr (fun x k => let? _ := body x in k) (Ok tt) l.
Proof. induction l as [|x l IH]; cbn; [done|]. by rewrite IH. Qed.

Lemma for_list_Ok {X E} (body : X -> outcome E unit) l :
  for_list body l = Ok tt <-> Forall (fun x => body x = Ok tt) l.
Proof.
  induction l as [|x l IH]; cbn; [by split|]. rewrite obind_Ok, Forall_cons, <- IH.
  split; [intros ([] & ? & ?)|intros [? ?]]; eauto.
Qed.

Lemma no_panic_for_list {X E} (body : X -> outcome E unit) l :
  (forall x, In x l -> no_panic (body x)) -> no_panic (for_list body l).
Proof.
  induction l as [|x l IH]; cbn; intros H; [done|].
  apply no_panic_obind; [by apply H; left|]. intros. apply IH. auto.
Qed.

(** ** Loops over iterators

    [next] is the iterator's step; [fuel] bounds the number of items. *)
Section iteration.
Context {S I : Type} (next : M S never (option I)).

(** [for item in it { body }] with [?] or [return Err] in the body. *)
Fixpoint for_each {E} (fuel : nat) (body : I -> outcome E unit) (it : S) : outcome E unit :=
  match fuel with
  | O => OutOfFuel
  | Datatypes.S fuel' =>
      match next it with
      | (Ok None, _) => Ok tt
      | (Ok (Some i), it') => let? _ := body i in for_each fuel' body it'
      | (Err e, _) => match e with end
      | (Panic, _) => Panic
      | (OutOfFuel, _) => OutOfFuel
      end
  end.

(** [for item in it { acc = f(acc, item) }]. *)
Fixpoint fold_each {A} (fuel : nat) (f : A -> I -> A) (acc : A) (it : S) : outcome never A :=
  match fuel with
  | O => OutOfFuel
  | Datatypes.S fuel' =>
      match next it with
      | (Ok None, _) => Ok acc
      | (Ok (Some i), it') => fold_each fuel' f (f acc i) it'
      | (Err e, _) => match e with end
      | (Panic, _) => Panic
      | (OutOfFuel, _) => OutOfFuel
      end
  end.

(** [it.find(p)] on [&mut it]. *)
Fixpoint find_next (fuel : nat) (p : I -> bool) : M S never (option I) :=
  match fuel with
  | O => fun s => (OutOfFuel, s)
  | Datatypes.S fuel' =>
      let* o := next in
      match o with
      | None => ret None
      | Some i => if p i then ret (Some i) else find_next fuel' p
      end
  end.

(** [for item in it { if .. { return Some(r) } }]: the first [Some] the body
    gives. *)
Fixpoint first_some {E R} (fuel : nat) (body : I -> outcome E (option R)) (it : S)
    : outcome E (option R) :=
  match fuel with
  | O => OutOfFuel
  | Datatypes.S fuel' =>
      match next it with
      | (Ok None, _) => Ok None
      | (Ok (Some i), it') =>
          let? o := body i in
          match o with Some r => Ok (Some r) | None => first_some fuel' body it' end
      | (Err e, _) => match e with end
      | (Panic, _) => Panic
      | (OutOfFuel, _) => OutOfFuel
      end
  end.

(** [it.skip(n)]: [None] when the iterator ends early. *)
Fixpoint skip_items (n : nat) (it : S) : outcome never (option S) :=
  match n with
  | O => Ok (Some it)
  | Datatypes.S n' =>
      match next it with
      | (Ok None, _) => Ok None
      | (Ok (Some _), it') => skip_items n' it'
      | (Err e, _) => match e with end
      | (Panic, _) => Panic
      | (OutOfFuel, _) => OutOfFuel
      end
  end.

(** The items an iterator yields. *)
Fixpoint collect (fuel : nat) (it : S) : outcome never (list I) :=
  match fuel with
  | O => OutOfFuel
  | Datatypes.S fuel' =>
      match next it with
      | (Ok None, _) => Ok []
      | (Ok (Some i), it') => let? l := collect fuel' it' in Ok (i :: l)
      | (Err e, _) => match e with end
      | (Panic, _) => Panic
      | (OutOfFuel, _) => OutOfFuel
      end
  end.

(** [None] from the next [n] calls, and from every call. *)
Fixpoint nones (n : nat) (it : S) : Prop :=
  match n with
  | O => True
  | Datatypes.S n' => exists it', next it = (Ok None, it') /\ nones n' it'
  end.

Definition exhausted (it : S) : Prop := forall n, nones n it.

Lemma exhausted_next it : exhausted it -> exists it', next it = (Ok None, it') /\ exhausted it'.
Proof.
  intros Hx. destruct (Hx 1%nat) as (it' & Hn & _). exists it'. split; [done|]. intros n.
  destruct (Hx (Datatypes.S n)) as (it2 & Hn2 & H). rewrite Hn in Hn2. by injection Hn2 as <-.
Qed.

Lemma exhausted_step it it' : next it = (Ok None, it') -> exhausted it' -> exhausted it.
Proof. intros Hn Hx [|n]; [done|]. by exists it'. Qed.

Lemma exhausted_stay it : next it = (Ok None, it) -> exhausted it.
Proof. intros Hn n. induction n as [|n IH]; [done|]. by exists it. Qed.

(** What every call keeps and every call answers with [None]. *)
Lemma exhausted_invariant (P : S -> Prop) it :
  (forall s, P s -> exists s', next s = (Ok None, s') /\ P s') -> P it -> exhausted it.
Proof.
  intros Hstep HP n. revert it HP. induction n as [|n IH]; intros it HP; [done|].
  destruct (Hstep it HP) as (it' & Hn & HP'). exists it'. auto.
Qed.

(** The iterator [it] yields exactly the items of [l], in order, each related
    by [R], and then [None] from every further call. *)
Inductive yields {T} (R : I -> T -> Prop) : S -> list T -> Prop :=
| yields_nil it : exhausted it -> yields R it []
| yields_cons it i it' t l :
    next it = (Ok (Some i), it') -> R i t -> yields R it' l -> yields R it (t :: l).

Lemma for_each_yields {T E} (R : I -> T -> Prop) (body : I -> outcome E unit)
    (spec : T -> outcome E unit) it l fuel :
  yields R it l -> (length l < fuel)%nat ->
  (forall i t, R i t -> In t l -> body i = spec t) ->
  for_each fuel body it = foldr (fun t k => let? _ := spec t in k) (Ok tt) l.
Proof.
  intros Hy. revert fuel. induction Hy as [it Hx | it i it' t l Hn HR Hy IH];
    intros fuel Hf Hb; (destruct fuel as [|fuel]; [cbn in Hf; lia|]); cbn [for_each foldr].
  - by destruct (exhausted_next _ Hx) as (it' & -> & _).
  - rewrite Hn, (Hb i t HR (or_introl eq_refl)). destruct (spec t); cbn; try done.
    apply IH; [cbn in Hf; lia|]. intros. apply Hb; [done|by right].
Qed.

Lemma fold_each_yields {T A} (R : I -> T -> Prop) (f : A -> I -> A) (g : A -> T -> A) it l :
  yields R it l -> (forall acc i t, R i t -> f acc i = g acc t) ->
  forall fuel acc, (length l < fuel)%nat -> fold_each fuel f acc it = Ok (fold_left g l acc).
Proof.
  intros Hy Hf. induction Hy as [it Hx | it i it' t l Hn HR Hy IH];
    intros fuel acc Hl; (destruct fuel as [|fuel]; [cbn in Hl; lia|]); cbn [fold_each fold_left].
  { by destruct (exhausted_next _ Hx) as (it' & -> & _). }
  rewrite Hn, (Hf _ _ _ HR). apply IH. cbn in Hl. lia.
Qed.

(** The first hit in a list. *)
Fixpoint first_in {T R} (g : T -> option R) (l : list T) : option R :=
  match l with
  | [] => None
  | t :: l' => match g t with Some r => Some r | None => first_in g l' end
  end.

Lemma first_some_yields {T E R} (Rel : I -> T -> Prop) (body : I -> outcome E (option R))
    (g : T -> option R) it l :
  yields Rel it l -> forall fuel, (length l < fuel)%nat ->
  (forall i t, Rel i t -> In t l -> body i = Ok (g t)) ->
  first_some fuel body it = Ok (first_in g l).
Proof.
  intros Hy. induction Hy as [it Hx | it i it' t l Hn HR Hy IH];
    intros fuel Hf Hb; (destruct fuel as [|fuel]; [cbn in Hf; lia|]); cbn [first_some first_in].
  { by destruct (exhausted_next _ Hx) as (it' & -> & _). }
  rewrite Hn, (Hb i t HR (or_introl eq_refl)). cbn [obind]. destruct (g t); [done|].
  apply IH; [cbn in Hf; lia|]. intros. apply Hb; [done|by right].
Qed.

Lemma skip_items_yields {T} (R : I -> T -> Prop) it l n :
  yields R it l -> (n <= length l)%nat ->
  exists it', skip_items n it = Ok (Some it') /\ yields R it' (drop n l).
Proof.
  intros Hy. revert n. induction Hy as [it Hx | it i it' t l Hn HR Hy IH];
    intros [|n] Hl; cbn [skip_items drop length] in *.
  - exists it. split; [done|]. by apply yields_nil.
  - lia.
  - exists it. split; [done|]. by eapply yields_cons.
  - rewrite Hn. apply IH. lia.
Qed.

Lemma collect_yields {T} (R : I -> T -> Prop) it l fuel :
  yields R it l -> (length l < fuel)%nat ->
  exists js, collect fuel it = Ok js /\ Forall2 R js l.
Proof.
  intros Hy. revert fuel. induction Hy as [it Hx | it i it' t l Hn HR Hy IH];
    intros fuel Hf; (destruct fuel as [|fuel]; [cbn in Hf; lia|]); cbn [collect].
  - destruct (exhausted_next _ Hx) as (it' & -> & _). eauto.
  - rewrite Hn. destruct (IH fuel) as (js & -> & HF); [cbn in Hf; lia|].
    cbn. eauto.
Qed.

(** The contract of an iterator: in a state related by [at_] to a list it
    yields exactly the items of the list, and nothing after them. *)
Class Iterates {T} (R : I -> T -> Prop) (at_ : S -> list T -> Prop) : Prop := {
  iter_nil it : at_ it [] -> exhausted it;
  iter_cons it t l : at_ it (t :: l) ->
    exists i it', next it = (Ok (Some i), it') /\ R i t /\ at_ it' l;
}.

#[export] Instance yields_iterates {T} (R : I -> T -> Prop) : Iterates R (yields R).
Proof. split; inversion 1; subst; eauto. Qed.

Lemma iterates_yields {T} (R : I -> T -> Prop) at_ `{!Iterates R at_} it l :
  at_ it l -> yields R it l.
Proof.
  revert it. induction l as [|t l IH]; intros it H.
  - by apply yields_nil, iter_nil.
  - apply iter_cons in H as (i & it' & H & HR & H'). eapply yields_cons; eauto.
Qed.

Lemma find_next_exhausted (p : I -> bool) it fuel :
  exhausted it -> (0 < fuel)%nat -> exists it', find_next fuel p it = (Ok None, it') /\ exhausted it'.
Proof.
  intros (it' & Hn & Hx)%exhausted_next Hf. destruct fuel as [|fuel]; [lia|]. exists it'.
  cbn [find_next]. unfold bind. by rewrite Hn.
Qed.

Lemma find_next_iterates {T} (R : I -> T -> Prop) at_ `{!Iterates R at_}
    (p : I -> bool) (q : T -> bool) l : forall it fuel,
  at_ it l -> (length l < fuel)%nat ->
  (forall i t, R i t -> In t l -> p i = q t) ->
  match List.find q l with
  | None => exists it', find_next fuel p it = (Ok None, it') /\ exhausted it'
  | Some t => exists i it' k l', find_next fuel p it = (Ok (Some i), it') /\ R i t /\
                at_ it' l' /\ l = k ++ t :: l' /\ Forall (fun u => q u = false) k
  end.
Proof.
  induction l as [|t l IH]; intros it fuel Hat Hf Hp;
    (destruct fuel as [|fuel]; [cbn in Hf; lia|]); cbn [find_next List.find]; unfold bind.
  - apply iter_nil, exhausted_next in Hat as (it' & -> & Hx). by exists it'.
  - apply iter_cons in Hat as (i & it' & -> & HR & Hat).
    rewrite (Hp i t HR (or_introl eq_refl)). destruct (q t) eqn:Hq.
    + by exists i, it', [], l.
    + specialize (IH it' fuel Hat ltac:(cbn in Hf; lia)
                     ltac:(intros; apply Hp; [done|by right])).
      destruct (List.find q l); [|done].
      destruct IH as (j & it2 & k & l' & ? & ? & ? & -> & ?).
      exists j, it2, (t :: k), l'. repeat split; auto.
Qed.

End iteration.

Lemma yields_impl {S I T} (next : M S never (option I)) (R R' : I -> T -> Prop) it l :
  (forall i t, R i t -> R' i t) -> yields next R it l -> yields next R' it l.
Proof. intros HR. induction 1; econstructor; eauto. Qed.

(** ** Cutting slices *)

(** [split_at]. *)
Definition split_at {E A} (l : list A) (mid : Z) : outcome E (list A * list A) :=
  if (0 <=? mid) && (mid <=? zlen l) then Ok (ztake mid l, zdrop mid l) else Panic.

Fixpoint take_chunks {A} (k : nat) (n : Z) (l : list A) : list (list A) :=
  match k with
  | O => []
  | S k' => ztake n l :: take_chunks k' n (zdrop n l)
  end.

(** The complete chunks of [n] elements. *)
Definition chunks {A} (n : Z) (l : list A) : list (list A) :=
  take_chunks (Z.to_nat (zlen l / n)) n l.

(** [chunks_exact]: panics on a zero width. *)
Definition chunks_exact {E A} (n : Z) (l : list A) : outcome E (list (list A)) :=
  if n =? 0 then Panic else Ok (chunks n l).

(** [as_chunks::<N>] for a nonzero constant. *)
Definition as_chunks {A} (n : Z) (l : list A) : list (list A) * list A :=
  (chunks n l, zdrop (zlen l / n * n) l).

Lemma split_at_Ok {E A} (l : list A) mid :
  0 <= mid <= zlen l -> split_at (E:=E) l mid = Ok (ztake mid l, zdrop mid l).
Proof. intros. unfold split_at. by replace (_ && _) with true by lia. Qed.

Lemma chunks_short {A} n (l : list A) : 0 <= zlen l < n -> chunks n l = [].
Proof. intros. unfold chunks. by rewrite Z.div_small by lia. Qed.

Lemma chunks_step {A} n (l : list A) :
  0 < n <= zlen l -> chunks n l = ztake n l :: chunks n (zdrop n l).
Proof.
  intros. unfold chunks. rewrite zlen_zdrop by lia.
  replace (zlen l) with ((zlen l - n) + 1 * n) at 1 by lia. rewrite Z.div_add by lia.
  replace (Z.to_nat ((zlen l - n) / n + 1)) with (S (Z.to_nat ((zlen l - n) / n))); [done|].
  pose proof (Z.div_pos (zlen l - n) n ltac:(lia) ltac:(lia)). lia.
Qed.

Lemma zlen_0 {A} (l : list A) : zlen l = 0 -> l = [].
Proof. destruct l; [done|]. rewrite zlen_cons. pose proof (zlen_nonneg l). lia. Qed.

(** Chunks of a list whose length is a multiple of the width. *)
Lemma chunks_ind {A} (P : list A -> Prop) n :
  0 < n -> P [] ->
  (forall l, n <= zlen l -> zlen l mod n = 0 -> P (zdrop n l) -> P l) ->
  forall l, zlen l mod n = 0 -> P l.
Proof.
  intros Hn H0 Hs l. remember (length l) as m eqn:Hm. revert l Hm.
  induction m as [m IH] using lt_wf_ind. intros l -> Hmod.
  destruct (Z.eq_dec (zlen l) 0) as [He|He]; [by apply zlen_0 in He as ->|].
  pose proof (zlen_nonneg l). assert (n <= zlen l).
  { destruct (Z_lt_le_dec (zlen l) n) as [Hlt|]; [|done]. rewrite Z.mod_small in Hmod by lia. lia. }
  apply Hs; [done|done|]. eapply IH; [|done|].
  - assert (zlen (zdrop n l) < zlen l) by (rewrite zlen_zdrop; lia). unfold zlen in *. lia.
  - rewrite zlen_zdrop by lia. rewrite <- Hmod, <- (Z_mod_plus_full (zlen l - n) 1 n). f_equal. lia.
Qed.

Ltac chunk_induction n :=
  match goal with |- forall l, zlen l mod _ = 0 -> @?P l => apply (chunks_ind P n); cbv beta end.

(** ** Tactics *)

(** Splits boolean tests in the goal and the hypotheses that decide [Z]
    comparisons. *)
Ltac zbool :=
  repeat match goal with
  | H : (_ <? _) = true |- _ => apply Z.ltb_lt in H
  | H : (_ <? _) = false |- _ => apply Z.ltb_ge in H
  | H : (_ <=? _) = true |- _ => apply Z.leb_le in H
  | H : (_ <=? _) = false |- _ => apply Z.leb_gt in H
  | H : (_ =? _) = true |- _ => apply Z.eqb_eq in H
  | H : (_ =? _) = false |- _ => apply Z.eqb_neq in H
  | H : (_ && _) = true |- _ => apply andb_true_iff in H as [? ?]
  | H : (_ || _) = false |- _ => apply orb_false_iff in H as [? ?]
  | H : negb _ = true |- _ => apply negb_true_iff in H
  | H : negb _ = false |- _ => apply negb_false_iff in H
  end.

(** Case split on the next test of the goal, keeping its outcome. *)
Ltac split_if :=
  match goal with
  | |- context [if ?b then _ else _] => destruct b eqn:?
  end.

(** Unfolds the state monad. *)
Ltac unfold_m :=
  unfold mmap_err, mexpect, minfallible, zoom, lift, bind, ret, throw, panic, get, put.

Ltac invc H := inversion H; subst; clear H.

Create HintDb prog.
Create Rewrite HintDb zlen.
#[export] Hint Resolve u8_range zlen_nonneg : prog.
#[export] Hint Rewrite @zlen_nil @zlen_cons @zlen_app : zlen.

(** ** Text

    What [write!] produces, as ASCII bytes. *)

(** The digit of a value below sixteen, and its value. *)
Definition hex_digit (d : Z) : byte := byte_of (if d <? 10 then 48 + d else 87 + d).
Definition hex_value (d : byte) : Z := if u8 d <? 58 then u8 d - 48 else u8 d - 87.

(** The digits of an unsigned integer in a radix, before those of [acc]. *)
Fixpoint digits (radix : Z) (fuel : nat) (n : Z) (acc : list byte) : list byte :=
  match fuel with
  | O => acc
  | S fuel' =>
      let acc := hex_digit (n mod radix) :: acc in
      if n / radix =? 0 then acc else digits radix fuel' (n / radix) acc
  end.

(** [{}] of a 64-bit integer, which has at most twenty digits. *)
Definition decimal (n : Z) : list byte := digits 10 20 n [].

(** [{}] of a signed integer. *)
Definition signed_decimal (n : Z) : list byte := if n <? 0 then bs "-" ++ decimal (- n) else decimal n.

(** [{:#x}] of a 64-bit integer, which has at most sixteen digits. *)
Definition lower_hex (n : Z) : list byte := bs "0x" ++ digits 16 16 n [].

(** [{:#018x}]: zeros between the prefix and the digits, to eighteen bytes. *)
Definition padded_hex (n : Z) : list byte :=
  let ds := digits 16 16 n [] in bs "0x" ++ replicate (16 - length ds) x30 ++ ds.

(** [debug_struct(name).field(..)..finish()]. *)
Fixpoint debug_fields (fields : list (string * list byte)) : list byte :=
  match fields with
  | [] => []
  | [(f, v)] => bs f ++ bs ": " ++ v
  | (f, v) :: fields => bs f ++ bs ": " ++ v ++ bs ", " ++ debug_fields fields
  end.

Definition debug_struct (name : string) (fields : list (string * list byte)) : list byte :=
  bs name ++ bs " { " ++ debug_fields fields ++ bs " }".

(** ** Numerals

    What the digits of a number are, without saying how they are computed. *)

(** The number a sequence of digits stands for. *)
Definition numeral_value (radix : Z) (l : list byte) : Z := fold_left (fun acc d => acc * radix + hex_value d) l 0.

(** [l] writes [n]: digits of the radix, the most significant first, of that
    value, and no leading zero but that of a lone zero. *)
Record numeral (radix n : Z) (l : list byte) : Prop := {
  numeral_digits : Forall (fun d => exists v, 0 <= v < radix /\ d = hex_digit v) l;
  numeral_reads : numeral_value radix l = n;
  numeral_leading : exists d l', l = d :: l' /\ (d = x30 -> l' = []);
}.

Lemma hex_value_digit d : 0 <= d < 16 -> hex_value (hex_digit d) = d.
Proof.
  intros Hd. assert (d ∈ seqZ 0 16) as Hin by (apply elem_of_seqZ; lia). revert Hin. clear.
  apply (Forall_forall (fun d => hex_value (hex_digit d) = d)). by repeat constructor.
Qed.

Lemma numeral_value_snoc radix l d : numeral_value radix (l ++ [d]) = numeral_value radix l * radix + hex_value d.
Proof. unfold numeral_value. by rewrite fold_left_app. Qed.

Lemma digits_spec radix fuel : forall n acc, 2 <= radix <= 16 -> 0 <= n < radix ^ Z.of_nat fuel -> (0 < fuel)%nat ->
  exists l, digits radix fuel n acc = l ++ acc /\ numeral radix n l.
Proof.
  induction fuel as [|fuel IH]; intros n acc Hr Hn Hf; [lia|]. cbn [digits].
  rewrite Nat2Z.inj_succ, Z.pow_succ_r in Hn by lia.
  pose proof (Z.mod_pos_bound n radix ltac:(lia)) as Hm. pose proof (Z.div_mod n radix ltac:(lia)) as Hdm.
  pose proof (Z.div_pos n radix ltac:(lia) ltac:(lia)) as Hd0.
  pose proof (hex_value_digit (n mod radix) ltac:(lia)) as Hv.
  destruct (n / radix =? 0) eqn:Hz; zbool.
  - exists [hex_digit (n mod radix)]. split; [done|]. split.
    + apply list.Forall_singleton. by exists (n mod radix).
    + unfold numeral_value. cbn [fold_left]. lia.
    + by exists (hex_digit (n mod radix)), [].
  - assert (n / radix < radix ^ Z.of_nat fuel) as Hlt by (apply Z.div_lt_upper_bound; lia).
    assert (0 < fuel)%nat as Hf' by (destruct fuel; [change (radix ^ Z.of_nat 0) with 1 in Hlt; lia|lia]).
    destruct (IH (n / radix) (hex_digit (n mod radix) :: acc) Hr (conj Hd0 Hlt) Hf') as (l & -> & [H1 H2 H3]).
    exists (l ++ [hex_digit (n mod radix)]). split; [by rewrite <- app_assoc|]. split.
    + apply Forall_app. split; [done|]. apply list.Forall_singleton. by exists (n mod radix).
    + rewrite numeral_value_snoc, H2, Hv. lia.
    + destruct H3 as (d & l' & -> & Hd). exists d, (l' ++ [hex_digit (n mod radix)]). split; [done|].
      intros ->. rewrite (Hd eq_refl) in H2. change (0 * radix + 0 = n / radix) in H2. lia.
Qed.

Lemma decimal_numeral n : is_u64 n -> numeral 10 n (decimal n).
Proof.
  unfold is_u64, u64_max. intros Hn. destruct (digits_spec 10 20 n [] ltac:(lia) ltac:(lia) ltac:(lia)) as (l & He & Hl).
  unfold decimal. by rewrite He, app_nil_r.
Qed.

Lemma hex_numeral n : is_u64 n -> numeral 16 n (digits 16 16 n []).
Proof.
  unfold is_u64, u64_max. intros Hn. destruct (digits_spec 16 16 n [] ltac:(lia) ltac:(lia) ltac:(lia)) as (l & He & Hl).
  by rewrite He, app_nil_r.
Qed.

(** The text determines the number. *)
Lemma lower_hex_inj n m : is_u64 n -> is_u64 m -> lower_hex n = lower_hex m -> n = m.
Proof.
  intros Hn Hm H%app_inv_head.
  by rewrite <- (numeral_reads _ _ _ (hex_numeral n Hn)), H, (numeral_reads _ _ _ (hex_numeral m Hm)).
Qed.

(** The first occurrence of a separator splits a list. *)
Lemma app_sep_inj (c : byte) sep l1 k1 l2 k2 :
  c ∉ l1 -> c ∉ l2 -> l1 ++ (c :: sep) ++ k1 = l2 ++ (c :: sep) ++ k2 -> l1 = l2 /\ k1 = k2.
Proof.
  revert l2. induction l1 as [|a l1 IH]; intros [|b l2] H1 H2 He;
    try apply not_elem_of_cons in H1 as [Ha H1]; try apply not_elem_of_cons in H2 as [Hb H2].
  - by apply (app_inv_head (c :: sep)) in He.
  - by injection He as <- _.
  - by injection He as -> _.
  - injection He as -> He. by destruct (IH l2 H1 H2 He) as [-> ->].
Qed.

Lemma comma_not_lower_hex n : is_u64 n -> x2c ∉ lower_hex n.
Proof.
  intros Hn. unfold lower_hex. rewrite elem_of_app. intros [He|He].
  - revert He. by apply (bool_decide_eq_false (x2c ∈ bs "0x")).
  - pose proof (numeral_digits _ _ _ (hex_numeral n Hn)) as Hd. rewrite Forall_forall in Hd.
    destruct (Hd _ He) as (v & Hv & Hc). apply (f_equal hex_value) in Hc.
    rewrite hex_value_digit in Hc by done. cbn in Hc. lia.
Qed.

(** The text of two hexadecimal fields determines both. *)
Lemma debug_hex_inj name f g n m n' m' :
  is_u64 n -> is_u64 m -> is_u64 n' -> is_u64 m' ->
  debug_struct name [(f, lower_hex n); (g, lower_hex m)] = debug_struct name [(f, lower_hex n'); (g, lower_hex m')] ->
  n = n' /\ m = m'.
Proof.
  intros Hn Hm Hn' Hm'. unfold debug_struct. cbn [debug_fields]. rewrite <- !app_assoc.
  intros H%app_inv_head%app_inv_head%app_inv_head%app_inv_head.
  assert (bs ", " = [x2c; x20]) as E by done. rewrite E in H.
  apply (app_sep_inj x2c) in H as [H1 H2%app_inv_head%app_inv_head%app_inv_tail].
  - split; by apply lower_hex_inj.
  - by apply comma_not_lower_hex.
  - by apply comma_not_lower_hex.
Qed.
