(* ===== verification/FdtReader.v ===== *)
(** * The bounded sequential reader ([fdt/src/reader.rs], [fdt/src/helpers.rs])

    [Reader] is a byte slice with a cursor.  Its methods are state
    transformers over that record; a failed read must leave the cursor where
    it was.  The lemmas reduce every read to the unread suffix [rest] of the
    slice, which is how the rest of the development sees a reader. *)

From Stdlib Require Import ZArith Lia Bool.
From Stdlib Require Import Strings.Byte.
From stdpp Require Import base list numbers.
From S2P Require Import Prelude.
Local Open Scope Z_scope.

(** [value as usize], lossless on 64-bit targets. *)
Definition usize_from_u32 (value : Z) : Z := value.

Inductive ReadError :=
| Truncated (offset requested remaining : Z)
| MissingNulTerminator (offset : Z).

#[export] Instance read_error_eq_decision : EqDecision ReadError.
Proof. solve_decision. Defined.

Module Reader.

Record t := mk { bytes : list byte; offset : Z }.

Definition new (bs : list byte) : t := mk bs 0.

Definition position (r : t) : Z := offset r.

Definition remaining {E} (r : t) : outcome E Z := usub (zlen (bytes r)) (offset r).

Definition read_bytes (length : Z) : M t ReadError (list byte) :=
  let* self := get in
  let start := offset self in
  let* rem := lift (remaining self) in
  let* end_ := lift (ok_or (checked_add usize_max start length)
                           (Truncated start length rem)) in
  let* bs := lift (ok_or (zslice (bytes self) start end_)
                         (Truncated start length rem)) in
  let* _ := put (mk (bytes self) end_) in
  ret bs.

Definition read_u8 : M t ReadError Z :=
  let* bs := read_bytes 1 in
  let* b := lift (expect_some (zget bs 0)) in
  ret (u8 b).

Definition read_u32 : M t ReadError Z :=
  let* bs := read_bytes 4 in
  if zlen bs =? 4 then ret (be_val bs) else panic.

Definition read_u64 : M t ReadError Z :=
  let* bs := read_bytes 8 in
  if zlen bs =? 8 then ret (be_val bs) else panic.

Definition align_to_4 : M t ReadError (list byte) :=
  let* self := get in
  let* gap := lift (usub 4 (offset self mod 4)) in
  read_bytes (gap mod 4).

Definition read_nul_terminated : M t ReadError (list byte) :=
  let* self := get in
  let start := offset self in
  let* rem := lift (expect_some (zfrom (bytes self) start)) in
  let* length := lift (ok_or (position_where (fun b => u8 b =? 0) rem)
                             (MissingNulTerminator start)) in
  let* consumed := lift (uadd usize_max length 1) in
  let* bs := read_bytes consumed in
  lift (expect_some (zslice bs 0 length)).

Definition remaining_bytes {E} (r : t) : outcome E (list byte) :=
  expect_some (zfrom (bytes r) (offset r)).

(** ** The view of a reader as its unread suffix *)

(** The invariant the fields document; a slice has at most [isize::MAX]
    bytes. *)
Definition wf (r : t) : Prop :=
  0 <= offset r <= zlen (bytes r) /\ zlen (bytes r) <= isize_max.

Definition rest (r : t) : list byte := zdrop (offset r) (bytes r).

(** The reader [n] bytes further. *)
Definition adv (n : Z) (r : t) : t := mk (bytes r) (offset r + n).

Lemma new_wf bs : zlen bs <= isize_max -> wf (new bs).
Proof. intros. pose proof (zlen_nonneg bs). split; cbn; lia. Qed.

Lemma rest_new bs : rest (new bs) = bs.
Proof. done. Qed.

Lemma zlen_rest r : wf r -> zlen (rest r) = zlen (bytes r) - offset r.
Proof. intros [H _]. unfold rest. apply zlen_zdrop. lia. Qed.

Lemma adv_0 r : adv 0 r = r.
Proof. destruct r. unfold adv. cbn. f_equal. lia. Qed.

Lemma adv_adv n m r : adv n (adv m r) = adv (m + n) r.
Proof. unfold adv. cbn. f_equal. lia. Qed.

Lemma adv_wf n r : wf r -> 0 <= n <= zlen (rest r) -> wf (adv n r).
Proof. intros Hw Hn. rewrite zlen_rest in Hn by done. destruct Hw. split; cbn; lia. Qed.

Lemma rest_adv n r : wf r -> 0 <= n -> rest (adv n r) = zdrop n (rest r).
Proof. intros [H _] Hn. unfold rest. cbn. rewrite zdrop_zdrop by lia. done. Qed.

Lemma remaining_eq {E} r : wf r -> remaining (E:=E) r = Ok (zlen (rest r)).
Proof.
  intros Hw. rewrite zlen_rest by done. destruct Hw.
  unfold remaining, usub, checked_sub. replace (_ <=? _) with true by lia. done.
Qed.

Lemma read_bytes_eq n r :
  wf r -> 0 <= n ->
  read_bytes n r =
    if n <=? zlen (rest r) then (Ok (ztake n (rest r)), adv n r)
    else (Err (Truncated (offset r) n (zlen (rest r))), r).
Proof.
  intros Hw Hn. pose proof (zlen_rest r Hw) as Hl. pose proof Hw as [Ho Hm].
  unfold read_bytes. unfold_m. rewrite remaining_eq by done.
  destruct (n <=? zlen (rest r)) eqn:E; zbool.
  - unfold checked_add. replace (_ <=? _) with true
      by (unfold usize_max, isize_max in *; lia).
    cbn [ok_or]. rewrite zslice_ok by lia. cbn [ok_or].
    replace (offset r + n - offset r) with n by lia. done.
  - destruct (checked_add usize_max (offset r) n) as [e|] eqn:He; cbn [ok_or]; [|done].
    apply checked_add_Some in He as [_ ->].
    rewrite zslice_none by lia. done.
Qed.

Lemma read_bytes_ok n r :
  wf r -> 0 <= n <= zlen (rest r) -> read_bytes n r = (Ok (ztake n (rest r)), adv n r).
Proof. intros. rewrite read_bytes_eq by lia || done. by replace (n <=? _) with true by lia. Qed.

Lemma read_u8_eq r :
  wf r ->
  read_u8 r = match rest r with
              | b :: _ => (Ok (u8 b), adv 1 r)
              | [] => (Err (Truncated (offset r) 1 0), r)
              end.
Proof.
  intros Hw. unfold read_u8. unfold_m. rewrite read_bytes_eq by done || lia.
  destruct (rest r) as [|b l]; [done|].
  rewrite zlen_cons. pose proof (zlen_nonneg l). by replace (1 <=? _) with true by lia.
Qed.

(** A fixed-width big-endian read of [n] bytes. *)
Lemma read_be_eq n r :
  wf r -> 0 <= n ->
  (let* bs := read_bytes n in if zlen bs =? n then ret (be_val bs) else panic) r =
    if n <=? zlen (rest r) then (Ok (be_val (ztake n (rest r))), adv n r)
    else (Err (Truncated (offset r) n (zlen (rest r))), r).
Proof.
  intros Hw Hn. unfold_m. rewrite read_bytes_eq by done.
  destruct (n <=? _) eqn:E; [|done]. zbool.
  rewrite zlen_ztake, Z.eqb_refl by lia. done.
Qed.

Lemma read_u32_eq r :
  wf r ->
  read_u32 r =
    if 4 <=? zlen (rest r) then (Ok (be_val (ztake 4 (rest r))), adv 4 r)
    else (Err (Truncated (offset r) 4 (zlen (rest r))), r).
Proof. intros. by apply read_be_eq. Qed.

Lemma read_u64_eq r :
  wf r ->
  read_u64 r =
    if 8 <=? zlen (rest r) then (Ok (be_val (ztake 8 (rest r))), adv 8 r)
    else (Err (Truncated (offset r) 8 (zlen (rest r))), r).
Proof. intros. by apply read_be_eq. Qed.

(** Padding to the next multiple of four. *)
Definition pad (n : Z) : Z := (4 - n mod 4) mod 4.

Lemma pad_range n : 0 <= pad n < 4.
Proof. apply Z.mod_pos_bound. lia. Qed.

Lemma pad_aligned n : (n + pad n) mod 4 = 0.
Proof. unfold pad. Z.div_mod_to_equations. lia. Qed.

Lemma pad_congr n m : n mod 4 = m mod 4 -> pad n = pad m.
Proof. unfold pad. intros ->. done. Qed.

Lemma align_to_4_eq r :
  wf r ->
  align_to_4 r =
    if pad (offset r) <=? zlen (rest r)
    then (Ok (ztake (pad (offset r)) (rest r)), adv (pad (offset r)) r)
    else (Err (Truncated (offset r) (pad (offset r)) (zlen (rest r))), r).
Proof.
  intros Hw. unfold align_to_4. unfold_m.
  unfold usub, checked_sub.
  pose proof (Z.mod_pos_bound (offset r) 4 ltac:(lia)).
  replace (_ <=? _) with true by lia. cbn [expect_some].
  rewrite read_bytes_eq; [done|done|]. apply pad_range.
Qed.

(** The name before the first NUL byte, and its length. *)
Definition cstr (l : list byte) : option (list byte) :=
  n ← position_where (fun b => u8 b =? 0) l; Some (ztake n l).

Lemma cstr_Some l n :
  cstr l = Some n <->
  exists k, l = n ++ x00 :: k /\ forallb (fun b => negb (u8 b =? 0)) n = true.
Proof.
  unfold cstr, position_where.
  destruct (find_enum _ 0 l) as [[i b]|] eqn:E; cbn.
  - apply find_enum_Some in E as (n0 & k & -> & -> & Hb & Hn).
    rewrite Z.add_0_l, ztake_app_exact.
    assert (b = x00) as -> by (apply u8_inj; zbool; done).
    split.
    + intros [= <-]. eauto.
    + intros (k' & He & Hn').
      destruct (find_enum (fun b => u8 b =? 0) 0 (n0 ++ x00 :: k)) as [[i c]|] eqn:F.
      2:{ apply find_enum_None in F. rewrite forallb_app in F. cbn in F.
          rewrite andb_false_r in F. done. }
      assert (find_enum (fun b => u8 b =? 0) 0 (n0 ++ x00 :: k) = Some (0 + zlen n0, x00))
        as F1 by (apply find_enum_Some; eauto 10).
      assert (find_enum (fun b => u8 b =? 0) 0 (n0 ++ x00 :: k) = Some (0 + zlen n, x00))
        as F2 by (apply find_enum_Some; rewrite He; eauto 10).
      assert (zlen n0 = zlen n) as Hl by (rewrite F1 in F2; injection F2; lia).
      f_equal. rewrite <- (ztake_app_exact n0 (x00 :: k)), He, Hl. apply ztake_app_exact.
  - split; [done|]. intros (k & -> & Hn). apply find_enum_None in E.
    rewrite forallb_app in E. cbn in E. rewrite andb_false_r in E. done.
Qed.

Lemma read_nul_terminated_eq r :
  wf r ->
  read_nul_terminated r =
    match cstr (rest r) with
    | Some n => (Ok n, adv (zlen n + 1) r)
    | None => (Err (MissingNulTerminator (offset r)), r)
    end.
Proof.
  intros Hw. pose proof Hw as [Ho Hm].
  unfold read_nul_terminated. unfold_m. rewrite zfrom_ok by done.
  cbn [expect_some]. change (zdrop (offset r) (bytes r)) with (rest r).
  unfold cstr, position_where.
  destruct (find_enum _ 0 (rest r)) as [[i b]|] eqn:E; cbn [fmap option_fmap option_map fst ok_or];
    [|done].
  apply find_enum_Some in E as (n & k & Hr & -> & _ & _).
  pose proof (zlen_nonneg n). pose proof (zlen_nonneg k).
  pose proof (zlen_rest r Hw) as Hl.
  assert (zlen (rest r) = zlen n + 1 + zlen k) as Hlen
    by (rewrite Hr; autorewrite with zlen; lia).
  unfold uadd, checked_add. replace (_ <=? _) with true
    by (unfold usize_max, isize_max in *; lia).
  cbn [expect_some fst]. rewrite read_bytes_ok by (done || lia).
  cbn. rewrite Hr, zslice_ok.
  - cbn [expect_some]. rewrite !Z.add_0_l, Z.sub_0_r, zdrop_0.
    rewrite ztake_app_exact.
    replace (n ++ b :: k) with ((n ++ [b]) ++ k) by (by rewrite <- app_assoc).
    replace (zlen n + 1) with (zlen (n ++ [b])) by (autorewrite with zlen; lia).
    rewrite !ztake_app_exact. done.
  - lia.
  - lia.
  - rewrite <- Hr, zlen_ztake by lia. lia.
Qed.

Lemma remaining_bytes_eq {E} r : wf r -> remaining_bytes (E:=E) r = Ok (rest r).
Proof. intros [H _]. unfold remaining_bytes. by rewrite zfrom_ok. Qed.

End Reader.

#[global] Arguments Reader.read_bytes : simpl never.
#[global] Arguments Reader.read_u8 : simpl never.
#[global] Arguments Reader.read_u32 : simpl never.
#[global] Arguments Reader.read_u64 : simpl never.
#[global] Arguments Reader.align_to_4 : simpl never.
#[global] Arguments Reader.read_nul_terminated : simpl never.
#[global] Arguments Reader.remaining : simpl never.
#[global] Arguments Reader.pad : simpl never.
