(* ===== verification/FdtHeader.v ===== *)
(** * The FDT header ([fdt/src/header.rs])

    [Header.new] decodes the forty header bytes and runs the layout checks in
    the order of the source.  [Header.valid] is the list of facts the
    function's documentation promises, stated on the decoded fields;
    [new_ok_iff] shows that [new] accepts exactly the headers that have them. *)

From Stdlib Require Import ZArith Lia Bool.
From Stdlib Require Import Strings.Byte.
From stdpp Require Import base list numbers.
From S2P Require Import Prelude FdtReader.
Local Open Scope Z_scope.

Definition HEADER_SIZE : Z := 40.
Definition FDT_MAGIC : Z := 0xd00dfeed.
Definition SUPPORTED_VERSION : Z := 17.
Definition EXPECTED_LAST_COMPATIBLE_VERSION : Z := 16.

Inductive HeaderField :=
| Magic | TotalSize | StructureOffset | StringsOffset | ReservationOffset
| Version | LastCompatibleVersion | BootCpuIdPhys | StringsSize | StructureSize.

Definition HeaderField_offset (f : HeaderField) : Z :=
  match f with
  | Magic => 0
  | TotalSize => 4
  | StructureOffset => 8
  | StringsOffset => 12
  | ReservationOffset => 16
  | Version => 20
  | LastCompatibleVersion => 24
  | BootCpuIdPhys => 28
  | StringsSize => 32
  | StructureSize => 36
  end.

Inductive BlockKind := BMemoryReservation | BStructure | BStrings.

Inductive HeaderError :=
| InvalidMagic (found : Z)
| TotalSizeTooSmall (total_size minimum : Z)
| UnsupportedVersion (version last_compatible : Z)
| MisalignedBlock (block : BlockKind) (offset required_alignment : Z)
| BlockOffsetInsideHeader (block : BlockKind) (offset header_size : Z)
| BlockOffsetOutOfBounds (block : BlockKind) (offset total_size : Z)
| BlockOutOfBounds (block : BlockKind) (offset size total_size : Z)
| BlocksOverlap (first second : BlockKind)
| BlockOffsetInsideBlock (block containing : BlockKind) (offset : Z).

#[export] Instance block_kind_eq_decision : EqDecision BlockKind.
Proof. solve_decision. Defined.

#[export] Instance header_error_eq_decision : EqDecision HeaderError.
Proof. solve_decision. Defined.

(** [Range<usize>]. *)
Record range := mkRange { r_start : Z; r_end : Z }.

#[export] Instance range_eq_decision : EqDecision range.
Proof. solve_decision. Defined.

Definition range_contains (r : range) (x : Z) : bool := (r_start r <=? x) && (x <? r_end r).

Module Header.

Record t := mk {
  total_size : Z;
  structure_range : range;
  strings_range : range;
  off_mem_rsvmap : Z;
  version : Z;
  last_comp_version : Z;
  boot_cpuid_phys : Z;
}.

Definition read_be_u32 {E} (bs : list byte) (field : HeaderField) : outcome E Z :=
  let offset := HeaderField_offset field in
  let? b0 := expect_some (zget bs offset) in
  let? b1 := expect_some (zget bs (offset + 1)) in
  let? b2 := expect_some (zget bs (offset + 2)) in
  let? b3 := expect_some (zget bs (offset + 3)) in
  Ok (be_val [b0; b1; b2; b3]).

Definition read_be_u32_as_usize {E} (bs : list byte) (field : HeaderField) : outcome E Z :=
  let? v := read_be_u32 bs field in Ok (usize_from_u32 v).

Definition block_range (block : BlockKind) (offset size total_size : Z)
    : outcome HeaderError range :=
  match checked_add usize_max offset size with
  | None => Err (BlockOutOfBounds block offset size total_size)
  | Some end_ =>
      if total_size <? end_ then Err (BlockOutOfBounds block offset size total_size)
      else Ok (mkRange offset end_)
  end.

Definition new (bs : list byte) : outcome HeaderError t :=
  let? magic := read_be_u32 bs Magic in
  let? _ := err_if (negb (magic =? FDT_MAGIC)) (InvalidMagic magic) in
  let? total_size := read_be_u32_as_usize bs TotalSize in
  let? off_dt_struct := read_be_u32_as_usize bs StructureOffset in
  let? off_dt_strings := read_be_u32_as_usize bs StringsOffset in
  let? off_mem_rsvmap := read_be_u32_as_usize bs ReservationOffset in
  let? version := read_be_u32 bs Version in
  let? last_comp_version := read_be_u32 bs LastCompatibleVersion in
  let? boot_cpuid_phys := read_be_u32 bs BootCpuIdPhys in
  let? size_dt_strings := read_be_u32_as_usize bs StringsSize in
  let? size_dt_struct := read_be_u32_as_usize bs StructureSize in
  let? _ := err_if (total_size <? HEADER_SIZE) (TotalSizeTooSmall total_size HEADER_SIZE) in
  let? _ := err_if (negb (version =? SUPPORTED_VERSION)
                   || negb (last_comp_version =? EXPECTED_LAST_COMPATIBLE_VERSION))
                  (UnsupportedVersion version last_comp_version) in
  let? _ := err_if (negb (off_mem_rsvmap mod 8 =? 0))
                  (MisalignedBlock BMemoryReservation off_mem_rsvmap 8) in
  let? _ := err_if (negb (off_dt_struct mod 4 =? 0))
                  (MisalignedBlock BStructure off_dt_struct 4) in
  let? _ := for_list
              (fun '(block, offset) =>
                 err_if (offset <? HEADER_SIZE) (BlockOffsetInsideHeader block offset HEADER_SIZE))
              [(BMemoryReservation, off_mem_rsvmap); (BStructure, off_dt_struct);
               (BStrings, off_dt_strings)] in
  let? _ := err_if (total_size <? off_mem_rsvmap)
                  (BlockOffsetOutOfBounds BMemoryReservation off_mem_rsvmap total_size) in
  let? structure_range := block_range BStructure off_dt_struct size_dt_struct total_size in
  let? strings_range := block_range BStrings off_dt_strings size_dt_strings total_size in
  let? _ := err_if ((r_start structure_range <? r_end strings_range)
                   && (r_start strings_range <? r_end structure_range))
                  (BlocksOverlap BStructure BStrings) in
  let? _ := for_list
              (fun '(containing, range) =>
                 err_if (range_contains range off_mem_rsvmap)
                   (BlockOffsetInsideBlock BMemoryReservation containing off_mem_rsvmap))
              [(BStructure, structure_range); (BStrings, strings_range)] in
  Ok (mk total_size structure_range strings_range off_mem_rsvmap version
         last_comp_version boot_cpuid_phys).

Definition reservation_offset (h : t) : Z := off_mem_rsvmap h.

(** ** What an accepted header guarantees *)

(** The big-endian field of the encoded header. *)
Definition field (bs : list byte) (f : HeaderField) : Z :=
  be_val (ztake 4 (zdrop (HeaderField_offset f) bs)).

Definition range_within (r : range) (size : Z) : Prop :=
  HEADER_SIZE <= r_start r <= r_end r /\ r_end r <= size.

Definition disjoint (r s : range) : Prop := r_end s <= r_start r \/ r_end r <= r_start s.

(** [h] is the decoding of [bs], and has every layout property the
    documentation of [Header::new] lists. *)
Record valid (bs : list byte) (h : t) : Prop := {
  v_magic : field bs Magic = FDT_MAGIC;
  v_total : total_size h = field bs TotalSize;
  v_structure : structure_range h =
    mkRange (field bs StructureOffset) (field bs StructureOffset + field bs StructureSize);
  v_strings : strings_range h =
    mkRange (field bs StringsOffset) (field bs StringsOffset + field bs StringsSize);
  v_rsv : off_mem_rsvmap h = field bs ReservationOffset;
  v_version : version h = field bs Version /\ version h = SUPPORTED_VERSION;
  v_last : last_comp_version h = field bs LastCompatibleVersion
           /\ last_comp_version h = EXPECTED_LAST_COMPATIBLE_VERSION;
  v_cpu : boot_cpuid_phys h = field bs BootCpuIdPhys;
  v_size : HEADER_SIZE <= total_size h;
  v_rsv_align : off_mem_rsvmap h mod 8 = 0;
  v_structure_align : r_start (structure_range h) mod 4 = 0;
  v_rsv_in : HEADER_SIZE <= off_mem_rsvmap h <= total_size h;
  v_structure_in : range_within (structure_range h) (total_size h);
  v_strings_in : range_within (strings_range h) (total_size h);
  v_disjoint : disjoint (structure_range h) (strings_range h);
  v_rsv_out : range_contains (structure_range h) (off_mem_rsvmap h) = false
              /\ range_contains (strings_range h) (off_mem_rsvmap h) = false;
}.

Lemma zget_lt {A} (l : list A) i :
  0 <= i < zlen l -> exists a, zget l i = Some a /\ zdrop i l = a :: zdrop (i + 1) l.
Proof.
  intros Hi. unfold zget. replace (_ && _) with true by lia.
  destruct (lookup_lt_is_Some_2 l (Z.to_nat i)) as [a Ha]; [unfold zlen in *; lia|].
  exists a. split; [done|]. unfold zdrop.
  rewrite (drop_S l a) by done. f_equal. f_equal. lia.
Qed.

Lemma read_be_u32_eq {E} bs f :
  zlen bs = HEADER_SIZE -> read_be_u32 (E:=E) bs f = Ok (field bs f).
Proof.
  intros Hl. unfold read_be_u32, field. set (o := HeaderField_offset f).
  assert (0 <= o <= 36) as Ho by (subst o; destruct f; cbn; lia).
  unfold HEADER_SIZE in Hl.
  destruct (zget_lt bs o ltac:(lia)) as (a & Ha & Ea).
  destruct (zget_lt bs (o + 1) ltac:(lia)) as (b & Hb & Eb).
  destruct (zget_lt bs (o + 2) ltac:(lia)) as (c & Hc & Ec).
  destruct (zget_lt bs (o + 3) ltac:(lia)) as (d & Hd & Ed).
  rewrite Ha, Hb, Hc, Hd. cbn [expect_some obind].
  rewrite Ea, Eb. replace (o + 1 + 1) with (o + 2) by lia.
  rewrite Ec. replace (o + 2 + 1) with (o + 3) by lia. by rewrite Ed.
Qed.

Lemma field_range bs f : zlen bs = HEADER_SIZE -> is_u32 (field bs f).
Proof.
  intros Hl. unfold field, is_u32. pose proof (be_val_range (ztake 4 (zdrop (HeaderField_offset f) bs))) as H.
  assert (0 <= HeaderField_offset f <= 36) by (destruct f; cbn; lia).
  unfold HEADER_SIZE in Hl.
  rewrite zlen_ztake in H by (rewrite zlen_zdrop by lia; lia).
  unfold u32_max. lia.
Qed.

Lemma block_range_Ok block offset size total r :
  is_u32 offset -> is_u32 size ->
  block_range block offset size total = Ok r <->
  offset + size <= total /\ r = mkRange offset (offset + size).
Proof.
  unfold is_u32, block_range, checked_add. intros.
  replace (_ <=? usize_max) with true by (unfold u32_max, usize_max in *; lia).
  destruct (total <? _) eqn:E; zbool; split; intros H1.
  - done.
  - lia.
  - injection H1 as <-. done.
  - by destruct H1 as [_ ->].
Qed.

Lemma new_no_panic bs : zlen bs = HEADER_SIZE -> no_panic (new bs).
Proof.
  intros Hl. unfold new, read_be_u32_as_usize, usize_from_u32.
  rewrite !(read_be_u32_eq bs) by done. cbn [obind].
  repeat first
    [ apply no_panic_obind; intros
    | apply no_panic_for_list; intros [? ?] _
    | progress unfold err_if, block_range
    | match goal with
      | |- no_panic (if ?b then _ else _) => destruct b
      | |- no_panic (match ?o with Some _ => _ | None => _ end) => destruct o
      end
    | exact I ].
Qed.

Lemma new_ok_iff bs h : zlen bs = HEADER_SIZE -> new bs = Ok h <-> valid bs h.
Proof.
  intros Hl. pose proof (fun f => field_range bs f Hl) as Hf.
  unfold new, read_be_u32_as_usize, usize_from_u32.
  rewrite !(read_be_u32_eq bs) by done. cbn [obind].
  pose proof (Hf StructureOffset) as F1. pose proof (Hf StructureSize) as F2.
  pose proof (Hf StringsOffset) as F3. pose proof (Hf StringsSize) as F4.
  split.
  - intros H. chain H.
    apply err_if_Ok in Hc, Hc0, Hc1, Hc2, Hc3, Hc5, Hc8.
    destruct a4, a9.
    apply for_list_Ok, Forall_cons_1 in Hc4
      as [Hh1 [Hh2 [Hh3 _]%Forall_cons_1]%Forall_cons_1].
    apply for_list_Ok, Forall_cons_1 in Hc9 as [Hr1 [Hr2 _]%Forall_cons_1].
    apply err_if_Ok in Hh1, Hh2, Hh3, Hr1, Hr2.
    apply block_range_Ok in Hc6 as [Hs ->]; [|done..].
    apply block_range_Ok in Hc7 as [Ht ->]; [|done..].
    injection H as <-. cbn [r_start r_end] in *. zbool.
    unfold is_u32 in *.
    split; cbn [total_size structure_range strings_range off_mem_rsvmap version
      last_comp_version boot_cpuid_phys r_start r_end]; unfold range_within, disjoint;
      cbn [r_start r_end]; try lia; auto.
  - intros [Hm Ht Hs Hg Ho [Hv Hv'] [Hw Hw'] Hcpu Hsz Hal Hal' Hin [Hs1 Hs2] [Hg1 Hg2] Hd [Hr1 Hr2]].
    destruct h as [ts sr gr mr ve lv bc].
    cbn [total_size structure_range strings_range off_mem_rsvmap version
      last_comp_version boot_cpuid_phys] in *. subst.
    cbn [r_start r_end] in *.
    rewrite Hm. unfold err_if at 1. rewrite Z.eqb_refl. cbn [negb obind].
    assert (forall block o s t, is_u32 o -> is_u32 s -> o + s <= t ->
              block_range block o s t = Ok (mkRange o (o + s))) as Hbr
      by (intros; by apply block_range_Ok).
    rewrite !Hbr by (done || lia).
    unfold err_if, disjoint in *. cbn [for_list obind r_start r_end] in *.
    unfold HEADER_SIZE, SUPPORTED_VERSION, EXPECTED_LAST_COMPATIBLE_VERSION in *.
    rewrite Hv', Hw', Hal, Hal', Hr1, Hr2.
    repeat match goal with
    | |- context [?a <? ?b] => replace (a <? b) with false by lia; cbn [obind]
    end.
    cbn. split_if; [|done]. lia.
Qed.

End Header.
