(* ===== verification/FdtStrings.v ===== *)
(** * Property names in the strings block ([fdt/src/strings.rs])

    [Strings.valid_name] is the grammar of a property name at an offset;
    [validate_property_name_Ok_iff] shows the validator accepts exactly it. *)

From Stdlib Require Import ZArith Lia Bool.
From Stdlib Require Import Strings.Byte Strings.String.
From stdpp Require Import base list numbers.
From S2P Require Import Prelude FdtReader.
Local Open Scope Z_scope.

Inductive PropertyNameError :=
| OffsetOutOfBounds (offset strings_size : Z)
| Unterminated (offset : Z)
| InvalidLength (offset length : Z)
| InvalidCharacter (offset index : Z) (byte : byte).

#[export] Instance property_name_error_eq_decision : EqDecision PropertyNameError.
Proof. solve_decision. Defined.

Module Strings.

Record t := mk { bytes : list byte }.

Definition new (bs : list byte) : t := mk bs.

(** [impl fmt::Debug for Strings]. *)
Definition debug (self : t) : list byte := debug_struct "Strings" [("size"%string, decimal (zlen (bytes self)))].

Definition is_property_character (b : byte) : bool :=
  is_ascii_alphanumeric b || one_of ",._+?#-" b.

Definition validate_property_name (self : t) (raw_offset : Z)
    : outcome PropertyNameError (list byte) :=
  let offset := usize_from_u32 raw_offset in
  match zfrom (bytes self) offset with
  | None | Some [] => Err (OffsetOutOfBounds raw_offset (zlen (bytes self)))
  | Some bs =>
      let? name := map_err (fun _ => Unterminated raw_offset)
                     (fst (Reader.read_nul_terminated (Reader.new bs))) in
      if negb ((1 <=? zlen name) && (zlen name <=? 31))
      then Err (InvalidLength raw_offset (zlen name))
      else match find_enum (fun b => negb (is_property_character b)) 0 name with
           | Some (index, b) => Err (InvalidCharacter raw_offset index b)
           | None => Ok name
           end
  end.

(** The block holds [name], terminated, at [offset], and [name] has between 1
    and 31 permitted characters. *)
Definition valid_name (self : t) (offset : Z) (name : list byte) : Prop :=
  0 <= offset < zlen (bytes self) /\
  (exists k, zdrop offset (bytes self) = name ++ x00 :: k) /\
  1 <= zlen name <= 31 /\
  forallb is_property_character name = true.

Definition wf (self : t) : Prop := zlen (bytes self) <= isize_max.

Lemma property_character_nonzero b : is_property_character b = true -> (u8 b =? 0) = false.
Proof. destruct b; vm_compute; congruence. Qed.

Lemma forallb_nonzero name :
  forallb is_property_character name = true -> forallb (fun b => negb (u8 b =? 0)) name = true.
Proof.
  rewrite !forallb_forall. intros H b Hb.
  by rewrite (property_character_nonzero b (H b Hb)).
Qed.

Lemma forallb_double_neg {A} (p : A -> bool) l :
  forallb (fun a => negb (negb (p a))) l = forallb p l.
Proof. induction l as [|a l IH]; cbn; [done|]. by rewrite negb_involutive, IH. Qed.

(** The validator on an offset inside the block, in terms of [cstr]. *)
Lemma validate_unfold self off :
  wf self -> 0 <= off < zlen (bytes self) ->
  validate_property_name self off =
    match Reader.cstr (zdrop off (bytes self)) with
    | None => Err (Unterminated off)
    | Some name =>
        if negb ((1 <=? zlen name) && (zlen name <=? 31))
        then Err (InvalidLength off (zlen name))
        else match find_enum (fun b => negb (is_property_character b)) 0 name with
             | Some (index, b) => Err (InvalidCharacter off index b)
             | None => Ok name
             end
    end.
Proof.
  intros Hw Ho. unfold validate_property_name, usize_from_u32.
  rewrite zfrom_ok by lia.
  pose proof (zlen_zdrop off (bytes self) ltac:(lia)) as Hl.
  set (l := zdrop off (bytes self)) in *.
  assert (l <> []) as Hne by (intros ->; rewrite zlen_nil in Hl; lia).
  assert (Reader.wf (Reader.new l)) as Hr by (apply Reader.new_wf; unfold wf in Hw; lia).
  rewrite Reader.read_nul_terminated_eq by done. rewrite Reader.rest_new.
  destruct l as [|b l]; [done|]. destruct (Reader.cstr (b :: l)); done.
Qed.

Lemma validate_property_name_Ok_iff self off name :
  wf self -> 0 <= off ->
  validate_property_name self off = Ok name <-> valid_name self off name.
Proof.
  intros Hw H0. destruct (Z.lt_ge_cases off (zlen (bytes self))) as [Hlt|Hge].
  - rewrite validate_unfold by (done || lia). unfold valid_name.
    destruct (Reader.cstr (zdrop off (bytes self))) as [n|] eqn:Hc.
    + pose proof Hc as Hc'. apply Reader.cstr_Some in Hc as (k & Hk & Hnz).
      split.
      * intros H. destruct (negb _) eqn:Hn; [done|].
        destruct (find_enum _ 0 n) as [[? ?]|] eqn:Hf; [done|].
        injection H as <-. apply find_enum_None in Hf.
        rewrite forallb_double_neg in Hf. zbool. eauto 10 with lia.
      * intros (_ & (k' & Hk') & Hl & Hc).
        assert (n = name) as ->.
        { assert (Reader.cstr (zdrop off (bytes self)) = Some name) as He
            by (apply Reader.cstr_Some; eauto using forallb_nonzero).
          congruence. }
        replace (negb _) with false by lia.
        destruct (find_enum _ 0 name) as [[? ?]|] eqn:Hf; [|done].
        assert (find_enum (fun b => negb (is_property_character b)) 0 name = None) as Hf'
          by (apply find_enum_None; by rewrite forallb_double_neg).
        congruence.
    + split; [done|]. intros (_ & (k' & Hk') & _ & Hch).
      assert (Reader.cstr (zdrop off (bytes self)) = Some name) as He
        by (apply Reader.cstr_Some; eauto using forallb_nonzero).
      congruence.
  - unfold validate_property_name, usize_from_u32, valid_name. split; [|lia].
    destruct (Z.eq_dec off (zlen (bytes self))) as [->|Hne].
    + rewrite zfrom_ok, zdrop_all by lia. done.
    + rewrite zfrom_none by lia. done.
Qed.

Lemma validate_property_name_no_panic self off :
  wf self -> 0 <= off -> no_panic (validate_property_name self off).
Proof.
  intros Hw H0. destruct (Z.lt_ge_cases off (zlen (bytes self))) as [Hlt|Hge].
  - rewrite validate_unfold by (done || lia).
    destruct (Reader.cstr _); cbn; [|done].
    destruct (negb _); cbn; [done|]. by destruct (find_enum _ _ _) as [[? ?]|].
  - unfold validate_property_name, usize_from_u32.
    destruct (Z.eq_dec off (zlen (bytes self))) as [->|Hne].
    + rewrite zfrom_ok, zdrop_all by lia. done.
    + rewrite zfrom_none by lia. done.
Qed.

End Strings.
