(* ===== verification/FdtNames.v ===== *)
(** * Node names ([fdt/src/structure/name.rs])

    Node names with their optional unit addresses, and their validator. *)

From Stdlib Require Import ZArith Lia Bool.
From Stdlib Require Import Strings.Byte Strings.String.
From stdpp Require Import base list numbers.
From S2P Require Import Prelude FdtStrings.
Local Open Scope Z_scope.

Inductive NodeNameError :=
| NodeNameInvalidLength (length : Z)
| InvalidFirstCharacter (byte : byte)
| NodeNameInvalidCharacter (index : Z) (byte : byte)
| EmptyUnitAddress
| InvalidUnitAddressCharacter (index : Z) (byte : byte).

#[export] Instance node_name_error_eq_decision : EqDecision NodeNameError.
Proof. solve_decision. Defined.

Module Name.

Definition is_valid_character (b : byte) : bool :=
  is_ascii_alphanumeric b || one_of ",._+-" b.

(** [byte == b'@']. *)
Definition is_at (b : byte) : bool := Byte.eqb b x40.

Definition component (name : list byte) : list byte :=
  match split_on is_at name with
  | first :: _ => first
  | [] => name
  end.

Definition unit_address (name : list byte) : option (list byte) :=
  nth_error (splitn_on 2 is_at name) 1.

Definition validate (name : list byte) : outcome NodeNameError unit :=
  let node_name := component name in
  let unit_address := unit_address name in
  match node_name with
  | [] => Err (NodeNameInvalidLength 0)
  | first_byte :: _ =>
      if 31 <? zlen node_name then Err (NodeNameInvalidLength (zlen node_name)) else
      if negb (is_ascii_alphabetic first_byte) then Err (InvalidFirstCharacter first_byte) else
      match find_enum (fun b => negb (is_valid_character b)) 0 node_name with
      | Some (index, b) => Err (NodeNameInvalidCharacter index b)
      | None =>
          match unit_address with
          | None => Ok tt
          | Some [] => Err EmptyUnitAddress
          | Some ua =>
              match find_enum (fun b => negb (is_valid_character b)) 0 ua with
              | Some (index, b) => Err (InvalidUnitAddressCharacter index b)
              | None => Ok tt
              end
          end
      end
  end.

(** The grammar of a node name: [component] or [component@unit-address]. *)
Definition valid_component (c : list byte) : Prop :=
  (exists b k, c = b :: k /\ is_ascii_alphabetic b = true) /\
  zlen c <= 31 /\ forallb is_valid_character c = true.

Definition valid (name : list byte) : Prop :=
  valid_component name \/
  exists c u, name = c ++ x40 :: u /\ valid_component c /\ u <> [] /\
              forallb is_valid_character u = true.

Lemma component_break name : component name = fst (break_on is_at name).
Proof. unfold component. destruct (split_on_head is_at name) as [t ->]. done. Qed.

Lemma unit_address_break name : unit_address name = snd (break_on is_at name).
Proof.
  unfold unit_address. cbn [splitn_on].
  destruct (break_on is_at name) as [k [l|]]; done.
Qed.

Lemma is_at_true b : is_at b = true <-> b = x40.
Proof.
  unfold is_at. split; intros H.
  - by apply Byte.byte_dec_bl in H.
  - subst. done.
Qed.

Lemma component_unit_address name :
  name = component name ++ match unit_address name with
                           | None => []
                           | Some u => x40 :: u
                           end.
Proof.
  rewrite component_break, unit_address_break.
  pose proof (break_on_spec is_at name) as H.
  destruct (break_on is_at name) as [k [l|]]; cbn in *; destruct H as [_ H].
  - destruct H as (a & -> & Ha). apply is_at_true in Ha as ->. done.
  - rewrite app_nil_r. done.
Qed.

Lemma component_no_at name : forallb (fun b => negb (is_at b)) (component name) = true.
Proof.
  rewrite component_break. pose proof (break_on_spec is_at name) as H.
  destruct (break_on is_at name) as [k [l|]]; cbn in *; apply H.
Qed.

Lemma valid_character_not_at b : is_valid_character b = true -> is_at b = false.
Proof. destruct b; vm_compute; congruence. Qed.

Lemma break_on_app {A} (p : A -> bool) c a u :
  forallb (fun b => negb (p b)) c = true -> p a = true ->
  break_on p (c ++ a :: u) = (c, Some u).
Proof.
  induction c as [|b c IH]; cbn; intros Hc Ha; [by rewrite Ha|].
  apply andb_true_iff in Hc as [Hb Hc]. destruct (p b); [done|]. by rewrite IH.
Qed.

Lemma break_on_none {A} (p : A -> bool) c :
  forallb (fun b => negb (p b)) c = true -> break_on p c = (c, None).
Proof.
  induction c as [|b c IH]; cbn; intros Hc; [done|].
  apply andb_true_iff in Hc as [Hb Hc]. destruct (p b); [done|]. by rewrite IH.
Qed.

Lemma forallb_valid_not_at c :
  forallb is_valid_character c = true -> forallb (fun b => negb (is_at b)) c = true.
Proof.
  rewrite !forallb_forall. intros H b Hb. by rewrite (valid_character_not_at b (H b Hb)).
Qed.

Lemma find_enum_invalid c :
  find_enum (fun b => negb (is_valid_character b)) 0 c = None <->
  forallb is_valid_character c = true.
Proof. by rewrite find_enum_None, Strings.forallb_double_neg. Qed.

(** The validator after the name is split. *)
Lemma validate_Ok_parts name :
  validate name = Ok tt <->
  valid_component (component name) /\
  match unit_address name with
  | None => True
  | Some u => u <> [] /\ forallb is_valid_character u = true
  end.
Proof.
  unfold validate, valid_component.
  destruct (component name) as [|b c]; [split; [done|intros [[(? & ? & ? & _) _] _]; done]|].
  destruct (31 <? _) eqn:Hl; [split; [done|intros [(_ & ? & _) _]; lia]|].
  destruct (is_ascii_alphabetic b) eqn:Hb; cbn [negb];
    [|split; [done|intros [[(? & ? & [= <- <-] & ?) _] _]; congruence]].
  destruct (find_enum _ 0 (b :: c)) as [[? ?]|] eqn:Hf.
  { split; [done|]. intros [(_ & _ & H) _]. apply find_enum_invalid in H. congruence. }
  apply find_enum_invalid in Hf.
  assert ((exists b' k, b :: c = b' :: k /\ is_ascii_alphabetic b' = true) /\
          zlen (b :: c) <= 31 /\ forallb is_valid_character (b :: c) = true) as Hv
    by (zbool; eauto 10).
  destruct (unit_address name) as [[|d u]|]; [by split; [|intros [_ [? _]]]| |by split].
  destruct (find_enum _ 0 (d :: u)) as [[? ?]|] eqn:Hg.
  { split; [done|]. intros [_ [_ H]]. apply find_enum_invalid in H. congruence. }
  apply find_enum_invalid in Hg. by split.
Qed.

Lemma validate_Ok_iff name : validate name = Ok tt <-> valid name.
Proof.
  rewrite validate_Ok_parts. split.
  - intros [Hc Hu]. pose proof (component_unit_address name) as Hn.
    destruct (unit_address name) as [u|].
    + right. exists (component name), u. destruct Hu. auto.
    + left. rewrite app_nil_r in Hn. by rewrite Hn.
  - intros [Hc|(c & u & -> & Hc & Hu & Hv)].
    + rewrite component_break, unit_address_break, break_on_none; [done|].
      apply forallb_valid_not_at, Hc.
    + rewrite component_break, unit_address_break, break_on_app; [done| |done].
      apply forallb_valid_not_at, Hc.
Qed.

Lemma validate_no_panic name : no_panic (validate name).
Proof.
  unfold validate. destruct (component name); [done|].
  destruct (31 <? _); [done|]. destruct (negb _); [done|].
  destruct (find_enum _ _ _) as [[? ?]|]; [done|].
  destruct (unit_address name) as [[|? ?]|]; [done| |done].
  by destruct (find_enum _ _ _) as [[? ?]|].
Qed.

End Name.
