(* ===== verification/FdtStructure.v ===== *)
(** * The structure block: errors, tokens and the validating pass
    ([fdt/src/structure.rs], [SemanticError] of [fdt/src/structure/semantic.rs])

    [Structure.new] is the single pass over an untrusted structure block.  The
    pass is a loop over [Reader]; each iteration is [scan_step], and the
    quadratic duplicate checks rescan the already validated prefix with
    readers of their own ([find_prior_sibling_node], [find_property]).

    Every loop takes as fuel one more than the number of bytes of the block:
    an iteration consumes at least four of them. *)

From Stdlib Require Import ZArith Lia Bool.
From Stdlib Require Import Strings.Byte Strings.String.
From stdpp Require Import base list numbers.
From S2P Require Import Prelude FdtReader FdtStrings FdtNames.
Local Open Scope Z_scope.

Inductive SemanticError :=
| MissingCpusNode
| MissingMemoryNode
| UnitAddressWithoutReg
| InvalidAddressCells (length : Z)
| InvalidSizeCells (length : Z)
| InvalidRegLength (length entry_size : Z)
| RegEntrySizeOverflow (address_cells size_cells : Z)
| MissingMemoryDeviceType
| InvalidMemoryDeviceType
| MissingMemoryReg
| MemoryAddressDoesNotFitU64
| MemorySizeDoesNotFitU64
| InvalidMemoryAddressCells
| InvalidMemorySizeCells
| EmptyMemoryReg
| ZeroMemorySize
| MissingReservedMemoryAddressCells
| MissingReservedMemorySizeCells
| MissingReservedMemoryRanges
| NonEmptyReservedMemoryRanges
| InvalidReservedMemoryAddressCells
| InvalidReservedMemorySizeCells
| MissingReservedMemoryAllocation
| UnsupportedDynamicReservedMemory
| EmptyReservedMemoryReg
| ReservedMemoryAddressDoesNotFitU64
| ReservedMemorySizeDoesNotFitU64
| ZeroReservedMemorySize
| ReservedMemoryRangeEndOverflow
| MemoryRangeEndOverflow.

#[export] Instance semantic_error_eq_decision : EqDecision SemanticError.
Proof. solve_decision. Defined.

Inductive StructureError :=
| Read (error : ReadError)
| InvalidToken (offset value : Z)
| ExpectedRootNode (offset found : Z)
| RootNameNotEmpty (offset first_byte : Z)
| UnterminatedNodeName (offset : Z)
| InvalidNodeName (token_offset name_offset parent_depth : Z) (source : NodeNameError)
| DuplicateNodeName (first_node_offset duplicate_node_offset parent_depth : Z)
| PropertyAfterChild (offset depth : Z)
| InvalidPropertyName (property_offset name_offset : Z) (source : PropertyNameError)
| DuplicatePropertyName
    (first_property_offset duplicate_property_offset name_offset depth : Z)
| PrematureEnd (offset depth : Z)
| ExpectedEnd (offset found : Z)
| TrailingData (offset remaining : Z)
| Semantic (error : SemanticError).

#[export] Instance structure_error_eq_decision : EqDecision StructureError.
Proof. solve_decision. Defined.

Inductive Token := BeginNode | EndNode | Property | Nop | End_.

#[export] Instance token_eq_decision : EqDecision Token.
Proof. solve_decision. Defined.

Definition Token_value (t : Token) : Z :=
  match t with
  | BeginNode => 0x1
  | EndNode => 0x2
  | Property => 0x3
  | Nop => 0x4
  | End_ => 0x9
  end.

Definition Token_parse (value offset : Z) : outcome StructureError Token :=
  if value =? Token_value BeginNode then Ok BeginNode
  else if value =? Token_value EndNode then Ok EndNode
  else if value =? Token_value Property then Ok Property
  else if value =? Token_value Nop then Ok Nop
  else if value =? Token_value End_ then Ok End_
  else Err (InvalidToken offset value).

Inductive NodePhase := PhaseProperties | PhaseChildren.

#[export] Instance node_phase_eq_decision : EqDecision NodePhase.
Proof. solve_decision. Defined.

Module Structure.

Record t := mk { bytes : list byte }.

(** [impl fmt::Debug for Structure]. *)
Definition debug (self : t) : list byte := debug_struct "Structure" [("size"%string, decimal (zlen (bytes self)))].

(** The [?] on a [ReadError]. *)
Definition read {A} (m : M Reader.t ReadError A) : M Reader.t StructureError A :=
  mmap_err Read m.

Definition fuel_of (bs : list byte) : nat := S (length bs).

Definition read_token : M Reader.t StructureError (Z * Token) :=
  let* reader := get in
  let offset := Reader.position reader in
  let* value := read Reader.read_u32 in
  let* token := lift (Token_parse value offset) in
  ret (offset, token).

Fixpoint read_non_nop_token (fuel : nat) : M Reader.t StructureError (Z * Token) :=
  match fuel with
  | O => lift OutOfFuel
  | S fuel' =>
      let* (offset, token) := read_token in
      if bool_decide (token <> Nop) then ret (offset, token)
      else read_non_nop_token fuel'
  end.

(** The loop of [find_prior_sibling_node] with its two local variables. *)
Fixpoint prior_sibling_loop (fuel : nat) (node_offset parent_depth : Z) (name : list byte)
    (depth : Z) (matching_sibling : option Z) : M Reader.t StructureError (option Z) :=
  match fuel with
  | O => lift OutOfFuel
  | S fuel' =>
      let* reader := get in
      if Reader.position reader <? node_offset then
        let* (token_offset, token) := read_token in
        match token with
        | BeginNode =>
            let* node_name := read Reader.read_nul_terminated in
            let* _ := read Reader.align_to_4 in
            let matching_sibling :=
              if (depth =? parent_depth) && bool_decide (node_name = name)
              then Some token_offset else matching_sibling in
            let* depth := lift (uadd usize_max depth 1) in
            let matching_sibling :=
              if depth =? parent_depth then None else matching_sibling in
            prior_sibling_loop fuel' node_offset parent_depth name depth matching_sibling
        | EndNode =>
            let* depth := lift (usub depth 1) in
            prior_sibling_loop fuel' node_offset parent_depth name depth matching_sibling
        | Property =>
            let* length := read Reader.read_u32 in
            let* _ := read Reader.read_u32 in
            let* _ := read (Reader.read_bytes (usize_from_u32 length)) in
            let* _ := read Reader.align_to_4 in
            prior_sibling_loop fuel' node_offset parent_depth name depth matching_sibling
        | Nop => prior_sibling_loop fuel' node_offset parent_depth name depth matching_sibling
        | End_ => panic
        end
      else ret matching_sibling
  end.

Definition find_prior_sibling_node (bytes : list byte)
    (structure_start node_offset parent_depth : Z) (name : list byte)
    : outcome StructureError (option Z) :=
  fst ((let* _ := read (Reader.read_bytes structure_start) in
        prior_sibling_loop (fuel_of bytes) node_offset parent_depth name 1 None)
       (Reader.new bytes)).

Fixpoint find_property_loop (fuel : nat) (properties_end : Z) (name : list byte)
    (strings : Strings.t) : M Reader.t StructureError (option Z) :=
  match fuel with
  | O => lift OutOfFuel
  | S fuel' =>
      let* reader := get in
      if Reader.position reader <? properties_end then
        let* (token_offset, token) := read_token in
        if bool_decide (token = Nop) then find_property_loop fuel' properties_end name strings
        else
          let* length := read Reader.read_u32 in
          let* name_offset := read Reader.read_u32 in
          let* property_name :=
            lift (expect (Strings.validate_property_name strings name_offset)) in
          if bool_decide (property_name = name) then ret (Some token_offset)
          else
            let* _ := read (Reader.read_bytes (usize_from_u32 length)) in
            let* _ := read Reader.align_to_4 in
            find_property_loop fuel' properties_end name strings
      else ret None
  end.

Definition find_property (bytes : list byte) (properties_start properties_end : Z)
    (name : list byte) (strings : Strings.t) : outcome StructureError (option Z) :=
  fst ((let* _ := read (Reader.read_bytes properties_start) in
        find_property_loop (fuel_of bytes) properties_end name strings)
       (Reader.new bytes)).

Definition validate_property (bytes : list byte) (strings : Strings.t)
    (properties_start token_offset depth : Z) : M Reader.t StructureError unit :=
  let* length := read Reader.read_u32 in
  let* name_offset := read Reader.read_u32 in
  let* name :=
    lift (map_err (InvalidPropertyName token_offset name_offset)
            (Strings.validate_property_name strings name_offset)) in
  let* _ := read (Reader.read_bytes (usize_from_u32 length)) in
  let* _ := read Reader.align_to_4 in
  let* found := lift (find_property bytes properties_start token_offset name strings) in
  match found with
  | Some first_property_offset =>
      throw (DuplicatePropertyName first_property_offset token_offset name_offset depth)
  | None => ret tt
  end.

(** The variables the loop of [new] carries. *)
Record scan := mkScan { depth : Z; phase : NodePhase; properties_start : Z }.

(** One iteration of [while depth > 0]. *)
Definition scan_step (bytes : list byte) (strings : Strings.t) (root_content_start : Z)
    (st : scan) : M Reader.t StructureError scan :=
  let* (token_offset, token) := read_token in
  match token with
  | BeginNode =>
      let* reader := get in
      let name_offset := Reader.position reader in
      let* name := mmap_err (fun _ => UnterminatedNodeName name_offset)
                            Reader.read_nul_terminated in
      let* _ := lift (map_err (InvalidNodeName token_offset name_offset (depth st))
                              (Name.validate name)) in
      let* _ := read Reader.align_to_4 in
      let* found := lift (find_prior_sibling_node bytes root_content_start token_offset
                            (depth st) name) in
      match found with
      | Some first_node_offset =>
          throw (DuplicateNodeName first_node_offset token_offset (depth st))
      | None =>
          let* depth := lift (uadd usize_max (depth st) 1) in
          let* reader := get in
          ret (mkScan depth PhaseProperties (Reader.position reader))
      end
  | EndNode =>
      let* depth := lift (usub (depth st) 1) in
      ret (mkScan depth (if 0 <? depth then PhaseChildren else phase st) (properties_start st))
  | Property =>
      if bool_decide (phase st = PhaseChildren)
      then throw (PropertyAfterChild token_offset (depth st))
      else
        let* _ := validate_property bytes strings (properties_start st) token_offset
                    (depth st) in
        ret st
  | Nop => ret st
  | End_ => throw (PrematureEnd token_offset (depth st))
  end.

Fixpoint scan_loop (fuel : nat) (bytes : list byte) (strings : Strings.t)
    (root_content_start : Z) (st : scan) : M Reader.t StructureError unit :=
  match fuel with
  | O => lift OutOfFuel
  | S fuel' =>
      if 0 <? depth st then
        let* st' := scan_step bytes strings root_content_start st in
        scan_loop fuel' bytes strings root_content_start st'
      else ret tt
  end.

(** The part of [new] before the loop: leading NOPs and the root's name. *)
Definition read_root (bytes : list byte) : M Reader.t StructureError unit :=
  let* (root_token_offset, token) := read_non_nop_token (fuel_of bytes) in
  if bool_decide (token <> BeginNode)
  then throw (ExpectedRootNode root_token_offset (Token_value token))
  else
    let* reader := get in
    let root_name_offset := Reader.position reader in
    let* first_byte := read Reader.read_u8 in
    if negb (first_byte =? 0) then throw (RootNameNotEmpty root_name_offset first_byte)
    else
      let* _ := read Reader.align_to_4 in
      ret tt.

(** The part of [new] after the loop: trailing NOPs, [FDT_END], nothing else. *)
Definition read_end (bytes : list byte) : M Reader.t StructureError unit :=
  let* (end_token_offset, token) := read_non_nop_token (fuel_of bytes) in
  if bool_decide (token <> End_)
  then throw (ExpectedEnd end_token_offset (Token_value token))
  else
    let* reader := get in
    let* remaining := lift (Reader.remaining reader) in
    if negb (remaining =? 0) then throw (TrailingData (Reader.position reader) remaining)
    else ret tt.

Definition new (bytes : list byte) (strings : Strings.t) : outcome StructureError t :=
  fst ((let* _ := read_root bytes in
        let* reader := get in
        let root_content_start := Reader.position reader in
        let* _ := scan_loop (fuel_of bytes) bytes strings root_content_start
                    (mkScan 1 PhaseProperties (Reader.position reader)) in
        let* _ := read_end bytes in
        ret (mk bytes))
       (Reader.new bytes)).

End Structure.
