(* ===== verification/FdtLex.v ===== *)
(** * The token grammar of a structure block

    The lexical specification the byte-level passes are compared with:
    [lex l] is the first item of a suffix [l] that starts on a four-byte
    boundary, and what follows it; [lexes] is its iteration.  The lemmas show
    that each sequence of [Reader] calls in the source consumes exactly one
    item, or fails when [lex] is undefined. *)

From Stdlib Require Import ZArith Lia Bool.
From Stdlib Require Import Strings.Byte Strings.String.
From stdpp Require Import base list numbers.
From S2P Require Import Prelude FdtReader FdtStrings FdtNames FdtStructure.
Local Open Scope Z_scope.

Inductive item :=
| IBegin (name : list byte)
| IEnd
| IProp (name_offset : Z) (value : list byte)
| INop
| IFinish.

#[export] Instance item_eq_decision : EqDecision item.
Proof. solve_decision. Defined.

Definition token_of (v : Z) : option Token :=
  if v =? 1 then Some BeginNode
  else if v =? 2 then Some EndNode
  else if v =? 3 then Some Property
  else if v =? 4 then Some Nop
  else if v =? 9 then Some End_
  else None.

Definition is_nop (it : item) : bool := match it with INop => true | _ => false end.

(** A NUL-terminated name and the padding after it. *)
Definition lex_name (l : list byte) : option (list byte * list byte) :=
  match Reader.cstr l with
  | None => None
  | Some n =>
      let k := zlen n + 1 in
      if k + Reader.pad k <=? zlen l then Some (n, zdrop (k + Reader.pad k) l) else None
  end.

(** The length, name offset and padded value of a property. *)
Definition lex_prop (l : list byte) : option (Z * list byte * list byte) :=
  if 8 <=? zlen l then
    let n := be_val (ztake 4 l) in
    let off := be_val (ztake 4 (zdrop 4 l)) in
    let l2 := zdrop 8 l in
    if n + Reader.pad n <=? zlen l2
    then Some (off, ztake n l2, zdrop (n + Reader.pad n) l2) else None
  else None.

Definition lex_token (l : list byte) : option (Token * list byte) :=
  if 4 <=? zlen l
  then match token_of (be_val (ztake 4 l)) with
       | Some t => Some (t, zdrop 4 l)
       | None => None
       end
  else None.

Definition lex (l : list byte) : option (item * list byte) :=
  match lex_token l with
  | None => None
  | Some (BeginNode, l1) =>
      match lex_name l1 with Some (n, l2) => Some (IBegin n, l2) | None => None end
  | Some (EndNode, l1) => Some (IEnd, l1)
  | Some (Property, l1) =>
      match lex_prop l1 with Some (off, v, l2) => Some (IProp off v, l2) | None => None end
  | Some (Nop, l1) => Some (INop, l1)
  | Some (End_, l1) => Some (IFinish, l1)
  end.

Inductive lexes : list byte -> list item -> list byte -> Prop :=
| lexes_nil l : lexes l [] l
| lexes_cons l it l1 its l' : lex l = Some (it, l1) -> lexes l1 its l' -> lexes l (it :: its) l'.

#[export] Hint Constructors lexes : prog.

Lemma lexes_nil_inv l l' : lexes l [] l' -> l' = l.
Proof. by inversion 1. Qed.

Lemma lexes_app l its l1 its' l2 :
  lexes l its l1 -> lexes l1 its' l2 -> lexes l (its ++ its') l2.
Proof. induction 1; cbn; eauto with prog. Qed.

Lemma lexes_fun l its l1 l2 : lexes l its l1 -> lexes l its l2 -> l1 = l2.
Proof.
  intros H. revert l2. induction H as [l|l it l1 its l' Hl H IH]; intros l2 H2; invc H2; [done|].
  apply IH. congruence.
Qed.

Lemma lexes_snoc l its l1 it l2 :
  lexes l its l1 -> lex l1 = Some (it, l2) -> lexes l (its ++ [it]) l2.
Proof. intros. eapply lexes_app; eauto with prog. Qed.

Lemma lexes_app_inv l its its' l2 :
  lexes l (its ++ its') l2 -> exists l1, lexes l its l1 /\ lexes l1 its' l2.
Proof.
  revert l. induction its as [|it its IH]; cbn; intros l H; [eauto with prog|].
  invc H. edestruct IH as (l1' & ? & ?); eauto with prog.
Qed.

(** ** Consumption *)

Lemma lex_token_drop l t l1 :
  lex_token l = Some (t, l1) -> l1 = zdrop 4 l /\ 4 <= zlen l.
Proof.
  unfold lex_token. destruct (4 <=? zlen l) eqn:E; [|done].
  destruct (token_of _); [|done]. intros [= <- <-]. zbool. auto.
Qed.

Lemma lex_name_drop l n l1 :
  lex_name l = Some (n, l1) ->
  let k := zlen n + 1 + Reader.pad (zlen n + 1) in
  l1 = zdrop k l /\ 0 < k <= zlen l /\ k mod 4 = 0.
Proof.
  unfold lex_name. destruct (Reader.cstr l); [|done]. destruct (_ <=? _) eqn:E; [|done].
  intros [= <- <-]. zbool. cbn zeta. split; [done|]. split; [|apply Reader.pad_aligned].
  pose proof (zlen_nonneg l0). pose proof (Reader.pad_range (zlen l0 + 1)). lia.
Qed.

Lemma lex_prop_drop l off v l1 :
  lex_prop l = Some (off, v, l1) ->
  let k := 8 + (zlen v + Reader.pad (zlen v)) in
  l1 = zdrop k l /\ 8 <= k <= zlen l /\ k mod 4 = 0 /\ is_u32 off.
Proof.
  unfold lex_prop. destruct (8 <=? zlen l) eqn:E; [|done].
  zbool. pose proof (be_val_range (ztake 4 l)) as Hn.
  rewrite zlen_ztake in Hn by lia.
  set (n := be_val (ztake 4 l)) in *.
  destruct (n + _ <=? _) eqn:F; [|done]. zbool. intros [= <- <- <-].
  pose proof (Reader.pad_range n). rewrite zlen_zdrop in F by lia.
  rewrite zlen_ztake by (rewrite zlen_zdrop by lia; lia). cbn zeta.
  rewrite zdrop_zdrop by lia. split; [done|]. split; [lia|]. split.
  - pose proof (Reader.pad_aligned n). Z.div_mod_to_equations. lia.
  - pose proof (be_val_range (ztake 4 (zdrop 4 l))) as Ho.
    rewrite zlen_ztake in Ho by (rewrite zlen_zdrop by lia; lia).
    unfold is_u32, u32_max. lia.
Qed.

Lemma lex_drop l it l1 :
  lex l = Some (it, l1) ->
  exists k, l1 = zdrop k l /\ 4 <= k <= zlen l /\ k mod 4 = 0.
Proof.
  unfold lex. destruct (lex_token l) as [[t l2]|] eqn:Ht; [|done].
  apply lex_token_drop in Ht as [-> Hl]. pose proof (zlen_zdrop 4 l ltac:(lia)) as Hl4.
  destruct t; intros H.
  - destruct (lex_name _) as [[n l3]|] eqn:Hn; [|done]. injection H as <- <-.
    apply lex_name_drop in Hn as (-> & ? & ?).
    set (k := zlen n + 1 + _) in *. exists (4 + k).
    rewrite zdrop_zdrop by lia. split; [done|]. split; [lia|]. Z.div_mod_to_equations. lia.
  - injection H as <- <-. exists 4. split; [done|]. split; [lia|done].
  - destruct (lex_prop _) as [[[off v] l3]|] eqn:Hn; [|done]. injection H as <- <-.
    apply lex_prop_drop in Hn as (-> & ? & ? & _).
    set (k := 8 + _) in *. exists (4 + k).
    rewrite zdrop_zdrop by lia. split; [done|]. split; [lia|]. Z.div_mod_to_equations. lia.
  - injection H as <- <-. exists 4. split; [done|]. split; [lia|done].
  - injection H as <- <-. exists 4. split; [done|]. split; [lia|done].
Qed.

Lemma lex_shorter l it l1 : lex l = Some (it, l1) -> zlen l1 + 4 <= zlen l.
Proof. intros (k & -> & ? & _)%lex_drop. rewrite zlen_zdrop by lia. lia. Qed.

Lemma lexes_shorter l its l1 : lexes l its l1 -> zlen l1 + 4 * zlen its <= zlen l.
Proof.
  induction 1 as [l|l it l1 its l' Hl _ IH]; autorewrite with zlen; [lia|].
  apply lex_shorter in Hl. lia.
Qed.

Lemma lexes_length l its l1 : lexes l its l1 -> (length its <= length l)%nat.
Proof. intros H%lexes_shorter. unfold zlen in H. lia. Qed.

(** ** Aligned readers *)

(** A reader over [bs] whose cursor is on a token boundary. *)
Definition on_token (bs : list byte) (r : Reader.t) : Prop :=
  Reader.wf r /\ Reader.offset r mod 4 = 0 /\ Reader.bytes r = bs.

Lemma on_token_adv bs n r :
  on_token bs r -> 0 <= n <= zlen (Reader.rest r) -> n mod 4 = 0 -> on_token bs (Reader.adv n r).
Proof.
  intros (Hw & Ha & Hb) Hn Hm. split; [by apply Reader.adv_wf|]. split; [|done].
  cbn. Z.div_mod_to_equations. lia.
Qed.

(** The offset of an aligned reader is fixed by what remains. *)
Lemma on_token_offset bs r :
  on_token bs r -> Reader.offset r = zlen bs - zlen (Reader.rest r).
Proof. intros (Hw & _ & <-). rewrite Reader.zlen_rest by done. lia. Qed.

Lemma on_token_eq bs r r' :
  on_token bs r -> on_token bs r' -> Reader.rest r = Reader.rest r' -> r = r'.
Proof.
  intros Hr Hr' He. pose proof (on_token_offset _ _ Hr). pose proof (on_token_offset _ _ Hr').
  destruct Hr as (_ & _ & Hb), Hr' as (_ & _ & Hb'). destruct r, r'. cbn in *. subst.
  f_equal. rewrite He in *. lia.
Qed.

Lemma on_token_u32 bs r :
  on_token bs r -> 4 <= zlen (Reader.rest r) -> is_u32 (be_val (ztake 4 (Reader.rest r))).
Proof.
  intros. pose proof (be_val_range (ztake 4 (Reader.rest r))) as H1.
  rewrite zlen_ztake in H1 by lia. unfold is_u32, u32_max. lia.
Qed.

Lemma Token_parse_eq v o :
  Token_parse v o = match token_of v with Some t => Ok t | None => Err (InvalidToken o v) end.
Proof. unfold Token_parse, token_of. cbn. repeat split_if; done. Qed.

(** Moving an aligned reader past an item. *)
Lemma lex_reader bs r it l :
  on_token bs r -> lex (Reader.rest r) = Some (it, l) ->
  exists r', on_token bs r' /\ Reader.rest r' = l.
Proof.
  intros Hr (k & -> & Hk & Hm)%lex_drop. exists (Reader.adv k r).
  split; [apply on_token_adv; auto; lia|]. apply Reader.rest_adv; [apply Hr|lia].
Qed.

(** The outcome of a piece of code that should consume what [o] describes:
    the value [f] extracts when [o] is defined, otherwise an error. *)
Definition reads {E X A} (bs : list byte) (o : option (X * list byte)) (f : X -> A)
    (res : outcome E A * Reader.t) : Prop :=
  match o with
  | Some (x, l) => exists r', res = (Ok (f x), r') /\ on_token bs r' /\ Reader.rest r' = l
  | None => exists e r', res = (Err e, r')
  end.

Lemma read_token_reads bs r :
  on_token bs r ->
  reads bs (lex_token (Reader.rest r)) (fun t => (Reader.offset r, t)) (Structure.read_token r).
Proof.
  intros Hr. pose proof Hr as (Hw & _). unfold Structure.read_token, Structure.read, lex_token.
  unfold_m. rewrite Reader.read_u32_eq by done.
  destruct (4 <=? zlen (Reader.rest r)) eqn:E; cbn; [|eauto]. zbool.
  rewrite Token_parse_eq. destruct (token_of _); cbn; [|eauto].
  eexists. split; [done|]. split.
  - apply on_token_adv; [done|lia|done].
  - apply Reader.rest_adv; [done|lia].
Qed.

(** The name of a node and its padding, with the error conversions of the
    caller left open. *)
Lemma read_name_reads {E} (f g : ReadError -> E) bs r :
  on_token bs r ->
  reads bs (lex_name (Reader.rest r)) id
    ((let* n := mmap_err f Reader.read_nul_terminated in
      let* _ := mmap_err g Reader.align_to_4 in ret n) r).
Proof.
  intros Hr. pose proof Hr as (Hw & Ha & Hb). unfold lex_name. unfold_m.
  rewrite Reader.read_nul_terminated_eq by done.
  destruct (Reader.cstr (Reader.rest r)) as [n|] eqn:Hc; cbn; [|eauto].
  pose proof Hc as (k & Hk & _)%Reader.cstr_Some.
  pose proof (zlen_nonneg n). pose proof (zlen_nonneg k).
  assert (zlen n + 1 <= zlen (Reader.rest r)) as Hle
    by (rewrite Hk; autorewrite with zlen; lia).
  assert (Reader.wf (Reader.adv (zlen n + 1) r)) as Hw1 by (apply Reader.adv_wf; auto; lia).
  rewrite Reader.align_to_4_eq by done.
  rewrite (Reader.pad_congr (Reader.offset (Reader.adv (zlen n + 1) r)) (zlen n + 1))
    by (cbn; Z.div_mod_to_equations; lia).
  rewrite Reader.rest_adv, zlen_zdrop by (done || lia).
  pose proof (Reader.pad_range (zlen n + 1)).
  destruct (_ + _ <=? _) eqn:Hfit; zbool.
  - replace (_ <=? _) with true by lia. cbn. eexists. split; [done|].
    rewrite Reader.adv_adv. split.
    + apply on_token_adv; [done|lia|apply Reader.pad_aligned].
    + apply Reader.rest_adv; [done|lia].
  - replace (_ <=? _) with false by lia. cbn. eauto.
Qed.

(** The two header words of a property. *)
Lemma read_prop_header {E} (f : ReadError -> E) bs r :
  on_token bs r -> 8 <= zlen (Reader.rest r) ->
  let l := Reader.rest r in
  mmap_err f Reader.read_u32 r = (Ok (be_val (ztake 4 l)), Reader.adv 4 r) /\
  mmap_err f Reader.read_u32 (Reader.adv 4 r) = (Ok (be_val (ztake 4 (zdrop 4 l))), Reader.adv 8 r) /\
  on_token bs (Reader.adv 8 r) /\ Reader.rest (Reader.adv 8 r) = zdrop 8 l.
Proof.
  intros Hr Hl. pose proof Hr as (Hw & Ha & Hb). cbn zeta. unfold mmap_err.
  rewrite (Reader.read_u32_eq r) by done. replace (4 <=? _) with true by lia.
  split; [done|].
  assert (Reader.wf (Reader.adv 4 r)) by (apply Reader.adv_wf; auto; lia).
  rewrite Reader.read_u32_eq by done. rewrite Reader.rest_adv by (done || lia).
  rewrite zlen_zdrop by lia. replace (4 <=? _) with true by lia.
  rewrite Reader.adv_adv. split; [done|]. split.
  - apply on_token_adv; [done|lia|done].
  - apply Reader.rest_adv; [done|lia].
Qed.

(** A short property header is an error of the first or the second read. *)
Lemma read_prop_short {E A} (f : ReadError -> E) bs r (k : Z -> Z -> M Reader.t E A) :
  on_token bs r -> zlen (Reader.rest r) < 8 ->
  exists e r', (let* n := mmap_err f Reader.read_u32 in
                let* o := mmap_err f Reader.read_u32 in k n o) r = (Err e, r').
Proof.
  intros Hr Hl. pose proof Hr as (Hw & Ha & Hb). unfold_m.
  rewrite (Reader.read_u32_eq r) by done.
  destruct (4 <=? _) eqn:E1; cbn; [|eauto]. zbool.
  rewrite Reader.read_u32_eq by (apply Reader.adv_wf; auto; lia).
  rewrite Reader.rest_adv, zlen_zdrop by (done || lia).
  replace (4 <=? _) with false by lia. cbn. eauto.
Qed.

(** The value of a property and its padding. *)
Lemma read_value_reads {E} (f : ReadError -> E) bs r n :
  on_token bs r -> 0 <= n ->
  reads bs (if n + Reader.pad n <=? zlen (Reader.rest r)
            then Some (ztake n (Reader.rest r), zdrop (n + Reader.pad n) (Reader.rest r))
            else None) id
    ((let* v := mmap_err f (Reader.read_bytes n) in
      let* _ := mmap_err f Reader.align_to_4 in ret v) r).
Proof.
  intros Hr Hn. pose proof Hr as (Hw & Ha & Hb). unfold_m.
  pose proof (Reader.pad_range n).
  rewrite Reader.read_bytes_eq by done.
  destruct (n <=? zlen (Reader.rest r)) eqn:E1; zbool; cbn.
  2:{ replace (_ <=? _) with false by lia. cbn. eauto. }
  assert (Reader.wf (Reader.adv n r)) by (apply Reader.adv_wf; auto; lia).
  rewrite Reader.align_to_4_eq by done.
  rewrite (Reader.pad_congr (Reader.offset (Reader.adv n r)) n)
    by (cbn; Z.div_mod_to_equations; lia).
  rewrite Reader.rest_adv, zlen_zdrop by (done || lia).
  destruct (n + Reader.pad n <=? _) eqn:E2; zbool.
  - replace (_ <=? _) with true by lia. cbn. eexists. split; [done|].
    rewrite Reader.adv_adv. split.
    + apply on_token_adv; [done|lia|apply Reader.pad_aligned].
    + apply Reader.rest_adv; [done|lia].
  - replace (_ <=? _) with false by lia. cbn. eauto.
Qed.
