(* ===== verification/FdtTree.v ===== *)
(** * Devicetrees as trees: the abstract specification of a structure block

    A [tree] is what the bytes mean.  [flat t] is its token sequence, [wf_tree]
    the naming rules (valid names, no two properties of a node and no two
    children with one name).  [step] is the item-level machine the validating
    pass implements: a stack of open nodes.  [run_closed_iff] shows that the
    machine accepts exactly the token sequences of well-formed trees, with
    NOPs anywhere. *)

From Stdlib Require Import ZArith Lia Bool.
From Stdlib Require Import Strings.Byte Strings.String.
From stdpp Require Import base list numbers.
From S2P Require Import Prelude FdtReader FdtStrings FdtNames FdtStructure FdtLex.
Local Open Scope Z_scope.
Set Warnings "-register-all".

(** A property keeps the strings-block offset of its name. *)
Record prop := mkProp { prop_off : Z; prop_value : list byte }.

Inductive tree := Node (name : list byte) (props : list prop) (kids : list tree).

Definition tree_name (t : tree) : list byte := let 'Node n _ _ := t in n.
Definition tree_props (t : tree) : list prop := let 'Node _ p _ := t in p.
Definition tree_kids (t : tree) : list tree := let 'Node _ _ k := t in k.

(** Induction that sees the children. *)
Lemma tree_ind' (P : tree -> Prop) :
  (forall n ps ks, Forall P ks -> P (Node n ps ks)) -> forall t, P t.
Proof.
  intros H. fix IH 1. intros [n ps ks]. apply H.
  induction ks as [|k ks IHks]; constructor; [apply IH|exact IHks].
Qed.

Definition prop_item (p : prop) : item := IProp (prop_off p) (prop_value p).

Fixpoint flat (t : tree) : list item :=
  let 'Node n ps ks := t in
  IBegin n :: map prop_item ps ++ concat (map flat ks) ++ [IEnd].

(** A tree and its descendants, depth first. *)
Fixpoint preorder (t : tree) : list tree :=
  let 'Node _ _ ks := t in t :: concat (map preorder ks).

Definition flat_content (ps : list prop) (ks : list tree) : list item :=
  map prop_item ps ++ concat (map flat ks).

(** The items of a node after its name. *)
Definition body (t : tree) : list item := flat_content (tree_props t) (tree_kids t) ++ [IEnd].

Lemma flat_body t : flat t = IBegin (tree_name t) :: body t.
Proof. destruct t. unfold body, flat_content. cbn. by rewrite <- app_assoc. Qed.

Definition denop (its : list item) : list item := List.filter (fun it => negb (is_nop it)) its.

Lemma denop_app a b : denop (a ++ b) = denop a ++ denop b.
Proof. apply List.filter_app. Qed.

Lemma denop_cons it its : is_nop it = false -> denop (it :: its) = it :: denop its.
Proof. unfold denop. cbn [List.filter]. by intros ->. Qed.

Lemma denop_cons_split its it its' :
  denop its = it :: its' ->
  exists nops tail, its = nops ++ it :: tail /\ denop nops = [] /\ is_nop it = false /\
                    denop tail = its'.
Proof.
  revert it its'. induction its as [|i its IH]; intros it its' H; [done|].
  unfold denop in H. cbn [List.filter] in H. destruct (is_nop i) eqn:Hi.
  - destruct (IH it its' H) as (nops & tail & -> & Hn & Ht).
    exists (i :: nops), tail. split; [done|]. split; [|done].
    unfold denop. cbn [List.filter]. by rewrite Hi.
  - injection H as <- <-. by exists [], its.
Qed.

Lemma denop_app_split its a b :
  denop its = a ++ b -> exists i1 i2, its = i1 ++ i2 /\ denop i1 = a /\ denop i2 = b.
Proof.
  revert its. induction a as [|x a IH]; intros its H; [by exists [], its|].
  apply denop_cons_split in H as (nops & tail & -> & Hn & Hx & Ht).
  apply IH in Ht as (i1 & i2 & -> & <- & <-). exists (nops ++ x :: i1), i2.
  split; [by rewrite <- app_assoc|]. split; [|done]. by rewrite denop_app, Hn, denop_cons.
Qed.

Section rules.
Context (strings : Strings.t).

Definition prop_name (p : prop) : option (list byte) :=
  match Strings.validate_property_name strings (prop_off p) with
  | Ok n => Some n
  | _ => None
  end.

Inductive wf_tree : tree -> Prop :=
| wf_node n ps ks :
    Forall (fun p => is_Some (prop_name p)) ps ->
    NoDup (map prop_name ps) ->
    Forall (fun k => Name.valid (tree_name k)) ks ->
    NoDup (map tree_name ks) ->
    Forall wf_tree ks ->
    wf_tree (Node n ps ks).

(** ** The item machine *)

Record frame := mkFrame { f_name : list byte; f_props : list prop; f_kids : list tree }.

Definition frame_tree (f : frame) : tree := Node (f_name f) (f_props f) (f_kids f).
Definition kid_names (f : frame) : list (list byte) := map tree_name (f_kids f).

Inductive mstate :=
| Open (top : frame) (below : list frame)
| Closed (t : tree).

Definition fresh (n : list byte) : frame := mkFrame n [] [].
Definition add_kid (t : tree) (g : frame) : frame :=
  mkFrame (f_name g) (f_props g) (f_kids g ++ [t]).
Definition add_prop (p : prop) (g : frame) : frame :=
  mkFrame (f_name g) (f_props g ++ [p]) (f_kids g).

Definition step (m : mstate) (it : item) : option mstate :=
  match m, it with
  | _, INop => Some m
  | Open f fs, IProp off v =>
      let p := mkProp off v in
      if bool_decide (f_kids f = []) && bool_decide (is_Some (prop_name p))
         && bool_decide (prop_name p ∉ map prop_name (f_props f))
      then Some (Open (add_prop p f) fs) else None
  | Open f fs, IBegin n =>
      if bool_decide (Name.validate n = Ok tt) && bool_decide (n ∉ kid_names f)
      then Some (Open (fresh n) (f :: fs)) else None
  | Open f fs, IEnd =>
      match fs with
      | [] => Some (Closed (frame_tree f))
      | g :: gs => Some (Open (add_kid (frame_tree f) g) gs)
      end
  | _, _ => None
  end.

Fixpoint run (m : mstate) (its : list item) : option mstate :=
  match its with
  | [] => Some m
  | it :: its' => match step m it with Some m' => run m' its' | None => None end
  end.

Lemma run_app m its its' :
  run m (its ++ its') = match run m its with Some m' => run m' its' | None => None end.
Proof.
  revert m. induction its as [|it its IH]; cbn; intros m; [done|].
  destruct (step m it); [apply IH|done].
Qed.

Lemma step_nop m : step m INop = Some m.
Proof. by destruct m. Qed.

Lemma run_denop m its : run m (denop its) = run m its.
Proof.
  revert m. induction its as [|it its IH]; intros m; [done|].
  unfold denop. cbn [List.filter]. destruct it; cbn [is_nop negb run].
  4: { rewrite step_nop. apply IH. }
  all: destruct (step m _); [apply IH|done].
Qed.

Lemma run_closed t its m : run (Closed t) its = Some m -> m = Closed t /\ denop its = [].
Proof.
  induction its as [|it its IH]; cbn; [by intros [= <-]|].
  destruct it; cbn; try done.
Qed.

Lemma run_nops m its : denop its = [] -> run m its = Some m.
Proof. intros H. by rewrite <- run_denop, H. Qed.

(** *** Soundness: the items seen so far spell the open frames *)

Definition frame_items (f : frame) : list item := flat_content (f_props f) (f_kids f).

Fixpoint trace (f : frame) (fs : list frame) : list item :=
  match fs with
  | [] => frame_items f
  | g :: gs => trace g gs ++ IBegin (f_name f) :: frame_items f
  end.

Fixpoint bottom (f : frame) (fs : list frame) : frame :=
  match fs with [] => f | g :: gs => bottom g gs end.

Record frame_ok (f : frame) : Prop := {
  fo_props : Forall (fun p => is_Some (prop_name p)) (f_props f);
  fo_nodup : NoDup (map prop_name (f_props f));
  fo_names : Forall (fun k => Name.valid (tree_name k)) (f_kids f);
  fo_kids : NoDup (kid_names f);
  fo_wf : Forall wf_tree (f_kids f);
}.

(** The open children have valid names that their parents do not have yet. *)
Fixpoint stack_ok (f : frame) (fs : list frame) : Prop :=
  frame_ok f /\
  match fs with
  | [] => True
  | g :: gs => Name.valid (f_name f) /\ (f_name f ∉ kid_names g) /\ stack_ok g gs
  end.

Lemma frame_ok_fresh n : frame_ok (fresh n).
Proof. split; cbn; constructor. Qed.

Lemma frame_ok_tree f : frame_ok f -> wf_tree (frame_tree f).
Proof. intros [? ? ? ? ?]. by constructor. Qed.

Lemma frame_ok_add_kid t g :
  frame_ok g -> wf_tree t -> Name.valid (tree_name t) -> tree_name t ∉ kid_names g ->
  frame_ok (add_kid t g).
Proof.
  intros [? ? ? ? ?] Ht Hv Hn. unfold kid_names in *.
  split; unfold kid_names; cbn; [done|done| | |].
  - rewrite Forall_app. eauto.
  - rewrite map_app. apply list.NoDup_app. split; [done|]. split; [|apply NoDup_singleton].
    intros x Hx Hx'%list_elem_of_singleton. by subst.
  - rewrite Forall_app. eauto.
Qed.

Lemma frame_ok_add_prop p g :
  frame_ok g -> is_Some (prop_name p) -> prop_name p ∉ map prop_name (f_props g) ->
  frame_ok (add_prop p g).
Proof.
  intros [? ? ? ? ?] Hs Hn. split; cbn; [| |done|done|done].
  - rewrite Forall_app. eauto.
  - rewrite map_app. apply list.NoDup_app. split; [done|]. split; [|apply NoDup_singleton].
    intros x Hx Hx'%list_elem_of_singleton. by subst.
Qed.

Lemma flat_content_snoc_kid ps ks t :
  flat_content ps (ks ++ [t]) = flat_content ps ks ++ flat t.
Proof.
  unfold flat_content. rewrite map_app, concat_app, app_assoc. cbn. by rewrite app_nil_r.
Qed.

Lemma trace_add_kid t g gs : trace (add_kid t g) gs = trace g gs ++ flat t.
Proof.
  destruct gs as [|h gs]; cbn [trace]; unfold frame_items, add_kid;
    cbn [f_props f_kids f_name]; rewrite flat_content_snoc_kid; [done|].
  by rewrite <- app_assoc.
Qed.

Lemma trace_add_prop p f fs :
  f_kids f = [] -> trace (add_prop p f) fs = trace f fs ++ [prop_item p].
Proof.
  intros Hk. destruct fs as [|g gs]; cbn [trace]; unfold frame_items, flat_content, add_prop;
    cbn [f_props f_kids f_name]; rewrite Hk; cbn [map concat];
    rewrite !app_nil_r, map_app; [done|]. by rewrite <- app_assoc.
Qed.

Lemma bottom_name_add_kid t g gs : f_name (bottom (add_kid t g) gs) = f_name (bottom g gs).
Proof. by destruct gs. Qed.

Lemma bottom_name_add_prop p f fs : f_name (bottom (add_prop p f) fs) = f_name (bottom f fs).
Proof. by destruct fs. Qed.

Definition state_ok (m : mstate) : Prop :=
  match m with Open f fs => stack_ok f fs | Closed t => wf_tree t end.
Definition state_trace (m : mstate) : list item :=
  match m with Open f fs => trace f fs | Closed t => body t end.
Definition state_name (m : mstate) : list byte :=
  match m with Open f fs => f_name (bottom f fs) | Closed t => tree_name t end.

Lemma stack_ok_top f fs : stack_ok f fs -> frame_ok f.
Proof. destruct fs; cbn; tauto. Qed.

Lemma stack_ok_replace f f' fs :
  f_name f' = f_name f -> frame_ok f' -> stack_ok f fs -> stack_ok f' fs.
Proof. intros Hn Hf. destruct fs; cbn; [tauto|]. rewrite Hn. tauto. Qed.

Lemma step_begin f fs n m' :
  step (Open f fs) (IBegin n) = Some m' <->
  Name.valid n /\ (n ∉ kid_names f) /\ m' = Open (fresh n) (f :: fs).
Proof.
  cbn [step]. rewrite <- Name.validate_Ok_iff. destruct (_ && _) eqn:Hc.
  - apply andb_true_iff in Hc as [Hv Hn]. apply bool_decide_eq_true in Hv, Hn.
    split; [by intros [= <-]|]. by intros (_ & _ & ->).
  - split; [done|]. intros (Hv & Hn & _). exfalso.
    rewrite !bool_decide_eq_true_2 in Hc by done. discriminate.
Qed.

Lemma step_prop f fs off v m' :
  step (Open f fs) (IProp off v) = Some m' <->
  let p := mkProp off v in
  f_kids f = [] /\ is_Some (prop_name p) /\ (prop_name p ∉ map prop_name (f_props f)) /\
  m' = Open (add_prop p f) fs.
Proof.
  cbn [step]. cbn zeta. destruct (_ && _) eqn:Hc.
  - apply andb_true_iff in Hc as [[Hk Hp]%andb_true_iff Hd].
    apply bool_decide_eq_true in Hk, Hp, Hd.
    split; [by intros [= <-]|]. by intros (_ & _ & _ & ->).
  - split; [done|]. intros (Hk & Hp & Hd & _). exfalso.
    rewrite !bool_decide_eq_true_2 in Hc by done. discriminate.
Qed.

Lemma step_sound m it m' :
  step m it = Some m' -> state_ok m ->
  state_ok m' /\ state_trace m' = state_trace m ++ denop [it] /\ state_name m' = state_name m.
Proof.
  destruct m as [f fs|t], it; intros Hs Hok; try discriminate Hs.
  - apply step_begin in Hs as (Hv & Hn & ->). split; [|split; done].
    split; [apply frame_ok_fresh|]. done.
  - destruct fs as [|g gs]; injection Hs as <-; cbn [state_ok state_trace state_name] in *.
    + split; [apply frame_ok_tree, Hok|]. done.
    + destruct Hok as (Hf & Hv & Hn & Hg). split; [|split].
      * eapply (stack_ok_replace g); [done| |done].
        apply frame_ok_add_kid; eauto using stack_ok_top, frame_ok_tree.
      * rewrite trace_add_kid, flat_body. cbn [trace]. rewrite <- app_assoc. done.
      * exact (bottom_name_add_kid (frame_tree f) g gs).
  - apply step_prop in Hs as (Hk & Hp & Hd & ->).
    cbn [state_ok state_trace state_name] in *. split; [|split].
    + eapply (stack_ok_replace f); [done| |done].
      eapply frame_ok_add_prop; eauto using stack_ok_top.
    + by rewrite trace_add_prop.
    + apply bottom_name_add_prop.
  - injection Hs as <-. rewrite app_nil_r. done.
  - injection Hs as <-. rewrite app_nil_r. done.
Qed.

Lemma run_sound m its m' :
  run m its = Some m' -> state_ok m ->
  state_ok m' /\ state_trace m' = state_trace m ++ denop its /\ state_name m' = state_name m.
Proof.
  revert m. induction its as [|it its IH]; cbn [run]; intros m Hr Hok.
  - injection Hr as <-. by rewrite app_nil_r.
  - destruct (step m it) as [m1|] eqn:Hs; [|done].
    apply step_sound in Hs as (Hok1 & Ht & Hn); [|done].
    apply IH in Hr as (Hok' & Ht' & Hn'); [|done].
    split; [done|]. split; [|congruence].
    rewrite Ht', Ht, <- app_assoc, <- denop_app. done.
Qed.

(** *** Completeness *)

Lemma run_props f fs ps :
  f_kids f = [] -> Forall (fun p => is_Some (prop_name p)) ps ->
  NoDup (map prop_name (f_props f ++ ps)) ->
  run (Open f fs) (map prop_item ps) =
    Some (Open (mkFrame (f_name f) (f_props f ++ ps) []) fs).
Proof.
  revert f. induction ps as [|p ps IH]; intros f Hk Hs Hd.
  - rewrite app_nil_r. cbn. destruct f. cbn in *. by subst.
  - apply Forall_cons_1 in Hs as [Hp Hs]. cbn [map run prop_item step].
    destruct p as [off v]. cbn [prop_off prop_value] in *.
    rewrite map_app in Hd. cbn in Hd. pose proof Hd as (_ & Hx & _)%list.NoDup_app.
    rewrite bool_decide_eq_true_2 by done. rewrite bool_decide_eq_true_2 by done.
    rewrite bool_decide_eq_true_2; cbn.
    2: { intros Hin. apply (Hx _ Hin). left. }
    rewrite IH; cbn.
    + by rewrite <- app_assoc.
    + done.
    + done.
    + rewrite <- app_assoc, map_app. done.
Qed.

Lemma run_kids_with ks f fs :
  Forall (fun t => forall f fs,
    wf_tree t -> Name.valid (tree_name t) -> (tree_name t ∉ kid_names f) ->
    run (Open f fs) (flat t) = Some (Open (add_kid t f) fs)) ks ->
  Forall wf_tree ks -> Forall (fun k => Name.valid (tree_name k)) ks ->
  NoDup (map tree_name (f_kids f ++ ks)) ->
  run (Open f fs) (concat (map flat ks)) =
    Some (Open (mkFrame (f_name f) (f_props f) (f_kids f ++ ks)) fs).
Proof.
  revert f. induction ks as [|k ks IH]; intros f Hr Hw Hv Hd; cbn [map concat].
  - rewrite app_nil_r. by destruct f.
  - apply Forall_cons_1 in Hr as [Hrk Hr]. apply Forall_cons_1 in Hw as [Hk Hw].
    apply Forall_cons_1 in Hv as [Hvk Hv].
    rewrite run_app, Hrk; [|done|done|].
    + rewrite IH; cbn; [|done|done|done|].
      * by rewrite <- app_assoc.
      * by rewrite <- app_assoc.
    + unfold kid_names. rewrite map_app in Hd. cbn in Hd.
      apply list.NoDup_app in Hd as (_ & Hx & _). intros Hin. apply (Hx _ Hin). left.
Qed.

Lemma run_flat t f fs :
  wf_tree t -> Name.valid (tree_name t) -> tree_name t ∉ kid_names f ->
  run (Open f fs) (flat t) = Some (Open (add_kid t f) fs).
Proof.
  revert f fs. induction t as [n ps ks IH] using tree_ind'. intros f fs Hwf Hv Hn.
  inversion Hwf as [n' ps' ks' Hps Hdp Hkv Hkd Hkw]; subst n' ps' ks'.
  cbn [flat tree_name] in *. cbn [run step]. apply Name.validate_Ok_iff in Hv.
  rewrite bool_decide_eq_true_2 by done. rewrite bool_decide_eq_true_2 by done. cbn [andb].
  rewrite run_app, run_props by done. cbn [f_name f_props fresh app].
  rewrite run_app, run_kids_with by done. done.
Qed.

Lemma run_kids ks f fs :
  Forall wf_tree ks -> Forall (fun k => Name.valid (tree_name k)) ks ->
  NoDup (map tree_name (f_kids f ++ ks)) ->
  run (Open f fs) (concat (map flat ks)) =
    Some (Open (mkFrame (f_name f) (f_props f) (f_kids f ++ ks)) fs).
Proof.
  intros. apply run_kids_with; try done. apply Forall_forall. intros. by apply run_flat.
Qed.

Lemma run_body t :
  wf_tree t -> run (Open (fresh (tree_name t)) []) (body t) = Some (Closed t).
Proof.
  intros Hwf. inversion Hwf; subst. unfold body, flat_content. cbn [tree_name tree_props tree_kids].
  rewrite <- app_assoc, run_app, run_props by done. cbn [f_name f_props fresh app].
  rewrite run_app, run_kids by done. done.
Qed.

(** The machine accepts exactly the token sequences of well-formed trees. *)
Lemma run_closed_iff n its t :
  run (Open (fresh n) []) its = Some (Closed t) <->
  denop its = body t /\ tree_name t = n /\ wf_tree t.
Proof.
  split.
  - intros (Hok & Ht & Hn)%run_sound; [|split; [apply frame_ok_fresh|done]].
    cbn in *. auto.
  - intros (Hd & <- & Hw). rewrite <- run_denop, Hd. by apply run_body.
Qed.
End rules.

(** What it means for a structure block to encode a tree. *)
Definition encodes (strings : Strings.t) (bs : list byte) (t : tree) : Prop :=
  (exists its, lexes bs (its ++ [IFinish]) [] /\ denop its = flat t) /\
  tree_name t = [] /\ wf_tree strings t.
