(* ===== verification/FdtScan.v ===== *)
(** * The rescans of the structure pass

    [find_prior_sibling_node] and [find_property] read the already validated
    prefix a second time.  Both return a hit exactly when the abstract machine
    of [FdtTree] would reject the new name as a duplicate, and neither can
    fail or panic there. *)

From Stdlib Require Import ZArith Lia Bool.
From Stdlib Require Import Strings.Byte Strings.String.
From stdpp Require Import base list numbers.
From S2P Require Import Prelude FdtReader FdtStrings FdtNames FdtStructure FdtLex FdtTree.
Local Open Scope Z_scope.

(** A name read in two calls, followed by [k]. *)
Lemma bind_pair {S E A U B} (m : M S E A) (m' : M S E U) (k : A -> M S E B) s :
  (let* n := m in let* _ := m' in k n) s =
  (let* n := (let* n := m in let* _ := m' in ret n) in k n) s.
Proof.
  unfold_m. destruct (m s) as [[a|e| |] s1]; try done. by destruct (m' s1) as [[u|e| |] s2].
Qed.

Lemma bind_Ok {S E A B} (m : M S E A) (k : A -> M S E B) s a s' :
  m s = (Ok a, s') -> bind m k s = k a s'.
Proof. intros H. unfold bind. by rewrite H. Qed.

Lemma bind_Err {S E A B} (m : M S E A) (k : A -> M S E B) s e s' :
  m s = (Err e, s') -> bind m k s = (Err e, s').
Proof. intros H. unfold bind. by rewrite H. Qed.

(** What [lex] says once the token is known. *)
Lemma lex_of_token l t l1 :
  lex_token l = Some (t, l1) ->
  lex l = match t with
          | BeginNode => option_map (fun p => (IBegin (fst p), snd p)) (lex_name l1)
          | EndNode => Some (IEnd, l1)
          | Property => option_map (fun p => (IProp (fst (fst p)) (snd (fst p)), snd p)) (lex_prop l1)
          | Nop => Some (INop, l1)
          | End_ => Some (IFinish, l1)
          end.
Proof.
  intros H. unfold lex. rewrite H. destruct t; try done.
  - by destruct (lex_name l1) as [[? ?]|].
  - by destruct (lex_prop l1) as [[[? ?] ?]|].
Qed.

Lemma lex_no_token l : lex_token l = None -> lex l = None.
Proof. intros H. unfold lex. by rewrite H. Qed.

(** ** Names at a level of the stack *)

Fixpoint open_names (n : list byte) (fs : list frame) : list (list (list byte)) :=
  match fs with
  | [] => []
  | g :: gs => (kid_names g ++ [n]) :: open_names (f_name g) gs
  end.

(** For each open node, innermost first, the names of its children so far,
    the open one included. *)
Definition names_stack (f : frame) (fs : list frame) : list (list (list byte)) :=
  kid_names f :: open_names (f_name f) fs.

Lemma names_stack_add_kid f g gs :
  names_stack (add_kid (frame_tree f) g) gs = open_names (f_name f) (g :: gs).
Proof. unfold names_stack, kid_names, add_kid. cbn. by rewrite map_app. Qed.

Definition height (fs : list frame) : Z := 1 + zlen fs.

Lemma height_cons g gs : height (g :: gs) = height gs + 1.
Proof. unfold height. rewrite zlen_cons. lia. Qed.

Lemma height_pos fs : 1 <= height fs.
Proof. unfold height. pose proof (zlen_nonneg fs). lia. Qed.

(** Whether [matching] answers for [name] at level [d] of the stack. *)
Definition matches (d : Z) (name : list byte) (f : frame) (fs : list frame)
    (matching : option Z) : Prop :=
  d <= height fs ->
  exists l, names_stack f fs !! Z.to_nat (height fs - d) = Some l /\
            (matching <> None <-> name ∈ l).

Lemma matches_final d name f fs matching :
  d = height fs -> matches d name f fs matching -> (matching <> None <-> name ∈ kid_names f).
Proof.
  intros -> H. destruct (H ltac:(lia)) as (l & Hl & Hm).
  rewrite Z.sub_diag in Hl. injection Hl as <-. done.
Qed.

Lemma matches_end d name f g gs matching :
  matches d name f (g :: gs) matching -> matches d name (add_kid (frame_tree f) g) gs matching.
Proof.
  unfold matches. rewrite height_cons. intros H Hd. rewrite names_stack_add_kid.
  destruct H as (l & Hl & Hm); [lia|].
  exists l. split; [|done].
  replace (Z.to_nat (height gs + 1 - d)) with (S (Z.to_nat (height gs - d))) in Hl by lia.
  exact Hl.
Qed.

Lemma matches_begin d name n o f fs matching :
  matches d name f fs matching ->
  let m1 := if (height fs =? d) && bool_decide (n = name) then Some o else matching in
  let m2 := if height fs + 1 =? d then None else m1 in
  matches d name (fresh n) (f :: fs) m2.
Proof.
  intros H m1 m2 Hd. rewrite height_cons in *. unfold names_stack. cbn [open_names kid_names fresh].
  unfold m2. destruct (height fs + 1 =? d) eqn:E1; zbool.
  { replace (height fs + 1 - d) with 0 by lia. exists []. split; [done|].
    split; [done|]. intros Hin. by apply not_elem_of_nil in Hin. }
  destruct H as (l & Hl & Hm); [lia|].
  replace (Z.to_nat (height fs + 1 - d)) with (S (Z.to_nat (height fs - d))) by lia.
  unfold m1. destruct (height fs =? d) eqn:E2; zbool; cbn [andb].
  - replace (height fs - d) with 0 in * by lia. cbn in Hl |- *. injection Hl as <-.
    exists (kid_names f ++ [n]). split; [done|]. rewrite elem_of_app, list_elem_of_singleton.
    case_bool_decide as Hn; [subst; split; auto; done|]. rewrite Hm.
    split; [by left|]. intros [?|?]; congruence.
  - destruct (Z.to_nat (height fs - d)) as [|k] eqn:Ek; [lia|].
    exists l. split; [exact Hl|done].
Qed.

Section rescans.
Context (blob : list byte) (strings : Strings.t).

(** ** One round of a rescan

    A rescan reads items up to the offset [stop], whose items are known. *)

Lemma rescan_end r stop :
  on_token blob r -> 0 <= stop <= zlen blob -> lexes (Reader.rest r) [] (zdrop stop blob) ->
  (Reader.position r <? stop) = false.
Proof.
  intros Hr Hs Hlex%lexes_nil_inv. pose proof (on_token_offset _ _ Hr) as Ho. unfold Reader.position.
  rewrite <- Hlex, zlen_zdrop in Ho by lia. lia.
Qed.

Lemma rescan_next r it its stop :
  on_token blob r -> 0 <= stop <= zlen blob -> lexes (Reader.rest r) (it :: its) (zdrop stop blob) ->
  (Reader.position r <? stop) = true /\
  exists t r0 l, Structure.read_token r = (Ok (Reader.offset r, t), r0) /\ on_token blob r0 /\
    lex_token (Reader.rest r) = Some (t, Reader.rest r0) /\ lex (Reader.rest r) = Some (it, l) /\
    lexes l its (zdrop stop blob).
Proof.
  intros Hr Hs Hlex. pose proof (on_token_offset _ _ Hr) as Ho. inversion Hlex as [|? ? l ? ? Hit Hrest]; subst. split.
  - unfold Reader.position. apply lex_shorter in Hit. apply lexes_shorter in Hrest.
    rewrite zlen_zdrop in Hrest by lia. pose proof (zlen_nonneg its). lia.
  - pose proof (read_token_reads blob r Hr) as Htok.
    destruct (lex_token (Reader.rest r)) as [[t l0]|] eqn:Ht; [|by rewrite lex_no_token in Hit].
    destruct Htok as (r0 & Hrd & Hr0 & Hl0). exists t, r0, l. rewrite Hl0. by split_and!.
Qed.

(** The two words of a property, and its value. *)
Lemma rescan_property r off v l :
  on_token blob r -> lex_prop (Reader.rest r) = Some (off, v, l) ->
  exists len r1 r2 r3, 0 <= len /\ Structure.read Reader.read_u32 r = (Ok len, r1) /\
    Structure.read Reader.read_u32 r1 = (Ok off, r2) /\
    (let* v := Structure.read (Reader.read_bytes len) in let* _ := Structure.read Reader.align_to_4 in ret v) r2 =
      (Ok v, r3) /\ on_token blob r3 /\ Reader.rest r3 = l.
Proof.
  intros Hr Hp. unfold lex_prop in Hp. destruct (8 <=? zlen (Reader.rest r)) eqn:H8; [|done]. zbool.
  destruct (read_prop_header Read blob r Hr H8) as (Hh1 & Hh2 & Hr8 & Hl8).
  set (len := be_val (ztake 4 (Reader.rest r))) in *. assert (0 <= len) by apply be_val_range.
  pose proof (read_value_reads Read blob _ len Hr8 ltac:(done)) as Hrv. rewrite Hl8 in Hrv.
  destruct (len + _ <=? _) eqn:Hfit; [|done]. injection Hp as <- <- <-. destruct Hrv as (r3 & Hrd & Hr3 & Hl3).
  by exists len, (Reader.adv 4 r), (Reader.adv 8 r), r3.
Qed.

Lemma prior_sibling_loop_spec fuel its node_offset d name :
  forall depth matching r f fs f' fs',
    (length its < fuel)%nat ->
    on_token blob r -> 0 <= node_offset <= zlen blob ->
    lexes (Reader.rest r) its (zdrop node_offset blob) ->
    run strings (Open f fs) its = Some (Open f' fs') ->
    depth = height fs -> depth + zlen its <= usize_max ->
    d = height fs' -> matches d name f fs matching ->
    exists res r',
      Structure.prior_sibling_loop fuel node_offset d name depth matching r = (Ok res, r') /\
      (res <> None <-> name ∈ kid_names f').
Proof.
  revert fuel. induction its as [|it its IH];
    intros fuel depth matching r f fs f' fs' Hfuel Hr Hno Hlex Hrun Hdepth Hmax Hd Hm;
    (destruct fuel as [|fuel]; [lia|]); cbn [Structure.prior_sibling_loop]; rewrite (bind_Ok _ _ _ r r) by done.
  { rewrite (rescan_end r node_offset) by done. cbn [run] in Hrun. injection Hrun as <- <-.
    exists matching, r. split; [done|]. by eapply matches_final. }
  destruct (rescan_next r it its node_offset Hr Hno Hlex) as (-> & t & r0 & l1 & Hrd & Hr0 & Ht & Hit & Hrest).
  rewrite (lex_of_token _ _ _ Ht) in Hit.
  rewrite (bind_Ok _ _ _ _ _ Hrd). cbn [run] in Hrun.
  destruct (step strings (Open f fs) it) as [m1|] eqn:Hstep; [|done].
  subst depth d.
  rewrite zlen_cons in Hmax. pose proof (zlen_nonneg its) as Hits. cbn [length] in Hfuel. destruct t.
  - (* BeginNode *)
    destruct (lex_name (Reader.rest r0)) as [[n l2]|] eqn:Hn; [|done]. injection Hit as <- <-.
    apply step_begin in Hstep as (_ & _ & ->). rewrite bind_pair.
    pose proof (read_name_reads Read Read blob r0 Hr0) as Hrn. rewrite Hn in Hrn.
    destruct Hrn as (r1 & Hrd1 & Hr1 & Hl1). rewrite (bind_Ok _ _ _ _ _ Hrd1).
    unfold uadd, checked_add. replace (height fs + 1 <=? usize_max) with true by lia.
    rewrite (bind_Ok _ _ _ (height fs + 1) r1) by done.
    eapply IH; try eassumption; try lia; try rewrite height_cons; try lia.
    + by rewrite Hl1.
    + apply (matches_begin (height fs') name n (Reader.offset r)). done.
  - (* EndNode *)
    injection Hit as <- <-. destruct fs as [|g gs]; injection Hstep as <-.
    { apply run_closed in Hrun as [? _]. done. }
    unfold usub, checked_sub. rewrite height_cons in *. pose proof (height_pos gs).
    replace (1 <=? height gs + 1) with true by lia.
    rewrite (bind_Ok _ _ _ (height gs + 1 - 1) r0) by done.
    eapply IH; try eassumption; try lia. by apply matches_end.
  - (* Property *)
    destruct (lex_prop (Reader.rest r0)) as [[[off v] l2]|] eqn:Hp; [|done]. injection Hit as <- <-.
    apply step_prop in Hstep as (_ & _ & _ & ->).
    destruct (rescan_property r0 off v l2 Hr0 Hp) as (len & r1 & r2 & r3 & _ & H1 & H2 & H3 & Hr3 & Hl3).
    rewrite (bind_Ok _ _ _ _ _ H1), (bind_Ok _ _ _ _ _ H2). unfold usize_from_u32.
    rewrite (bind_pair (Structure.read (Reader.read_bytes len)) (Structure.read Reader.align_to_4) (fun _ => _)).
    rewrite (bind_Ok _ _ _ _ _ H3). eapply IH; try eassumption; try lia. by rewrite Hl3.
  - (* Nop *)
    injection Hit as <- <-. rewrite step_nop in Hstep. injection Hstep as <-. eapply IH; try eassumption; lia.
  - (* End *)
    injection Hit as <- <-. done.
Qed.

Lemma find_property_loop_spec fuel its properties_end name : forall r ps,
  (length its < fuel)%nat ->
  on_token blob r -> 0 <= properties_end <= zlen blob ->
  lexes (Reader.rest r) its (zdrop properties_end blob) ->
  denop its = map prop_item ps -> Forall (fun p => is_Some (prop_name strings p)) ps ->
  exists res r',
    Structure.find_property_loop fuel properties_end name strings r = (Ok res, r') /\
    (res <> None <-> Some name ∈ map (prop_name strings) ps).
Proof.
  revert fuel. induction its as [|it its IH]; intros fuel r ps Hfuel Hr Hpe Hlex Hps Hok;
    (destruct fuel as [|fuel]; [lia|]); cbn [Structure.find_property_loop]; rewrite (bind_Ok _ _ _ r r) by done.
  { rewrite (rescan_end r properties_end) by done. destruct ps; [|done].
    exists None, r. split; [done|]. split; [done|]. by intros ?%not_elem_of_nil. }
  destruct (rescan_next r it its properties_end Hr Hpe Hlex) as (-> & t & r0 & l1 & Hrd & Hr0 & Ht & Hit & Hrest).
  rewrite (lex_of_token _ _ _ Ht) in Hit.
  rewrite (bind_Ok _ _ _ _ _ Hrd). cbn [length] in Hfuel. destruct t.
  - destruct (lex_name (Reader.rest r0)) as [[n l2]|]; [|done]. injection Hit as <- <-. by destruct ps.
  - injection Hit as <- <-. by destruct ps.
  - rewrite bool_decide_eq_false_2 by done.
    destruct (lex_prop (Reader.rest r0)) as [[[off v] l2]|] eqn:Hp; [|done]. injection Hit as <- <-.
    destruct ps as [|[off' v'] ps]; [done|]. injection Hps as <- <- Hps.
    apply Forall_cons_1 in Hok as [[nm Hnm] Hok]. unfold prop_name in Hnm. cbn [prop_off] in Hnm.
    destruct (rescan_property r0 off v l2 Hr0 Hp) as (len & r1 & r2 & r3 & _ & H1 & H2 & H3 & Hr3 & Hl3).
    rewrite (bind_Ok _ _ _ _ _ H1), (bind_Ok _ _ _ _ _ H2). unfold usize_from_u32.
    destruct (Strings.validate_property_name strings off) as [nm'| | |] eqn:Hv; try done.
    injection Hnm as ->. rewrite (bind_Ok _ _ _ nm _) by done.
    cbn [map]. unfold prop_name at 1. cbn [prop_off]. rewrite Hv.
    case_bool_decide as Hname.
    { exists (Some (Reader.offset r)). eexists. split; [done|]. subst. split; [by left|done]. }
    rewrite (bind_pair (Structure.read (Reader.read_bytes len)) (Structure.read Reader.align_to_4) (fun _ => _)).
    rewrite (bind_Ok _ _ _ _ _ H3).
    destruct (IH fuel r3 ps) as (res & r' & Hres & Hiff); try done; [lia|by rewrite Hl3|].
    exists res, r'. split; [done|]. rewrite Hiff, elem_of_cons. split; [by right|].
    intros [[=]|?]; [congruence|done].
  - injection Hit as <- <-. rewrite bool_decide_eq_true_2 by done. apply IH; try done. lia.
  - injection Hit as <- <-. by destruct ps.
Qed.

(** ** The two checks as the pass calls them *)

Lemma skip_to start r :
  r = Reader.new blob -> 0 <= start <= zlen blob -> zlen blob <= isize_max -> start mod 4 = 0 ->
  exists r', Structure.read (Reader.read_bytes start) r = (Ok (ztake start blob), r') /\
    on_token blob r' /\ Reader.rest r' = zdrop start blob.
Proof.
  intros -> Hs Hb Hm. assert (on_token blob (Reader.new blob)) as Hr.
  { split; [by apply Reader.new_wf|done]. }
  unfold Structure.read, mmap_err. rewrite Reader.read_bytes_eq by (apply Hr || lia).
  change (Reader.rest (Reader.new blob)) with blob.
  replace (start <=? zlen blob) with true by lia. eexists. split; [done|]. split.
  - apply on_token_adv; [done|exact Hs|done].
  - rewrite Reader.rest_adv; [done|apply Hr|lia].
Qed.

Lemma fuel_of_enough its start l' :
  lexes (zdrop start blob) its l' -> (length its < Structure.fuel_of blob)%nat.
Proof.
  intros H%lexes_length. unfold Structure.fuel_of, zdrop in *. rewrite length_drop in H. lia.
Qed.

End rescans.
