(* ===== verification/FdtPass.v ===== *)
(** * The validating pass against the tree grammar

    [Structure.new] accepts a byte string exactly when it encodes a
    well-formed tree (FdtTree.encodes), and otherwise returns an error: it
    neither panics nor runs out of fuel. *)

From Stdlib Require Import ZArith Lia Bool.
From Stdlib Require Import Strings.Byte Strings.String.
From stdpp Require Import base list numbers.
From S2P Require Import Prelude FdtReader FdtStrings FdtNames FdtStructure FdtLex FdtTree FdtScan.
Local Open Scope Z_scope.

(** A guard between reading a name and skipping its padding. *)
Lemma bind_guard_Ok {S E A U} (m : M S E A) (V : A -> outcome E unit) (g : M S E U) s n s' :
  (let* n := m in let* _ := g in ret n) s = (Ok n, s') ->
  no_panic (V n) ->
  (forall B (k : A -> M S E B),
     (let* n := m in let* _ := lift (V n) in let* _ := g in k n) s = k n s') /\ V n = Ok tt
  \/ V n <> Ok tt /\ (forall B (k : A -> M S E B),
       exists e r, (let* n := m in let* _ := lift (V n) in let* _ := g in k n) s = (Err e, r)).
Proof.
  unfold_m. destruct (m s) as [[a|e| |] s1]; try discriminate.
  destruct (g s1) as [[u|e| |] s2] eqn:Hg; try discriminate. intros [= -> ->] Hp.
  destruct (V n) as [[]|e| |]; try done; [by left|right; eauto].
Qed.

Lemma bind_guard_Err {S E A U B} (m : M S E A) (V : A -> outcome E unit) (g : M S E U)
    (k : A -> M S E B) s :
  (exists e s', (let* n := m in let* _ := g in ret n) s = (Err e, s')) ->
  (forall n, no_panic (V n)) ->
  exists e s', (let* n := m in let* _ := lift (V n) in let* _ := g in k n) s = (Err e, s').
Proof.
  unfold_m. intros (e & s' & H) Hp. destruct (m s) as [[a|e1| |] s1]; try discriminate; [|eauto].
  specialize (Hp a). destruct (V a) as [[]|e1| |]; try done; [|eauto].
  destruct (g s1) as [[u|e1| |] s2] eqn:Hg; try discriminate. eauto.
Qed.

Section pass.
Context (blob : list byte) (strings : Strings.t).
Context (Hblob : zlen blob <= isize_max) (Hstrings : Strings.wf strings).

Section content.
Context (start : Z) (Hstart : 0 <= start <= zlen blob) (Hstart4 : start mod 4 = 0).

(** What the loop of [new] maintains at a token boundary, [f :: fs] being the
    open nodes. *)
Record inv (st : Structure.scan) (r : Reader.t) (f : frame) (fs : list frame) : Prop := {
  inv_reader : on_token blob r;
  inv_depth : Structure.depth st = height fs;
  inv_hist : exists hist, lexes (zdrop start blob) hist (Reader.rest r) /\
                          run strings (Open (fresh []) []) hist = Some (Open f fs);
  inv_phase : Structure.phase st = PhaseChildren <-> f_kids f <> [];
  inv_props : Structure.phase st = PhaseProperties ->
    let p := Structure.properties_start st in
    0 <= p <= zlen blob /\ p mod 4 = 0 /\
    exists phist, lexes (zdrop p blob) phist (Reader.rest r) /\
                  denop phist = map prop_item (f_props f);
}.

Lemma rest_at r : on_token blob r ->
  Reader.rest r = zdrop (Reader.offset r) blob /\ 0 <= Reader.offset r <= zlen blob.
Proof. intros (Hw & _ & Hb). unfold Reader.rest, Reader.wf in *. rewrite Hb in *. split; [done|lia]. Qed.

Lemma hist_bound hist l : lexes (zdrop start blob) hist l -> 4 * zlen hist <= isize_max.
Proof.
  intros H%lexes_shorter. rewrite zlen_zdrop in H by lia. pose proof (zlen_nonneg l). lia.
Qed.

(** The stack is no higher than the items seen. *)
Lemma run_height its f fs f' fs' :
  run strings (Open f fs) its = Some (Open f' fs') -> height fs' <= height fs + zlen its.
Proof.
  revert f fs. induction its as [|it its IH]; intros f fs; cbn [run].
  - intros [= <- <-]. rewrite zlen_nil. lia.
  - destruct (step strings (Open f fs) it) as [[g gs|t]|] eqn:Hs; [| |done].
    2:{ intros H. by apply run_closed in H as [? _]. }
    intros H%IH. rewrite zlen_cons. enough (height gs <= height fs + 1) by lia.
    destruct it.
    + apply step_begin in Hs as (_ & _ & [= -> ->]). rewrite height_cons. lia.
    + destruct fs; [done|]. injection Hs as <- <-. rewrite height_cons. lia.
    + apply step_prop in Hs as (_ & _ & _ & [= -> ->]). lia.
    + injection Hs as <- <-. lia.
    + done.
Qed.

Lemma inv_height st r f fs : inv st r f fs -> height fs + 1 <= usize_max.
Proof.
  intros []. destruct inv_hist0 as (hist & Hl & Hr). apply run_height in Hr.
  apply hist_bound in Hl. unfold height at 2 in Hr. rewrite zlen_nil in Hr.
  unfold isize_max, usize_max in *. lia.
Qed.

Lemma find_prior_sibling_node_spec st r f fs name :
  inv st r f fs ->
  exists res, Structure.find_prior_sibling_node blob start (Reader.offset r)
                (Structure.depth st) name = Ok res /\ (res <> None <-> name ∈ kid_names f).
Proof.
  intros [Hr Hd (hist & Hl & Hrun) _ _]. unfold Structure.find_prior_sibling_node.
  destruct (skip_to blob start _ eq_refl Hstart Hblob Hstart4) as (r0 & Hs & Hr0 & Hl0).
  rewrite (bind_Ok _ _ _ _ _ Hs). destruct (rest_at r Hr) as [Hrest Hoff].
  destruct (prior_sibling_loop_spec blob strings (Structure.fuel_of blob) hist (Reader.offset r)
    (Structure.depth st) name 1 None r0 (fresh []) [] f fs) as (res & r' & Hres & Hiff); try done.
  - by eapply fuel_of_enough.
  - by rewrite Hl0, <- Hrest.
  - apply hist_bound in Hl. unfold isize_max, usize_max in *. lia.
  - intros Hh. exists []. pose proof (height_pos fs). change (height []) with 1 in *.
    replace (1 - Structure.depth st) with 0 by lia. split; [done|].
    split; [done|]. by intros ?%not_elem_of_nil.
  - exists res. by rewrite Hres.
Qed.

Lemma find_property_spec st r f fs name :
  inv st r f fs -> Structure.phase st = PhaseProperties ->
  Forall (fun p => is_Some (prop_name strings p)) (f_props f) ->
  exists res, Structure.find_property blob (Structure.properties_start st) (Reader.offset r)
                name strings = Ok res /\
              (res <> None <-> Some name ∈ map (prop_name strings) (f_props f)).
Proof.
  intros [Hr _ _ _ Hp] Hph Hok. destruct (Hp Hph) as (Hps & Hps4 & phist & Hl & Hdn).
  unfold Structure.find_property.
  destruct (skip_to blob _ _ eq_refl Hps Hblob Hps4) as (r0 & Hs & Hr0 & Hl0).
  rewrite (bind_Ok _ _ _ _ _ Hs). destruct (rest_at r Hr) as [Hrest Hoff].
  destruct (find_property_loop_spec blob strings (Structure.fuel_of blob) phist (Reader.offset r)
    name r0 (f_props f)) as (res & r' & Hres & Hiff); try done.
  - by eapply fuel_of_enough.
  - by rewrite Hl0, <- Hrest.
  - exists res. by rewrite Hres.
Qed.

Lemma inv_props_ok st r f fs :
  inv st r f fs -> Forall (fun p => is_Some (prop_name strings p)) (f_props f).
Proof.
  intros []. destruct inv_hist0 as (hist & _ & Hrun).
  apply run_sound in Hrun as (Hok & _); [|split; [apply frame_ok_fresh|done]].
  apply (fo_props _ _ (stack_ok_top _ _ _ Hok)).
Qed.

Lemma hist_snoc st r f fs it l m' :
  inv st r f fs -> lex (Reader.rest r) = Some (it, l) ->
  step strings (Open f fs) it = Some m' ->
  exists hist, lexes (zdrop start blob) hist l /\
               run strings (Open (fresh []) []) hist = Some m'.
Proof.
  intros [_ _ (hist & Hl & Hr) _ _] Hlex Hs. exists (hist ++ [it]).
  split; [by eapply lexes_snoc|]. rewrite run_app, Hr. cbn [run]. by rewrite Hs.
Qed.

(** Where an iteration of the loop must end up. *)
Definition step_post (it : item) (l : list byte) (f : frame) (fs : list frame)
    (res : outcome StructureError Structure.scan * Reader.t) : Prop :=
  match step strings (Open f fs) it with
  | Some m' =>
      exists st' r', res = (Ok st', r') /\ on_token blob r' /\ Reader.rest r' = l /\
        match m' with
        | Open f' fs' => inv st' r' f' fs'
        | Closed _ => Structure.depth st' = 0
        end
  | None => exists e r', res = (Err e, r')
  end.

Definition step_spec (f : frame) (fs : list frame) (r : Reader.t)
    (res : outcome StructureError Structure.scan * Reader.t) : Prop :=
  match lex (Reader.rest r) with
  | Some (it, l) => step_post it l f fs res
  | None => exists e r', res = (Err e, r')
  end.

Lemma scan_step_begin st r f fs l0 r0 :
  inv st r f fs -> lex_token (Reader.rest r) = Some (BeginNode, l0) ->
  Structure.read_token r = (Ok (Reader.offset r, BeginNode), r0) ->
  on_token blob r0 -> Reader.rest r0 = l0 ->
  step_spec f fs r (Structure.scan_step blob strings start st r).
Proof.
  intros Hi Ht Hrd Hr0 Hl0. unfold step_spec, Structure.scan_step.
  rewrite (bind_Ok _ _ _ _ _ Hrd), (bind_Ok _ _ _ r0 r0) by done.
  pose proof (lex_of_token _ _ _ Ht) as Hlex.
  pose proof (read_name_reads (fun _ => UnterminatedNodeName (Reader.position r0)) Read
    blob r0 Hr0) as Hn.
  set (V := fun n => map_err (InvalidNodeName (Reader.offset r) (Reader.position r0)
      (Structure.depth st)) (Name.validate n)).
  rewrite Hl0 in Hn. destruct (lex_name l0) as [[n l]|] eqn:Hln.
  2:{ rewrite Hlex. cbn [option_map]. hnf in Hn. refine (bind_guard_Err _ V (Structure.read Reader.align_to_4) _ r0 Hn _). intros n. apply no_panic_map_err, Name.validate_no_panic. }
  destruct Hn as (r1 & Hrd1 & Hr1 & Hl1). rewrite Hlex. cbn [option_map fst snd].
  unfold step_post.
  destruct (bind_guard_Ok _ V _ _ _ _ Hrd1) as [[Heq Hv]|[Hv He]];
    [apply no_panic_map_err, Name.validate_no_panic| |]; unfold V, id in *.
  - rewrite Heq.
    assert (Name.validate n = Ok tt) as Hv' by (destruct (Name.validate n) as [[]|e| |]; done).
    destruct (find_prior_sibling_node_spec st r f fs n Hi) as (res & Hfind & Hiff).
    change (lift _ r1) with
      (Structure.find_prior_sibling_node blob start (Reader.offset r) (Structure.depth st) n, r1).
    rewrite (bind_Ok _ _ _ res r1) by (unfold lift; by rewrite Hfind).
    destruct (step strings (Open f fs) (IBegin n)) as [m'|] eqn:Hs.
    + pose proof (hist_snoc _ _ _ _ _ _ _ Hi Hlex Hs) as Hh.
      apply step_begin in Hs as (_ & Hnin & ->).
      destruct res as [o|]; [exfalso; apply Hnin, Hiff; done|].
      pose proof (inv_height _ _ _ _ Hi). rewrite (inv_depth _ _ _ _ Hi).
      unfold uadd, checked_add. replace (height fs + 1 <=? usize_max) with true by lia.
      eexists _, r1. split; [done|]. split; [done|]. split; [done|]. destruct (rest_at r1 Hr1).
      pose proof Hr1 as (_ & Ha & _).
      split; cbn; try done; [by rewrite height_cons|by rewrite Hl1|].
      intros _. split; [done|]. split; [done|]. exists []. split; [|done].
      rewrite H0. constructor.
    + destruct res as [o|]; [by eexists _, _|]. exfalso.
      enough (step strings (Open f fs) (IBegin n) = Some (Open (fresh n) (f :: fs))) by congruence.
      apply step_begin. rewrite <- Name.validate_Ok_iff. split; [done|]. split; [|done].
      intros Hin%Hiff. done.
  - destruct (step strings (Open f fs) (IBegin n)) as [m'|] eqn:Hs; [|apply He].
    apply step_begin in Hs as (Hv' & _ & _). apply Name.validate_Ok_iff in Hv'.
    by rewrite Hv' in Hv.
Qed.

Lemma inv_phase_kids st r f fs :
  inv st r f fs -> f_kids f <> [] \/ f_kids f = [] /\ Structure.phase st = PhaseProperties.
Proof.
  intros [_ _ _ Hp _]. destruct (f_kids f); [right|by left].
  split; [done|]. destruct (Structure.phase st); [done|]. by destruct Hp as [[] _].
Qed.

(** A property item leaves the variables of the loop alone. *)
Lemma inv_add_prop st r f fs off v r' l :
  inv st r f fs -> Structure.phase st = PhaseProperties ->
  lex (Reader.rest r) = Some (IProp off v, l) ->
  step strings (Open f fs) (IProp off v) = Some (Open (add_prop (mkProp off v) f) fs) ->
  on_token blob r' -> Reader.rest r' = l ->
  inv st r' (add_prop (mkProp off v) f) fs.
Proof.
  intros Hi Hph Hlex Hs Hr' Hl'. pose proof (hist_snoc _ _ _ _ _ _ _ Hi Hlex Hs) as Hh.
  apply step_prop in Hs as (Hk & _). destruct Hi as [Hr Hd _ Hkids Hp].
  split; cbn; try done; [by rewrite Hl'|].
  intros _. destruct (Hp Hph) as (Hps & Hps4 & phist & Hpl & Hpd).
  split; [done|]. split; [done|]. exists (phist ++ [IProp off v]). rewrite Hl'.
  split; [by eapply lexes_snoc|]. by rewrite denop_app, Hpd, map_app.
Qed.

(** Where [validate_property] must end up. *)
Definition property_post (f : frame) (fs : list frame) (o : option (Z * list byte * list byte))
    (res : outcome StructureError unit * Reader.t) : Prop :=
  match o with
  | Some (off, v, l) =>
      match step strings (Open f fs) (IProp off v) with
      | Some _ => exists r', res = (Ok tt, r') /\ on_token blob r' /\ Reader.rest r' = l
      | None => exists e r', res = (Err e, r')
      end
  | None => exists e r', res = (Err e, r')
  end.

Lemma validate_property_spec st r f fs r0 :
  inv st r f fs -> Structure.phase st = PhaseProperties -> f_kids f = [] ->
  on_token blob r0 ->
  property_post f fs (lex_prop (Reader.rest r0))
    (Structure.validate_property blob strings (Structure.properties_start st)
       (Reader.offset r) (Structure.depth st) r0).
Proof.
  intros Hi Hph Hk Hr0. unfold Structure.validate_property, lex_prop.
  unfold Structure.read. destruct (8 <=? zlen (Reader.rest r0)) eqn:H8; zbool;
    [|by eapply read_prop_short].
  destruct (read_prop_header Read blob r0 Hr0 H8) as (Hh1 & Hh2 & Hr8 & Hl8).
  rewrite (bind_Ok _ _ _ _ _ Hh1), (bind_Ok _ _ _ _ _ Hh2).
  unfold usize_from_u32. set (len := be_val (ztake 4 (Reader.rest r0))) in *.
  set (off := be_val (ztake 4 (zdrop 4 _))) in *.
  assert (0 <= len) by apply be_val_range. assert (0 <= off) by apply be_val_range.
  pose proof (Strings.validate_property_name_no_panic strings off Hstrings ltac:(done)) as Hnp.
  pose proof (read_value_reads Read blob _ len Hr8 ltac:(done)) as Hrv. rewrite Hl8 in Hrv.
  destruct (Strings.validate_property_name strings off) as [nm|e| |] eqn:Hv; try done; cbn [map_err].
  2:{ destruct (len + _ <=? _); [|by eexists _, _]. unfold property_post.
      destruct (step strings _ _) eqn:Hs; [|by eexists _, _].
      apply step_prop in Hs as (_ & [x Hx] & _). unfold prop_name in Hx. cbn in Hx. by rewrite Hv in Hx. }
  rewrite (bind_Ok _ _ _ nm _) by done.
  rewrite (bind_pair (mmap_err Read (Reader.read_bytes len)) (mmap_err Read Reader.align_to_4)
    (fun _ => _)).
  destruct (len + _ <=? _) eqn:Hfit.
  2:{ destruct Hrv as (e & r1 & Hrd1). rewrite (bind_Err _ _ _ _ _ Hrd1). by eexists _, _. }
  destruct Hrv as (r1 & Hrd1 & Hr1 & Hl1). rewrite (bind_Ok _ _ _ _ _ Hrd1).
  destruct (find_property_spec _ _ _ _ nm Hi Hph (inv_props_ok _ _ _ _ Hi)) as (res & Hf & Hiff).
  rewrite (bind_Ok _ _ _ res r1) by (unfold lift; by rewrite Hf).
  set (v := ztake _ _). unfold property_post.
  assert (prop_name strings (mkProp off v) = Some nm) as Hpn
    by (unfold prop_name; cbn [prop_off]; by rewrite Hv).
  destruct (step strings (Open f fs) (IProp off v)) as [m'|] eqn:Hs.
  - apply step_prop in Hs as (_ & _ & Hnin & _). rewrite Hpn in Hnin.
    destruct res as [o|]; [exfalso; by apply Hnin, Hiff|]. by exists r1.
  - destruct res as [o|]; [by eexists _, _|]. exfalso.
    enough (step strings (Open f fs) (IProp off v) = Some (Open (add_prop (mkProp off v) f) fs))
      by congruence.
    apply step_prop. cbn zeta. rewrite Hpn. split; [done|]. split; [done|]. split; [|done].
    by intros Hin%Hiff.
Qed.

Lemma scan_step_property st r f fs l0 r0 :
  inv st r f fs -> lex_token (Reader.rest r) = Some (Property, l0) ->
  Structure.read_token r = (Ok (Reader.offset r, Property), r0) ->
  on_token blob r0 -> Reader.rest r0 = l0 ->
  step_spec f fs r (Structure.scan_step blob strings start st r).
Proof.
  intros Hi Ht Hrd Hr0 Hl0. unfold step_spec, Structure.scan_step, step_post.
  rewrite (bind_Ok _ _ _ _ _ Hrd). pose proof (lex_of_token _ _ _ Ht) as Hlex.
  destruct (inv_phase_kids _ _ _ _ Hi) as [Hk|[Hk Hph]].
  - apply (inv_phase _ _ _ _ Hi) in Hk as Hph. rewrite bool_decide_eq_true_2 by done.
    destruct (lex (Reader.rest r)) as [[it l]|]; [|by eexists _, _].
    destruct (lex_prop l0) as [[[off v] l2]|]; [|done]. injection Hlex as -> ->.
    destruct (step strings _ _) eqn:Hs; [|by eexists _, _]. by apply step_prop in Hs as (? & _).
  - rewrite bool_decide_eq_false_2 by (by rewrite Hph). subst l0.
    pose proof (validate_property_spec _ _ _ _ _ Hi Hph Hk Hr0) as Hvp. unfold property_post in Hvp.
    destruct (lex_prop (Reader.rest r0)) as [[[off v] l2]|]; rewrite Hlex; cbn [option_map fst snd] in *.
    2:{ destruct Hvp as (e & r' & Hvp). rewrite (bind_Err _ _ _ _ _ Hvp). by eexists _, _. }
    destruct (step strings (Open f fs) (IProp off v)) as [m'|] eqn:Hs.
    + destruct Hvp as (r' & Hvp & Hr' & Hl'). rewrite (bind_Ok _ _ _ _ _ Hvp).
      exists st, r'. split; [done|]. split; [done|]. split; [done|].
      pose proof Hs as (_ & _ & _ & ->)%step_prop. eapply inv_add_prop; eauto.
    + destruct Hvp as (e & r' & Hvp). rewrite (bind_Err _ _ _ _ _ Hvp). by eexists _, _.
Qed.

Lemma inv_nop st r f fs r' l :
  inv st r f fs -> lex (Reader.rest r) = Some (INop, l) -> on_token blob r' ->
  Reader.rest r' = l -> inv st r' f fs.
Proof.
  intros Hi Hlex Hr' Hl'.
  pose proof (hist_snoc _ _ _ _ _ _ _ Hi Hlex (step_nop strings (Open f fs))) as Hh.
  destruct Hi as [Hr Hd _ Hk Hp]. split; try done; [by rewrite Hl'|].
  intros Hph. destruct (Hp Hph) as (Hps & Hps4 & phist & Hpl & Hpd).
  split; [done|]. split; [done|]. exists (phist ++ [INop]). rewrite Hl'.
  split; [by eapply lexes_snoc|]. by rewrite denop_app, Hpd, app_nil_r.
Qed.

Lemma inv_end st r f g gs r' l :
  inv st r f (g :: gs) -> lex (Reader.rest r) = Some (IEnd, l) -> on_token blob r' ->
  Reader.rest r' = l ->
  inv (Structure.mkScan (Structure.depth st - 1) PhaseChildren (Structure.properties_start st))
    r' (add_kid (frame_tree f) g) gs.
Proof.
  intros Hi Hlex Hr' Hl'.
  pose proof (hist_snoc _ _ _ _ _ _ (Open (add_kid (frame_tree f) g) gs) Hi Hlex eq_refl) as Hh.
  destruct Hi as [Hr Hd _ Hk Hp]. rewrite height_cons in Hd.
  split; cbn; try done; [lia|by rewrite Hl'|].
  split; [|done]. intros _ Ha. apply app_eq_nil in Ha as [_ Ha]. done.
Qed.

Lemma scan_step_refines st r f fs :
  inv st r f fs -> step_spec f fs r (Structure.scan_step blob strings start st r).
Proof.
  intros Hi. pose proof (inv_reader _ _ _ _ Hi) as Hr.
  pose proof (read_token_reads blob r Hr) as Htok.
  destruct (lex_token (Reader.rest r)) as [[t l0]|] eqn:Ht.
  2:{ destruct Htok as (e & r0 & Htok). unfold step_spec, Structure.scan_step.
      rewrite lex_no_token by done. rewrite (bind_Err _ _ _ _ _ Htok). by eexists _, _. }
  destruct Htok as (r0 & Hrd & Hr0 & Hl0).
  destruct t; [by eapply scan_step_begin| |by eapply scan_step_property| |];
    unfold step_spec, step_post, Structure.scan_step; rewrite (bind_Ok _ _ _ _ _ Hrd);
    pose proof (lex_of_token _ _ _ Ht) as Hlex; rewrite Hlex; cbn [fst snd].
  - (* EndNode *)
    pose proof (inv_depth _ _ _ _ Hi) as Hd. pose proof (height_pos fs).
    unfold usub, checked_sub. replace (1 <=? Structure.depth st) with true by lia.
    destruct fs as [|g gs]; cbn [step].
    + eexists _, r0. split; [done|]. split; [done|]. split; [done|]. cbn.
      change (height []) with 1 in Hd. lia.
    + rewrite height_cons in Hd. pose proof (height_pos gs).
      eexists _, r0. split; [done|]. split; [done|]. split; [done|]. cbn [fst snd].
      replace (0 <? Structure.depth st - 1) with true by lia.
      by eapply (inv_end _ _ _ _ _ _ l0 Hi Hlex).
  - rewrite step_nop. exists st, r0. split; [done|]. split; [done|]. split; [done|].
    by eapply (inv_nop _ _ _ _ _ l0 Hi Hlex).
  - cbn. by eexists _, _.
Qed.

(** The loop: it stops right after the item that closes the root. *)
Definition loop_post (f : frame) (fs : list frame) (l : list byte)
    (res : outcome StructureError unit * Reader.t) : Prop :=
  (exists r' its t, res = (Ok tt, r') /\ on_token blob r' /\
     lexes l its (Reader.rest r') /\ run strings (Open f fs) its = Some (Closed t) /\
     (forall its2 l2 t2, lexes l its2 l2 -> run strings (Open f fs) its2 = Some (Closed t2) ->
        exists tail, its2 = its ++ tail)) \/
  (exists e r', res = (Err e, r')) /\
  (forall its2 l2 t2, lexes l its2 l2 -> run strings (Open f fs) its2 <> Some (Closed t2)).

Lemma scan_loop_closed fuel st r :
  Structure.depth st = 0 -> Structure.scan_loop (S fuel) blob strings start st r = (Ok tt, r).
Proof. intros H. cbn. by rewrite H. Qed.

Lemma scan_loop_spec fuel : forall st r f fs,
  inv st r f fs -> zlen (Reader.rest r) + 1 < Z.of_nat fuel ->
  loop_post f fs (Reader.rest r) (Structure.scan_loop fuel blob strings start st r).
Proof.
  induction fuel as [|fuel IH]; intros st r f fs Hi Hfuel;
    [pose proof (zlen_nonneg (Reader.rest r)); lia|].
  cbn [Structure.scan_loop]. rewrite (inv_depth _ _ _ _ Hi). pose proof (height_pos fs).
  replace (0 <? height fs) with true by lia.
  pose proof (scan_step_refines st r f fs Hi) as Hstep. unfold step_spec, step_post in Hstep.
  destruct (lex (Reader.rest r)) as [[it l]|] eqn:Hlex.
  2:{ right. destruct Hstep as (e & r' & Hs). split; [eexists _, _; by apply bind_Err|].
      intros its2 l2 t2 Hl2 Hr2. inversion Hl2; subst; [done|congruence]. }
  destruct (step strings (Open f fs) it) as [m'|] eqn:Hs.
  2:{ right. destruct Hstep as (e & r' & Hst). split; [eexists _, _; by apply bind_Err|].
      intros its2 l2 t2 Hl2 Hr2. inversion Hl2; subst; [done|].
      cbn [run] in Hr2. assert (it0 = it) as -> by congruence. by rewrite Hs in Hr2. }
  destruct Hstep as (st' & r' & Hst & Hr' & Hl' & Hm). rewrite (bind_Ok _ _ _ _ _ Hst).
  pose proof (lex_shorter _ _ _ Hlex) as Hsh. subst l.
  pose proof (zlen_nonneg (Reader.rest r')).
  destruct m' as [f' fs'|t].
  - destruct (IH st' r' f' fs' Hm ltac:(lia)) as
      [(r2 & its & t & Hres & Hr2 & Hl2 & Hrun & Hmin)|[He Hno]]; [left|right].
    + exists r2, (it :: its), t. split; [done|]. split; [done|].
      split; [by econstructor|]. split; [cbn [run]; by rewrite Hs|].
      intros its2 l2 t2 Hl3 Hr3. inversion Hl3; subst; [done|].
      cbn [run] in Hr3. assert (it0 = it) as -> by congruence. rewrite Hs in Hr3.
      assert (l1 = Reader.rest r') as -> by congruence.
      destruct (Hmin _ _ _ H2 Hr3) as (tail & ->). by exists tail.
    + split; [done|]. intros its2 l2 t2 Hl3 Hr3. inversion Hl3; subst; [done|].
      cbn [run] in Hr3. assert (it0 = it) as -> by congruence. rewrite Hs in Hr3.
      assert (l1 = Reader.rest r') as -> by congruence. by apply (Hno _ _ _ H2 Hr3).
  - left. destruct fuel as [|fuel]; [lia|]. exists r', [it], t.
    split; [by apply scan_loop_closed|]. split; [done|].
    split; [econstructor; [done|constructor]|]. split; [cbn [run]; by rewrite Hs|].
    intros its2 l2 t2 Hl3 Hr3. inversion Hl3; subst; [done|].
    assert (it0 = it) as -> by congruence. by eexists.
Qed.

End content.
(** ** NOPs, the root and the end *)

(** [n] NOPs and then a token that is not one. *)
Definition nops_then (l : list byte) (nops : list item) (l1 : list byte) (t : Token)
    (l2 : list byte) : Prop :=
  lexes l nops l1 /\ denop nops = [] /\ lex_token l1 = Some (t, l2) /\ t <> Nop.

Lemma nops_then_unique l n1 l1 t l2 : forall n2 k1 u k2,
  nops_then l n1 l1 t l2 -> nops_then l n2 k1 u k2 -> n1 = n2 /\ l1 = k1 /\ t = u /\ l2 = k2.
Proof.
  intros n2 k1 u k2 (H1 & Hd1 & Ht1 & Hn1). revert n2 k1 u k2 Hd1 Ht1.
  assert (forall l n it l' k, lexes l (it :: n) l' -> denop (it :: n) = [] ->
    lex_token l = Some k -> fst k = Nop) as Hhead.
  { intros l0 n it l' [t0 k] H Hd Ht. inversion H; subst. rewrite (lex_of_token _ _ _ Ht) in *.
    destruct it; try done. destruct t0; try done; [by destruct (lex_name k) as [[? ?]|]
      |by destruct (lex_prop k) as [[[? ?] ?]|]]. }
  induction H1 as [l|l it l1 its l' Hl H1 IH]; intros n2 k1 u k2 Hd1 Ht1 (H2 & Hd2 & Ht2 & Hn2).
  - inversion H2; subst.
    + split; [done|]. split; [done|]. split; congruence.
    + by eapply Hhead in H2; [| |done].
  - inversion H2; subst.
    + by eapply (Hhead k1 its it) in Ht2; [|by econstructor|].
    + assert (it0 = it) as -> by congruence. assert (l3 = l1) as -> by congruence.
      unfold denop in Hd1, Hd2. cbn [List.filter] in Hd1, Hd2.
      destruct (negb (is_nop it)); [done|].
      destruct (IH its0 k1 u k2) as (-> & -> & -> & ->); try done.
Qed.

Lemma read_non_nop_token_spec fuel : forall r,
  on_token blob r -> zlen (Reader.rest r) < Z.of_nat fuel ->
  (exists r' nops l1 t o, Structure.read_non_nop_token fuel r = (Ok (o, t), r') /\
     on_token blob r' /\ nops_then (Reader.rest r) nops l1 t (Reader.rest r') /\
     o = zlen blob - zlen l1) \/
  (exists e r', Structure.read_non_nop_token fuel r = (Err e, r')) /\
  (forall nops l1 t l2, ~ nops_then (Reader.rest r) nops l1 t l2).
Proof.
  induction fuel as [|fuel IH]; intros r Hr Hf; [pose proof (zlen_nonneg (Reader.rest r)); lia|].
  cbn [Structure.read_non_nop_token]. pose proof (read_token_reads blob r Hr) as Htok.
  destruct (lex_token (Reader.rest r)) as [[t l0]|] eqn:Ht.
  2:{ right. destruct Htok as (e & r' & Htok). split; [eexists _, _; by apply bind_Err|].
      intros nops l1 t l2 (H & Hd & Ht1 & _). inversion H; subst; [congruence|].
      rewrite lex_no_token in * by done. done. }
  destruct Htok as (r0 & Hrd & Hr0 & <-). rewrite (bind_Ok _ _ _ _ _ Hrd). cbn [fst snd].
  case_bool_decide as Hnop.
  - left. exists r0, [], (Reader.rest r), t, (Reader.offset r). split; [done|]. split; [done|].
    split; [split; [constructor|done]|]. by apply on_token_offset.
  - assert (t = Nop) as -> by (destruct t; try done; by destruct Hnop).
    assert (lex (Reader.rest r) = Some (INop, Reader.rest r0)) as Hlex
      by (by rewrite (lex_of_token _ _ _ Ht)).
    pose proof (lex_shorter _ _ _ Hlex).
    destruct (IH r0 Hr0 ltac:(lia)) as [(r' & nops & l1 & t & o & Hres & Hr' & (H1 & Hd & Ht1) & Ho)|[He Hno]].
    + left. exists r', (INop :: nops), l1, t, o. split; [done|]. split; [done|].
      split; [|done]. split; [by econstructor|done].
    + right. split; [done|]. intros nops l1 t l2 (H1 & Hd & Ht1 & Hn).
      inversion H1 as [|? it l3 its ? Hl3 H3]; subst; [congruence|].
      assert (it = INop) as -> by congruence.
      assert (l3 = Reader.rest r0) as -> by congruence. by eapply (Hno its).
Qed.

Lemma zero_byte b : (u8 b =? 0) = true <-> b = x00.
Proof.
  rewrite Z.eqb_eq. split; [|by intros ->]. intros H. apply u8_inj. by rewrite H.
Qed.

(** The root's name is one NUL byte and three of padding. *)
Lemma lex_name_empty l l' :
  lex_name l = Some ([], l') <->
  exists k, l = x00 :: k /\ 4 <= zlen l /\ l' = zdrop 4 l.
Proof.
  unfold lex_name. split.
  - destruct (Reader.cstr l) as [n|] eqn:Hc; [|done].
    destruct (_ <=? _) eqn:E; [|done]. intros [= -> <-]. zbool.
    apply Reader.cstr_Some in Hc as (k & -> & _). exists k. split; [done|].
    change (zlen (@nil byte) + 1 + Reader.pad (zlen (@nil byte) + 1)) with 4 in *. done.
  - intros (k & -> & Hl & ->).
    assert (Reader.cstr (x00 :: k) = Some []) as -> by (apply Reader.cstr_Some; by exists k).
    change (zlen (@nil byte) + 1 + Reader.pad (zlen (@nil byte) + 1)) with 4.
    by replace (4 <=? _) with true by lia.
Qed.

(** The leading NOPs and the root's BEGIN_NODE and name. *)
Definition root_at (l l2 : list byte) : Prop :=
  exists nops l1, lexes l nops l1 /\ denop nops = [] /\ lex l1 = Some (IBegin [], l2).

Lemma root_at_then l l2 :
  root_at l l2 <-> exists nops l1 l1', nops_then l nops l1 BeginNode l1' /\
                     lex_name l1' = Some ([], l2).
Proof.
  split.
  - intros (nops & l1 & H1 & Hd & Hl). exists nops, l1. unfold lex in Hl.
    destruct (lex_token l1) as [[t l1']|] eqn:Ht; [|done]. exists l1'.
    destruct t; try done; [|by destruct (lex_prop l1') as [[[? ?] ?]|]].
    destruct (lex_name l1') as [[n k]|] eqn:Hn; [|done]. by injection Hl as -> ->.
  - intros (nops & l1 & l1' & (H1 & Hd & Ht & _) & Hn). exists nops, l1.
    split; [done|]. split; [done|]. by rewrite (lex_of_token _ _ _ Ht), Hn.
Qed.

Lemma read_root_spec :
  (exists r', Structure.read_root blob (Reader.new blob) = (Ok tt, r') /\
     on_token blob r' /\ root_at blob (Reader.rest r')) \/
  (exists e r', Structure.read_root blob (Reader.new blob) = (Err e, r')) /\
  (forall l2, ~ root_at blob l2).
Proof.
  assert (on_token blob (Reader.new blob)) as Hr by (split; [by apply Reader.new_wf|done]).
  unfold Structure.read_root.
  destruct (read_non_nop_token_spec (Structure.fuel_of blob) _ Hr) as
    [(r0 & nops & l1 & t & o & Hres & Hr0 & Hn & Ho)|[(e & r' & He) Hno]].
  { change (Reader.rest (Reader.new blob)) with blob. unfold Structure.fuel_of, zlen. lia. }
  2:{ right. rewrite (bind_Err _ _ _ _ _ He). split; [by eexists _, _|].
      intros l2 (nops & l1 & l1' & H & _)%root_at_then. by eapply Hno. }
  rewrite (bind_Ok _ _ _ _ _ Hres). change (Reader.rest (Reader.new blob)) with blob in Hn.
  assert (forall l2, root_at blob l2 ->
    t = BeginNode /\ lex_name (Reader.rest r0) = Some ([], l2)) as Huniq.
  { intros l2 (n2 & k1 & k1' & H & Hnm)%root_at_then.
    by destruct (nops_then_unique _ _ _ _ _ _ _ _ _ Hn H) as (_ & _ & -> & ->). }
  case_bool_decide as Hb.
  { right. split; [by eexists _, _|]. intros l2 [Ht _]%Huniq. done. }
  assert (t = BeginNode) as -> by (destruct (decide (t = BeginNode)); done).
  rewrite (bind_Ok _ _ _ r0 r0) by done. pose proof Hr0 as (Hw & Ha & Hbb).
  pose proof (Reader.read_u8_eq r0 Hw) as Hu8. unfold Structure.read.
  destruct (Reader.rest r0) as [|b l] eqn:Hl0.
  { right. split; [eexists _, _; apply bind_Err; unfold mmap_err; by rewrite Hu8|].
    intros l2 [_ H]%Huniq. by apply lex_name_empty in H as (k & ? & _). }
  rewrite (bind_Ok _ _ _ (u8 b) (Reader.adv 1 r0)) by (unfold mmap_err; by rewrite Hu8).
  destruct (u8 b =? 0) eqn:Hz; cbn [negb].
  2:{ right. split; [by eexists _, _|]. intros l2 [_ H]%Huniq.
      apply lex_name_empty in H as (k & [= -> _] & _). done. }
  apply zero_byte in Hz as ->. pose proof (zlen_nonneg l) as Hnl.
  assert (1 <= zlen (Reader.rest r0)) as Hge by (rewrite Hl0, zlen_cons; lia).
  assert (Reader.wf (Reader.adv 1 r0)) as Hw1 by (apply Reader.adv_wf; auto; lia).
  pose proof (Reader.align_to_4_eq _ Hw1) as Hal.
  rewrite (Reader.pad_congr (Reader.offset (Reader.adv 1 r0)) 1) in Hal
    by (cbn; Z.div_mod_to_equations; lia).
  change (Reader.pad 1) with 3 in Hal.
  rewrite Reader.rest_adv, zlen_zdrop, Reader.adv_adv, Hl0 in Hal by (done || lia).
  destruct (3 <=? _) eqn:E3; zbool.
  - left. exists (Reader.adv 4 r0). split.
    { etransitivity; [apply bind_Ok; unfold mmap_err; by rewrite Hal|done]. }
    split; [apply on_token_adv; [done|rewrite Hl0; lia|done]|]. apply root_at_then.
    exists nops, l1, (x00 :: l). split; [done|]. apply lex_name_empty. exists l.
    split; [done|]. split; [lia|]. rewrite <- Hl0. by apply Reader.rest_adv; [done|lia].
  - right. split; [eexists _, _; apply bind_Err; unfold mmap_err; by rewrite Hal|].
    intros l2 [_ H]%Huniq. apply lex_name_empty in H as (k & _ & H4 & _). lia.
Qed.

(** The trailing NOPs and the FDT_END that ends the block. *)
Definition end_at (l : list byte) : Prop :=
  exists nops, lexes l (nops ++ [IFinish]) [] /\ denop nops = [].

Lemma end_at_then l : end_at l <-> exists nops l1, nops_then l nops l1 End_ [].
Proof.
  split.
  - intros (nops & (l1 & H1 & H2)%lexes_app_inv & Hd). exists nops, l1.
    inversion H2 as [|? ? l2 ? ? Hl Hn]; subst. apply lexes_nil_inv in Hn as <-.
    unfold lex in Hl. destruct (lex_token l1) as [[t k]|] eqn:Ht; [|done].
    destruct t; try done; [by destruct (lex_name k) as [[? ?]|]
      |by destruct (lex_prop k) as [[[? ?] ?]|]|]. by injection Hl as ->.
  - intros (nops & l1 & H1 & Hd & Ht & _). exists nops. split; [|done].
    eapply lexes_snoc; [done|]. by rewrite (lex_of_token _ _ _ Ht).
Qed.

Lemma read_end_spec r :
  on_token blob r ->
  (exists r', Structure.read_end blob r = (Ok tt, r')) /\ end_at (Reader.rest r) \/
  (exists e r', Structure.read_end blob r = (Err e, r')) /\ ~ end_at (Reader.rest r).
Proof.
  intros Hr. unfold Structure.read_end.
  destruct (read_non_nop_token_spec (Structure.fuel_of blob) _ Hr) as
    [(r0 & nops & l1 & t & o & Hres & Hr0 & Hn & Ho)|[(e & r' & He) Hno]].
  { destruct Hr as (Hw & _ & Hb). rewrite Reader.zlen_rest by done. destruct Hw as [Hw _].
    rewrite Hb in *. unfold Structure.fuel_of, zlen in *. lia. }
  2:{ right. rewrite (bind_Err _ _ _ _ _ He). split; [by eexists _, _|].
      intros (n & k & H)%end_at_then. by eapply Hno. }
  rewrite (bind_Ok _ _ _ _ _ Hres). case_bool_decide as Hb.
  { right. split; [by eexists _, _|]. intros (n & k & H)%end_at_then.
    by destruct (nops_then_unique _ _ _ _ _ _ _ _ _ Hn H) as (_ & _ & -> & _). }
  assert (t = End_) as -> by (destruct (decide (t = End_)); done).
  rewrite (bind_Ok _ _ _ r0 r0) by done.
  rewrite (bind_Ok _ _ _ (zlen (Reader.rest r0)) r0)
    by (unfold lift; rewrite Reader.remaining_eq; [done|apply Hr0]).
  destruct (zlen (Reader.rest r0) =? 0) eqn:Hz; zbool; cbn [negb].
  - left. split; [by eexists|]. apply end_at_then. apply zlen_0 in Hz.
    exists nops, l1. by rewrite <- Hz.
  - right. split; [by eexists _, _|]. intros (n & k & H)%end_at_then.
    destruct (nops_then_unique _ _ _ _ _ _ _ _ _ Hn H) as (_ & _ & _ & H0).
    by rewrite H0 in Hz.
Qed.

(** [encodes] along the phases of the pass. *)
Lemma encodes_phases t :
  encodes strings blob t <->
  exists l2 its l3, root_at blob l2 /\ lexes l2 its l3 /\
    run strings (Open (fresh []) []) its = Some (Closed t) /\ end_at l3.
Proof.
  split.
  - intros ((its & Hl & Hd) & Hn & Hwf). rewrite flat_body, Hn in Hd.
    apply denop_cons_split in Hd as (nops & its1 & -> & Hn0 & _ & Hd).
    rewrite <- app_assoc in Hl. apply lexes_app_inv in Hl as (l1 & H0 & H1).
    inversion H1 as [|? ? l2 ? ? Hb H2]; subst.
    apply lexes_app_inv in H2 as (l3 & H2 & H3). exists l2, its1, l3.
    split; [by exists nops, l1|]. split; [done|]. split; [by apply run_closed_iff|].
    by exists [].
  - intros (l2 & its & l3 & (nops & l1 & H0 & Hn0 & Hb) & H2 & Hrun & (n3 & H3 & Hn3)).
    apply run_closed_iff in Hrun as (Hd & Hn & Hwf). split; [|done].
    exists (nops ++ IBegin [] :: its ++ n3). split.
    + rewrite <- app_assoc. cbn [app]. rewrite <- app_assoc.
      eapply lexes_app; [done|]. econstructor; [done|]. by eapply lexes_app.
    + rewrite denop_app, Hn0, flat_body, Hn. cbn [app]. unfold denop. cbn [List.filter is_nop negb].
      f_equal. change (denop (its ++ n3) = body t). by rewrite denop_app, Hn3, app_nil_r.
Qed.

(** The pass accepts what encodes a tree, rejects the rest with an error, and
    does neither panic nor run out of fuel. *)
Lemma new_spec :
  Structure.new blob strings = Ok (Structure.mk blob) /\ (exists t, encodes strings blob t) \/
  (exists e, Structure.new blob strings = Err e) /\ (forall t, ~ encodes strings blob t).
Proof.
  unfold Structure.new.
  destruct read_root_spec as [(r0 & Hroot & Hr0 & Hat)|[(e & r' & He) Hno]].
  2:{ right. rewrite (bind_Err _ _ _ _ _ He). split; [by eexists|].
      intros t (l2 & _ & _ & H & _)%encodes_phases. by eapply Hno. }
  assert (forall l2, root_at blob l2 -> l2 = Reader.rest r0) as Huniq.
  { intros l2 (n2 & k1 & k1' & H & Hnm)%root_at_then.
    apply root_at_then in Hat as (n1 & l1 & l1' & Hn & Hl).
    destruct (nops_then_unique _ _ _ _ _ _ _ _ _ H Hn) as (_ & _ & _ & ->). congruence. }
  rewrite (bind_Ok _ _ _ _ _ Hroot), (bind_Ok _ _ _ r0 r0) by done.
  destruct (rest_at r0 Hr0) as [Hrest Hoff]. pose proof Hr0 as (_ & Ha & _).
  assert (inv (Reader.position r0)
    (Structure.mkScan 1 PhaseProperties (Reader.position r0)) r0 (fresh []) []) as Hinv.
  { split; try done.
    - exists []. unfold Reader.position. rewrite <- Hrest. by split; [constructor|].
    - intros _. split; [done|]. split; [done|]. exists []. unfold Reader.position.
      cbn [Structure.properties_start]. rewrite <- Hrest. by split; [constructor|]. }
  assert (zlen (Reader.rest r0) + 1 < Z.of_nat (Structure.fuel_of blob)) as Hfuel.
  { destruct Hat as (n1 & l1 & H1 & _ & H2). apply lexes_shorter in H1. apply lex_shorter in H2.
    pose proof (zlen_nonneg n1). unfold Structure.fuel_of, zlen in *. lia. }
  destruct (scan_loop_spec (Reader.position r0) Hoff Ha (Structure.fuel_of blob) _ _ _ _ Hinv Hfuel) as
    [(r1 & its & t & Hloop & Hr1 & Hl & Hrun & Hmin)|[(e & r' & He) Hno]].
  2:{ right. rewrite (bind_Err _ _ _ _ _ He). split; [by eexists|].
      intros t (l2 & its & l3 & H & H2 & H3 & _)%encodes_phases. apply Huniq in H as ->.
      by eapply Hno. }
  rewrite (bind_Ok _ _ _ _ _ Hloop).
  destruct (read_end_spec r1 Hr1) as [[(r2 & Hend) He]|[(e & r' & He) Hno]].
  - left. rewrite (bind_Ok _ _ _ _ _ Hend). split; [done|]. exists t. apply encodes_phases.
    by exists (Reader.rest r0), its, (Reader.rest r1).
  - right. rewrite (bind_Err _ _ _ _ _ He). split; [by eexists|].
    intros t2 (l2 & its2 & l3 & H & H2 & H3 & (n3 & Hl3 & Hn3))%encodes_phases.
    apply Huniq in H as ->. destruct (Hmin _ _ _ H2 H3) as (tail & ->).
    apply lexes_app_inv in H2 as (l1 & Hl1 & Htail).
    assert (l1 = Reader.rest r1) as -> by (by eapply lexes_fun).
    rewrite run_app, Hrun in H3. apply run_closed in H3 as [_ Hd].
    apply Hno. exists (tail ++ n3). rewrite denop_app, Hd, Hn3. split; [|done].
    rewrite <- app_assoc. by eapply lexes_app.
Qed.

End pass.
