(* ===== verification/FdtView.v ===== *)
(** * Navigation over a validated structure block ([fdt/src/structure/view.rs])

    [Node], [Property] and the three iterators.  An iterator's [next] is a
    stateful computation over the iterator; its inner loop takes as fuel one
    more than the number of bytes it reads from.  The readers turn errors into
    panics ([validated]); that no panic is reachable is proved in
    [FdtViewProofs]. *)

From Stdlib Require Import ZArith Lia Bool.
From Stdlib Require Import Strings.Byte Strings.String.
From stdpp Require Import base list numbers.
From S2P Require Import Prelude FdtReader FdtStrings FdtNames FdtStructure.
Local Open Scope Z_scope.

Module View.

(** [validated]: an error is an internal violation. *)
Definition validated {E A} (m : M Reader.t E A) : M Reader.t never A := mexpect m.

Record Node := mkNode { name : list byte; content : list byte; strings : Strings.t }.

Record Property := mkProperty { property_name : list byte; value : list byte }.

(** ** [ValidatedReader] *)

Definition read_u32 : M Reader.t never Z := validated Reader.read_u32.

Definition read_bytes (length : Z) : M Reader.t never (list byte) :=
  validated (Reader.read_bytes length).

Definition read_nul_terminated : M Reader.t never (list byte) :=
  validated Reader.read_nul_terminated.

Definition align_to_4 : M Reader.t never unit :=
  let* _ := validated Reader.align_to_4 in ret tt.

Definition remaining_bytes : M Reader.t never (list byte) :=
  let* self := get in lift (Reader.remaining_bytes self).

Definition read_token : M Reader.t never Token :=
  let* (_, token) := validated Structure.read_token in ret token.

Fixpoint read_non_nop_token (fuel : nat) : M Reader.t never Token :=
  match fuel with
  | O => lift OutOfFuel
  | S fuel' =>
      let* token := read_token in
      if bool_decide (token <> Nop) then ret token else read_non_nop_token fuel'
  end.

Definition read_node_name : M Reader.t never (list byte) :=
  let* name := read_nul_terminated in
  let* _ := align_to_4 in
  ret name.

Definition skip_property : M Reader.t never unit :=
  let* length := read_u32 in
  let* _ := read_u32 in
  let* _ := read_bytes (usize_from_u32 length) in
  align_to_4.

Definition read_property (strings : Strings.t) : M Reader.t never Property :=
  let* length := read_u32 in
  let* name_offset := read_u32 in
  let* name := lift (expect (Strings.validate_property_name strings name_offset)) in
  let* value := read_bytes (usize_from_u32 length) in
  let* _ := align_to_4 in
  ret (mkProperty name value).

(** ** [Properties] *)
Module Properties.

Record t := mk { reader : Reader.t; strings : Strings.t; finished : bool }.

Definition new (content : list byte) (strings : Strings.t) : t :=
  mk (Reader.new content) strings false.

Definition on_reader {A} (m : M Reader.t never A) : M t never A :=
  zoom reader (fun r s => mk r (strings s) (finished s)) m.

Definition finish : M t never unit :=
  let* s := get in put (mk (reader s) (strings s) true).

Fixpoint loop (fuel : nat) : M t never (option Property) :=
  match fuel with
  | O => lift OutOfFuel
  | S fuel' =>
      let* token := on_reader read_token in
      match token with
      | FdtStructure.Property =>
          let* self := get in
          let* property := on_reader (read_property (strings self)) in
          ret (Some property)
      | Nop => loop fuel'
      | BeginNode | EndNode => let* _ := finish in ret None
      | End_ => panic
      end
  end.

Definition next : M t never (option Property) :=
  let* self := get in
  if finished self then ret None else loop (Structure.fuel_of (Reader.bytes (reader self))).

End Properties.

(** ** [Children] *)
Module Children.

Record t := mk { reader : Reader.t; strings : Strings.t; depth : Z; finished : bool }.

Definition new (content : list byte) (strings : Strings.t) : t :=
  mk (Reader.new content) strings 0 false.

Definition on_reader {A} (m : M Reader.t never A) : M t never A :=
  zoom reader (fun r s => mk r (strings s) (depth s) (finished s)) m.

Definition set_depth (d : Z) : M t never unit :=
  let* s := get in put (mk (reader s) (strings s) d (finished s)).

Definition finish : M t never unit :=
  let* s := get in put (mk (reader s) (strings s) (depth s) true).

Fixpoint loop (fuel : nat) : M t never (option Node) :=
  match fuel with
  | O => lift OutOfFuel
  | S fuel' =>
      let* token := on_reader read_token in
      match token with
      | FdtStructure.Property =>
          let* _ := on_reader skip_property in
          loop fuel'
      | Nop => loop fuel'
      | BeginNode =>
          let* name := on_reader read_node_name in
          let* content := on_reader remaining_bytes in
          let* self := get in
          let is_direct_child := depth self =? 0 in
          let* d := lift (uadd usize_max (depth self) 1) in
          let* _ := set_depth d in
          if is_direct_child then ret (Some (mkNode name content (strings self)))
          else loop fuel'
      | EndNode =>
          let* self := get in
          if depth self =? 0 then
            let* _ := finish in
            ret None
          else
            let* d := lift (usub (depth self) 1) in
            let* _ := set_depth d in
            loop fuel'
      | End_ => panic
      end
  end.

Definition next : M t never (option Node) :=
  let* self := get in
  if finished self then ret None else loop (Structure.fuel_of (Reader.bytes (reader self))).

End Children.

(** ** [Descendants] *)
Module Descendants.

Record t := mk { reader : Reader.t; strings : Strings.t; depth : Z; finished : bool }.

Definition new (content : list byte) (strings : Strings.t) : t :=
  mk (Reader.new content) strings 0 false.

Definition on_reader {A} (m : M Reader.t never A) : M t never A :=
  zoom reader (fun r s => mk r (strings s) (depth s) (finished s)) m.

Definition set_depth (d : Z) : M t never unit :=
  let* s := get in put (mk (reader s) (strings s) d (finished s)).

Definition finish : M t never unit :=
  let* s := get in put (mk (reader s) (strings s) (depth s) true).

Fixpoint loop (fuel : nat) : M t never (option Node) :=
  match fuel with
  | O => lift OutOfFuel
  | S fuel' =>
      let* token := on_reader read_token in
      match token with
      | FdtStructure.Property =>
          let* _ := on_reader skip_property in
          loop fuel'
      | Nop => loop fuel'
      | BeginNode =>
          let* name := on_reader read_node_name in
          let* content := on_reader remaining_bytes in
          let* self := get in
          let* d := lift (uadd usize_max (depth self) 1) in
          let* _ := set_depth d in
          ret (Some (mkNode name content (strings self)))
      | EndNode =>
          let* self := get in
          if depth self =? 0 then
            let* _ := finish in
            ret None
          else
            let* d := lift (usub (depth self) 1) in
            let* _ := set_depth d in
            loop fuel'
      | End_ => panic
      end
  end.

Definition next : M t never (option Node) :=
  let* self := get in
  if finished self then ret None else loop (Structure.fuel_of (Reader.bytes (reader self))).

End Descendants.

(** ** [Node] *)

Definition name_component (n : Node) : list byte := Name.component (name n).

Definition unit_address (n : Node) : option (list byte) := Name.unit_address (name n).

Definition properties (n : Node) : Properties.t := Properties.new (content n) (strings n).

(** The number of items an iterator over the node can yield is below its
    number of bytes. *)
Definition node_fuel (n : Node) : nat := S (length (content n)).

Definition property (n : Node) (nm : list byte) : outcome never (option Property) :=
  fst (find_next Properties.next (node_fuel n)
         (fun p => bool_decide (property_name p = nm)) (properties n)).

Definition children (n : Node) : Children.t := Children.new (content n) (strings n).

Definition child (n : Node) (nm : list byte) : outcome never (option Node) :=
  fst (find_next Children.next (node_fuel n)
         (fun c => bool_decide (name c = nm)) (children n)).

Definition descendants (n : Node) : Descendants.t := Descendants.new (content n) (strings n).

(** [Structure::root]. *)
Definition root (s : Structure.t) (strings : Strings.t) : outcome never Node :=
  fst ((let* token := read_non_nop_token (Structure.fuel_of (Structure.bytes s)) in
        let* _ := lift (if bool_decide (token = BeginNode) then Ok tt else Panic) in
        let* name := read_node_name in
        let* _ := lift (if bool_decide (name = []) then Ok tt else Panic) in
        let* content := remaining_bytes in
        ret (mkNode name content strings))
       (Reader.new (Structure.bytes s))).

End View.
