(* ===== verification/FdtViewProofs.v ===== *)
(** * The views of a validated block show its tree

    A [View.Node] represents a tree when its bytes start with the items of the
    tree after its name.  On such a node no call panics: the iterators yield
    exactly the properties, the children and the descendants in pre-order, and
    each yielded child represents the corresponding subtree. *)

From Stdlib Require Import ZArith Lia Bool.
From Stdlib Require Import Strings.Byte Strings.String.
From stdpp Require Import base list numbers.
From S2P Require Import Prelude FdtReader FdtStrings FdtNames FdtStructure FdtLex FdtTree FdtScan.
From S2P Require Import FdtPass FdtView.
Local Open Scope Z_scope.

(** ** Reading one item *)

Definition item_token (it : item) : Token :=
  match it with
  | IBegin _ => BeginNode
  | IEnd => EndNode
  | IProp _ _ => FdtStructure.Property
  | INop => Nop
  | IFinish => End_
  end.

(** What remains to be read of an item after its token. *)
Definition payload (it : item) (l0 l : list byte) : Prop :=
  match it with
  | IBegin n => lex_name l0 = Some (n, l)
  | IProp off v => lex_prop l0 = Some (off, v, l)
  | _ => l0 = l
  end.

Lemma lex_split l it l' :
  lex l = Some (it, l') -> exists l0, lex_token l = Some (item_token it, l0) /\ payload it l0 l'.
Proof.
  unfold lex. destruct (lex_token l) as [[t l0]|]; [|done]. intros H. exists l0. destruct t.
  - destruct (lex_name l0) as [[n k]|] eqn:E; [|done]. injection H as <- <-. done.
  - injection H as <- <-. done.
  - destruct (lex_prop l0) as [[[off v] k]|] eqn:E; [|done]. injection H as <- <-. done.
  - injection H as <- <-. done.
  - injection H as <- <-. done.
Qed.

Lemma validated_Ok {E A} (m : M Reader.t E A) r a r' :
  m r = (Ok a, r') -> View.validated m r = (Ok a, r').
Proof. intros H. unfold View.validated, mexpect. by rewrite H. Qed.

Lemma view_read_token bs r it l :
  on_token bs r -> lex (Reader.rest r) = Some (it, l) ->
  exists r0, View.read_token r = (Ok (item_token it), r0) /\ on_token bs r0 /\
             payload it (Reader.rest r0) l.
Proof.
  intros Hr (l0 & Ht & Hp)%lex_split. pose proof (read_token_reads bs r Hr) as H.
  rewrite Ht in H. destruct H as (r0 & H & Hr0 & <-). exists r0. split; [|done].
  unfold View.read_token. by rewrite (bind_Ok _ _ _ _ _ (validated_Ok _ _ _ _ H)).
Qed.

Lemma view_read_node_name bs r n l :
  on_token bs r -> lex_name (Reader.rest r) = Some (n, l) ->
  exists r', View.read_node_name r = (Ok n, r') /\ on_token bs r' /\ Reader.rest r' = l.
Proof.
  intros Hr Hn. pose proof (read_name_reads id id bs r Hr) as H. rewrite Hn in H.
  destruct H as (r' & H & Hr' & Hl). exists r'. split; [|done].
  unfold View.read_node_name, View.read_nul_terminated, View.align_to_4, View.validated.
  revert H. unfold_m.
  destruct (Reader.read_nul_terminated r) as [[n'| | |] r1]; cbn; try discriminate.
  destruct (Reader.align_to_4 r1) as [[u| | |] r2]; cbn; try discriminate.
  by intros [= -> ->].
Qed.

(** The value of a property and its padding, after the two header words. *)
Lemma view_value bs r off v l :
  on_token bs r -> lex_prop (Reader.rest r) = Some (off, v, l) ->
  exists len r2 r3, View.read_u32 r = (Ok len, Reader.adv 4 r) /\
    View.read_u32 (Reader.adv 4 r) = (Ok off, Reader.adv 8 r) /\
    View.read_bytes (usize_from_u32 len) (Reader.adv 8 r) = (Ok v, r2) /\
    View.align_to_4 r2 = (Ok tt, r3) /\ on_token bs r3 /\ Reader.rest r3 = l.
Proof.
  intros Hr Hp. unfold lex_prop in Hp. destruct (8 <=? _) eqn:H8; [|done]. zbool.
  destruct (read_prop_header id bs r Hr H8) as (Hh1 & Hh2 & Hr8 & Hl8).
  set (len := be_val (ztake 4 (Reader.rest r))) in *.
  assert (0 <= len) by apply be_val_range.
  pose proof (read_value_reads id bs _ len Hr8 ltac:(done)) as Hrv. rewrite Hl8 in Hrv.
  destruct (len + _ <=? _); [|done]. injection Hp as <- <- <-.
  destruct Hrv as (r3 & Hv & Hr3 & Hl3). revert Hv. unfold_m. unfold usize_from_u32.
  destruct (Reader.read_bytes len (Reader.adv 8 r)) as [[v'| | |] r2] eqn:Hrb; cbn; try discriminate.
  destruct (Reader.align_to_4 r2) as [[u| | |] r3'] eqn:Hal; cbn; try discriminate.
  intros [= -> ->]. exists len, r2, r3. unfold mmap_err in Hh1, Hh2.
  unfold View.read_u32, View.read_bytes, View.align_to_4, View.validated, mexpect.
  destruct (Reader.read_u32 r) as [[x1| | |] ?]; try discriminate. injection Hh1 as -> ->.
  destruct (Reader.read_u32 (Reader.adv 4 r)) as [[x2| | |] ?]; try discriminate.
  injection Hh2 as -> ->. rewrite Hrb. split; [done|]. split; [done|]. split; [done|].
  split; [|done]. unfold_m. by rewrite Hal.
Qed.

Lemma view_skip_property bs r off v l :
  on_token bs r -> lex_prop (Reader.rest r) = Some (off, v, l) ->
  exists r', View.skip_property r = (Ok tt, r') /\ on_token bs r' /\ Reader.rest r' = l.
Proof.
  intros Hr Hp. destruct (view_value _ _ _ _ _ Hr Hp) as (len & r2 & r3 & H1 & H2 & H3 & H4 & H5).
  exists r3. split; [|done]. unfold View.skip_property.
  by rewrite (bind_Ok _ _ _ _ _ H1), (bind_Ok _ _ _ _ _ H2), (bind_Ok _ _ _ _ _ H3).
Qed.

Lemma view_read_property bs strings r off v l n :
  on_token bs r -> lex_prop (Reader.rest r) = Some (off, v, l) ->
  prop_name strings (mkProp off v) = Some n ->
  exists r', View.read_property strings r = (Ok (View.mkProperty n v), r') /\
             on_token bs r' /\ Reader.rest r' = l.
Proof.
  intros Hr Hp Hn. destruct (view_value _ _ _ _ _ Hr Hp) as (len & r2 & r3 & H1 & H2 & H3 & H4 & H5).
  exists r3. split; [|done]. unfold View.read_property.
  rewrite (bind_Ok _ _ _ _ _ H1), (bind_Ok _ _ _ _ _ H2).
  unfold prop_name in Hn. cbn [prop_off] in Hn.
  destruct (Strings.validate_property_name strings off) as [n'| | |]; try done.
  injection Hn as ->. rewrite (bind_Ok _ _ _ n _) by done.
  by rewrite (bind_Ok _ _ _ _ _ H3), (bind_Ok _ _ _ _ _ H4).
Qed.

Lemma view_remaining bs r :
  on_token bs r -> View.remaining_bytes r = (Ok (Reader.rest r), r).
Proof.
  intros (Hw & _). unfold View.remaining_bytes. rewrite (bind_Ok _ _ _ r r) by done.
  unfold lift. by rewrite Reader.remaining_bytes_eq.
Qed.

(** ** Nodes *)

(** The node view [n] shows the tree [t]. *)
Record represents (n : View.Node) (t : tree) : Prop := {
  rep_name : View.name n = tree_name t;
  rep_content : exists its l', lexes (View.content n) its l' /\ denop its = body t;
  rep_size : zlen (View.content n) <= isize_max;
  rep_wf : wf_tree (View.strings n) t;
}.

(** The view [c] shows the tree [k], its names resolved in [strings]. *)
Definition shows (strings : Strings.t) (c : View.Node) (k : tree) : Prop :=
  represents c k /\ View.strings c = strings.

Section iterators.
Context (bs : list byte) (strings : Strings.t).

(** An iterator's reader stands before items that spell [pending]. *)
Definition before (r : Reader.t) (pending : list item) : Prop :=
  on_token bs r /\
  exists its l', lexes (Reader.rest r) its l' /\ denop its = pending.

Lemma before_step r it0 pending :
  before r (it0 :: pending) ->
  exists it r0 l, View.read_token r = (Ok (item_token it), r0) /\ on_token bs r0 /\
    payload it (Reader.rest r0) l /\ zlen l + 4 <= zlen (Reader.rest r) /\
    (it = INop /\ before r0 (it0 :: pending) \/
     it = it0 /\ is_nop it = false /\ forall r', on_token bs r' -> Reader.rest r' = l -> before r' pending).
Proof.
  intros (Hr & its & l' & Hl & Hd). destruct its as [|it its]; [done|].
  inversion Hl as [|? ? l ? ? Hlex Hl']; subst.
  destruct (view_read_token bs r it l Hr Hlex) as (r0 & Hrd & Hr0 & Hp).
  exists it, r0, l. split; [done|]. split; [done|]. split; [done|].
  split; [by eapply lex_shorter|]. destruct (is_nop it) eqn:Hn.
  - left. destruct it; try done. cbn in Hp. split; [done|]. split; [done|]. subst l.
    by exists its, l'.
  - right. rewrite denop_cons in Hd by done. injection Hd as -> <-. split; [done|].
    split; [done|]. intros r' Hr' <-. split; [done|]. by exists its, l'.
Qed.

Definition shows_prop (q : View.Property) (p : prop) : Prop :=
  prop_name strings p = Some (View.property_name q) /\ View.value q = prop_value p.

(** The end of a property sequence. *)
Definition closes (it : item) : Prop := it = IEnd \/ exists n, it = IBegin n.

Definition properties_at (s : View.Properties.t) (ps : list prop) : Prop :=
  View.Properties.finished s = false /\ View.Properties.strings s = strings /\
  Forall (fun p => is_Some (prop_name strings p)) ps /\
  exists x tail, closes x /\ before (View.Properties.reader s) (map prop_item ps ++ x :: tail).

Lemma properties_loop fuel : forall s ps,
  properties_at s ps -> zlen (Reader.rest (View.Properties.reader s)) < Z.of_nat fuel ->
  match ps with
  | [] => exists s', View.Properties.loop fuel s = (Ok None, s') /\ View.Properties.finished s' = true
  | p :: ps' => exists q s', View.Properties.loop fuel s = (Ok (Some q), s') /\
                  shows_prop q p /\ properties_at s' ps'
  end.
Proof.
  induction fuel as [|fuel IH]; intros [r st fin] ps (Hf & Hs & Hok & x & tail & Hx & Hb) Hfuel;
    cbn [View.Properties.reader View.Properties.strings View.Properties.finished] in *; subst st fin.
  { pose proof (zlen_nonneg (Reader.rest r)). lia. }
  cbn [View.Properties.loop].
  assert (exists it0 pending, map prop_item ps ++ x :: tail = it0 :: pending) as (it0 & pending & He)
    by (destruct ps; by eexists _, _).
  rewrite He in Hb. destruct (before_step _ _ _ Hb) as (it & r0 & l & Hrd & Hr0 & Hp & Hsh & Hcase).
  rewrite (bind_Ok _ _ _ (item_token it) (View.Properties.mk r0 strings false))
    by (unfold View.Properties.on_reader, zoom; cbn; by rewrite Hrd).
  destruct Hcase as [[-> Hb0]|(-> & Hnn & Hnext)].
  - cbn in Hp. subst l. apply IH; [|cbn; lia]. split; [done|]. split; [done|]. split; [done|].
    exists x, tail. by rewrite He.
  - destruct ps as [|p ps]; cbn in He; injection He as <- <-.
    + destruct Hx as [->|[n ->]]; cbn [item_token]; by eexists.
    + apply Forall_cons_1 in Hok as [[n Hn] Hok]. destruct p as [off v].
      cbn [prop_item item_token payload] in *.
      rewrite (bind_Ok _ _ _ (View.Properties.mk r0 strings false) (View.Properties.mk r0 strings false))
        by done. cbn [View.Properties.strings].
      destruct (view_read_property bs strings r0 off v l n Hr0 Hp Hn) as (r1 & Hrp & Hr1 & Hl1).
      exists (View.mkProperty n v), (View.Properties.mk r1 strings false). split.
      { rewrite (bind_Ok _ _ _ (View.mkProperty n v) (View.Properties.mk r1 strings false)); [done|].
        unfold View.Properties.on_reader, zoom. cbn. by rewrite Hrp. }
      split; [done|]. split; [done|]. split; [done|]. split; [done|].
      exists x, tail. split; [done|]. by apply Hnext.
Qed.

Lemma rest_le r : on_token bs r -> zlen (Reader.rest r) < Z.of_nat (Structure.fuel_of (Reader.bytes r)).
Proof.
  intros (Hw & _ & <-). rewrite Reader.zlen_rest by done. destruct Hw as [Hw _].
  unfold Structure.fuel_of, zlen in *. lia.
Qed.

#[export] Instance properties_iterates :
  Iterates View.Properties.next shows_prop properties_at.
Proof.
  assert (forall s ps, properties_at s ps -> View.Properties.next s =
    View.Properties.loop (Structure.fuel_of (Reader.bytes (View.Properties.reader s))) s) as Hnext.
  { intros s ps (Hf & _). unfold View.Properties.next. rewrite (bind_Ok _ _ _ s s) by done. by rewrite Hf. }
  split; intros s; [intros Hs|intros p ps Hs]; pose proof Hs as (Hf & _ & _ & x & tail & _ & Hb);
    pose proof (properties_loop (Structure.fuel_of (Reader.bytes (View.Properties.reader s))) s _ Hs
      (rest_le _ (proj1 Hb))) as Hl; rewrite <- (Hnext _ _ Hs) in Hl; [|done].
  destruct Hl as (s' & Hl & Hfin). apply (exhausted_step _ _ s'); [done|]. apply exhausted_stay.
  unfold View.Properties.next. rewrite (bind_Ok _ _ _ s' s') by done. by rewrite Hfin.
Qed.

(** ** Children *)

(** What is left once the [d] nodes that are open below the iterated one are
    closed. *)
Fixpoint skip (d : nat) (its : list item) : list item :=
  match d, its with
  | O, _ => its
  | S d', IEnd :: its' => skip d' its'
  | _, IBegin _ :: its' => skip (S d) its'
  | _, IFinish :: _ => []
  | _, _ :: its' => skip d its'
  | _, [] => []
  end.

Lemma skip_0 its : skip 0 its = its.
Proof. by destruct its. Qed.

Lemma skip_props d ps its : skip (S d) (map prop_item ps ++ its) = skip (S d) its.
Proof. induction ps as [|p ps IH]; [done|]. exact IH. Qed.

Lemma skip_flat t : forall d its, skip (S d) (flat t ++ its) = skip (S d) its.
Proof.
  induction t as [n ps ks IH] using tree_ind'. intros d its. cbn [flat app skip].
  rewrite <- app_assoc, skip_props, <- app_assoc.
  enough (forall its, skip (S (S d)) (concat (map flat ks) ++ its) = skip (S (S d)) its) as ->
    by done.
  induction IH as [|k ks Hk _ IHks]; intros its'; [done|]. cbn [map concat].
  by rewrite <- app_assoc, Hk.
Qed.

Lemma skip_body t d its : skip (S d) (body t ++ its) = skip d its.
Proof.
  destruct t as [n ps ks]. unfold body, flat_content. cbn [tree_props tree_kids].
  rewrite <- !app_assoc, skip_props.
  enough (forall its, skip (S d) (concat (map flat ks) ++ its) = skip (S d) its) as -> by done.
  induction ks as [|k ks IH]; intros its'; [done|]. cbn [map concat].
  by rewrite <- app_assoc, skip_flat.
Qed.

Definition children_at (s : View.Children.t) (ks : list tree) : Prop :=
  let d := View.Children.depth s in
  View.Children.finished s = false /\ View.Children.strings s = strings /\
  0 <= d /\ d + zlen (Reader.rest (View.Children.reader s)) <= isize_max /\
  Forall (wf_tree strings) ks /\
  exists pending ps, before (View.Children.reader s) pending /\
    skip (Z.to_nat d) pending = map prop_item ps ++ concat (map flat ks) ++ [IEnd].

Definition child_post (s : View.Children.t) (ks : list tree)
    (res : outcome never (option View.Node) * View.Children.t) : Prop :=
  match ks with
  | [] => exists s', res = (Ok None, s') /\ View.Children.finished s' = true
  | k :: ks' => exists n s', res = (Ok (Some n), s') /\
                  shows strings n k /\ children_at s' ks'
  end.

(** The calls of an iteration on the reader of the iterator. *)
Lemma on_children {A} (m : M Reader.t never A) r st d fin a r' :
  m r = (Ok a, r') ->
  View.Children.on_reader m (View.Children.mk r st d fin) =
    (Ok a, View.Children.mk r' st d fin).
Proof. intros H. unfold View.Children.on_reader, zoom. cbn. by rewrite H. Qed.

Lemma depth_room r d :
  on_token bs r -> d + zlen (Reader.rest r) <= isize_max -> uadd (E:=never) usize_max d 1 = Ok (d + 1).
Proof.
  intros _ H. pose proof (zlen_nonneg (Reader.rest r)). unfold uadd, checked_add.
  replace (d + 1 <=? usize_max) with true by (unfold usize_max, isize_max in *; lia). done.
Qed.

Lemma body_node r n k rest_items :
  on_token bs r -> before r (body k ++ rest_items) -> n = tree_name k -> wf_tree strings k ->
  represents (View.mkNode n (Reader.rest r) strings) k.
Proof.
  intros Hr (_ & its & l' & Hl & Hd) -> Hwf. split; cbn; try done.
  - apply denop_app_split in Hd as (i1 & i2 & -> & Hd & _).
    apply lexes_app_inv in Hl as (l1 & Hl & _). by exists i1, l1.
  - destruct Hr as (Hw & _). rewrite Reader.zlen_rest by done. destruct Hw. lia.
Qed.

(** One round of the iterator, by the token it reads. *)
Lemma children_begin fuel r r0 r1 d n :
  View.read_token r = (Ok BeginNode, r0) -> View.read_node_name r0 = (Ok n, r1) -> on_token bs r1 ->
  d + zlen (Reader.rest r1) <= isize_max ->
  View.Children.loop (S fuel) (View.Children.mk r strings d false) =
    if d =? 0 then (Ok (Some (View.mkNode n (Reader.rest r1) strings)), View.Children.mk r1 strings (d + 1) false)
    else View.Children.loop fuel (View.Children.mk r1 strings (d + 1) false).
Proof.
  intros Ht Hn Hr1 Hd. cbn [View.Children.loop].
  rewrite (bind_Ok _ _ _ _ _ (on_children _ _ _ _ _ _ _ Ht)), (bind_Ok _ _ _ _ _ (on_children _ _ _ _ _ _ _ Hn)).
  rewrite (bind_Ok _ _ _ _ _ (on_children _ _ _ _ _ _ _ (view_remaining bs r1 Hr1))).
  rewrite (bind_Ok _ _ _ (View.Children.mk r1 strings d false) (View.Children.mk r1 strings d false)) by done.
  cbn [View.Children.depth View.Children.strings].
  rewrite (bind_Ok _ _ _ (d + 1) (View.Children.mk r1 strings d false))
    by (unfold lift; by rewrite (depth_room r1)).
  rewrite (bind_Ok _ _ _ tt (View.Children.mk r1 strings (d + 1) false)) by done. by destruct (d =? 0).
Qed.

Lemma children_end fuel r r0 d :
  View.read_token r = (Ok EndNode, r0) -> 0 <= d ->
  View.Children.loop (S fuel) (View.Children.mk r strings d false) =
    if d =? 0 then (Ok None, View.Children.mk r0 strings d true)
    else View.Children.loop fuel (View.Children.mk r0 strings (d - 1) false).
Proof.
  intros Ht Hd. cbn [View.Children.loop]. rewrite (bind_Ok _ _ _ _ _ (on_children _ _ _ _ _ _ _ Ht)).
  rewrite (bind_Ok _ _ _ (View.Children.mk r0 strings d false) (View.Children.mk r0 strings d false)) by done.
  cbn [View.Children.depth]. destruct (d =? 0) eqn:Hd1; zbool; [done|].
  unfold usub, checked_sub. by replace (1 <=? d) with true by lia.
Qed.

Lemma children_property fuel r r0 r1 d :
  View.read_token r = (Ok Property, r0) -> View.skip_property r0 = (Ok tt, r1) ->
  View.Children.loop (S fuel) (View.Children.mk r strings d false) =
    View.Children.loop fuel (View.Children.mk r1 strings d false).
Proof.
  intros Ht Hs. cbn [View.Children.loop]. rewrite (bind_Ok _ _ _ _ _ (on_children _ _ _ _ _ _ _ Ht)).
  by rewrite (bind_Ok _ _ _ _ _ (on_children _ _ _ _ _ _ _ Hs)).
Qed.

Lemma children_nop fuel r r0 d :
  View.read_token r = (Ok Nop, r0) ->
  View.Children.loop (S fuel) (View.Children.mk r strings d false) =
    View.Children.loop fuel (View.Children.mk r0 strings d false).
Proof. intros Ht. cbn [View.Children.loop]. by rewrite (bind_Ok _ _ _ _ _ (on_children _ _ _ _ _ _ _ Ht)). Qed.

(** The next direct child. *)
Lemma child_found r1 k ks d its n :
  on_token bs r1 -> d + zlen (Reader.rest r1) + 1 <= isize_max -> d = 0 -> Forall (wf_tree strings) (k :: ks) ->
  before r1 its -> IBegin n :: its = concat (map flat (k :: ks)) ++ [IEnd] ->
  child_post (View.Children.mk r1 strings d false) (k :: ks)
    (Ok (Some (View.mkNode n (Reader.rest r1) strings)), View.Children.mk r1 strings (d + 1) false).
Proof.
  intros Hr1 Hd -> [Hk Hwf]%Forall_cons_1 Hb Hits. cbn [map concat] in Hits. rewrite flat_body in Hits. cbn [app] in Hits.
  injection Hits as -> Hits. rewrite <- app_assoc in Hits. subst its. cbn [child_post].
  eexists _, _. split; [done|]. split; [split; [by eapply body_node|done]|].
  split; [done|]. split; [done|]. cbn [View.Children.depth View.Children.reader]. split; [done|]. split; [lia|].
  split; [done|]. exists (body k ++ concat (map flat ks) ++ [IEnd]), []. split; [done|].
  change (Z.to_nat (0 + 1)) with 1%nat. by rewrite skip_body, skip_0.
Qed.

Lemma children_loop fuel : forall s ks,
  children_at s ks -> zlen (Reader.rest (View.Children.reader s)) < Z.of_nat fuel ->
  child_post s ks (View.Children.loop fuel s).
Proof.
  induction fuel as [|fuel IH];
    intros [r st d fin] ks (Hf & Hs & Hd0 & Hd & Hwf & pending & ps & Hb & Hsk) Hfuel;
    cbn [View.Children.reader View.Children.strings View.Children.finished View.Children.depth] in *; subst st fin.
  { pose proof (zlen_nonneg (Reader.rest r)). lia. }
  destruct pending as [|it0 pending]; [by destruct (Z.to_nat d), ps, ks as [|[] ?]|].
  destruct (before_step _ _ _ Hb) as (it & r0 & l & Hrd & Hr0 & Hp & Hsh & Hcase).
  assert (forall r' d' pending' ps' , before r' pending' -> zlen (Reader.rest r') + 4 <= zlen (Reader.rest r) ->
    0 <= d' <= d + 1 ->
    skip (Z.to_nat d') pending' = map prop_item ps' ++ concat (map flat ks) ++ [IEnd] ->
    child_post (View.Children.mk r' strings d' false) ks
      (View.Children.loop fuel (View.Children.mk r' strings d' false))) as Hcont.
  { intros r' d' pending' ps' Hb' Hsh' Hd' Hsk'. apply IH; [|cbn; lia].
    split; [done|]. split; [done|]. cbn. split; [lia|]. split; [lia|]. split; [done|].
    by exists pending', ps'. }
  destruct Hcase as [[-> Hb0]|(-> & Hnn & Hnext)].
  { cbn in Hp. subst l. rewrite (children_nop _ _ r0) by done. by eapply Hcont; [done|lia|lia|]. }
  destruct it0 as [n| |off v| |]; cbn [item_token payload] in *; try done.
  - (* BeginNode *)
    destruct (view_read_node_name bs r0 n l Hr0 Hp) as (r1 & Hn & Hr1 & Hl1). subst l.
    rewrite (children_begin _ _ r0 r1 _ n) by (done || lia).
    pose proof (Hnext r1 Hr1 eq_refl) as Hb1. destruct (d =? 0) eqn:Hd1; zbool.
    + rewrite Hd1 in Hsk. cbn in Hsk. destruct ps as [|p ps]; [|done]. destruct ks as [|k ks]; [done|].
      eapply (child_found r1 k ks d pending); try done; lia.
    + eapply (Hcont r1 (d + 1)); [done|lia|lia|].
      replace (Z.to_nat (d + 1)) with (S (Z.to_nat d)) by lia.
      destruct (Z.to_nat d) as [|dn] eqn:Hdn; [lia|]. exact Hsk.
  - (* EndNode *)
    subst l. pose proof (Hnext r0 Hr0 eq_refl) as Hb1. rewrite (children_end _ _ r0) by (done || lia).
    destruct (d =? 0) eqn:Hd1; zbool.
    + subst d. cbn in Hsk. destruct ps as [|p ps]; [|done].
      destruct ks as [|[] ks]; [|done]. cbn [child_post]. by eexists.
    + eapply (Hcont r0 (d - 1)); [done|lia|lia|].
      destruct (Z.to_nat d) as [|dn] eqn:Hdn; [lia|]. replace (Z.to_nat (d - 1)) with dn by lia. exact Hsk.
  - (* Property *)
    destruct (view_skip_property bs r0 off v l Hr0 Hp) as (r1 & Hn & Hr1 & Hl1).
    rewrite (children_property _ _ r0 r1) by done. pose proof (Hnext r1 Hr1 Hl1) as Hb1. subst l.
    destruct (Z.to_nat d) as [|dn] eqn:Hdn.
    + cbn in Hsk. destruct ps as [|p ps]; [by destruct ks as [|[] ks]|].
      eapply (Hcont r1 d _ ps); [done|lia|lia|]. rewrite Hdn, skip_0. by injection Hsk.
    + eapply (Hcont r1 d); [done|lia|lia|]. rewrite Hdn. exact Hsk.
  - (* End *)
    exfalso. destruct (Z.to_nat d), ps as [|[? ?] ?], ks as [|[] ?]; discriminate Hsk.
Qed.

#[export] Instance children_iterates :
  Iterates View.Children.next (shows strings) children_at.
Proof.
  assert (forall s ks, children_at s ks -> View.Children.next s =
    View.Children.loop (Structure.fuel_of (Reader.bytes (View.Children.reader s))) s) as Hnext.
  { intros s ks (Hf & _). unfold View.Children.next. rewrite (bind_Ok _ _ _ s s) by done. by rewrite Hf. }
  split; intros s; [intros Hs|intros k ks Hs];
    pose proof Hs as (Hf & _ & _ & _ & _ & pd & ps & Hb & _);
    pose proof (children_loop (Structure.fuel_of (Reader.bytes (View.Children.reader s))) s _ Hs
      (rest_le _ (proj1 Hb))) as Hl; rewrite <- (Hnext _ _ Hs) in Hl; [|done].
  destruct Hl as (s' & Hl & Hfin). apply (exhausted_step _ _ s'); [done|]. apply exhausted_stay.
  unfold View.Children.next. rewrite (bind_Ok _ _ _ s' s') by done. by rewrite Hfin.
Qed.

Lemma skip_length its : forall d, (length (skip d its) <= length its)%nat.
Proof.
  induction its as [|it its IH]; intros [|d]; cbn; try lia.
  pose proof (IH d). pose proof (IH (S d)). pose proof (IH (S (S d))). destruct it; cbn; lia.
Qed.

Lemma denop_length its : (length (denop its) <= length its)%nat.
Proof. apply List.filter_length_le. Qed.

Lemma length_flats ks : (length ks <= length (concat (map flat ks)))%nat.
Proof.
  induction ks as [|[] ks IH]; cbn; [lia|]. rewrite !length_app. lia.
Qed.

(** The fuel a loop over the remaining children needs. *)
Lemma children_at_fuel s ks :
  children_at s ks ->
  (length ks < Structure.fuel_of (Reader.bytes (View.Children.reader s)))%nat.
Proof.
  intros (_ & _ & _ & _ & _ & pd & ps & (Hr & its & l' & Hl & <-) & Hsk).
  pose proof (skip_length (denop its) (Z.to_nat (View.Children.depth s))) as H1.
  rewrite Hsk, !length_app in H1. pose proof (denop_length its). pose proof (length_flats ks).
  pose proof (rest_le _ Hr) as Hle. apply lexes_length in Hl. unfold zlen in Hle. lia.
Qed.

(** ** Descendants *)

(** The children still to come of each open node, innermost first. *)
Definition levels_items (ls : list (list tree)) : list item :=
  concat (map (fun ks => concat (map flat ks) ++ [IEnd]) ls).

Definition levels_trees (ls : list (list tree)) : list tree :=
  concat (map (fun ks => concat (map preorder ks)) ls).

Definition descendants_at (s : View.Descendants.t) (ls : list (list tree)) : Prop :=
  let d := View.Descendants.depth s in
  View.Descendants.finished s = false /\ View.Descendants.strings s = strings /\
  d + 1 = zlen ls /\ 0 <= d /\ d + zlen (Reader.rest (View.Descendants.reader s)) <= isize_max /\
  Forall (Forall (wf_tree strings)) ls /\
  exists ps, before (View.Descendants.reader s) (map prop_item ps ++ levels_items ls).

Definition descendant_post (ls : list (list tree))
    (res : outcome never (option View.Node) * View.Descendants.t) : Prop :=
  match levels_trees ls with
  | [] => exists s', res = (Ok None, s') /\ View.Descendants.finished s' = true
  | t :: ts => exists n s' ls', res = (Ok (Some n), s') /\
                 shows strings n t /\ descendants_at s' ls' /\ levels_trees ls' = ts
  end.

Lemma on_descendants {A} (m : M Reader.t never A) r st d fin a r' :
  m r = (Ok a, r') ->
  View.Descendants.on_reader m (View.Descendants.mk r st d fin) =
    (Ok a, View.Descendants.mk r' st d fin).
Proof. intros H. unfold View.Descendants.on_reader, zoom. cbn. by rewrite H. Qed.

Lemma levels_items_cons ks ls :
  levels_items (ks :: ls) = concat (map flat ks) ++ [IEnd] ++ levels_items ls.
Proof. unfold levels_items. cbn [map concat]. by rewrite <- app_assoc. Qed.

Lemma levels_items_open k ks ls :
  levels_items ((k :: ks) :: ls) =
    IBegin (tree_name k) :: map prop_item (tree_props k) ++ levels_items (tree_kids k :: ks :: ls).
Proof.
  rewrite !levels_items_cons. cbn [map concat]. rewrite flat_body.
  unfold body, flat_content. cbn [app]. by rewrite <- !app_assoc.
Qed.

Lemma levels_trees_open k ks ls :
  levels_trees ((k :: ks) :: ls) = k :: levels_trees (tree_kids k :: ks :: ls).
Proof.
  unfold levels_trees. cbn [map concat]. destruct k as [n ps kk]. cbn [preorder app tree_kids].
  by rewrite <- app_assoc.
Qed.

(** One round of the iterator, by the token it reads. *)
Lemma descendants_begin fuel r r0 r1 d n :
  View.read_token r = (Ok BeginNode, r0) -> View.read_node_name r0 = (Ok n, r1) -> on_token bs r1 ->
  d + zlen (Reader.rest r1) <= isize_max ->
  View.Descendants.loop (S fuel) (View.Descendants.mk r strings d false) =
    (Ok (Some (View.mkNode n (Reader.rest r1) strings)), View.Descendants.mk r1 strings (d + 1) false).
Proof.
  intros Ht Hn Hr1 Hd. cbn [View.Descendants.loop].
  rewrite (bind_Ok _ _ _ _ _ (on_descendants _ _ _ _ _ _ _ Ht)), (bind_Ok _ _ _ _ _ (on_descendants _ _ _ _ _ _ _ Hn)).
  rewrite (bind_Ok _ _ _ _ _ (on_descendants _ _ _ _ _ _ _ (view_remaining bs r1 Hr1))).
  rewrite (bind_Ok _ _ _ (View.Descendants.mk r1 strings d false) (View.Descendants.mk r1 strings d false)) by done.
  cbn [View.Descendants.depth View.Descendants.strings].
  by rewrite (bind_Ok _ _ _ (d + 1) (View.Descendants.mk r1 strings d false))
    by (unfold lift; by rewrite (depth_room r1)).
Qed.

Lemma descendants_end fuel r r0 d :
  View.read_token r = (Ok EndNode, r0) -> 0 <= d ->
  View.Descendants.loop (S fuel) (View.Descendants.mk r strings d false) =
    if d =? 0 then (Ok None, View.Descendants.mk r0 strings d true)
    else View.Descendants.loop fuel (View.Descendants.mk r0 strings (d - 1) false).
Proof.
  intros Ht Hd. cbn [View.Descendants.loop]. rewrite (bind_Ok _ _ _ _ _ (on_descendants _ _ _ _ _ _ _ Ht)).
  rewrite (bind_Ok _ _ _ (View.Descendants.mk r0 strings d false) (View.Descendants.mk r0 strings d false)) by done.
  cbn [View.Descendants.depth]. destruct (d =? 0) eqn:Hd1; zbool; [done|].
  unfold usub, checked_sub. by replace (1 <=? d) with true by lia.
Qed.

Lemma descendants_property fuel r r0 r1 d :
  View.read_token r = (Ok Property, r0) -> View.skip_property r0 = (Ok tt, r1) ->
  View.Descendants.loop (S fuel) (View.Descendants.mk r strings d false) =
    View.Descendants.loop fuel (View.Descendants.mk r1 strings d false).
Proof.
  intros Ht Hs. cbn [View.Descendants.loop]. rewrite (bind_Ok _ _ _ _ _ (on_descendants _ _ _ _ _ _ _ Ht)).
  by rewrite (bind_Ok _ _ _ _ _ (on_descendants _ _ _ _ _ _ _ Hs)).
Qed.

Lemma descendants_nop fuel r r0 d :
  View.read_token r = (Ok Nop, r0) ->
  View.Descendants.loop (S fuel) (View.Descendants.mk r strings d false) =
    View.Descendants.loop fuel (View.Descendants.mk r0 strings d false).
Proof. intros Ht. cbn [View.Descendants.loop]. by rewrite (bind_Ok _ _ _ _ _ (on_descendants _ _ _ _ _ _ _ Ht)). Qed.

(** The next descendant opens a level. *)
Lemma descendant_found r1 d k ks ls :
  on_token bs r1 -> 0 <= d -> d + 1 = zlen ls + 1 -> d + zlen (Reader.rest r1) + 1 <= isize_max ->
  Forall (Forall (wf_tree strings)) ((k :: ks) :: ls) ->
  before r1 (map prop_item (tree_props k) ++ levels_items (tree_kids k :: ks :: ls)) ->
  descendant_post ((k :: ks) :: ls)
    (Ok (Some (View.mkNode (tree_name k) (Reader.rest r1) strings)), View.Descendants.mk r1 strings (d + 1) false).
Proof.
  intros Hr1 Hd0 Hlen Hd [[Hk Hks]%Forall_cons_1 Hwf]%Forall_cons_1 Hb1. unfold descendant_post.
  rewrite levels_trees_open. eexists _, _, (tree_kids k :: ks :: ls). split; [done|]. split.
  - split; [|done]. eapply body_node; [done| |done|done].
    rewrite levels_items_cons, app_assoc, app_assoc in Hb1. unfold body, flat_content. exact Hb1.
  - split; [|done]. split; [done|]. split; [done|].
    cbn [View.Descendants.depth View.Descendants.reader]. rewrite !zlen_cons.
    split; [lia|]. split; [lia|]. split; [lia|]. split.
    + inversion Hk; subst. by repeat constructor.
    + by exists (tree_props k).
Qed.

Lemma descendants_loop fuel : forall s ls,
  descendants_at s ls -> zlen (Reader.rest (View.Descendants.reader s)) < Z.of_nat fuel ->
  descendant_post ls (View.Descendants.loop fuel s).
Proof.
  induction fuel as [|fuel IH];
    intros [r st d fin] ls (Hf & Hs & Hlen & Hd0 & Hd & Hwf & ps & Hb) Hfuel;
    cbn [View.Descendants.reader View.Descendants.strings View.Descendants.finished
         View.Descendants.depth] in *; subst st fin.
  { pose proof (zlen_nonneg (Reader.rest r)). lia. }
  destruct ls as [|ks ls]; [rewrite zlen_nil in Hlen; lia|]. rewrite zlen_cons in Hlen.
  assert (exists it0 pending, map prop_item ps ++ levels_items (ks :: ls) = it0 :: pending)
    as (it0 & pending & He) by (destruct ps, ks as [|[] ?]; by eexists _, _).
  pose proof Hb as Hb'. rewrite He in Hb'.
  destruct (before_step _ _ _ Hb') as (it & r0 & l & Hrd & Hr0 & Hp & Hsh & Hcase).
  assert (forall r' ps' , before r' (map prop_item ps' ++ levels_items (ks :: ls)) ->
    zlen (Reader.rest r') + 4 <= zlen (Reader.rest r) ->
    descendant_post (ks :: ls) (View.Descendants.loop fuel (View.Descendants.mk r' strings d false))) as Hcont.
  { intros r' ps' Hb0 Hsh'. apply IH; [|cbn; lia]. split; [done|]. split; [done|].
    cbn [View.Descendants.depth View.Descendants.reader]. rewrite zlen_cons. repeat (split; [done || lia|]). by exists ps'. }
  destruct Hcase as [[-> Hb0]|(-> & Hnn & Hnext)].
  { cbn in Hp. subst l. rewrite <- He in Hb0. rewrite (descendants_nop _ _ r0) by done. by eapply Hcont. }
  destruct ps as [|[off v] ps]; [destruct ks as [|k ks]|].
  - (* EndNode *)
    rewrite levels_items_cons in He. cbn [map concat app] in He. injection He as <- <-.
    cbn [item_token payload] in *. subst l. rewrite (descendants_end _ _ r0) by done.
    destruct (d =? 0) eqn:Hd1; zbool.
    + destruct ls; [|rewrite zlen_cons in Hlen; pose proof (zlen_nonneg ls); lia].
      unfold descendant_post. cbn. by eexists.
    + apply Forall_cons_1 in Hwf as [_ Hwf].
      change (descendant_post ls (View.Descendants.loop fuel (View.Descendants.mk r0 strings (d - 1) false))).
      apply IH; [|cbn; lia]. split; [done|]. split; [done|].
      cbn [View.Descendants.depth View.Descendants.reader].
      repeat (split; [done || lia|]). exists []. by apply Hnext.
  - (* BeginNode *)
    rewrite levels_items_open in He. cbn [map app] in He. injection He as <- <-. cbn [item_token payload] in *.
    destruct (view_read_node_name bs r0 _ l Hr0 Hp) as (r1 & Hn & Hr1 & Hl1). subst l.
    rewrite (descendants_begin _ _ r0 r1 _ (tree_name k)) by (done || lia).
    apply descendant_found; try done; [lia..|]. by apply Hnext.
  - (* Property *)
    cbn [map app] in He. injection He as <- <-. cbn [prop_item item_token payload] in *.
    destruct (view_skip_property bs r0 _ _ l Hr0 Hp) as (r1 & Hn & Hr1 & Hl1).
    rewrite (descendants_property _ _ r0 r1) by done. pose proof (Hnext r1 Hr1 Hl1) as Hb1. subst l. by eapply Hcont.
Qed.

#[export] Instance descendants_iterates :
  Iterates View.Descendants.next (shows strings)
    (fun s ts => exists ls, descendants_at s ls /\ levels_trees ls = ts).
Proof.
  split; intros s; [intros (ls & Hs & Hts)|intros t ts (ls & Hs & Hts)];
    pose proof Hs as (Hf & _ & _ & _ & _ & _ & ps & Hb);
    pose proof (descendants_loop (Structure.fuel_of (Reader.bytes (View.Descendants.reader s))) s _ Hs
      (rest_le _ (proj1 Hb))) as Hl; unfold descendant_post in Hl; rewrite Hts in Hl;
    assert (View.Descendants.next s = View.Descendants.loop
      (Structure.fuel_of (Reader.bytes (View.Descendants.reader s))) s) as Hnext
      by (unfold View.Descendants.next; rewrite (bind_Ok _ _ _ s s) by done; by rewrite Hf);
    rewrite <- Hnext in Hl.
  - destruct Hl as (s' & Hl & Hfin). apply (exhausted_step _ _ s'); [done|]. apply exhausted_stay.
    unfold View.Descendants.next. rewrite (bind_Ok _ _ _ s' s') by done. by rewrite Hfin.
  - destruct Hl as (n & s' & ls' & Hl & Hn & Hs' & Hls'). exists n, s'. eauto.
Qed.

End iterators.

(** ** Calls on a node *)

Lemma new_before l its l' :
  zlen l <= isize_max -> lexes l its l' -> before l (Reader.new l) (denop its).
Proof. intros Hl H. split; [split; [by apply Reader.new_wf|done]|]. by exists its, l'. Qed.

Section node.
Context (n : View.Node) (t : tree) (Hrep : represents n t).

Lemma rep_before :
  before (View.content n) (Reader.new (View.content n)) (body t).
Proof. destruct Hrep as [_ (its & l' & Hl & <-) Hs _]. by eapply new_before. Qed.

Lemma rep_tree :
  Forall (fun p => is_Some (prop_name (View.strings n) p)) (tree_props t) /\
  NoDup (map (prop_name (View.strings n)) (tree_props t)) /\
  NoDup (map tree_name (tree_kids t)) /\
  Forall (wf_tree (View.strings n)) (tree_kids t).
Proof. destruct (rep_wf _ _ Hrep) as [nm ps ks H1 H2 H3 H4 H5]. done. Qed.

Lemma node_properties :
  yields View.Properties.next (shows_prop (View.strings n)) (View.properties n) (tree_props t).
Proof.
  apply (iterates_yields _ _ (properties_at (View.content n) _)). split; [done|]. split; [done|].
  split; [apply rep_tree|]. pose proof rep_before as Hb. unfold body, flat_content in Hb.
  destruct (tree_kids t) as [|k ks]; cbn [map concat app] in Hb.
  - exists IEnd, []. split; [by left|]. by rewrite app_nil_r in Hb.
  - rewrite flat_body in Hb. cbn [app] in Hb. rewrite <- app_assoc in Hb.
    eexists (IBegin _), _. split; [right; by eexists|]. exact Hb.
Qed.

Lemma children_start :
  children_at (View.content n) (View.strings n) (View.children n) (tree_kids t).
Proof.
  split; [done|]. split; [done|]. cbn.
  split; [lia|]. split; [apply Hrep|]. split; [apply rep_tree|].
  exists (body t), (tree_props t). split; [apply rep_before|].
  rewrite skip_0. unfold body, flat_content. by rewrite app_assoc.
Qed.

Lemma node_children :
  yields View.Children.next (shows (View.strings n)) (View.children n) (tree_kids t).
Proof. apply (iterates_yields _ _ (children_at (View.content n) _)), children_start. Qed.

Lemma node_descendants :
  yields View.Descendants.next (shows (View.strings n)) (View.descendants n)
    (concat (map preorder (tree_kids t))).
Proof.
  apply (iterates_yields _ _ (fun s ts => exists ls,
    descendants_at (View.content n) (View.strings n) s ls /\ levels_trees ls = ts)).
  exists [tree_kids t]. split; [|unfold levels_trees; cbn; apply app_nil_r]. split; [done|]. split; [done|].
  split; [done|]. split; [cbn; lia|]. split; [apply Hrep|].
  split; [by repeat constructor; apply rep_tree|]. exists (tree_props t).
  rewrite levels_items_cons. change (levels_items []) with (@nil item). rewrite app_nil_r. pose proof rep_before as Hb.
  unfold body, flat_content in Hb. by rewrite <- app_assoc in Hb.
Qed.

(** *** Fuel *)

Lemma rep_length : (length (body t) <= length (View.content n))%nat.
Proof.
  destruct Hrep as [_ (its & l' & Hl & <-) _ _]. apply lexes_length in Hl.
  pose proof (denop_length its). lia.
Qed.

Lemma props_fuel : (length (tree_props t) < View.node_fuel n)%nat.
Proof.
  pose proof rep_length as H. unfold body, flat_content in H.
  rewrite !length_app, length_map in H. unfold View.node_fuel. lia.
Qed.

Lemma kids_fuel : (length (tree_kids t) < View.node_fuel n)%nat.
Proof.
  pose proof rep_length as H. pose proof (length_flats (tree_kids t)). unfold body, flat_content in H.
  rewrite !length_app in H. unfold View.node_fuel. lia.
Qed.

(** *** Lookup *)

Definition tree_prop (strings : Strings.t) (t : tree) (nm : list byte) : option (list byte) :=
  prop_value <$> List.find (fun p => bool_decide (prop_name strings p = Some nm)) (tree_props t).

Definition tree_child (t : tree) (nm : list byte) : option tree :=
  List.find (fun k => bool_decide (tree_name k = nm)) (tree_kids t).

Lemma node_property nm :
  View.property n nm =
    Ok (View.mkProperty nm <$> tree_prop (View.strings n) t nm).
Proof.
  unfold View.property, tree_prop.
  pose proof (find_next_iterates _ _ (yields _ _) (fun p => bool_decide (View.property_name p = nm))
    (fun p => bool_decide (prop_name (View.strings n) p = Some nm)) _ _ _
    node_properties props_fuel) as H.
  specialize (H ltac:(intros q p [Hq _] _; rewrite Hq; apply bool_decide_ext; naive_solver)).
  destruct (List.find _ _) as [p|] eqn:Hf.
  - destruct H as (q & it' & k & l' & -> & [Hq Hv] & _). cbn.
    apply List.find_some in Hf as [_ Hd%bool_decide_eq_true]. rewrite Hq in Hd.
    injection Hd as <-. destruct q. cbn in *. by subst.
  - by destruct H as (it' & -> & _).
Qed.

Lemma node_child nm :
  exists o, View.child n nm = Ok o /\
    match tree_child t nm with
    | Some k => exists c, o = Some c /\ shows (View.strings n) c k
    | None => o = None
    end.
Proof.
  unfold View.child, tree_child.
  pose proof (find_next_iterates _ _ (yields _ _) (fun c => bool_decide (View.name c = nm))
    (fun k => bool_decide (tree_name k = nm)) _ _ _ node_children kids_fuel) as H.
  specialize (H ltac:(intros c k [Hc _] _; by rewrite (rep_name _ _ Hc))).
  destruct (List.find _ _) as [k|].
  - destruct H as (c & it' & ks & l' & -> & Hc & _). exists (Some c). split; [done|]. by exists c.
  - destruct H as (it' & -> & _). by exists None.
Qed.

End node.

(** ** The root *)

Lemma view_read_non_nop fuel : forall bs r it0 pending,
  before bs r (it0 :: pending) -> zlen (Reader.rest r) < Z.of_nat fuel ->
  exists r0 l, View.read_non_nop_token fuel r = (Ok (item_token it0), r0) /\ on_token bs r0 /\
    payload it0 (Reader.rest r0) l /\
    forall r', on_token bs r' -> Reader.rest r' = l -> before bs r' pending.
Proof.
  induction fuel as [|fuel IH]; intros bs r it0 pending Hb Hfuel.
  { pose proof (zlen_nonneg (Reader.rest r)). lia. }
  destruct (before_step _ _ _ _ Hb) as (it & r0 & l & Hrd & Hr0 & Hp & Hsh & Hcase).
  cbn [View.read_non_nop_token]. rewrite (bind_Ok _ _ _ _ _ Hrd).
  destruct Hcase as [[-> Hb0]|(-> & Hnn & Hnext)].
  - rewrite bool_decide_eq_false_2 by (intros H; by apply H). cbn in Hp. subst l.
    apply IH; [done|lia].
  - rewrite bool_decide_eq_true_2 by (by destruct it0). by exists r0, l.
Qed.

Lemma root_spec blob strings t :
  zlen blob <= isize_max -> encodes strings blob t ->
  exists n, View.root (Structure.mk blob) strings = Ok n /\ shows strings n t.
Proof.
  intros Hblob ((its & Hl & Hd) & Hn & Hwf).
  assert (before blob (Reader.new blob) (IBegin [] :: body t ++ [IFinish])) as Hb.
  { pose proof (new_before _ _ _ Hblob Hl) as H.
    rewrite denop_app, Hd, flat_body, Hn in H. exact H. }
  destruct (view_read_non_nop (Structure.fuel_of blob) _ _ _ _ Hb) as (r0 & l & Hrd & Hr0 & Hp & Hnext).
  { change (Reader.rest (Reader.new blob)) with blob. unfold Structure.fuel_of, zlen. lia. }
  destruct (view_read_node_name _ _ _ _ Hr0 Hp) as (r1 & Hnm & Hr1 & Hl1).
  exists (View.mkNode [] (Reader.rest r1) strings). split.
  - unfold View.root. cbn [Structure.bytes]. rewrite (bind_Ok _ _ _ _ _ Hrd).
    cbn [item_token]. rewrite bool_decide_eq_true_2 by done.
    rewrite (bind_Ok _ _ _ tt r0) by done. rewrite (bind_Ok _ _ _ _ _ Hnm).
    rewrite bool_decide_eq_true_2 by done. rewrite (bind_Ok _ _ _ tt r1) by done.
    by rewrite (bind_Ok _ _ _ _ _ (view_remaining _ _ Hr1)).
  - split; [|done]. eapply body_node; [exact Hr1|by apply Hnext|done|done].
Qed.
