(* ===== verification/FdtAddressing.v ===== *)
(** * Generic addressing rules ([fdt/src/structure/semantic/addressing.rs])

    The cell counts a node sets for its children, the layout of a [reg] entry,
    and the validation of the whole tree.  Each function on node views is
    shown equal to a function of the tree the view represents, so that it
    depends on nothing else and reaches none of its [expect]s. *)

From Stdlib Require Import ZArith Lia Bool.
From Stdlib Require Import Strings.Byte Strings.String.
From stdpp Require Import base list numbers.
From S2P Require Import Prelude FdtReader FdtStrings FdtNames FdtStructure FdtTree FdtView.
From S2P Require Import FdtViewProofs.
Local Open Scope Z_scope.
Set Warnings "-register-all".

Definition CELL_SIZE : Z := 4.

Module Addressing.

Definition ADDRESS_CELLS_PROPERTY : list byte := bs "#address-cells".
Definition SIZE_CELLS_PROPERTY : list byte := bs "#size-cells".

(** Both newtypes over [u32]. *)
Record AddressCells := mkAddressCells { address_get : Z }.
Definition AddressCells_DEFAULT : AddressCells := mkAddressCells 2.

Record SizeCells := mkSizeCells { size_get : Z }.
Definition SizeCells_DEFAULT : SizeCells := mkSizeCells 1.

Record ChildAddressing := mkChildAddressing
  { address_cells : AddressCells; size_cells : SizeCells }.

Record RegLayout := mkRegLayout { address_size : Z; entry_size : Z }.

Definition RegLayout_new (addressing : ChildAddressing) : outcome SemanticError RegLayout :=
  let address_cells := address_get (address_cells addressing) in
  let size_cells := size_get (size_cells addressing) in
  let? address_size := ok_or (checked_mul usize_max (usize_from_u32 address_cells) CELL_SIZE)
                             (RegEntrySizeOverflow address_cells size_cells) in
  let? size_size := ok_or (checked_mul usize_max (usize_from_u32 size_cells) CELL_SIZE)
                          (RegEntrySizeOverflow address_cells size_cells) in
  let? entry_size := ok_or (checked_add usize_max address_size size_size)
                           (RegEntrySizeOverflow address_cells size_cells) in
  Ok (mkRegLayout address_size entry_size).

(** [<[u8; 4]>::try_from] and [u32::from_be_bytes]. *)
Definition decode_u32 (bytes : list byte) : option Z :=
  if zlen bytes =? 4 then Some (be_val bytes) else None.

Definition parse_address_cells (node : View.Node) : outcome SemanticError AddressCells :=
  let? property := infallible (View.property node ADDRESS_CELLS_PROPERTY) in
  match property with
  | None => Ok AddressCells_DEFAULT
  | Some property =>
      let? value := ok_or (decode_u32 (View.value property))
                          (InvalidAddressCells (zlen (View.value property))) in
      Ok (mkAddressCells value)
  end.

Definition parse_size_cells (node : View.Node) : outcome SemanticError SizeCells :=
  let? property := infallible (View.property node SIZE_CELLS_PROPERTY) in
  match property with
  | None => Ok SizeCells_DEFAULT
  | Some property =>
      let? value := ok_or (decode_u32 (View.value property))
                          (InvalidSizeCells (zlen (View.value property))) in
      Ok (mkSizeCells value)
  end.

Definition parse_child_addressing (node : View.Node) : outcome SemanticError ChildAddressing :=
  let? address_cells := parse_address_cells node in
  let? size_cells := parse_size_cells node in
  Ok (mkChildAddressing address_cells size_cells).

Definition child_addressing {E} (node : View.Node) : outcome E ChildAddressing :=
  expect (parse_child_addressing node).

Definition validate_node_addressing (node : View.Node) : outcome SemanticError unit :=
  match View.unit_address node with
  | None => Ok tt
  | Some _ =>
      let? reg := infallible (View.property node (bs "reg")) in
      let? ranges := infallible (View.property node (bs "ranges")) in
      let has_reg := bool_decide (is_Some reg) in
      let has_ranges := bool_decide (is_Some ranges) in
      if negb has_reg && negb has_ranges then Err UnitAddressWithoutReg else Ok tt
  end.

Definition validate_node (node : View.Node) : outcome SemanticError unit :=
  let? _ := parse_child_addressing node in
  validate_node_addressing node.

Definition validate_reg (node : View.Node) (parent_addressing : ChildAddressing)
    : outcome SemanticError unit :=
  let? reg := infallible (View.property node (bs "reg")) in
  match reg with
  | None => Ok tt
  | Some reg =>
      let? layout := RegLayout_new parent_addressing in
      let entry_size := entry_size layout in
      let length := zlen (View.value reg) in
      if entry_size =? 0 then
        if negb (length =? 0) then Err (InvalidRegLength length entry_size) else Ok tt
      else if negb (length mod entry_size =? 0) then Err (InvalidRegLength length entry_size)
      else Ok tt
  end.

(** The recursion is over the tree the view shows: [fuel] bounds its height. *)
Fixpoint validate_subtree (fuel : nat) (parent : View.Node) : outcome SemanticError unit :=
  match fuel with
  | O => OutOfFuel
  | S fuel' =>
      let? _ := validate_node parent in
      let? addressing := child_addressing parent in
      for_each View.Children.next (View.node_fuel parent)
        (fun child =>
           let? _ := validate_reg child addressing in
           validate_subtree fuel' child)
        (View.children parent)
  end.

Definition validate (root : View.Node) : outcome SemanticError unit :=
  validate_subtree (View.node_fuel root) root.

(** ** The rules on trees *)

Section rules.
Context (strings : Strings.t).

Definition cells (nm : list byte) (default : Z) (err : Z -> SemanticError) (t : tree)
    : outcome SemanticError Z :=
  match tree_prop strings t nm with
  | None => Ok default
  | Some v => ok_or (decode_u32 v) (err (zlen v))
  end.

Definition addressing_of (t : tree) : outcome SemanticError ChildAddressing :=
  let? a := cells ADDRESS_CELLS_PROPERTY 2 InvalidAddressCells t in
  let? s := cells SIZE_CELLS_PROPERTY 1 InvalidSizeCells t in
  Ok (mkChildAddressing (mkAddressCells a) (mkSizeCells s)).

(** A [reg] value divides into entries of the layout its parent sets. *)
Definition reg_fits (addressing : ChildAddressing) (t : tree) : outcome SemanticError unit :=
  match tree_prop strings t (bs "reg") with
  | None => Ok tt
  | Some v =>
      let n := 4 * address_get (address_cells addressing) + 4 * size_get (size_cells addressing) in
      err_if (if n =? 0 then negb (zlen v =? 0) else negb (zlen v mod n =? 0))
        (InvalidRegLength (zlen v) n)
  end.

Definition unit_address_ok (t : tree) : outcome SemanticError unit :=
  err_if (bool_decide (is_Some (Name.unit_address (tree_name t))) &&
          bool_decide (tree_prop strings t (bs "reg") = None) &&
          bool_decide (tree_prop strings t (bs "ranges") = None))
    UnitAddressWithoutReg.

Fixpoint tree_check (t : tree) : outcome SemanticError unit :=
  let 'Node _ _ ks := t in
  let? addressing := addressing_of t in
  let? _ := unit_address_ok t in
  for_list (fun k => let? _ := reg_fits addressing k in tree_check k) ks.

(** What an accepted tree satisfies, node by node. *)
Inductive addressing_ok : tree -> Prop :=
| addressing_node t addressing :
    addressing_of t = Ok addressing ->
    unit_address_ok t = Ok tt ->
    Forall (fun k => reg_fits addressing k = Ok tt) (tree_kids t) ->
    Forall addressing_ok (tree_kids t) ->
    addressing_ok t.

Lemma tree_check_Ok t : tree_check t = Ok tt <-> addressing_ok t.
Proof.
  induction t as [n ps ks IH] using tree_ind'. cbn [tree_check]. split.
  - intros H. chain H. destruct a0. econstructor; [done|done| |]; cbn [tree_kids].
    all: apply for_list_Ok in H; rewrite Forall_forall in *; intros k Hk;
      specialize (H k Hk); apply obind_Ok in H as ([] & H1 & H2); [exact H1||by apply IH].
  - intros H. inversion H as [t addressing Ha Hu Hr Hk]; subst. rewrite Ha, Hu. cbn [obind].
    apply for_list_Ok. cbn [tree_kids] in *. rewrite Forall_forall in *. intros k Hin.
    rewrite (Hr k Hin). cbn [obind]. apply IH; auto.
Qed.

End rules.

(** ** The views compute the rules *)

Lemma decode_u32_range v z : decode_u32 v = Some z -> is_u32 z.
Proof.
  unfold decode_u32. destruct (_ =? 4) eqn:E; [|done]. intros [= <-]. zbool.
  pose proof (be_val_range v) as H. rewrite E in H. unfold is_u32, u32_max. lia.
Qed.

(** A layout always exists: [u32] counts cannot overflow a 64-bit size. *)
Lemma RegLayout_new_Ok addressing :
  is_u32 (address_get (address_cells addressing)) ->
  is_u32 (size_get (size_cells addressing)) ->
  RegLayout_new addressing =
    Ok (mkRegLayout (4 * address_get (address_cells addressing))
          (4 * address_get (address_cells addressing) + 4 * size_get (size_cells addressing))).
Proof.
  destruct addressing as [[a] [s]]. cbn. unfold is_u32, u32_max. intros Ha Hs.
  unfold RegLayout_new. cbn [address_cells size_cells address_get size_get].
  unfold usize_from_u32, CELL_SIZE, checked_mul, checked_add, usize_max.
  repeat (replace (_ <=? _) with true by lia; cbn [ok_or obind]). f_equal. f_equal; lia.
Qed.

Section view.
Context (n : View.Node) (t : tree) (Hrep : represents n t).
Let strings := View.strings n.

Lemma parse_child_addressing_eq : parse_child_addressing n = addressing_of strings t.
Proof.
  unfold parse_child_addressing, parse_address_cells, parse_size_cells, addressing_of, cells.
  rewrite !(node_property _ _ Hrep). cbn [infallible obind].
  fold strings. destruct (tree_prop strings t ADDRESS_CELLS_PROPERTY) as [v|]; cbn;
    [destruct (decode_u32 v); cbn; [|done]|];
    (destruct (tree_prop strings t SIZE_CELLS_PROPERTY) as [w|]; cbn; [|done]);
    by destruct (decode_u32 w).
Qed.

Lemma validate_node_eq :
  validate_node n = let? _ := addressing_of strings t in unit_address_ok strings t.
Proof.
  unfold validate_node, validate_node_addressing, unit_address_ok.
  rewrite parse_child_addressing_eq. destruct (addressing_of strings t); try done. cbn [obind].
  rewrite !(node_property _ _ Hrep). unfold View.unit_address. rewrite (rep_name _ _ Hrep).
  destruct (Name.unit_address (tree_name t)) as [u|]; [|done]. cbn [infallible obind].
  fold strings. destruct (tree_prop strings t (bs "reg")), (tree_prop strings t (bs "ranges")); done.
Qed.

Lemma addressing_u32 addressing :
  addressing_of strings t = Ok addressing ->
  is_u32 (address_get (address_cells addressing)) /\ is_u32 (size_get (size_cells addressing)).
Proof.
  unfold addressing_of, cells. intros H. chain H. injection H as <-. cbn. split.
  - destruct (tree_prop strings t ADDRESS_CELLS_PROPERTY) as [v|]; [|by injection Hc as <-].
    destruct (decode_u32 v) eqn:E; [|done]. injection Hc as <-. by eapply decode_u32_range.
  - destruct (tree_prop strings t SIZE_CELLS_PROPERTY) as [v|]; [|by injection Hc0 as <-].
    destruct (decode_u32 v) eqn:E; [|done]. injection Hc0 as <-. by eapply decode_u32_range.
Qed.

Lemma validate_reg_eq addressing :
  is_u32 (address_get (address_cells addressing)) ->
  is_u32 (size_get (size_cells addressing)) ->
  validate_reg n addressing = reg_fits strings addressing t.
Proof.
  intros Ha Hs. unfold validate_reg, reg_fits. rewrite (node_property _ _ Hrep).
  cbn [infallible obind]. fold strings. destruct (tree_prop strings t (bs "reg")) as [v|]; [|done].
  cbn [fmap option_fmap option_map]. rewrite RegLayout_new_Ok by done. cbn [obind entry_size View.value].
  destruct (_ =? 0); unfold err_if; done.
Qed.

End view.

Lemma body_kid_shorter t k :
  In k (tree_kids t) -> (length (body k) < length (body t))%nat.
Proof.
  destruct t as [nm ps ks]. unfold body at 2, flat_content. cbn [tree_kids tree_props].
  intros Hin. rewrite !length_app. cbn [length].
  assert (length (flat k) <= length (concat (map flat ks)))%nat as Hle.
  { clear -Hin. induction ks as [|k' ks IH]; [done|]. cbn [map concat]. rewrite length_app.
    destruct Hin as [->|Hin]; [lia|]. specialize (IH Hin). lia. }
  rewrite flat_body in Hle. cbn [length] in Hle. lia.
Qed.

Lemma validate_subtree_eq fuel : forall n t,
  represents n t -> (length (body t) < fuel)%nat ->
  validate_subtree fuel n = tree_check (View.strings n) t.
Proof.
  induction fuel as [|fuel IH]; intros n t Hrep Hfuel; [lia|]. cbn [validate_subtree].
  rewrite (validate_node_eq _ _ Hrep). unfold child_addressing.
  rewrite (parse_child_addressing_eq _ _ Hrep). destruct t as [nm ps ks].
  cbn [tree_check]. destruct (addressing_of _ _) as [addressing| | |] eqn:Ha; try done.
  cbn [obind]. destruct (unit_address_ok _ _) as [[]| | |]; try done. cbn [obind expect].
  apply (addressing_u32 n _) in Ha as [Ha Hs].
  pose proof (node_children _ _ Hrep) as Hy.
  rewrite (for_each_yields _ _ _ (fun k => let? _ := reg_fits (View.strings n) addressing k in
    tree_check (View.strings n) k) _ _ _ Hy (kids_fuel _ _ Hrep)).
  - by rewrite for_list_foldr.
  - intros c k [Hc Hst] Hin. rewrite (validate_reg_eq _ _ Hc) by done. rewrite Hst.
    destruct (reg_fits _ _ _) as [[]| | |]; try done. cbn [obind]. rewrite <- Hst.
    apply IH; [done|]. pose proof (body_kid_shorter _ _ Hin). lia.
Qed.

Lemma validate_eq n t : represents n t -> validate n = tree_check (View.strings n) t.
Proof.
  intros Hrep. apply validate_subtree_eq; [done|]. pose proof (rep_length _ _ Hrep).
  unfold View.node_fuel. lia.
Qed.

Lemma tree_check_no_panic strings t : no_panic (tree_check strings t).
Proof.
  induction t as [nm ps ks IH] using tree_ind'. cbn [tree_check].
  apply no_panic_obind.
  - unfold addressing_of, cells. apply no_panic_obind; [|intros a _; apply no_panic_obind; [|done]].
    all: destruct (tree_prop _ _ _); [|done]; by destruct (decode_u32 _).
  - intros addressing _. apply no_panic_obind.
    { unfold unit_address_ok, err_if. by destruct (_ && _). }
    intros _ _. apply no_panic_for_list. intros k Hk. rewrite Forall_forall in IH.
    apply no_panic_obind; [|intros _ _; by apply IH].
    unfold reg_fits. destruct (tree_prop _ _ _); [|done]. unfold err_if. by split_if.
Qed.

End Addressing.
