(* ===== verification/FdtRegRange.v ===== *)
(** * [reg] entries as address-size ranges
    ([fdt/src/structure/semantic/reg_range.rs])

    A run of 32-bit cells is decoded by a checked radix-2^32 fold; that equals
    the big-endian value exactly when it fits [u64].  [validate] accepts the
    nonempty values whose every entry is a nonempty range that ends at or
    before [u64::MAX], and [RegRanges] yields exactly those entries. *)

From Stdlib Require Import ZArith Lia Bool.
From Stdlib Require Import Strings.Byte Strings.String.
From stdpp Require Import base list numbers.
From S2P Require Import Prelude FdtStructure FdtScan FdtAddressing.
Local Open Scope Z_scope.

Inductive RegRangeError := Empty | AddressDoesNotFitU64 | SizeDoesNotFitU64 | ZeroSize | EndOverflow.

#[export] Instance reg_range_error_eq_decision : EqDecision RegRangeError.
Proof. solve_decision. Defined.

(** An address and a size: [RegRange], [MemoryRange] and
    [ReservedMemoryRange] have the same two fields. *)
Record RegRange := mkRegRange { address : Z; size : Z }.

#[export] Instance reg_range_eq_decision : EqDecision RegRange.
Proof. solve_decision. Defined.

Module RegRanges.

Definition CELL_RADIX : Z := 0x100000000.

(** One iteration of the loop of [decode_cells_u64]. *)
Definition push_cell (value : option Z) (cell : list byte) : option Z :=
  value ← value;
  value ← checked_mul u64_max value CELL_RADIX;
  checked_add u64_max value (be_val cell).

Definition decode_cells_u64 (bytes : list byte) : option Z :=
  let '(cells, remainder) := as_chunks CELL_SIZE bytes in
  if negb (bool_decide (remainder = [])) then None
  else fold_left push_cell cells (Some 0).

Definition decode_validated_cells_u64 {E} (bytes : list byte) : outcome E Z :=
  expect_some (decode_cells_u64 bytes).

Definition validate_entry (layout : Addressing.RegLayout) (entry : list byte)
    : outcome RegRangeError unit :=
  let? (address, size) := split_at entry (Addressing.address_size layout) in
  let? address := ok_or (decode_cells_u64 address) AddressDoesNotFitU64 in
  let? size := ok_or (decode_cells_u64 size) SizeDoesNotFitU64 in
  if size =? 0 then Err ZeroSize
  else match checked_add u64_max address size with
       | None => Err EndOverflow
       | Some _ => Ok tt
       end.

Definition validate (bytes : list byte) (layout : Addressing.RegLayout)
    : outcome RegRangeError unit :=
  if bool_decide (bytes = []) then Err Empty
  else
    let? entries := chunks_exact (Addressing.entry_size layout) bytes in
    for_list (validate_entry layout) entries.

Record t := mk { bytes : list byte; layout : Addressing.RegLayout }.

Definition new (bytes : list byte) (layout : Addressing.RegLayout) : t := mk bytes layout.

Definition next : M t never (option RegRange) :=
  let* self := get in
  if bool_decide (bytes self = []) then ret None
  else
    let* (entry, remaining) :=
      lift (split_at (bytes self) (Addressing.entry_size (layout self))) in
    let* _ := put (mk remaining (layout self)) in
    let* (address, size) := lift (split_at entry (Addressing.address_size (layout self))) in
    let* address := lift (decode_validated_cells_u64 address) in
    let* size := lift (decode_validated_cells_u64 size) in
    ret (Some (mkRegRange address size)).

(** ** Decoding *)

Lemma fold_none cells : fold_left push_cell cells None = None.
Proof. by induction cells. Qed.

Lemma push_cell_Some acc cell :
  0 <= acc -> 
  push_cell (Some acc) cell =
    if acc * CELL_RADIX + be_val cell <=? u64_max then Some (acc * CELL_RADIX + be_val cell)
    else None.
Proof.
  intros Hacc. pose proof (be_val_range cell) as Hc. unfold push_cell. cbn.
  destruct (checked_mul u64_max acc CELL_RADIX) as [v|] eqn:E; cbn.
  - by apply checked_mul_Some in E as [_ ->].
  - unfold checked_mul in E. destruct (_ <=? _) eqn:F; [done|]. zbool.
    by replace (_ <=? _) with false by lia.
Qed.

(** The checked fold over cells is the unchecked value, cut off at [u64::MAX]:
    an intermediate overflow is an overflow of the result. *)
Lemma fold_cells l : zlen l mod 4 = 0 -> forall acc, 0 <= acc <= u64_max ->
  fold_left push_cell (chunks 4 l) (Some acc) =
    let v := acc * 256 ^ zlen l + be_val l in if v <=? u64_max then Some v else None.
Proof.
  revert l. chunk_induction 4; [lia| |].
  - intros acc Hacc. rewrite chunks_short by (unfold zlen; cbn; lia). cbn [fold_left].
    cbn zeta. change (be_val []) with 0. change (256 ^ zlen (@nil byte)) with 1.
    replace (_ <=? _) with true by lia. f_equal. lia.
  - intros l Hl Hmod IH acc Hacc. rewrite chunks_step by lia. cbn [fold_left].
    rewrite push_cell_Some by lia. cbn zeta.
    assert (acc * 256 ^ zlen l + be_val l =
      (acc * CELL_RADIX + be_val (ztake 4 l)) * 256 ^ zlen (zdrop 4 l) + be_val (zdrop 4 l)) as ->.
    { rewrite <- (ztake_zdrop 4 l) at 1 2. rewrite be_val_app, zlen_app, zlen_ztake by lia.
      rewrite Z.pow_add_r by (pose proof (zlen_nonneg (zdrop 4 l)); lia).
      change (256 ^ 4) with CELL_RADIX. ring. }
    pose proof (be_val_range (ztake 4 l)) as Hc. pose proof (be_val_range (zdrop 4 l)) as Hd.
    assert (0 < 256 ^ zlen (zdrop 4 l)) by (pose proof (zlen_nonneg (zdrop 4 l)); lia).
    set (acc' := acc * CELL_RADIX + _). assert (0 <= acc') by (unfold acc', CELL_RADIX; lia).
    destruct (acc' <=? u64_max) eqn:E; zbool.
    + apply IH. lia.
    + rewrite fold_none. replace (_ <=? _) with false; [done|]. symmetry. apply Z.leb_gt. nia.
Qed.

Lemma decode_cells_u64_eq bytes :
  decode_cells_u64 bytes =
    if (zlen bytes mod 4 =? 0) && (be_val bytes <=? u64_max) then Some (be_val bytes) else None.
Proof.
  unfold decode_cells_u64, as_chunks, CELL_SIZE. pose proof (zlen_nonneg bytes).
  destruct (zlen bytes mod 4 =? 0) eqn:E; zbool; cbn [andb].
  - rewrite bool_decide_eq_true_2; cbn [negb].
    + rewrite fold_cells by (done || (unfold u64_max; lia)). cbn zeta.
      by rewrite Z.mul_0_l, Z.add_0_l.
    + replace (zlen bytes / 4 * 4) with (zlen bytes) by (Z.div_mod_to_equations; lia).
      apply zdrop_all.
  - rewrite bool_decide_eq_false_2; [done|]. intros Hz.
    assert (zlen (zdrop (zlen bytes / 4 * 4) bytes) = 0) as Hl by (by rewrite Hz).
    rewrite zlen_zdrop in Hl by (Z.div_mod_to_equations; lia). Z.div_mod_to_equations. lia.
Qed.

(** ** Entries *)

(** A layout [RegLayout::new] makes from nonzero counts. *)
Definition layout_ok (layout : Addressing.RegLayout) : Prop :=
  0 < Addressing.address_size layout < Addressing.entry_size layout /\
  Addressing.address_size layout mod 4 = 0 /\ Addressing.entry_size layout mod 4 = 0.

Definition entry_range (layout : Addressing.RegLayout) (entry : list byte) : RegRange :=
  mkRegRange (be_val (ztake (Addressing.address_size layout) entry))
             (be_val (zdrop (Addressing.address_size layout) entry)).

(** The ranges a [reg] value lists. *)
Definition ranges_of (layout : Addressing.RegLayout) (bytes : list byte) : list RegRange :=
  map (entry_range layout) (chunks (Addressing.entry_size layout) bytes).

(** A nonempty range of [u64] addresses with a representable end. *)
Definition range_ok (r : RegRange) : Prop :=
  0 <= address r /\ 0 < size r /\ address r + size r <= u64_max.

Section layout.
Context (layout : Addressing.RegLayout) (Hlayout : layout_ok layout).
Abbreviation asz := (Addressing.address_size layout).
Abbreviation esz := (Addressing.entry_size layout).

Lemma split_entry {E} (entry : list byte) :
  zlen entry = esz -> split_at (E:=E) entry asz = Ok (ztake asz entry, zdrop asz entry) /\
  zlen (ztake asz entry) mod 4 = 0 /\ zlen (zdrop asz entry) mod 4 = 0.
Proof.
  intros He. destruct Hlayout as (Ha & Ha4 & He4). rewrite split_at_Ok by lia. split; [done|].
  rewrite zlen_ztake, zlen_zdrop by lia. split; [done|]. rewrite He. Z.div_mod_to_equations. lia.
Qed.

Lemma validate_entry_Ok entry :
  zlen entry = esz -> validate_entry layout entry = Ok tt <-> range_ok (entry_range layout entry).
Proof.
  intros He. unfold validate_entry. destruct (split_entry (E:=RegRangeError) entry He) as (-> & H1 & H2).
  cbn [obind]. rewrite !decode_cells_u64_eq, H1, H2. cbn [Z.eqb andb].
  unfold range_ok, entry_range. cbn [address size].
  pose proof (be_val_range (ztake asz entry)). pose proof (be_val_range (zdrop asz entry)).
  set (x := be_val (ztake asz entry)) in *. set (y := be_val (zdrop asz entry)) in *.
  destruct (x <=? u64_max) eqn:Ex; zbool; cbn [ok_or obind]; [|split; [done|lia]].
  destruct (y <=? u64_max) eqn:Ey; zbool; cbn [ok_or obind]; [|split; [done|lia]].
  destruct (y =? 0) eqn:Ez; zbool; [split; [done|lia]|].
  destruct (checked_add u64_max x y) as [s|] eqn:Es.
  - apply checked_add_Some in Es. split; [lia|done].
  - apply checked_add_None in Es. split; [done|lia].
Qed.

Lemma validate_entry_no_panic entry : zlen entry = esz -> no_panic (validate_entry layout entry).
Proof.
  intros He. unfold validate_entry. destruct (split_entry (E:=RegRangeError) entry He) as (-> & _).
  cbn [obind]. destruct (decode_cells_u64 _); [|done]. cbn [ok_or obind].
  destruct (decode_cells_u64 _); [|done]. cbn [ok_or obind]. split_if; [done|].
  by destruct (checked_add _ _ _).
Qed.

Lemma chunks_width (bytes : list byte) :
  zlen bytes mod esz = 0 -> Forall (fun c : list byte => zlen c = esz) (chunks esz bytes).
Proof.
  destruct Hlayout as (Ha & _). revert bytes. chunk_induction (Addressing.entry_size layout); [lia| |].
  - rewrite chunks_short by (unfold zlen; cbn; lia). constructor.
  - intros l Hl Hm IH. rewrite chunks_step by lia. constructor; [apply zlen_ztake; lia|done].
Qed.

Lemma validate_Ok bytes :
  zlen bytes mod esz = 0 ->
  validate bytes layout = Ok tt <-> bytes <> [] /\ Forall range_ok (ranges_of layout bytes).
Proof.
  intros Hm. pose proof (chunks_width _ Hm) as Hw. unfold validate, ranges_of.
  case_bool_decide as Hn; [split; [done|by intros [? _]]|]. unfold chunks_exact.
  replace (esz =? 0) with false by (destruct Hlayout; lia). cbn [obind].
  rewrite for_list_Ok, Forall_map. split.
  - intros H. split; [done|]. induction H as [|c cs Hc _ IH]; constructor; invc Hw.
    + by apply validate_entry_Ok.
    + by apply IH.
  - intros [_ H]. induction H as [|c cs Hc _ IH]; constructor; invc Hw.
    + by apply validate_entry_Ok.
    + by apply IH.
Qed.

Lemma reg_validate_no_panic bytes : zlen bytes mod esz = 0 -> no_panic (validate bytes layout).
Proof.
  intros Hm. pose proof (chunks_width _ Hm) as Hw. unfold validate, chunks_exact.
  split_if; [done|]. replace (esz =? 0) with false by (destruct Hlayout; lia). cbn [obind].
  apply no_panic_for_list. intros c Hc. apply validate_entry_no_panic.
  rewrite List.Forall_forall in Hw. by apply Hw.
Qed.

(** ** The iterator *)

Definition ranges_at (s : t) (rs : list RegRange) : Prop :=
  RegRanges.layout s = layout /\ zlen (bytes s) mod esz = 0 /\
  rs = ranges_of layout (bytes s) /\ Forall range_ok rs.

#[export] Instance ranges_iterates : Iterates next eq ranges_at.
Proof.
  destruct Hlayout as (Ha & _ & _).
  split; intros [b ly]; [|intros rg rs]; intros (Hly & Hm & Hrs & Hok);
    cbn [RegRanges.layout bytes] in *; subst ly.
  - apply exhausted_stay. unfold next.
    rewrite (bind_Ok _ _ _ (mk b layout) (mk b layout)) by done. cbn [bytes RegRanges.layout].
    rewrite bool_decide_eq_true_2; [done|].
    pose proof (zlen_nonneg b). apply zlen_0. destruct (Z.eq_dec (zlen b) 0); [done|].
    assert (esz <= zlen b).
    { destruct (Z_lt_le_dec (zlen b) esz) as [Hlt|]; [|done]. rewrite Z.mod_small in Hm by lia. lia. }
    unfold ranges_of in Hrs. by rewrite chunks_step in Hrs by lia.
  - pose proof (zlen_nonneg b). unfold next.
    rewrite (bind_Ok _ _ _ (mk b layout) (mk b layout)) by done. cbn [bytes RegRanges.layout].
    destruct (Z_lt_le_dec (zlen b) esz) as [Hlt|Hge].
    { unfold ranges_of in Hrs. by rewrite chunks_short in Hrs by lia. }
    rewrite bool_decide_eq_false_2 by (intros ->; rewrite zlen_nil in Hge; lia).
    rewrite (bind_Ok _ _ _ (ztake esz b, zdrop esz b) (mk b layout))
      by (unfold lift; by rewrite split_at_Ok by lia).
    rewrite (bind_Ok _ _ _ tt (mk (zdrop esz b) layout)) by done.
    destruct (split_entry (E:=never) (ztake esz b)) as (Hsp & H1 & H2); [apply zlen_ztake; lia|].
    rewrite (bind_Ok _ _ _ _ (mk (zdrop esz b) layout) (f_equal (fun o => (o, _)) Hsp)).
    unfold ranges_of in Hrs. rewrite chunks_step in Hrs by lia. cbn [map] in Hrs.
    injection Hrs as Hrg Hrs. apply Forall_cons_1 in Hok as [Hr Hok].
    pose proof Hr as (Hr1 & Hr2 & Hr3). rewrite Hrg in Hr1, Hr2, Hr3. cbn in Hr1, Hr2, Hr3.
    rewrite (bind_Ok _ _ _ (address rg) (mk (zdrop esz b) layout)).
    2:{ unfold lift, decode_validated_cells_u64. rewrite decode_cells_u64_eq, H1. cbn [Z.eqb andb].
        replace (_ <=? _) with true by lia. by rewrite Hrg. }
    rewrite (bind_Ok _ _ _ (size rg) (mk (zdrop esz b) layout)).
    2:{ unfold lift, decode_validated_cells_u64. rewrite decode_cells_u64_eq, H2. cbn [Z.eqb andb].
        replace (_ <=? _) with true by lia. by rewrite Hrg. }
    eexists _, _. split; [done|]. split; [by destruct rg|]. split; [done|]. cbn [bytes].
    split; [|done]. rewrite zlen_zdrop by lia.
    rewrite <- Hm, <- (Z_mod_plus_full (zlen b - esz) 1 esz). f_equal. lia.
Qed.

End layout.

(** The layouts of the two range consumers. *)
Lemma RegLayout_ok addressing layout :
  is_u32 (Addressing.address_get (Addressing.address_cells addressing)) ->
  is_u32 (Addressing.size_get (Addressing.size_cells addressing)) ->
  Addressing.address_get (Addressing.address_cells addressing) <> 0 ->
  Addressing.size_get (Addressing.size_cells addressing) <> 0 ->
  Addressing.RegLayout_new addressing = Ok layout -> layout_ok layout.
Proof.
  intros Ha Hs Ha0 Hs0. rewrite Addressing.RegLayout_new_Ok by done. intros [= <-].
  unfold layout_ok, is_u32 in *. cbn. split; [lia|]. Z.div_mod_to_equations. lia.
Qed.

End RegRanges.
