(* ===== verification/FdtMemory.v ===== *)
(** * Physical memory ([fdt/src/structure/semantic/memory.rs])

    Validation of the [/memory] nodes below the root and the flat iterator
    over their ranges. *)

From Stdlib Require Import ZArith Lia Bool.
From Stdlib Require Import Strings.Byte Strings.String.
From stdpp Require Import base list numbers.
From S2P Require Import Prelude FdtReader FdtStrings FdtNames FdtStructure FdtTree FdtScan.
From S2P Require Import FdtView FdtViewProofs FdtAddressing FdtRegRange.
Local Open Scope Z_scope.

Definition MemoryRange : Type := RegRange.

Module Memory.

Definition MEMORY_NODE_NAME : list byte := bs "memory".
Definition DEVICE_TYPE_PROPERTY : list byte := bs "device_type".
Definition REG_PROPERTY : list byte := bs "reg".

(** [b"memory\0"] *)
Definition DEVICE_TYPE_VALUE : list byte := bs "memory" ++ [x00].

(** [impl fmt::Debug for MemoryRange]. *)
Definition debug (self : MemoryRange) : list byte :=
  debug_struct "MemoryRange"
    [("address"%string, lower_hex (address self)); ("size"%string, lower_hex (size self))].

Lemma debug_memory_range_inj (r s : MemoryRange) :
  is_u64 (address r) -> is_u64 (size r) -> is_u64 (address s) -> is_u64 (size s) -> debug r = debug s -> r = s.
Proof. destruct r, s. intros ? ? ? ? [Ha Hs]%debug_hex_inj; [exact (f_equal2 mkRegRange Ha Hs)|done..]. Qed.

Definition is_memory (node : View.Node) : bool :=
  bool_decide (View.name_component node = MEMORY_NODE_NAME).

Definition memory_error (error : RegRangeError) : SemanticError :=
  match error with
  | Empty => EmptyMemoryReg
  | AddressDoesNotFitU64 => MemoryAddressDoesNotFitU64
  | SizeDoesNotFitU64 => MemorySizeDoesNotFitU64
  | ZeroSize => ZeroMemorySize
  | EndOverflow => MemoryRangeEndOverflow
  end.

Definition validate_memory_reg (bytes : list byte) (layout : Addressing.RegLayout)
    : outcome SemanticError unit :=
  map_err memory_error (RegRanges.validate bytes layout).

Definition validate_memory_node (node : View.Node) (layout : Addressing.RegLayout)
    : outcome SemanticError unit :=
  let? device_type := infallible (View.property node DEVICE_TYPE_PROPERTY) in
  match device_type with
  | None => Err MissingMemoryDeviceType
  | Some device_type =>
      if negb (bool_decide (View.value device_type = DEVICE_TYPE_VALUE))
      then Err InvalidMemoryDeviceType
      else
        let? reg := infallible (View.property node REG_PROPERTY) in
        match reg with
        | None => Err MissingMemoryReg
        | Some reg => validate_memory_reg (View.value reg) layout
        end
  end.

Definition validate (root : View.Node) : outcome SemanticError unit :=
  let? addressing := Addressing.child_addressing root in
  if Addressing.address_get (Addressing.address_cells addressing) =? 0
  then Err InvalidMemoryAddressCells
  else if Addressing.size_get (Addressing.size_cells addressing) =? 0
  then Err InvalidMemorySizeCells
  else
    let? layout := Addressing.RegLayout_new addressing in
    for_each View.Children.next (View.node_fuel root)
      (fun node => if is_memory node then validate_memory_node node layout else Ok tt)
      (View.children root).

(** ** [MemoryRanges] *)

Record t := mk
  { nodes : View.Children.t; current : option RegRanges.t; layout : Addressing.RegLayout }.

Definition new (root : View.Node) : outcome never t :=
  let? addressing := Addressing.child_addressing root in
  let? layout := expect (Addressing.RegLayout_new addressing) in
  Ok (mk (View.children root) None layout).

(** [if let Some(ranges) = self.current.as_mut() && let Some(range) = ranges.next()]. *)
Definition next_current : M t never (option RegRange) :=
  let* self := get in
  match current self with
  | None => ret None
  | Some ranges =>
      let '(o, ranges') := RegRanges.next ranges in
      let* _ := put (mk (nodes self) (Some ranges') (layout self)) in
      lift o
  end.

Definition set_current (c : option RegRanges.t) : M t never unit :=
  let* self := get in put (mk (nodes self) c (layout self)).

Definition find_memory : M t never (option View.Node) :=
  let* self := get in
  zoom nodes (fun ns s => mk ns (current s) (layout s))
    (find_next View.Children.next
       (Structure.fuel_of (Reader.bytes (View.Children.reader (nodes self)))) is_memory).

Fixpoint loop (fuel : nat) : M t never (option MemoryRange) :=
  match fuel with
  | O => lift OutOfFuel
  | S fuel' =>
      let* range := next_current in
      match range with
      | Some range => ret (Some (mkRegRange (address range) (size range)))
      | None =>
          let* _ := set_current None in
          let* node := find_memory in
          match node with
          | None => ret None
          | Some node =>
              let* reg := lift (View.property node REG_PROPERTY) in
              let* reg := lift (expect_some reg) in
              let* self := get in
              let* _ := set_current (Some (RegRanges.new (View.value reg) (layout self))) in
              loop fuel'
          end
      end
  end.

Definition next : M t never (option MemoryRange) :=
  let* self := get in
  loop (S (Structure.fuel_of (Reader.bytes (View.Children.reader (nodes self))))).

(** ** Memory in the tree *)

Section tree.
Context (strings : Strings.t).

Definition is_memory_tree (k : tree) : bool :=
  bool_decide (Name.component (tree_name k) = MEMORY_NODE_NAME).

Definition memory_kids (t : tree) : list tree := List.filter is_memory_tree (tree_kids t).

Definition memory_node_ok (ly : Addressing.RegLayout) (k : tree) : Prop :=
  tree_prop strings k DEVICE_TYPE_PROPERTY = Some DEVICE_TYPE_VALUE /\
  exists reg, tree_prop strings k REG_PROPERTY = Some reg /\ reg <> [] /\
              Forall RegRanges.range_ok (RegRanges.ranges_of ly reg).

(** The memory rules: nonzero cell counts, and every memory node is one. *)
Definition memory_ok (t : tree) : Prop :=
  exists addressing ly, Addressing.addressing_of strings t = Ok addressing /\
    Addressing.address_get (Addressing.address_cells addressing) <> 0 /\
    Addressing.size_get (Addressing.size_cells addressing) <> 0 /\
    Addressing.RegLayout_new addressing = Ok ly /\
    Forall (memory_node_ok ly) (memory_kids t).

Definition node_ranges (ly : Addressing.RegLayout) (k : tree) : list RegRange :=
  match tree_prop strings k REG_PROPERTY with
  | Some reg => RegRanges.ranges_of ly reg
  | None => []
  end.

(** What [MemoryRanges] is to yield. *)
Definition memory_ranges (t : tree) : list MemoryRange :=
  match Addressing.addressing_of strings t with
  | Ok addressing =>
      match Addressing.RegLayout_new addressing with
      | Ok ly => concat (map (node_ranges ly) (memory_kids t))
      | _ => []
      end
  | _ => []
  end.

End tree.

(** ** Validation *)

(** What generic addressing leaves for a consumer of [reg]: a proper layout,
    into which the [reg] of every child divides. *)
Lemma consumer_layout strings n t addressing :
  represents n t -> View.strings n = strings ->
  Addressing.addressing_of strings t = Ok addressing ->
  Addressing.address_get (Addressing.address_cells addressing) <> 0 ->
  Addressing.size_get (Addressing.size_cells addressing) <> 0 ->
  exists ly, Addressing.RegLayout_new addressing = Ok ly /\ RegRanges.layout_ok ly /\
    forall k reg, Addressing.reg_fits strings addressing k = Ok tt ->
      tree_prop strings k (bs "reg") = Some reg -> zlen reg mod Addressing.entry_size ly = 0.
Proof.
  intros Hrep Hst Ha Ha0 Hs0. subst strings.
  destruct (Addressing.addressing_u32 n t addressing Ha) as [Hau Hsu].
  pose proof (Addressing.RegLayout_new_Ok addressing Hau Hsu) as Hly.
  eexists. split; [exact Hly|].
  pose proof (RegRanges.RegLayout_ok _ _ Hau Hsu Ha0 Hs0 Hly) as Hok. split; [done|].
  intros k reg Hfit Hreg. unfold Addressing.reg_fits in Hfit. rewrite Hreg in Hfit.
  apply err_if_Ok in Hfit. destruct Hok as (Hok & _). cbn in *.
  destruct (_ =? 0) eqn:E in Hfit; zbool; [lia|]. done.
Qed.

Lemma validate_memory_node_spec n k ly :
  represents n k -> RegRanges.layout_ok ly ->
  (forall reg, tree_prop (View.strings n) k REG_PROPERTY = Some reg ->
     zlen reg mod Addressing.entry_size ly = 0) ->
  no_panic (validate_memory_node n ly) /\
  (validate_memory_node n ly = Ok tt <-> memory_node_ok (View.strings n) ly k).
Proof.
  intros Hrep Hly Hfit. unfold validate_memory_node, memory_node_ok.
  rewrite !(node_property _ _ Hrep). cbn [infallible obind].
  destruct (tree_prop _ k DEVICE_TYPE_PROPERTY) as [d|]; cbn [fmap option_fmap option_map];
    [|split; [done|]; split; [done|by intros [? _]]].
  cbn [View.value]. case_bool_decide as Hd; cbn [negb];
    [subst d|split; [done|]; split; [done|intros [[= ?] _]; by subst]].
  destruct (tree_prop _ k REG_PROPERTY) as [reg|];
    [|split; [done|]; split; [done|by intros (_ & ? & ? & _)]].
  cbn [fmap option_fmap option_map View.value]. unfold validate_memory_reg. specialize (Hfit reg eq_refl).
  pose proof (RegRanges.reg_validate_no_panic ly Hly reg Hfit) as Hnp.
  pose proof (RegRanges.validate_Ok ly Hly reg Hfit) as Hiff.
  rewrite no_panic_map_err. split; [done|].
  transitivity (RegRanges.validate reg ly = Ok tt).
  - destruct (RegRanges.validate reg ly) as [[]|e| |]; cbn; split; congruence.
  - rewrite Hiff. split; [|by intros (_ & reg' & [= ->] & H)].
    intros H. split; [done|]. by exists reg.
Qed.

(** The loop over the memory children. *)
Lemma for_filter {X E} (p : X -> bool) (body : X -> outcome E unit) l :
  for_list (fun x => if p x then body x else Ok tt) l = for_list body (List.filter p l).
Proof.
  induction l as [|x l IH]; [done|]. cbn. destruct (p x); cbn; [|done]. by rewrite IH.
Qed.

Lemma is_memory_rep n k : represents n k -> is_memory n = is_memory_tree k.
Proof.
  intros H. unfold is_memory, is_memory_tree, View.name_component. by rewrite (rep_name _ _ H).
Qed.

Lemma addressing_ok_inv strings t :
  Addressing.addressing_ok strings t ->
  exists addressing, Addressing.addressing_of strings t = Ok addressing /\
    Forall (fun k => Addressing.reg_fits strings addressing k = Ok tt) (tree_kids t) /\
    Forall (Addressing.addressing_ok strings) (tree_kids t).
Proof. intros H. inversion H; subst. eauto. Qed.

(** A loop over all children whose body is a check with a specification. *)
Lemma for_children_spec {E} n t (body : View.Node -> outcome E unit) (P : tree -> Prop) :
  represents n t ->
  (forall c k, shows (View.strings n) c k -> In k (tree_kids t) ->
     no_panic (body c) /\ (body c = Ok tt <-> P k)) ->
  let res := for_each View.Children.next (View.node_fuel n) body (View.children n) in
  no_panic res /\ (res = Ok tt <-> Forall P (tree_kids t)).
Proof.
  intros Hrep Hbody. pose proof (node_children _ _ Hrep) as Hy.
  pose proof (kids_fuel _ _ Hrep) as Hf. cbn zeta. revert Hy Hf Hbody.
  generalize (View.children n), (View.node_fuel n), (tree_kids t).
  intros it fuel ks Hy. revert fuel. induction Hy as [it Hx|it c it' k ks Hn Hc Hy IH];
    intros fuel Hf Hbody; (destruct fuel as [|fuel]; [cbn in Hf; lia|]); cbn [for_each].
  - destruct (exhausted_next _ _ Hx) as (it' & -> & _). split; [done|]. split; [constructor|done].
  - rewrite Hn. destruct (Hbody c k Hc (or_introl eq_refl)) as [Hp Hiff].
    destruct (IH fuel ltac:(cbn in Hf; lia)) as [Hp' Hiff'].
    { intros. apply Hbody; [done|by right]. }
    assert (Forall P (k :: ks) <-> P k /\ Forall P ks) as ->
      by (split; [apply Forall_cons_1|intros []; by constructor]).
    destruct (body c) as [[]|e| |]; cbn [obind]; try done; (split; [done|]).
    + rewrite Hiff'. split; [intros H; split; [by apply Hiff|done]|by intros [_ ?]].
    + split; [done|]. intros [H _]. by apply Hiff in H.
Qed.

Lemma memory_validate_spec n t :
  represents n t -> Addressing.addressing_ok (View.strings n) t ->
  no_panic (validate n) /\ (validate n = Ok tt <-> memory_ok (View.strings n) t).
Proof.
  intros Hrep (addressing & Ha & Hfit & _)%addressing_ok_inv. unfold validate, memory_ok.
  unfold Addressing.child_addressing. rewrite (Addressing.parse_child_addressing_eq _ _ Hrep), Ha.
  cbn [expect obind].
  destruct (_ =? 0) eqn:Ea; zbool.
  { split; [done|]. split; [done|]. intros (a & ly & [= <-] & H & _). done. }
  destruct (_ =? 0) eqn:Es; zbool.
  { split; [done|]. split; [done|]. intros (a & ly & [= <-] & _ & H & _). done. }
  destruct (consumer_layout _ _ _ _ Hrep eq_refl Ha Ea Es) as (ly & Hly & Hok & Hmod).
  rewrite Hly. cbn [obind].
  destruct (for_children_spec n t
    (fun node => if is_memory node then validate_memory_node node ly else Ok tt)
    (fun k => is_memory_tree k = true -> memory_node_ok (View.strings n) ly k) Hrep) as [Hnp Hiff].
  { intros c k [Hc Hst] Hin. rewrite (is_memory_rep _ _ Hc).
    rewrite List.Forall_forall in Hfit. destruct (is_memory_tree k); [|split; [done|by split]].
    destruct (validate_memory_node_spec c k ly Hc Hok) as [H1 H2].
    { rewrite Hst. intros reg. apply Hmod. by apply Hfit. }
    split; [done|]. rewrite H2, Hst. split; auto. }
  split; [done|]. rewrite Hiff. unfold memory_kids. split.
  - intros H. exists addressing, ly. repeat (split; [done|]).
    rewrite List.Forall_forall in *. intros k [Hk Hm]%filter_In. by apply H.
  - intros (a & ly' & Ha' & _ & _ & Hly' & H). assert (a = addressing) as -> by congruence.
    assert (ly' = ly) as -> by congruence. rewrite List.Forall_forall in *.
    intros k Hk Hm. apply H. by apply filter_In.
Qed.

(** ** Iteration *)

Section ranges.
Context (strings : Strings.t) (ly : Addressing.RegLayout) (Hly : RegRanges.layout_ok ly).

(** The [reg] of a node lists proper ranges. *)
Definition regs_proper (k : tree) : Prop :=
  exists reg, tree_prop strings k REG_PROPERTY = Some reg /\
    zlen reg mod Addressing.entry_size ly = 0 /\ Forall RegRanges.range_ok (RegRanges.ranges_of ly reg).

Definition current_at (c : option RegRanges.t) (cur : list RegRange) : Prop :=
  match c with
  | Some rr => RegRanges.ranges_at ly rr cur
  | None => cur = []
  end.

Definition memory_at (s : t) (rs : list RegRange) : Prop :=
  layout s = ly /\ exists bs cur kids, children_at bs strings (nodes s) kids /\
    current_at (current s) cur /\
    rs = cur ++ concat (map (node_ranges strings ly) (List.filter is_memory_tree kids)) /\
    Forall (fun k => is_memory_tree k = true -> regs_proper k) kids.

(** An exhausted range iterator, and one that has more. *)
Lemma memory_next_current s cur :
  layout s = ly -> current_at (current s) cur ->
  match cur with
  | [] => exists s', next_current s = (Ok None, s') /\ layout s' = ly /\ nodes s' = nodes s
  | r :: cur' => exists s', next_current s = (Ok (Some r), s') /\ layout s' = ly /\
                   nodes s' = nodes s /\ current_at (current s') cur'
  end.
Proof.
  destruct s as [ns [rr|] ly']; cbn [layout current nodes]; intros -> Hc.
  2:{ cbn in Hc. subst cur. by eexists. }
  unfold next_current. rewrite (bind_Ok _ _ _ (mk ns (Some rr) ly) _) by done. cbn [current nodes layout].
  pose proof (RegRanges.ranges_iterates ly Hly) as [Hnil Hcons].
  destruct cur as [|r cur].
  - apply Hnil, exhausted_next in Hc as (rr' & -> & _). by eexists.
  - apply Hcons in Hc as (i & rr' & -> & -> & Hc). by eexists.
Qed.

(** No range and no node is left. *)
Definition spent (s : t) : Prop := current s = None /\ exhausted View.Children.next (nodes s).

Lemma memory_spent_next s : spent s -> exists s', next s = (Ok None, s') /\ spent s'.
Proof.
  destruct s as [ns c ly']. intros [Hc Hx]. cbn [current nodes] in *. subst c.
  destruct (find_next_exhausted View.Children.next is_memory ns
    (Structure.fuel_of (Reader.bytes (View.Children.reader ns))) Hx ltac:(unfold Structure.fuel_of; lia))
    as (ns' & Hn & Hx').
  exists (mk ns' None ly'). split; [|done]. unfold next.
  rewrite (bind_Ok _ _ _ (mk ns None ly') (mk ns None ly')) by done. cbn [loop nodes].
  rewrite (bind_Ok _ _ _ None (mk ns None ly')) by done.
  rewrite (bind_Ok _ _ _ tt (mk ns None ly')) by done.
  rewrite (bind_Ok _ _ _ None (mk ns' None ly')); [done|].
  unfold find_memory. rewrite (bind_Ok _ _ _ (mk ns None ly') (mk ns None ly')) by done.
  unfold zoom. cbn [nodes current layout]. by rewrite Hn.
Qed.

Lemma memory_loop_spec fuel : forall s bs cur kids,
  layout s = ly -> children_at bs strings (nodes s) kids -> current_at (current s) cur ->
  Forall (fun k => is_memory_tree k = true -> regs_proper k) kids ->
  (length kids < fuel)%nat ->
  match cur ++ concat (map (node_ranges strings ly) (List.filter is_memory_tree kids)) with
  | [] => exists s', loop fuel s = (Ok None, s') /\ spent s'
  | r :: rs => exists s', loop fuel s = (Ok (Some r), s') /\ memory_at s' rs
  end.
Proof.
  induction fuel as [|fuel IH]; intros s bs cur kids Hl Hch Hcur Hok Hfuel; [lia|]. cbn [loop].
  pose proof (memory_next_current s cur Hl Hcur) as Hnc. destruct cur as [|r cur]; cbn [app].
  2:{ destruct Hnc as (s' & Hn & Hl' & Hns & Hc'). rewrite (bind_Ok _ _ _ _ _ Hn).
      exists s'. split; [by destruct r|]. split; [done|]. exists bs, cur, kids. by rewrite Hns. }
  destruct Hnc as (s1 & Hn & Hl1 & Hns). rewrite (bind_Ok _ _ _ _ _ Hn).
  rewrite (bind_Ok _ _ _ tt (mk (nodes s) None ly))
    by (unfold set_current; unfold_m; by rewrite Hns, Hl1).
  set (ns := nodes s) in *. pose proof (children_at_fuel _ _ _ _ Hch) as Hfu.
  pose proof (find_next_iterates _ _ (children_at bs strings) is_memory is_memory_tree kids ns
    (Structure.fuel_of (Reader.bytes (View.Children.reader ns))) Hch Hfu) as Hfind.
  specialize (Hfind ltac:(intros c k [Hc _] _; by apply is_memory_rep)).
  assert (forall o ns', find_next View.Children.next
      (Structure.fuel_of (Reader.bytes (View.Children.reader ns))) is_memory ns = (o, ns') ->
    find_memory (mk ns None ly) = (o, mk ns' None ly)) as Hfm.
  { intros o ns' H. unfold find_memory. unfold_m. cbn [nodes current layout]. by rewrite H. }
  destruct (List.find is_memory_tree kids) as [k|] eqn:Hf.
  - destruct Hfind as (c & ns' & k0 & l' & Hres & [Hc Hst] & Hch' & -> & Hk0).
    rewrite (bind_Ok _ _ _ _ _ (Hfm _ _ Hres)).
    apply List.find_some in Hf as [_ Hmem].
    rewrite List.filter_app, map_app, concat_app.
    assert (List.filter is_memory_tree k0 = []) as ->.
    { clear -Hk0. induction Hk0 as [|x l Hx _ IH]; [done|]. cbn. by rewrite Hx. }
    cbn [map concat app List.filter]. rewrite Hmem. cbn [map concat app].
    apply Forall_app in Hok as [_ [Hk Hok]%Forall_cons_1]. destruct (Hk Hmem) as (reg & Hreg & Hm & Hr).
    rewrite (bind_Ok _ _ _ (Some (View.mkProperty REG_PROPERTY reg)) (mk ns' None ly))
      by (unfold lift; by rewrite (node_property _ _ Hc), Hst, Hreg).
    rewrite (bind_Ok _ _ _ (View.mkProperty REG_PROPERTY reg) (mk ns' None ly)) by done.
    rewrite (bind_Ok _ _ _ (mk ns' None ly) (mk ns' None ly)) by done. cbn [View.value layout].
    rewrite (bind_Ok _ _ _ tt (mk ns' (Some (RegRanges.mk reg ly)) ly)) by done.
    unfold node_ranges at 1. rewrite Hreg.
    apply (IH _ bs); try done. rewrite length_app in Hfuel. cbn in Hfuel. lia.
  - destruct Hfind as (ns' & Hres & Hx). rewrite (bind_Ok _ _ _ _ _ (Hfm _ _ Hres)).
    assert (List.filter is_memory_tree kids = []) as ->.
    { clear -Hf. induction kids as [|k ks IHk]; [done|]. cbn in *.
      destruct (is_memory_tree k); [done|auto]. }
    cbn. by eexists.
Qed.

#[export] Instance memory_iterates : Iterates next eq memory_at.
Proof.
  split; intros s; [|intros r rs]; intros (Hl & bs & cur & kids & Hch & Hcur & Hrs & Hok);
    pose proof (children_at_fuel _ _ _ _ Hch) as Hfu;
    pose proof (memory_loop_spec (S (Structure.fuel_of (Reader.bytes (View.Children.reader (nodes s))))) s bs
      cur kids Hl Hch Hcur Hok ltac:(lia)) as H;
    rewrite <- Hrs in H.
  - destruct H as (s' & H & Hs'). apply (exhausted_step _ _ s'); [|by apply (exhausted_invariant _ spent), Hs'; apply memory_spent_next].
    unfold next. by rewrite (bind_Ok _ _ _ s s).
  - destruct H as (s' & H & Hs'). exists r, s'. unfold next. by rewrite (bind_Ok _ _ _ s s).
Qed.

End ranges.

(** A validated root yields exactly the ranges of the tree. *)
Lemma memory_new_spec n t :
  represents n t -> Addressing.addressing_ok (View.strings n) t ->
  memory_ok (View.strings n) t ->
  exists s ly, new n = Ok s /\ RegRanges.layout_ok ly /\
    memory_at (View.strings n) ly s (memory_ranges (View.strings n) t).
Proof.
  intros Hrep (addressing & Ha & Hfit & _)%addressing_ok_inv (a & ly & Ha' & Ha0 & Hs0 & Hly & Hmem).
  assert (a = addressing) as -> by congruence.
  destruct (consumer_layout _ _ _ _ Hrep eq_refl Ha Ha0 Hs0) as (ly' & Hly' & Hok & Hmod).
  assert (ly' = ly) as -> by congruence.
  unfold new, Addressing.child_addressing. rewrite (Addressing.parse_child_addressing_eq _ _ Hrep), Ha.
  cbn [expect obind]. rewrite Hly. cbn [expect obind]. eexists _, ly. split; [done|]. split; [done|].
  split; [done|]. exists (View.content n), [], (tree_kids t).
  split; [by apply children_start|]. split; [done|]. split.
  - unfold memory_ranges. by rewrite Ha, Hly.
  - rewrite List.Forall_forall in *. intros k Hk Hm.
    destruct (Hmem k) as (_ & reg & Hreg & _ & Hr); [by apply filter_In|].
    exists reg. split; [done|]. split; [|done]. eapply Hmod; [by apply Hfit|done].
Qed.

Lemma memory_kids_in strings t k ly :
  Forall (memory_node_ok strings ly) (memory_kids t) -> In k (memory_kids t) ->
  Forall RegRanges.range_ok (node_ranges strings ly k).
Proof.
  rewrite List.Forall_forall. intros H Hk. destruct (H k Hk) as (_ & reg & Hreg & _ & Hr).
  unfold node_ranges. by rewrite Hreg.
Qed.

(** Validated memory is a nonempty list of proper ranges. *)
Lemma memory_ranges_ok strings t :
  memory_ok strings t -> Forall RegRanges.range_ok (memory_ranges strings t).
Proof.
  intros (addressing & ly & Ha & _ & _ & Hly & Hk). unfold memory_ranges. rewrite Ha, Hly.
  apply List.Forall_concat, List.Forall_forall. intros rs (k & <- & Hin)%in_map_iff.
  by eapply memory_kids_in.
Qed.

Lemma memory_ranges_nonempty n t :
  represents n t -> Addressing.addressing_ok (View.strings n) t -> memory_ok (View.strings n) t ->
  (exists k, In k (tree_kids t) /\ Name.component (tree_name k) = MEMORY_NODE_NAME) ->
  memory_ranges (View.strings n) t <> [].
Proof.
  intros Hrep (addr & Ha & Hfit & _)%addressing_ok_inv (addressing & ly & Ha' & Ha0 & Hs0 & Hly & Hk)
    (k & Hin & Hc).
  assert (addr = addressing) as -> by congruence.
  destruct (consumer_layout _ _ _ _ Hrep eq_refl Ha Ha0 Hs0) as (ly' & Hly' & Hok & Hmod).
  assert (ly' = ly) as -> by congruence.
  assert (In k (memory_kids t)) as Hmk by (apply filter_In; split; [done|by apply bool_decide_eq_true]).
  unfold memory_ranges. rewrite Ha, Hly. intros Hnil.
  rewrite List.Forall_forall in Hk, Hfit. destruct (Hk k Hmk) as (_ & reg & Hreg & Hne & _).
  pose proof (Hmod k reg (Hfit k Hin) Hreg) as Hm. destruct Hok as (Hok & _).
  assert (node_ranges (View.strings n) ly k = []) as Hr.
  { apply in_split in Hmk as (l1 & l2 & Heq). rewrite Heq in Hnil.
    rewrite map_app, concat_app in Hnil. cbn [map concat] in Hnil.
    by apply app_eq_nil in Hnil as [_ [? _]%app_eq_nil]. }
  unfold node_ranges in Hr. rewrite Hreg in Hr. unfold RegRanges.ranges_of in Hr.
  apply Hne, zlen_0. pose proof (zlen_nonneg reg).
  destruct (Z_lt_le_dec (zlen reg) (Addressing.entry_size ly)) as [Hlt|Hge].
  - by rewrite Z.mod_small in Hm by lia.
  - by rewrite chunks_step in Hr by lia.
Qed.

End Memory.
