(* ===== verification/FdtReserved.v ===== *)
(** * Static reserved memory ([fdt/src/structure/semantic/reserved_memory.rs])

    Validation of the optional [/reserved-memory] node and the flat iterator
    over the static ranges of its children. *)

From Stdlib Require Import ZArith Lia Bool.
From Stdlib Require Import Strings.Byte Strings.String.
From stdpp Require Import base list numbers.
From S2P Require Import Prelude FdtReader FdtStrings FdtNames FdtStructure FdtTree FdtScan.
From S2P Require Import FdtView FdtViewProofs FdtAddressing FdtRegRange FdtMemory.
Local Open Scope Z_scope.

Definition ReservedMemoryRange : Type := RegRange.

Module Reserved.

Definition RESERVED_MEMORY_NODE_NAME : list byte := bs "reserved-memory".
Definition ADDRESS_CELLS_PROPERTY : list byte := bs "#address-cells".
Definition SIZE_CELLS_PROPERTY : list byte := bs "#size-cells".
Definition RANGES_PROPERTY : list byte := bs "ranges".
Definition REG_PROPERTY : list byte := bs "reg".
Definition SIZE_PROPERTY : list byte := bs "size".

(** [impl fmt::Debug for ReservedMemoryRange]. *)
Definition debug (self : ReservedMemoryRange) : list byte :=
  debug_struct "ReservedMemoryRange"
    [("address"%string, lower_hex (address self)); ("size"%string, lower_hex (size self))].

Lemma debug_reserved_range_inj (r s : ReservedMemoryRange) :
  is_u64 (address r) -> is_u64 (size r) -> is_u64 (address s) -> is_u64 (size s) -> debug r = debug s -> r = s.
Proof. destruct r, s. intros ? ? ? ? [Ha Hs]%debug_hex_inj; [exact (f_equal2 mkRegRange Ha Hs)|done..]. Qed.

(** [root.children().find(..)] *)
Definition reserved_memory_node (root : View.Node) : outcome never (option View.Node) :=
  View.child root RESERVED_MEMORY_NODE_NAME.

Definition validate_parent (node : View.Node) : outcome SemanticError unit :=
  let? address_cells := infallible (View.property node ADDRESS_CELLS_PROPERTY) in
  if negb (bool_decide (is_Some address_cells)) then Err MissingReservedMemoryAddressCells
  else
    let? size_cells := infallible (View.property node SIZE_CELLS_PROPERTY) in
    if negb (bool_decide (is_Some size_cells)) then Err MissingReservedMemorySizeCells
    else
      let? ranges := infallible (View.property node RANGES_PROPERTY) in
      match ranges with
      | None => Err MissingReservedMemoryRanges
      | Some ranges =>
          if negb (bool_decide (View.value ranges = [])) then Err NonEmptyReservedMemoryRanges
          else Ok tt
      end.

Definition reserved_error (error : RegRangeError) : SemanticError :=
  match error with
  | Empty => EmptyReservedMemoryReg
  | AddressDoesNotFitU64 => ReservedMemoryAddressDoesNotFitU64
  | SizeDoesNotFitU64 => ReservedMemorySizeDoesNotFitU64
  | ZeroSize => ZeroReservedMemorySize
  | EndOverflow => ReservedMemoryRangeEndOverflow
  end.

Definition validate_reg (bytes : list byte) (layout : Addressing.RegLayout)
    : outcome SemanticError unit :=
  map_err reserved_error (RegRanges.validate bytes layout).

Definition validate_child (node : View.Node) (layout : Addressing.RegLayout)
    : outcome SemanticError unit :=
  let? reg := infallible (View.property node REG_PROPERTY) in
  match reg with
  | Some reg => validate_reg (View.value reg) layout
  | None =>
      let? size := infallible (View.property node SIZE_PROPERTY) in
      if bool_decide (is_Some size) then Err UnsupportedDynamicReservedMemory
      else Err MissingReservedMemoryAllocation
  end.

Definition validate (root : View.Node) : outcome SemanticError unit :=
  let? found := infallible (reserved_memory_node root) in
  match found with
  | None => Ok tt
  | Some reserved_memory =>
      let? _ := validate_parent reserved_memory in
      let? addressing := Addressing.child_addressing reserved_memory in
      if Addressing.address_get (Addressing.address_cells addressing) =? 0
      then Err InvalidReservedMemoryAddressCells
      else if Addressing.size_get (Addressing.size_cells addressing) =? 0
      then Err InvalidReservedMemorySizeCells
      else
        let? layout := Addressing.RegLayout_new addressing in
        for_each View.Children.next (View.node_fuel reserved_memory)
          (fun child => validate_child child layout) (View.children reserved_memory)
  end.

(** ** [ReservedMemoryRanges] *)

Record t := mk
  { nodes : option View.Children.t; current : option RegRanges.t;
    layout : option Addressing.RegLayout }.

Definition new (root : View.Node) : outcome never t :=
  let? found := reserved_memory_node root in
  match found with
  | None => Ok (mk None None None)
  | Some reserved_memory =>
      let? addressing := Addressing.child_addressing reserved_memory in
      let? layout := expect (Addressing.RegLayout_new addressing) in
      Ok (mk (Some (View.children reserved_memory)) None (Some layout))
  end.

Definition next_current : M t never (option RegRange) :=
  let* self := get in
  match current self with
  | None => ret None
  | Some ranges =>
      let '(o, ranges') := RegRanges.next ranges in
      let* _ := put (mk (nodes self) (Some ranges') (layout self)) in
      lift o
  end.

Definition set_current (c : option RegRanges.t) : M t never unit :=
  let* self := get in put (mk (nodes self) c (layout self)).

(** [self.nodes.as_mut()?.next()?] *)
Definition next_node : M t never (option View.Node) :=
  let* self := get in
  match nodes self with
  | None => ret None
  | Some ns =>
      let '(o, ns') := View.Children.next ns in
      let* _ := put (mk (Some ns') (current self) (layout self)) in
      lift o
  end.

Fixpoint loop (fuel : nat) : M t never (option ReservedMemoryRange) :=
  match fuel with
  | O => lift OutOfFuel
  | S fuel' =>
      let* range := next_current in
      match range with
      | Some range => ret (Some (mkRegRange (address range) (size range)))
      | None =>
          let* _ := set_current None in
          let* node := next_node in
          match node with
          | None => ret None
          | Some node =>
              let* reg := lift (View.property node REG_PROPERTY) in
              let* reg := lift (expect_some reg) in
              let* self := get in
              let* layout := lift (expect_some (layout self)) in
              let* _ := set_current (Some (RegRanges.new (View.value reg) layout)) in
              loop fuel'
          end
      end
  end.

(** One more than the number of children that can remain. *)
Definition fuel_of (self : t) : nat :=
  match nodes self with
  | None => 1
  | Some ns => S (Structure.fuel_of (Reader.bytes (View.Children.reader ns)))
  end.

Definition next : M t never (option ReservedMemoryRange) :=
  let* self := get in loop (fuel_of self).

(** ** Reserved memory in the tree *)

Section tree.
Context (strings : Strings.t).

Definition reserved_child_ok (ly : Addressing.RegLayout) (k : tree) : Prop :=
  exists reg, tree_prop strings k REG_PROPERTY = Some reg /\ reg <> [] /\
              Forall RegRanges.range_ok (RegRanges.ranges_of ly reg).

Definition reserved_node_ok (k : tree) : Prop :=
  is_Some (tree_prop strings k ADDRESS_CELLS_PROPERTY) /\
  is_Some (tree_prop strings k SIZE_CELLS_PROPERTY) /\
  tree_prop strings k RANGES_PROPERTY = Some [] /\
  exists addressing ly, Addressing.addressing_of strings k = Ok addressing /\
    Addressing.address_get (Addressing.address_cells addressing) <> 0 /\
    Addressing.size_get (Addressing.size_cells addressing) <> 0 /\
    Addressing.RegLayout_new addressing = Ok ly /\
    Forall (reserved_child_ok ly) (tree_kids k).

Definition reserved_ok (t : tree) : Prop :=
  match tree_child t RESERVED_MEMORY_NODE_NAME with
  | None => True
  | Some k => reserved_node_ok k
  end.

Definition node_ranges (ly : Addressing.RegLayout) (k : tree) : list RegRange :=
  match tree_prop strings k REG_PROPERTY with
  | Some reg => RegRanges.ranges_of ly reg
  | None => []
  end.

(** What [ReservedMemoryRanges] is to yield. *)
Definition reserved_ranges (t : tree) : list ReservedMemoryRange :=
  match tree_child t RESERVED_MEMORY_NODE_NAME with
  | None => []
  | Some k =>
      match Addressing.addressing_of strings k with
      | Ok addressing =>
          match Addressing.RegLayout_new addressing with
          | Ok ly => concat (map (node_ranges ly) (tree_kids k))
          | _ => []
          end
      | _ => []
      end
  end.

End tree.

(** ** Validation *)

Lemma validate_child_spec n k ly :
  represents n k -> RegRanges.layout_ok ly ->
  (forall reg, tree_prop (View.strings n) k REG_PROPERTY = Some reg ->
     zlen reg mod Addressing.entry_size ly = 0) ->
  no_panic (validate_child n ly) /\
  (validate_child n ly = Ok tt <-> reserved_child_ok (View.strings n) ly k).
Proof.
  intros Hrep Hly Hfit. unfold validate_child, reserved_child_ok.
  rewrite !(node_property _ _ Hrep). cbn [infallible obind].
  destruct (tree_prop _ k REG_PROPERTY) as [reg|]; cbn [fmap option_fmap option_map].
  2:{ split; [by split_if|]. split; [by split_if|by intros (? & ? & _)]. }
  cbn [View.value]. unfold validate_reg. specialize (Hfit reg eq_refl).
  pose proof (RegRanges.reg_validate_no_panic ly Hly reg Hfit) as Hnp.
  pose proof (RegRanges.validate_Ok ly Hly reg Hfit) as Hiff.
  rewrite no_panic_map_err. split; [done|].
  transitivity (RegRanges.validate reg ly = Ok tt).
  - destruct (RegRanges.validate reg ly) as [[]|e| |]; cbn; split; congruence.
  - rewrite Hiff. split; [|by intros (reg' & [= ->] & H)]. intros H. by exists reg.
Qed.

Lemma validate_parent_spec n k :
  represents n k ->
  no_panic (validate_parent n) /\
  (validate_parent n = Ok tt <->
   is_Some (tree_prop (View.strings n) k ADDRESS_CELLS_PROPERTY) /\
   is_Some (tree_prop (View.strings n) k SIZE_CELLS_PROPERTY) /\
   tree_prop (View.strings n) k RANGES_PROPERTY = Some []).
Proof.
  intros Hrep. unfold validate_parent. rewrite !(node_property _ _ Hrep). cbn [infallible obind].
  destruct (tree_prop _ k ADDRESS_CELLS_PROPERTY); cbn [fmap option_fmap option_map];
    [rewrite bool_decide_eq_true_2 by (by eexists)|
     rewrite bool_decide_eq_false_2 by (by intros [? ?])]; cbn [negb];
    [|split; [done|]; split; [done|by intros ([? ?] & _)]].
  destruct (tree_prop _ k SIZE_CELLS_PROPERTY); cbn [fmap option_fmap option_map];
    [rewrite bool_decide_eq_true_2 by (by eexists)|
     rewrite bool_decide_eq_false_2 by (by intros [? ?])]; cbn [negb];
    [|split; [done|]; split; [done|by intros (_ & [? ?] & _)]].
  destruct (tree_prop _ k RANGES_PROPERTY) as [v|]; cbn [fmap option_fmap option_map];
    [|split; [done|]; split; [done|by intros (_ & _ & ?)]].
  cbn [View.value]. case_bool_decide as Hv; cbn [negb]; (split; [done|]).
  - subst v. split; [|done]. intros _. split; [by eexists|]. split; [by eexists|done].
  - split; [done|]. intros (_ & _ & [= ->]). done.
Qed.

Lemma tree_child_in t nm k : tree_child t nm = Some k -> In k (tree_kids t).
Proof. intros H. by apply List.find_some in H as [? _]. Qed.

Lemma reserved_validate_spec n t :
  represents n t -> Addressing.addressing_ok (View.strings n) t ->
  no_panic (validate n) /\ (validate n = Ok tt <-> reserved_ok (View.strings n) t).
Proof.
  intros Hrep (_ & _ & _ & Hall)%Memory.addressing_ok_inv. unfold validate, reserved_ok, reserved_memory_node.
  destruct (node_child _ _ Hrep RESERVED_MEMORY_NODE_NAME) as (o & -> & Ho). cbn [infallible obind].
  destruct (tree_child t _) as [k|] eqn:Hk; [|by subst o].
  destruct Ho as (c & -> & Hc & Hst). apply tree_child_in in Hk.
  rewrite List.Forall_forall in Hall. specialize (Hall k Hk). rewrite <- Hst in *.
  apply Memory.addressing_ok_inv in Hall as (addressing & Ha & Hfit & _).
  destruct (validate_parent_spec c k Hc) as [Hnp Hiff]. unfold reserved_node_ok.
  destruct (validate_parent c) as [[]|e| |] eqn:Hvp; try done; cbn [obind].
  2:{ split; [done|]. split; [done|]. intros (H1 & H2 & H3 & _). by apply Hiff. }
  destruct (proj1 Hiff eq_refl) as (H1 & H2 & H3).
  unfold Addressing.child_addressing. rewrite (Addressing.parse_child_addressing_eq _ _ Hc), Ha.
  cbn [expect obind].
  destruct (_ =? 0) eqn:Ea; zbool.
  { split; [done|]. split; [done|]. intros (_ & _ & _ & a & ly & [= <-] & H & _). done. }
  destruct (_ =? 0) eqn:Es; zbool.
  { split; [done|]. split; [done|]. intros (_ & _ & _ & a & ly & [= <-] & _ & H & _). done. }
  destruct (Memory.consumer_layout _ _ _ _ Hc eq_refl Ha Ea Es) as (ly & Hly & Hok & Hmod).
  rewrite Hly. cbn [obind].
  destruct (Memory.for_children_spec c k (fun child => validate_child child ly)
    (reserved_child_ok (View.strings c) ly) Hc) as [Hnp' Hiff'].
  { intros d j [Hd Hst'] Hin. rewrite List.Forall_forall in Hfit. rewrite <- Hst'.
    apply validate_child_spec; [done|done|]. rewrite Hst'. intros reg. apply Hmod. by apply Hfit. }
  split; [done|]. rewrite Hiff'. split.
  - intros H. repeat (split; [done|]). by exists addressing, ly.
  - intros (_ & _ & _ & a & ly' & Ha' & _ & _ & Hly' & H).
    assert (a = addressing) as -> by congruence. by assert (ly' = ly) as -> by congruence.
Qed.

(** ** Iteration *)

Section ranges.
Context (strings : Strings.t) (ly : Addressing.RegLayout) (Hly : RegRanges.layout_ok ly).

Definition nodes_at (ns : option View.Children.t) (kids : list tree) : Prop :=
  match ns with
  | Some ns => exists bs, children_at bs strings ns kids
  | None => kids = []
  end.

Definition reserved_at (s : t) (rs : list RegRange) : Prop :=
  layout s = Some ly /\ exists cur kids, nodes_at (nodes s) kids /\
    Memory.current_at ly (current s) cur /\
    rs = cur ++ concat (map (node_ranges strings ly) kids) /\
    Forall (Memory.regs_proper strings ly) kids.

Lemma reserved_next_current s cur :
  layout s = Some ly -> Memory.current_at ly (current s) cur ->
  match cur with
  | [] => exists s', next_current s = (Ok None, s') /\ layout s' = Some ly /\ nodes s' = nodes s
  | r :: cur' => exists s', next_current s = (Ok (Some r), s') /\ layout s' = Some ly /\
                   nodes s' = nodes s /\ Memory.current_at ly (current s') cur'
  end.
Proof.
  destruct s as [ns [rr|] ly']; cbn [layout current nodes]; intros -> Hc.
  2:{ cbn in Hc. subst cur. by eexists. }
  unfold next_current. rewrite (bind_Ok _ _ _ (mk ns (Some rr) (Some ly)) _) by done.
  cbn [current nodes layout].
  pose proof (RegRanges.ranges_iterates ly Hly) as [Hnil Hcons]. destruct cur as [|r cur].
  - apply Hnil, exhausted_next in Hc as (rr' & -> & _). by eexists.
  - apply Hcons in Hc as (i & rr' & -> & -> & Hc). by eexists.
Qed.

(** No range and no node is left. *)
Definition spent (s : t) : Prop :=
  current s = None /\
  match nodes s with Some ns => exhausted View.Children.next ns | None => True end.

Lemma spent_node s :
  spent s -> exists s', next_node s = (Ok None, s') /\ spent s'.
Proof.
  destruct s as [[ns|] c ly']; intros [Hc Hx]; cbn [current nodes] in *; subst c; unfold next_node;
    (rewrite (bind_Ok _ _ _ (mk _ None ly') (mk _ None ly')) by done); cbn [nodes current layout].
  - apply exhausted_next in Hx as (ns' & -> & Hx). by eexists.
  - by eexists.
Qed.

Lemma reserved_spent_next s : spent s -> exists s', next s = (Ok None, s') /\ spent s'.
Proof.
  intros Hs. destruct (spent_node s Hs) as (s' & Hn & Hs'). exists s'. split; [|done].
  destruct Hs as [Hc _]. destruct s as [ns c ly']. cbn in Hc. subst c. unfold next.
  rewrite (bind_Ok _ _ _ (mk ns None ly') (mk ns None ly')) by done.
  assert (exists n, fuel_of (mk ns None ly') = S n) as (n & ->) by (unfold fuel_of; destruct (nodes _); by eexists).
  cbn [loop]. rewrite (bind_Ok _ _ _ None (mk ns None ly')) by done.
  rewrite (bind_Ok _ _ _ tt (mk ns None ly')) by done. by rewrite (bind_Ok _ _ _ None s').
Qed.

Lemma next_node_spec ns kids :
  nodes_at ns kids ->
  match kids with
  | [] => exists s', next_node (mk ns None (Some ly)) = (Ok None, s') /\ spent s'
  | k :: kids' => exists c ns', next_node (mk ns None (Some ly)) = (Ok (Some c), mk ns' None (Some ly)) /\
                    shows strings c k /\ nodes_at ns' kids'
  end.
Proof.
  intros H. destruct kids as [|k kids].
  { apply spent_node. split; [done|]. cbn [nodes]. destruct ns as [ns|]; [|done].
    destruct H as (bs & H). by apply (children_iterates bs strings). }
  unfold next_node. rewrite (bind_Ok _ _ _ (mk ns None (Some ly)) _) by done.
  cbn [nodes current layout]. destruct ns as [ns|]; [|done]. destruct H as (bs & H).
  apply (children_iterates bs strings) in H as (c & ns' & -> & Hc & H).
  exists c, (Some ns'). split; [done|]. split; [done|]. by exists bs.
Qed.

Lemma reserved_loop_spec fuel : forall s cur kids,
  layout s = Some ly -> nodes_at (nodes s) kids -> Memory.current_at ly (current s) cur ->
  Forall (Memory.regs_proper strings ly) kids -> (length kids < fuel)%nat ->
  match cur ++ concat (map (node_ranges strings ly) kids) with
  | [] => exists s', loop fuel s = (Ok None, s') /\ spent s'
  | r :: rs => exists s', loop fuel s = (Ok (Some r), s') /\ reserved_at s' rs
  end.
Proof.
  induction fuel as [|fuel IH]; intros s cur kids Hl Hch Hcur Hok Hfuel; [lia|]. cbn [loop].
  pose proof (reserved_next_current s cur Hl Hcur) as Hnc. destruct cur as [|r cur]; cbn [app].
  2:{ destruct Hnc as (s' & Hn & Hl' & Hns & Hc'). rewrite (bind_Ok _ _ _ _ _ Hn).
      exists s'. split; [by destruct r|]. split; [done|]. exists cur, kids. by rewrite Hns. }
  destruct Hnc as (s1 & Hn & Hl1 & Hns). rewrite (bind_Ok _ _ _ _ _ Hn).
  rewrite (bind_Ok _ _ _ tt (mk (nodes s) None (Some ly)))
    by (unfold set_current; unfold_m; by rewrite Hns, Hl1).
  pose proof (next_node_spec _ _ Hch) as Hnn. destruct kids as [|k kids].
  - destruct Hnn as (s' & Hnn & Hs'). rewrite (bind_Ok _ _ _ _ _ Hnn). cbn. by eexists.
  - destruct Hnn as (c & ns' & Hnn & [Hc Hst] & Hch'). rewrite (bind_Ok _ _ _ _ _ Hnn).
    apply Forall_cons_1 in Hok as [(reg & Hreg & Hm & Hr) Hok].
    change Memory.REG_PROPERTY with REG_PROPERTY in Hreg.
    rewrite (bind_Ok _ _ _ (Some (View.mkProperty REG_PROPERTY reg)) (mk ns' None (Some ly)))
      by (unfold lift; by rewrite (node_property _ _ Hc), Hst, Hreg).
    rewrite (bind_Ok _ _ _ (View.mkProperty REG_PROPERTY reg) (mk ns' None (Some ly))) by done.
    rewrite (bind_Ok _ _ _ (mk ns' None (Some ly)) (mk ns' None (Some ly))) by done.
    cbn [View.value layout]. rewrite (bind_Ok _ _ _ ly (mk ns' None (Some ly))) by done.
    rewrite (bind_Ok _ _ _ tt (mk ns' (Some (RegRanges.mk reg ly)) (Some ly))) by done.
    cbn [map concat]. unfold node_ranges at 1. rewrite Hreg.
    apply IH; try done. cbn in Hfuel. lia.
Qed.

#[export] Instance reserved_iterates : Iterates next eq reserved_at.
Proof.
  assert (forall s kids, layout s = Some ly -> nodes_at (nodes s) kids ->
    (length kids < fuel_of s)%nat) as Hfu.
  { intros s kids _ Hn. unfold fuel_of. destruct (nodes s) as [ns|]; [|cbn in Hn; subst; cbn; lia].
    destruct Hn as (bs & Hn). apply children_at_fuel in Hn. lia. }
  split; intros s; [|intros r rs]; intros (Hl & cur & kids & Hch & Hcur & Hrs & Hok);
    pose proof (reserved_loop_spec (fuel_of s) s cur kids Hl Hch Hcur Hok (Hfu s kids Hl Hch)) as H;
    rewrite <- Hrs in H.
  - destruct H as (s' & H & Hs'). apply (exhausted_step _ _ s').
    { unfold next. by rewrite (bind_Ok _ _ _ s s). }
    by apply (exhausted_invariant _ spent), Hs'; apply reserved_spent_next.
  - destruct H as (s' & H & Hs'). exists r, s'. unfold next. by rewrite (bind_Ok _ _ _ s s).
Qed.

End ranges.

Lemma empty_iterates : yields next (@eq RegRange) (mk None None None) [].
Proof. by apply yields_nil, exhausted_stay. Qed.

(** A validated root yields exactly the reserved ranges of the tree. *)
Lemma reserved_new_spec n t :
  represents n t -> Addressing.addressing_ok (View.strings n) t ->
  reserved_ok (View.strings n) t ->
  exists s, new n = Ok s /\ yields next eq s (reserved_ranges (View.strings n) t).
Proof.
  intros Hrep (_ & _ & _ & Hall)%Memory.addressing_ok_inv Hres.
  unfold new, reserved_memory_node, reserved_ok, reserved_ranges in *.
  destruct (node_child _ _ Hrep RESERVED_MEMORY_NODE_NAME) as (o & -> & Ho). cbn [obind].
  destruct (tree_child t _) as [k|] eqn:Hk; [|subst o; eexists; split; [done|apply empty_iterates]].
  destruct Ho as (c & -> & Hc & Hst). apply tree_child_in in Hk.
  rewrite List.Forall_forall in Hall. specialize (Hall k Hk). rewrite <- Hst in *.
  apply Memory.addressing_ok_inv in Hall as (addressing & Ha & Hfit & _).
  destruct Hres as (_ & _ & _ & a & ly & Ha' & Ha0 & Hs0 & Hly & Hkids).
  assert (a = addressing) as -> by congruence.
  destruct (Memory.consumer_layout _ _ _ _ Hc eq_refl Ha Ha0 Hs0) as (ly' & Hly' & Hok & Hmod).
  assert (ly' = ly) as -> by congruence.
  unfold Addressing.child_addressing. rewrite (Addressing.parse_child_addressing_eq _ _ Hc), Ha.
  cbn [expect obind]. rewrite Hly. cbn [expect obind]. eexists. split; [done|].
  pose proof (reserved_iterates (View.strings c) ly Hok) as Hit.
  apply (iterates_yields _ _ (reserved_at (View.strings c) ly)).
  split; [done|]. exists [], (tree_kids k).
  split; [eexists; by apply children_start|]. split; [done|]. split; [done|].
  rewrite List.Forall_forall in *. intros j Hj.
  destruct (Hkids j Hj) as (reg & Hreg & _ & Hr). exists reg. split; [done|]. split; [|done].
  eapply Hmod; [by apply Hfit|done].
Qed.

(** Validated reserved memory is a list of proper ranges. *)
Lemma reserved_ranges_ok strings t :
  reserved_ok strings t -> Forall RegRanges.range_ok (reserved_ranges strings t).
Proof.
  unfold reserved_ok, reserved_ranges. destruct (tree_child t _) as [k|]; [|constructor].
  intros (_ & _ & _ & addressing & ly & -> & _ & _ & -> & Hk).
  apply List.Forall_concat, List.Forall_forall. intros rs (j & <- & Hin)%in_map_iff.
  rewrite List.Forall_forall in Hk. destruct (Hk j Hin) as (reg & Hreg & _ & Hr).
  unfold node_ranges. by rewrite Hreg.
Qed.

End Reserved.
