(* ===== verification/FdtSemantic.v ===== *)
(** * Semantic validation of a structure block
    ([fdt/src/structure/semantic.rs])

    [validate_semantics] runs the required-node, addressing, memory and
    reserved-memory checks in order.  Its acceptance is characterised on the
    tree: [semantics_ok]. *)

From Stdlib Require Import ZArith Lia Bool.
From Stdlib Require Import Strings.Byte Strings.String.
From stdpp Require Import base list numbers.
From S2P Require Import Prelude FdtReader FdtStrings FdtNames FdtStructure FdtTree FdtPass.
From S2P Require Import FdtView FdtViewProofs FdtAddressing FdtRegRange FdtMemory FdtReserved.
Local Open Scope Z_scope.

(** One iteration of the loop over the root's children: [cpus_seen] and
    [memory_seen]. *)
Definition see_child (seen : bool * bool) (child : View.Node) : bool * bool :=
  let '(cpus_seen, memory_seen) := seen in
  let cpus_seen := if bool_decide (View.name child = bs "cpus") then true else cpus_seen in
  let memory_seen :=
    if bool_decide (View.name_component child = bs "memory") then true else memory_seen in
  (cpus_seen, memory_seen).

Definition validate_required_root_nodes (root : View.Node) : outcome SemanticError unit :=
  let? (cpus_seen, memory_seen) :=
    infallible (fold_each View.Children.next (View.node_fuel root) see_child (false, false)
                  (View.children root)) in
  if negb cpus_seen then Err MissingCpusNode
  else if negb memory_seen then Err MissingMemoryNode
  else Ok tt.

Definition validate_semantics (s : Structure.t) (strings : Strings.t)
    : outcome StructureError unit :=
  let? root := infallible (View.root s strings) in
  let? _ := map_err Semantic (validate_required_root_nodes root) in
  let? _ := map_err Semantic (Addressing.validate root) in
  let? _ := map_err Semantic (Memory.validate root) in
  let? _ := map_err Semantic (Reserved.validate root) in
  Ok tt.

(** ** The rules on trees *)

Definition required_ok (t : tree) : Prop :=
  (exists k, In k (tree_kids t) /\ tree_name k = bs "cpus") /\
  (exists k, In k (tree_kids t) /\ Name.component (tree_name k) = bs "memory").

Record semantics_ok (strings : Strings.t) (t : tree) : Prop := {
  sem_required : required_ok t;
  sem_addressing : Addressing.addressing_ok strings t;
  sem_memory : Memory.memory_ok strings t;
  sem_reserved : Reserved.reserved_ok strings t;
}.

Definition see_tree (seen : bool * bool) (k : tree) : bool * bool :=
  (bool_decide (tree_name k = bs "cpus") || fst seen,
   bool_decide (Name.component (tree_name k) = bs "memory") || snd seen).

Lemma fold_see ks : forall seen,
  fold_left see_tree ks seen =
    (existsb (fun k => bool_decide (tree_name k = bs "cpus")) ks || fst seen,
     existsb (fun k => bool_decide (Name.component (tree_name k) = bs "memory")) ks || snd seen).
Proof.
  induction ks as [|k ks IH]; intros [c m]; [done|]. cbn [fold_left existsb]. rewrite IH.
  unfold see_tree. cbn [fst snd]. f_equal.
  - by rewrite orb_assoc, (orb_comm (existsb _ _)).
  - by rewrite orb_assoc, (orb_comm (existsb _ _)).
Qed.

Lemma exists_child (f : tree -> bool) (p : tree -> Prop) ks :
  (forall k, f k = true <-> p k) -> existsb f ks = true <-> exists k, In k ks /\ p k.
Proof.
  intros Hf. rewrite existsb_exists. split; intros (k & Hk & Hp); exists k; split; firstorder.
Qed.

Lemma required_spec n t :
  represents n t ->
  no_panic (validate_required_root_nodes n) /\
  (validate_required_root_nodes n = Ok tt <-> required_ok t).
Proof.
  intros Hrep. unfold validate_required_root_nodes.
  rewrite (fold_each_yields _ _ _ see_tree _ _ (node_children _ _ Hrep)).
  2:{ intros [c m] d k [Hd _]. unfold see_child, see_tree, View.name_component.
      rewrite (rep_name _ _ Hd). cbn [fst snd]. f_equal; by case_bool_decide. }
  2:{ by apply kids_fuel. }
  rewrite fold_see. cbn [infallible obind fst snd]. rewrite !orb_false_r.
  unfold required_ok.
  rewrite <- (exists_child _ (fun k => tree_name k = bs "cpus") _
    (fun k => bool_decide_eq_true (tree_name k = bs "cpus"))).
  rewrite <- (exists_child _ (fun k => Name.component (tree_name k) = bs "memory") _
    (fun k => bool_decide_eq_true (Name.component (tree_name k) = bs "memory"))).
  destruct (existsb _ _); cbn [negb]; [|split; [done|]; split; [done|by intros [? _]]].
  destruct (existsb _ _); cbn [negb]; (split; [done|]); split; try done. by intros [_ ?].
Qed.

(** On the block of a well-formed tree the checks neither panic nor run out
    of fuel, and they accept exactly the trees the rules accept. *)
Lemma validate_semantics_spec blob strings t :
  zlen blob <= isize_max -> encodes strings blob t ->
  no_panic (validate_semantics (Structure.mk blob) strings) /\
  (validate_semantics (Structure.mk blob) strings = Ok tt <-> semantics_ok strings t).
Proof.
  intros Hb Henc. destruct (root_spec _ _ _ Hb Henc) as (n & Hroot & Hrep & Hst).
  unfold validate_semantics. rewrite Hroot. cbn [infallible obind].
  destruct (required_spec n t Hrep) as [Hp1 Hi1].
  destruct (validate_required_root_nodes n) as [[]|e| |]; try done; cbn [map_err obind].
  2:{ split; [done|]. split; [done|]. intros []. by apply Hi1 in sem_required0. }
  rewrite (Addressing.validate_eq _ _ Hrep), Hst.
  pose proof (Addressing.tree_check_no_panic strings t) as Hp2.
  pose proof (Addressing.tree_check_Ok strings t) as Hi2.
  destruct (Addressing.tree_check strings t) as [[]|e| |]; try done; cbn [map_err obind].
  2:{ split; [done|]. split; [done|]. intros []. by apply Hi2 in sem_addressing0. }
  rewrite <- Hst in *. pose proof (proj1 Hi2 eq_refl) as Ha.
  destruct (Memory.memory_validate_spec n t Hrep Ha) as [Hp3 Hi3].
  destruct (Memory.validate n) as [[]|e| |]; try done; cbn [map_err obind].
  2:{ split; [done|]. split; [done|]. intros []. by apply Hi3 in sem_memory0. }
  destruct (Reserved.reserved_validate_spec n t Hrep Ha) as [Hp4 Hi4].
  destruct (Reserved.validate n) as [[]|e| |]; try done; cbn [map_err obind].
  2:{ split; [done|]. split; [done|]. intros []. by apply Hi4 in sem_reserved0. }
  split; [done|]. split; [|done]. intros _. split; [by apply Hi1|done|by apply Hi3|by apply Hi4].
Qed.
