(* ===== verification/FdtReservation.v ===== *)
(** * The memory reservation block ([fdt/src/reservation.rs])

    [Reservations.new] accepts the blocks that list entries with
    representable ends and pairwise disjoint regions before the (0, 0)
    terminator, and [MemoryReservations] yields exactly those entries. *)

From Stdlib Require Import ZArith Lia Bool.
From Stdlib Require Import Strings.Byte Strings.String.
From stdpp Require Import base list numbers.
From S2P Require Import Prelude FdtReader FdtScan.
Local Open Scope Z_scope.

Module Reservations.

Inductive ReservationError :=
| Read (error : ReadError)
| RangeEndOverflow (address size : Z)
| Overlap (first_address first_size second_address second_size : Z).

#[global] Instance reservation_error_eq_decision : EqDecision ReservationError.
Proof. solve_decision. Defined.

Definition RESERVATION_VALUE_SIZE : Z := 8.

Record MemoryReservation := mkReservation { address : Z; size : Z }.

Record t := mk { bytes : list byte }.

(** [impl fmt::Debug for Reservations] and [for MemoryReservation]. *)
Definition debug (self : t) : list byte := debug_struct "Reservations" [("size"%string, decimal (zlen (bytes self)))].

Definition debug_reservation (self : MemoryReservation) : list byte :=
  debug_struct "MemoryReservation"
    [("address"%string, lower_hex (address self)); ("size"%string, lower_hex (size self))].

Definition reservation_end (address size : Z) : outcome ReservationError Z :=
  ok_or (checked_add u64_max address size) (RangeEndOverflow address size).

(** The loop of [new]: the position after the terminator. *)
Fixpoint find_end (fuel : nat) : M Reader.t ReservationError Z :=
  match fuel with
  | O => lift OutOfFuel
  | S fuel' =>
      let* address := mmap_err Read Reader.read_u64 in
      let* size := mmap_err Read Reader.read_u64 in
      if (address =? 0) && (size =? 0) then
        let* reader := get in ret (Reader.position reader)
      else
        let* _ := lift (reservation_end address size) in
        find_end fuel'
  end.

(** ** [MemoryReservations] *)
Module Iter.

Record t := mk { bytes : list byte }.

(** [split_first_chunk::<N>] *)
Definition split_first_chunk (n : Z) (l : list byte) : option (list byte * list byte) :=
  if n <=? zlen l then Some (ztake n l, zdrop n l) else None.

Definition next : M t never (option MemoryReservation) :=
  let* self := get in
  match split_first_chunk RESERVATION_VALUE_SIZE (bytes self) with
  | None => ret None
  | Some (address, remaining) =>
      match split_first_chunk RESERVATION_VALUE_SIZE remaining with
      | None => ret None
      | Some (size, remaining) =>
          let* _ := put (mk remaining) in
          let address := be_val address in
          let size := be_val size in
          if (address =? 0) && (size =? 0) then
            let* _ := put (mk []) in
            ret None
          else ret (Some (mkReservation address size))
      end
  end.

End Iter.

Definition iter (r : t) : Iter.t := Iter.mk (bytes r).

(** The body of the inner loop. *)
Definition check_second (first : MemoryReservation) (first_end : Z) (second : MemoryReservation)
    : outcome ReservationError unit :=
  if size second =? 0 then Ok tt
  else
    let? second_end := reservation_end (address second) (size second) in
    let overlaps := (address first <? second_end) && (address second <? first_end) in
    if overlaps
    then Err (Overlap (address first) (size first) (address second) (size second))
    else Ok tt.

Fixpoint overlap_loop (fuel : nat) (remaining : Iter.t) : outcome ReservationError unit :=
  match fuel with
  | O => OutOfFuel
  | S fuel' =>
      let '(o, remaining) := Iter.next remaining in
      let? first := infallible o in
      match first with
      | None => Ok tt
      | Some first =>
          if size first =? 0 then overlap_loop fuel' remaining
          else
            let? first_end := reservation_end (address first) (size first) in
            let? _ := for_each Iter.next (S (length (Iter.bytes remaining)))
                        (check_second first first_end) remaining in
            overlap_loop fuel' remaining
      end
  end.

Definition validate_no_overlaps (r : t) : outcome ReservationError unit :=
  overlap_loop (S (length (bytes r))) (iter r).

Definition new (bytes : list byte) : outcome ReservationError t :=
  let? end_ := fst (find_end (S (length bytes)) (Reader.new bytes)) in
  let? bytes := expect_some (zslice bytes 0 end_) in
  let reservations := mk bytes in
  let? _ := validate_no_overlaps reservations in
  Ok reservations.

(** ** Encoding *)

Definition entry_bytes (r : MemoryReservation) : list byte :=
  be_bytes 8 (address r) ++ be_bytes 8 (size r).

Definition terminator : list byte := entry_bytes (mkReservation 0 0).

Definition block (rs : list MemoryReservation) : list byte :=
  concat (map entry_bytes rs) ++ terminator.

(** A listed entry: 64-bit fields, not the terminator. *)
Definition listed (r : MemoryReservation) : Prop :=
  is_u64 (address r) /\ is_u64 (size r) /\ r <> mkReservation 0 0.

Definition ends (r : MemoryReservation) : Prop := address r + size r <= u64_max.

Definition covers (r : MemoryReservation) (x : Z) : Prop :=
  address r <= x < address r + size r.

Definition disjoint (r s : MemoryReservation) : Prop := forall x, ~ (covers r x /\ covers s x).

Lemma zlen_be_bytes n z : zlen (be_bytes n z) = Z.of_nat n.
Proof. unfold zlen. by rewrite length_be_bytes. Qed.

Lemma zlen_value z : zlen (be_bytes 8 z) = 8.
Proof. apply zlen_be_bytes. Qed.

Lemma zlen_entry r : zlen (entry_bytes r) = 16.
Proof. unfold entry_bytes. rewrite zlen_app, !zlen_be_bytes. done. Qed.

Lemma be_val_u64 z : is_u64 z -> be_val (be_bytes 8 z) = z.
Proof.
  intros H. rewrite be_val_be_bytes. apply Z.mod_small. unfold is_u64, u64_max in H.
  change (256 ^ Z.of_nat 8) with (2 ^ 64). lia.
Qed.

Lemma take_entry r l :
  ztake 8 (entry_bytes r ++ l) = be_bytes 8 (address r) /\
  zdrop 8 (entry_bytes r ++ l) = be_bytes 8 (size r) ++ l /\
  ztake 8 (be_bytes 8 (size r) ++ l) = be_bytes 8 (size r) /\
  zdrop 8 (be_bytes 8 (size r) ++ l) = l.
Proof.
  unfold entry_bytes. rewrite <- app_assoc.
  assert (forall z (k : list byte), ztake 8 (be_bytes 8 z ++ k) = be_bytes 8 z /\
    zdrop 8 (be_bytes 8 z ++ k) = k) as H.
  { intros z k. change 8 with (Z.of_nat 8). rewrite <- (zlen_be_bytes 8 z).
    split; [apply ztake_app_exact|apply zdrop_app_exact]. }
  destruct (H (address r) (be_bytes 8 (size r) ++ l)), (H (size r) l). done.
Qed.

(** Any 16 bytes are an entry. *)
Lemma split_block_entry l :
  16 <= zlen l ->
  exists r, is_u64 (address r) /\ is_u64 (size r) /\ l = entry_bytes r ++ zdrop 16 l.
Proof.
  intros Hl. exists (mkReservation (be_val (ztake 8 l)) (be_val (ztake 8 (zdrop 8 l)))).
  assert (zlen (ztake 8 l) = 8) as H1 by (apply zlen_ztake; lia).
  assert (zlen (ztake 8 (zdrop 8 l)) = 8) as H2
    by (apply zlen_ztake; rewrite zlen_zdrop by lia; lia).
  cbn [address size].
  split; [pose proof (be_val_range (ztake 8 l)) as H; rewrite H1 in H; unfold is_u64, u64_max; lia|].
  split; [pose proof (be_val_range (ztake 8 (zdrop 8 l))) as H; rewrite H2 in H;
    unfold is_u64, u64_max; lia|].
  unfold entry_bytes. cbn [address size].
  replace 8%nat with (length (ztake 8 l)) at 1 by (unfold zlen in H1; lia).
  replace 8%nat with (length (ztake 8 (zdrop 8 l))) by (unfold zlen in H2; lia).
  rewrite !be_bytes_be_val, <- app_assoc.
  rewrite <- (ztake_zdrop 8 l) at 1. f_equal. rewrite <- (ztake_zdrop 8 (zdrop 8 l)) at 1. f_equal.
  by rewrite zdrop_zdrop by lia.
Qed.

(** ** The iterator *)

Lemma split_first_value z k :
  Iter.split_first_chunk RESERVATION_VALUE_SIZE (be_bytes 8 z ++ k) = Some (be_bytes 8 z, k).
Proof.
  unfold Iter.split_first_chunk, RESERVATION_VALUE_SIZE. pose proof (zlen_nonneg k).
  pose proof (zlen_value z) as Hz.
  rewrite zlen_app, Hz. replace (8 <=? 8 + zlen k) with true by lia.
  rewrite <- Hz. by rewrite ztake_app_exact, zdrop_app_exact.
Qed.

Lemma next_eq r l :
  is_u64 (address r) -> is_u64 (size r) ->
  Iter.next (Iter.mk (entry_bytes r ++ l)) =
    if (address r =? 0) && (size r =? 0) then (Ok None, Iter.mk []) else (Ok (Some r), Iter.mk l).
Proof.
  intros Ha Hs. unfold Iter.next, entry_bytes. unfold_m. cbn [Iter.bytes].
  rewrite <- app_assoc, !split_first_value, !be_val_u64 by done.
  destruct (_ && _); [done|by destruct r].
Qed.

Lemma next_entry r l :
  listed r -> Iter.next (Iter.mk (entry_bytes r ++ l)) = (Ok (Some r), Iter.mk l).
Proof.
  intros (Ha & Hs & Hn). rewrite next_eq by done. destruct (_ && _) eqn:E; [|done]. zbool.
  destruct r; cbn in *; subst. done.
Qed.

Lemma next_terminator l :
  Iter.next (Iter.mk (terminator ++ l)) = (Ok None, Iter.mk []).
Proof. unfold terminator. rewrite next_eq; done. Qed.

Definition iter_at (it : Iter.t) (rs : list MemoryReservation) : Prop :=
  Iter.bytes it = block rs /\ Forall listed rs.

Lemma block_cons r rs : block (r :: rs) = entry_bytes r ++ block rs.
Proof. unfold block. cbn [map concat]. by rewrite app_assoc. Qed.

#[export] Instance iter_iterates : Iterates Iter.next eq iter_at.
Proof.
  split; intros [b]; [|intros r rs]; intros [Hb Hl]; cbn [Iter.bytes] in Hb; subst b.
  - apply (exhausted_step _ _ (Iter.mk [])); [|by apply exhausted_stay].
    pose proof (next_terminator []) as H. by rewrite app_nil_r in H.
  - rewrite block_cons. apply Forall_cons_1 in Hl as [Hr Hl].
    exists r, (Iter.mk (block rs)). by rewrite next_entry.
Qed.

Lemma block_length rs : (length rs < length (block rs))%nat.
Proof.
  enough (zlen rs < zlen (block rs)) by (unfold zlen in *; lia).
  induction rs as [|r rs IH]; [done|]. rewrite block_cons, zlen_app, zlen_entry, zlen_cons. lia.
Qed.

(** ** Overlaps *)

(** What one comparison accepts. *)
Definition compatible (r s : MemoryReservation) : Prop :=
  size r = 0 \/ size s = 0 \/ address r + size r <= address s \/ address s + size s <= address r.

Lemma compatible_disjoint r s :
  0 <= size r -> 0 <= size s -> (compatible r s <-> disjoint r s).
Proof.
  intros Hr Hs. unfold compatible, disjoint, covers. split.
  - intros H x. lia.
  - intros H. specialize (H (Z.max (address r) (address s))). lia.
Qed.

Lemma reservation_end_eq r :
  ends r -> reservation_end (address r) (size r) = Ok (address r + size r).
Proof.
  intros H. unfold reservation_end, checked_add. unfold ends in H.
  by replace (_ <=? _) with true by lia.
Qed.

Lemma check_second_Ok first second :
  size first <> 0 -> ends second ->
  no_panic (check_second first (address first + size first) second) /\
  (check_second first (address first + size first) second = Ok tt <-> compatible first second).
Proof.
  intros Hf He. unfold check_second, compatible.
  destruct (size second =? 0) eqn:E; zbool; [split; [done|]; split; [by auto|done]|].
  rewrite reservation_end_eq by done. cbn [obind].
  destruct (_ && _) eqn:F; (split; [done|]); split; try done; intros.
  - exfalso. zbool. lia.
  - rewrite andb_false_iff in F. destruct F; zbool; lia.
Qed.

Lemma inner_spec first it rs :
  size first <> 0 -> iter_at it rs -> Forall ends rs ->
  let res := for_each Iter.next (S (length (Iter.bytes it)))
               (check_second first (address first + size first)) it in
  no_panic res /\ (res = Ok tt <-> Forall (compatible first) rs).
Proof.
  intros Hf Hit He. cbn zeta.
  rewrite (for_each_yields _ (@eq MemoryReservation) _ (check_second first (address first + size first)) it rs).
  - rewrite <- for_list_foldr, for_list_Ok. rewrite List.Forall_forall in He. split.
    + apply no_panic_for_list. intros s Hs. apply check_second_Ok; auto.
    + rewrite !List.Forall_forall. split; intros H s Hs; apply check_second_Ok; auto.
  - by apply (iterates_yields _ _ iter_at).
  - destruct Hit as [Hb _]. rewrite Hb. pose proof (block_length rs). lia.
  - by intros i t -> _.
Qed.

Lemma overlap_loop_spec rs : forall fuel it,
  iter_at it rs -> Forall ends rs -> (length rs < fuel)%nat ->
  no_panic (overlap_loop fuel it) /\
  (overlap_loop fuel it = Ok tt <-> ForallOrdPairs compatible rs).
Proof.
  induction rs as [|r rs IH]; intros fuel it Hit He Hfuel;
    (destruct fuel as [|fuel]; [cbn in Hfuel; lia|]); cbn [overlap_loop].
  - apply iter_iterates, exhausted_next in Hit as (it' & -> & _). cbn. split; [done|]. split; [constructor|done].
  - apply (iter_cons Iter.next) in Hit as (i & it' & -> & -> & Hit). cbn [infallible obind].
    apply Forall_cons_1 in He as [Hr He].
    destruct (IH fuel it' Hit He) as [Hnp Hiff]; [cbn in Hfuel; lia|].
    destruct (size r =? 0) eqn:E; zbool.
    + split; [done|]. rewrite Hiff. split.
      * constructor; [|done]. apply List.Forall_forall. intros s _. by left.
      * by inversion 1.
    + rewrite reservation_end_eq by done. cbn [obind].
      destruct (inner_spec r it' rs E Hit He) as [Hnp' Hiff'].
      destruct (for_each _ _ _ _) as [[]|e| |]; try done; cbn [obind].
      * split; [done|]. rewrite Hiff. split; [intros H; constructor; [by apply Hiff'|done]|by inversion 1].
      * split; [done|]. split; [done|]. inversion 1; subst. by apply Hiff'.
Qed.

(** ** The whole block *)

(** [l] is a block of [rs], and anything after it. *)
Definition starts (l : list byte) (rs : list MemoryReservation) : Prop :=
  Forall listed rs /\ exists junk, l = block rs ++ junk.

Lemma read_entry (r : MemoryReservation) rd l :
  Reader.wf rd -> is_u64 (address r) -> is_u64 (size r) -> Reader.rest rd = entry_bytes r ++ l ->
  Reader.read_u64 rd = (Ok (address r), Reader.adv 8 rd) /\
  Reader.read_u64 (Reader.adv 8 rd) = (Ok (size r), Reader.adv 16 rd) /\
  Reader.wf (Reader.adv 16 rd) /\ Reader.rest (Reader.adv 16 rd) = l.
Proof.
  intros Hw Ha Hs Hr. destruct (take_entry r l) as (H1 & H2 & H3 & H4).
  pose proof (zlen_nonneg l). assert (zlen (Reader.rest rd) = 16 + zlen l) as Hlen
    by (by rewrite Hr, zlen_app, zlen_entry).
  rewrite Reader.read_u64_eq, Hlen by done. replace (8 <=? _) with true by lia.
  rewrite Hr, H1, be_val_u64 by done. split; [done|].
  assert (Reader.wf (Reader.adv 8 rd)) by (apply Reader.adv_wf; [done|lia]).
  rewrite Reader.read_u64_eq by done. rewrite Reader.rest_adv, Hr, H2 by (done || lia).
  rewrite zlen_app, zlen_value. replace (8 <=? _) with true by lia.
  rewrite H3, be_val_u64, Reader.adv_adv by done. split; [done|].
  split; [apply Reader.adv_wf; [done|lia]|].
  replace 16 with (8 + 8) by done. rewrite <- Reader.adv_adv, Reader.rest_adv by (done || lia).
  by rewrite Reader.rest_adv, Hr, H2, H4 by (done || lia).
Qed.

Lemma starts_short l rs : zlen l < 16 -> ~ starts l rs.
Proof.
  intros Hl [_ (junk & ->)]. revert Hl. unfold block, terminator.
  rewrite !zlen_app, zlen_entry. pose proof (zlen_nonneg junk).
  pose proof (zlen_nonneg (concat (map entry_bytes rs))). lia.
Qed.

Lemma app_inv_len {A} (a b c d : list A) : zlen a = zlen c -> a ++ b = c ++ d -> a = c /\ b = d.
Proof. intros Hl H. apply app_inj_1 in H; [done|]. unfold zlen in Hl. lia. Qed.

(** An entry at the head is the first of the list. *)
Lemma starts_entry r l rs :
  is_u64 (address r) -> is_u64 (size r) -> starts (entry_bytes r ++ l) rs ->
  r = mkReservation 0 0 /\ rs = [] \/
  r <> mkReservation 0 0 /\ exists rs', rs = r :: rs' /\ starts l rs'.
Proof.
  intros Ha Hs [Hl (junk & He)].
  assert (forall q m, is_u64 (address q) -> is_u64 (size q) -> entry_bytes r ++ l = entry_bytes q ++ m ->
    r = q /\ l = m) as Hinj.
  { intros q m Hqa Hqs H. apply app_inv_len in H as [H ->]; [|by rewrite !zlen_entry].
    split; [|done]. unfold entry_bytes in H.
    apply app_inv_len in H as [H1 H2]; [|by rewrite !zlen_value].
    apply (f_equal be_val) in H1, H2. rewrite !be_val_u64 in H1, H2 by done.
    destruct r, q; cbn in *; congruence. }
  destruct rs as [|q rs].
  - left. apply (Hinj (mkReservation 0 0) junk) in He as [-> _]; [done| |]; unfold is_u64, u64_max; cbn; lia.
  - right. rewrite block_cons, <- app_assoc in He. apply Forall_cons_1 in Hl as [Hq Hl].
    apply Hinj in He as [-> ->]; [|apply Hq|apply Hq]. split; [apply Hq|].
    exists rs. split; [done|]. split; [done|]. by exists junk.
Qed.

Lemma find_end_spec fuel : forall rd,
  Reader.wf rd -> zlen (Reader.rest rd) < Z.of_nat fuel ->
  (exists rs rd', find_end fuel rd = (Ok (Reader.offset rd + zlen (block rs)), rd') /\
     starts (Reader.rest rd) rs /\ Forall ends rs) \/
  (exists e rd', find_end fuel rd = (Err e, rd')) /\
  (forall rs, starts (Reader.rest rd) rs -> ~ Forall ends rs).
Proof.
  induction fuel as [|fuel IH]; intros rd Hw Hfuel; [pose proof (zlen_nonneg (Reader.rest rd)); lia|].
  cbn [find_end]. destruct (Z_lt_le_dec (zlen (Reader.rest rd)) 16) as [Hlt|Hge].
  { right. split; [|intros rs H; by apply starts_short in H].
    pose proof (Reader.read_u64_eq rd Hw) as H1.
    destruct (8 <=? _) eqn:E; zbool.
    2:{ eexists _, _. apply bind_Err. unfold mmap_err. by rewrite H1. }
    rewrite (bind_Ok _ _ _ _ _ (f_equal (fun '(o, s) => (map_err Read o, s)) H1)).
    assert (Reader.wf (Reader.adv 8 rd)) as Hw8 by (apply Reader.adv_wf; [done|lia]).
    pose proof (Reader.read_u64_eq _ Hw8) as H2. rewrite Reader.rest_adv, zlen_zdrop in H2 by (done || lia).
    replace (8 <=? _) with false in H2 by lia.
    eexists _, _. apply bind_Err. unfold mmap_err. by rewrite H2. }
  destruct (split_block_entry _ Hge) as (r & Ha & Hs & Hl). set (l := zdrop 16 _) in *.
  destruct (read_entry r rd l Hw Ha Hs Hl) as (H1 & H2 & Hw' & Hl').
  rewrite (bind_Ok _ _ _ _ _ (f_equal (fun '(o, s) => (map_err Read o, s)) H1)).
  rewrite (bind_Ok _ _ _ _ _ (f_equal (fun '(o, s) => (map_err Read o, s)) H2)).
  pose proof (starts_entry r l) as Hinv. destruct (_ && _) eqn:E.
  - left. zbool. exists [], (Reader.adv 16 rd).
    rewrite (bind_Ok _ _ _ (Reader.adv 16 rd) (Reader.adv 16 rd)) by done. split; [done|].
    split; [|constructor]. split; [constructor|]. exists l. rewrite Hl. f_equal.
    destruct r; cbn in *; by subst.
  - assert (r <> mkReservation 0 0) as Hne by (intros ->; done).
    unfold reservation_end. destruct (checked_add u64_max (address r) (size r)) as [e|] eqn:Hc; cbn [ok_or].
    2:{ apply checked_add_None in Hc. right. split; [by eexists _, _|]. intros rs Hst Hends.
        rewrite Hl in Hst. apply Hinv in Hst as [[-> _]|(_ & rs' & -> & _)]; [done| |done|done].
        apply Forall_cons_1 in Hends as [Hr _]. unfold ends in Hr. lia. }
    apply checked_add_Some in Hc as [Hc ->].
    rewrite (bind_Ok _ _ _ (address r + size r) (Reader.adv 16 rd)) by done.
    destruct (IH (Reader.adv 16 rd) Hw') as [(rs & rd' & Hf & [Hls (junk & Hj)] & He)|[(e & rd' & He) Hno]].
    { rewrite Hl', Hl, zlen_app, zlen_entry in *. lia. }
    + left. exists (r :: rs), rd'. rewrite Hf, block_cons, zlen_app, zlen_entry. split.
      { f_equal. f_equal. cbn. lia. }
      split; [|by constructor]. split; [by constructor|]. exists junk.
      rewrite block_cons, <- app_assoc, Hl. congruence.
    + right. split; [by eexists _, _|]. intros rs Hst Hends. rewrite Hl in Hst.
      apply Hinv in Hst as [[-> _]|(_ & rs' & -> & Hst)]; [done| |done|done].
      apply Forall_cons_1 in Hends as [_ Hends]. eapply Hno; [|done]. by rewrite Hl'.
Qed.

(** A reservation block the parser accepts. *)
Definition block_ok (l : list byte) (rs : list MemoryReservation) : Prop :=
  starts l rs /\ Forall ends rs /\ ForallOrdPairs disjoint rs.

Lemma pairs_iff rs :
  Forall listed rs -> (ForallOrdPairs compatible rs <-> ForallOrdPairs disjoint rs).
Proof.
  intros Hl. assert (forall r s, In r rs -> In s rs -> compatible r s <-> disjoint r s) as Hrs.
  { rewrite List.Forall_forall in Hl. intros r s Hr Hs. apply compatible_disjoint.
    - destruct (Hl _ Hr) as (_ & [H _] & _). done.
    - destruct (Hl _ Hs) as (_ & [H _] & _). done. }
  clear Hl. induction rs as [|r rs IH]; [by split; constructor|].
  assert (forall a s, In a rs -> In s rs -> compatible a s <-> disjoint a s) as Hrs'
    by (intros; apply Hrs; by right).
  split; inversion 1 as [|? ? Hr Hp]; subst; constructor; try (by apply IH);
    rewrite List.Forall_forall in *; intros s Hs; apply (Hrs r s); auto using in_eq, in_cons.
Qed.

Lemma starts_fun l rs rs' : starts l rs -> starts l rs' -> rs = rs'.
Proof.
  revert l rs'. induction rs as [|r rs IH]; intros l rs' [Hl (junk & ->)] H.
  - unfold block in H. cbn [map concat app] in H.
    apply starts_entry in H as [[_ ->]|[H _]]; [done|done| |]; unfold is_u64, u64_max; cbn; lia.
  - rewrite block_cons, <- app_assoc in H. apply Forall_cons_1 in Hl as [(Ha & Hs & Hn) Hl].
    apply starts_entry in H as [[H _]|(_ & rs2 & -> & H)]; [done| |done|done].
    f_equal. eapply IH; [|done]. split; [done|]. by exists junk.
Qed.

Lemma reservations_new_spec l :
  zlen l <= isize_max ->
  (exists rs, new l = Ok (mk (block rs)) /\ block_ok l rs) \/
  (exists e, new l = Err e) /\ (forall rs, ~ block_ok l rs).
Proof.
  intros Hl. unfold new.
  destruct (find_end_spec (S (length l)) (Reader.new l) (Reader.new_wf _ Hl)) as
    [(rs & rd' & Hf & [Hls (junk & Hj)] & He)|[(e & rd' & He) Hno]].
  { change (Reader.rest (Reader.new l)) with l. unfold zlen. lia. }
  2:{ right. rewrite He. split; [by eexists|]. intros rs (Hst & Hends & _). by eapply Hno. }
  change (Reader.rest (Reader.new l)) with l in *. rewrite Hf. cbn [fst obind].
  change (Reader.offset (Reader.new l)) with 0. rewrite Z.add_0_l.
  pose proof (zlen_nonneg (block rs)). pose proof (zlen_nonneg junk).
  assert (zslice l 0 (zlen (block rs)) = Some (block rs)) as ->.
  { rewrite Hj, zslice_ok by (try rewrite zlen_app; lia).
    by rewrite Z.sub_0_r, zdrop_0, ztake_app_exact. }
  cbn [expect_some obind]. unfold validate_no_overlaps. cbn [bytes].
  destruct (overlap_loop_spec rs (S (length (block rs))) (iter (mk (block rs)))) as [Hnp Hiff].
  { by split. } { done. } { pose proof (block_length rs). lia. }
  assert (starts l rs) as Hst by (split; [done|by exists junk]).
  rewrite pairs_iff in Hiff by done.
  destruct (overlap_loop _ _) as [[]|e| |]; try done; cbn [obind].
  - left. exists rs. split; [done|]. split; [done|]. split; [done|]. by apply Hiff.
  - right. split; [by eexists|]. intros rs' (Hst' & _ & Hd).
    rewrite (starts_fun _ _ _ Hst' Hst) in Hd. by apply Hiff in Hd.
Qed.

End Reservations.
