(* ===== verification/Fdt.v ===== *)
(** * The validated blob ([fdt/src/fdt.rs], [fdt/src/error.rs])

    [from_ptr] against an abstract description of a devicetree in memory:
    [describes].  Memory is a function from addresses to bytes, which is what
    the safety contract of [from_ptr] gives: the declared bytes are readable
    and do not change. *)

From Stdlib Require Import ZArith Lia Bool.
From Stdlib Require Import Strings.Byte Strings.String.
From stdpp Require Import base list numbers.
From S2P Require Import Prelude FdtReader FdtHeader FdtStrings FdtStructure FdtTree FdtPass.
From S2P Require Import FdtView FdtViewProofs FdtAddressing FdtRegRange FdtMemory FdtReserved.
From S2P Require Import FdtSemantic FdtReservation.
Local Open Scope Z_scope.

(** The target is 64 bits wide: [TooLarge] does not exist there. *)
Inductive BlobError :=
| NullPointer
| Misaligned (address required_alignment : Z)
| AddressRangeOverflow (address size : Z).

#[export] Instance blob_error_eq_decision : EqDecision BlobError.
Proof. solve_decision. Defined.

Inductive Error :=
| EBlob (e : BlobError)
| EHeader (e : HeaderError)
| EStructure (e : StructureError)
| EReservation (e : Reservations.ReservationError).

#[export] Instance error_eq_decision : EqDecision Error.
Proof. solve_decision. Defined.

Module Fdt.

Record t := mk {
  header : Header.t;
  structure : Structure.t;
  strings : Strings.t;
  reservations : Reservations.t;
}.

(** [slice::from_raw_parts], and the read of the header array. *)
Definition read_memory (mem : Z -> byte) (address n : Z) : list byte :=
  map (fun i => mem (address + Z.of_nat i)) (seq 0 (Z.to_nat n)).

(** [&bytes[start..end]]: panics outside the slice. *)
Definition index_range {E} (bytes : list byte) (r : range) : outcome E (list byte) :=
  expect_some (zslice bytes (r_start r) (r_end r)).

(** One iteration of the loop that bounds the reservation block. *)
Definition limit_by (reservation_start limit : Z) (r : range) : Z :=
  if reservation_start <? r_start r then Z.min limit (r_start r) else limit.

Definition from_ptr (mem : Z -> byte) (ptr : Z) : outcome Error t :=
  if ptr =? 0 then Err (EBlob NullPointer)
  else
    let address := ptr in
    if negb (address mod 8 =? 0) then Err (EBlob (Misaligned address 8))
    else
      let header_bytes := read_memory mem ptr HEADER_SIZE in
      let? header := map_err EHeader (Header.new header_bytes) in
      let total_size := Header.total_size header in
      let? _ := ok_or (checked_add usize_max address total_size)
                      (EBlob (AddressRangeOverflow address total_size)) in
      let bytes := read_memory mem ptr total_size in
      let? strings_bytes := index_range bytes (Header.strings_range header) in
      let? structure_bytes := index_range bytes (Header.structure_range header) in
      let strings := Strings.new strings_bytes in
      let? structure := map_err EStructure (Structure.new structure_bytes strings) in
      let? _ := map_err EStructure (validate_semantics structure strings) in
      let reservation_start := Header.reservation_offset header in
      let reservation_limit :=
        fold_left (limit_by reservation_start)
          [Header.structure_range header; Header.strings_range header] total_size in
      let? reservation_bytes :=
        index_range bytes (mkRange reservation_start reservation_limit) in
      let? reservations := map_err EReservation (Reservations.new reservation_bytes) in
      Ok (mk header structure strings reservations).

Definition root (f : t) : outcome never View.Node := View.root (structure f) (strings f).

Definition memory_ranges (f : t) : outcome never Memory.t :=
  let? root := root f in Memory.new root.

Definition memory_reservations (f : t) : Reservations.Iter.t := Reservations.iter (reservations f).

Definition reserved_memory_ranges (f : t) : outcome never Reserved.t :=
  let? root := root f in Reserved.new root.

Definition total_size (f : t) : Z := Header.total_size (header f).

(** ** What a blob in memory describes *)

Definition cut (bytes : list byte) (r : range) : list byte :=
  ztake (r_end r - r_start r) (zdrop (r_start r) bytes).

(** The candidate extent of the reservation block: up to the next block. *)
Definition reservation_range (h : Header.t) : range :=
  mkRange (Header.off_mem_rsvmap h)
    (fold_left (limit_by (Header.off_mem_rsvmap h))
       [Header.structure_range h; Header.strings_range h] (Header.total_size h)).

(** The bytes at [ptr] are a devicetree blob with header [h] that encodes the
    tree [tr] and lists the reservations [rs]. *)
Record describes (mem : Z -> byte) (ptr : Z) (h : Header.t) (tr : tree)
    (rs : list Reservations.MemoryReservation) : Prop := {
  d_aligned : ptr <> 0 /\ ptr mod 8 = 0;
  d_header : Header.valid (read_memory mem ptr HEADER_SIZE) h;
  d_end : ptr + Header.total_size h <= usize_max;
  d_tree : let blob := read_memory mem ptr (Header.total_size h) in
    encodes (Strings.new (cut blob (Header.strings_range h)))
            (cut blob (Header.structure_range h)) tr;
  d_semantics : let blob := read_memory mem ptr (Header.total_size h) in
    semantics_ok (Strings.new (cut blob (Header.strings_range h))) tr;
  d_reservations : let blob := read_memory mem ptr (Header.total_size h) in
    Reservations.block_ok (cut blob (reservation_range h)) rs;
}.

(** The value [from_ptr] builds for it. *)
Definition built (mem : Z -> byte) (ptr : Z) (h : Header.t)
    (rs : list Reservations.MemoryReservation) : t :=
  let blob := read_memory mem ptr (Header.total_size h) in
  mk h (Structure.mk (cut blob (Header.structure_range h)))
    (Strings.new (cut blob (Header.strings_range h)))
    (Reservations.mk (Reservations.block rs)).

Lemma zlen_read_memory mem a n : 0 <= n -> zlen (read_memory mem a n) = n.
Proof. intros. unfold zlen, read_memory. rewrite length_map, length_seq. lia. Qed.

Lemma index_range_Ok {E} bytes r :
  0 <= r_start r <= r_end r -> r_end r <= zlen bytes ->
  index_range (E:=E) bytes r = Ok (cut bytes r) /\ zlen (cut bytes r) = r_end r - r_start r.
Proof.
  intros. unfold index_range, cut. rewrite zslice_ok by lia. split; [done|].
  rewrite zlen_ztake; [done|]. rewrite zlen_zdrop by lia. lia.
Qed.

Lemma limit_bounds start limit r total :
  start <= limit <= total -> start <= limit_by start limit r <= total.
Proof. unfold limit_by. intros. split_if; zbool; lia. Qed.

Section layout.
Context (mem : Z -> byte) (ptr : Z) (h : Header.t).
Context (Hvalid : Header.valid (read_memory mem ptr HEADER_SIZE) h).
Let blob := read_memory mem ptr (Header.total_size h).

Lemma total_u32 : HEADER_SIZE <= Header.total_size h <= u32_max.
Proof.
  split; [apply Hvalid|]. destruct Hvalid as [_ -> _].
  apply Header.field_range. by apply zlen_read_memory.
Qed.

Lemma blob_len : zlen blob = Header.total_size h.
Proof. apply zlen_read_memory. pose proof total_u32. unfold HEADER_SIZE in *. lia. Qed.

Lemma cut_within r :
  Header.range_within r (Header.total_size h) ->
  (forall E, index_range (E:=E) blob r = Ok (cut blob r)) /\ zlen (cut blob r) <= isize_max.
Proof.
  intros [H1 H2]. pose proof total_u32. unfold HEADER_SIZE, u32_max in *. split.
  - intros E. apply index_range_Ok; [lia|]. rewrite blob_len. lia.
  - destruct (index_range_Ok (E:=never) blob r) as [_ ->]; [lia|rewrite blob_len; lia|].
    unfold isize_max. lia.
Qed.

Lemma cut_reservation :
  (forall E, index_range (E:=E) blob (reservation_range h) = Ok (cut blob (reservation_range h))) /\
  zlen (cut blob (reservation_range h)) <= isize_max.
Proof.
  pose proof total_u32. pose proof (Header.v_rsv_in _ _ Hvalid) as Hin.
  unfold reservation_range. cbn [fold_left].
  set (start := Header.off_mem_rsvmap h) in *. unfold HEADER_SIZE, u32_max in *.
  assert (start <= limit_by start (limit_by start (Header.total_size h) (Header.structure_range h))
    (Header.strings_range h) <= Header.total_size h) as Hl.
  { apply limit_bounds. apply limit_bounds. lia. }
  set (limit := limit_by _ _ _) in *. split.
  - intros E. apply index_range_Ok; cbn [r_start r_end]; [lia|]. rewrite blob_len. lia.
  - destruct (index_range_Ok (E:=never) blob (mkRange start limit)) as [_ ->]; cbn [r_start r_end];
      [lia|rewrite blob_len; lia|]. unfold isize_max. lia.
Qed.

End layout.

(** [from_ptr] succeeds exactly on the described blobs, and fails with an
    error, never a panic, on everything else. *)
Lemma from_ptr_spec mem ptr :
  (exists h tr rs, from_ptr mem ptr = Ok (built mem ptr h rs) /\ describes mem ptr h tr rs) \/
  (exists e, from_ptr mem ptr = Err e) /\ (forall h tr rs, ~ describes mem ptr h tr rs).
Proof.
  unfold from_ptr. destruct (ptr =? 0) eqn:E0; zbool.
  { right. split; [by eexists|]. intros h tr rs [[] _ _ _ _ _]. done. }
  destruct (ptr mod 8 =? 0) eqn:E8; cbn [negb]; zbool.
  2:{ right. split; [by eexists|]. intros h tr rs [[] _ _ _ _ _]. done. }
  assert (zlen (read_memory mem ptr HEADER_SIZE) = HEADER_SIZE) as Hhl by (by apply zlen_read_memory).
  pose proof (Header.new_no_panic _ Hhl) as Hnp.
  destruct (Header.new _) as [h|e| |] eqn:Hh; try done; cbn [map_err obind].
  2:{ right. split; [by eexists|]. intros h tr rs [_ Hv _ _ _ _].
      apply (Header.new_ok_iff _ _ Hhl) in Hv. congruence. }
  apply (Header.new_ok_iff _ _ Hhl) in Hh as Hv.
  assert (forall h' tr rs, describes mem ptr h' tr rs -> h' = h) as Hfun.
  { intros h' tr rs [_ Hv' _ _ _ _]. apply (Header.new_ok_iff _ _ Hhl) in Hv'. congruence. }
  destruct (checked_add usize_max ptr (Header.total_size h)) as [end_|] eqn:He; cbn [ok_or obind].
  2:{ right. split; [by eexists|]. intros h' tr rs Hd. pose proof (Hfun _ _ _ Hd) as ->.
      apply checked_add_None in He. destruct Hd. lia. }
  apply checked_add_Some in He as [He _].
  set (blob := read_memory mem ptr (Header.total_size h)).
  destruct (cut_within mem ptr h Hv _ (Header.v_strings_in _ _ Hv)) as [Hg Hgl].
  destruct (cut_within mem ptr h Hv _ (Header.v_structure_in _ _ Hv)) as [Hs Hsl].
  fold blob in Hg, Hs, Hgl, Hsl. rewrite Hg, Hs. cbn [obind].
  set (sb := cut blob (Header.structure_range h)) in *.
  set (st := Strings.new (cut blob (Header.strings_range h))) in *.
  destruct (new_spec sb st Hsl Hgl) as [[Hnew (tr & Henc)]|[(e & Hnew) Hno]].
  2:{ right. rewrite Hnew. split; [by eexists|]. intros h' tr rs Hd.
      pose proof (Hfun _ _ _ Hd) as ->. by apply (Hno tr), Hd. }
  rewrite Hnew. cbn [map_err obind].
  destruct (validate_semantics_spec sb st tr Hsl Henc) as [Hnp' Hiff].
  assert (forall t', encodes st sb t' -> semantics_ok st t' -> validate_semantics (Structure.mk sb) st = Ok tt)
    as Hsem.
  { intros t' Ht' Hs'. by apply (validate_semantics_spec sb st t' Hsl Ht'). }
  destruct (validate_semantics (Structure.mk sb) st) as [[]|e| |]; try done; cbn [map_err obind].
  2:{ right. split; [by eexists|]. intros h' t' rs Hd. pose proof (Hfun _ _ _ Hd) as ->.
      by specialize (Hsem t' (d_tree _ _ _ _ _ Hd) (d_semantics _ _ _ _ _ Hd)). }
  destruct (cut_reservation mem ptr h Hv) as [Hr Hrl]. fold blob in Hr, Hrl.
  change (mkRange _ _) with (reservation_range h). rewrite Hr. cbn [obind].
  destruct (Reservations.reservations_new_spec _ Hrl) as [(rs & Hrn & Hrb)|[(e & Hrn) Hno]].
  2:{ right. rewrite Hrn. split; [by eexists|]. intros h' t' rs Hd.
      pose proof (Hfun _ _ _ Hd) as ->. by apply (Hno rs), Hd. }
  left. rewrite Hrn. exists h, tr, rs. split; [done|]. split; try done. by apply Hiff.
Qed.

(** ** The accessors of a described blob *)

Section accessors.
Context (mem : Z -> byte) (ptr : Z) (h : Header.t) (tr : tree)
  (rs : list Reservations.MemoryReservation).
Context (Hd : describes mem ptr h tr rs).
Let f := built mem ptr h rs.

Lemma root_shows : exists n, root f = Ok n /\ shows (strings f) n tr.
Proof.
  apply root_spec; [|apply Hd].
  apply (cut_within mem ptr h (d_header _ _ _ _ _ Hd)), (Header.v_structure_in _ _ (d_header _ _ _ _ _ Hd)).
Qed.

Lemma memory_ranges_yield :
  exists s, memory_ranges f = Ok s /\ yields Memory.next eq s (Memory.memory_ranges (strings f) tr).
Proof.
  destruct root_shows as (n & Hroot & Hrep & Hst). unfold memory_ranges. rewrite Hroot. cbn [obind].
  pose proof (d_semantics _ _ _ _ _ Hd) as Hsem. cbn zeta in Hsem.
  change (Strings.new _) with (strings f) in Hsem. rewrite <- Hst in *.
  destruct (Memory.memory_new_spec n tr Hrep (sem_addressing _ _ Hsem) (sem_memory _ _ Hsem)) as
    (s & ly & Hs & Hly & Hat).
  exists s. split; [done|]. pose proof (Memory.memory_iterates (View.strings n) ly Hly).
  by apply (iterates_yields _ _ (Memory.memory_at (View.strings n) ly)).
Qed.

Lemma reserved_ranges_yield :
  exists s, reserved_memory_ranges f = Ok s /\
    yields Reserved.next eq s (Reserved.reserved_ranges (strings f) tr).
Proof.
  destruct root_shows as (n & Hroot & Hrep & Hst). unfold reserved_memory_ranges. rewrite Hroot.
  cbn [obind]. pose proof (d_semantics _ _ _ _ _ Hd) as Hsem. cbn zeta in Hsem.
  change (Strings.new _) with (strings f) in Hsem. rewrite <- Hst in *.
  apply Reserved.reserved_new_spec; [done|apply Hsem|apply Hsem].
Qed.

Lemma reservations_yield :
  yields Reservations.Iter.next eq (memory_reservations f) rs.
Proof.
  pose proof Reservations.iter_iterates as Hit.
  apply (iterates_yields _ _ Reservations.iter_at). split; [done|].
  apply (d_reservations _ _ _ _ _ Hd).
Qed.

End accessors.

End Fdt.
