(* ===== verification/FdtEncode.v ===== *)
(** * Writing a structure block

    The inverse of the grammar of [FdtLex]: an encoder for items and trees,
    and a complete blob with header, reservation block, structure block and
    strings block.  Reading back what it writes gives the same items, so every
    well-formed tree has a block, and a block encodes at most one tree.
    A sample blob serves the instances of the theorems. *)

From Stdlib Require Import ZArith Lia Bool.
From Stdlib Require Import Strings.Byte Strings.String.
From stdpp Require Import base list numbers.
From S2P Require Import Prelude FdtReader FdtHeader FdtStrings FdtStructure FdtLex FdtTree.
From S2P Require Import FdtPass FdtReservation Fdt.
Local Open Scope Z_scope.

Definition word (z : Z) : list byte := be_bytes 4 z.

Definition padded (l : list byte) : list byte := l ++ repeat x00 (Z.to_nat (Reader.pad (zlen l))).

Definition item_bytes (it : item) : list byte :=
  match it with
  | IBegin n => word 1 ++ padded (n ++ [x00])
  | IEnd => word 2
  | IProp off v => word 3 ++ word (zlen v) ++ word off ++ padded v
  | INop => word 4
  | IFinish => word 9
  end.

Definition items_bytes (its : list item) : list byte := concat (map item_bytes its).

Definition encode (t : tree) : list byte := items_bytes (flat t ++ [IFinish]).

(** What the format can hold. *)
Definition item_ok (it : item) : Prop :=
  match it with
  | IBegin n => forallb (fun b => negb (u8 b =? 0)) n = true
  | IProp off v => is_u32 off /\ is_u32 (zlen v)
  | _ => True
  end.

Lemma zlen_word z : zlen (word z) = 4.
Proof. unfold zlen, word. by rewrite length_be_bytes. Qed.

Lemma take_word z l : ztake 4 (word z ++ l) = word z /\ zdrop 4 (word z ++ l) = l.
Proof. rewrite <- (zlen_word z). split; [apply ztake_app_exact|apply zdrop_app_exact]. Qed.

Lemma be_val_word z : is_u32 z -> be_val (word z) = z.
Proof.
  intros H. unfold word. rewrite be_val_be_bytes. apply Z.mod_small.
  unfold is_u32, u32_max in H. change (256 ^ Z.of_nat 4) with (2 ^ 32). lia.
Qed.

Lemma zlen_padded l : zlen (padded l) = zlen l + Reader.pad (zlen l).
Proof.
  unfold padded. rewrite zlen_app. unfold zlen at 2. rewrite repeat_length.
  pose proof (Reader.pad_range (zlen l)). lia.
Qed.

Lemma take_padded l k :
  zdrop (zlen l + Reader.pad (zlen l)) (padded l ++ k) = k /\ ztake (zlen l) (padded l ++ k) = l.
Proof.
  split; [rewrite <- zlen_padded; apply zdrop_app_exact|].
  unfold padded. rewrite <- app_assoc. apply ztake_app_exact.
Qed.

Lemma lex_token_word t l :
  lex_token (word (Token_value t) ++ l) = Some (t, l).
Proof.
  unfold lex_token. rewrite zlen_app, zlen_word. pose proof (zlen_nonneg l).
  replace (4 <=? 4 + zlen l) with true by lia. destruct (take_word (Token_value t) l) as [-> ->].
  by destruct t.
Qed.

Lemma lex_name_padded n l :
  forallb (fun b => negb (u8 b =? 0)) n = true -> lex_name (padded (n ++ [x00]) ++ l) = Some (n, l).
Proof.
  intros Hn. unfold lex_name.
  assert (Reader.cstr (padded (n ++ [x00]) ++ l) = Some n) as ->.
  { apply Reader.cstr_Some. unfold padded. eexists. split; [|done].
    rewrite <- !app_assoc. reflexivity. }
  replace (zlen n + 1) with (zlen (n ++ [x00])) by (rewrite zlen_app; done).
  destruct (take_padded (n ++ [x00]) l) as [-> _]. rewrite (zlen_app (padded _)), zlen_padded.
  pose proof (zlen_nonneg l). by replace (_ <=? _) with true by lia.
Qed.

Lemma lex_prop_padded off v l :
  is_u32 off -> is_u32 (zlen v) ->
  lex_prop (word (zlen v) ++ word off ++ padded v ++ l) = Some (off, v, l).
Proof.
  intros Ho Hv. unfold lex_prop. pose proof (zlen_nonneg (padded v ++ l)).
  rewrite !(zlen_app (word _)), !zlen_word. replace (8 <=? _) with true by lia.
  destruct (take_word (zlen v) (word off ++ padded v ++ l)) as [-> ->].
  destruct (take_word off (padded v ++ l)) as [-> Hd].
  replace (zdrop 8 _) with (padded v ++ l) by reflexivity.
  rewrite !be_val_word by done. destruct (take_padded v l) as [-> ->].
  rewrite (zlen_app (padded _)), zlen_padded. pose proof (zlen_nonneg l). by replace (_ <=? _) with true by lia.
Qed.

Lemma lex_item_bytes it l : item_ok it -> lex (item_bytes it ++ l) = Some (it, l).
Proof.
  intros Hok. unfold lex. destruct it as [n| |off v| |]; cbn [item_bytes]; rewrite <- ?app_assoc.
  - rewrite (lex_token_word BeginNode). by rewrite lex_name_padded.
  - by rewrite (lex_token_word EndNode).
  - rewrite (lex_token_word FdtStructure.Property). destruct Hok. by rewrite lex_prop_padded.
  - by rewrite (lex_token_word Nop).
  - by rewrite (lex_token_word End_).
Qed.

Lemma lexes_items its l : Forall item_ok its -> lexes (items_bytes its ++ l) its l.
Proof.
  induction 1 as [|it its Hit _ IH]; [constructor|]. unfold items_bytes. cbn [map concat].
  rewrite <- app_assoc. econstructor; [by apply lex_item_bytes|exact IH].
Qed.

Lemma encode_encodes strings t :
  tree_name t = [] -> wf_tree strings t -> Forall item_ok (flat t) -> encodes strings (encode t) t.
Proof.
  intros Hn Hwf Hok. split; [|done]. exists (flat t). split.
  - rewrite <- (app_nil_r (encode t)). apply lexes_items. rewrite Forall_app. by repeat constructor.
  - clear. induction t as [n ps ks IH] using tree_ind'. cbn [flat].
    rewrite denop_cons by done. f_equal. rewrite !denop_app. f_equal.
    { induction ps as [|p ps IHp]; [done|]. cbn [map]. by rewrite denop_cons, IHp. }
    f_equal. induction IH as [|k ks Hk _ IHk]; [done|]. cbn [map concat].
    by rewrite denop_app, Hk, IHk.
Qed.

(** A block encodes at most one tree. *)
Lemma lexes_end l its1 its2 :
  lexes l (its1 ++ [IFinish]) [] -> lexes l (its2 ++ [IFinish]) [] -> its1 = its2.
Proof.
  assert (forall l its1, lexes l its1 [] -> forall its2, lexes l its2 [] -> its1 = its2) as H.
  { clear. intros l its1 H. remember (@nil byte) as e eqn:He.
    induction H as [l|l it l1 its l' Hl H IH]; subst; intros its2 H2.
    - inversion H2 as [|? ? ? ? ? Hl]; [done|]. subst. apply lex_shorter in Hl.
      pose proof (zlen_nonneg l1). change (zlen (@nil byte)) with 0 in Hl. lia.
    - inversion H2 as [|? it2 l2 its' ? Hl2 H2']; subst.
      + apply lex_shorter in Hl. pose proof (zlen_nonneg l1).
        change (zlen (@nil byte)) with 0 in Hl. lia.
      + assert (it2 = it) as -> by congruence. assert (l2 = l1) as -> by congruence.
        f_equal. by apply IH. }
  intros H1 H2. specialize (H _ _ H1 _ H2). by apply app_inj_tail in H as [-> _].
Qed.

Lemma encodes_fun strings l t1 t2 : encodes strings l t1 -> encodes strings l t2 -> t1 = t2.
Proof.
  intros ((its1 & H1 & Hd1) & Hn1 & Hw1) ((its2 & H2 & Hd2) & Hn2 & Hw2).
  rewrite (lexes_end _ _ _ H1 H2) in Hd1. rewrite Hd1 in Hd2. clear its1 its2 H1 H2 Hd1.
  rewrite !flat_body in Hd2. injection Hd2 as _ Hb.
  pose proof (run_body strings t1 Hw1) as R1. pose proof (run_body strings t2 Hw2) as R2.
  rewrite Hn1 in R1. rewrite Hn2 in R2. rewrite Hb in R1. congruence.
Qed.

(** ** A whole blob *)

(** Header, reservation block, structure block and strings block, one after
    the other. *)
Definition blob_of (reservations structure strings : list byte) : list byte :=
  let rsv := HEADER_SIZE in
  let str := rsv + zlen reservations in
  let nam := str + zlen structure in
  let total := nam + zlen strings in
  word FDT_MAGIC ++ word total ++ word str ++ word nam ++ word rsv ++
  word SUPPORTED_VERSION ++ word EXPECTED_LAST_COMPATIBLE_VERSION ++ word 0 ++
  word (zlen strings) ++ word (zlen structure) ++
  reservations ++ structure ++ strings.

(** A memory that holds [bytes] at [base]. *)
Definition memory_at (base : Z) (bytes : list byte) (address : Z) : byte :=
  match zget bytes (address - base) with Some b => b | None => x00 end.

(** ** A sample devicetree

    The tree of a small board and the blob that encodes it, for evaluating
    the definitions on concrete input. *)

Definition cstring (s : string) : list byte := bs s ++ [x00].

Definition sample_names : list byte :=
  cstring "reg" ++ cstring "device_type" ++ cstring "#address-cells" ++ cstring "#size-cells" ++
  cstring "ranges".

Definition sample_strings : Strings.t := Strings.new sample_names.

Definition cells_prop (off : Z) (cells : list Z) : prop := mkProp off (concat (map word cells)).

Definition sample_cpus : tree := Node (bs "cpus") [] [].

Definition sample_memory : tree :=
  Node (bs "memory@80000000")
    [mkProp 4 (cstring "memory"); cells_prop 0 [0; 0x80000000; 0x8000000]] [].

Definition sample_reserved : tree :=
  Node (bs "reserved-memory") [cells_prop 16 [2]; cells_prop 31 [1]; mkProp 43 []]
    [Node (bs "firmware@80000000") [cells_prop 0 [0; 0x80000000; 0x200000]] []].

Definition sample_tree : tree :=
  Node [] [cells_prop 16 [2]; cells_prop 31 [1]] [sample_cpus; sample_memory; sample_reserved].

Definition sample_structure : list byte := encode sample_tree.

Definition sample_reservations : list Reservations.MemoryReservation :=
  [Reservations.mkReservation 0x87000000 0x1000; Reservations.mkReservation 0x87800000 0x2000].

Definition sample_blob : list byte :=
  blob_of (Reservations.block sample_reservations) sample_structure sample_names.

Definition sample_base : Z := 0x82000000.
Definition sample_memory_at : Z -> byte := memory_at sample_base sample_blob.

Definition sample_fdt : outcome Error Fdt.t := Fdt.from_ptr sample_memory_at sample_base.

Definition is_ok {E A} (o : outcome E A) : bool := match o with Ok _ => true | _ => false end.

Example sample_accepted : is_ok sample_fdt = true.
Proof. vm_compute. reflexivity. Qed.
