(* ===== verification/FdtProperties.v ===== *)
(** * What the devicetree crate guarantees

    The theorems about the [fdt] crate, each with an instance on the sample
    blob of [FdtEncode] where it has hypotheses. *)

From Stdlib Require Import ZArith Lia Bool.
From Stdlib Require Import Strings.Byte Strings.String.
From stdpp Require Import base list numbers.
From S2P Require Import Prelude FdtReader FdtHeader FdtStrings FdtNames FdtStructure FdtLex.
From S2P Require Import FdtTree FdtScan FdtPass FdtView FdtViewProofs FdtAddressing FdtRegRange.
From S2P Require Import FdtMemory FdtReserved FdtSemantic FdtReservation Fdt FdtEncode.
Local Open Scope Z_scope.

(** ** Sample values *)

Definition no_fdt : Fdt.t :=
  Fdt.mk (Header.mk 0 (mkRange 0 0) (mkRange 0 0) 0 0 0 0) (Structure.mk []) (Strings.mk [])
    (Reservations.mk []).

Definition sample_value : Fdt.t :=
  Eval vm_compute in (match sample_fdt with Ok f => f | _ => no_fdt end).

Definition sample_root : View.Node :=
  Eval vm_compute in
    (match View.root (Structure.mk sample_structure) sample_strings with
     | Ok n => n
     | _ => View.mkNode [] [] sample_strings
     end).

Lemma sample_wf : wf_tree sample_strings sample_tree.
Proof.
  assert (forall n ps ks,
    forallb (fun p => bool_decide (is_Some (prop_name sample_strings p))) ps = true ->
    bool_decide (NoDup (map (prop_name sample_strings) ps)) = true ->
    forallb (fun k => bool_decide (Name.validate (tree_name k) = Ok tt)) ks = true ->
    bool_decide (NoDup (map tree_name ks)) = true ->
    Forall (wf_tree sample_strings) ks -> wf_tree sample_strings (Node n ps ks)) as Hnode.
  { intros n ps ks H1 H2 H3 H4 H5.
    constructor; [|by apply bool_decide_eq_true in H2| |by apply bool_decide_eq_true in H4|done].
    - apply List.Forall_forall. intros p Hp. rewrite forallb_forall in H1.
      by apply H1, bool_decide_eq_true in Hp.
    - apply List.Forall_forall. intros k Hk. rewrite forallb_forall in H3.
      by apply H3, bool_decide_eq_true, Name.validate_Ok_iff in Hk. }
  repeat first [apply Hnode; [vm_compute; reflexivity..|]|apply List.Forall_cons|apply List.Forall_nil].
Qed.

Lemma sample_items_ok : Forall item_ok (flat sample_tree).
Proof. repeat constructor; vm_compute; congruence. Qed.

Lemma sample_encodes : encodes sample_strings sample_structure sample_tree.
Proof. apply encode_encodes; [done|apply sample_wf|apply sample_items_ok]. Qed.

Lemma sample_represents : represents sample_root sample_tree /\ View.strings sample_root = sample_strings.
Proof.
  destruct (root_spec sample_structure sample_strings sample_tree) as (n & Hn & H).
  - vm_compute. congruence.
  - apply sample_encodes.
  - enough (n = sample_root) by (by subst n).
    enough (Ok (E:=never) n = Ok sample_root) by congruence. rewrite <- Hn. vm_compute. reflexivity.
Qed.

(** ** The blob *)

(** C1: [Fdt::from_ptr] succeeds exactly when the bytes at the pointer are a
    devicetree blob with a valid header, a structure block that encodes a
    well-formed tree satisfying the semantic rules, and a reservation block of
    representable, pairwise disjoint regions; the value it returns holds
    exactly those blocks. *)
Theorem from_ptr_accepts_exactly mem ptr f :
  Fdt.from_ptr mem ptr = Ok f <->
  exists h tr rs, f = Fdt.built mem ptr h rs /\ Fdt.describes mem ptr h tr rs.
Proof.
  destruct (Fdt.from_ptr_spec mem ptr) as [(h & tr & rs & -> & Hd)|[(e & ->) Hno]].
  - split; [intros [= <-]; by exists h, tr, rs|]. intros (h' & tr' & rs' & -> & Hd').
    assert (h' = h) as ->.
    { pose proof (Fdt.zlen_read_memory mem ptr HEADER_SIZE ltac:(done)) as Hl.
      apply Fdt.d_header, (Header.new_ok_iff _ _ Hl) in Hd, Hd'. congruence. }
    assert (rs' = rs) as ->; [|done].
    eapply Reservations.starts_fun; [apply Hd'|apply Hd].
  - split; [done|]. intros (h & tr & rs & _ & Hd). by apply Hno in Hd.
Qed.

(** C2: On every memory content and pointer, [Fdt::from_ptr] returns a value
    or an error: no slice index, [expect] or arithmetic operation of the parser
    can panic, and every loop ends. *)
Theorem from_ptr_never_panics mem ptr : no_panic (Fdt.from_ptr mem ptr).
Proof.
  by destruct (Fdt.from_ptr_spec mem ptr) as [(h & tr & rs & -> & _)|[(e & ->) _]].
Qed.

(** C27: On an accepted blob, [Fdt::memory_ranges] does not panic and its
    iterator yields exactly the [reg] entries of the root's memory nodes, in
    order; there is at least one, each is nonempty and ends within [u64]. *)
Theorem memory_ranges_exact mem ptr f :
  Fdt.from_ptr mem ptr = Ok f ->
  exists tr s,
    encodes (Fdt.strings f) (Structure.bytes (Fdt.structure f)) tr /\
    Fdt.memory_ranges f = Ok s /\
    yields Memory.next eq s (Memory.memory_ranges (Fdt.strings f) tr) /\
    Memory.memory_ranges (Fdt.strings f) tr <> [] /\
    Forall RegRanges.range_ok (Memory.memory_ranges (Fdt.strings f) tr).
Proof.
  destruct (Fdt.from_ptr_spec mem ptr) as [(h & tr & rs & -> & Hd)|[(e & ->) _]]; [|done].
  intros [= <-]. destruct (Fdt.memory_ranges_yield _ _ _ _ _ Hd) as (s & Hs & Hy).
  pose proof (Fdt.d_semantics _ _ _ _ _ Hd) as Hsem. cbn zeta in Hsem.
  destruct (Fdt.root_shows _ _ _ _ _ Hd) as (n & _ & Hrep & Hst).
  exists tr, s. split; [apply Hd|]. split; [done|]. split; [done|]. rewrite <- Hst in *.
  change (Strings.new _) with (Fdt.strings (Fdt.built mem ptr h rs)) in Hsem. rewrite <- Hst in Hsem.
  destruct Hsem as [Hreq Haddr Hmem Hres].
  split; [by eapply Memory.memory_ranges_nonempty; [|done|done|apply Hreq]|].
  by apply Memory.memory_ranges_ok.
Qed.

Lemma memory_ranges_exact_witness :
  sample_fdt = Ok sample_value /\
  exists tr s,
    encodes (Fdt.strings sample_value) (Structure.bytes (Fdt.structure sample_value)) tr /\
    Fdt.memory_ranges sample_value = Ok s /\
    yields Memory.next eq s (Memory.memory_ranges (Fdt.strings sample_value) tr) /\
    Memory.memory_ranges (Fdt.strings sample_value) tr <> [] /\
    Forall RegRanges.range_ok (Memory.memory_ranges (Fdt.strings sample_value) tr).
Proof.
  split; [vm_compute; reflexivity|].
  apply (memory_ranges_exact sample_memory_at sample_base sample_value). vm_compute. reflexivity.
Defined.

(** C28: On an accepted blob, [Fdt::reserved_memory_ranges] does not panic and
    its iterator yields exactly the static ranges of the children of
    [/reserved-memory], in order, each nonempty with an end within [u64]. *)
Theorem reserved_memory_ranges_exact mem ptr f :
  Fdt.from_ptr mem ptr = Ok f ->
  exists tr s,
    encodes (Fdt.strings f) (Structure.bytes (Fdt.structure f)) tr /\
    Fdt.reserved_memory_ranges f = Ok s /\
    yields Reserved.next eq s (Reserved.reserved_ranges (Fdt.strings f) tr) /\
    Forall RegRanges.range_ok (Reserved.reserved_ranges (Fdt.strings f) tr).
Proof.
  destruct (Fdt.from_ptr_spec mem ptr) as [(h & tr & rs & -> & Hd)|[(e & ->) _]]; [|done].
  intros [= <-]. destruct (Fdt.reserved_ranges_yield _ _ _ _ _ Hd) as (s & Hs & Hy).
  pose proof (Fdt.d_semantics _ _ _ _ _ Hd) as Hsem. cbn zeta in Hsem.
  exists tr, s. split; [apply Hd|]. split; [done|]. split; [done|].
  apply Reserved.reserved_ranges_ok, Hsem.
Qed.

Lemma reserved_memory_ranges_exact_witness :
  sample_fdt = Ok sample_value /\
  exists tr s,
    encodes (Fdt.strings sample_value) (Structure.bytes (Fdt.structure sample_value)) tr /\
    Fdt.reserved_memory_ranges sample_value = Ok s /\
    yields Reserved.next eq s (Reserved.reserved_ranges (Fdt.strings sample_value) tr) /\
    Forall RegRanges.range_ok (Reserved.reserved_ranges (Fdt.strings sample_value) tr).
Proof.
  split; [vm_compute; reflexivity|].
  apply (reserved_memory_ranges_exact sample_memory_at sample_base sample_value).
  vm_compute. reflexivity.
Defined.

(** C29: On an accepted blob, [Fdt::memory_reservations] yields exactly the
    entries listed before the terminator of the reservation block; no two of
    them cover a common address and every end is representable. *)
Theorem memory_reservations_exact mem ptr f :
  Fdt.from_ptr mem ptr = Ok f ->
  exists rs,
    Reservations.bytes (Fdt.reservations f) = Reservations.block rs /\
    yields Reservations.Iter.next eq (Fdt.memory_reservations f) rs /\
    Forall Reservations.listed rs /\ Forall Reservations.ends rs /\
    ForallOrdPairs Reservations.disjoint rs.
Proof.
  destruct (Fdt.from_ptr_spec mem ptr) as [(h & tr & rs & -> & Hd)|[(e & ->) _]]; [|done].
  intros [= <-]. exists rs. split; [done|].
  split; [by eapply Fdt.reservations_yield|].
  destruct (Fdt.d_reservations _ _ _ _ _ Hd) as ([Hl _] & He & Hp). done.
Qed.

Lemma memory_reservations_exact_witness :
  sample_fdt = Ok sample_value /\
  exists rs,
    Reservations.bytes (Fdt.reservations sample_value) = Reservations.block rs /\
    yields Reservations.Iter.next eq (Fdt.memory_reservations sample_value) rs /\
    Forall Reservations.listed rs /\ Forall Reservations.ends rs /\
    ForallOrdPairs Reservations.disjoint rs.
Proof.
  split; [vm_compute; reflexivity|].
  apply (memory_reservations_exact sample_memory_at sample_base sample_value).
  vm_compute. reflexivity.
Defined.

(** ** The structure block *)

(** C14: The single validating pass over a structure block accepts exactly the
    byte strings that encode a well-formed tree: an empty root name, tokens
    balanced and padded, properties before children, valid names, no duplicate
    property of a node and no duplicate name among siblings. *)
Theorem structure_new_accepts_exactly blob strings s :
  zlen blob <= isize_max -> Strings.wf strings ->
  Structure.new blob strings = Ok s <-> s = Structure.mk blob /\ exists t, encodes strings blob t.
Proof.
  intros Hb Hs. destruct (new_spec blob strings Hb Hs) as [[-> (t & Ht)]|[(e & ->) Hno]].
  - split; [intros [= <-]; eauto|by intros [-> _]].
  - split; [done|]. intros [_ (t & Ht)]. by apply Hno in Ht.
Qed.

Lemma structure_new_accepts_exactly_witness :
  zlen sample_structure <= isize_max /\
  Structure.new sample_structure sample_strings = Ok (Structure.mk sample_structure).
Proof.
  split; [vm_compute; congruence|].
  apply (structure_new_accepts_exactly sample_structure sample_strings (Structure.mk sample_structure)).
  - vm_compute. congruence.
  - vm_compute. congruence.
  - split; [reflexivity|]. exists sample_tree. apply sample_encodes.
Defined.

(** The validating pass returns a value or an error on every input that
    fits a slice: the rescans for duplicates cannot reach their [expect] or
    [unreachable], the depth counter neither overflows nor underflows, and the
    loops end within a fuel of one more than the number of bytes. *)
Theorem structure_new_never_panics blob strings :
  zlen blob <= isize_max -> Strings.wf strings -> no_panic (Structure.new blob strings).
Proof.
  intros Hb Hs. by destruct (new_spec blob strings Hb Hs) as [[-> _]|[(e & ->) _]].
Qed.

Lemma structure_new_never_panics_witness :
  zlen sample_structure <= isize_max /\ no_panic (Structure.new sample_structure sample_strings).
Proof.
  split; [vm_compute; congruence|].
  apply (structure_new_never_panics sample_structure sample_strings); vm_compute; congruence.
Defined.

(** C32: Writing a well-formed tree and parsing it back: the encoded block is
    accepted, the root view shows that tree, and it is the only tree the block
    encodes. *)
Theorem structure_roundtrip strings t :
  tree_name t = [] -> wf_tree strings t -> Forall item_ok (flat t) ->
  zlen (encode t) <= isize_max -> Strings.wf strings ->
  Structure.new (encode t) strings = Ok (Structure.mk (encode t)) /\
  (exists n, View.root (Structure.mk (encode t)) strings = Ok n /\ shows strings n t) /\
  forall t', encodes strings (encode t) t' -> t' = t.
Proof.
  intros Hn Hwf Hok Hlen Hs. pose proof (encode_encodes strings t Hn Hwf Hok) as Henc. split; [|split].
  - destruct (new_spec _ strings Hlen Hs) as [[-> _]|[_ Hno]]; [done|by apply Hno in Henc].
  - by apply root_spec.
  - intros t' Ht'. by eapply encodes_fun.
Qed.

Lemma structure_roundtrip_witness :
  Structure.new (encode sample_tree) sample_strings = Ok (Structure.mk (encode sample_tree)) /\
  (exists n, View.root (Structure.mk (encode sample_tree)) sample_strings = Ok n /\
     shows sample_strings n sample_tree) /\
  forall t', encodes sample_strings (encode sample_tree) t' -> t' = sample_tree.
Proof.
  apply (structure_roundtrip sample_strings sample_tree).
  - reflexivity.
  - apply sample_wf.
  - apply sample_items_ok.
  - vm_compute. congruence.
  - vm_compute. congruence.
Defined.

(** ** Navigation *)

(** C33: On a node that shows a tree, [Node::children] yields the direct
    children in order, nested nodes skipped, and each yielded node shows the
    corresponding subtree; no call panics. *)
Theorem children_are_the_subtrees n t :
  represents n t ->
  yields View.Children.next (shows (View.strings n)) (View.children n) (tree_kids t).
Proof. apply node_children. Qed.

Lemma children_are_the_subtrees_witness :
  represents sample_root sample_tree /\
  yields View.Children.next (shows (View.strings sample_root)) (View.children sample_root)
    [sample_cpus; sample_memory; sample_reserved].
Proof.
  split; [apply sample_represents|].
  apply (children_are_the_subtrees sample_root sample_tree). apply sample_represents.
Defined.

(** C34: [Node::descendants] yields every node below the given one in
    depth-first pre-order, each showing its subtree. *)
Theorem descendants_are_preorder n t :
  represents n t ->
  yields View.Descendants.next (shows (View.strings n)) (View.descendants n)
    (concat (map preorder (tree_kids t))).
Proof. apply node_descendants. Qed.

Lemma descendants_are_preorder_witness :
  represents sample_root sample_tree /\
  yields View.Descendants.next (shows (View.strings sample_root)) (View.descendants sample_root)
    (concat (map preorder [sample_cpus; sample_memory; sample_reserved])).
Proof.
  split; [apply sample_represents|].
  apply (descendants_are_preorder sample_root sample_tree). apply sample_represents.
Defined.

(** C35: [Node::properties] yields the node's own properties in order with
    their resolved names and exact values, and [Node::property] finds the one
    with a given name, or nothing when the node has none. *)
Theorem properties_are_exact n t nm :
  represents n t ->
  yields View.Properties.next (shows_prop (View.strings n)) (View.properties n) (tree_props t) /\
  View.property n nm = Ok (View.mkProperty nm <$> tree_prop (View.strings n) t nm).
Proof. intros H. split; [by apply node_properties|by apply node_property]. Qed.

Lemma properties_are_exact_witness :
  represents sample_root sample_tree /\
  (yields View.Properties.next (shows_prop (View.strings sample_root)) (View.properties sample_root)
     (tree_props sample_tree) /\
   View.property sample_root (bs "#size-cells") = Ok (Some (View.mkProperty (bs "#size-cells") (word 1)))).
Proof.
  split; [apply sample_represents|].
  apply (properties_are_exact sample_root sample_tree (bs "#size-cells")).
  apply sample_represents.
Defined.

(** ** Semantics *)

(** C30: After structural validation, [validate_semantics] accepts exactly the
    trees that have the required nodes, well-formed cell counts, [reg] values
    that divide into entries, proper memory nodes and proper reserved memory;
    it never reaches an [expect]. *)
Theorem validate_semantics_exactly blob strings t :
  zlen blob <= isize_max -> encodes strings blob t ->
  no_panic (validate_semantics (Structure.mk blob) strings) /\
  (validate_semantics (Structure.mk blob) strings = Ok tt <-> semantics_ok strings t).
Proof. apply validate_semantics_spec. Qed.

Lemma validate_semantics_exactly_witness :
  encodes sample_strings sample_structure sample_tree /\ semantics_ok sample_strings sample_tree.
Proof.
  split; [apply sample_encodes|].
  apply (validate_semantics_exactly sample_structure sample_strings sample_tree).
  - vm_compute. congruence.
  - apply sample_encodes.
  - vm_compute. reflexivity.
Defined.

(** C37: The checked radix-2^32 fold over cells computes the big-endian value
    of its bytes when they are whole cells and the value fits [u64], and
    reports failure otherwise; overflow of an intermediate value is not
    reported for a value that fits. *)
Theorem decode_cells_exact bytes :
  RegRanges.decode_cells_u64 bytes =
    if (zlen bytes mod 4 =? 0) && (be_val bytes <=? u64_max) then Some (be_val bytes) else None.
Proof. apply RegRanges.decode_cells_u64_eq. Qed.

(** For a layout made from nonzero cell counts and a [reg] value that
    divides into entries, validation accepts exactly the nonempty values whose
    entries are nonempty ranges ending within [u64], and iterating an accepted
    value yields exactly those entries without a panic. *)
Theorem reg_validate_exactly layout bytes :
  RegRanges.layout_ok layout -> zlen bytes mod Addressing.entry_size layout = 0 ->
  no_panic (RegRanges.validate bytes layout) /\
  (RegRanges.validate bytes layout = Ok tt <->
   bytes <> [] /\ Forall RegRanges.range_ok (RegRanges.ranges_of layout bytes)) /\
  (RegRanges.validate bytes layout = Ok tt ->
   yields RegRanges.next eq (RegRanges.new bytes layout) (RegRanges.ranges_of layout bytes)).
Proof.
  intros Hly Hm. split; [by apply RegRanges.reg_validate_no_panic|].
  pose proof (RegRanges.validate_Ok layout Hly bytes Hm) as Hiff. split; [done|].
  intros [_ Hr]%Hiff. pose proof (RegRanges.ranges_iterates layout Hly).
  by apply (iterates_yields _ _ (RegRanges.ranges_at layout)).
Qed.

Definition sample_layout : Addressing.RegLayout := Addressing.mkRegLayout 8 12.
Definition sample_reg : list byte := concat (map word [0; 0x80000000; 0x8000000]).

Lemma reg_validate_exactly_witness :
  RegRanges.layout_ok sample_layout /\
  yields RegRanges.next eq (RegRanges.new sample_reg sample_layout) [mkRegRange 0x80000000 0x8000000].
Proof.
  split; [vm_compute; repeat split; congruence|].
  apply (reg_validate_exactly sample_layout sample_reg).
  - vm_compute. repeat split; congruence.
  - vm_compute. reflexivity.
  - vm_compute. reflexivity.
Defined.

(** ** Header, reservations and names *)

(** C36: The header parser accepts exactly the forty bytes whose decoded
    fields have the documented properties: magic, versions, alignments, both
    sized blocks within the blob and disjoint, and the reservation block
    outside the header and the other blocks; it never panics. *)
Theorem header_new_exactly bytes h :
  zlen bytes = HEADER_SIZE ->
  no_panic (Header.new bytes) /\ (Header.new bytes = Ok h <-> Header.valid bytes h).
Proof. intros Hl. split; [by apply Header.new_no_panic|by apply Header.new_ok_iff]. Qed.

Lemma header_new_exactly_witness :
  Header.valid (ztake HEADER_SIZE sample_blob) (Fdt.header sample_value).
Proof.
  apply (header_new_exactly (ztake HEADER_SIZE sample_blob) (Fdt.header sample_value));
    vm_compute; reflexivity.
Defined.

(** The reservation parser accepts exactly the byte strings that start
    with entries of representable end, pairwise covering no common address,
    and the terminator; it keeps those bytes only, and it never panics. *)
Theorem reservations_new_exactly l r :
  zlen l <= isize_max ->
  no_panic (Reservations.new l) /\
  (Reservations.new l = Ok r <->
   exists rs, r = Reservations.mk (Reservations.block rs) /\ Reservations.block_ok l rs).
Proof.
  intros Hl. destruct (Reservations.reservations_new_spec l Hl) as [(rs & -> & Hok)|[(e & ->) Hno]].
  - split; [done|]. split; [intros [= <-]; by exists rs|]. intros (rs' & -> & Hok').
    by rewrite (Reservations.starts_fun _ _ _ (proj1 Hok) (proj1 Hok')).
  - split; [done|]. split; [done|]. intros (rs & _ & Hok). by apply Hno in Hok.
Qed.

Lemma reservations_new_exactly_witness :
  exists rs,
    Reservations.mk (Reservations.block sample_reservations) = Reservations.mk (Reservations.block rs) /\
    Reservations.block_ok (Reservations.block sample_reservations) rs.
Proof.
  apply (reservations_new_exactly (Reservations.block sample_reservations)
    (Reservations.mk (Reservations.block sample_reservations))).
  - vm_compute. congruence.
  - vm_compute. reflexivity.
Defined.

(** Property names: the lookup at an offset of the strings block returns
    exactly the NUL-terminated name there, when it has 1 to 31 permitted
    characters, and an error otherwise, without a panic at any offset. *)
Theorem property_name_exactly strings offset name :
  Strings.wf strings -> is_u32 offset ->
  no_panic (Strings.validate_property_name strings offset) /\
  (Strings.validate_property_name strings offset = Ok name <->
   Strings.valid_name strings offset name).
Proof.
  intros Hw Ho. destruct Ho as [Ho _]. split.
  - by apply Strings.validate_property_name_no_panic.
  - by apply Strings.validate_property_name_Ok_iff.
Qed.

Lemma property_name_exactly_witness :
  Strings.valid_name sample_strings 16 (bs "#address-cells").
Proof.
  apply (property_name_exactly sample_strings 16 (bs "#address-cells")).
  - vm_compute. congruence.
  - vm_compute. split; congruence.
  - vm_compute. reflexivity.
Defined.

(** C38: Node names: validation accepts exactly a component of 1 to 31
    permitted characters starting with a letter, optionally followed by one
    [@] and a nonempty unit address of permitted characters. *)
Theorem node_name_exactly name :
  no_panic (Name.validate name) /\ (Name.validate name = Ok tt <-> Name.valid name).
Proof. split; [apply Name.validate_no_panic|apply Name.validate_Ok_iff]. Qed.
