(* ===== verification/FdtFuel.v ===== *)
(** * How many ranges a block can hold

    Each byte of a property value is a byte of the block, and each entry of a
    [reg] value takes at least one; so the numbers of memory and reserved
    ranges are bounded by the size of the structure block.  The loops of the
    frame allocator take their fuel from these bounds. *)

From Stdlib Require Import ZArith Lia Bool.
From Stdlib Require Import Strings.Byte Strings.String.
From stdpp Require Import base list numbers.
From S2P Require Import Prelude FdtReader FdtStrings FdtStructure FdtLex FdtTree FdtView.
From S2P Require Import FdtViewProofs FdtAddressing FdtRegRange FdtMemory FdtReserved.
From S2P Require Import FdtReservation.
Local Open Scope Z_scope.

Definition item_weight (it : item) : nat :=
  match it with IProp _ v => length v | _ => 0 end.

Definition weight (its : list item) : nat := sum_list_with item_weight its.

Lemma weight_app a b : weight (a ++ b) = (weight a + weight b)%nat.
Proof. apply sum_list_with_app. Qed.

Lemma weight_denop its : weight (denop its) = weight its.
Proof.
  induction its as [|it its IH]; [done|]. unfold denop. cbn [List.filter].
  destruct it; cbn [is_nop negb weight]; unfold weight in *; cbn [sum_list_with]; auto.
Qed.

Lemma lex_weight l it l' : lex l = Some (it, l') -> (item_weight it + length l' <= length l)%nat.
Proof.
  intros H. pose proof (lex_shorter _ _ _ H) as Hs. destruct it as [| |off v| |];
    try (unfold zlen in Hs; cbn [item_weight]; lia).
  apply lex_split in H as (l0 & Ht & Hp). cbn in Ht, Hp.
  apply lex_token_drop in Ht as [-> Hl]. apply lex_prop_drop in Hp as (-> & Hk & _).
  pose proof (Reader.pad_range (zlen v)). pose proof (zlen_nonneg v) as Hv.
  pose proof (zlen_zdrop 4 l ltac:(lia)) as H4. rewrite H4 in Hk.
  set (k := 8 + _) in *. pose proof (zlen_zdrop k (zdrop 4 l) ltac:(lia)) as H5. rewrite H4 in H5.
  assert (zlen v + zlen (zdrop k (zdrop 4 l)) <= zlen l) as H1 by lia.
  clear -H1. unfold zlen in H1. cbn [item_weight]. lia.
Qed.

Lemma lexes_weight l its l' : lexes l its l' -> (weight its + length l' <= length l)%nat.
Proof.
  induction 1 as [l|l it l1 its l' Hl H IH]; [unfold weight; cbn; lia|].
  apply lex_weight in Hl. unfold weight in *. cbn [sum_list_with]. lia.
Qed.

Lemma encodes_weight strings blob t : encodes strings blob t -> (weight (flat t) <= length blob)%nat.
Proof.
  intros ((its & Hl & Hd) & _). apply lexes_weight in Hl. rewrite weight_app in Hl.
  rewrite <- Hd, weight_denop. lia.
Qed.

Lemma weight_flat t :
  weight (flat t) = (sum_list_with (fun p => length (prop_value p)) (tree_props t) +
                     sum_list_with (fun k => weight (flat k)) (tree_kids t))%nat.
Proof.
  rewrite flat_body. unfold body, flat_content. unfold weight at 1. cbn [sum_list_with item_weight].
  fold (weight ((map prop_item (tree_props t) ++ concat (map flat (tree_kids t))) ++ [IEnd])).
  rewrite !weight_app. change (weight [IEnd]) with 0%nat.
  assert (forall ps, weight (map prop_item ps) = sum_list_with (fun p => length (prop_value p)) ps) as Hp.
  { unfold weight. induction ps as [|p ps IH]; [done|]. cbn. by rewrite IH. }
  assert (forall ks, weight (concat (map flat ks)) = sum_list_with (fun k => weight (flat k)) ks) as Hk.
  { induction ks as [|k ks IH]; [done|]. cbn [map concat sum_list_with]. by rewrite weight_app, IH. }
  rewrite Hp, Hk. lia.
Qed.

Lemma tree_prop_weight strings t nm v :
  tree_prop strings t nm = Some v -> (length v <= weight (flat t))%nat.
Proof.
  unfold tree_prop. destruct (List.find _ _) as [p|] eqn:Hf; [|done]. intros [= <-].
  apply List.find_some in Hf as [Hin _]. rewrite weight_flat.
  enough (length (prop_value p) <= sum_list_with (fun p => length (prop_value p)) (tree_props t))%nat by lia.
  induction (tree_props t) as [|q ps IH]; [done|]. cbn. destruct Hin as [->|Hin]; [lia|].
  specialize (IH Hin). lia.
Qed.

Lemma chunks_length {A} n (l : list A) : 0 < n -> (length (chunks n l) <= length l)%nat.
Proof.
  intros Hn. unfold chunks. assert (Z.to_nat (zlen l / n) <= length l)%nat as H.
  { unfold zlen. apply Nat2Z.inj_le. rewrite Z2Nat.id by (apply Z.div_pos; lia).
    apply Z.div_le_upper_bound; nia. }
  revert H. generalize (Z.to_nat (zlen l / n)) as k. intros k Hk.
  enough (forall k (l : list A), length (take_chunks k n l) = k) as -> by done.
  clear. induction k as [|k IH]; intros l; cbn; [done|]. by rewrite IH.
Qed.

Lemma ranges_weight strings ly k :
  0 < Addressing.entry_size ly -> (length (Memory.node_ranges strings ly k) <= weight (flat k))%nat.
Proof.
  intros Hly. unfold Memory.node_ranges. destruct (tree_prop _ _ _) as [reg|] eqn:Hr; [|cbn; lia].
  apply tree_prop_weight in Hr. unfold RegRanges.ranges_of. rewrite length_map.
  pose proof (chunks_length _ reg Hly). lia.
Qed.

Lemma concat_weight {A} (f : tree -> list A) ks :
  (forall k, length (f k) <= weight (flat k))%nat ->
  (length (concat (map f ks)) <= sum_list_with (fun k => weight (flat k)) ks)%nat.
Proof.
  intros Hf. induction ks as [|k ks IH]; [done|]. cbn. rewrite length_app. specialize (Hf k). lia.
Qed.

Lemma layout_pos addressing ly :
  Addressing.RegLayout_new addressing = Ok ly ->
  is_u32 (Addressing.address_get (Addressing.address_cells addressing)) ->
  is_u32 (Addressing.size_get (Addressing.size_cells addressing)) ->
  Addressing.address_get (Addressing.address_cells addressing) <> 0 ->
  0 < Addressing.entry_size ly.
Proof.
  intros Hly Ha Hs H0. rewrite Addressing.RegLayout_new_Ok in Hly by done. injection Hly as <-.
  cbn. unfold is_u32 in *. lia.
Qed.

Lemma addressing_of_u32 strings t addressing :
  Addressing.addressing_of strings t = Ok addressing ->
  is_u32 (Addressing.address_get (Addressing.address_cells addressing)) /\
  is_u32 (Addressing.size_get (Addressing.size_cells addressing)).
Proof.
  exact (Addressing.addressing_u32 (View.mkNode [] [] strings) t addressing).
Qed.

Lemma memory_ranges_length strings t :
  Memory.memory_ok strings t ->
  (length (Memory.memory_ranges strings t) <= weight (flat t))%nat.
Proof.
  intros (addressing & ly & Ha & Ha0 & _ & Hly & _). unfold Memory.memory_ranges. rewrite Ha, Hly.
  destruct (addressing_of_u32 _ _ _ Ha) as [H1 H2]. pose proof (layout_pos _ _ Hly H1 H2 Ha0) as Hp.
  pose proof (concat_weight (Memory.node_ranges strings ly) (Memory.memory_kids t)
    (fun k => ranges_weight strings ly k Hp)) as H.
  rewrite weight_flat. unfold Memory.memory_kids in *.
  enough (sum_list_with (fun k => weight (flat k)) (List.filter Memory.is_memory_tree (tree_kids t)) <=
    sum_list_with (fun k => weight (flat k)) (tree_kids t))%nat as Hle.
  { clear -H Hle. etransitivity; [exact H|]. etransitivity; [exact Hle|]. apply Nat.le_add_l. }
  clear. induction (tree_kids t) as [|k ks IH]; [done|]. cbn.
  destruct (Memory.is_memory_tree k); cbn; lia.
Qed.

Lemma reserved_ranges_length strings t :
  Reserved.reserved_ok strings t ->
  (length (Reserved.reserved_ranges strings t) <= weight (flat t))%nat.
Proof.
  unfold Reserved.reserved_ok, Reserved.reserved_ranges.
  destruct (tree_child t _) as [k|] eqn:Hk; [|cbn; lia].
  intros (_ & _ & _ & addressing & ly & Ha & Ha0 & _ & Hly & _). rewrite Ha, Hly.
  destruct (addressing_of_u32 _ _ _ Ha) as [H1 H2]. pose proof (layout_pos _ _ Hly H1 H2 Ha0) as Hp.
  pose proof (concat_weight (Reserved.node_ranges strings ly) (tree_kids k)
    (fun j => ranges_weight strings ly j Hp)) as H.
  apply Reserved.tree_child_in in Hk. rewrite weight_flat. pose proof (weight_flat k) as Hwk.
  enough (weight (flat k) <= sum_list_with (fun k => weight (flat k)) (tree_kids t))%nat as Hle.
  { etransitivity; [exact H|]. etransitivity; [|exact (Nat.le_trans _ _ _ Hle (Nat.le_add_l _ _))]. rewrite Hwk. apply Nat.le_add_l. }
  clear -Hk. induction (tree_kids t) as [|j ks IH]; [done|]. cbn.
  destruct Hk as [->|Hk]; [lia|]. specialize (IH Hk). lia.
Qed.
