(* ===== verification/FdtTests.v ===== *)
(** * The parser's own tests

    The test modules of [fdt/src] and the block builder they share
    ([structure/test_utils.rs]), run against the model.  A test is a
    computation over the [Vec] it builds, in the order of its statements; an
    assertion that fails panics, as in Rust.  The theorems [*_pass] evaluate
    every test of a module, so that the definitions of the parser agree with
    the program on all the inputs its authors wrote down, error values and
    offsets included.  [push_items_spec] ties the builder to the encoder of
    FdtEncode: what the tests call a structure block is what the theorems do. *)

From Stdlib Require Import ZArith Lia Bool.
From Stdlib Require Import Strings.Byte Strings.String.
From stdpp Require Import base list numbers.
From S2P Require Import Prelude FdtReader FdtHeader FdtStrings FdtNames FdtStructure FdtLex FdtTree.
From S2P Require Import FdtView FdtAddressing FdtRegRange FdtMemory FdtReserved FdtSemantic.
From S2P Require Import FdtReservation Fdt FdtEncode.
Local Open Scope Z_scope.

(** ** Tests and assertions *)

(** A piece of a test, over the [Vec] of bytes it builds. *)
Abbreviation building := (M (list byte) never).

Definition test : Type := outcome never unit.

Definition run (body : building unit) : test := fst (body []).

Definition passes (t : test) : Prop := t = Ok tt.

Local Notation "m ;; k" := (bind m (fun _ => k))
  (at level 100, k at level 200, only parsing, right associativity) : prog_scope.

Definition assert (b : bool) : building unit := if b then ret tt else panic.

Definition assert_eq {A} `{EqDecision A} (a b : A) : building unit := assert (bool_decide (a = b)).

(** A [Result] as a value: a panic is not one. *)
Definition catch {E A} (o : outcome E A) : building (outcome E A) :=
  match o with
  | Ok a => ret (Ok a)
  | Err e => ret (Err e)
  | Panic => panic
  | OutOfFuel => lift OutOfFuel
  end.

Definition unwrap {E A} (o : outcome E A) : building A := lift (expect o).

Definition unwrap_err {E A} (o : outcome E A) : building E :=
  let* result := catch o in
  match result with
  | Err e => ret e
  | _ => panic
  end.

Definition unwrap_some {A} (o : option A) : building A := lift (expect_some o).

Definition is_ok {E A} (o : outcome E A) : bool := match o with Ok _ => true | _ => false end.

Definition is_none {A} (o : option A) : bool := match o with None => true | _ => false end.

(** A [&mut self] method of a local variable. *)
Definition call {T E A} (m : M T E A) (self : T) : building (outcome E A * T) :=
  let '(o, self) := m self in
  let* result := catch o in
  ret (result, self).

Definition invoke {T A} (m : M T never A) (self : T) : building (A * T) :=
  let '(o, self) := m self in
  let* a := lift o in
  ret (a, self).

Fixpoint for_each {X} (l : list X) (body : X -> building unit) : building unit :=
  match l with
  | [] => ret tt
  | x :: l => let* _ := body x in for_each l body
  end.

(** [Vec::new()], [bytes.len()], [extend_from_slice] and [push]. *)
Definition vec_new : building unit := put [].
Definition len : building Z := let* bytes := get in ret (zlen bytes).
Definition extend_from_slice (l : list byte) : building unit := let* bytes := get in put (bytes ++ l).
Definition push (b : byte) : building unit := extend_from_slice [b].

(** [bytes[s..e].copy_from_slice(l)]. *)
Definition copy_from_slice (s e : Z) (l : list byte) : building unit :=
  let* bytes := get in
  if (0 <=? s) && (s <=? e) && (e <=? zlen bytes) && (e - s =? zlen l)
  then put (ztake s bytes ++ l ++ zdrop e bytes)
  else panic.

(** ** [structure/test_utils.rs] *)

Definition REG_OFFSET : Z := 11.
Definition ROOT_PROPERTY_OFFSET : Z := 15.
Definition CHILD_PROPERTY_OFFSET : Z := 29.
Definition RANGES_OFFSET : Z := 44.
Definition ADDRESS_CELLS_OFFSET : Z := 51.
Definition SIZE_CELLS_OFFSET : Z := 66.
Definition DEVICE_TYPE_OFFSET : Z := 78.
Definition SIZE_OFFSET : Z := 90.

Definition STRINGS : list byte :=
  bs "compatible" ++ [x00] ++ bs "reg" ++ [x00] ++ bs "root-property" ++ [x00] ++ bs "child-property" ++ [x00] ++
  bs "ranges" ++ [x00] ++ bs "#address-cells" ++ [x00] ++ bs "#size-cells" ++ [x00] ++ bs "device_type" ++ [x00] ++
  bs "size" ++ [x00].

Definition push_u32 (value : Z) : building unit := extend_from_slice (be_bytes 4 value).

Definition push_token (token : Token) : building Z :=
  let* offset := len in
  push_u32 (Token_value token) ;;
  ret offset.

(** [while bytes.len() % 4 != 0]: at most three rounds and the last test. *)
Fixpoint pad_loop (fuel : nat) : building unit :=
  match fuel with
  | O => lift OutOfFuel
  | S fuel' =>
      let* n := len in
      if n mod 4 =? 0 then ret tt else let* _ := push x00 in pad_loop fuel'
  end.

Definition pad_to_4 : building unit := pad_loop 4.

Definition push_begin_node (name : list byte) : building Z :=
  let* offset := push_token BeginNode in
  extend_from_slice name ;;
  push x00 ;;
  pad_to_4 ;;
  ret offset.

Definition push_end_node : building Z := push_token EndNode.

Definition push_property (name_offset : Z) (value : list byte) : building Z :=
  let* offset := push_token FdtStructure.Property in
  push_u32 (zlen value mod 2 ^ 32) ;;
  push_u32 name_offset ;;
  extend_from_slice value ;;
  pad_to_4 ;;
  ret offset.

Definition push_nop : building Z := push_token Nop.

Definition push_end : building Z := push_token End_.

Definition strings : Strings.t := Strings.new STRINGS.

Definition push_reg_cells (cells : list Z) : building unit :=
  push_property REG_OFFSET (concat (map (be_bytes 4) cells)) ;;
  ret tt.

Definition push_required_root_nodes : building unit :=
  push_begin_node (bs "cpus") ;; push_end_node ;;
  push_begin_node (bs "memory@0") ;;
  push_property DEVICE_TYPE_OFFSET (bs "memory" ++ [x00]) ;;
  push_reg_cells [0; 0; 0x1000] ;;
  push_end_node ;;
  ret tt.

Definition push_cell_counts (address_cells size_cells : Z) : building unit :=
  push_property ADDRESS_CELLS_OFFSET (be_bytes 4 address_cells) ;;
  push_property SIZE_CELLS_OFFSET (be_bytes 4 size_cells) ;;
  ret tt.

Definition structure_with_nested_children : building unit :=
  vec_new ;;
  push_nop ;; push_nop ;; push_begin_node [] ;; push_nop ;;
  push_begin_node (bs "cpus") ;; push_begin_node (bs "cpu") ;; push_end_node ;; push_end_node ;;
  push_begin_node (bs "memory@0") ;; push_property REG_OFFSET (bs "0") ;; push_end_node ;;
  push_begin_node (bs "soc") ;; push_begin_node (bs "uart") ;; push_end_node ;; push_end_node ;;
  push_end_node ;; push_end ;; ret tt.

Definition structure_with_nested_properties : building unit :=
  vec_new ;;
  push_begin_node [] ;;
  push_nop ;; push_nop ;; push_property ROOT_PROPERTY_OFFSET [x01; x02; x03] ;;
  push_nop ;; push_nop ;; push_begin_node (bs "child") ;;
  push_property CHILD_PROPERTY_OFFSET [x04; x05] ;;
  push_end_node ;;
  push_required_root_nodes ;;
  push_end_node ;; push_end ;; ret tt.

(** ** The builder writes what the encoder does *)

Definition push_item (it : item) : building Z :=
  match it with
  | IBegin name => push_begin_node name
  | IEnd => push_end_node
  | IProp offset value => push_property offset value
  | INop => push_nop
  | IFinish => push_end
  end.

Fixpoint push_items (its : list item) : building unit :=
  match its with
  | [] => ret tt
  | it :: its => let* _ := push_item it in push_items its
  end.

Lemma extend_spec l bytes : extend_from_slice l bytes = (Ok tt, bytes ++ l).
Proof. done. Qed.

Lemma push_token_spec token bytes : push_token token bytes = (Ok (zlen bytes), bytes ++ word (Token_value token)).
Proof. done. Qed.

Lemma pad_loop_spec fuel : forall bytes,
  Reader.pad (zlen bytes) < Z.of_nat fuel ->
  pad_loop fuel bytes = (Ok tt, bytes ++ repeat x00 (Z.to_nat (Reader.pad (zlen bytes)))).
Proof.
  induction fuel as [|fuel IH]; intros bytes Hf; pose proof (Reader.pad_range (zlen bytes)); [lia|].
  cbn [pad_loop]. rewrite (bind_ok _ _ _ (zlen bytes) bytes) by done.
  destruct (zlen bytes mod 4 =? 0) eqn:Hm; zbool.
  - unfold Reader.pad. rewrite Hm. cbn. by rewrite app_nil_r.
  - rewrite (bind_ok _ _ _ _ _ (extend_spec [x00] bytes)).
    assert (Reader.pad (zlen bytes) = Reader.pad (zlen (bytes ++ [x00])) + 1) as Hp.
    { rewrite zlen_app. change (zlen [x00]) with 1. unfold Reader.pad. Z.div_mod_to_equations. lia. }
    rewrite IH by lia. rewrite Hp. pose proof (Reader.pad_range (zlen (bytes ++ [x00]))).
    rewrite Z2Nat.inj_add by lia. rewrite Nat.add_comm. cbn [repeat Nat.add Z.to_nat]. by rewrite <- app_assoc.
Qed.

(** A padded run of bytes after an aligned prefix. *)
Lemma pad_to_4_spec bytes l :
  zlen bytes mod 4 = 0 -> pad_to_4 (bytes ++ l) = (Ok tt, bytes ++ padded l).
Proof.
  intros Hb. unfold pad_to_4. rewrite pad_loop_spec by apply Reader.pad_range. unfold padded.
  rewrite <- app_assoc, (Reader.pad_congr (zlen (bytes ++ l)) (zlen l)); [done|].
  rewrite zlen_app. Z.div_mod_to_equations. lia.
Qed.

Lemma aligned_word bytes z : zlen bytes mod 4 = 0 -> zlen (bytes ++ word z) mod 4 = 0.
Proof. intros Hb. rewrite zlen_app, zlen_word. Z.div_mod_to_equations. lia. Qed.

Lemma aligned_padded bytes l : zlen bytes mod 4 = 0 -> zlen (bytes ++ padded l) mod 4 = 0.
Proof.
  intros Hb. rewrite zlen_app, zlen_padded. pose proof (Reader.pad_aligned (zlen l)). Z.div_mod_to_equations. lia.
Qed.

Lemma aligned_item it : zlen (item_bytes it) mod 4 = 0.
Proof.
  destruct it; cbn [item_bytes]; rewrite ?app_assoc; try by rewrite zlen_word.
  - by apply aligned_padded; rewrite zlen_word.
  - apply aligned_padded. do 2 apply aligned_word. by rewrite zlen_word.
Qed.

(** Every call of the builder appends the bytes of its item. *)
Lemma push_item_spec it bytes :
  item_ok it -> zlen bytes mod 4 = 0 -> push_item it bytes = (Ok (zlen bytes), bytes ++ item_bytes it).
Proof.
  intros Hok Hb. destruct it as [name| |offset value| |]; cbn [push_item item_bytes];
    [|apply push_token_spec| |apply push_token_spec..].
  - unfold push_begin_node, push. rewrite (bind_ok _ _ _ _ _ (push_token_spec _ _)).
    rewrite !(bind_ok _ _ _ _ _ (extend_spec _ _)), <- (app_assoc _ name).
    by rewrite (bind_ok _ _ _ _ _ (pad_to_4_spec _ _ (aligned_word _ _ Hb))), <- app_assoc.
  - unfold push_property, push_u32. rewrite (bind_ok _ _ _ _ _ (push_token_spec _ _)).
    rewrite !(bind_ok _ _ _ _ _ (extend_spec _ _)). destruct Hok as [_ Hv].
    rewrite Z.mod_small by (unfold is_u32, u32_max in Hv; lia).
    pose proof (aligned_word _ offset (aligned_word _ (zlen value)
      (aligned_word _ (Token_value FdtStructure.Property) Hb))).
    by rewrite (bind_ok _ _ _ _ _ (pad_to_4_spec _ value H)), <- !app_assoc.
Qed.

Lemma push_items_spec its : forall bytes,
  Forall item_ok its -> zlen bytes mod 4 = 0 -> push_items its bytes = (Ok tt, bytes ++ items_bytes its).
Proof.
  induction its as [|it its IH]; intros bytes Hok Hb; [by rewrite app_nil_r|].
  apply Forall_cons_1 in Hok as [Hit Hok]. cbn [push_items].
  rewrite (bind_ok _ _ _ _ _ (push_item_spec it bytes Hit Hb)), IH; [|done|].
  - unfold items_bytes. cbn [map concat]. by rewrite <- app_assoc.
  - rewrite zlen_app. pose proof (aligned_item it). Z.div_mod_to_equations. lia.
Qed.

(** A tree the builder writes is accepted by the parser, with that tree. *)
Lemma built_tree_accepted t :
  tree_name t = [] -> wf_tree strings t -> Forall item_ok (flat t) ->
  exists bytes, push_items (flat t ++ [IFinish]) [] = (Ok tt, bytes) /\ encodes strings bytes t.
Proof.
  intros Hn Hwf Hok. exists (encode t). split; [|by apply encode_encodes].
  rewrite push_items_spec; [done| |done]. apply Forall_app. by repeat constructor.
Qed.

(** Runs every test of a list. *)
Ltac all_pass := repeat (apply List.Forall_cons; [vm_compute; reflexivity|]); apply List.Forall_nil.

(** ** [reader.rs] *)
Module ReaderTests.

Definition new_reader_starts_at_beginning_of_slice : test := run (
  let reader := Reader.new (replicate 5 x00) in
  assert_eq (Reader.position reader) 0 ;; let* n := lift (Reader.remaining reader) in assert_eq n 5).

(** The two assertions most tests of the reader end with. *)
Definition assert_at (reader : Reader.t) (position remaining : Z) : building unit :=
  assert_eq (Reader.position reader) position ;;
  let* n := lift (Reader.remaining reader) in assert_eq n remaining.

Definition u32_is_read_and_cursor_advances : test := run (
  let reader := Reader.new [x12; x34; x56; x78; xff] in
  let* (result, reader) := call Reader.read_u32 reader in let* result := unwrap result in
  assert_eq result 0x12345678 ;; assert_at reader 4 1).

Definition u64_is_read_and_cursor_advances : test := run (
  let reader := Reader.new [x01; x23; x45; x67; x89; xab; xcd; xef; xff] in
  let* (result, reader) := call Reader.read_u64 reader in
  assert_eq result (Ok 0x0123456789abcdef) ;; assert_at reader 8 1).

Definition truncated_u64_is_rejected_without_advancing : test := run (
  let reader := Reader.new (replicate 7 x00) in
  let* (result, reader) := call Reader.read_u64 reader in
  assert_eq result (Err (Truncated 0 8 7)) ;; assert_eq (Reader.position reader) 0).

Definition truncated_u32_is_rejected_without_advancing : test := run (
  let reader := Reader.new (replicate 3 x00) in
  let* (result, reader) := call Reader.read_u32 reader in
  assert_eq result (Err (Truncated 0 4 3)) ;; assert_at reader 0 3).

Definition oversized_read_is_rejected_without_advancing : test := run (
  let reader := Reader.new (replicate 2 x00) in
  let* (byte, reader) := call (Reader.read_bytes 1) reader in unwrap byte ;;
  let* (result, reader) := call (Reader.read_bytes usize_max) reader in
  assert_eq result (Err (Truncated 1 usize_max 1)) ;; assert_eq (Reader.position reader) 1).

Definition bytes_are_read_and_cursor_advances : test := run (
  let reader := Reader.new [x01; x02; x03; x04] in
  let* (bytes, reader) := call (Reader.read_bytes 2) reader in let* bytes := unwrap bytes in
  assert_eq bytes [x01; x02] ;; assert_at reader 2 2).

Definition truncated_byte_read_is_rejected_without_advancing : test := run (
  let reader := Reader.new (replicate 2 x00) in
  let* (byte, reader) := call (Reader.read_bytes 1) reader in unwrap byte ;;
  let* (result, reader) := call (Reader.read_bytes 2) reader in
  assert_eq result (Err (Truncated 1 2 1)) ;; assert_at reader 1 1).

Definition zero_length_read_does_not_advance : test := run (
  let reader := Reader.new (replicate 2 x00) in
  let* (result, reader) := call (Reader.read_bytes 0) reader in
  assert_eq result (Ok []) ;; assert_at reader 0 2).

Definition alignment_consumes_bytes_to_next_4_byte_boundary : test := run (
  let reader := Reader.new [xff; x01; x02; x03; xff] in
  let* (byte, reader) := call (Reader.read_bytes 1) reader in unwrap byte ;;
  let* (padding, reader) := call Reader.align_to_4 reader in let* padding := unwrap padding in
  assert_eq padding [x01; x02; x03] ;; assert_at reader 4 1).

Definition alignment_does_not_advance_when_already_aligned : test := run (
  let reader := Reader.new (replicate 8 x00) in
  let* (bytes, reader) := call (Reader.read_bytes 4) reader in unwrap bytes ;;
  let* (padding, reader) := call Reader.align_to_4 reader in unwrap padding ;;
  assert_at reader 4 4).

Definition truncated_alignment_is_rejected_without_advancing : test := run (
  let reader := Reader.new (replicate 2 x00) in
  let* (byte, reader) := call (Reader.read_bytes 1) reader in unwrap byte ;;
  let* (result, reader) := call Reader.align_to_4 reader in
  assert_eq result (Err (Truncated 1 3 1)) ;; assert_eq (Reader.position reader) 1).

Definition nul_terminated_bytes_are_read_and_cursor_advances : test := run (
  let reader := Reader.new (bs "hello" ++ [x00; xff]) in
  let* (result, reader) := call Reader.read_nul_terminated reader in let* result := unwrap result in
  assert_eq result (bs "hello") ;; assert_at reader 6 1).

Definition empty_nul_terminated_slice_is_accepted : test := run (
  let reader := Reader.new [x00; xff] in
  let* (result, reader) := call Reader.read_nul_terminated reader in
  assert_eq result (Ok []) ;; assert_at reader 1 1).

Definition missing_nul_terminator_is_rejected_without_advancing : test := run (
  let reader := Reader.new (bs "hello") in
  let* (result, reader) := call Reader.read_nul_terminated reader in
  assert_eq result (Err (MissingNulTerminator 0)) ;; assert_eq (Reader.position reader) 0).

Definition missing_nul_terminator_reports_current_offset : test := run (
  let reader := Reader.new [xff; x61; x62] in
  let* (byte, reader) := call (Reader.read_bytes 1) reader in unwrap byte ;;
  let* (result, reader) := call Reader.read_nul_terminated reader in
  assert_eq result (Err (MissingNulTerminator 1)) ;; assert_eq (Reader.position reader) 1).

Definition nul_terminator_at_end_consumes_entire_slice : test := run (
  let data := bs "abc" ++ [x00] in let reader := Reader.new data in
  let* (result, reader) := call Reader.read_nul_terminated reader in
  assert_eq result (Ok (bs "abc")) ;; assert_at reader (zlen data) 0).

Definition remaining_bytes_returns_unread_suffix_without_advancing : test := run (
  let reader := Reader.new [x01; x02; x03; x04; x05] in
  let* rest := lift (Reader.remaining_bytes reader) in assert_eq rest [x01; x02; x03; x04; x05] ;;
  let* (result, reader) := call (Reader.read_bytes 2) reader in assert_eq result (Ok [x01; x02]) ;;
  let* rest := lift (Reader.remaining_bytes reader) in assert_eq rest [x03; x04; x05] ;;
  let* rest := lift (Reader.remaining_bytes reader) in assert_eq rest [x03; x04; x05] ;;
  let* (result, reader) := call (Reader.read_bytes 3) reader in assert_eq result (Ok [x03; x04; x05]) ;;
  let* rest := lift (Reader.remaining_bytes reader) in assert_eq rest []).

Definition tests : list test :=
  [new_reader_starts_at_beginning_of_slice; u32_is_read_and_cursor_advances; u64_is_read_and_cursor_advances;
   truncated_u64_is_rejected_without_advancing; truncated_u32_is_rejected_without_advancing;
   oversized_read_is_rejected_without_advancing; bytes_are_read_and_cursor_advances;
   truncated_byte_read_is_rejected_without_advancing; zero_length_read_does_not_advance;
   alignment_consumes_bytes_to_next_4_byte_boundary; alignment_does_not_advance_when_already_aligned;
   truncated_alignment_is_rejected_without_advancing; nul_terminated_bytes_are_read_and_cursor_advances;
   empty_nul_terminated_slice_is_accepted; missing_nul_terminator_is_rejected_without_advancing;
   missing_nul_terminator_reports_current_offset; nul_terminator_at_end_consumes_entire_slice;
   remaining_bytes_returns_unread_suffix_without_advancing].

Lemma reader_tests_pass : Forall passes tests.
Proof. all_pass. Qed.

End ReaderTests.

(** ** [header.rs] *)
Module HeaderTests.

(** Writes a field of the header under construction. *)
Definition set_u32 (field : HeaderField) (value : Z) : building unit :=
  let offset := HeaderField_offset field in
  copy_from_slice offset (offset + 4) (be_bytes 4 value).

Definition valid_header_bytes : building unit :=
  put (replicate 40 x00) ;;
  set_u32 Magic FDT_MAGIC ;; set_u32 TotalSize 1024 ;; set_u32 StructureOffset 64 ;; set_u32 StringsOffset 512 ;;
  set_u32 ReservationOffset 40 ;; set_u32 Version 17 ;; set_u32 LastCompatibleVersion 16 ;;
  set_u32 BootCpuIdPhys 0x12345678 ;; set_u32 StringsSize 100 ;; set_u32 StructureSize 200.

Definition valid_header_is_parsed : test := run (
  valid_header_bytes ;;
  let* bytes := get in let* header := unwrap (Header.new bytes) in
  assert_eq (Header.total_size header) 1024 ;;
  assert_eq (Header.structure_range header) (mkRange 64 264) ;;
  assert_eq (Header.strings_range header) (mkRange 512 612) ;;
  assert_eq (Header.off_mem_rsvmap header) 40 ;;
  assert_eq (Header.version header) 17 ;;
  assert_eq (Header.last_comp_version header) 16 ;;
  assert_eq (Header.boot_cpuid_phys header) 0x12345678).

Definition invalid_magic_is_rejected : test := run (
  valid_header_bytes ;; set_u32 Magic 0xBADCAFE ;;
  let* bytes := get in let* error := unwrap_err (Header.new bytes) in assert_eq error (InvalidMagic 0xBADCAFE)).

Definition total_size_smaller_than_header_is_rejected : test := run (
  valid_header_bytes ;; set_u32 TotalSize (HEADER_SIZE - 1) ;;
  let* bytes := get in let* error := unwrap_err (Header.new bytes) in
  assert_eq error (TotalSizeTooSmall (HEADER_SIZE - 1) HEADER_SIZE)).

Definition version_below_supported_version_is_rejected : test := run (
  valid_header_bytes ;; set_u32 Version 15 ;;
  let* bytes := get in let* error := unwrap_err (Header.new bytes) in assert_eq error (UnsupportedVersion 15 16)).

Definition unexpected_last_compatible_version_is_rejected : test := run (
  valid_header_bytes ;; set_u32 LastCompatibleVersion 15 ;;
  let* bytes := get in let* error := unwrap_err (Header.new bytes) in assert_eq error (UnsupportedVersion 17 15)).

Definition misaligned_reservation_offset_is_rejected : test := run (
  valid_header_bytes ;; set_u32 ReservationOffset 41 ;;
  let* bytes := get in let* error := unwrap_err (Header.new bytes) in
  assert_eq error (MisalignedBlock BMemoryReservation 41 8)).

Definition misaligned_structure_offset_is_rejected : test := run (
  valid_header_bytes ;; set_u32 StructureOffset 42 ;;
  let* bytes := get in let* error := unwrap_err (Header.new bytes) in
  assert_eq error (MisalignedBlock BStructure 42 4)).

Definition reservation_offset_inside_header_is_rejected : test := run (
  valid_header_bytes ;; set_u32 ReservationOffset 24 ;;
  let* bytes := get in let* error := unwrap_err (Header.new bytes) in
  assert_eq error (BlockOffsetInsideHeader BMemoryReservation 24 40)).

Definition structure_offset_inside_header_is_rejected : test := run (
  valid_header_bytes ;; set_u32 StructureOffset 36 ;;
  let* bytes := get in let* error := unwrap_err (Header.new bytes) in
  assert_eq error (BlockOffsetInsideHeader BStructure 36 40)).

Definition strings_offset_inside_header_is_rejected : test := run (
  valid_header_bytes ;; set_u32 StringsOffset 24 ;;
  let* bytes := get in let* error := unwrap_err (Header.new bytes) in
  assert_eq error (BlockOffsetInsideHeader BStrings 24 40)).

Definition reservation_offset_beyond_blob_is_rejected : test := run (
  valid_header_bytes ;; set_u32 ReservationOffset (1024 + 8) ;;
  let* bytes := get in let* error := unwrap_err (Header.new bytes) in
  assert_eq error (BlockOffsetOutOfBounds BMemoryReservation 1032 1024)).

Definition strings_block_out_of_bounds_is_rejected : test := run (
  valid_header_bytes ;; set_u32 StringsSize 1000 ;;
  let* bytes := get in let* error := unwrap_err (Header.new bytes) in
  assert_eq error (BlockOutOfBounds BStrings 512 1000 1024)).

Definition structure_block_out_of_bounds_is_rejected : test := run (
  valid_header_bytes ;; set_u32 StructureSize 1000 ;;
  let* bytes := get in let* error := unwrap_err (Header.new bytes) in
  assert_eq error (BlockOutOfBounds BStructure 64 1000 1024)).

Definition overlapping_structure_and_strings_blocks_are_rejected : test := run (
  valid_header_bytes ;; set_u32 StructureOffset 100 ;; set_u32 StructureSize 100 ;; set_u32 StringsOffset 150 ;;
  let* bytes := get in let* error := unwrap_err (Header.new bytes) in
  assert_eq error (BlocksOverlap BStructure BStrings)).

Definition overflow_prone_structure_range_is_rejected : test := run (
  valid_header_bytes ;; set_u32 TotalSize u32_max ;; set_u32 StructureOffset (u32_max - 3) ;;
  set_u32 StructureSize 8 ;;
  let* bytes := get in let* error := unwrap_err (Header.new bytes) in
  assert_eq error (BlockOutOfBounds BStructure (u32_max - 3) 8 u32_max)).

Definition structure_offset_beyond_blob_is_rejected : test := run (
  valid_header_bytes ;; set_u32 StructureOffset 1028 ;; set_u32 StructureSize 0 ;;
  let* bytes := get in let* error := unwrap_err (Header.new bytes) in
  assert_eq error (BlockOutOfBounds BStructure 1028 0 1024)).

Definition block_range_arithmetic_overflow_is_rejected : test := run (
  let offset := usize_max in let size := 1 in let total_size := usize_max in
  let* result := catch (Header.block_range BStructure offset size total_size) in
  assert_eq result (Err (BlockOutOfBounds BStructure offset size total_size))).

Definition reservation_offset_inside_known_block_is_rejected : test := run (
  for_each [(72, BStructure); (520, BStrings)] (fun '(offset, containing) =>
    valid_header_bytes ;; set_u32 ReservationOffset offset ;;
    let* bytes := get in let* error := unwrap_err (Header.new bytes) in
    assert_eq error (BlockOffsetInsideBlock BMemoryReservation containing offset))).

Definition tests : list test :=
  [valid_header_is_parsed; invalid_magic_is_rejected; total_size_smaller_than_header_is_rejected;
   version_below_supported_version_is_rejected; unexpected_last_compatible_version_is_rejected;
   misaligned_reservation_offset_is_rejected; misaligned_structure_offset_is_rejected;
   reservation_offset_inside_header_is_rejected; structure_offset_inside_header_is_rejected;
   strings_offset_inside_header_is_rejected; reservation_offset_beyond_blob_is_rejected;
   strings_block_out_of_bounds_is_rejected; structure_block_out_of_bounds_is_rejected;
   overlapping_structure_and_strings_blocks_are_rejected; overflow_prone_structure_range_is_rejected;
   structure_offset_beyond_blob_is_rejected; block_range_arithmetic_overflow_is_rejected;
   reservation_offset_inside_known_block_is_rejected].

Lemma header_tests_pass : Forall passes tests.
Proof. all_pass. Qed.

End HeaderTests.

(** ** [strings.rs] *)
Module StringsTests.

Definition debug_reports_strings_size : test := run (
  let strings := Strings.new (bs "compatible" ++ [x00] ++ bs "reg" ++ [x00]) in
  assert_eq (Strings.debug strings) (bs "Strings { size: 15 }")).

Definition valid_property_name_is_accepted : test := run (
  let data := bs "compatible" ++ [x00] in let strings := Strings.new data in
  let* result := catch (Strings.validate_property_name strings 0) in
  assert (is_ok result)).

Definition property_name_at_nonzero_offset_is_accepted : test := run (
  let data := bs "unused" ++ [x00] ++ bs "compatible" ++ [x00] in let strings := Strings.new data in
  let* result := catch (Strings.validate_property_name strings 7) in
  assert (is_ok result)).

Definition property_name_at_suffix_offset_is_accepted : test := run (
  let data := bs "vendor,compatible" ++ [x00] in let strings := Strings.new data in
  let* result := catch (Strings.validate_property_name strings 7) in
  assert (is_ok result)).

Definition all_allowed_property_name_characters_are_accepted : test := run (
  let data := bs "aZ0,._+?#-" ++ [x00] in let strings := Strings.new data in
  let* result := catch (Strings.validate_property_name strings 0) in
  assert (is_ok result)).

Definition minimum_property_name_length_is_accepted : test := run (
  let data := bs "a" ++ [x00] in let strings := Strings.new data in
  let* result := catch (Strings.validate_property_name strings 0) in
  assert (is_ok result)).

Definition maximum_property_name_length_is_accepted : test := run (
  let data := replicate 31 x61 ++ [x00] in let strings := Strings.new data in
  let* result := catch (Strings.validate_property_name strings 0) in
  assert (is_ok result)).

Definition empty_property_name_is_rejected : test := run (
  let data := [x00] in let strings := Strings.new data in
  let* result := catch (Strings.validate_property_name strings 0) in
  assert_eq result (Err (InvalidLength 0 0))).

Definition property_name_longer_than_31_bytes_is_rejected : test := run (
  let data := replicate 32 x61 ++ [x00] in let strings := Strings.new data in
  let* result := catch (Strings.validate_property_name strings 0) in
  assert_eq result (Err (InvalidLength 0 32))).

Definition unterminated_property_name_is_rejected : test := run (
  let data := bs "compatible" in let strings := Strings.new data in
  let* result := catch (Strings.validate_property_name strings 0) in
  assert_eq result (Err (Unterminated 0))).

Definition offset_at_end_of_strings_block_is_rejected : test := run (
  let data := bs "name" ++ [x00] in let strings := Strings.new data in
  let* result := catch (Strings.validate_property_name strings (zlen data)) in
  assert_eq result (Err (OffsetOutOfBounds (zlen data) (zlen data)))).

Definition offset_beyond_strings_block_is_rejected : test := run (
  let data := bs "name" ++ [x00] in let strings := Strings.new data in
  let* result := catch (Strings.validate_property_name strings 6) in
  assert_eq result (Err (OffsetOutOfBounds 6 (zlen data)))).

Definition invalid_property_name_character_is_rejected : test := run (
  let data := bs "unused" ++ [x00] ++ bs "comp@tible" ++ [x00] in let strings := Strings.new data in
  let* result := catch (Strings.validate_property_name strings 7) in
  assert_eq result (Err (InvalidCharacter 7 4 x40))).

Definition tests : list test :=
  [debug_reports_strings_size; valid_property_name_is_accepted; property_name_at_nonzero_offset_is_accepted;
   property_name_at_suffix_offset_is_accepted; all_allowed_property_name_characters_are_accepted;
   minimum_property_name_length_is_accepted; maximum_property_name_length_is_accepted;
   empty_property_name_is_rejected; property_name_longer_than_31_bytes_is_rejected;
   unterminated_property_name_is_rejected; offset_at_end_of_strings_block_is_rejected;
   offset_beyond_strings_block_is_rejected; invalid_property_name_character_is_rejected].

Lemma strings_tests_pass : Forall passes tests.
Proof. all_pass. Qed.

End StringsTests.

(** ** [structure/name.rs] *)
Module NameTests.

Definition valid_node_names_are_accepted : test := run (
  for_each [bs "a"; bs "soc"; bs "serial@1000"; bs "vendor,device"; bs "a.b_c+d-0"] (fun name =>
    let* result := catch (Name.validate name) in assert_eq result (Ok tt))).

Definition empty_node_name_is_rejected : test := run (
  let* result := catch (Name.validate []) in assert_eq result (Err (NodeNameInvalidLength 0))).

Definition node_name_longer_than_31_bytes_is_rejected : test := run (
  let* result := catch (Name.validate (replicate 32 x61)) in assert_eq result (Err (NodeNameInvalidLength 32))).

Definition node_name_must_begin_with_alphabetic_character : test := run (
  let* result := catch (Name.validate (bs "1node")) in assert_eq result (Err (InvalidFirstCharacter x31))).

Definition invalid_node_name_character_is_rejected : test := run (
  let* result := catch (Name.validate (bs "no?de")) in assert_eq result (Err (NodeNameInvalidCharacter 2 x3f))).

Definition empty_unit_address_is_rejected : test := run (
  let* result := catch (Name.validate (bs "serial@")) in assert_eq result (Err EmptyUnitAddress)).

Definition invalid_unit_address_character_is_rejected : test := run (
  let* result := catch (Name.validate (bs "serial@10?0")) in assert_eq result (Err (InvalidUnitAddressCharacter 2 x3f))).

Definition tests : list test :=
  [valid_node_names_are_accepted; empty_node_name_is_rejected; node_name_longer_than_31_bytes_is_rejected;
   node_name_must_begin_with_alphabetic_character; invalid_node_name_character_is_rejected;
   empty_unit_address_is_rejected; invalid_unit_address_character_is_rejected].

Lemma name_tests_pass : Forall passes tests.
Proof. all_pass. Qed.

End NameTests.

(** ** [reservation.rs] *)
Module ReservationTests.

Definition push_reservation (address size : Z) : building unit :=
  extend_from_slice (be_bytes 8 address) ;; extend_from_slice (be_bytes 8 size).

(** [next().unwrap()], then the two accessors. *)
Definition assert_next (it : Reservations.Iter.t) (address size : Z) : building Reservations.Iter.t :=
  let* (item, it) := invoke Reservations.Iter.next it in let* item := unwrap_some item in
  assert_eq (Reservations.address item) address ;; assert_eq (Reservations.size item) size ;; ret it.

Definition assert_end (it : Reservations.Iter.t) : building Reservations.Iter.t :=
  let* (item, it) := invoke Reservations.Iter.next it in assert (is_none item) ;; ret it.

Definition debug_reports_block_size : test := run (
  let* reservations := unwrap (Reservations.new (replicate 16 x00)) in
  assert_eq (Reservations.debug reservations) (bs "Reservations { size: 16 }")).

Definition memory_reservation_debug_uses_hex : test := run (
  assert_eq (Reservations.debug_reservation (Reservations.mkReservation 0x80000000 0x80000))
    (bs "MemoryReservation { address: 0x80000000, size: 0x80000 }")).

Definition missing_size_is_rejected : test := run (
  let* error := unwrap_err (Reservations.new (be_bytes 8 0x1234)) in
  assert_eq error (Reservations.Read (Truncated 8 8 0))).

Definition memory_reservations_are_iterated_until_terminator : test := run (
  push_reservation 0x80000000 0x1000 ;; push_reservation 0x90000000 0x200000 ;; push_reservation 0 0 ;;
  push_reservation 0xa0000000 0x1000 ;;
  let* bytes := get in let* reservations := unwrap (Reservations.new bytes) in
  let* it := assert_next (Reservations.iter reservations) 0x80000000 0x1000 in
  let* it := assert_next it 0x90000000 0x200000 in
  let* it := assert_end it in assert_end it ;; ret tt).

Definition reservation_range_end_overflow_is_rejected : test := run (
  push_reservation u64_max 1 ;; push_reservation 0 0 ;;
  let* bytes := get in let* error := unwrap_err (Reservations.new bytes) in
  assert_eq error (Reservations.RangeEndOverflow u64_max 1)).

Definition overlapping_reservations_are_rejected : test := run (
  push_reservation 0x1000 0x2000 ;; push_reservation 0x2000 0x2000 ;; push_reservation 0 0 ;;
  let* bytes := get in let* error := unwrap_err (Reservations.new bytes) in
  assert_eq error (Reservations.Overlap 0x1000 0x2000 0x2000 0x2000)).

Definition adjacent_reservations_do_not_overlap : test := run (
  push_reservation 0x1000 0x1000 ;; push_reservation 0x2000 0x1000 ;; push_reservation 0 0 ;;
  let* bytes := get in let* result := catch (Reservations.new bytes) in assert (is_ok result)).

Definition zero_sized_reservation_does_not_overlap : test := run (
  push_reservation 0x1800 0 ;; push_reservation 0x1000 0x1000 ;; push_reservation 0 0 ;;
  let* bytes := get in let* reservations := unwrap (Reservations.new bytes) in
  let* it := assert_next (Reservations.iter reservations) 0x1800 0 in
  let* it := assert_next it 0x1000 0x1000 in
  assert_end it ;; ret tt).

Definition tests : list test :=
  [debug_reports_block_size; memory_reservation_debug_uses_hex; missing_size_is_rejected;
   memory_reservations_are_iterated_until_terminator; reservation_range_end_overflow_is_rejected;
   overlapping_reservations_are_rejected; adjacent_reservations_do_not_overlap;
   zero_sized_reservation_does_not_overlap].

Lemma reservation_tests_pass : Forall passes tests.
Proof. all_pass. Qed.

End ReservationTests.

(** ** [structure.rs] *)
Module StructureTests.

Definition COMPATIBLE_OFFSET : Z := 0.

Definition minimal_structure : building unit :=
  vec_new ;; push_begin_node [] ;; push_required_root_nodes ;; push_end_node ;; push_end ;; ret tt.

Definition debug_reports_structure_size : test := run (
  minimal_structure ;;
  let* bytes := get in let* structure := unwrap (Structure.new bytes strings) in
  assert_eq (Structure.debug structure) (bs "Structure { size: 96 }")).

Definition empty_structure_block_is_rejected : test := run (
  vec_new ;;
  let* bytes := get in let* error := unwrap_err (Structure.new bytes strings) in
  assert_eq error (FdtStructure.Read (Truncated 0 4 0))).

Definition missing_root_node_name_is_rejected : test := run (
  vec_new ;; push_token BeginNode ;;
  let* bytes := get in let* error := unwrap_err (Structure.new bytes strings) in
  assert_eq error (FdtStructure.Read (Truncated 4 1 0))).

Definition truncated_root_node_padding_is_rejected : test := run (
  vec_new ;; push_token BeginNode ;; push x00 ;;
  let* bytes := get in let* error := unwrap_err (Structure.new bytes strings) in
  assert_eq error (FdtStructure.Read (Truncated 5 3 0))).

Definition structure_with_properties_and_children_is_valid : test := run (
  vec_new ;; push_begin_node [] ;; push_property COMPATIBLE_OFFSET (bs "test,root") ;; push_required_root_nodes ;;
  push_begin_node (bs "soc") ;; push_property COMPATIBLE_OFFSET (bs "simple-bus") ;; push_end_node ;;
  push_begin_node (bs "serial@1000") ;; push_property REG_OFFSET [x00; x00; x10; x00] ;; push_end_node ;;
  push_end_node ;; push_end ;;
  let* bytes := get in let* result := catch (Structure.new bytes strings) in assert (is_ok result)).

Definition properties_are_allowed_in_later_sibling_nodes : test := run (
  vec_new ;; push_begin_node [] ;; push_required_root_nodes ;; push_begin_node (bs "first") ;; push_end_node ;;
  push_begin_node (bs "second") ;; push_property COMPATIBLE_OFFSET (bs "device") ;; push_end_node ;; push_end_node ;;
  push_end ;;
  let* bytes := get in let* result := catch (Structure.new bytes strings) in assert (is_ok result)).

Definition nops_before_root_and_before_end_are_valid : test := run (
  vec_new ;; push_nop ;; push_nop ;; push_begin_node [] ;; push_nop ;; push_required_root_nodes ;; push_end_node ;;
  push_nop ;; push_nop ;; push_end ;;
  let* bytes := get in let* result := catch (Structure.new bytes strings) in assert (is_ok result)).

Definition non_begin_node_token_cannot_start_tree : test := run (
  vec_new ;; push_nop ;; let* offset := push_token FdtStructure.Property in let* bytes := get in
  let* error := unwrap_err (Structure.new bytes strings) in
  assert_eq error (ExpectedRootNode offset (Token_value FdtStructure.Property))).

Definition root_name_must_be_empty : test := run (
  vec_new ;; push_token BeginNode ;; let* name_offset := len in extend_from_slice (bs "root" ++ [x00]) ;; pad_to_4 ;;
  let* bytes := get in let* error := unwrap_err (Structure.new bytes strings) in
  assert_eq error (RootNameNotEmpty name_offset (u8 x72))).

Definition unterminated_child_node_name_is_rejected : test := run (
  vec_new ;; push_begin_node [] ;; push_token BeginNode ;; let* name_offset := len in
  extend_from_slice (bs "child") ;;
  let* bytes := get in let* error := unwrap_err (Structure.new bytes strings) in
  assert_eq error (UnterminatedNodeName name_offset)).

Definition invalid_child_node_name_is_reported_with_offset : test := run (
  vec_new ;; push_begin_node [] ;; let* token_offset := push_begin_node (bs "1child") in
  let name_offset := token_offset + 4 in let* bytes := get in
  let* error := unwrap_err (Structure.new bytes strings) in
  assert_eq error (InvalidNodeName token_offset name_offset 1 (InvalidFirstCharacter x31))).

Definition duplicate_sibling_node_name_is_rejected : test := run (
  vec_new ;; push_begin_node [] ;; let* first_node_offset := push_begin_node (bs "serial@1000") in
  push_property REG_OFFSET (bs "1000") ;; push_end_node ;;
  let* duplicate_node_offset := push_begin_node (bs "serial@1000") in push_property REG_OFFSET (bs "1000") ;;
  push_end_node ;; push_end_node ;; push_end ;;
  let* bytes := get in let* error := unwrap_err (Structure.new bytes strings) in
  assert_eq error (DuplicateNodeName first_node_offset duplicate_node_offset 1)).

Definition same_node_name_under_different_parents_is_valid : test := run (
  vec_new ;; push_begin_node [] ;; push_required_root_nodes ;; push_begin_node (bs "first") ;;
  push_begin_node (bs "serial@1000") ;; push_property REG_OFFSET (bs "1000") ;; push_end_node ;; push_end_node ;;
  push_begin_node (bs "second") ;; push_begin_node (bs "serial@1000") ;; push_property REG_OFFSET (bs "1000") ;;
  push_end_node ;; push_end_node ;; push_end_node ;; push_end ;;
  let* bytes := get in let* result := catch (Structure.new bytes strings) in assert (is_ok result)).

Definition same_node_name_with_different_unit_addresses_is_valid : test := run (
  vec_new ;; push_begin_node [] ;; push_required_root_nodes ;; push_begin_node (bs "serial@1000") ;;
  push_property REG_OFFSET (bs "1000") ;; push_end_node ;; push_begin_node (bs "serial@2000") ;;
  push_property REG_OFFSET (bs "2000") ;; push_end_node ;; push_end_node ;; push_end ;;
  let* bytes := get in let* result := catch (Structure.new bytes strings) in assert (is_ok result)).

Definition duplicate_node_name_in_nested_parent_is_rejected : test := run (
  vec_new ;; push_begin_node [] ;; push_begin_node (bs "soc") ;;
  let* first_node_offset := push_begin_node (bs "serial@1000") in push_property REG_OFFSET (bs "1000") ;;
  push_end_node ;; let* duplicate_node_offset := push_begin_node (bs "serial@1000") in
  push_property REG_OFFSET (bs "1000") ;; push_end_node ;; push_end_node ;; push_end_node ;; push_end ;;
  let* bytes := get in let* error := unwrap_err (Structure.new bytes strings) in
  assert_eq error (DuplicateNodeName first_node_offset duplicate_node_offset 2)).

Definition same_node_name_at_different_parent_depth_with_nops_is_valid : test := run (
  vec_new ;; push_begin_node [] ;; push_required_root_nodes ;; push_begin_node (bs "wrapper") ;; push_nop ;;
  push_nop ;; push_nop ;; push_begin_node (bs "serial@1000") ;; push_property REG_OFFSET (bs "1000") ;;
  push_end_node ;; push_nop ;; push_nop ;; push_nop ;; push_end_node ;; push_begin_node (bs "serial@1000") ;;
  push_property REG_OFFSET (bs "1000") ;; push_end_node ;; push_end_node ;; push_end ;;
  let* bytes := get in let* result := catch (Structure.new bytes strings) in assert (is_ok result)).

Definition property_after_child_is_rejected : test := run (
  vec_new ;; push_begin_node [] ;; push_begin_node (bs "child") ;; push_end_node ;;
  let* property_offset := push_property COMPATIBLE_OFFSET (bs "too-late") in let* bytes := get in
  let* error := unwrap_err (Structure.new bytes strings) in assert_eq error (PropertyAfterChild property_offset 1)).

Definition missing_property_length_is_rejected : test := run (
  vec_new ;; push_begin_node [] ;; push_token FdtStructure.Property ;; let* expected_offset := len in
  let* bytes := get in let* error := unwrap_err (Structure.new bytes strings) in
  assert_eq error (FdtStructure.Read (Truncated expected_offset 4 0))).

Definition missing_property_name_offset_is_rejected : test := run (
  vec_new ;; push_begin_node [] ;; push_token FdtStructure.Property ;; push_u32 0 ;; let* expected_offset := len in
  let* bytes := get in let* error := unwrap_err (Structure.new bytes strings) in
  assert_eq error (FdtStructure.Read (Truncated expected_offset 4 0))).

Definition truncated_property_padding_is_rejected : test := run (
  vec_new ;; push_begin_node [] ;; push_token FdtStructure.Property ;; push_u32 1 ;; push_u32 COMPATIBLE_OFFSET ;;
  push xaa ;; let* padding_offset := len in let* bytes := get in
  let* error := unwrap_err (Structure.new bytes strings) in
  assert_eq error (FdtStructure.Read (Truncated padding_offset 3 0))).

Definition duplicate_property_name_is_rejected : test := run (
  vec_new ;; push_begin_node [] ;; let* first_property_offset := push_property COMPATIBLE_OFFSET (bs "first") in
  let* duplicate_property_offset := push_property COMPATIBLE_OFFSET (bs "second") in push_end_node ;; push_end ;;
  let* bytes := get in let* error := unwrap_err (Structure.new bytes strings) in
  assert_eq error (DuplicatePropertyName first_property_offset duplicate_property_offset COMPATIBLE_OFFSET 1)).

Definition same_property_name_in_different_nodes_is_valid : test := run (
  vec_new ;; push_begin_node [] ;; push_required_root_nodes ;; push_begin_node (bs "first") ;;
  push_property COMPATIBLE_OFFSET (bs "first") ;; push_end_node ;; push_begin_node (bs "second") ;;
  push_property COMPATIBLE_OFFSET (bs "second") ;; push_end_node ;; push_end_node ;; push_end ;;
  let* bytes := get in let* result := catch (Structure.new bytes strings) in assert (is_ok result)).

Definition duplicate_property_names_at_different_string_offsets_are_rejected : test := run (
  let DUPLICATE_OFFSET := 11 in let strings := Strings.new (bs "compatible" ++ [x00] ++ bs "compatible" ++ [x00]) in
  vec_new ;; push_begin_node [] ;; let* first_property_offset := push_property 0 (bs "first") in
  let* duplicate_property_offset := push_property DUPLICATE_OFFSET (bs "second") in push_end_node ;; push_end ;;
  let* bytes := get in let* error := unwrap_err (Structure.new bytes strings) in
  assert_eq error (DuplicatePropertyName first_property_offset duplicate_property_offset DUPLICATE_OFFSET 1)).

Definition nop_in_property_prefix_is_ignored : test := run (
  vec_new ;; push_begin_node [] ;; push_property REG_OFFSET [xaa] ;; push_nop ;;
  let* first_property_offset := push_property COMPATIBLE_OFFSET (bs "first") in
  let* duplicate_property_offset := push_property COMPATIBLE_OFFSET (bs "second") in push_end_node ;; push_end ;;
  let* bytes := get in let* error := unwrap_err (Structure.new bytes strings) in
  assert_eq error (DuplicatePropertyName first_property_offset duplicate_property_offset COMPATIBLE_OFFSET 1)).

Definition duplicate_property_is_found_after_different_property : test := run (
  vec_new ;; push_begin_node [] ;; push_property REG_OFFSET [xaa] ;;
  let* first_property_offset := push_property COMPATIBLE_OFFSET (bs "first") in
  let* duplicate_property_offset := push_property COMPATIBLE_OFFSET (bs "second") in push_end_node ;; push_end ;;
  let* bytes := get in let* error := unwrap_err (Structure.new bytes strings) in
  assert_eq error (DuplicatePropertyName first_property_offset duplicate_property_offset COMPATIBLE_OFFSET 1)).

Definition property_after_grandchild_is_rejected_in_parent : test := run (
  vec_new ;; push_begin_node [] ;; push_begin_node (bs "parent") ;; push_begin_node (bs "child") ;; push_end_node ;;
  let* property_offset := push_property COMPATIBLE_OFFSET (bs "too-late") in let* bytes := get in
  let* error := unwrap_err (Structure.new bytes strings) in assert_eq error (PropertyAfterChild property_offset 2)).

Definition invalid_property_name_is_reported : test := run (
  let strings := Strings.new (bs "good" ++ [x00] ++ bs "bad@name" ++ [x00]) in vec_new ;; push_begin_node [] ;;
  let* property_offset := push_property 5 (bs "value") in let* bytes := get in
  let* error := unwrap_err (Structure.new bytes strings) in
  assert_eq error (InvalidPropertyName property_offset 5 (InvalidCharacter 5 3 x40))).

Definition truncated_property_value_is_rejected : test := run (
  vec_new ;; push_begin_node [] ;; push_token FdtStructure.Property ;; push_u32 4 ;; push_u32 COMPATIBLE_OFFSET ;;
  let* value_offset := len in extend_from_slice [xaa; xbb] ;;
  let* bytes := get in let* error := unwrap_err (Structure.new bytes strings) in
  assert_eq error (FdtStructure.Read (Truncated value_offset 4 2))).

Definition invalid_token_inside_tree_is_rejected : test := run (
  vec_new ;; push_begin_node [] ;; let* offset := len in push_u32 0xdeadbeef ;;
  let* bytes := get in let* error := unwrap_err (Structure.new bytes strings) in
  assert_eq error (InvalidToken offset 0xdeadbeef)).

Definition end_token_before_root_closes_is_rejected : test := run (
  vec_new ;; push_begin_node [] ;; let* offset := push_end in let* bytes := get in
  let* error := unwrap_err (Structure.new bytes strings) in assert_eq error (PrematureEnd offset 1)).

Definition end_token_inside_nested_node_reports_current_depth : test := run (
  vec_new ;; push_begin_node [] ;; push_begin_node (bs "child") ;; let* offset := push_end in let* bytes := get in
  let* error := unwrap_err (Structure.new bytes strings) in assert_eq error (PrematureEnd offset 2)).

Definition root_must_be_followed_by_end_token : test := run (
  vec_new ;; push_begin_node [] ;; push_required_root_nodes ;; push_end_node ;; let* offset := push_token BeginNode in
  let* bytes := get in let* error := unwrap_err (Structure.new bytes strings) in
  assert_eq error (ExpectedEnd offset (Token_value BeginNode))).

Definition data_after_end_token_is_rejected : test := run (
  minimal_structure ;; let* trailing_offset := len in extend_from_slice [xde; xad; xbe; xef] ;;
  let* bytes := get in let* error := unwrap_err (Structure.new bytes strings) in
  assert_eq error (TrailingData trailing_offset 4)).

Definition missing_end_token_is_reported_as_truncation : test := run (
  vec_new ;; push_begin_node [] ;; push_end_node ;; let* expected_offset := len in let* bytes := get in
  let* error := unwrap_err (Structure.new bytes strings) in
  assert_eq error (FdtStructure.Read (Truncated expected_offset 4 0))).

Definition tests : list test :=
  [debug_reports_structure_size; empty_structure_block_is_rejected; missing_root_node_name_is_rejected;
   truncated_root_node_padding_is_rejected; structure_with_properties_and_children_is_valid;
   properties_are_allowed_in_later_sibling_nodes; nops_before_root_and_before_end_are_valid;
   non_begin_node_token_cannot_start_tree; root_name_must_be_empty; unterminated_child_node_name_is_rejected;
   invalid_child_node_name_is_reported_with_offset; duplicate_sibling_node_name_is_rejected;
   same_node_name_under_different_parents_is_valid; same_node_name_with_different_unit_addresses_is_valid;
   duplicate_node_name_in_nested_parent_is_rejected; same_node_name_at_different_parent_depth_with_nops_is_valid;
   property_after_child_is_rejected; missing_property_length_is_rejected; missing_property_name_offset_is_rejected;
   truncated_property_padding_is_rejected; duplicate_property_name_is_rejected;
   same_property_name_in_different_nodes_is_valid; duplicate_property_names_at_different_string_offsets_are_rejected;
   nop_in_property_prefix_is_ignored; duplicate_property_is_found_after_different_property;
   property_after_grandchild_is_rejected_in_parent; invalid_property_name_is_reported;
   truncated_property_value_is_rejected; invalid_token_inside_tree_is_rejected;
   end_token_before_root_closes_is_rejected; end_token_inside_nested_node_reports_current_depth;
   root_must_be_followed_by_end_token; data_after_end_token_is_rejected; missing_end_token_is_reported_as_truncation].

Lemma structure_tests_pass : Forall passes tests.
Proof. all_pass. Qed.

End StructureTests.

(** ** [structure/view.rs] *)
Module ViewTests.

(** Both test modules start from the root of a block just built. *)
Definition built_root : building View.Node :=
  let* bytes := get in let* structure := unwrap (Structure.new bytes strings) in
  lift (View.root structure strings).

Definition child (node : View.Node) (name : list byte) : building View.Node :=
  let* found := lift (View.child node name) in unwrap_some found.

Definition children_returns_only_direct_children : test := run (
  structure_with_nested_children ;; let* root := built_root in
  let* (node, children) := invoke View.Children.next (View.children root) in
  assert_eq (View.name <$> node) (Some (bs "cpus")) ;;
  let* (node, children) := invoke View.Children.next children in
  assert_eq (View.name <$> node) (Some (bs "memory@0")) ;;
  let* (node, children) := invoke View.Children.next children in
  assert_eq (View.name <$> node) (Some (bs "soc")) ;;
  let* (node, children) := invoke View.Children.next children in assert (is_none node)).

Definition nested_children_are_accessible_from_their_parent : test := run (
  structure_with_nested_children ;; let* root := built_root in
  let* soc := child root (bs "soc") in let* uart := child soc (bs "uart") in
  assert_eq (View.name uart) (bs "uart")).

Definition properties_returns_only_direct_properties : test := run (
  structure_with_nested_properties ;; let* root := built_root in
  let* property := lift (View.property root (bs "root-property")) in let* property := unwrap_some property in
  assert_eq (View.property_name property) (bs "root-property") ;;
  assert_eq (View.value property) [x01; x02; x03] ;;
  let* property := lift (View.property root (bs "child-property")) in assert (is_none property) ;;
  let* node := child root (bs "child") in
  let* property := lift (View.property node (bs "child-property")) in let* property := unwrap_some property in
  assert_eq (View.value property) [x04; x05]).

Definition traversing_returned_child_does_not_advance_parent_iterator : test := run (
  structure_with_nested_children ;; let* root := built_root in
  let* (cpus, root_children) := invoke View.Children.next (View.children root) in
  let* cpus := unwrap_some cpus in assert_eq (View.name cpus) (bs "cpus") ;;
  let* (cpu, _) := invoke View.Children.next (View.children cpus) in
  let* cpu := unwrap_some cpu in assert_eq (View.name cpu) (bs "cpu") ;;
  let* (memory, root_children) := invoke View.Children.next root_children in
  let* memory := unwrap_some memory in assert_eq (View.name memory) (bs "memory@0") ;;
  let* (node, root_children) := invoke View.Children.next root_children in assert (negb (is_none node))).

Definition tests : list test :=
  [children_returns_only_direct_children; nested_children_are_accessible_from_their_parent;
   properties_returns_only_direct_properties; traversing_returned_child_does_not_advance_parent_iterator].

Lemma view_tests_pass : Forall passes tests.
Proof. all_pass. Qed.

End ViewTests.

(** ** [structure/semantic.rs] *)
Module SemanticTests.

Definition validate (bytes : list byte) : building (outcome StructureError unit) :=
  let* structure := unwrap (Structure.new bytes strings) in
  catch (validate_semantics structure strings).

Definition required_root_nodes_are_accepted : test := run (
  vec_new ;; push_begin_node [] ;; push_required_root_nodes ;; push_end_node ;; push_end ;;
  let* bytes := get in let* result := validate bytes in assert_eq result (Ok tt)).

Definition missing_cpus_node_is_rejected : test := run (
  vec_new ;; push_begin_node [] ;; push_begin_node (bs "memory@0") ;; push_property REG_OFFSET (bs "0") ;;
  push_end_node ;; push_end_node ;; push_end ;;
  let* bytes := get in let* result := validate bytes in assert_eq result (Err (Semantic MissingCpusNode))).

Definition missing_memory_node_is_rejected : test := run (
  vec_new ;; push_begin_node [] ;; push_begin_node (bs "cpus") ;; push_end_node ;; push_end_node ;; push_end ;;
  let* bytes := get in let* result := validate bytes in assert_eq result (Err (Semantic MissingMemoryNode))).

Definition nested_cpus_node_does_not_satisfy_requirement : test := run (
  vec_new ;; push_begin_node [] ;; push_begin_node (bs "memory@0") ;; push_property REG_OFFSET (bs "0") ;;
  push_begin_node (bs "cpus") ;; push_end_node ;; push_end_node ;; push_end_node ;; push_end ;;
  let* bytes := get in let* result := validate bytes in assert_eq result (Err (Semantic MissingCpusNode))).

Definition nested_memory_node_does_not_satisfy_requirement : test := run (
  vec_new ;; push_begin_node [] ;; push_begin_node (bs "cpus") ;; push_begin_node (bs "memory@0") ;;
  push_property REG_OFFSET (bs "0") ;; push_end_node ;; push_end_node ;; push_end_node ;; push_end ;;
  let* bytes := get in let* result := validate bytes in assert_eq result (Err (Semantic MissingMemoryNode))).

Definition reserved_memory_semantics_are_validated : test := run (
  vec_new ;; push_begin_node [] ;; push_required_root_nodes ;; push_begin_node (bs "reserved-memory") ;;
  push_property SIZE_CELLS_OFFSET (be_bytes 4 1) ;; push_property RANGES_OFFSET [] ;; push_end_node ;;
  push_end_node ;; push_end ;;
  let* bytes := get in let* result := validate bytes in
  assert_eq result (Err (Semantic MissingReservedMemoryAddressCells))).

Definition tests : list test :=
  [required_root_nodes_are_accepted; missing_cpus_node_is_rejected; missing_memory_node_is_rejected;
   nested_cpus_node_does_not_satisfy_requirement; nested_memory_node_does_not_satisfy_requirement;
   reserved_memory_semantics_are_validated].

Lemma semantic_tests_pass : Forall passes tests.
Proof. all_pass. Qed.

End SemanticTests.

(** ** [structure/semantic/addressing.rs] *)
Module AddressingTests.

Definition validate_structure (bytes : list byte) : building (outcome SemanticError unit) :=
  let* structure := unwrap (Structure.new bytes strings) in
  let* root := lift (View.root structure strings) in
  catch (Addressing.validate root).

Definition unit_address_with_reg_is_accepted : test := run (
  vec_new ;; push_begin_node [] ;; push_required_root_nodes ;; push_begin_node (bs "device@1000") ;;
  push_property REG_OFFSET [x00; x00; x00; x00; x00; x00; x10; x00; x00; x00; x01; x00] ;; push_end_node ;;
  push_end_node ;; push_end ;;
  let* bytes := get in let* result := validate_structure bytes in assert_eq result (Ok tt)).

Definition unit_address_with_ranges_is_accepted : test := run (
  vec_new ;; push_begin_node [] ;; push_required_root_nodes ;; push_begin_node (bs "platform-bus@4000000") ;;
  push_property RANGES_OFFSET [x00; x00; x00; x01] ;; push_end_node ;; push_end_node ;; push_end ;;
  let* bytes := get in let* result := validate_structure bytes in assert_eq result (Ok tt)).

Definition unit_address_without_address_property_is_rejected : test := run (
  vec_new ;; push_begin_node [] ;; push_required_root_nodes ;; push_begin_node (bs "device@1000") ;; push_end_node ;;
  push_end_node ;; push_end ;;
  let* bytes := get in let* result := validate_structure bytes in assert_eq result (Err UnitAddressWithoutReg)).

Definition nested_unit_address_without_address_property_is_rejected : test := run (
  vec_new ;; push_begin_node [] ;; push_required_root_nodes ;; push_begin_node (bs "soc") ;;
  push_begin_node (bs "device@1000") ;; push_end_node ;; push_end_node ;; push_end_node ;; push_end ;;
  let* bytes := get in let* result := validate_structure bytes in assert_eq result (Err UnitAddressWithoutReg)).

Definition explicit_cell_counts_are_decoded : test := run (
  vec_new ;; push_begin_node [] ;; push_cell_counts 1 2 ;; push_required_root_nodes ;; push_end_node ;; push_end ;;
  let* bytes := get in let* structure := unwrap (Structure.new bytes strings) in
  let* root := lift (View.root structure strings) in let* result := catch (Addressing.validate root) in
  assert_eq result (Ok tt) ;; let* addressing := lift (Addressing.child_addressing root) in
  assert_eq (Addressing.address_get (Addressing.address_cells addressing)) 1 ;;
  let* addressing := lift (Addressing.child_addressing root) in
  assert_eq (Addressing.size_get (Addressing.size_cells addressing)) 2).

Definition missing_cell_counts_use_defaults : test := run (
  vec_new ;; push_begin_node [] ;; push_required_root_nodes ;; push_end_node ;; push_end ;;
  let* bytes := get in let* structure := unwrap (Structure.new bytes strings) in
  let* root := lift (View.root structure strings) in let* result := catch (Addressing.validate root) in
  assert_eq result (Ok tt) ;; let* addressing := lift (Addressing.child_addressing root) in
  assert_eq (Addressing.address_get (Addressing.address_cells addressing)) 2 ;;
  let* addressing := lift (Addressing.child_addressing root) in
  assert_eq (Addressing.size_get (Addressing.size_cells addressing)) 1).

Definition invalid_address_cells_lengths_are_rejected : test := run (
  let values := [[]; [x00; x00; x01]; [x00; x00; x00; x01; x00; x00; x00; x02]] in
  for_each values (fun value =>
    vec_new ;; push_begin_node [] ;; push_property ADDRESS_CELLS_OFFSET value ;; push_required_root_nodes ;;
    push_end_node ;; push_end ;;
    let* bytes := get in let* result := validate_structure bytes in
    assert_eq result (Err (InvalidAddressCells (zlen value))))).

Definition invalid_size_cells_lengths_are_rejected : test := run (
  let values := [[]; [x00; x00; x01]; [x00; x00; x00; x01; x00; x00; x00; x02]] in
  for_each values (fun value =>
    vec_new ;; push_begin_node [] ;; push_property SIZE_CELLS_OFFSET value ;; push_required_root_nodes ;;
    push_end_node ;; push_end ;;
    let* bytes := get in let* result := validate_structure bytes in
    assert_eq result (Err (InvalidSizeCells (zlen value))))).

Definition cell_counts_are_not_inherited : test := run (
  vec_new ;; push_begin_node [] ;; push_cell_counts 1 2 ;; push_begin_node (bs "bus") ;;
  push_begin_node (bs "device") ;; push_end_node ;; push_end_node ;; push_required_root_nodes ;; push_end_node ;;
  push_end ;;
  let* bytes := get in let* structure := unwrap (Structure.new bytes strings) in
  let* root := lift (View.root structure strings) in let* result := catch (Addressing.validate root) in
  assert_eq result (Ok tt) ;; let* addressing := lift (Addressing.child_addressing root) in
  assert_eq (Addressing.address_get (Addressing.address_cells addressing)) 1 ;;
  let* addressing := lift (Addressing.child_addressing root) in
  assert_eq (Addressing.size_get (Addressing.size_cells addressing)) 2 ;;
  let* found := lift (View.child root (bs "bus")) in let* bus := unwrap_some found in
  let* addressing := lift (Addressing.child_addressing bus) in
  assert_eq (Addressing.address_get (Addressing.address_cells addressing)) 2 ;;
  let* addressing := lift (Addressing.child_addressing bus) in
  assert_eq (Addressing.size_get (Addressing.size_cells addressing)) 1).

Definition reg_absent_is_accepted : test := run (
  vec_new ;; push_begin_node [] ;; push_begin_node (bs "device") ;; push_end_node ;; push_end_node ;; push_end ;;
  let* bytes := get in let* result := validate_structure bytes in assert_eq result (Ok tt)).

Definition single_reg_entry_is_accepted : test := run (
  vec_new ;; push_begin_node [] ;; push_begin_node (bs "device@1000") ;;
  push_reg_cells [0x00000000; 0x00001000; 0x00000100] ;; push_end_node ;; push_end_node ;; push_end ;;
  let* bytes := get in let* result := validate_structure bytes in assert_eq result (Ok tt)).

Definition multiple_reg_entries_are_accepted : test := run (
  vec_new ;; push_begin_node [] ;; push_begin_node (bs "device@1000") ;;
  push_reg_cells [0x00000000; 0x00001000; 0x00000100; 0x00000000; 0x00002000; 0x00000200] ;; push_end_node ;;
  push_end_node ;; push_end ;;
  let* bytes := get in let* result := validate_structure bytes in assert_eq result (Ok tt)).

Definition incomplete_reg_entry_is_rejected : test := run (
  vec_new ;; push_begin_node [] ;; push_begin_node (bs "device@1000") ;; push_reg_cells [0x00000000; 0x00001000] ;;
  push_end_node ;; push_end_node ;; push_end ;;
  let* bytes := get in let* result := validate_structure bytes in assert_eq result (Err (InvalidRegLength 8 12))).

Definition reg_uses_parent_cell_counts : test := run (
  vec_new ;; push_begin_node [] ;; push_cell_counts 1 1 ;; push_begin_node (bs "device@1000") ;;
  push_reg_cells [0x00001000; 0x00000100] ;; push_end_node ;; push_end_node ;; push_end ;;
  let* bytes := get in let* result := validate_structure bytes in assert_eq result (Ok tt)).

Definition reg_uses_immediate_parent_cell_counts : test := run (
  vec_new ;; push_begin_node [] ;; push_cell_counts 1 1 ;; push_begin_node (bs "bus") ;;
  push_begin_node (bs "device@1000") ;; push_reg_cells [0x00000000; 0x00001000; 0x00000100] ;; push_end_node ;;
  push_end_node ;; push_end_node ;; push_end ;;
  let* bytes := get in let* result := validate_structure bytes in assert_eq result (Ok tt)).

Definition zero_size_cells_omits_size_field : test := run (
  vec_new ;; push_begin_node [] ;; push_cell_counts 2 0 ;; push_begin_node (bs "device@1000") ;;
  push_reg_cells [0x00000000; 0x00001000] ;; push_end_node ;; push_end_node ;; push_end ;;
  let* bytes := get in let* result := validate_structure bytes in assert_eq result (Ok tt)).

Definition zero_size_cells_rejects_size_field : test := run (
  vec_new ;; push_begin_node [] ;; push_cell_counts 2 0 ;; push_begin_node (bs "device@1000") ;;
  push_reg_cells [0x00000000; 0x00001000; 0x00000100] ;; push_end_node ;; push_end_node ;; push_end ;;
  let* bytes := get in let* result := validate_structure bytes in assert_eq result (Err (InvalidRegLength 12 8))).

Definition zero_width_reg_accepts_empty_value : test := run (
  vec_new ;; push_begin_node [] ;; push_cell_counts 0 0 ;; push_begin_node (bs "device") ;;
  push_property REG_OFFSET [] ;; push_end_node ;; push_end_node ;; push_end ;;
  let* bytes := get in let* result := validate_structure bytes in assert_eq result (Ok tt)).

Definition zero_width_reg_rejects_nonempty_value : test := run (
  vec_new ;; push_begin_node [] ;; push_cell_counts 0 0 ;; push_begin_node (bs "device") ;;
  push_reg_cells [0x00000000] ;; push_end_node ;; push_end_node ;; push_end ;;
  let* bytes := get in let* result := validate_structure bytes in assert_eq result (Err (InvalidRegLength 4 0))).

Definition tests : list test :=
  [unit_address_with_reg_is_accepted; unit_address_with_ranges_is_accepted;
   unit_address_without_address_property_is_rejected; nested_unit_address_without_address_property_is_rejected;
   explicit_cell_counts_are_decoded; missing_cell_counts_use_defaults; invalid_address_cells_lengths_are_rejected;
   invalid_size_cells_lengths_are_rejected; cell_counts_are_not_inherited; reg_absent_is_accepted;
   single_reg_entry_is_accepted; multiple_reg_entries_are_accepted; incomplete_reg_entry_is_rejected;
   reg_uses_parent_cell_counts; reg_uses_immediate_parent_cell_counts; zero_size_cells_omits_size_field;
   zero_size_cells_rejects_size_field; zero_width_reg_accepts_empty_value; zero_width_reg_rejects_nonempty_value].

Lemma addressing_tests_pass : Forall passes tests.
Proof. all_pass. Qed.

End AddressingTests.

(** ** [structure/semantic/memory.rs] *)
Module MemoryTests.

Definition validate_structure (bytes : list byte) : building (outcome SemanticError unit) :=
  let* structure := unwrap (Structure.new bytes strings) in
  let* root := lift (View.root structure strings) in
  catch (let? _ := Addressing.validate root in Memory.validate root).

Definition memory_range_debug_uses_hex : test := run (
  assert_eq (Memory.debug (mkRegRange 0x80000000 0x40000000))
    (bs "MemoryRange { address: 0x80000000, size: 0x40000000 }")).

Definition memory_ranges_flatten_entries_across_memory_nodes : test := run (
  vec_new ;; push_begin_node [] ;; push_begin_node (bs "cpus") ;; push_end_node ;;
  push_begin_node (bs "memory@100000000") ;; push_property DEVICE_TYPE_OFFSET (bs "memory" ++ [x00]) ;;
  push_reg_cells [0x00000001; 0x00000000; 0x10000000; 0x00000002; 0x00000000; 0x20000000] ;; push_end_node ;;
  push_begin_node (bs "memory@300000000") ;; push_property DEVICE_TYPE_OFFSET (bs "memory" ++ [x00]) ;;
  push_reg_cells [0x00000003; 0x00000000; 0x30000000] ;; push_end_node ;; push_end_node ;; push_end ;;
  let* bytes := get in let* structure := unwrap (Structure.new bytes strings) in
  let* root := lift (View.root structure strings) in unwrap (Addressing.validate root) ;;
  unwrap (Memory.validate root) ;; let* ranges := lift (Memory.new root) in
  let* (first, ranges) := invoke Memory.next ranges in let* first := unwrap_some first in
  assert_eq (address first) 0x100000000 ;; assert_eq (size first) 0x10000000 ;;
  let* (second, ranges) := invoke Memory.next ranges in let* second := unwrap_some second in
  assert_eq (address second) 0x200000000 ;; assert_eq (size second) 0x20000000 ;;
  let* (third, ranges) := invoke Memory.next ranges in let* third := unwrap_some third in
  assert_eq (address third) 0x300000000 ;; assert_eq (size third) 0x30000000 ;;
  let* (range, ranges) := invoke Memory.next ranges in assert (is_none range)).

Definition memory_ranges_use_root_cell_counts : test := run (
  vec_new ;; push_begin_node [] ;; push_cell_counts 1 2 ;; push_begin_node (bs "cpus") ;; push_end_node ;;
  push_begin_node (bs "memory@12345678") ;; push_property DEVICE_TYPE_OFFSET (bs "memory" ++ [x00]) ;;
  push_reg_cells [0x12345678; 0x00000001; 0x80000000] ;; push_end_node ;; push_end_node ;; push_end ;;
  let* bytes := get in let* structure := unwrap (Structure.new bytes strings) in
  let* root := lift (View.root structure strings) in unwrap (Addressing.validate root) ;;
  unwrap (Memory.validate root) ;; let* ranges := lift (Memory.new root) in
  let* (range, ranges) := invoke Memory.next ranges in let* range := unwrap_some range in
  assert_eq (address range) 0x12345678 ;; assert_eq (size range) 0x180000000 ;;
  let* (range, ranges) := invoke Memory.next ranges in assert (is_none range)).

Definition memory_node_without_device_type_is_rejected : test := run (
  vec_new ;; push_begin_node [] ;; push_begin_node (bs "cpus") ;; push_end_node ;; push_begin_node (bs "memory@0") ;;
  push_reg_cells [0; 0; 0x1000] ;; push_end_node ;; push_end_node ;; push_end ;;
  let* bytes := get in let* result := validate_structure bytes in assert_eq result (Err MissingMemoryDeviceType)).

Definition memory_node_with_invalid_device_type_is_rejected : test := run (
  vec_new ;; push_begin_node [] ;; push_begin_node (bs "cpus") ;; push_end_node ;; push_begin_node (bs "memory@0") ;;
  push_property DEVICE_TYPE_OFFSET (bs "cpu" ++ [x00]) ;; push_reg_cells [0; 0; 0x1000] ;; push_end_node ;;
  push_end_node ;; push_end ;;
  let* bytes := get in let* result := validate_structure bytes in assert_eq result (Err InvalidMemoryDeviceType)).

Definition memory_node_without_reg_is_rejected : test := run (
  vec_new ;; push_begin_node [] ;; push_begin_node (bs "cpus") ;; push_end_node ;; push_begin_node (bs "memory") ;;
  push_property DEVICE_TYPE_OFFSET (bs "memory" ++ [x00]) ;; push_end_node ;; push_end_node ;; push_end ;;
  let* bytes := get in let* result := validate_structure bytes in assert_eq result (Err MissingMemoryReg)).

Definition memory_address_larger_than_u64_is_rejected : test := run (
  vec_new ;; push_begin_node [] ;; push_cell_counts 3 1 ;; push_begin_node (bs "cpus") ;; push_end_node ;;
  push_begin_node (bs "memory") ;; push_property DEVICE_TYPE_OFFSET (bs "memory" ++ [x00]) ;;
  push_reg_cells [0x00000001; 0x00000000; 0x00000000; 0x00001000] ;; push_end_node ;; push_end_node ;; push_end ;;
  let* bytes := get in let* result := validate_structure bytes in assert_eq result (Err MemoryAddressDoesNotFitU64)).

Definition memory_size_larger_than_u64_is_rejected : test := run (
  vec_new ;; push_begin_node [] ;; push_cell_counts 1 3 ;; push_begin_node (bs "cpus") ;; push_end_node ;;
  push_begin_node (bs "memory") ;; push_property DEVICE_TYPE_OFFSET (bs "memory" ++ [x00]) ;;
  push_reg_cells [0x00000000; 0x00000001; 0x00000000; 0x00000000] ;; push_end_node ;; push_end_node ;; push_end ;;
  let* bytes := get in let* result := validate_structure bytes in assert_eq result (Err MemorySizeDoesNotFitU64)).

Definition memory_address_with_extra_zero_cells_is_accepted : test := run (
  vec_new ;; push_begin_node [] ;; push_cell_counts 3 1 ;; push_begin_node (bs "cpus") ;; push_end_node ;;
  push_begin_node (bs "memory") ;; push_property DEVICE_TYPE_OFFSET (bs "memory" ++ [x00]) ;;
  push_reg_cells [0x00000000; 0x00000001; 0x80000000; 0x00001000] ;; push_end_node ;; push_end_node ;; push_end ;;
  let* bytes := get in let* structure := unwrap (Structure.new bytes strings) in
  let* root := lift (View.root structure strings) in unwrap (Addressing.validate root) ;;
  unwrap (Memory.validate root) ;; let* ranges := lift (Memory.new root) in
  let* (range, ranges) := invoke Memory.next ranges in let* range := unwrap_some range in
  assert_eq (address range) 0x180000000 ;; assert_eq (size range) 0x1000 ;;
  let* (range, ranges) := invoke Memory.next ranges in assert (is_none range)).

Definition zero_memory_address_cells_are_rejected : test := run (
  vec_new ;; push_begin_node [] ;; push_cell_counts 0 1 ;; push_begin_node (bs "cpus") ;; push_end_node ;;
  push_begin_node (bs "memory") ;; push_property DEVICE_TYPE_OFFSET (bs "memory" ++ [x00]) ;;
  push_reg_cells [0x1000] ;; push_end_node ;; push_end_node ;; push_end ;;
  let* bytes := get in let* result := validate_structure bytes in assert_eq result (Err InvalidMemoryAddressCells)).

Definition zero_memory_size_cells_are_rejected : test := run (
  vec_new ;; push_begin_node [] ;; push_cell_counts 1 0 ;; push_begin_node (bs "cpus") ;; push_end_node ;;
  push_begin_node (bs "memory") ;; push_property DEVICE_TYPE_OFFSET (bs "memory" ++ [x00]) ;;
  push_reg_cells [0x80000000] ;; push_end_node ;; push_end_node ;; push_end ;;
  let* bytes := get in let* result := validate_structure bytes in assert_eq result (Err InvalidMemorySizeCells)).

Definition empty_memory_reg_is_rejected : test := run (
  vec_new ;; push_begin_node [] ;; push_begin_node (bs "cpus") ;; push_end_node ;; push_begin_node (bs "memory@0") ;;
  push_property DEVICE_TYPE_OFFSET (bs "memory" ++ [x00]) ;; push_reg_cells [] ;; push_end_node ;; push_end_node ;;
  push_end ;;
  let* bytes := get in let* result := validate_structure bytes in assert_eq result (Err EmptyMemoryReg)).

Definition zero_sized_memory_range_is_rejected : test := run (
  vec_new ;; push_begin_node [] ;; push_begin_node (bs "cpus") ;; push_end_node ;;
  push_begin_node (bs "memory@80000000") ;; push_property DEVICE_TYPE_OFFSET (bs "memory" ++ [x00]) ;;
  push_reg_cells [0x00000000; 0x80000000; 0x00000000] ;; push_end_node ;; push_end_node ;; push_end ;;
  let* bytes := get in let* result := validate_structure bytes in assert_eq result (Err ZeroMemorySize)).

Definition memory_range_end_overflow_is_rejected : test := run (
  vec_new ;; push_begin_node [] ;; push_begin_node (bs "cpus") ;; push_end_node ;;
  push_begin_node (bs "memory@ffffffffffffffff") ;; push_property DEVICE_TYPE_OFFSET (bs "memory" ++ [x00]) ;;
  push_reg_cells [0xffffffff; 0xffffffff; 0x00000001] ;; push_end_node ;; push_end_node ;; push_end ;;
  let* bytes := get in let* result := validate_structure bytes in assert_eq result (Err MemoryRangeEndOverflow)).

Definition tests : list test :=
  [memory_range_debug_uses_hex; memory_ranges_flatten_entries_across_memory_nodes; memory_ranges_use_root_cell_counts;
   memory_node_without_device_type_is_rejected; memory_node_with_invalid_device_type_is_rejected;
   memory_node_without_reg_is_rejected; memory_address_larger_than_u64_is_rejected;
   memory_size_larger_than_u64_is_rejected; memory_address_with_extra_zero_cells_is_accepted;
   zero_memory_address_cells_are_rejected; zero_memory_size_cells_are_rejected; empty_memory_reg_is_rejected;
   zero_sized_memory_range_is_rejected; memory_range_end_overflow_is_rejected].

Lemma memory_tests_pass : Forall passes tests.
Proof. all_pass. Qed.

End MemoryTests.

(** ** [structure/semantic/reserved_memory.rs] *)
Module ReservedTests.

Definition validate_structure (bytes : list byte) : building (outcome SemanticError unit) :=
  let* structure := unwrap (Structure.new bytes strings) in
  let* root := lift (View.root structure strings) in
  catch (let? _ := Addressing.validate root in Reserved.validate root).

Definition push_reserved_memory_begin (address_cells size_cells : Z) : building unit :=
  push_begin_node Reserved.RESERVED_MEMORY_NODE_NAME ;; push_cell_counts address_cells size_cells ;;
  push_property RANGES_OFFSET [] ;; ret tt.

Definition reserved_memory_range_debug_uses_hex : test := run (
  assert_eq (Reserved.debug (mkRegRange 0x80000000 0x200000))
    (bs "ReservedMemoryRange { address: 0x80000000, size: 0x200000 }")).

Definition absent_reserved_memory_node_yields_no_ranges : test := run (
  vec_new ;; push_begin_node [] ;; push_end_node ;; push_end ;;
  let* bytes := get in let* structure := unwrap (Structure.new bytes strings) in
  let* root := lift (View.root structure strings) in unwrap (Addressing.validate root) ;;
  unwrap (Reserved.validate root) ;; let* ranges := lift (Reserved.new root) in
  let* (range, ranges) := invoke Reserved.next ranges in assert (is_none range)).

Definition reserved_memory_ranges_flatten_entries_across_children : test := run (
  vec_new ;; push_begin_node [] ;; push_reserved_memory_begin 2 1 ;; push_begin_node (bs "first@100000000") ;;
  push_reg_cells [0x00000001; 0x00000000; 0x00001000; 0x00000002; 0x00000000; 0x00002000] ;; push_end_node ;;
  push_begin_node (bs "second@300000000") ;; push_reg_cells [0x00000003; 0x00000000; 0x00003000] ;; push_end_node ;;
  push_end_node ;; push_end_node ;; push_end ;;
  let* bytes := get in let* structure := unwrap (Structure.new bytes strings) in
  let* root := lift (View.root structure strings) in unwrap (Addressing.validate root) ;;
  unwrap (Reserved.validate root) ;; let* ranges := lift (Reserved.new root) in
  let* (first, ranges) := invoke Reserved.next ranges in let* first := unwrap_some first in
  assert_eq (address first) 0x100000000 ;; assert_eq (size first) 0x1000 ;;
  let* (second, ranges) := invoke Reserved.next ranges in let* second := unwrap_some second in
  assert_eq (address second) 0x200000000 ;; assert_eq (size second) 0x2000 ;;
  let* (third, ranges) := invoke Reserved.next ranges in let* third := unwrap_some third in
  assert_eq (address third) 0x300000000 ;; assert_eq (size third) 0x3000 ;;
  let* (range, ranges) := invoke Reserved.next ranges in assert (is_none range)).

Definition reserved_memory_ranges_use_reserved_memory_cell_counts : test := run (
  vec_new ;; push_begin_node [] ;; push_cell_counts 2 1 ;; push_reserved_memory_begin 1 2 ;;
  push_begin_node (bs "buffer@12345678") ;; push_reg_cells [0x12345678; 0x00000001; 0x80000000] ;; push_end_node ;;
  push_end_node ;; push_end_node ;; push_end ;;
  let* bytes := get in let* structure := unwrap (Structure.new bytes strings) in
  let* root := lift (View.root structure strings) in unwrap (Addressing.validate root) ;;
  unwrap (Reserved.validate root) ;; let* ranges := lift (Reserved.new root) in
  let* (range, ranges) := invoke Reserved.next ranges in let* range := unwrap_some range in
  assert_eq (address range) 0x12345678 ;; assert_eq (size range) 0x180000000 ;;
  let* (range, ranges) := invoke Reserved.next ranges in assert (is_none range)).

Definition missing_reserved_memory_address_cells_are_rejected : test := run (
  vec_new ;; push_begin_node [] ;; push_begin_node Reserved.RESERVED_MEMORY_NODE_NAME ;;
  push_property SIZE_CELLS_OFFSET (be_bytes 4 1) ;; push_property RANGES_OFFSET [] ;; push_end_node ;;
  push_end_node ;; push_end ;;
  let* bytes := get in let* result := validate_structure bytes in
  assert_eq result (Err MissingReservedMemoryAddressCells)).

Definition missing_reserved_memory_size_cells_are_rejected : test := run (
  vec_new ;; push_begin_node [] ;; push_begin_node Reserved.RESERVED_MEMORY_NODE_NAME ;;
  push_property ADDRESS_CELLS_OFFSET (be_bytes 4 2) ;; push_property RANGES_OFFSET [] ;; push_end_node ;;
  push_end_node ;; push_end ;;
  let* bytes := get in let* result := validate_structure bytes in
  assert_eq result (Err MissingReservedMemorySizeCells)).

Definition missing_reserved_memory_ranges_are_rejected : test := run (
  vec_new ;; push_begin_node [] ;; push_begin_node Reserved.RESERVED_MEMORY_NODE_NAME ;; push_cell_counts 2 1 ;;
  push_end_node ;; push_end_node ;; push_end ;;
  let* bytes := get in let* result := validate_structure bytes in assert_eq result (Err MissingReservedMemoryRanges)).

Definition nonempty_reserved_memory_ranges_are_rejected : test := run (
  vec_new ;; push_begin_node [] ;; push_begin_node Reserved.RESERVED_MEMORY_NODE_NAME ;; push_cell_counts 2 1 ;;
  push_property RANGES_OFFSET [x00; x00; x00; x00] ;; push_end_node ;; push_end_node ;; push_end ;;
  let* bytes := get in let* result := validate_structure bytes in
  assert_eq result (Err NonEmptyReservedMemoryRanges)).

Definition zero_reserved_memory_address_cells_are_rejected : test := run (
  vec_new ;; push_begin_node [] ;; push_reserved_memory_begin 0 1 ;; push_end_node ;; push_end_node ;; push_end ;;
  let* bytes := get in let* result := validate_structure bytes in
  assert_eq result (Err InvalidReservedMemoryAddressCells)).

Definition zero_reserved_memory_size_cells_are_rejected : test := run (
  vec_new ;; push_begin_node [] ;; push_reserved_memory_begin 1 0 ;; push_end_node ;; push_end_node ;; push_end ;;
  let* bytes := get in let* result := validate_structure bytes in
  assert_eq result (Err InvalidReservedMemorySizeCells)).

Definition reserved_memory_child_without_allocation_is_rejected : test := run (
  vec_new ;; push_begin_node [] ;; push_reserved_memory_begin 2 1 ;; push_begin_node (bs "buffer") ;; push_end_node ;;
  push_end_node ;; push_end_node ;; push_end ;;
  let* bytes := get in let* result := validate_structure bytes in
  assert_eq result (Err MissingReservedMemoryAllocation)).

Definition dynamic_reserved_memory_is_rejected_as_unsupported : test := run (
  vec_new ;; push_begin_node [] ;; push_reserved_memory_begin 2 1 ;; push_begin_node (bs "buffer") ;;
  push_property SIZE_OFFSET (be_bytes 4 0x1000) ;; push_end_node ;; push_end_node ;; push_end_node ;; push_end ;;
  let* bytes := get in let* result := validate_structure bytes in
  assert_eq result (Err UnsupportedDynamicReservedMemory)).

Definition reg_takes_precedence_over_size : test := run (
  vec_new ;; push_begin_node [] ;; push_reserved_memory_begin 2 1 ;; push_begin_node (bs "buffer@80000000") ;;
  push_reg_cells [0x00000000; 0x80000000; 0x00001000] ;; push_property SIZE_OFFSET (be_bytes 4 0x2000) ;;
  push_end_node ;; push_end_node ;; push_end_node ;; push_end ;;
  let* bytes := get in let* structure := unwrap (Structure.new bytes strings) in
  let* root := lift (View.root structure strings) in unwrap (Addressing.validate root) ;;
  unwrap (Reserved.validate root) ;; let* ranges := lift (Reserved.new root) in
  let* (range, ranges) := invoke Reserved.next ranges in let* range := unwrap_some range in
  assert_eq (address range) 0x80000000 ;; assert_eq (size range) 0x1000 ;;
  let* (range, ranges) := invoke Reserved.next ranges in assert (is_none range)).

Definition empty_reserved_memory_reg_is_rejected : test := run (
  vec_new ;; push_begin_node [] ;; push_reserved_memory_begin 2 1 ;; push_begin_node (bs "buffer") ;;
  push_reg_cells [] ;; push_end_node ;; push_end_node ;; push_end_node ;; push_end ;;
  let* bytes := get in let* result := validate_structure bytes in assert_eq result (Err EmptyReservedMemoryReg)).

Definition reserved_memory_address_larger_than_u64_is_rejected : test := run (
  vec_new ;; push_begin_node [] ;; push_reserved_memory_begin 3 1 ;; push_begin_node (bs "buffer") ;;
  push_reg_cells [0x00000001; 0x00000000; 0x00000000; 0x00001000] ;; push_end_node ;; push_end_node ;;
  push_end_node ;; push_end ;;
  let* bytes := get in let* result := validate_structure bytes in
  assert_eq result (Err ReservedMemoryAddressDoesNotFitU64)).

Definition reserved_memory_size_larger_than_u64_is_rejected : test := run (
  vec_new ;; push_begin_node [] ;; push_reserved_memory_begin 1 3 ;; push_begin_node (bs "buffer") ;;
  push_reg_cells [0x00000000; 0x00000001; 0x00000000; 0x00000000] ;; push_end_node ;; push_end_node ;;
  push_end_node ;; push_end ;;
  let* bytes := get in let* result := validate_structure bytes in
  assert_eq result (Err ReservedMemorySizeDoesNotFitU64)).

Definition zero_sized_reserved_memory_range_is_rejected : test := run (
  vec_new ;; push_begin_node [] ;; push_reserved_memory_begin 2 1 ;; push_begin_node (bs "buffer") ;;
  push_reg_cells [0x00000000; 0x80000000; 0x00000000] ;; push_end_node ;; push_end_node ;; push_end_node ;;
  push_end ;;
  let* bytes := get in let* result := validate_structure bytes in assert_eq result (Err ZeroReservedMemorySize)).

Definition reserved_memory_range_end_overflow_is_rejected : test := run (
  vec_new ;; push_begin_node [] ;; push_reserved_memory_begin 2 1 ;; push_begin_node (bs "buffer@ffffffffffffffff") ;;
  push_reg_cells [0xffffffff; 0xffffffff; 0x00000001] ;; push_end_node ;; push_end_node ;; push_end_node ;;
  push_end ;;
  let* bytes := get in let* result := validate_structure bytes in
  assert_eq result (Err ReservedMemoryRangeEndOverflow)).

Definition tests : list test :=
  [reserved_memory_range_debug_uses_hex; absent_reserved_memory_node_yields_no_ranges;
   reserved_memory_ranges_flatten_entries_across_children; reserved_memory_ranges_use_reserved_memory_cell_counts;
   missing_reserved_memory_address_cells_are_rejected; missing_reserved_memory_size_cells_are_rejected;
   missing_reserved_memory_ranges_are_rejected; nonempty_reserved_memory_ranges_are_rejected;
   zero_reserved_memory_address_cells_are_rejected; zero_reserved_memory_size_cells_are_rejected;
   reserved_memory_child_without_allocation_is_rejected; dynamic_reserved_memory_is_rejected_as_unsupported;
   reg_takes_precedence_over_size; empty_reserved_memory_reg_is_rejected;
   reserved_memory_address_larger_than_u64_is_rejected; reserved_memory_size_larger_than_u64_is_rejected;
   zero_sized_reserved_memory_range_is_rejected; reserved_memory_range_end_overflow_is_rejected].

Lemma reserved_tests_pass : Forall passes tests.
Proof. all_pass. Qed.

End ReservedTests.

(** ** [fdt.rs] *)
Module FdtTests.

Definition MAGIC : Z := 0.
Definition TOTAL_SIZE : Z := 4.
Definition STRUCTURE_OFFSET : Z := 8.
Definition STRINGS_OFFSET : Z := 12.
Definition RESERVATION_OFFSET : Z := 16.
Definition VERSION : Z := 20.
Definition LAST_COMP_VERSION : Z := 24.
Definition BOOT_CPUID_PHYS : Z := 28.
Definition STRINGS_SIZE : Z := 32.
Definition STRUCTURE_SIZE : Z := 36.
Definition DEVICE_TYPE_NAME_OFFSET : Z := 0.
Definition REG_NAME_OFFSET : Z := 12.
Definition FDT_BEGIN_NODE : Z := 0x1.
Definition FDT_PROP : Z := 0x3.
Definition FDT_END_NODE : Z := 0x2.
Definition FDT_END : Z := 0x9.

(** [Aligned]: the bytes at some address that is a multiple of eight, and
    what the memory around them holds. *)
Definition aligned_address : Z := 0x80201000.

Definition as_ptr (bytes : list byte) : Z -> byte :=
  fun a => default x00 (zget bytes (a - aligned_address)).

Definition set_u32 (offset value : Z) : building unit := copy_from_slice offset (offset + 4) (be_bytes 4 value).

Definition minimal_blob : building unit :=
  put (replicate 164 x00) ;;
  set_u32 MAGIC 0xd00dfeed ;; set_u32 TOTAL_SIZE 164 ;; set_u32 STRUCTURE_OFFSET 56 ;; set_u32 STRINGS_OFFSET 148 ;;
  set_u32 RESERVATION_OFFSET 40 ;; set_u32 VERSION 17 ;; set_u32 LAST_COMP_VERSION 16 ;;
  set_u32 BOOT_CPUID_PHYS 0 ;; set_u32 STRINGS_SIZE 16 ;; set_u32 STRUCTURE_SIZE 92 ;;
  set_u32 56 FDT_BEGIN_NODE ;;
  set_u32 64 FDT_BEGIN_NODE ;; copy_from_slice 68 73 (bs "cpus" ++ [x00]) ;; set_u32 76 FDT_END_NODE ;;
  set_u32 80 FDT_BEGIN_NODE ;; copy_from_slice 84 91 (bs "memory" ++ [x00]) ;;
  set_u32 92 FDT_PROP ;; set_u32 96 7 ;; set_u32 100 DEVICE_TYPE_NAME_OFFSET ;;
  copy_from_slice 104 111 (bs "memory" ++ [x00]) ;;
  set_u32 112 FDT_PROP ;; set_u32 116 12 ;; set_u32 120 REG_NAME_OFFSET ;;
  set_u32 124 0 ;; set_u32 128 0 ;; set_u32 132 0x1000 ;;
  set_u32 136 FDT_END_NODE ;; set_u32 140 FDT_END_NODE ;; set_u32 144 FDT_END ;;
  copy_from_slice 148 160 (bs "device_type" ++ [x00]) ;; copy_from_slice 160 164 (bs "reg" ++ [x00]).

Definition parsed : building Fdt.t :=
  let* blob := get in unwrap (Fdt.from_ptr (as_ptr blob) aligned_address).

Definition refused : building Error :=
  let* blob := get in unwrap_err (Fdt.from_ptr (as_ptr blob) aligned_address).

Definition valid_blob_is_constructed : test := run (
  minimal_blob ;; let* fdt := parsed in
  assert_eq (Header.total_size (Fdt.header fdt)) 164 ;;
  assert_eq (Header.structure_range (Fdt.header fdt)) (mkRange 56 148) ;;
  assert_eq (Header.strings_range (Fdt.header fdt)) (mkRange 148 164)).

Definition null_pointer_is_rejected : test := run (
  let* error := unwrap_err (Fdt.from_ptr (fun _ => x00) 0) in assert_eq error (EBlob NullPointer)).

Definition misaligned_pointer_is_rejected : test := run (
  let ptr := aligned_address + 1 in
  let* error := unwrap_err (Fdt.from_ptr (as_ptr (replicate 64 x00)) ptr) in
  assert_eq error (EBlob (Misaligned ptr 8))).

Definition header_error_is_propagated : test := run (
  minimal_blob ;; set_u32 MAGIC 0xdeadbeef ;;
  let* error := refused in assert_eq error (EHeader (InvalidMagic 0xdeadbeef))).

Definition structure_error_is_propagated : test := run (
  minimal_blob ;; set_u32 56 FDT_END ;;
  let* error := refused in assert_eq error (EStructure (ExpectedRootNode 0 FDT_END))).

Definition reservation_error_is_propagated : test := run (
  minimal_blob ;; copy_from_slice 40 48 (be_bytes 8 1) ;; copy_from_slice 48 56 (be_bytes 8 1) ;;
  let* error := refused in assert_eq error (EReservation (Reservations.Read (Truncated 16 8 0)))).

Definition root_returns_root_node : test := run (
  minimal_blob ;; let* fdt := parsed in
  let* root := lift (Fdt.root fdt) in assert_eq (View.name root) []).

Definition memory_ranges_are_exposed : test := run (
  minimal_blob ;; let* fdt := parsed in
  let* ranges := lift (Fdt.memory_ranges fdt) in
  let* (range, ranges) := invoke Memory.next ranges in let* range := unwrap_some range in
  assert_eq (address range) 0 ;; assert_eq (size range) 0x1000 ;;
  let* (range, ranges) := invoke Memory.next ranges in assert (is_none range)).

Definition memory_reservations_are_exposed : test := run (
  minimal_blob ;; let* fdt := parsed in
  let* (reservation, _) := invoke Reservations.Iter.next (Fdt.memory_reservations fdt) in
  assert (is_none reservation)).

Definition tests : list test :=
  [valid_blob_is_constructed; null_pointer_is_rejected; misaligned_pointer_is_rejected; header_error_is_propagated;
   structure_error_is_propagated; reservation_error_is_propagated; root_returns_root_node; memory_ranges_are_exposed;
   memory_reservations_are_exposed].

Lemma fdt_tests_pass : Forall passes tests.
Proof. all_pass. Qed.

End FdtTests.
