(* ===== verification/KMemory.v ===== *)
(** * Addresses, ranges and frames
    ([kernel/src/memory.rs], [kernel/src/memory/address.rs],
     [kernel/src/memory/frame.rs])

    An address is a [usize]; the two newtypes are kept apart by their
    modules.  The linker's symbols are parameters. *)

From Stdlib Require Import ZArith Lia Bool.
From stdpp Require Import base list numbers.
From S2P Require Import Prelude.
Local Open Scope Z_scope.

Definition FRAME_SIZE : Z := 4096.

Module PhysAddr.
Definition t : Type := Z.
Definition new (address : Z) : t := address.
Definition as_usize (a : t) : Z := a.
Definition debug (a : t) : list byte := lower_hex a.
Definition checked_add (a : t) (bytes : Z) : option t := Prelude.checked_add usize_max a bytes.
End PhysAddr.

Module VirtAddr.
Definition t : Type := Z.
Definition new (address : Z) : t := address.
Definition as_usize (a : t) : Z := a.
Definition debug (a : t) : list byte := lower_hex a.
Definition checked_add (a : t) (bytes : Z) : option t := Prelude.checked_add usize_max a bytes.
End VirtAddr.

Module PhysRange.

Record t := mk { start : PhysAddr.t; end_ : PhysAddr.t }.

Definition new (start end_ : PhysAddr.t) : option t :=
  if PhysAddr.as_usize end_ <=? PhysAddr.as_usize start then None else Some (mk start end_).

Definition from_start_size (start : PhysAddr.t) (size : Z) : option t :=
  if size =? 0 then None
  else match PhysAddr.checked_add start size with
       | None => None
       | Some end_ => new start end_
       end.

Definition overlaps (self other : t) : bool :=
  (PhysAddr.as_usize (start self) <? PhysAddr.as_usize (end_ other)) &&
  (PhysAddr.as_usize (start other) <? PhysAddr.as_usize (end_ self)).

(** The constructor's guarantee, within the address width. *)
Definition wf (r : t) : Prop := 0 <= start r /\ start r < end_ r /\ end_ r <= usize_max.

Definition contains (r : t) (a : Z) : Prop := start r <= a < end_ r.

Lemma phys_new_wf s e r : 0 <= s -> e <= usize_max -> new s e = Some r -> wf r /\ r = mk s e.
Proof.
  unfold new, PhysAddr.as_usize. destruct (e <=? s) eqn:E; [done|]. intros ? ? [= <-]. zbool.
  unfold wf. cbn. split; [lia|done].
Qed.

Lemma from_start_size_Some s n r :
  0 <= n -> (from_start_size s n = Some r <-> 0 < n /\ s + n <= usize_max /\ r = mk s (s + n)).
Proof.
  intros Hn. unfold from_start_size, PhysAddr.checked_add, new, PhysAddr.as_usize.
  destruct (n =? 0) eqn:E; zbool; [split; [done|lia]|].
  destruct (checked_add usize_max s n) as [e|] eqn:H.
  - apply checked_add_Some in H as [H ->]. replace (s + n <=? s) with false by lia.
    split; [intros [= <-]; split; [lia|done]|by intros (_ & _ & ->)].
  - apply checked_add_None in H. split; [done|lia].
Qed.

(** Overlap is a common address. *)
Lemma overlaps_iff r s :
  wf r -> wf s -> (overlaps r s = true <-> exists a, contains r a /\ contains s a).
Proof.
  unfold wf, overlaps, contains, PhysAddr.as_usize. intros Hr Hs. rewrite andb_true_iff, !Z.ltb_lt. split.
  - intros [H1 H2]. exists (Z.max (start r) (start s)). lia.
  - intros (a & H1 & H2). lia.
Qed.

Lemma overlaps_sym r s : overlaps r s = overlaps s r.
Proof. unfold overlaps. apply andb_comm. Qed.

End PhysRange.

Module VirtRange.

Record t := mk { start : VirtAddr.t; end_ : VirtAddr.t }.

Definition new (start end_ : VirtAddr.t) : option t :=
  if VirtAddr.as_usize end_ <=? VirtAddr.as_usize start then None else Some (mk start end_).

Definition from_start_size (start : VirtAddr.t) (size : Z) : option t :=
  if size =? 0 then None
  else match VirtAddr.checked_add start size with
       | None => None
       | Some end_ => new start end_
       end.

Definition overlaps (self other : t) : bool :=
  (VirtAddr.as_usize (start self) <? VirtAddr.as_usize (end_ other)) &&
  (VirtAddr.as_usize (start other) <? VirtAddr.as_usize (end_ self)).

Definition wf (r : t) : Prop := 0 <= start r /\ start r < end_ r /\ end_ r <= usize_max.

Definition contains (r : t) (a : Z) : Prop := start r <= a < end_ r.


Lemma virt_new_Some s e r : new s e = Some r <-> s < e /\ r = mk s e.
Proof.
  unfold new, VirtAddr.as_usize. destruct (e <=? s) eqn:E; zbool; split; intros H; try done; try lia.
  - by injection H as <-.
  - by destruct H as [_ ->].
Qed.

Lemma virt_overlaps_iff r s :
  wf r -> wf s -> (overlaps r s = true <-> exists a, contains r a /\ contains s a).
Proof.
  unfold wf, overlaps, contains, VirtAddr.as_usize. intros Hr Hs. rewrite andb_true_iff, !Z.ltb_lt. split.
  - intros [H1 H2]. exists (Z.max (start r) (start s)). lia.
  - intros (a & H1 & H2). lia.
Qed.

End VirtRange.

Inductive PagePermissions := ReadOnly | ReadWrite | ReadExecute.

#[export] Instance page_permissions_eq_decision : EqDecision PagePermissions.
Proof. solve_decision. Defined.

(** ** The kernel image *)

(** The addresses of the linker's symbols and the value it stores in
    [.rodata]. *)
Record linker := mkLinker {
  kernel_physical_start_value : Z;
  kernel_virtual_start : Z;
  kernel_virtual_end : Z;
  text_start : Z; text_end : Z;
  rodata_start : Z; rodata_end : Z;
  data_start : Z; data_end : Z;
  bss_start : Z; bss_end : Z;
  stack_start : Z; stack_end : Z;
}.

Record KernelSections := mkSections {
  virtual_start : VirtAddr.t;
  text : option VirtRange.t;
  rodata : option VirtRange.t;
  data : option VirtRange.t;
  bss : option VirtRange.t;
  stack : option VirtRange.t;
}.

Definition kernel_sections (l : linker) : KernelSections :=
  let range := fun start end_ => VirtRange.new (VirtAddr.new start) (VirtAddr.new end_) in
  mkSections (VirtAddr.new (kernel_virtual_start l))
    (range (text_start l) (text_end l))
    (range (rodata_start l) (rodata_end l))
    (range (data_start l) (data_end l))
    (range (bss_start l) (bss_end l))
    (range (stack_start l) (stack_end l)).

Definition kernel_size {E} (l : linker) : outcome E Z :=
  expect_some (checked_sub (kernel_virtual_end l) (kernel_virtual_start l)).

Definition kernel_physical_start (l : linker) : PhysAddr.t :=
  PhysAddr.new (kernel_physical_start_value l).

Definition kernel_range {E} (l : linker) (physical_start : PhysAddr.t)
    : outcome E (option PhysRange.t) :=
  let? size := kernel_size l in
  Ok (PhysRange.from_start_size physical_start size).

(** ** Frames *)

Module PhysFrame.

Record t := mk { start : PhysAddr.t }.

#[global] Instance phys_frame_eq_decision : EqDecision t.
Proof. solve_decision. Defined.

#[export] Instance eq_decision : EqDecision t.
Proof. solve_decision. Defined.

Definition from_start (start : PhysAddr.t) : option t :=
  if negb (PhysAddr.as_usize start mod FRAME_SIZE =? 0) then None
  else match PhysAddr.checked_add start FRAME_SIZE with
       | None => None
       | Some _ => Some (mk start)
       end.

Definition start_address (f : t) : PhysAddr.t := start f.

Definition range {E} (f : t) : outcome E PhysRange.t :=
  expect_some (PhysRange.from_start_size (start f) FRAME_SIZE).

(** The invariant of the type. *)
Definition wf (f : t) : Prop :=
  0 <= start f /\ start f mod FRAME_SIZE = 0 /\ start f + FRAME_SIZE <= usize_max.

(** The bytes of a frame. *)
Definition bytes_of (f : t) : PhysRange.t := PhysRange.mk (start f) (start f + FRAME_SIZE).

Lemma from_start_Some a f :
  0 <= a -> (from_start a = Some f <-> wf f /\ start f = a).
Proof.
  intros Ha. unfold from_start, wf, PhysAddr.as_usize, PhysAddr.checked_add.
  destruct (a mod FRAME_SIZE =? 0) eqn:E; cbn [negb]; zbool.
  - destruct (checked_add usize_max a FRAME_SIZE) as [e|] eqn:H.
    + apply checked_add_Some in H as [H _].
      split; [intros [= <-]; cbn; repeat split; lia|]. intros [_ <-]. by destruct f.
    + apply checked_add_None in H. split; [done|]. intros [Hw <-]. lia.
  - split; [done|]. intros [Hw <-]. lia.
Qed.

Lemma range_Ok {E} f : wf f -> range (E:=E) f = Ok (bytes_of f) /\ PhysRange.wf (bytes_of f).
Proof.
  intros (H1 & H2 & H3). unfold range.
  assert (PhysRange.from_start_size (start f) FRAME_SIZE = Some (bytes_of f)) as ->.
  { apply PhysRange.from_start_size_Some; unfold FRAME_SIZE in *; [lia|]. split; [lia|]. split; [lia|done]. }
  split; [done|]. unfold PhysRange.wf, bytes_of, FRAME_SIZE in *. cbn. lia.
Qed.

(** Distinct frames share no byte. *)
Lemma disjoint f g :
  wf f -> wf g -> f <> g -> PhysRange.overlaps (bytes_of f) (bytes_of g) = false.
Proof.
  intros (Hf & Hfm & _) (Hg & Hgm & _) Hne. unfold PhysRange.overlaps, bytes_of, PhysAddr.as_usize.
  cbn. unfold FRAME_SIZE in *. destruct (_ && _) eqn:E; [|done]. zbool. exfalso. apply Hne.
  destruct f, g. f_equal. cbn in *. Z.div_mod_to_equations. lia.
Qed.

End PhysFrame.

Module AllocatedFrame.

Record t := mk { frame : PhysFrame.t }.

Definition new (frame : PhysFrame.t) : t := mk frame.
Definition start_address (a : t) : PhysAddr.t := PhysFrame.start_address (frame a).
Definition into_frame (a : t) : PhysFrame.t := frame a.

End AllocatedFrame.

Definition align_up (address : PhysAddr.t) : option PhysAddr.t :=
  let value := PhysAddr.as_usize address in
  let remainder := value mod FRAME_SIZE in
  if remainder =? 0 then Some address
  else
    adjustment ← checked_sub FRAME_SIZE remainder;
    PhysAddr.checked_add address adjustment.

Definition align_down {E} (address : PhysAddr.t) : outcome E PhysAddr.t :=
  let value := PhysAddr.as_usize address in
  let? v := usub value (value mod FRAME_SIZE) in
  Ok (PhysAddr.new v).

(** The next and the previous frame boundary. *)
Definition frame_ceil (a : Z) : Z := (a + (FRAME_SIZE - 1)) / FRAME_SIZE * FRAME_SIZE.
Definition frame_floor (a : Z) : Z := a / FRAME_SIZE * FRAME_SIZE.

Lemma align_up_spec a :
  is_usize a -> align_up a = if frame_ceil a <=? usize_max then Some (frame_ceil a) else None.
Proof.
  intros [Ha Hm]. unfold align_up, PhysAddr.as_usize, PhysAddr.checked_add, frame_ceil, FRAME_SIZE.
  pose proof (Z.mod_pos_bound a 4096 ltac:(lia)).
  destruct (a mod 4096 =? 0) eqn:E; zbool.
  - replace ((a + (4096 - 1)) / 4096 * 4096) with a by (Z.div_mod_to_equations; lia).
    by replace (a <=? usize_max) with true by lia.
  - unfold checked_sub. replace (a mod 4096 <=? 4096) with true by lia. cbn [mbind option_bind].
    by replace ((a + (4096 - 1)) / 4096 * 4096) with (a + (4096 - a mod 4096))
      by (Z.div_mod_to_equations; lia).
Qed.

Lemma align_down_spec {E} a : 0 <= a -> align_down (E:=E) a = Ok (frame_floor a).
Proof.
  intros Ha. unfold align_down, PhysAddr.as_usize, PhysAddr.new, usub, checked_sub, frame_floor, FRAME_SIZE.
  pose proof (Z.mod_le a 4096 ltac:(lia) ltac:(lia)). replace (_ <=? _) with true by lia. cbn.
  f_equal. Z.div_mod_to_equations. lia.
Qed.

Lemma frame_ceil_spec a :
  frame_ceil a mod FRAME_SIZE = 0 /\ a <= frame_ceil a < a + FRAME_SIZE.
Proof. unfold frame_ceil, FRAME_SIZE. split; [apply Z_mod_mult|]. Z.div_mod_to_equations. lia. Qed.

Lemma frame_floor_spec a :
  frame_floor a mod FRAME_SIZE = 0 /\ frame_floor a <= a < frame_floor a + FRAME_SIZE.
Proof. unfold frame_floor, FRAME_SIZE. split; [apply Z_mod_mult|]. Z.div_mod_to_equations. lia. Qed.

(** [!mask] at the address width. *)
Definition unot (mask : Z) : Z := Z.lxor mask usize_max.

(** [a & !(2^k - 1)] rounds down to a multiple. *)
Lemma land_unot a k :
  is_usize a -> 0 <= k < 64 -> Z.land a (unot (2 ^ k - 1)) = a / 2 ^ k * 2 ^ k.
Proof.
  intros Ha Hk. rewrite <- (Z.shiftr_div_pow2 a k), <- Z.shiftl_mul_pow2 by lia.
  rewrite <- Z.ldiff_ones_r by lia. rewrite Z.ones_equiv, <- Z.sub_1_r. apply Z.bits_inj'.
  intros n Hn. unfold unot. rewrite Z.land_spec, Z.lxor_spec, Z.ldiff_spec.
  change usize_max with (Z.ones 64). destruct (Z_lt_le_dec n 64) as [Hlt|Hge].
  - rewrite Z.ones_spec_low by lia. by destruct (Z.testbit a n), (Z.testbit (2 ^ k - 1) n).
  - assert (Z.testbit a n = false) as ->; [|done].
    destruct (Z.eq_dec a 0) as [->|]; [apply Z.bits_0|].
    apply Z.bits_above_log2; [apply Ha|]. apply Z.log2_lt_pow2; [destruct Ha; lia|].
    assert (2 ^ 64 <= 2 ^ n) by (apply Z.pow_le_mono_r; lia). destruct Ha as [_ Ha].
    unfold usize_max in Ha. lia.
Qed.

Lemma round_down a n : 0 < n -> a / n * n mod n = 0 /\ a / n * n <= a < a / n * n + n.
Proof. intros Hn. split; [apply Z_mod_mult|]. Z.div_mod_to_equations. lia. Qed.

Lemma land_frame_mask a : is_usize a -> Z.land a (unot (FRAME_SIZE - 1)) = frame_floor a.
Proof. intros Ha. unfold frame_floor. apply (land_unot a 12 Ha). lia. Qed.
