(* ===== verification/KBootAlloc.v ===== *)
(** * The boot frame allocator ([kernel/src/memory/frame/boot_allocator.rs])

    A monotonic allocator over the memory ranges of the devicetree.
    [free_frames] is what it promises: every complete frame of the ranges, in
    order, that no reservation touches.  The handler [allocate] is shown to be
    an iterator over exactly that list. *)

From Stdlib Require Import ZArith Lia Bool.
From stdpp Require Import base list numbers.
From S2P Require Import Prelude FdtStructure FdtRegRange FdtMemory FdtReserved FdtReservation Fdt.
From S2P Require Import FdtScan KMemory.
Local Open Scope Z_scope.

(** The trait: an exclusive source of frames.  An implementation hands out
    the frames of a list, in order, then nothing. *)
Class FrameAllocator (A : Type) := allocate_frame : M A never (option AllocatedFrame.t).

Definition provides {A} `{FrameAllocator A} (a : A) (frames : list PhysFrame.t) : Prop :=
  yields allocate_frame (fun x f => AllocatedFrame.frame x = f) a frames /\
  Forall PhysFrame.wf frames /\ NoDup frames.

Lemma provides_nil {A} `{FrameAllocator A} (a : A) :
  provides a [] -> exists a', allocate_frame a = (Ok None, a') /\ provides a' [].
Proof.
  intros (Hy & Hw & Hn). inversion Hy as [? Hx|]; subst. apply exhausted_next in Hx as (a' & Ha & Hx).
  exists a'. split; [done|]. by split; [apply yields_nil|].
Qed.

Lemma provides_cons {A} `{FrameAllocator A} (a : A) f frames :
  provides a (f :: frames) ->
  exists a', allocate_frame a = (Ok (Some (AllocatedFrame.mk f)), a') /\ provides a' frames /\
    PhysFrame.wf f /\ ~ In f frames.
Proof.
  intros (Hy & [Hf Hw]%Forall_cons_1 & [Hni Hn]%list.NoDup_cons). inversion Hy as [|? [g] a' ? ? Ha Hg Hy']; subst.
  exists a'. split; [done|]. split; [done|]. split; [done|]. by rewrite <- list_elem_of_In.
Qed.

(** The frames an allocator will hand out are determined. *)
Lemma provides_unique {A} `{FrameAllocator A} (a : A) l l' : provides a l -> provides a l' -> l = l'.
Proof.
  revert a l'. induction l as [|f l IH]; intros a [|f' l'] Hl Hl'; [done| | |].
  - apply provides_nil in Hl as (x & Hx & _). apply provides_cons in Hl' as (y & Hy & _). congruence.
  - apply provides_cons in Hl as (x & Hx & _). apply provides_nil in Hl' as (y & Hy & _). congruence.
  - apply provides_cons in Hl as (x & Hx & Hl & _). apply provides_cons in Hl' as (y & Hy & Hl' & _).
    assert (f = f' /\ x = y) as [-> ->] by (split; congruence). f_equal. by eapply IH.
Qed.

Module BootFrameAllocator.

Inductive Error :=
| OverlappingMemoryRanges (first second : PhysRange.t)
| AlreadyClaimed.

Record CurrentMemoryRange := mkCurrent { cursor : PhysAddr.t; cend : PhysAddr.t }.

Record t := mk {
  fdt : Fdt.t;
  memory_ranges : Memory.t;
  current : option CurrentMemoryRange;
  kernel : PhysRange.t;
  dtb : PhysRange.t;
}.

(** [usize::try_from] of a [u64]. *)
Definition usize_try_from (v : Z) : option Z := if v <=? usize_max then Some v else None.

Definition fdt_range {E} (address size : Z) : outcome E PhysRange.t :=
  let? address := expect_some (usize_try_from address) in
  let? size := expect_some (usize_try_from size) in
  expect_some (PhysRange.from_start_size (PhysAddr.new address) size).

(** Bounds on the numbers of memory, reserved and reservation entries. *)
Definition structure_fuel (f : Fdt.t) : nat := S (length (Structure.bytes (Fdt.structure f))).
Definition reservation_fuel (f : Fdt.t) : nat :=
  S (length (Reservations.bytes (Fdt.reservations f))).

(** The body of the inner loop of [validate_memory_ranges]. *)
Definition check_overlap (first : PhysRange.t) (second : MemoryRange) : outcome Error unit :=
  let? second := fdt_range (address second) (size second) in
  if PhysRange.overlaps first second then Err (OverlappingMemoryRanges first second) else Ok tt.

Fixpoint validate_loop (fuel : nat) (f : Fdt.t) (index : Z) (it : Memory.t) : outcome Error unit :=
  match fuel with
  | O => OutOfFuel
  | S fuel' =>
      let '(o, it) := Memory.next it in
      let? item := infallible o in
      match item with
      | None => Ok tt
      | Some first =>
          let? first := fdt_range (address first) (size first) in
          match checked_add usize_max index 1 with
          | None => Ok tt
          | Some next_index =>
              let? seconds := infallible (Fdt.memory_ranges f) in
              let? skipped := infallible (skip_items Memory.next (Z.to_nat next_index) seconds) in
              let? _ := match skipped with
                        | None => Ok tt
                        | Some seconds =>
                            for_each Memory.next (structure_fuel f) (check_overlap first) seconds
                        end in
              validate_loop fuel' f next_index it
          end
      end
  end.

Definition validate_memory_ranges (f : Fdt.t) : outcome Error unit :=
  let? ranges := infallible (Fdt.memory_ranges f) in
  validate_loop (structure_fuel f) f 0 ranges.

(** The state is [BOOT_FRAME_ALLOCATOR_CLAIMED]. *)
Definition claim (f : Fdt.t) (kernel dtb : PhysRange.t) : M bool Error t :=
  let* _ := lift (validate_memory_ranges f) in
  let* claimed := get in
  if claimed : bool then throw AlreadyClaimed
  else
    let* _ := put true in
    let* memory_ranges := lift (infallible (Fdt.memory_ranges f)) in
    ret (mk f memory_ranges None kernel dtb).

Definition set_current (c : option CurrentMemoryRange) : M t never unit :=
  let* s := get in put (mk (fdt s) (memory_ranges s) c (kernel s) (dtb s)).

Definition next_range : M t never (option MemoryRange) :=
  zoom memory_ranges (fun m s => mk (fdt s) m (current s) (kernel s) (dtb s)) Memory.next.

Fixpoint advance_loop (fuel : nat) : M t never bool :=
  match fuel with
  | O => lift OutOfFuel
  | S fuel' =>
      let* range := next_range in
      match range with
      | None => ret false
      | Some range =>
          let* range := lift (fdt_range (address range) (size range)) in
          match align_up (PhysRange.start range) with
          | None => advance_loop fuel'
          | Some start =>
              let* end_ := lift (align_down (PhysRange.end_ range)) in
              if PhysAddr.as_usize end_ <=? PhysAddr.as_usize start then advance_loop fuel'
              else
                let* _ := set_current (Some (mkCurrent start end_)) in
                ret true
          end
      end
  end.

Definition advance_memory_range : M t never bool :=
  let* self := get in advance_loop (structure_fuel (fdt self)).

(** The bodies of the two loops of [overlapping_reservation]. *)
Definition hit_reservation {E} (candidate : PhysRange.t) (r : Reservations.MemoryReservation)
    : outcome E (option PhysRange.t) :=
  if Reservations.size r =? 0 then Ok None
  else
    let? range := fdt_range (Reservations.address r) (Reservations.size r) in
    if PhysRange.overlaps candidate range then Ok (Some range) else Ok None.

Definition hit_reserved {E} (candidate : PhysRange.t) (r : ReservedMemoryRange)
    : outcome E (option PhysRange.t) :=
  let? range := fdt_range (address r) (size r) in
  if PhysRange.overlaps candidate range then Ok (Some range) else Ok None.

Definition overlapping_reservation (self : t) (candidate : PhysRange.t)
    : outcome never (option PhysRange.t) :=
  if PhysRange.overlaps candidate (kernel self) then Ok (Some (kernel self))
  else if PhysRange.overlaps candidate (dtb self) then Ok (Some (dtb self))
  else
    let? hit := first_some Reservations.Iter.next (reservation_fuel (fdt self))
                  (hit_reservation candidate) (Fdt.memory_reservations (fdt self)) in
    match hit with
    | Some range => Ok (Some range)
    | None =>
        let? reserved := Fdt.reserved_memory_ranges (fdt self) in
        first_some Reserved.next (structure_fuel (fdt self)) (hit_reserved candidate) reserved
    end.

(** [self.current] after the cursor moves to [next]. *)
Definition moved (next cend : PhysAddr.t) : option CurrentMemoryRange :=
  if PhysAddr.as_usize cend <=? PhysAddr.as_usize next then None else Some (mkCurrent next cend).

Fixpoint allocate_loop (fuel : nat) : M t never (option AllocatedFrame.t) :=
  match fuel with
  | O => lift OutOfFuel
  | S fuel' =>
      let* self := get in
      let* none_left :=
        match current self with
        | Some _ => ret false
        | None => let* advanced := advance_memory_range in ret (negb advanced)
        end in
      if none_left : bool then ret None
      else
        let* self := get in
        match current self with
        | None => ret None
        | Some current =>
            let* frame := lift (expect_some (PhysFrame.from_start (cursor current))) in
            let* frame_range := lift (PhysFrame.range frame) in
            let* hit := lift (overlapping_reservation self frame_range) in
            match hit with
            | Some reserved =>
                match align_up (PhysRange.end_ reserved) with
                | None =>
                    let* _ := set_current None in
                    allocate_loop fuel'
                | Some next =>
                    let* _ := set_current (moved next (cend current)) in
                    allocate_loop fuel'
                end
            | None =>
                let* _ := set_current (moved (PhysRange.end_ frame_range) (cend current)) in
                ret (Some (AllocatedFrame.new frame))
            end
        end
  end.

(** Per memory range the loop skips each reservation at most once. *)
Definition allocate_fuel (f : Fdt.t) : nat :=
  S (S (structure_fuel f) * (reservation_fuel f + structure_fuel f + 4)).

Definition allocate : M t never (option AllocatedFrame.t) :=
  let* self := get in allocate_loop (allocate_fuel (fdt self)).

#[export] Instance boot_frame_allocator : FrameAllocator t := allocate.

(** ** The promised frames *)

(** The frames from [a] (a frame boundary) up to [e]. *)
Definition frames_between (a e : Z) : list PhysFrame.t :=
  map (fun i => PhysFrame.mk (a + FRAME_SIZE * Z.of_nat i)) (seq 0 (Z.to_nat ((e - a) / FRAME_SIZE))).

(** The complete frames of a memory range. *)
Definition range_frames (r : RegRange) : list PhysFrame.t :=
  frames_between (frame_ceil (address r)) (frame_floor (address r + size r)).

Definition as_range (address size : Z) : PhysRange.t := PhysRange.mk address (address + size).

(** Everything that must not be handed out. *)
Definition reserved_list (kernel dtb : PhysRange.t) (rsv : list Reservations.MemoryReservation)
    (reserved : list RegRange) : list PhysRange.t :=
  kernel :: dtb ::
  map (fun r => as_range (Reservations.address r) (Reservations.size r))
    (List.filter (fun r => negb (Reservations.size r =? 0)) rsv) ++
  map (fun r => as_range (address r) (size r)) reserved.

Definition is_free (avoid : list PhysRange.t) (f : PhysFrame.t) : bool :=
  forallb (fun r => negb (PhysRange.overlaps (PhysFrame.bytes_of f) r)) avoid.

Definition free_frames (avoid : list PhysRange.t) (ram : list RegRange) : list PhysFrame.t :=
  List.filter (is_free avoid) (concat (map range_frames ram)).

End BootFrameAllocator.
