(* ===== verification/KBootFrames.v ===== *)
(** * The frames the boot allocator promises

    Lemmas on [free_frames]: the frames of a range in order, the skip over a
    reservation, and the facts that make the list a safe source of frames
    (aligned, inside RAM, off every reservation, without repetition). *)

From Stdlib Require Import ZArith Lia Bool.
From stdpp Require Import base list numbers.
From S2P Require Import Prelude FdtStructure FdtRegRange FdtMemory FdtReserved FdtReservation Fdt.
From S2P Require Import FdtScan KMemory KBootAlloc.
Local Open Scope Z_scope.

Module BootFrames.
Export BootFrameAllocator.

(** ** Frames of an interval *)

Lemma frames_between_nil a e : e < a + FRAME_SIZE -> frames_between a e = [].
Proof.
  intros H. unfold frames_between, FRAME_SIZE in *.
  replace (Z.to_nat _) with 0%nat; [done|]. Z.div_mod_to_equations. lia.
Qed.

Lemma frames_between_cons a e :
  a + FRAME_SIZE <= e ->
  frames_between a e = PhysFrame.mk a :: frames_between (a + FRAME_SIZE) e.
Proof.
  intros H. unfold frames_between, FRAME_SIZE in *.
  replace (Z.to_nat ((e - a) / 4096)) with (S (Z.to_nat ((e - (a + 4096)) / 4096)))
    by (Z.div_mod_to_equations; lia).
  cbn [seq map]. f_equal; [f_equal; lia|].
  rewrite <- seq_shift, map_map. apply map_ext. intros i. f_equal. lia.
Qed.

Lemma frames_between_ind (P : Z -> list PhysFrame.t -> Prop) e :
  (forall a, e < a + FRAME_SIZE -> P a []) ->
  (forall a, a + FRAME_SIZE <= e -> P (a + FRAME_SIZE) (frames_between (a + FRAME_SIZE) e) ->
     P a (PhysFrame.mk a :: frames_between (a + FRAME_SIZE) e)) ->
  forall a, P a (frames_between a e).
Proof.
  intros H0 HS a. remember (Z.to_nat ((e - a) / FRAME_SIZE)) as n eqn:Hn. revert a Hn.
  induction n as [|n IH]; intros a Hn;
    (destruct (Z_lt_le_dec e (a + FRAME_SIZE)) as [Hlt|Hge];
      [rewrite frames_between_nil by done; by apply H0|rewrite frames_between_cons by done; apply HS; [done|]]);
    unfold FRAME_SIZE in *.
  - exfalso. Z.div_mod_to_equations. lia.
  - apply IH. Z.div_mod_to_equations. lia.
Qed.

Lemma frames_between_In a e f :
  In f (frames_between a e) <->
  exists i, 0 <= i /\ PhysFrame.start f = a + FRAME_SIZE * i /\ PhysFrame.start f + FRAME_SIZE <= e.
Proof.
  unfold frames_between. rewrite in_map_iff. setoid_rewrite in_seq. split.
  - intros (i & <- & Hi). exists (Z.of_nat i). cbn. unfold FRAME_SIZE in *.
    Z.div_mod_to_equations. lia.
  - intros (i & Hi & Hs & He). exists (Z.to_nat i). unfold FRAME_SIZE in *. destruct f as [s]. cbn in *.
    split; [f_equal; lia|]. Z.div_mod_to_equations. lia.
Qed.

Lemma frames_between_NoDup a e : NoDup (frames_between a e).
Proof.
  apply NoDup_fmap_2; [|apply NoDup_seq]. intros i j [= H]. unfold FRAME_SIZE in H. lia.
Qed.

Lemma frames_between_wf a e :
  0 <= a -> a mod FRAME_SIZE = 0 -> e <= usize_max -> Forall PhysFrame.wf (frames_between a e).
Proof.
  intros Ha Hm He. apply List.Forall_forall. intros f (i & Hi & Hs & Hf)%frames_between_In.
  unfold PhysFrame.wf. rewrite Hs in *. unfold FRAME_SIZE in *. split; [lia|]. split; [|lia].
  rewrite Z.mul_comm. by rewrite Z_mod_plus_full.
Qed.

(** ** Skipping a reservation *)

Lemma not_free avoid r f :
  In r avoid -> PhysRange.overlaps (PhysFrame.bytes_of f) r = true -> is_free avoid f = false.
Proof.
  intros Hr Ho. apply not_true_iff_false. unfold is_free. rewrite forallb_forall. intros H.
  specialize (H r Hr). by rewrite Ho in H.
Qed.

(** No frame between a reservation that starts before the frame at [a] ends
    and the boundary at or after its own end is free. *)
Lemma skip_reserved avoid r e a :
  In r avoid -> PhysRange.start r < a + FRAME_SIZE -> a mod FRAME_SIZE = 0 ->
  a <= frame_ceil (PhysRange.end_ r) ->
  List.filter (is_free avoid) (frames_between a e) =
  List.filter (is_free avoid) (frames_between (frame_ceil (PhysRange.end_ r)) e).
Proof.
  intros Hr. revert a. apply (frames_between_ind (fun a l =>
    PhysRange.start r < a + FRAME_SIZE -> a mod FRAME_SIZE = 0 ->
    a <= frame_ceil (PhysRange.end_ r) ->
    List.filter (is_free avoid) l =
    List.filter (is_free avoid) (frames_between (frame_ceil (PhysRange.end_ r)) e))).
  - intros a He _ _ Hc. by rewrite frames_between_nil by lia.
  - intros a He IH Hs Hm Hc. destruct (frame_ceil_spec (PhysRange.end_ r)) as [Hcm Hce].
    destruct (Z.eq_dec a (frame_ceil (PhysRange.end_ r))) as [<-|Hne].
    { by rewrite (frames_between_cons a e) by done. }
    cbn [List.filter]. rewrite (not_free avoid r) by
      (done || (unfold PhysRange.overlaps, PhysFrame.bytes_of, PhysAddr.as_usize; cbn;
        unfold FRAME_SIZE in *; Z.div_mod_to_equations; lia)).
    apply IH; unfold FRAME_SIZE in *; Z.div_mod_to_equations; lia.
Qed.

Lemma skip_reserved_all avoid r e a :
  In r avoid -> PhysRange.start r < a + FRAME_SIZE -> a mod FRAME_SIZE = 0 ->
  e <= frame_ceil (PhysRange.end_ r) ->
  List.filter (is_free avoid) (frames_between a e) = [].
Proof.
  intros Hr Hs Hm He. destruct (Z_le_gt_dec a (frame_ceil (PhysRange.end_ r))) as [Hle|Hgt].
  - rewrite (skip_reserved avoid r) by done. rewrite frames_between_nil; [done|].
    unfold FRAME_SIZE. lia.
  - rewrite frames_between_nil; [done|]. unfold FRAME_SIZE in *. lia.
Qed.

(** ** The promised list *)

Lemma range_frames_In r f :
  In f (range_frames r) <->
  PhysFrame.start f mod FRAME_SIZE = 0 /\ address r <= PhysFrame.start f /\
  PhysFrame.start f + FRAME_SIZE <= address r + size r.
Proof.
  unfold range_frames. rewrite frames_between_In.
  destruct (frame_ceil_spec (address r)) as [Hcm Hc].
  destruct (frame_floor_spec (address r + size r)) as [Hfm Hf].
  set (c := frame_ceil _) in *. set (d := frame_floor _) in *. split.
  - intros (i & Hi & Hs & He). unfold FRAME_SIZE in *. rewrite Hs in *.
    split; [by rewrite Z.mul_comm, Z_mod_plus_full|]. lia.
  - intros (Hm & Hs & He). exists ((PhysFrame.start f - c) / FRAME_SIZE).
    unfold FRAME_SIZE in *. Z.div_mod_to_equations. lia.
Qed.

Lemma range_frames_wf r : RegRanges.range_ok r -> Forall PhysFrame.wf (range_frames r).
Proof.
  intros (Ha & Hs & He). destruct (frame_ceil_spec (address r)) as [Hcm Hc].
  destruct (frame_floor_spec (address r + size r)) as [_ Hf].
  apply frames_between_wf; unfold usize_max, u64_max in *; (done || lia).
Qed.

Definition separate (r s : RegRange) : Prop :=
  PhysRange.overlaps (as_range (address r) (size r)) (as_range (address s) (size s)) = false.

Lemma separate_frames r s f :
  separate r s -> In f (range_frames r) -> ~ In f (range_frames s).
Proof.
  unfold separate, PhysRange.overlaps, PhysAddr.as_usize, as_range. cbn.
  rewrite andb_false_iff, !Z.ltb_ge, !range_frames_In. unfold FRAME_SIZE. lia.
Qed.

Lemma all_frames_NoDup ram :
  ForallOrdPairs separate ram -> NoDup (concat (map range_frames ram)).
Proof.
  induction 1 as [|r ram Hr _ IH]; [constructor|]. cbn [map concat]. apply list.NoDup_app.
  split; [apply frames_between_NoDup|]. split; [|done].
  intros f Hf Hin. apply list_elem_of_In in Hf, Hin.
  apply in_concat in Hin as (l & (s & <- & Hs)%in_map_iff & Hin).
  rewrite List.Forall_forall in Hr. by apply (separate_frames r s f (Hr s Hs)).
Qed.

Lemma free_frames_In avoid ram f :
  In f (free_frames avoid ram) <->
  (exists r, In r ram /\ In f (range_frames r)) /\
  (forall r, In r avoid -> PhysRange.overlaps (PhysFrame.bytes_of f) r = false).
Proof.
  unfold free_frames, is_free. rewrite filter_In, in_concat, forallb_forall. split.
  - intros [(l & (r & <- & Hr)%in_map_iff & Hf) H]. split; [by exists r|]. intros s Hs.
    specialize (H s Hs). by zbool.
  - intros [(r & Hr & Hf) H]. split; [exists (range_frames r); split; [by apply in_map|done]|].
    intros s Hs. apply negb_true_iff. auto.
Qed.

Lemma free_frames_wf avoid ram :
  Forall RegRanges.range_ok ram -> Forall PhysFrame.wf (free_frames avoid ram).
Proof.
  rewrite !List.Forall_forall. intros H f [(r & Hr & Hf) _]%free_frames_In.
  pose proof (range_frames_wf r (H r Hr)) as Hw. rewrite List.Forall_forall in Hw. auto.
Qed.

Lemma free_frames_NoDup avoid ram :
  ForallOrdPairs separate ram -> NoDup (free_frames avoid ram).
Proof.
  intros H%all_frames_NoDup. unfold free_frames. apply NoDup_ListNoDup, List.NoDup_filter.
  by apply NoDup_ListNoDup.
Qed.

Lemma free_frames_cons avoid r ram :
  free_frames avoid (r :: ram) =
  List.filter (is_free avoid) (range_frames r) ++ free_frames avoid ram.
Proof. unfold free_frames. cbn [map concat]. apply List.filter_app. Qed.

End BootFrames.
