(* ===== verification/KBootProofs.v ===== *)
(** * The boot frame allocator implements its promise

    [lists] is what the allocator needs of the parsed devicetree, and
    [described_lists] shows that every blob [from_ptr] accepts has it.  For
    such a devicetree, [validate_memory_ranges] accepts exactly the separate
    ranges and [allocate] iterates over [free_frames]. *)

From Stdlib Require Import ZArith Lia Bool.
From stdpp Require Import base list numbers.
From S2P Require Import Prelude FdtHeader FdtStructure FdtTree FdtAddressing FdtRegRange.
From S2P Require Import FdtMemory FdtReserved FdtSemantic FdtReservation Fdt FdtFuel FdtScan.
From S2P Require Import KMemory KBootAlloc KBootFrames.
Local Open Scope Z_scope.

Module BootProofs.
Export BootFrames.

(** The memory, the reserved memory and the reservations of a parsed
    devicetree. *)
Record lists (f : Fdt.t) (ram reserved : list RegRange)
    (rsv : list Reservations.MemoryReservation) : Prop := {
  l_ram : exists s, Fdt.memory_ranges f = Ok s /\ yields Memory.next eq s ram;
  l_reserved : exists s, Fdt.reserved_memory_ranges f = Ok s /\ yields Reserved.next eq s reserved;
  l_rsv : yields Reservations.Iter.next eq (Fdt.memory_reservations f) rsv;
  l_ram_ok : Forall RegRanges.range_ok ram;
  l_reserved_ok : Forall RegRanges.range_ok reserved;
  l_rsv_ok : Forall (fun r => Reservations.listed r /\ Reservations.ends r) rsv;
  l_ram_len : (length ram < structure_fuel f)%nat;
  l_reserved_len : (length reserved < structure_fuel f)%nat;
  l_small : zlen (Structure.bytes (Fdt.structure f)) <= isize_max;
  l_rsv_len : (length rsv < reservation_fuel f)%nat;
}.

Lemma described_lists mem ptr h tr rs :
  Fdt.describes mem ptr h tr rs ->
  let f := Fdt.built mem ptr h rs in
  lists f (Memory.memory_ranges (Fdt.strings f) tr) (Reserved.reserved_ranges (Fdt.strings f) tr) rs.
Proof.
  intros Hd f. pose proof (Fdt.d_semantics _ _ _ _ _ Hd) as Hsem.
  pose proof (encodes_weight _ _ _ (Fdt.d_tree _ _ _ _ _ Hd)) as Hw. cbn zeta in Hsem, Hw.
  destruct (Fdt.d_reservations _ _ _ _ _ Hd) as ([Hl _] & Hends & _).
  split.
  - by apply Fdt.memory_ranges_yield.
  - by apply Fdt.reserved_ranges_yield.
  - by eapply (Fdt.reservations_yield mem ptr h tr rs).
  - apply Memory.memory_ranges_ok, Hsem.
  - apply Reserved.reserved_ranges_ok, Hsem.
  - rewrite List.Forall_forall in *. auto.
  - pose proof (memory_ranges_length _ _ (sem_memory _ _ Hsem)) as H.
    apply Nat.lt_succ_r. exact (Nat.le_trans _ _ _ H Hw).
  - pose proof (reserved_ranges_length _ _ (sem_reserved _ _ Hsem)) as H.
    apply Nat.lt_succ_r. exact (Nat.le_trans _ _ _ H Hw).
  - pose proof (Fdt.d_header _ _ _ _ _ Hd) as Hv.
    apply (Fdt.cut_within mem ptr h Hv _ (Header.v_structure_in _ _ Hv)).
  - unfold reservation_fuel, f, Fdt.built. cbn. pose proof (Reservations.block_length rs). lia.
Qed.

Lemma fdt_range_Ok {E} a n :
  0 <= a -> 0 < n -> a + n <= u64_max -> fdt_range (E:=E) a n = Ok (as_range a n).
Proof.
  intros Ha Hn He. unfold fdt_range, usize_try_from. unfold u64_max, usize_max in *.
  replace (a <=? _) with true by lia. cbn [expect_some obind].
  replace (n <=? _) with true by lia. cbn [expect_some obind].
  assert (PhysRange.from_start_size (PhysAddr.new a) n = Some (as_range a n)) as ->; [|done].
  apply PhysRange.from_start_size_Some; [lia|]. unfold usize_max, PhysAddr.new. split; [lia|]. split; [lia|done].
Qed.

Lemma fdt_range_reg {E} r :
  RegRanges.range_ok r -> fdt_range (E:=E) (address r) (size r) = Ok (as_range (address r) (size r)).
Proof. intros (? & ? & ?). by apply fdt_range_Ok. Qed.

Lemma as_range_wf r : RegRanges.range_ok r -> PhysRange.wf (as_range (address r) (size r)).
Proof. intros (? & ? & ?). unfold PhysRange.wf, as_range, usize_max, u64_max in *. cbn. lia. Qed.

(** ** [validate_memory_ranges] *)

(** The first pair, in the order of the two loops, that overlaps. *)
Fixpoint first_overlap (ram : list RegRange) : outcome Error unit :=
  match ram with
  | [] => Ok tt
  | r :: ram' =>
      let? _ := for_list (fun s =>
        let a := as_range (address r) (size r) in
        let b := as_range (address s) (size s) in
        if PhysRange.overlaps a b then Err (OverlappingMemoryRanges a b) else Ok tt) ram' in
      first_overlap ram'
  end.

Lemma first_overlap_Ok ram : first_overlap ram = Ok tt <-> ForallOrdPairs separate ram.
Proof.
  induction ram as [|r ram IH]; cbn [first_overlap]; [by split; constructor|].
  rewrite obind_Ok. split.
  - intros ([] & Hl%for_list_Ok & H%IH). constructor; [|done].
    rewrite List.Forall_forall in *. intros s Hs. specialize (Hl s Hs). cbn in Hl. unfold separate.
    by destruct (PhysRange.overlaps _ _).
  - inversion 1 as [|? ? Hr Hp]; subst. exists tt. rewrite for_list_Ok, IH. split; [|done].
    rewrite List.Forall_forall in *. intros s Hs. specialize (Hr s Hs). unfold separate in Hr.
    cbn. by rewrite Hr.
Qed.

(** An error names two ranges of the list, in their order, that overlap. *)
Lemma first_overlap_cases ram :
  first_overlap ram = Ok tt \/
  exists before r between s after,
    ram = before ++ r :: between ++ s :: after /\ ~ separate r s /\
    first_overlap ram = Err (OverlappingMemoryRanges (as_range (address r) (size r))
                                                     (as_range (address s) (size s))).
Proof.
  induction ram as [|r ram IH]; [by left|]. cbn [first_overlap].
  set (body := fun s : RegRange => _).
  assert (for_list body ram = Ok tt \/
    exists between s after, ram = between ++ s :: after /\ ~ separate r s /\
      for_list body ram = Err (OverlappingMemoryRanges (as_range (address r) (size r))
                                 (as_range (address s) (size s)))) as Hrow.
  { clear IH. induction ram as [|s ram IH]; [by left|]. cbn [for_list]. unfold body at 1 3.
    destruct (PhysRange.overlaps _ _) eqn:Ho; cbn [obind].
    - right. exists [], s, ram. split; [done|]. split; [|done]. unfold separate. by rewrite Ho.
    - destruct IH as [->|(k & s' & after & -> & Hs & ->)]; [by left|right].
      by exists (s :: k), s', after. }
  destruct Hrow as [->|(k & s & after & -> & Hs & ->)]; cbn [obind].
  - destruct IH as [->|(k & r' & l & s & after & -> & Hs & ->)]; [by left|right].
    by exists (r :: k), r', l, s, after.
  - right. by exists [], r, k, s, after.
Qed.

Section devicetree.
Context (f : Fdt.t) (ram reserved : list RegRange) (rsv : list Reservations.MemoryReservation).
Context (Hlists : lists f ram reserved rsv).

Lemma overlap_row_spec first (n : nat) :
  RegRanges.range_ok first -> (n <= length ram)%nat ->
  (let? seconds := infallible (Fdt.memory_ranges f) in
   let? skipped := infallible (skip_items Memory.next n seconds) in
   match skipped with
   | None => Ok tt
   | Some seconds => for_each Memory.next (structure_fuel f)
                       (check_overlap (as_range (address first) (size first))) seconds
   end) =
  for_list (fun s =>
    let a := as_range (address first) (size first) in
    let b := as_range (address s) (size s) in
    if PhysRange.overlaps a b then Err (OverlappingMemoryRanges a b) else Ok tt) (drop n ram).
Proof.
  intros Hf Hn. destruct (l_ram _ _ _ _ Hlists) as (s & -> & Hy). cbn [infallible obind].
  destruct (skip_items_yields Memory.next eq s ram n Hy Hn) as (s' & -> & Hy').
  cbn [infallible obind]. rewrite for_list_foldr.
  apply (for_each_yields Memory.next eq); [done| |].
  - rewrite length_drop. pose proof (l_ram_len _ _ _ _ Hlists). unfold MemoryRange in *. lia.
  - intros i t -> Ht. unfold check_overlap. rewrite fdt_range_reg; [done|].
    pose proof (l_ram_ok _ _ _ _ Hlists) as Hok. rewrite List.Forall_forall in Hok. apply Hok.
    rewrite <- (take_drop n ram). apply in_app_iff. by right.
Qed.

Lemma validate_loop_spec fuel : forall k s,
  yields Memory.next eq s (drop k ram) -> (length ram - k < fuel)%nat ->
  validate_loop fuel f (Z.of_nat k) s = first_overlap (drop k ram).
Proof.
  induction fuel as [|fuel IH]; intros k s Hy Hl; [lia|]. cbn [validate_loop].
  pose proof (l_ram_len _ _ _ _ Hlists) as Hlen. unfold MemoryRange in *.
  destruct (drop k ram) as [|i l] eqn:Hd.
  - apply (iter_nil Memory.next (R:=eq)), exhausted_next in Hy as (s' & -> & _). done.
  - apply (iter_cons Memory.next (R:=eq)) in Hy as (? & s' & -> & -> & Hy'). cbn [infallible obind].
    assert (k < length ram)%nat as Hk.
    { enough (length (drop k ram) <> 0%nat) by (rewrite length_drop in *; lia). by rewrite Hd. }
    assert (drop (S k) ram = l) as Hl'.
    { replace (S k) with (k + 1)%nat by lia. by rewrite <- drop_drop, Hd. }
    assert (RegRanges.range_ok i) as Hi.
    { pose proof (l_ram_ok _ _ _ _ Hlists) as Hok. rewrite List.Forall_forall in Hok. apply Hok.
      rewrite <- (take_drop k ram), Hd. apply in_app_iff. right. by left. }
    rewrite fdt_range_reg by done. cbn [obind first_overlap].
    destruct (checked_add usize_max (Z.of_nat k) 1) as [j|] eqn:Hj.
    + apply checked_add_Some in Hj as [_ ->]. pose proof (overlap_row_spec i (S k) Hi ltac:(lia)) as Hin.
      replace (Z.to_nat (Z.of_nat k + 1)) with (S k) by lia.
      replace (Z.of_nat k + 1) with (Z.of_nat (S k)) by lia.
      rewrite Hl' in Hin. unfold MemoryRange in *. revert Hin. destruct (l_ram _ _ _ _ Hlists) as (s0 & -> & Hy0).
      cbn [infallible obind].
      destruct (skip_items_yields (I:=RegRange) Memory.next eq s0 ram (S k) Hy0 Hk) as (s2 & -> & Hy2).
      cbn [infallible obind]. intros ->. destruct (for_list _ l); cbn [obind]; try done.
      rewrite <- Hl'. apply IH; [by rewrite Hl'|lia].
    + exfalso. apply checked_add_None in Hj. pose proof (l_small _ _ _ _ Hlists) as Hsm.
      unfold zlen, structure_fuel, isize_max, usize_max in *. lia.
Qed.

Lemma validate_memory_ranges_spec : validate_memory_ranges f = first_overlap ram.
Proof.
  unfold validate_memory_ranges. destruct (l_ram _ _ _ _ Hlists) as (s & -> & Hy).
  cbn [infallible obind]. apply (validate_loop_spec _ 0 s Hy).
  pose proof (l_ram_len _ _ _ _ Hlists). lia.
Qed.


(** ** The one-shot claim *)

Lemma claim_spec kernel dtb claimed :
  claim f kernel dtb claimed =
    match first_overlap ram with
    | Ok _ =>
        if claimed : bool then (Err AlreadyClaimed, true)
        else match infallible (Fdt.memory_ranges f) with
             | Ok m => (Ok (mk f m None kernel dtb), true)
             | Err e => (Err e, true)
             | Panic => (Panic, true)
             | OutOfFuel => (OutOfFuel, true)
             end
    | Err e => (Err e, claimed)
    | Panic => (Panic, claimed)
    | OutOfFuel => (OutOfFuel, claimed)
    end.
Proof.
  unfold claim. unfold_m. rewrite validate_memory_ranges_spec.
  destruct (first_overlap ram); try done. destruct claimed; [done|].
  by destruct (infallible (Fdt.memory_ranges f)).
Qed.

(** ** Reservations *)

Context (kern dtree : PhysRange.t) (Hkern : PhysRange.wf kern) (Hdtree : PhysRange.wf dtree).
Definition avoid : list PhysRange.t := reserved_list kern dtree rsv reserved.

Lemma first_in_find {T} (g : T -> PhysRange.t) (p : PhysRange.t -> bool) l :
  first_in (fun t => if p (g t) then Some (g t) else None) l = List.find p (map g l).
Proof. induction l as [|t l IH]; cbn; [done|]. by destruct (p (g t)). Qed.

Lemma first_in_filter {T R} (q : T -> bool) (h : T -> option R) l :
  first_in (fun t => if q t then h t else None) l = first_in h (List.filter q l).
Proof.
  induction l as [|t l IH]; cbn; [done|]. destruct (q t); cbn; [|done]. by rewrite IH.
Qed.

Lemma find_app {T} (p : T -> bool) l k :
  List.find p (l ++ k) = match List.find p l with Some x => Some x | None => List.find p k end.
Proof. induction l as [|x l IH]; cbn; [done|]. by destruct (p x). Qed.

Definition owned (s : t) : Prop := fdt s = f /\ kernel s = kern /\ dtb s = dtree.

Lemma hit_reservation_eq candidate r :
  Reservations.listed r -> Reservations.ends r ->
  hit_reservation (E:=never) candidate r =
    Ok (if negb (Reservations.size r =? 0)
        then let b := as_range (Reservations.address r) (Reservations.size r) in
             if PhysRange.overlaps candidate b then Some b else None
        else None).
Proof.
  intros ([Ha _] & [Hs _] & _) He. unfold Reservations.ends, hit_reservation in *.
  destruct (_ =? 0) eqn:E; zbool; cbn [negb]; [done|].
  rewrite fdt_range_Ok by lia. cbn [obind]. by destruct (PhysRange.overlaps _ _).
Qed.

Lemma reservations_scan candidate :
  first_some Reservations.Iter.next (reservation_fuel f) (hit_reservation (E:=never) candidate)
    (Fdt.memory_reservations f) =
  Ok (List.find (PhysRange.overlaps candidate)
        (map (fun r => as_range (Reservations.address r) (Reservations.size r))
           (List.filter (fun r => negb (Reservations.size r =? 0)) rsv))).
Proof.
  rewrite <- first_in_find, <- first_in_filter.
  apply (first_some_yields Reservations.Iter.next eq); [apply Hlists|apply Hlists|].
  intros i r -> Hr. pose proof (l_rsv_ok _ _ _ _ Hlists) as Hok.
  rewrite List.Forall_forall in Hok. by apply hit_reservation_eq; apply Hok.
Qed.

Lemma reserved_scan candidate :
  (let? m := Fdt.reserved_memory_ranges f in
   first_some Reserved.next (structure_fuel f) (hit_reserved (E:=never) candidate) m) =
  Ok (List.find (PhysRange.overlaps candidate)
        (map (fun r => as_range (address r) (size r)) reserved)).
Proof.
  rewrite <- first_in_find. destruct (l_reserved _ _ _ _ Hlists) as (m & -> & Hm). cbn [obind].
  apply (first_some_yields Reserved.next eq); [done|apply Hlists|]. intros i r -> Hr.
  unfold hit_reserved. rewrite fdt_range_reg; [cbn [obind]; by destruct (PhysRange.overlaps _ _)|].
  pose proof (l_reserved_ok _ _ _ _ Hlists) as Hok. rewrite List.Forall_forall in Hok. auto.
Qed.

(** The search returns the first reserved range that the candidate touches. *)
Lemma overlapping_reservation_spec s candidate :
  owned s -> overlapping_reservation s candidate = Ok (List.find (PhysRange.overlaps candidate) avoid).
Proof.
  intros (Hf & Hk & Hd). unfold overlapping_reservation, avoid, reserved_list. rewrite Hf, Hk, Hd.
  cbn [List.find]. destruct (PhysRange.overlaps candidate kern); [done|].
  destruct (PhysRange.overlaps candidate dtree); [done|]. rewrite find_app, reservations_scan.
  cbn [obind]. destruct (List.find _ _); [done|]. apply reserved_scan.
Qed.

(** ** The state of the allocator *)

Definition current_ok (c : option CurrentMemoryRange) : Prop :=
  match c with
  | None => True
  | Some c => 0 <= cursor c /\ cursor c mod FRAME_SIZE = 0 /\ cend c mod FRAME_SIZE = 0 /\
              cursor c < cend c /\ cend c <= usize_max
  end.

Definition current_frames (c : option CurrentMemoryRange) : list PhysFrame.t :=
  match c with None => [] | Some c => frames_between (cursor c) (cend c) end.

(** The ranges not yet entered. *)
Definition pending (s : t) (rest : list RegRange) : Prop :=
  yields Memory.next eq (memory_ranges s) rest /\ Forall RegRanges.range_ok rest /\
  (length rest < structure_fuel f)%nat.

(** The frames the allocator has yet to hand out. *)
Definition alloc_at (s : t) (l : list PhysFrame.t) : Prop :=
  exists rest, owned s /\ pending s rest /\ current_ok (current s) /\
    l = List.filter (is_free avoid) (current_frames (current s)) ++ free_frames avoid rest.

Lemma boundaries_apart a b :
  a mod FRAME_SIZE = 0 -> b mod FRAME_SIZE = 0 -> a < b -> a + FRAME_SIZE <= b.
Proof. unfold FRAME_SIZE. intros. Z.div_mod_to_equations. lia. Qed.

(** The state after the cursor moves to a boundary. *)
Lemma moved_ok c next :
  current_ok (Some c) -> 0 <= next -> next mod FRAME_SIZE = 0 ->
  current_ok (moved next (cend c)) /\
  current_frames (moved next (cend c)) = frames_between next (cend c).
Proof.
  intros (Hc & Hcm & Hem & Hlt & He) Hn Hnm. unfold moved, PhysAddr.as_usize.
  destruct (cend c <=? next) eqn:E; zbool; cbn.
  - split; [done|]. rewrite frames_between_nil; [done|]. unfold FRAME_SIZE. lia.
  - split; [|done]. lia.
Qed.

Lemma next_range_yields s r rest :
  pending s (r :: rest) ->
  exists s', next_range s = (Ok (Some r), s') /\ pending s' rest /\ RegRanges.range_ok r /\
    current s' = current s /\ (owned s -> owned s').
Proof.
  intros (Hy & Hok & Hl). apply (iter_cons Memory.next (R:=eq)) in Hy as (i & m & Hn & -> & Hy).
  apply Forall_cons_1 in Hok as [Hr Hok]. unfold next_range, zoom. rewrite Hn.
  eexists. split; [done|]. cbn in Hl. split; [split; [done|]; split; [done|lia]|]. done.
Qed.

Lemma empty_range r :
  frame_floor (address r + size r) <= frame_ceil (address r) -> range_frames r = [].
Proof. intros H. apply frames_between_nil. unfold FRAME_SIZE. lia. Qed.

(** What entering the next range does: nothing is left to enter, or the first
    pending range that has a frame becomes the current one. *)
Definition advanced (rest : list RegRange) (out : outcome never bool * t) : Prop :=
  exists s', owned s' /\
  ((out = (Ok false, s') /\ current s' = None /\ pending s' [] /\
      concat (map range_frames rest) = []) \/
   (exists c rest', out = (Ok true, s') /\ current s' = Some c /\
      current_ok (Some c) /\ pending s' rest' /\ (length rest' < length rest)%nat /\
      concat (map range_frames rest) =
        frames_between (cursor c) (cend c) ++ concat (map range_frames rest'))).

Lemma advanced_skip r rest out : range_frames r = [] -> advanced rest out -> advanced (r :: rest) out.
Proof.
  intros Hnil (s' & Ho' & H). exists s'. split; [done|]. cbn [map concat length]. rewrite Hnil.
  cbn [app]. destruct H as [H|(c & rest' & ? & ? & ? & ? & ? & ?)]; [by left|right].
  exists c, rest'. do 4 (split; [done|]). split; [lia|done].
Qed.

Lemma advance_loop_spec rest : forall fuel s,
  pending s rest -> owned s -> current s = None -> (length rest < fuel)%nat ->
  advanced rest (advance_loop fuel s).
Proof.
  induction rest as [|r rest IH]; intros fuel s Hp Ho Hc Hf;
    (destruct fuel as [|fuel]; [cbn in Hf; lia|]); cbn [advance_loop].
  - destruct Hp as (Hy & _ & Hl). apply (iter_nil Memory.next (R:=eq)), exhausted_next in Hy as (m & Hn & Hx).
    exists (mk (fdt s) m (current s) (kernel s) (dtb s)). split; [done|left]. split; [|split; [done|split; [|done]]].
    + rewrite (bind_Ok _ _ _ None (mk (fdt s) m (current s) (kernel s) (dtb s)));
          [done|]. unfold next_range, zoom. by rewrite Hn.
    + split; [by apply yields_nil|]. by split.
  - destruct (next_range_yields s r rest Hp) as (s1 & Hn & Hp1 & Hr & Hc1 & Ho1).
    rewrite (bind_Ok _ _ _ _ _ Hn). specialize (Ho1 Ho). rewrite Hc in Hc1.
    rewrite (bind_Ok _ _ _ (as_range (address r) (size r)) s1)
      by (unfold lift; by rewrite fdt_range_reg).
    assert (is_usize (address r) /\ 0 <= address r + size r <= usize_max) as [Ha He].
    { destruct Hr as (? & ? & ?). unfold is_usize, usize_max, u64_max in *. lia. }
    change (PhysRange.start (as_range (address r) (size r))) with (address r).
    change (PhysRange.end_ (as_range (address r) (size r))) with (address r + size r).
    destruct (frame_ceil_spec (address r)) as [Hcm Hcc].
    destruct (frame_floor_spec (address r + size r)) as [Hfm Hff].
    assert (advanced rest (advance_loop fuel s1)) as Hrest by (apply IH; auto; cbn in Hf; lia).
    rewrite align_up_spec by done. destruct (_ <=? usize_max) eqn:E; zbool.
    2:{ apply advanced_skip; [|done]. apply empty_range. lia. }
    rewrite (bind_Ok _ _ _ (frame_floor (address r + size r)) s1)
      by (unfold lift; by rewrite align_down_spec by lia).
    unfold PhysAddr.as_usize at 1 2. destruct (_ <=? frame_ceil _) eqn:E2; zbool.
    { apply advanced_skip; [|done]. by apply empty_range. }
    eexists. split; [|right; eexists _, rest; split; [reflexivity|]; split; [reflexivity|]].
    { done. }
    cbn [cursor cend map concat length]. split; [unfold current_ok; cbn [cursor cend]; destruct Ha; repeat split; (done || lia)|]. split; [done|]. split; [lia|done].
Qed.
(** ** The loop of [allocate] *)

(** The reserved ranges that end beyond the cursor: each skip passes one. *)
Definition later (c : CurrentMemoryRange) : nat :=
  length (List.filter (fun r => cursor c <? PhysRange.end_ r) avoid).

Definition measure (rest : list RegRange) (cur : option CurrentMemoryRange) : nat :=
  length rest * (length avoid + 2) + match cur with None => 0 | Some c => S (later c) end.

Lemma later_bound c : (later c <= length avoid)%nat.
Proof. apply List.filter_length_le. Qed.

Lemma later_decreases r c next :
  In r avoid -> cursor c < PhysRange.end_ r <= next ->
  (later (mkCurrent next (cend c)) < later c)%nat.
Proof.
  intros Hr Hn. unfold later. cbn [cursor]. induction avoid as [|x l IH]; [done|]. cbn [List.filter].
  destruct Hr as [->|Hr].
  - replace (cursor c <? PhysRange.end_ r) with true by lia.
    replace (next <? PhysRange.end_ r) with false by lia. cbn [length].
    enough (length (List.filter (fun r => (next <? PhysRange.end_ r)%Z) l) <=
            length (List.filter (fun r => (cursor c <? PhysRange.end_ r)%Z) l))%nat by lia.
    clear IH. induction l as [|y l IH]; [done|]. cbn [List.filter].
    destruct (next <? _) eqn:E1, (cursor c <? _) eqn:E2; zbool; cbn [length]; lia.
  - specialize (IH Hr). destruct (next <? _) eqn:E1, (cursor c <? PhysRange.end_ x) eqn:E2; zbool;
      cbn [length]; lia.
Qed.

Lemma avoid_wf r : In r avoid -> PhysRange.wf r.
Proof.
  intros [<-|[<-|[H|H]%in_app_iff]]; [done|done| |].
  - apply in_map_iff in H as (e & <- & [Hin Hs]%filter_In). zbool.
    pose proof (l_rsv_ok _ _ _ _ Hlists) as Hok. rewrite List.Forall_forall in Hok.
    destruct (Hok e Hin) as [([Ha _] & [Hz _] & _) He]. unfold Reservations.ends in He.
    unfold PhysRange.wf, as_range, usize_max, u64_max in *. cbn. lia.
  - apply in_map_iff in H as (e & <- & Hin). apply as_range_wf.
    pose proof (l_reserved_ok _ _ _ _ Hlists) as Hok. rewrite List.Forall_forall in Hok. auto.
Qed.

Lemma find_free frame :
  List.find (PhysRange.overlaps (PhysFrame.bytes_of frame)) avoid = None ->
  is_free avoid frame = true.
Proof.
  intros H. unfold is_free. apply forallb_forall. intros r Hr.
  by rewrite (List.find_none _ _ H r Hr).
Qed.

(** The start of an iteration. *)
Definition enter : M t never bool :=
  let* self := get in
  match current self with
  | Some _ => ret false
  | None => let* advanced := advance_memory_range in ret (negb advanced)
  end.

Lemma enter_spec s rest :
  owned s -> pending s rest -> current_ok (current s) ->
  let l := List.filter (is_free avoid) (current_frames (current s)) ++ free_frames avoid rest in
  exists s', owned s' /\
  ((enter s = (Ok true, s') /\ l = [] /\ alloc_at s' []) \/
   (exists c rest', enter s = (Ok false, s') /\ current s' = Some c /\ current_ok (Some c) /\
      pending s' rest' /\ (measure rest' (Some c) <= measure rest (current s))%nat /\
      l = List.filter (is_free avoid) (frames_between (cursor c) (cend c)) ++
          free_frames avoid rest')).
Proof.
  intros Ho Hp Hc l. unfold enter. rewrite (bind_Ok _ _ _ s s) by done.
  destruct (current s) as [c|] eqn:Hcs.
  { exists s. split; [done|right]. by exists c, rest. }
  cbn [current_frames List.filter app] in l.
  destruct (advance_loop_spec rest (structure_fuel (fdt s)) s Hp Ho Hcs) as
    (s' & Ho' & [(Ha & Hc' & Hp' & Hnil)|(c & rest' & Ha & Hcs' & Hcok & Hp' & Hlt & Heq)]).
  { destruct Ho as [-> _]. apply Hp. }
  - exists s'. split; [done|left]. split; [|split; [unfold l, free_frames; by rewrite Hnil|]].
    + unfold advance_memory_range. by rewrite (bind_Ok _ _ _ false s').
    + exists []. by rewrite Hc'.
  - exists s'. split; [done|right]. exists c, rest'. split.
    { unfold advance_memory_range. by rewrite (bind_Ok _ _ _ true s'). }
    do 3 (split; [done|]). split.
    + unfold measure. pose proof (later_bound c). nia.
    + unfold l, free_frames. by rewrite Heq, List.filter_app.
Qed.

(** Moving the cursor past a reservation loses no free frame and passes a
    reservation. *)
Lemma skip_spec r c :
  current_ok (Some c) -> In r avoid ->
  PhysRange.overlaps (PhysFrame.bytes_of (PhysFrame.mk (cursor c))) r = true ->
  let cur := match align_up (PhysRange.end_ r) with
             | None => None
             | Some next => moved next (cend c)
             end in
  current_ok cur /\
  List.filter (is_free avoid) (current_frames cur) =
    List.filter (is_free avoid) (frames_between (cursor c) (cend c)) /\
  forall rest, (measure rest cur < measure rest (Some c))%nat.
Proof.
  intros Hc Hr Hov cur. pose proof Hc as (H0 & Hm & Hem & Hlt & He).
  destruct (avoid_wf r Hr) as (Hw1 & Hw2 & Hw3).
  unfold PhysRange.overlaps, PhysFrame.bytes_of, PhysAddr.as_usize in Hov. cbn in Hov. zbool.
  destruct (frame_ceil_spec (PhysRange.end_ r)) as [Hcm Hcc].
  unfold cur. rewrite align_up_spec by (unfold is_usize; lia). destruct (_ <=? _) eqn:E; zbool.
  - destruct (moved_ok c (frame_ceil (PhysRange.end_ r)) Hc ltac:(lia) Hcm) as [Hok ->].
    split; [done|]. split.
    + symmetry. apply skip_reserved; try done; lia.
    + intros rest. unfold measure, moved. split_if; [lia|].
      pose proof (later_decreases r c (frame_ceil (PhysRange.end_ r)) Hr ltac:(lia)). lia.
  - split; [done|]. split; [|intros; unfold measure; lia].
    symmetry. apply (skip_reserved_all avoid r); try done; lia.
Qed.

Lemma cursor_frame {E} c :
  current_ok (Some c) ->
  PhysFrame.from_start (cursor c) = Some (PhysFrame.mk (cursor c)) /\
  PhysFrame.range (E:=E) (PhysFrame.mk (cursor c)) = Ok (PhysFrame.bytes_of (PhysFrame.mk (cursor c))).
Proof.
  intros (H0 & Hm & Hem & Hlt & He). pose proof (boundaries_apart _ _ Hm Hem Hlt).
  assert (PhysFrame.wf (PhysFrame.mk (cursor c))) as Hw
    by (unfold PhysFrame.wf; cbn [PhysFrame.start]; repeat split; (done || lia)).
  split; [by apply PhysFrame.from_start_Some|by apply PhysFrame.range_Ok].
Qed.

Lemma set_current_run c s :
  set_current c s = (Ok tt, mk (fdt s) (memory_ranges s) c (kernel s) (dtb s)).
Proof. done. Qed.

(** One iteration, from a state whose current range is [c]. *)
Lemma allocate_step fuel s s1 c rest :
  enter s = (Ok false, s1) -> current s1 = Some c -> owned s1 -> pending s1 rest ->
  current_ok (Some c) ->
  let l := List.filter (is_free avoid) (frames_between (cursor c) (cend c)) ++ free_frames avoid rest in
  (exists f l' s2, l = f :: l' /\ allocate_loop (S fuel) s = (Ok (Some (AllocatedFrame.mk f)), s2) /\
     alloc_at s2 l') \/
  (exists s2, allocate_loop (S fuel) s = allocate_loop fuel s2 /\ owned s2 /\ pending s2 rest /\
     current_ok (current s2) /\
     l = List.filter (is_free avoid) (current_frames (current s2)) ++ free_frames avoid rest /\
     (measure rest (current s2) < measure rest (Some c))%nat).
Proof.
  intros Hen Hcs Ho Hp Hc l. cbn [allocate_loop]. fold enter.
  assert (forall k : bool -> M t never (option AllocatedFrame.t),
    (let* self := get in
     let* none_left := match current self with
                       | Some _ => ret false
                       | None => let* advanced := advance_memory_range in ret (negb advanced)
                       end in k none_left) s = k false s1) as ->.
  { intros k. revert Hen. unfold enter. unfold_m.
    destruct (current s); [by intros [= <-]|].
    destruct (advance_memory_range s) as [[b| | |] s2]; try done. by intros [= -> ->]. }
  rewrite (bind_Ok _ _ _ s1 s1) by done. rewrite Hcs.
  destruct (cursor_frame (E:=never) c Hc) as [Hfr Hrg].
  rewrite (bind_Ok _ _ _ (PhysFrame.mk (cursor c)) s1) by (unfold lift; by rewrite Hfr).
  rewrite (bind_Ok _ _ _ _ s1) by (unfold lift; rewrite Hrg; reflexivity).
  set (range := PhysFrame.bytes_of _).
  rewrite (bind_Ok _ _ _ (List.find (PhysRange.overlaps range) avoid) s1)
    by (unfold lift; by rewrite overlapping_reservation_spec).
  destruct (List.find _ avoid) as [r|] eqn:Hfind.
  - right. apply List.find_some in Hfind as [Hr Hov].
    pose proof (skip_spec r c Hc Hr Hov) as (Hok & Hfr' & Hms). cbv zeta in *.
    destruct (align_up (PhysRange.end_ r)) as [next|]; rewrite (bind_Ok _ _ _ _ _ (set_current_run _ _));
      (eexists; split; [reflexivity|]); (split; [exact Ho|]); (split; [exact Hp|]);
      (split; [exact Hok|]); (split; [|apply Hms]); cbn [current]; by rewrite Hfr'.
  - left. rewrite (bind_Ok _ _ _ _ _ (set_current_run _ _)).
    pose proof Hc as (H0 & Hm & Hem & Hlt & He). pose proof (boundaries_apart _ _ Hm Hem Hlt).
    destruct (moved_ok c (cursor c + FRAME_SIZE) Hc) as [Hok Hfr'];
      [unfold FRAME_SIZE; lia|by rewrite <- (Z.mul_1_l FRAME_SIZE), Z_mod_plus_full|].
    eexists _, _, _. split.
    { unfold l. rewrite frames_between_cons by done. cbn [List.filter].
      rewrite (find_free _ Hfind). reflexivity. }
    split; [reflexivity|]. exists rest. split; [exact Ho|]. split; [exact Hp|].
    change (PhysRange.end_ range) with (cursor c + FRAME_SIZE). cbn [current].
    split; [exact Hok|]. by rewrite Hfr'.
Qed.

Lemma allocate_loop_spec fuel : forall s rest,
  owned s -> pending s rest -> current_ok (current s) -> (measure rest (current s) < fuel)%nat ->
  match List.filter (is_free avoid) (current_frames (current s)) ++ free_frames avoid rest with
  | [] => exists s', allocate_loop fuel s = (Ok None, s') /\ alloc_at s' []
  | f :: l' => exists s', allocate_loop fuel s = (Ok (Some (AllocatedFrame.mk f)), s') /\ alloc_at s' l'
  end.
Proof.
  induction fuel as [|fuel IH]; intros s rest Ho Hp Hc Hf; [lia|].
  destruct (enter_spec s rest Ho Hp Hc) as
    (s1 & Ho1 & [(Hen & -> & Hat)|(c & rest1 & Hen & Hcs & Hcok & Hp1 & Hle & ->)]).
  - exists s1. split; [|done]. cbn [allocate_loop]. revert Hen. unfold enter. unfold_m.
    destruct (current s); [done|]. destruct (advance_memory_range s) as [[b| | |] s2]; try done.
    by intros [= -> ->].
  - destruct (allocate_step fuel s s1 c rest1 Hen Hcs Ho1 Hp1 Hcok) as
      [(fr & l' & s2 & -> & Heq & Hat)|(s2 & -> & Ho2 & Hp2 & Hc2 & -> & Hlt)].
    + exists s2. by split.
    + apply IH; try done. lia.
Qed.

Lemma avoid_length : (length avoid <= reservation_fuel f + structure_fuel f)%nat.
Proof.
  unfold avoid, reserved_list. cbn [length]. rewrite length_app, !length_map.
  pose proof (List.filter_length_le (fun r => negb (Reservations.size r =? 0)) rsv).
  pose proof (l_rsv_len _ _ _ _ Hlists). pose proof (l_reserved_len _ _ _ _ Hlists). lia.
Qed.

Lemma measure_fuel s rest :
  pending s rest -> (measure rest (current s) < allocate_fuel f)%nat.
Proof.
  intros (_ & _ & Hl). unfold measure, allocate_fuel. pose proof avoid_length as Ha.
  assert (match current s with None => 0 | Some c => S (later c) end <= S (length avoid))%nat.
  { destruct (current s) as [c|]; [|lia]. pose proof (later_bound c). lia. }
  nia.
Qed.

(** The allocator hands out exactly the promised frames, in order. *)
#[export] Instance allocate_iterates :
  Iterates allocate (fun a fr => AllocatedFrame.frame a = fr) alloc_at.
Proof.
  assert (forall s, owned s -> allocate s = allocate_loop (allocate_fuel f) s) as Heq.
  { intros s (Hf & _). unfold allocate. unfold_m. by rewrite Hf. }
  split.
  - intros s Hs. apply (exhausted_invariant _ (fun s => alloc_at s [])); [|done]. clear s Hs.
    intros s (rest & Ho & Hp & Hc & Hl). rewrite Heq by done.
    pose proof (allocate_loop_spec _ s rest Ho Hp Hc (measure_fuel s rest Hp)) as H.
    by rewrite <- Hl in H.
  - intros s fr l (rest & Ho & Hp & Hc & Hl). rewrite Heq by done.
    pose proof (allocate_loop_spec _ s rest Ho Hp Hc (measure_fuel s rest Hp)) as H.
    rewrite <- Hl in H. destruct H as (s' & H & Hat). by eexists _, s'.
Qed.

(** A claimed allocator starts with all of them. *)
Lemma claim_at s claimed :
  claim f kern dtree claimed = (Ok s, true) ->
  claimed = false /\ ForallOrdPairs separate ram /\ alloc_at s (free_frames avoid ram).
Proof.
  rewrite claim_spec. destruct (first_overlap ram) as [[]| | |] eqn:Hov; try done.
  apply first_overlap_Ok in Hov. destruct claimed; [done|].
  destruct (l_ram _ _ _ _ Hlists) as (m & -> & Hm). cbn [infallible]. intros [= <-].
  split; [done|]. split; [done|]. exists ram. split; [done|].
  split; [split; [done|]; split; apply Hlists|]. split; [done|]. done.
Qed.


(** A claimed allocator is a source of exactly the free frames. *)
Lemma claim_provides s claimed :
  claim f kern dtree claimed = (Ok s, true) -> provides s (free_frames avoid ram).
Proof.
  intros (_ & Hsep & Hat)%claim_at. split; [by apply (iterates_yields _ _ alloc_at)|]. split.
  - apply free_frames_wf, Hlists.
  - by apply free_frames_NoDup.
Qed.

End devicetree.


(** What [from_ptr] returns has the lists the allocator needs. *)
Lemma from_ptr_lists mem ptr f :
  Fdt.from_ptr mem ptr = Ok f -> exists ram reserved rsv, lists f ram reserved rsv.
Proof.
  destruct (Fdt.from_ptr_spec mem ptr) as [(h & tr & rs & -> & Hd)|[(e & ->) _]]; [|done].
  intros [= <-]. eexists _, _, rs. by apply described_lists.
Qed.

End BootProofs.
