(* ===== verification/KMachine.v ===== *)
(** * The hart: memory, address translation and its synchronisation

    What the paging code relies on of an RV64 hart: byte-addressed physical
    memory, [satp], the Sv39 page walk, and the translations the hart may have
    cached.  [tlb] is what the last fence made visible; an access is defined
    only where the cached translation and the tables agree, so code that
    changes an entry and uses it without a fence gets stuck ([Panic], which
    also stands for a page fault). *)

From Stdlib Require Import ZArith Lia Bool.
From Stdlib Require Import Strings.Byte.
From stdpp Require Import base list numbers.
From S2P Require Import Prelude Fdt FdtScan KMemory.
Local Open Scope Z_scope.

(** ** Words of memory *)

Definition memory : Type := Z -> byte.

Definition le_bytes (n : nat) (v : Z) : list byte := rev (be_bytes n v).

(** Eight bytes, least significant first. *)
Definition read_word (mm : memory) (a : Z) : Z := le_val (Fdt.read_memory mm a 8).

Definition write_bytes (mm : memory) (a : Z) (l : list byte) : memory :=
  fun x => if (a <=? x) && (x <? a + zlen l) then nth (Z.to_nat (x - a)) l x00 else mm x.

Definition write_word (mm : memory) (a v : Z) : memory := write_bytes mm a (le_bytes 8 v).

(** [ptr::write_bytes]. *)
Definition fill (mm : memory) (a n : Z) (b : byte) : memory :=
  fun x => if (a <=? x) && (x <? a + n) then b else mm x.

Lemma read_word_range mm a : is_u64 (read_word mm a).
Proof.
  unfold read_word, le_val, is_u64, u64_max.
  pose proof (be_val_range (rev (Fdt.read_memory mm a 8))) as H.
  replace (zlen (rev (Fdt.read_memory mm a 8))) with 8 in H; [lia|].
  unfold zlen. rewrite length_rev. symmetry. apply (Fdt.zlen_read_memory mm a 8). lia.
Qed.

(** Reading depends on the bytes only. *)
Lemma read_word_ext mm mm' a :
  (forall x, a <= x < a + 8 -> mm x = mm' x) -> read_word mm a = read_word mm' a.
Proof.
  intros H. unfold read_word. f_equal. unfold Fdt.read_memory. apply map_ext_in.
  intros i Hi%in_seq. apply H. lia.
Qed.

Lemma read_write_same mm a v : is_u64 v -> read_word (write_word mm a v) a = v.
Proof.
  intros Hv. unfold read_word, write_word, le_bytes.
  set (l := rev (be_bytes 8 v)). assert (length l = 8%nat) as Hl
    by (unfold l; by rewrite length_rev, length_be_bytes).
  assert (Fdt.read_memory (write_bytes mm a l) a 8 = l) as ->.
  { unfold Fdt.read_memory. apply nth_ext with (d := x00) (d' := x00).
    { by rewrite length_map, length_seq, Hl. }
    intros n Hn. rewrite length_map, length_seq in Hn.
    rewrite (nth_indep _ x00 (write_bytes mm a l (a + Z.of_nat 0)))
      by (by rewrite length_map, length_seq).
    rewrite (map_nth (fun i => write_bytes mm a l (a + Z.of_nat i))), seq_nth by done.
    unfold write_bytes, zlen. rewrite Hl. cbn [Nat.add].
    change (Z.of_nat 8) with 8. change (Z.to_nat 8) with 8%nat in Hn.
    replace ((a <=? a + Z.of_nat n) && (a + Z.of_nat n <? a + 8)) with true by lia.
    f_equal. lia. }
  unfold le_val, l. rewrite rev_involutive, be_val_be_bytes. apply Z.mod_small.
  unfold is_u64, u64_max in Hv. change (256 ^ Z.of_nat 8) with (2 ^ 64). lia.
Qed.

Lemma write_word_outside mm a v x : x < a \/ a + 8 <= x -> write_word mm a v x = mm x.
Proof.
  intros Hx. unfold write_word, write_bytes.
  assert (zlen (le_bytes 8 v) = 8) as ->
    by (unfold zlen, le_bytes; by rewrite length_rev, length_be_bytes).
  by replace ((a <=? x) && (x <? a + 8)) with false by lia.
Qed.

Lemma read_write_other mm a v b :
  b + 8 <= a \/ a + 8 <= b -> read_word (write_word mm a v) b = read_word mm b.
Proof. intros Hd. apply read_word_ext. intros x Hx. apply write_word_outside. lia. Qed.

Lemma fill_outside mm a n b x : x < a \/ a + n <= x -> fill mm a n b x = mm x.
Proof. intros Hx. unfold fill. by replace ((a <=? x) && (x <? a + n)) with false by lia. Qed.

Lemma read_fill_same mm a n b : a <= b -> b + 8 <= a + n -> read_word (fill mm a n x00) b = 0.
Proof.
  intros H1 H2. rewrite (read_word_ext _ (fun _ => x00)); [vm_compute; reflexivity|].
  intros x Hx. unfold fill. by replace ((a <=? x) && (x <? a + n)) with true by lia.
Qed.

Lemma read_fill_other mm a n c b : b + 8 <= a \/ a + n <= b -> read_word (fill mm a n c) b = read_word mm b.
Proof.
  intros H. apply read_word_ext. intros x Hx. unfold fill.
  by replace ((a <=? x) && (x <? a + n)) with false by lia.
Qed.

Lemma write_word_same_ext mm mm' a v x : mm x = mm' x -> write_word mm a v x = write_word mm' a v x.
Proof. intros H. unfold write_word, write_bytes. by rewrite H. Qed.

Lemma fill_same_ext mm mm' a n b x : mm x = mm' x -> fill mm a n b x = fill mm' a n b x.
Proof. intros H. unfold fill. by rewrite H. Qed.

(** The bytes of a written word do not depend on what they replace. *)
Lemma write_word_inside mm mm' a v x : a <= x < a + 8 -> write_word mm a v x = write_word mm' a v x.
Proof.
  intros Hx. unfold write_word, write_bytes, zlen, le_bytes. rewrite length_rev, length_be_bytes.
  change (Z.of_nat 8) with 8. by replace ((a <=? x) && (x <? a + 8)) with true by lia.
Qed.

(** Writing back what is there changes nothing. *)
Lemma write_word_read mm a x : write_word mm a (read_word mm a) x = mm x.
Proof.
  destruct (decide (a <= x < a + 8)) as [Hx|Hx]; [|by rewrite write_word_outside by lia].
  unfold write_word, read_word, le_val, le_bytes.
  assert (length (rev (Fdt.read_memory mm a 8)) = 8%nat) as Hl
    by (rewrite length_rev; unfold Fdt.read_memory; by rewrite length_map, length_seq).
  rewrite <- Hl at 1. rewrite be_bytes_be_val, rev_involutive. unfold write_bytes, Fdt.read_memory.
  unfold zlen. rewrite length_map, length_seq. change (Z.of_nat (Z.to_nat 8)) with 8.
  replace ((a <=? x) && (x <? a + 8)) with true by lia.
  rewrite (nth_indep _ x00 (mm (a + Z.of_nat 0))) by (rewrite length_map, length_seq; lia).
  rewrite (map_nth (fun i => mm (a + Z.of_nat i))), seq_nth by lia. f_equal. lia.
Qed.

(** ** Sv39 translation *)

(** A translated page: the physical page number and what its leaf permits. *)
Record leaf := mkLeaf { l_ppn : Z; l_read : bool; l_write : bool; l_exec : bool; l_user : bool }.

#[export] Instance leaf_eq_decision : EqDecision leaf.
Proof. solve_decision. Defined.

Definition pte_ppn (e : Z) : Z := e / 2 ^ 10 mod 2 ^ 44.

(** The walk of the privileged architecture from a table of the given level:
    an invalid or reserved encoding, a misaligned superpage and a leaf that has
    not been marked accessed are faults; a leaf not marked dirty permits no
    write. *)
Fixpoint walk (mm : memory) (level : nat) (table vpn : Z) : option leaf :=
  let e := read_word mm (table + 8 * (vpn / 512 ^ Z.of_nat level mod 512)) in
  if negb (Z.testbit e 0) || (negb (Z.testbit e 1) && Z.testbit e 2) || negb (e / 2 ^ 54 =? 0)
  then None
  else if Z.testbit e 1 || Z.testbit e 3 then
    if negb (pte_ppn e mod 512 ^ Z.of_nat level =? 0) || negb (Z.testbit e 6) then None
    else Some (mkLeaf (pte_ppn e + vpn mod 512 ^ Z.of_nat level)
                 (Z.testbit e 1) (Z.testbit e 2 && Z.testbit e 7) (Z.testbit e 3) (Z.testbit e 4))
  else match level with
       | O => None
       | S level' => walk mm level' (pte_ppn e * 4096) vpn
       end.

(** Bits 63 to 39 of an address repeat bit 38. *)
Definition canonical (va : Z) : bool := (va <? 2 ^ 38) || (2 ^ 64 - 2 ^ 38 <=? va).

Record machine := mkMachine { mem : memory; satp : Z; tlb : Z -> option leaf }.

Definition translate (mm : memory) (satp va : Z) : option leaf :=
  if canonical va && (satp / 2 ^ 60 =? 8)
  then walk mm 2 (satp mod 2 ^ 44 * 4096) (va / 4096 mod 2 ^ 27)
  else None.

(** The physical address a supervisor access reaches, when its translation is
    synchronised and permits it. *)
Definition resolve (m : machine) (write : bool) (va : Z) : option Z :=
  match translate (mem m) (satp m) va, tlb m (va / 4096) with
  | Some l, Some l' =>
      if bool_decide (l = l') && (if write then l_write l else l_read l) && negb (l_user l)
      then Some (l_ppn l * 4096 + va mod 4096)
      else None
  | _, _ => None
  end.

(** [ptr::read_volatile] and [ptr::write_volatile] of an aligned [usize]. *)
Definition load_word (va : Z) : M machine never Z :=
  let* m := get in
  match resolve m false va with
  | Some pa => if va mod 8 =? 0 then ret (read_word (mem m) pa) else panic
  | None => panic
  end.

Definition store_word (va v : Z) : M machine never unit :=
  let* m := get in
  match resolve m true va with
  | Some pa => if va mod 8 =? 0 then put (mkMachine (write_word (mem m) pa v) (satp m) (tlb m))
               else panic
  | None => panic
  end.

(** [ptr::write_bytes] within one page. *)
Definition fill_page (va n : Z) (b : byte) : M machine never unit :=
  let* m := get in
  match resolve m true va with
  | Some pa => if va mod 4096 + n <=? 4096
               then put (mkMachine (fill (mem m) pa n b) (satp m) (tlb m)) else panic
  | None => panic
  end.

(** [ptr::copy_nonoverlapping] from immutable storage into one page. *)
Definition copy_bytes (va : Z) (l : list byte) : M machine never unit :=
  let* m := get in
  match resolve m true va with
  | Some pa => if va mod 4096 + zlen l <=? 4096
               then put (mkMachine (write_bytes (mem m) pa l) (satp m) (tlb m)) else panic
  | None => panic
  end.

(** [sfence.vma zero, zero] and [sfence.vma address, zero]. *)
Definition fence_all : M machine never unit :=
  let* m := get in
  put (mkMachine (mem m) (satp m) (fun vp => translate (mem m) (satp m) (vp * 4096))).

Definition fence_address (va : Z) : M machine never unit :=
  let* m := get in
  put (mkMachine (mem m) (satp m)
         (fun vp => if vp =? va / 4096 then translate (mem m) (satp m) va else tlb m vp)).

(** [csrr] and [csrw] of [satp]. *)
Definition read_satp : M machine never Z := let* m := get in ret (satp m).
Definition write_satp (v : Z) : M machine never unit :=
  let* m := get in put (mkMachine (mem m) v (tlb m)).
