(* ===== verification/KPaging.v ===== *)
(** * Sv39 page tables ([kernel/src/arch/riscv64/paging.rs] and
    [kernel/src/arch/riscv64/paging/access.rs])

    The table operations run on a state of three parts: the capability that
    gives temporary access to frames, the hart, and the frame allocator.
    [FrameAccess] is the trait of the same name; its default methods and the
    mapping functions are generic in it. *)

From Stdlib Require Import ZArith Lia Bool.
From Stdlib Require Import Strings.Byte.
From stdpp Require Import base list numbers.
From S2P Require Import Prelude FdtScan KMemory KBootAlloc KMachine.
Local Open Scope Z_scope.

(** [a << k] on a [usize]: the bits above the width are lost. *)
Definition shl (a k : Z) : Z := Z.land (Z.shiftl a k) usize_max.

Definition SV39_SIGN_BIT : Z := 38.
Definition PAGE_SHIFT : Z := 12.
Definition PAGE_SIZE : Z := shl 1 PAGE_SHIFT.
Definition PAGE_MASK : Z := PAGE_SIZE - 1.
Definition MEGAPAGE_SHIFT : Z := 21.
Definition PAGE_TABLE_ENTRIES : Z := 512.
Definition GIGAPAGE_SHIFT : Z := 30.
Definition GIGAPAGE_SIZE : Z := shl 1 GIGAPAGE_SHIFT.
Definition GIGAPAGE_MASK : Z := GIGAPAGE_SIZE - 1.
Definition VPN_MASK : Z := 0x1ff.
Definition SV39_HIGH_HALF_BASE : Z := shl usize_max SV39_SIGN_BIT.
Definition SV39_HIGH_HALF_VPN2 : Z := Z.land (Z.shiftr SV39_HIGH_HALF_BASE GIGAPAGE_SHIFT) VPN_MASK.
Definition SV39_LOW_HALF_END : Z := shl 1 SV39_SIGN_BIT.
Definition PTE_PPN_SHIFT : Z := 10.
Definition PTE_VALID : Z := shl 1 0.
Definition PTE_READ : Z := shl 1 1.
Definition PTE_WRITE : Z := shl 1 2.
Definition PTE_EXECUTE : Z := shl 1 3.
Definition PTE_USER : Z := shl 1 4.
Definition PTE_ACCESSED : Z := shl 1 6.
Definition PTE_DIRTY : Z := shl 1 7.
Definition PTE_LEAF_MASK : Z := Z.lor (Z.lor PTE_READ PTE_WRITE) PTE_EXECUTE.

Inductive PagePrivilege := Supervisor | User.

Definition BOOT_FDT_PTE_FLAGS : Z := Z.lor (Z.lor PTE_VALID PTE_READ) PTE_ACCESSED.
Definition BOOT_FDT_WINDOW_BASE : Z := SV39_HIGH_HALF_BASE.
Definition BOOT_FDT_WINDOW_VPN2 : Z := SV39_HIGH_HALF_VPN2.
Definition BOOT_FDT_WINDOW_GIGAPAGES : Z := 5.
Definition BOOT_FRAME_WINDOW_VPN2 : Z := VPN_MASK.
Definition BOOT_FRAME_WINDOW_BASE : Z :=
  SV39_HIGH_HALF_BASE + (BOOT_FRAME_WINDOW_VPN2 - SV39_HIGH_HALF_VPN2) * GIGAPAGE_SIZE.
Definition FRAME_WINDOW_PTE_FLAGS : Z :=
  Z.lor (Z.lor (Z.lor (Z.lor PTE_VALID PTE_READ) PTE_WRITE) PTE_ACCESSED) PTE_DIRTY.

Definition SATP_MODE_SHIFT : Z := 60.
Definition SATP_MODE_MASK : Z := 0xf.
Definition SATP_MODE_SV39 : Z := 8.
Definition PHYSICAL_PAGE_NUMBER_BITS : Z := 44.
Definition SATP_PPN_MASK : Z := shl 1 PHYSICAL_PAGE_NUMBER_BITS - 1.
Definition PHYSICAL_ADDRESS_BITS : Z := PHYSICAL_PAGE_NUMBER_BITS + PAGE_SHIFT.
Definition MAX_PHYSICAL_ADDRESS : Z := shl 1 PHYSICAL_ADDRESS_BITS - 1.

Inductive PagingError :=
| VirtualAddressNotUser (address : Z)
| RootEntryInUse (index entry : Z)
| UnexpectedAddressTranslationMode (mode : Z)
| PhysicalAddressNotRepresentable (address : PhysAddr.t)
| PhysicalRangeNotRepresentable (start : PhysAddr.t) (size : Z)
| InvalidKernelSection (range : VirtRange.t)
| InvalidDtbMapping (virtual_address : VirtAddr.t) (physical_range : PhysRange.t)
| OutOfPhysicalFrames
| VirtualAddressNotPageAligned (address : Z)
| VirtualAddressNotCanonical (address : Z)
| InvalidIntermediateEntry (index entry : Z)
| PageAlreadyMapped (address entry : Z)
| PageTableIndexOutOfRange (index : Z)
| VirtualAddressNotKernel (address : Z)
| ReservedVirtualPage (address : Z)
| BootstrapPagingAlreadyClaimed
| KernelHeapAlreadyClaimed.

Definition permission_bits (permissions : PagePermissions) : Z :=
  match permissions with
  | ReadOnly => PTE_READ
  | ReadWrite => Z.lor PTE_READ PTE_WRITE
  | ReadExecute => Z.lor PTE_READ PTE_EXECUTE
  end.

Definition page_table_entry (physical_address : PhysAddr.t) (flags : Z) : outcome PagingError Z :=
  if MAX_PHYSICAL_ADDRESS <? PhysAddr.as_usize physical_address
  then Err (PhysicalAddressNotRepresentable physical_address)
  else
    let physical_page_number := Z.shiftr (PhysAddr.as_usize physical_address) PAGE_SHIFT in
    Ok (Z.lor (shl physical_page_number PTE_PPN_SHIFT) flags).

Definition intermediate_frame (index entry : Z) : outcome PagingError PhysFrame.t :=
  if (Z.land entry PTE_VALID =? 0) || negb (Z.land entry PTE_LEAF_MASK =? 0)
  then Err (InvalidIntermediateEntry index entry)
  else
    let physical_page_number := Z.land (Z.shiftr entry PTE_PPN_SHIFT) SATP_PPN_MASK in
    let physical_address := PhysAddr.new (shl physical_page_number PAGE_SHIFT) in
    match PhysFrame.from_start physical_address with
    | None => Err (InvalidIntermediateEntry index entry)
    | Some frame => Ok frame
    end.

(** ** Raw access through a mapped table *)

Definition read_mapped_page_table_entry (address : VirtAddr.t) (index : Z)
    : M machine PagingError Z :=
  if PAGE_TABLE_ENTRIES <=? index then throw (PageTableIndexOutOfRange index)
  else minfallible (load_word (VirtAddr.as_usize address + 8 * index)).

Definition write_mapped_page_table_entry (address : VirtAddr.t) (index value : Z)
    : M machine PagingError unit :=
  if PAGE_TABLE_ENTRIES <=? index then throw (PageTableIndexOutOfRange index)
  else minfallible (store_word (VirtAddr.as_usize address + 8 * index) value).

Definition flush_address (address : VirtAddr.t) : M machine never unit :=
  fence_address (VirtAddr.as_usize address).
Definition flush_all : M machine never unit := fence_all.

(** A closure that returns a [Result]: its error is its value. *)
Definition as_result {S E A} (m : M S E A) : M S never (outcome E A) :=
  fun s => match m s with
           | (Ok a, s') => (Ok (Ok a), s')
           | (Err e, s') => (Ok (Err e), s')
           | (Panic, s') => (Panic, s')
           | (OutOfFuel, s') => (OutOfFuel, s')
           end.

(** ** The trait *)

Class FrameAccess (A : Type) :=
  with_frame : forall R, PhysFrame.t -> (VirtAddr.t -> M machine never R) ->
                         M (A * machine) PagingError R.

Arguments with_frame {A _ R} frame operation.

Section access.
Context {A : Type} `{FrameAccess A}.

Definition zero_frame (frame : AllocatedFrame.t) : M (A * machine) PagingError unit :=
  with_frame (AllocatedFrame.frame frame)
    (fun address => fill_page (VirtAddr.as_usize address) PAGE_SIZE x00).

Definition read_page_table_entry (frame : PhysFrame.t) (index : Z) : M (A * machine) PagingError Z :=
  let* r := with_frame frame
              (fun address => as_result (read_mapped_page_table_entry address index)) in
  lift r.

Definition write_page_table_entry (frame : PhysFrame.t) (index entry : Z)
    : M (A * machine) PagingError unit :=
  let* r := with_frame frame
              (fun address => as_result (write_mapped_page_table_entry address index entry)) in
  lift r.

Context {F : Type} `{FrameAllocator F}.

(** A step of the access capability, and a request to the allocator. *)
Definition on_access {R} (m : M (A * machine) PagingError R) : M (A * machine * F) PagingError R :=
  zoom fst (fun am s => (am, snd s)) m.

Definition next_frame : M (A * machine * F) PagingError (option AllocatedFrame.t) :=
  zoom snd (fun f s => (fst s, f)) (minfallible allocate_frame).

Definition allocate_page_table : M (A * machine * F) PagingError AllocatedFrame.t :=
  let* frame := next_frame in
  match frame with
  | None => throw OutOfPhysicalFrames
  | Some frame =>
      let* _ := on_access (zero_frame frame) in
      ret frame
  end.

Definition next_table (parent : PhysFrame.t) (index : Z) : M (A * machine * F) PagingError PhysFrame.t :=
  let* entry := on_access (read_page_table_entry parent index) in
  if negb (entry =? 0) then lift (intermediate_frame index entry)
  else
    let* child := allocate_page_table in
    let* entry := lift (page_table_entry (AllocatedFrame.start_address child) PTE_VALID) in
    let* _ := on_access (write_page_table_entry parent index entry) in
    ret (AllocatedFrame.into_frame child).

(** ** Mapping *)

Definition leaf_flags (permissions : PagePermissions) (privilege : PagePrivilege) : Z :=
  let permissions := permission_bits permissions in
  let flags := Z.lor (Z.lor PTE_VALID PTE_ACCESSED) permissions in
  let flags := match privilege with User => Z.lor flags PTE_USER | Supervisor => flags end in
  if negb (Z.land permissions PTE_WRITE =? 0) then Z.lor flags PTE_DIRTY else flags.

Definition map_page (root : PhysFrame.t) (virtual_address : VirtAddr.t) (physical_frame : PhysFrame.t)
    (permissions : PagePermissions) (privilege : PagePrivilege) : M (A * machine * F) PagingError unit :=
  let address := VirtAddr.as_usize virtual_address in
  if negb (Z.land address PAGE_MASK =? 0) then throw (VirtualAddressNotPageAligned address)
  else if (SV39_LOW_HALF_END <=? address) && (address <? SV39_HIGH_HALF_BASE)
  then throw (VirtualAddressNotCanonical address)
  else
    let flags := leaf_flags permissions privilege in
    let* entry := lift (page_table_entry (PhysFrame.start_address physical_frame) flags) in
    let vpn2 := Z.land (Z.shiftr address GIGAPAGE_SHIFT) VPN_MASK in
    let vpn1 := Z.land (Z.shiftr address MEGAPAGE_SHIFT) VPN_MASK in
    let vpn0 := Z.land (Z.shiftr address PAGE_SHIFT) VPN_MASK in
    let* level_1 := next_table root vpn2 in
    let* level_0 := next_table level_1 vpn1 in
    let* existing := on_access (read_page_table_entry level_0 vpn0) in
    if negb (existing =? 0) then throw (PageAlreadyMapped address existing)
    else on_access (write_page_table_entry level_0 vpn0 entry).

Definition Sv39PageTable_new : M (A * machine * F) PagingError AllocatedFrame.t := allocate_page_table.

(** [for page_index in 0..page_count]. *)
Fixpoint map_pages (count : nat) (page_index : Z) (root : PhysFrame.t) (start : Z)
    (physical_base : PhysAddr.t) (size : Z) (permissions : PagePermissions)
    : M (A * machine * F) PagingError unit :=
  match count with
  | O => ret tt
  | S count' =>
      let* offset := lift (umul usize_max page_index PAGE_SIZE) in
      let* virtual_address := lift (uadd usize_max start offset) in
      let virtual_address := VirtAddr.new virtual_address in
      let* physical_address := lift (uadd usize_max (PhysAddr.as_usize physical_base) offset) in
      let physical_address := PhysAddr.new physical_address in
      match PhysFrame.from_start physical_address with
      | None => throw (PhysicalRangeNotRepresentable physical_base size)
      | Some frame =>
          let* _ := map_page root virtual_address frame permissions Supervisor in
          map_pages count' (page_index + 1) root start physical_base size permissions
      end
  end.

Definition map_range (root : PhysFrame.t) (virtual_range : VirtRange.t) (physical_start : PhysFrame.t)
    (permissions : PagePermissions) : M (A * machine * F) PagingError unit :=
  let start := VirtAddr.as_usize (VirtRange.start virtual_range) in
  let end_ := VirtAddr.as_usize (VirtRange.end_ virtual_range) in
  if negb (Z.land start PAGE_MASK =? 0) then throw (VirtualAddressNotPageAligned start)
  else if (SV39_LOW_HALF_END <=? start) && (start <? SV39_HIGH_HALF_BASE)
  then throw (VirtualAddressNotCanonical start)
  else if (start <? SV39_LOW_HALF_END) && (SV39_LOW_HALF_END <? end_)
  then throw (VirtualAddressNotCanonical SV39_LOW_HALF_END)
  else
    let* size := lift (usub end_ start) in
    let page_count := (size + PAGE_SIZE - 1) / PAGE_SIZE in
    let* last_page := lift (usub page_count 1) in
    let* last_offset := lift (umul usize_max last_page PAGE_SIZE) in
    let physical_base := PhysFrame.start_address physical_start in
    let* _ := lift (ok_or
      (address ← PhysAddr.checked_add physical_base last_offset;
       if PhysAddr.as_usize address <=? MAX_PHYSICAL_ADDRESS then Some address else None)
      (PhysicalRangeNotRepresentable physical_base size)) in
    map_pages (Z.to_nat page_count) 0 root start physical_base size permissions.

End access.
