(* ===== verification/KPte.v ===== *)
(** * Page-table entries

    What the entries the code builds mean to the page walk: a link leads to
    its table, a leaf to its frame with the permissions that were asked for. *)

From Stdlib Require Import ZArith Lia Bool.
From stdpp Require Import base list numbers.
From S2P Require Import Prelude FdtScan KMemory KMachine KPaging.
Local Open Scope Z_scope.

(** A frame an entry can name. *)
Definition representable (a : Z) : Prop := 0 <= a <= MAX_PHYSICAL_ADDRESS /\ a mod FRAME_SIZE = 0.

Definition pte (a flags : Z) : Z := a / FRAME_SIZE * 2 ^ 10 + flags.

(** The entry of a child table. *)
Definition link_pte (a : Z) : Z := pte a PTE_VALID.

Lemma max_physical : MAX_PHYSICAL_ADDRESS = 2 ^ 56 - 1.
Proof. vm_compute. reflexivity. Qed.

Lemma shl_small a k : 0 <= k -> 0 <= a * 2 ^ k <= usize_max -> shl a k = a * 2 ^ k.
Proof.
  intros Hk Ha. unfold shl. rewrite Z.shiftl_mul_pow2 by done.
  change usize_max with (Z.ones 64). rewrite Z.land_ones by done. apply Z.mod_small.
  unfold usize_max in Ha. lia.
Qed.

Lemma representable_ppn a :
  representable a -> 0 <= a / FRAME_SIZE < 2 ^ 44 /\ a / FRAME_SIZE * FRAME_SIZE = a.
Proof.
  intros [Ha Hm]. rewrite max_physical in Ha. unfold FRAME_SIZE in *.
  split; Z.div_mod_to_equations; lia.
Qed.

Lemma pte_mod a flags : 0 <= flags < 2 ^ 10 -> pte a flags mod 2 ^ 10 = flags.
Proof. intros Hf. unfold pte. rewrite Z.add_comm, Z_mod_plus_full. by apply Z.mod_small. Qed.

Lemma pte_div a flags : 0 <= flags < 2 ^ 10 -> pte a flags / 2 ^ 10 = a / FRAME_SIZE.
Proof. intros Hf. unfold pte. rewrite Z.div_add_l by done. rewrite (Z.div_small flags) by done. lia. Qed.

Lemma pte_testbit a flags k :
  0 <= flags < 2 ^ 10 -> k < 10 -> Z.testbit (pte a flags) k = Z.testbit flags k.
Proof. intros Hf Hk. by rewrite <- (Z.mod_pow2_bits_low (pte a flags) 10), pte_mod. Qed.

Lemma pte_land a flags mask :
  0 <= flags < 2 ^ 10 -> Z.land mask (Z.ones 10) = mask ->
  Z.land (pte a flags) mask = Z.land flags mask.
Proof.
  intros Hf Hm. rewrite <- Hm at 1.
  rewrite (Z.land_comm mask), Z.land_assoc, Z.land_ones, pte_mod by done. done.
Qed.

Lemma pte_u64 a flags :
  representable a -> 0 <= flags < 2 ^ 10 -> is_u64 (pte a flags) /\ pte a flags / 2 ^ 54 = 0.
Proof.
  intros [Hp _]%representable_ppn Hf. unfold pte, is_u64, u64_max. split; [lia|].
  apply Z.div_small. lia.
Qed.

Lemma pte_ppn_eq a flags :
  representable a -> 0 <= flags < 2 ^ 10 -> pte_ppn (pte a flags) = a / FRAME_SIZE.
Proof.
  intros [Hp _]%representable_ppn Hf. unfold pte_ppn. rewrite pte_div by done. by apply Z.mod_small.
Qed.

Lemma page_table_entry_eq a flags :
  representable a -> 0 <= flags < 2 ^ 10 -> page_table_entry a flags = Ok (pte a flags).
Proof.
  intros Hr Hf. pose proof (representable_ppn a Hr) as [Hp _]. destruct Hr as [[Ha Hle] Hm].
  unfold page_table_entry, PhysAddr.as_usize.
  replace (MAX_PHYSICAL_ADDRESS <? a) with false by lia. f_equal.
  unfold PTE_PPN_SHIFT, PAGE_SHIFT. rewrite Z.shiftr_div_pow2 by done.
  change (2 ^ 12) with FRAME_SIZE. rewrite shl_small by (unfold usize_max; lia).
  unfold pte. rewrite <- Z.add_lor_land.
  assert (Z.land (a / FRAME_SIZE * 2 ^ 10) flags = 0) as ->; [|lia].
  apply Z.bits_inj'. intros n Hn. rewrite Z.land_spec, Z.bits_0.
  destruct (Z_lt_le_dec n 10) as [Hlt|Hge].
  - by rewrite Z.mul_pow2_bits_low.
  - rewrite <- (Z.mod_small flags (2 ^ 10)) by done. rewrite (Z.mod_pow2_bits_high flags) by lia.
    apply andb_false_r.
Qed.

Lemma page_table_entry_high a flags :
  MAX_PHYSICAL_ADDRESS < a ->
  page_table_entry a flags = Err (PhysicalAddressNotRepresentable a).
Proof.
  intros H. unfold page_table_entry, PhysAddr.as_usize.
  by replace (MAX_PHYSICAL_ADDRESS <? a) with true by lia.
Qed.

(** The entry read back names its table. *)
Lemma intermediate_frame_link i a :
  representable a -> intermediate_frame i (link_pte a) = Ok (PhysFrame.mk a).
Proof.
  intros Hr. pose proof (representable_ppn a Hr) as [Hp Hpa]. unfold intermediate_frame, link_pte.
  rewrite !pte_land by done. change (Z.land PTE_VALID PTE_VALID =? 0) with false.
  change (negb (Z.land PTE_VALID PTE_LEAF_MASK =? 0)) with false. cbn [orb].
  unfold PTE_PPN_SHIFT, PAGE_SHIFT. rewrite Z.shiftr_div_pow2, pte_div by done.
  change SATP_PPN_MASK with (Z.ones 44). rewrite Z.land_ones, Z.mod_small by done.
  rewrite shl_small by (unfold usize_max; lia). change (2 ^ 12) with FRAME_SIZE. rewrite Hpa.
  unfold PhysAddr.new. destruct Hr as [[Ha Hle] Hm]. rewrite max_physical in Hle.
  assert (PhysFrame.from_start a = Some (PhysFrame.mk a)) as ->; [|done].
  apply PhysFrame.from_start_Some; [done|]. unfold PhysFrame.wf. cbn.
  unfold FRAME_SIZE, usize_max in *. split; [|done]. split; [done|]. split; [done|lia].
Qed.

(** ** The walk *)

Lemma walk_link mm level table vpn a :
  read_word mm (table + 8 * (vpn / 512 ^ Z.of_nat (S level) mod 512)) = link_pte a ->
  representable a -> walk mm (S level) table vpn = walk mm level a vpn.
Proof.
  intros He Hr. pose proof (representable_ppn a Hr) as [_ Hpa].
  destruct (pte_u64 a PTE_VALID Hr ltac:(done)) as [_ Hhigh].
  cbn [walk]. rewrite He. unfold link_pte. rewrite !pte_testbit, Hhigh by done.
  change (Z.testbit PTE_VALID 0) with true. change (Z.testbit PTE_VALID 1) with false.
  change (Z.testbit PTE_VALID 2) with false. change (Z.testbit PTE_VALID 3) with false.
  cbn [negb andb orb Z.eqb]. rewrite pte_ppn_eq by done.
  change 4096 with FRAME_SIZE. by rewrite Hpa.
Qed.

Lemma walk_zero mm level table vpn :
  read_word mm (table + 8 * (vpn / 512 ^ Z.of_nat level mod 512)) = 0 ->
  walk mm level table vpn = None.
Proof. intros He. by destruct level; cbn [walk]; rewrite He. Qed.

(** The translation a mapping asks for. *)
Definition leaf_for (a : Z) (permissions : PagePermissions) (privilege : PagePrivilege) : leaf :=
  mkLeaf (a / FRAME_SIZE) true
    (bool_decide (permissions = ReadWrite)) (bool_decide (permissions = ReadExecute))
    (match privilege with User => true | Supervisor => false end).

Definition leaf_pte (a : Z) (permissions : PagePermissions) (privilege : PagePrivilege) : Z :=
  pte a (leaf_flags permissions privilege).

Lemma leaf_flags_range permissions privilege :
  0 <= leaf_flags permissions privilege < 2 ^ 10 /\ Z.testbit (leaf_flags permissions privilege) 0 = true.
Proof. destruct permissions, privilege; vm_compute; repeat split; congruence. Qed.

Lemma walk_leaf mm table vpn a permissions privilege :
  read_word mm (table + 8 * (vpn mod 512)) = leaf_pte a permissions privilege ->
  representable a -> walk mm 0 table vpn = Some (leaf_for a permissions privilege).
Proof.
  intros He Hr. destruct (leaf_flags_range permissions privilege) as [Hf _].
  destruct (pte_u64 a _ Hr Hf) as [_ Hhigh]. cbn [walk]. change (512 ^ Z.of_nat 0) with 1.
  rewrite Z.div_1_r, He. unfold leaf_pte. rewrite !pte_testbit, Hhigh, !pte_ppn_eq by done.
  rewrite !Z.mod_1_r, Z.add_0_r. unfold leaf_for.
  by destruct permissions, privilege.
Qed.

Lemma leaf_pte_nonzero a permissions privilege : leaf_pte a permissions privilege <> 0.
Proof.
  destruct (leaf_flags_range permissions privilege) as [Hf H0]. intros Hz.
  pose proof (pte_testbit a _ 0 Hf ltac:(lia)) as Ht. unfold leaf_pte in Hz.
  by rewrite Hz, H0 in Ht.
Qed.

Lemma link_pte_nonzero a : representable a -> link_pte a <> 0.
Proof.
  intros [Hp _]%representable_ppn. unfold link_pte, pte. change PTE_VALID with 1. lia.
Qed.

(** Addresses by their page-number fields. *)
Lemma vpn_field va k :
  is_usize va -> 0 <= k -> Z.land (Z.shiftr va k) VPN_MASK = va / 2 ^ k mod 512.
Proof.
  intros Ha Hk. rewrite Z.shiftr_div_pow2 by done. change VPN_MASK with (Z.ones 9).
  by rewrite Z.land_ones.
Qed.

Lemma page_mask_zero va : Z.land va PAGE_MASK = va mod FRAME_SIZE.
Proof. change PAGE_MASK with (Z.ones 12). by rewrite Z.land_ones. Qed.
