(* ===== verification/KTables.v ===== *)
(** * Address spaces and the tables that represent them

    The abstract specification of a page table is a finite map from 27-bit
    page numbers to leaves.  [tables] says when memory represents one: the
    table frames are arranged by path below the root, no frame serves twice,
    and every entry is a link, a leaf or empty.  The page walk then computes
    the lookup. *)

From Stdlib Require Import ZArith Lia Bool.
From Stdlib Require Import Strings.Byte.
From stdpp Require Import base list numbers gmap.
From S2P Require Import Prelude FdtScan KMemory KBootAlloc KMachine KPaging KPte.
Local Open Scope Z_scope.

Definition entry (mm : memory) (f i : Z) : Z := read_word mm (f + 8 * i).

(** The three index fields of a page number. *)
Definition idx2 (v : Z) : Z := v / 512 ^ 2 mod 512.
Definition idx1 (v : Z) : Z := v / 512 mod 512.
Definition idx0 (v : Z) : Z := v mod 512.

Definition is_vpn (v : Z) : Prop := 0 <= v < 2 ^ 27.

(** An address space. *)
Abbreviation space := (gmap Z leaf).

(** The frames of the tables, by path: the root, the tables below it, and the
    tables of leaves. *)
Abbreviation table_map := (gmap (list Z) Z).

Definition link_entry (c : option Z) : Z := match c with Some c => link_pte c | None => 0 end.

Definition leaf_entry (e : Z) (o : option leaf) : Prop :=
  match o with
  | None => e = 0
  | Some l => exists a permissions privilege,
      representable a /\ e = leaf_pte a permissions privilege /\ l = leaf_for a permissions privilege
  end.

Record tables (mm : memory) (T : table_map) (sp : space) : Prop := {
  t_frame p f : T !! p = Some f -> representable f /\ (length p <= 2)%nat;
  t_parent p i c : T !! (p ++ [i]) = Some c -> is_Some (T !! p) /\ 0 <= i < 512;
  t_inj p q f : T !! p = Some f -> T !! q = Some f -> p = q;
  t_link p f i : T !! p = Some f -> (length p < 2)%nat -> 0 <= i < 512 ->
    entry mm f i = link_entry (T !! (p ++ [i]));
  t_leaf v g : is_vpn v -> T !! [idx2 v; idx1 v] = Some g -> leaf_entry (entry mm g (idx0 v)) (sp !! v);
  t_space v l : sp !! v = Some l -> is_vpn v /\ is_Some (T !! [idx2 v; idx1 v]);
}.

Lemma idx_range v : 0 <= idx2 v < 512 /\ 0 <= idx1 v < 512 /\ 0 <= idx0 v < 512.
Proof. unfold idx2, idx1, idx0. repeat split; Z.div_mod_to_equations; lia. Qed.

Lemma vpn_eq v w : is_vpn v -> is_vpn w -> idx2 v = idx2 w -> idx1 v = idx1 w -> idx0 v = idx0 w -> v = w.
Proof.
  unfold is_vpn, idx2, idx1, idx0. change (512 ^ 2) with 262144. intros.
  Z.div_mod_to_equations. lia.
Qed.

(** Distinct entries of table frames are distinct words. *)
Lemma word_inj f g i j :
  representable f -> representable g -> 0 <= i < 512 -> 0 <= j < 512 ->
  f + 8 * i = g + 8 * j -> f = g /\ i = j.
Proof.
  intros [_ Hf] [_ Hg] Hi Hj H. unfold FRAME_SIZE in *. Z.div_mod_to_equations. lia.
Qed.

Lemma word_apart f g i j :
  representable f -> representable g -> 0 <= i < 512 -> 0 <= j < 512 -> f + 8 * i <> g + 8 * j ->
  g + 8 * j + 8 <= f + 8 * i \/ f + 8 * i + 8 <= g + 8 * j.
Proof. intros [_ Hf] [_ Hg] Hi Hj He. unfold FRAME_SIZE in *. Z.div_mod_to_equations. lia. Qed.

Lemma entry_write mm f i v g j :
  representable f -> representable g -> 0 <= i < 512 -> 0 <= j < 512 -> is_u64 v ->
  entry (write_word mm (f + 8 * i) v) g j = if bool_decide ((g, j) = (f, i)) then v else entry mm g j.
Proof.
  intros Hf Hg Hi Hj Hv. unfold entry. case_bool_decide as H.
  - injection H as -> ->. by apply read_write_same.
  - apply read_write_other, word_apart; try done. intros He. apply word_inj in He as [-> ->]; done.
Qed.

Lemma entry_fill mm f g j :
  representable f -> representable g -> 0 <= j < 512 ->
  entry (fill mm f FRAME_SIZE x00) g j = if bool_decide (g = f) then 0 else entry mm g j.
Proof.
  intros [_ Hf] [_ Hg] Hj. unfold entry, FRAME_SIZE in *. case_bool_decide as H.
  - subst g. apply read_fill_same; lia.
  - apply read_fill_other. Z.div_mod_to_equations. lia.
Qed.

Lemma entry_ext mm mm' f i : (forall x, mm x = mm' x) -> entry mm f i = entry mm' f i.
Proof. intros H. apply read_word_ext. intros. apply H. Qed.

Lemma tables_ext mm mm' T sp : (forall x, mm x = mm' x) -> tables mm T sp -> tables mm' T sp.
Proof.
  intros H [H1 H2 H3 H4 H5 H6]. split; try done; intros; rewrite <- (entry_ext mm) by done; auto.
Qed.

(** ** The walk *)

Section represented.
Context (mm : memory) (T : table_map) (sp : space) (Ht : tables mm T sp).

Lemma walk_child p f level vpn :
  T !! p = Some f -> (length p < 2)%nat -> (level = 1 - length p)%nat ->
  let i := vpn / 512 ^ Z.of_nat (S level) mod 512 in
  walk mm (S level) f vpn = match T !! (p ++ [i]) with Some c => walk mm level c vpn | None => None end.
Proof.
  intros Hp Hl _ i. assert (0 <= i < 512) as Hi by (unfold i; Z.div_mod_to_equations; lia).
  pose proof (t_link _ _ _ Ht p f i Hp Hl Hi) as He. destruct (T !! (p ++ [i])) as [c|] eqn:Hc.
  - apply walk_link; [exact He|]. by apply (t_frame _ _ _ Ht) in Hc as [Hc _].
  - apply walk_zero. exact He.
Qed.

(** The hardware walk computes the lookup of the address space. *)
Lemma walk_represented root v : T !! [] = Some root -> is_vpn v -> walk mm 2 root v = sp !! v.
Proof.
  intros Hroot Hv. rewrite (walk_child [] root 1 v Hroot) by (cbn; lia). cbn [app].
  change (v / 512 ^ Z.of_nat 2 mod 512) with (idx2 v).
  destruct (T !! [idx2 v]) as [f|] eqn:Hf.
  2:{ symmetry. destruct (sp !! v) as [l|] eqn:Hl; [|done].
      apply (t_space _ _ _ Ht) in Hl as [_ [g Hg]].
      apply (t_parent _ _ _ Ht [idx2 v]) in Hg as [[f Hf'] _]. congruence. }
  rewrite (walk_child [idx2 v] f 0 v Hf) by (cbn; lia). cbn [app].
  change (v / 512 ^ Z.of_nat 1 mod 512) with (v / 512 mod 512). fold (idx1 v).
  destruct (T !! [idx2 v; idx1 v]) as [g|] eqn:Hg.
  2:{ symmetry. destruct (sp !! v) as [l|] eqn:Hl; [|done].
      apply (t_space _ _ _ Ht) in Hl as [_ [g Hg']]. congruence. }
  pose proof (t_leaf _ _ _ Ht v g Hv Hg) as He. unfold leaf_entry in He.
  destruct (sp !! v) as [l|].
  - destruct He as (a & pm & pv & Ha & He & ->). by apply walk_leaf.
  - apply walk_zero. change (512 ^ Z.of_nat 0) with 1. by rewrite Z.div_1_r.
Qed.

End represented.

(** ** Growing the tables *)

(** A frame that no table uses. *)
Definition unused (T : table_map) (f : Z) : Prop := forall p, T !! p <> Some f.

(** Changing memory of a frame that no table uses. *)
Lemma tables_elsewhere mm mm' T sp c :
  tables mm T sp -> representable c -> unused T c ->
  (forall x, x < c \/ c + FRAME_SIZE <= x -> mm' x = mm x) -> tables mm' T sp.
Proof.
  intros Ht [_ Hc] Hun Hmm.
  assert (forall p g j, T !! p = Some g -> 0 <= j < 512 -> entry mm' g j = entry mm g j) as He.
  { intros p g j Hp Hj. apply (t_frame _ _ _ Ht) in Hp as Hg. destruct Hg as [[_ Hg] _].
    assert (g <> c) by (intros ->; by apply (Hun p)). apply read_word_ext. intros x Hx. apply Hmm.
    unfold FRAME_SIZE in *. Z.div_mod_to_equations. lia. }
  split; try by apply Ht.
  - intros p f i Hp Hl Hi. rewrite (He p) by done. by apply (t_link _ _ _ Ht).
  - intros v g Hv Hg. rewrite (He _ g (idx0 v) Hg) by apply idx_range. by apply (t_leaf _ _ _ Ht).
Qed.

(** Clearing such a frame. *)
Lemma tables_fill mm mm' T sp c :
  tables mm T sp -> representable c -> unused T c ->
  (forall x, mm' x = fill mm c FRAME_SIZE x00 x) -> tables mm' T sp.
Proof.
  intros Ht Hc Hun Hmm. apply (tables_elsewhere mm mm' T sp c); [done..|]. intros x Hx. rewrite Hmm.
  apply fill_outside. lia.
Qed.

(** The entries after a cleared child is linked. *)
Lemma link_entries mm mm' f i c :
  representable f -> 0 <= i < 512 -> representable c ->
  (forall x, mm' x = write_word (fill mm c FRAME_SIZE x00) (f + 8 * i) (link_pte c) x) ->
  forall g j, representable g -> 0 <= j < 512 -> entry mm' g j =
    if bool_decide ((g, j) = (f, i)) then link_pte c else if bool_decide (g = c) then 0 else entry mm g j.
Proof.
  intros Hf Hi Hc Hmm g j Hg Hj. rewrite (entry_ext mm' _ g j Hmm).
  rewrite entry_write by (done || by apply pte_u64). by rewrite entry_fill.
Qed.

(** No table lies below a path that leads to none. *)
Lemma nothing_below mm T sp p : tables mm T sp -> T !! p = None -> forall q, T !! (p ++ q) = None.
Proof.
  intros Ht Hp q. induction q as [|j q IH] using rev_ind; [by rewrite app_nil_r|].
  destruct (T !! (p ++ q ++ [j])) as [d|] eqn:Hd; [|done]. rewrite app_assoc in Hd.
  apply (t_parent _ _ _ Ht) in Hd as [[e He] _]. congruence.
Qed.

(** Linking a cleared, unused frame adds an empty table. *)
Lemma tables_link mm mm' T sp p f i c :
  tables mm T sp -> T !! p = Some f -> (length p < 2)%nat -> 0 <= i < 512 -> T !! (p ++ [i]) = None ->
  representable c -> unused T c ->
  (forall x, mm' x = write_word (fill mm c FRAME_SIZE x00) (f + 8 * i) (link_pte c) x) ->
  tables mm' (<[p ++ [i] := c]> T) sp.
Proof.
  intros Ht Hp Hl Hi Hnone Hc Hun Hmm. pose proof (t_frame _ _ _ Ht p f Hp) as [Hf _].
  pose proof (link_entries mm mm' f i c Hf Hi Hc Hmm) as Hentry.
  assert (f <> c) as Hfc by (intros ->; by apply (Hun p)).
  pose proof (nothing_below mm T sp (p ++ [i]) Ht Hnone) as Hbelow.
  split.
  - intros q g [[<- <-]|[_ Hq]]%lookup_insert_Some; [|by apply (t_frame _ _ _ Ht)].
    split; [done|]. rewrite length_app. cbn. lia.
  - intros q j d [[Hqj _]|[Hne Hq]]%lookup_insert_Some.
    + apply app_inj_tail in Hqj as [-> ->]. split; [|done]. rewrite lookup_insert_ne; [by exists f|].
      intros Heq. apply (f_equal length) in Heq. rewrite length_app in Heq. cbn in Heq. lia.
    + apply (t_parent _ _ _ Ht) in Hq as [[e He] Hj]. split; [|done].
      destruct (decide (p ++ [i] = q)) as [<-|]; [rewrite lookup_insert_eq; by exists c|].
      rewrite lookup_insert_ne by done. by exists e.
  - intros q r g [[<- <-]|[Hq1 Hq]]%lookup_insert_Some [[<- Hr]|[Hr1 Hr]]%lookup_insert_Some; try done.
    + by apply Hun in Hr.
    + subst. by apply Hun in Hq.
    + by apply (t_inj _ _ _ Ht q r g).
  - intros q g j [[<- <-]|[Hq1 Hq]]%lookup_insert_Some Hlq Hj.
    + rewrite Hentry by done. rewrite bool_decide_eq_false_2 by congruence.
      rewrite bool_decide_eq_true_2 by done. rewrite lookup_insert_ne.
      2:{ intros Heq. apply (f_equal length) in Heq. rewrite !length_app in Heq. cbn in Heq. lia. }
      by rewrite Hbelow.
    + pose proof (t_frame _ _ _ Ht q g Hq) as [Hg _]. rewrite Hentry by done. case_bool_decide as Hgj.
      * injection Hgj as -> ->. rewrite (t_inj _ _ _ Ht q p f Hq Hp). by rewrite lookup_insert_eq.
      * rewrite bool_decide_eq_false_2 by (intros ->; by apply (Hun q)).
        rewrite lookup_insert_ne; [by apply (t_link _ _ _ Ht)|].
        intros [-> ->]%app_inj_tail. congruence.
  - intros v g Hv Hg. apply lookup_insert_Some in Hg as [[Hpath ->]|[Hne Hg]].
    + destruct (idx_range v) as (_ & _ & H0). rewrite Hentry by done.
      rewrite bool_decide_eq_false_2 by congruence. rewrite bool_decide_eq_true_2 by done.
      destruct (sp !! v) as [l|] eqn:Hsp; [|done].
      apply (t_space _ _ _ Ht) in Hsp as [_ [e He]]. rewrite <- Hpath in He. congruence.
    + destruct (idx_range v) as (_ & _ & H0). pose proof (t_frame _ _ _ Ht _ g Hg) as [Hgr _].
      rewrite Hentry by done. rewrite bool_decide_eq_false_2.
      2:{ intros [= -> _]. pose proof (t_inj _ _ _ Ht _ p f Hg Hp) as Heq.
          rewrite <- Heq in Hl. cbn in Hl. lia. }
      rewrite bool_decide_eq_false_2 by (intros ->; by apply (Hun [idx2 v; idx1 v])).
      by apply (t_leaf _ _ _ Ht).
  - intros v l Hsp. apply (t_space _ _ _ Ht) in Hsp as [Hv [e He]]. split; [done|].
    rewrite lookup_insert_ne; [by exists e|]. intros Heq. rewrite Heq in Hnone. congruence.
Qed.

(** Writing a leaf into an empty entry adds a page. *)
Lemma tables_map mm mm' T sp v g a permissions privilege :
  tables mm T sp -> is_vpn v -> T !! [idx2 v; idx1 v] = Some g -> representable a ->
  (forall x, mm' x = write_word mm (g + 8 * idx0 v) (leaf_pte a permissions privilege) x) ->
  tables mm' T (<[v := leaf_for a permissions privilege]> sp).
Proof.
  intros Ht Hv Hg Ha Hmm. destruct (idx_range v) as (_ & _ & H0).
  pose proof (t_frame _ _ _ Ht _ g Hg) as [Hgr _].
  assert (is_u64 (leaf_pte a permissions privilege)) as Hu by (apply pte_u64, leaf_flags_range; done).
  assert (forall h j, representable h -> 0 <= j < 512 -> entry mm' h j =
    if bool_decide ((h, j) = (g, idx0 v)) then leaf_pte a permissions privilege else entry mm h j)
    as Hentry by (intros h j Hh Hj; rewrite (entry_ext mm' _ h j Hmm); by apply entry_write).
  split; try by apply Ht.
  - intros p f i Hp Hl Hi. rewrite Hentry by (try done; by apply (t_frame _ _ _ Ht) in Hp as [? _]).
    rewrite bool_decide_eq_false_2; [by apply (t_link _ _ _ Ht)|].
    intros [= -> _]. pose proof (t_inj _ _ _ Ht _ _ _ Hg Hp) as Heq. rewrite <- Heq in Hl. cbn in Hl. lia.
  - intros w h Hw Hh. destruct (idx_range w) as (_ & _ & Hw0).
    rewrite Hentry by (try done; by apply (t_frame _ _ _ Ht) in Hh as [? _]). case_bool_decide as Hwv.
    + injection Hwv as -> Hi0. pose proof (t_inj _ _ _ Ht _ _ _ Hg Hh) as [= Hi2 Hi1].
      assert (v = w) as <- by (apply vpn_eq; congruence). rewrite lookup_insert_eq. by exists a, permissions, privilege.
    + rewrite lookup_insert_ne; [by apply (t_leaf _ _ _ Ht)|]. intros ->. apply Hwv. congruence.
  - intros w l [[<- _]|[_ Hw]]%lookup_insert_Some; [split; [done|by exists g]|].
    by apply (t_space _ _ _ Ht) in Hw.
Qed.
