(* ===== verification/KMapProofs.v ===== *)
(** * The mapping functions against the address space

    For any frame access that meets [FrameAccessLaws] and any allocator that
    provides frames, [next_table] grows the tables, and [map_page]
    inserts one page into the represented address space or leaves it as it
    was. *)

From Stdlib Require Import ZArith Lia Bool.
From Stdlib Require Import Strings.Byte.
From stdpp Require Import base list numbers gmap.
From S2P Require Import Prelude FdtScan KMemory KBootAlloc KMachine KPaging KPte KTables.
Local Open Scope Z_scope.

(** A word that lies outside a frame. *)
Definition off_frame (f w : Z) : Prop := w + 8 <= f \/ f + FRAME_SIZE <= w.

(** The contract of the trait.  [slot] is the entry the access changes while a
    frame is mapped; [busy] are the other words its own translation uses.  The
    operations act on physical frames: every other byte is as before. *)
Class FrameAccessLaws (A : Type) `{FrameAccess A} (inv : A -> machine -> Prop) (slot : Z)
    (busy : list Z) : Prop := {
  access_read a m f i :
    inv a m -> representable f -> 0 <= i < 512 -> f + 8 * i <> slot ->
    exists m', read_page_table_entry (PhysFrame.mk f) i (a, m) = (Ok (entry (mem m) f i), (a, m')) /\
      inv a m' /\ satp m' = satp m /\ forall x, mem m' x = mem m x;
  access_write a m f i v :
    inv a m -> representable f -> 0 <= i < 512 -> is_u64 v -> f + 8 * i <> slot ->
    entry (mem m) f i = 0 ->
    exists m', write_page_table_entry (PhysFrame.mk f) i v (a, m) = (Ok tt, (a, m')) /\
      inv a m' /\ satp m' = satp m /\ forall x, mem m' x = write_word (mem m) (f + 8 * i) v x;
  access_zero a m f :
    inv a m -> representable f -> Forall (off_frame f) (slot :: busy) ->
    exists m', zero_frame (AllocatedFrame.mk (PhysFrame.mk f)) (a, m) = (Ok tt, (a, m')) /\
      inv a m' /\ satp m' = satp m /\ forall x, mem m' x = fill (mem m) f FRAME_SIZE x00 x;
  access_high a m f :
    inv a m -> MAX_PHYSICAL_ADDRESS < f ->
    zero_frame (AllocatedFrame.mk (PhysFrame.mk f)) (a, m) =
      (Err (PhysicalAddressNotRepresentable f), (a, m));
}.

Section mapping.
Context {A F : Type} `{ac : FrameAccess A} `{al : FrameAllocator F}.
Context (inv : A -> machine -> Prop) (slot : Z) (busy : list Z).
Context `{!FrameAccessLaws A inv slot busy}.

(** The allocator's frames are not tables and hold none of the words of the
    window. *)
Definition fresh (T : table_map) (l : list PhysFrame.t) : Prop :=
  forall fr, In fr l ->
    unused T (PhysFrame.start fr) /\ Forall (off_frame (PhysFrame.start fr)) (slot :: busy).

(** The state of a mapping operation: the tables, and what is left of the
    frames. *)
Record settled (T : table_map) (sp : space) (w : A * machine * F) : Prop := {
  s_inv : inv (fst (fst w)) (snd (fst w));
  s_tables : tables (mem (snd (fst w))) T sp;
}.

Record good (T : table_map) (sp : space) (l : list PhysFrame.t) (w : A * machine * F) : Prop := {
  g_settled : settled T sp w;
  g_provides : provides (snd w) l;
  g_fresh : fresh T l;
}.

(** The bytes outside the tables. *)
Definition outside (T : table_map) (x : Z) : Prop :=
  forall p f, T !! p = Some f -> ~ (f <= x < f + FRAME_SIZE).

(** What a step keeps. *)
Record kept (T : table_map) (w w' : A * machine * F) : Prop := {
  k_cap : fst (fst w') = fst (fst w);
  k_satp : satp (snd (fst w')) = satp (snd (fst w));
  k_mem x : outside T x -> mem (snd (fst w')) x = mem (snd (fst w)) x;
}.

(** The tables grew by frames of [l]. *)
Record grown (T T' : table_map) (used : list PhysFrame.t) : Prop := {
  gr_sub : T ⊆ T';
  gr_new p f : T' !! p = Some f -> T !! p = Some f \/ In (PhysFrame.mk f) used;
}.

(** The entries on the way to a page are not the slot. *)
Definition avoids (T : table_map) (v : Z) : Prop :=
  forall p f i q, T !! p = Some f -> p ++ i :: q = [idx2 v; idx1 v; idx0 v] -> f + 8 * i <> slot.

(** Failures of table growth that needs at most [n + 1] frames. *)
Definition table_error (l : list PhysFrame.t) (n : nat) (e : PagingError) : Prop :=
  (e = OutOfPhysicalFrames /\ (length l <= n)%nat) \/
  (exists fr, In fr (take (S n) l) /\ e = PhysicalAddressNotRepresentable (PhysFrame.start fr) /\
     MAX_PHYSICAL_ADDRESS < PhysFrame.start fr).

Lemma in_take_more {X} n m (l : list X) x : (n <= m)%nat -> In x (take n l) -> In x (take m l).
Proof.
  intros Hnm Hin. replace (take n l) with (take n (take m l)) in Hin by (rewrite take_take; f_equal; lia).
  rewrite <- (take_drop n (take m l)). apply in_or_app. by left.
Qed.

Lemma in_take {X} n (l : list X) x : In x (take n l) -> In x l.
Proof. intros Hin. rewrite <- (take_drop n l). apply in_or_app. by left. Qed.

Lemma table_error_weaken l n m e : (n <= m)%nat -> table_error l n e -> table_error l m e.
Proof.
  intros Hnm [[-> Hl]|(fr & Hin & He)]; [left; split; [done|lia]|].
  right. exists fr. split; [eapply in_take_more; [|done]; lia|done].
Qed.

Lemma outside_mono T T' x : T ⊆ T' -> outside T' x -> outside T x.
Proof. intros Hsub Ho p f Hp. apply (Ho p f). by eapply lookup_weaken. Qed.

Lemma kept_refl T w : kept T w w.
Proof. by split. Qed.

Lemma kept_trans T2 T3 w1 w2 w3 : T2 ⊆ T3 -> kept T2 w1 w2 -> kept T3 w2 w3 -> kept T3 w1 w3.
Proof.
  intros Hsub [H1 H2 H3] [H4 H5 H6]. split; [congruence|congruence|].
  intros x Hx. rewrite H6 by done. apply H3. by eapply outside_mono.
Qed.

Lemma grown_refl T : grown T T [].
Proof. split; [done|auto]. Qed.

Lemma grown_trans T1 T2 T3 u1 u2 : grown T1 T2 u1 -> grown T2 T3 u2 -> grown T1 T3 (u1 ++ u2).
Proof.
  intros [H1 H2] [H3 H4]. split; [by etrans|]. intros p f Hp.
  apply H4 in Hp as [[Hp|Hp]%H2|Hp]; [by left| |]; right; apply in_or_app; auto.
Qed.

Lemma grown_avoids T T' used l v :
  grown T T' used -> fresh T (used ++ l) -> avoids T v -> avoids T' v.
Proof.
  intros [_ Hg] Hf Ha p f i q [Hp|Hp]%Hg Hq; [by eapply Ha|].
  destruct (Hf (PhysFrame.mk f)) as [_ Ho]; [apply in_or_app; auto|].
  apply Forall_cons_1 in Ho as [Ho _]. unfold off_frame in Ho. cbn in Ho.
  destruct (idx_range v) as (? & ? & ?). unfold FRAME_SIZE in Ho.
  assert (In i [idx2 v; idx1 v; idx0 v]) as Hi by (rewrite <- Hq; apply in_or_app; right; by left).
  cbn in Hi. destruct Hi as [<-|[<-|[<-|[]]]]; lia.
Qed.

Lemma grown_fresh T T' used l :
  grown T T' used -> NoDup (used ++ l) -> fresh T (used ++ l) -> fresh T' l.
Proof.
  intros [_ Hg] Hn Hf fr Hfr. destruct (Hf fr) as [Hu Ho]; [apply in_or_app; auto|].
  split; [|done]. intros p [Hp|Hp]%Hg; [by apply (Hu p)|].
  apply list.NoDup_app in Hn as (_ & Hn & _). apply (Hn fr); apply list_elem_of_In; [|done].
  by destruct fr.
Qed.

(** An operation took at most [n] of the frames. *)
Definition used_up (n : nat) (l l' : list PhysFrame.t) : Prop :=
  exists used, l = used ++ l' /\ (length used <= n)%nat.

Lemma used_up_trans n n' l lm l' : used_up n l lm -> used_up n' lm l' -> used_up (n + n') l l'.
Proof.
  intros (u & -> & Hu) (u' & -> & Hu'). exists (u ++ u'). rewrite app_assoc, length_app. split; [done|lia].
Qed.

Lemma used_up_length n l l' : used_up n l l' -> (length l <= n + length l')%nat.
Proof. intros (u & -> & Hu). rewrite length_app. lia. Qed.

Lemma used_up_in n l l' m fr : used_up n l l' -> In fr (take m l') -> In fr (take (n + m) l).
Proof.
  intros (u & -> & Hu) Hin. apply (in_take_more (length u + m)); [lia|]. rewrite firstn_app, firstn_all2 by lia; replace (length u + m - length u)%nat with m by lia.
  apply in_or_app. by right.
Qed.

(** From the state [w] with tables [T] and frames [l], an operation took at
    most [n] frames and grew the tables by them. *)
Record stepped (n : nat) (T : table_map) (l : list PhysFrame.t) (w : A * machine * F)
    (T' : table_map) (l' : list PhysFrame.t) (w' : A * machine * F) : Prop := mkStepped {
  st_used : exists used, l = used ++ l' /\ (length used <= n)%nat /\ grown T T' used;
  st_kept : kept T' w w';
}.

Lemma stepped_refl n T l w : stepped n T l w T l w.
Proof. split; [|by split]. exists []. split; [done|]. split; [cbn; lia|apply grown_refl]. Qed.

Lemma stepped_trans n m T l w T1 l1 w1 T2 l2 w2 :
  stepped n T l w T1 l1 w1 -> stepped m T1 l1 w1 T2 l2 w2 -> stepped (n + m) T l w T2 l2 w2.
Proof.
  intros [(u1 & -> & H1 & G1) K1] [(u2 & -> & H2 & G2) K2]. split.
  - exists (u1 ++ u2). rewrite app_assoc, length_app. split; [done|]. split; [lia|by eapply grown_trans].
  - eapply kept_trans; [apply G2|done|done].
Qed.

Lemma stepped_weaken n m T l w T' l' w' :
  stepped n T l w T' l' w' -> (n <= m)%nat -> stepped m T l w T' l' w'.
Proof. intros [(u & -> & H & G) K] Hn. split; [|done]. exists u. split; [done|]. by split; [lia|]. Qed.

Lemma stepped_used n T l w T' l' w' : stepped n T l w T' l' w' -> used_up n l l'.
Proof. intros [(u & -> & Hu & _) _]. by exists u. Qed.

Lemma stepped_avoids n T sp l w T' l' w' v :
  stepped n T l w T' l' w' -> good T sp l w -> avoids T v -> avoids T' v.
Proof. intros [(u & -> & _ & G) _] [_ _ Hf] Ha. by eapply grown_avoids. Qed.

Lemma table_error_stepped n T l w T' l' w' m e :
  stepped n T l w T' l' w' -> table_error l' m e -> table_error l (n + m) e.
Proof.
  intros [(u & -> & Hu & _) _] [[-> Hl]|(fr & Hin & He)].
  - left. split; [done|]. rewrite length_app. lia.
  - right. exists fr. split; [|done]. replace (S (n + m)) with (n + S m)%nat by lia.
    by apply (used_up_in n _ l'); [exists u|].
Qed.

Lemma on_access_eq {R} (m : M (A * machine) PagingError R) (w : A * machine * F) o am :
  m (fst w) = (o, am) -> on_access m w = (o, (am, snd w)).
Proof. intros Hm. unfold on_access, zoom. by rewrite Hm. Qed.

Lemma next_frame_nil (w : A * machine * F) :
  provides (snd w) [] -> exists w', next_frame w = (Ok None, w') /\ fst w' = fst w /\ provides (snd w') [].
Proof.
  intros (s' & Ha & Hp)%provides_nil. unfold next_frame, zoom, minfallible. rewrite Ha. by eexists.
Qed.

Lemma next_frame_cons (w : A * machine * F) fr l :
  provides (snd w) (fr :: l) ->
  exists w', next_frame w = (Ok (Some (AllocatedFrame.mk fr)), w') /\ fst w' = fst w /\ provides (snd w') l.
Proof.
  intros (s' & Ha & Hp & _)%provides_cons. unfold next_frame, zoom, minfallible. rewrite Ha. by eexists.
Qed.

(** Reading an entry changes nothing. *)
Lemma read_step T sp l w p f i :
  good T sp l w -> T !! p = Some f -> 0 <= i < 512 -> f + 8 * i <> slot ->
  exists w', on_access (read_page_table_entry (PhysFrame.mk f) i) w =
      (Ok (entry (mem (snd (fst w))) f i), w') /\
    good T sp l w' /\ kept T w w' /\ forall x, mem (snd (fst w')) x = mem (snd (fst w)) x.
Proof.
  intros [[Hi Ht] Hf Hfr] Hp Hi' Hs. destruct w as [[a m] s]. cbn in *.
  pose proof (t_frame _ _ _ Ht p f Hp) as [Hrf _].
  destruct (access_read a m f i Hi Hrf Hi' Hs) as (m' & Hr & Hinv & Hsatp & Hm).
  eexists. split; [by apply on_access_eq|]. cbn. split; [|split; [by split|done]].
  split; [split; cbn; [done|]|done|done]. by apply (tables_ext (mem m)).
Qed.

(** Clearing a frame that is neither a table nor free. *)
Lemma zero_step T sp l w c :
  good T sp l w -> representable c -> unused T c -> Forall (off_frame c) (slot :: busy) ->
  exists w', on_access (zero_frame (AllocatedFrame.mk (PhysFrame.mk c))) w = (Ok tt, w') /\
    good T sp l w' /\ fst (fst w') = fst (fst w) /\ satp (snd (fst w')) = satp (snd (fst w)) /\
    forall x, mem (snd (fst w')) x = fill (mem (snd (fst w))) c FRAME_SIZE x00 x.
Proof.
  intros [[Hi Ht] Hp Hf] Hc Hun Hoff. destruct w as [[a m] s]. cbn [fst snd] in *.
  destruct (access_zero a m c Hi Hc Hoff) as (m' & Hz & Hi' & Hs' & Hm).
  eexists. split; [by apply on_access_eq|]. split; [|by split_and!].
  split; [split; cbn; [done|]|done|done]. by apply (tables_fill (mem m) _ T sp c).
Qed.

(** A new table is a cleared frame of the allocator. *)
Lemma allocate_page_table_spec T sp l w :
  good T sp l w ->
  exists o w', allocate_page_table w = (o, w') /\
  match o with
  | Ok c => exists fr l', c = AllocatedFrame.mk fr /\ l = fr :: l' /\
      representable (PhysFrame.start fr) /\ inv (fst (fst w')) (snd (fst w')) /\ provides (snd w') l' /\
      fst (fst w') = fst (fst w) /\ satp (snd (fst w')) = satp (snd (fst w)) /\
      forall x, mem (snd (fst w')) x = fill (mem (snd (fst w))) (PhysFrame.start fr) FRAME_SIZE x00 x
  | Err e => table_error l 0 e /\ exists l', good T sp l' w' /\ stepped 1 T l w T l' w'
  | _ => False
  end.
Proof.
  intros [[Hi Ht] Hf Hfr]. unfold allocate_page_table. destruct l as [|fr l'].
  { destruct (next_frame_nil w Hf) as (w' & Hn & Hw & Hp). rewrite (bind_ok _ _ _ _ _ Hn).
    do 2 eexists. split; [done|]. split; [left; split; [done|cbn; lia]|]. exists [].
    split; [split; [split; by rewrite Hw|done|done]|].
    split; [|split; by rewrite Hw]. exists []. split; [done|]. split; [cbn; lia|apply grown_refl]. }
  destruct (next_frame_cons w fr l' Hf) as (w1 & Hn & Hw & Hp). rewrite (bind_ok _ _ _ _ _ Hn).
  pose proof (Hfr fr (or_introl eq_refl)) as [_ Hoff].
  apply provides_cons in Hf as (_ & _ & _ & (Hlo & Hal & _) & _).
  destruct fr as [a0], w1 as [am1 s1], w as [[a m] s]. cbn in *. subst am1.
  destruct (Z_lt_le_dec MAX_PHYSICAL_ADDRESS a0) as [Hhigh|Hlow].
  - erewrite bind_err; [|by apply on_access_eq, (access_high (inv:=inv))]. do 2 eexists. split; [done|].
    split; [right; exists (PhysFrame.mk a0); cbn; auto|]. exists l'. split.
    { split; [done|done|]. intros x Hx. apply Hfr. by right. }
    split; [|by split]. exists [PhysFrame.mk a0]. split; [done|]. split; [done|]. split; auto.
  - destruct (access_zero a m a0 Hi ltac:(by split) Hoff) as (m' & Hz & Hi' & Hs' & Hm).
    erewrite bind_ok; [|by apply on_access_eq]. do 2 eexists. split; [done|].
    exists (PhysFrame.mk a0), l'. cbn. by split_and!.
Qed.

(** Linking a cleared frame below an empty entry. *)
Lemma link_step T sp l w w2 p f i c :
  good T sp (PhysFrame.mk c :: l) w -> T !! p = Some f -> (length p < 2)%nat -> 0 <= i < 512 ->
  f + 8 * i <> slot -> T !! (p ++ [i]) = None -> representable c ->
  inv (fst (fst w2)) (snd (fst w2)) -> provides (snd w2) l ->
  fst (fst w2) = fst (fst w) -> satp (snd (fst w2)) = satp (snd (fst w)) ->
  (forall x, mem (snd (fst w2)) x = fill (mem (snd (fst w))) c FRAME_SIZE x00 x) ->
  exists w', on_access (write_page_table_entry (PhysFrame.mk f) i (link_pte c)) w2 = (Ok tt, w') /\
    good (<[p ++ [i] := c]> T) sp l w' /\
    stepped 1 T (PhysFrame.mk c :: l) w (<[p ++ [i] := c]> T) l w'.
Proof.
  intros [[Hi Ht] Hp Hfr] HT Hl Hi' Hs Hc Hrc Hinv2 Hp2 Hc2 Hs2 Hm2.
  destruct (Hfr _ (or_introl eq_refl)) as [Hun Hoff]. cbn in Hun, Hoff.
  pose proof (t_frame _ _ _ Ht p f HT) as [Hrf _].
  assert (f <> c) as Hfc by (intros ->; by apply (Hun p)).
  destruct w2 as [[a2 m2] s2]. cbn [fst snd] in *.
  assert (entry (mem m2) f i = 0) as He2.
  { rewrite (entry_ext _ _ _ _ Hm2), entry_fill, bool_decide_eq_false_2 by done.
    rewrite (t_link _ _ _ Ht p f i HT Hl Hi'). by rewrite Hc. }
  destruct (access_write a2 m2 f i (link_pte c) Hinv2 Hrf Hi' ltac:(by apply pte_u64) Hs He2)
    as (m3 & Hw & Hinv3 & Hsa3 & Hm3).
  assert (grown T (<[p ++ [i]:=c]> T) [PhysFrame.mk c]) as Hgr.
  { split; [by apply insert_subseteq|]. intros q g [[_ <-]|[_ Hq]]%lookup_insert_Some; [right|]; by left. }
  eexists. split; [by apply on_access_eq|]. split.
  - split; [split; [done|]|done|].
    + apply (tables_link (mem (snd (fst w))) (mem m3) T sp p f i c); try done.
      intros x. rewrite Hm3. apply write_word_same_ext. rewrite Hm2. by apply fill_same_ext.
    + apply (grown_fresh T _ [PhysFrame.mk c]); try done. apply Hp.
  - split; [by exists [PhysFrame.mk c]|]. split; cbn; [congruence|congruence|].
    intros x Hx. rewrite Hm3, write_word_outside, Hm2, fill_outside; [done| |].
    + pose proof (Hx (p ++ [i]) c) as Hxc. rewrite lookup_insert_eq in Hxc. specialize (Hxc eq_refl). lia.
    + pose proof (Hx p f) as Hxf. rewrite lookup_insert_ne in Hxf.
      2:{ intros Heq. apply (f_equal length) in Heq. rewrite length_app in Heq. cbn in Heq. lia. }
      specialize (Hxf HT). unfold FRAME_SIZE in Hxf. lia.
Qed.

(** Following a link: the child table exists, or a cleared frame becomes it. *)
Lemma next_table_spec T sp l w p f i :
  good T sp l w -> T !! p = Some f -> (length p < 2)%nat -> 0 <= i < 512 -> f + 8 * i <> slot ->
  exists o w' T' l', next_table (PhysFrame.mk f) i w = (o, w') /\
    good T' sp l' w' /\ stepped 1 T l w T' l' w' /\
    match o with
    | Ok c => T' !! (p ++ [i]) = Some (PhysFrame.start c)
    | Err e => table_error l 0 e
    | _ => False
    end.
Proof.
  intros Hg Hp Hl Hi Hs. destruct (read_step T sp l w p f i Hg Hp Hi Hs) as (w1 & Hr & Hg1 & Hk1 & Hm1).
  unfold next_table. rewrite (bind_ok _ _ _ _ _ Hr). pose proof (s_tables _ _ _ (g_settled _ _ _ _ Hg)) as Ht.
  rewrite (t_link _ _ _ Ht p f i Hp Hl Hi).
  assert (stepped 0 T l w T l w1) as Hst1.
  { split; [|done]. exists []. split; [done|]. split; [done|apply grown_refl]. }
  destruct (T !! (p ++ [i])) as [c|] eqn:Hc; cbn [link_entry].
  - pose proof (t_frame _ _ _ Ht _ c Hc) as [Hrc _].
    replace (link_pte c =? 0) with false by (pose proof (link_pte_nonzero c Hrc); lia).
    cbn [negb]. unfold lift. rewrite intermediate_frame_link by done.
    eexists _, _, T, l. split; [done|]. split; [done|]. split; [|done].
    eapply stepped_weaken; [done|lia].
  - cbn [Z.eqb negb].
    destruct (allocate_page_table_spec T sp l w1 Hg1) as (o & w2 & Ha & Ho). destruct o as [c'|e| |]; try done.
    2:{ rewrite (bind_err _ _ _ _ _ Ha). destruct Ho as (He & l' & Hg2 & Hst2).
        eexists _, _, T, l'. split; [done|]. split; [done|]. split; [|done]. by apply (stepped_trans 0 1 T l w T l w1). }
    rewrite (bind_ok _ _ _ _ _ Ha).
    destruct Ho as ([c] & l' & -> & -> & Hrc & Hinv2 & Hf2 & Hc2 & Hsa2 & Hm2). cbn [PhysFrame.start] in *.
    rewrite (bind_ok _ _ _ (link_pte c) w2).
    2:{ unfold lift, AllocatedFrame.start_address, PhysFrame.start_address. cbn. by rewrite page_table_entry_eq. }
    destruct (link_step T sp l' w1 w2 p f i c Hg1 Hp Hl Hi Hs Hc Hrc Hinv2 Hf2 Hc2 Hsa2 Hm2)
      as (w3 & Hw & Hg3 & Hst3).
    rewrite (bind_ok _ _ _ _ _ Hw). eexists _, _, _, l'. split; [done|]. split; [done|].
    split; [by apply (stepped_trans 0 1 T (PhysFrame.mk c :: l') w T (PhysFrame.mk c :: l') w1)|].
    by rewrite lookup_insert_eq.
Qed.

(** ** [map_page] *)

(** The page number of an address. *)
Definition vpn_of (va : Z) : Z := va / FRAME_SIZE mod 2 ^ 27.

(** Why a page cannot be mapped, where the address itself is acceptable. *)
Inductive map_failure (sp : space) (l : list PhysFrame.t) (va : Z) (fr : PhysFrame.t)
    : PagingError -> Prop :=
| mf_frame : MAX_PHYSICAL_ADDRESS < PhysFrame.start fr ->
    map_failure sp l va fr (PhysicalAddressNotRepresentable (PhysFrame.start fr))
| mf_mapped lf e : sp !! vpn_of va = Some lf -> map_failure sp l va fr (PageAlreadyMapped va e)
| mf_tables e : table_error l 1 e -> map_failure sp l va fr e.

Lemma vpn_of_idx va :
  is_usize va ->
  Z.land (Z.shiftr va GIGAPAGE_SHIFT) VPN_MASK = idx2 (vpn_of va) /\
  Z.land (Z.shiftr va MEGAPAGE_SHIFT) VPN_MASK = idx1 (vpn_of va) /\
  Z.land (Z.shiftr va PAGE_SHIFT) VPN_MASK = idx0 (vpn_of va).
Proof.
  intros Hva. unfold GIGAPAGE_SHIFT, MEGAPAGE_SHIFT, PAGE_SHIFT. rewrite !vpn_field by done.
  unfold vpn_of, idx2, idx1, idx0, FRAME_SIZE.
  change (2 ^ 30) with (4096 * 512 * 512). change (2 ^ 21) with (4096 * 512). change (2 ^ 12) with 4096.
  change (512 ^ 2) with (512 * 512). change (2 ^ 27) with (512 * 512 * 512).
  rewrite <- !Z.div_div by done. set (x := va / 4096).
  rewrite (Z.rem_mul_r x (512 * 512)), (Z.rem_mul_r x 512 512) by done.
  split_and!; Z.div_mod_to_equations; lia.
Qed.

Lemma is_vpn_of va : is_vpn (vpn_of va).
Proof. unfold is_vpn, vpn_of. apply Z.mod_pos_bound. done. Qed.

(** The two tables on the way to a page. *)
Lemma tables_for_spec T sp l w root v :
  good T sp l w -> T !! [] = Some root -> avoids T v ->
  exists o w' T' l', (let* level_1 := next_table (PhysFrame.mk root) (idx2 v) in
                next_table level_1 (idx1 v)) w = (o, w') /\
    good T' sp l' w' /\ stepped 2 T l w T' l' w' /\
    match o with
    | Ok c => T' !! [idx2 v; idx1 v] = Some (PhysFrame.start c)
    | Err e => table_error l 1 e
    | _ => False
    end.
Proof.
  intros Hg Hroot Hav. destruct (idx_range v) as (H2 & H1 & H0).
  destruct (next_table_spec T sp l w [] root (idx2 v) Hg Hroot ltac:(cbn; lia) H2
              ltac:(by apply (Hav [] root (idx2 v) [idx1 v; idx0 v])))
    as (o1 & w1 & T1 & l1 & Hn1 & Hg1 & Hst1 & Ho1).
  destruct o1 as [[c1]|e| |]; try done.
  2:{ rewrite (bind_err _ _ _ _ _ Hn1). eexists _, _, T1, l1. split; [done|]. split; [done|].
      split; [by eapply stepped_weaken; [done|lia]|]. by apply (table_error_weaken _ 0); [lia|]. }
  rewrite (bind_ok _ _ _ _ _ Hn1). pose proof (stepped_avoids _ _ _ _ _ _ _ _ _ Hst1 Hg Hav) as Hav1.
  destruct (next_table_spec T1 sp l1 w1 [idx2 v] c1 (idx1 v) Hg1 Ho1 ltac:(cbn; lia) H1
              ltac:(by apply (Hav1 [idx2 v] c1 (idx1 v) [idx0 v])))
    as (o2 & w2 & T2 & l2 & Hn2 & Hg2 & Hst2 & Ho2).
  eexists _, _, T2, l2. split; [exact Hn2|]. split; [done|].
  split; [by apply (stepped_trans 1 1 T l w T1 l1 w1)|]. destruct o2; try done.
  by apply (table_error_stepped _ _ _ _ _ _ _ _ _ Hst1).
Qed.

(** Installing the leaf in the last table. *)
Lemma leaf_step T sp l w va fr permissions privilege c :
  good T sp l w -> avoids T (vpn_of va) -> representable (PhysFrame.start fr) ->
  T !! [idx2 (vpn_of va); idx1 (vpn_of va)] = Some c ->
  exists o w', (let* existing := on_access (read_page_table_entry (PhysFrame.mk c) (idx0 (vpn_of va))) in
     if negb (existing =? 0) then throw (PageAlreadyMapped va existing)
     else on_access (write_page_table_entry (PhysFrame.mk c) (idx0 (vpn_of va))
                       (leaf_pte (PhysFrame.start fr) permissions privilege))) w = (o, w') /\
    kept T w w' /\
    match o with
    | Ok _ => sp !! vpn_of va = None /\
        good T (<[vpn_of va := leaf_for (PhysFrame.start fr) permissions privilege]> sp) l w'
    | Err e => (exists lf x, sp !! vpn_of va = Some lf /\ e = PageAlreadyMapped va x) /\ good T sp l w'
    | _ => False
    end.
Proof.
  intros Hg Hav Hrep Hc. pose proof (is_vpn_of va) as Hv. destruct (idx_range (vpn_of va)) as (_ & _ & H0).
  assert (c + 8 * idx0 (vpn_of va) <> slot) as Hslot
    by (by apply (Hav [idx2 (vpn_of va); idx1 (vpn_of va)] c _ [])).
  destruct (read_step T sp l w _ c _ Hg Hc H0 Hslot) as (w2 & Hr & Hg2 & Hk2 & Hm2).
  rewrite (bind_ok _ _ _ _ _ Hr). pose proof (s_tables _ _ _ (g_settled _ _ _ _ Hg)) as Ht.
  pose proof (t_leaf _ _ _ Ht _ c Hv Hc) as He.
  destruct (sp !! vpn_of va) as [lf|] eqn:Hsp; cbn [leaf_entry] in He.
  - destruct He as (a & pm & pv & Ha & He & _).
    replace (entry (mem (snd (fst w))) c (idx0 (vpn_of va)) =? 0) with false
      by (pose proof (leaf_pte_nonzero a pm pv); lia).
    do 2 eexists. split; [done|]. split; [done|]. split; [by eauto|done].
  - rewrite He. cbn [Z.eqb negb]. pose proof (t_frame _ _ _ Ht _ c Hc) as [Hrc _].
    destruct Hg2 as [[Hi2 Ht2] Hp2 Hf2]. destruct w2 as [[a2 m2] s2]. cbn [fst snd] in *.
    assert (entry (mem m2) c (idx0 (vpn_of va)) = 0) as He2 by (by rewrite (entry_ext _ _ _ _ Hm2)).
    assert (is_u64 (leaf_pte (PhysFrame.start fr) permissions privilege)) as Hu
      by (apply pte_u64; [done|apply leaf_flags_range]).
    destruct (access_write a2 m2 c _ _ Hi2 Hrc H0 Hu Hslot He2) as (m3 & Hw & Hinv3 & Hsa3 & Hm3).
    do 2 eexists. split; [by apply on_access_eq|]. split.
    + apply (kept_trans T T _ (a2, m2, s2)); [done|done|]. split; cbn; [done|done|].
      intros x Hx. rewrite Hm3, write_word_outside; [done|].
      specialize (Hx _ _ Hc). unfold FRAME_SIZE in Hx. lia.
    + split; [done|]. split; [split; cbn; [done|]|done|done]. by apply (tables_map (mem m2) _ T sp _ c).
Qed.

(** Mapping a page inserts it into the address space, or fails and maps
    nothing. *)
Lemma map_page_spec T sp l w root va fr permissions privilege :
  good T sp l w -> T !! [] = Some root -> is_usize va -> va mod FRAME_SIZE = 0 -> canonical va = true ->
  avoids T (vpn_of va) -> PhysFrame.wf fr ->
  exists o w' T' l', map_page (PhysFrame.mk root) va fr permissions privilege w = (o, w') /\
  stepped 2 T l w T' l' w' /\
  match o with
  | Ok _ => sp !! vpn_of va = None /\
      good T' (<[vpn_of va := leaf_for (PhysFrame.start fr) permissions privilege]> sp) l' w'
  | Err e => map_failure sp l va fr e /\ good T' sp l' w'
  | _ => False
  end.
Proof.
  intros Hg Hroot Hva Hal Hcan Hav Hfr. destruct (vpn_of_idx va Hva) as (E2 & E1 & E0).
  unfold map_page, VirtAddr.as_usize. rewrite page_mask_zero, Hal. cbn [Z.eqb negb].
  replace ((SV39_LOW_HALF_END <=? va) && (va <? SV39_HIGH_HALF_BASE)) with false.
  2:{ change SV39_LOW_HALF_END with (2 ^ 38). change SV39_HIGH_HALF_BASE with (2 ^ 64 - 2 ^ 38).
      unfold canonical in Hcan. lia. }
  destruct (leaf_flags_range permissions privilege) as [Hfl _].
  destruct (Z_lt_le_dec MAX_PHYSICAL_ADDRESS (PhysFrame.start fr)) as [Hhigh|Hlow].
  { erewrite bind_err; [|unfold lift; by rewrite page_table_entry_high].
    eexists _, _, T, l. split; [done|]. split; [apply stepped_refl|]. split; [by constructor|done]. }
  assert (representable (PhysFrame.start fr)) as Hrep by (split; [split; [apply Hfr|done]|apply Hfr]).
  erewrite bind_ok; [|unfold lift; unfold PhysFrame.start_address; by rewrite page_table_entry_eq].
  rewrite E2, E1, E0, bind_assoc.
  destruct (tables_for_spec T sp l w root _ Hg Hroot Hav) as (o & w1 & T1 & l1 & Hn & Hg1 & Hst1 & Ho).
  destruct o as [[c]|e| |]; try done.
  2:{ rewrite (bind_err _ _ _ _ _ Hn). eexists _, _, T1, l1. split; [done|]. split; [done|].
      split; [by apply mf_tables|done]. }
  rewrite (bind_ok _ _ _ _ _ Hn). pose proof (stepped_avoids _ _ _ _ _ _ _ _ _ Hst1 Hg Hav) as Hav1.
  destruct (leaf_step T1 sp l1 w1 va fr permissions privilege c Hg1 Hav1 Hrep Ho) as (o & w2 & Hl & Hk & Hres).
  eexists _, _, T1, l1. split; [exact Hl|]. split.
  { apply (stepped_trans 2 0 T l w T1 l1 w1); [done|]. split; [|done]. exists []. split; [done|].
    split; [done|apply grown_refl]. }
  destruct o as [[]|e| |]; try done. destruct Hres as [(lf & x & Hlf & ->) Hres].
  split; [by eapply mf_mapped|done].
Qed.

End mapping.
