(* ===== verification/KRangeProofs.v ===== *)
(** * Mapping ranges

    [map_range] inserts the pages of a range one by one.  Its result is the
    union of the address space with [range_pages]; an error says which page,
    frame or range was the cause. *)

From Stdlib Require Import ZArith Lia Bool.
From Stdlib Require Import Strings.Byte.
From stdpp Require Import base list numbers gmap.
From S2P Require Import Prelude FdtScan KMemory KBootAlloc KMachine KPaging KPte KTables KMapProofs.
Local Open Scope Z_scope.

(** The pages of a range of [count] pages. *)
Fixpoint range_pages (start base : Z) (count : nat) (permissions : PagePermissions) : space :=
  match count with
  | O => ∅
  | S count' => <[vpn_of start := leaf_for base permissions Supervisor]>
                  (range_pages (start + PAGE_SIZE) (base + PAGE_SIZE) count' permissions)
  end.

(** All pages lie in one half of the canonical addresses. *)
Definition in_half (start : Z) (count : nat) : Prop :=
  start mod FRAME_SIZE = 0 /\
  (0 <= start /\ start + Z.of_nat count * FRAME_SIZE <= 2 ^ 38 \/
   2 ^ 64 - 2 ^ 38 <= start /\ start + Z.of_nat count * FRAME_SIZE <= 2 ^ 64).

Lemma range_pages_lookup v lf permissions count : forall start base,
  range_pages start base count permissions !! v = Some lf ->
  exists j, 0 <= j < Z.of_nat count /\ v = vpn_of (start + j * FRAME_SIZE) /\
    lf = leaf_for (base + j * FRAME_SIZE) permissions Supervisor.
Proof.
  induction count as [|count IH]; intros start base; cbn [range_pages]; [by rewrite lookup_empty|].
  intros [[<- <-]|[_ Hl]]%lookup_insert_Some; [exists 0; split_and!; [lia|lia|f_equal; lia|f_equal; lia]|].
  apply IH in Hl as (j & Hj & -> & ->). exists (j + 1). change PAGE_SIZE with FRAME_SIZE.
  split_and!; [lia|lia|f_equal; lia|f_equal; lia].
Qed.

Lemma vpn_of_range start count i j :
  in_half start count -> 0 <= i < Z.of_nat count -> 0 <= j < Z.of_nat count ->
  vpn_of (start + i * FRAME_SIZE) = vpn_of (start + j * FRAME_SIZE) -> i = j.
Proof.
  intros [_ Hh] Hi Hj. unfold vpn_of, FRAME_SIZE in *. rewrite !Z_div_plus_full by done.
  change (2 ^ 27) with 134217728. change (2 ^ 38) with 274877906944 in *.
  change (2 ^ 64) with 18446744073709551616 in *.
  intros He. Z.div_mod_to_equations. lia.
Qed.

(** The pages of a range, in either direction. *)
Lemma range_pages_at start base count permissions j :
  in_half start count -> 0 <= j < Z.of_nat count ->
  range_pages start base count permissions !! vpn_of (start + j * FRAME_SIZE) =
    Some (leaf_for (base + j * FRAME_SIZE) permissions Supervisor).
Proof.
  revert start base j. induction count as [|count IH]; intros start base j Hh Hj; [lia|].
  cbn [range_pages]. change PAGE_SIZE with FRAME_SIZE.
  destruct (Z.eq_dec j 0) as [->|Hne]; [rewrite !Z.mul_0_l, !Z.add_0_r; apply lookup_insert_eq|].
  rewrite lookup_insert_ne.
  - replace (start + j * FRAME_SIZE) with (start + FRAME_SIZE + (j - 1) * FRAME_SIZE) by lia.
    rewrite IH; [do 2 f_equal; lia| |lia]. destruct Hh as [Hm Hh].
    unfold in_half, FRAME_SIZE in *. split; [Z.div_mod_to_equations|]; lia.
  - intros He. apply Hne. apply (vpn_of_range start (S count) j 0); [done|lia|lia|].
    rewrite <- He. f_equal. lia.
Qed.

(** Why a range cannot be mapped. *)
Definition range_error (sp pages : space) (l : list PhysFrame.t) (count : nat) (e : PagingError) : Prop :=
  (exists va x, e = PageAlreadyMapped va x) /\ ~ pages ##ₘ sp \/
  table_error l (2 * count) e.

Section ranges.
Context {A F : Type} `{ac : FrameAccess A} `{al : FrameAllocator F}.
Context (inv : A -> machine -> Prop) (slot : Z) (busy : list Z).
Context `{!FrameAccessLaws A inv slot busy}.

Abbreviation good := (good inv slot busy).

(** No page leads to the window's entry. *)
Definition avoids_all (T : table_map) : Prop := forall v, is_vpn v -> avoids slot T v.

Lemma avoids_all_stepped n T sp l (w : A * machine * F) T' l' w' :
  stepped n T l w T' l' w' -> good T sp l w -> avoids_all T -> avoids_all T'.
Proof. intros Hs Hg Ha v Hv. eapply (stepped_avoids inv slot busy); eauto. Qed.

(** The addresses of the next page of a range. *)
Lemma page_addresses i start base count :
  0 <= i -> 0 <= start -> in_half (start + i * FRAME_SIZE) (S count) -> representable base ->
  base + (i + Z.of_nat (S count) - 1) * FRAME_SIZE <= MAX_PHYSICAL_ADDRESS ->
  let va := start + i * FRAME_SIZE in let pa := base + i * FRAME_SIZE in
  umul (E:=PagingError) usize_max i PAGE_SIZE = Ok (i * FRAME_SIZE) /\
  uadd (E:=PagingError) usize_max start (i * FRAME_SIZE) = Ok va /\
  uadd (E:=PagingError) usize_max base (i * FRAME_SIZE) = Ok pa /\
  PhysFrame.from_start pa = Some (PhysFrame.mk pa) /\ representable pa /\ PhysFrame.wf (PhysFrame.mk pa) /\
  va mod FRAME_SIZE = 0 /\ canonical va = true /\ is_usize va.
Proof.
  intros Hi Hst [Hal Hhalf] [[Hb0 _] Hbm] Hmax va pa. rewrite max_physical in Hmax.
  unfold FRAME_SIZE in Hal, Hhalf, Hbm, Hmax. split.
  { unfold umul, checked_mul, usize_max. change PAGE_SIZE with 4096. unfold FRAME_SIZE.
    by rewrite (proj2 (Z.leb_le _ _)) by lia. }
  assert (uadd (E:=PagingError) usize_max start (i * FRAME_SIZE) = Ok va /\
    uadd (E:=PagingError) usize_max base (i * FRAME_SIZE) = Ok pa) as [-> ->].
  { unfold va, pa, uadd, checked_add, usize_max, FRAME_SIZE. by rewrite !(proj2 (Z.leb_le _ _)) by lia. }
  assert (representable pa /\ PhysFrame.wf (PhysFrame.mk pa)) as [Hpa Hwf].
  { unfold representable, PhysFrame.wf, pa, FRAME_SIZE, usize_max. rewrite max_physical. cbn [PhysFrame.start].
    rewrite Z_mod_plus_full. split_and!; done || lia. }
  split; [done|]. split; [done|]. split; [by apply PhysFrame.from_start_Some; [apply Hpa|]|].
  split; [done|]. split; [done|]. split; [done|].
  unfold canonical, is_usize, usize_max, va, FRAME_SIZE in *. lia.
Qed.

(** The first page of a range cannot be mapped. *)
Lemma page_range_error sp l va pa permissions rest count e :
  representable pa -> map_failure sp l va (PhysFrame.mk pa) e ->
  range_error sp (<[vpn_of va := leaf_for pa permissions Supervisor]> rest) l (S count) e.
Proof.
  intros [[_ Hp] _] Hf. inversion Hf as [Hhigh|lf x Hsp|e' Ht]; subst; cbn [PhysFrame.start] in *; [lia| |].
  - left. split; [by do 2 eexists|]. intros Hd%map_disjoint_insert_l. destruct Hd as [Hd _]. congruence.
  - right. eapply table_error_weaken; [|exact Ht]. lia.
Qed.

(** The rest of a range is off its first page. *)
Lemma rest_unmapped va pa permissions count :
  in_half va (S count) -> range_pages (va + FRAME_SIZE) (pa + FRAME_SIZE) count permissions !! vpn_of va = None.
Proof.
  intros Hh. destruct (range_pages _ _ _ _ !! vpn_of va) as [lf|] eqn:Hl; [|done]. exfalso.
  apply range_pages_lookup in Hl as (j & Hj & Hv & _).
  assert (0 = j + 1) as Hx; [|lia]. apply (vpn_of_range va (S count)); [done|lia|lia|].
  rewrite Z.mul_0_l, Z.add_0_r, Hv. f_equal. lia.
Qed.

Lemma map_pages_spec root size permissions count : forall i start base T sp l (w : A * machine * F),
  good T sp l w -> T !! [] = Some root -> avoids_all T -> 0 <= i ->
  in_half (start + i * FRAME_SIZE) count ->
  representable base -> base + (i + Z.of_nat count - 1) * FRAME_SIZE <= MAX_PHYSICAL_ADDRESS ->
  (0 < count)%nat -> 0 <= start ->
  exists o w' T' sp' l', map_pages count i (PhysFrame.mk root) start base size permissions w = (o, w') /\
  let pages := range_pages (start + i * FRAME_SIZE) (base + i * FRAME_SIZE) count permissions in
  stepped (2 * count) T l w T' l' w' /\ good T' sp' l' w' /\
  match o with
  | Ok _ => pages ##ₘ sp /\ sp' = pages ∪ sp
  | Err e => range_error sp pages l count e
  | _ => False
  end.
Proof.
  induction count as [|count IH]; intros i start base T sp l w Hg Hr Ha Hi Hh Hb Hmax Hn Hst; [lia|].
  destruct (page_addresses i start base count Hi Hst Hh Hb Hmax) as (E1 & E2 & E3 & Hfr & Hpa & Hwf & Hal & Hcan & Hus).
  cbn [map_pages]. unfold PhysAddr.as_usize, PhysAddr.new, VirtAddr.new.
  rewrite E1, (bind_ok _ _ _ (i * FRAME_SIZE) w), E2, E3 by done. set (va := start + i * FRAME_SIZE) in *.
  set (pa := base + i * FRAME_SIZE) in *. rewrite (bind_ok _ _ _ va w), (bind_ok _ _ _ pa w), Hfr by done.
  destruct (map_page_spec inv slot busy T sp l w root va (PhysFrame.mk pa) permissions Supervisor Hg Hr Hus Hal Hcan
              (Ha _ (is_vpn_of va)) Hwf) as (o & w1 & T1 & l1 & Hm & Hs1 & Ho).
  cbn [range_pages]. change PAGE_SIZE with FRAME_SIZE.
  destruct o as [[]|e| |]; try done; cycle 1.
  { rewrite (bind_err _ _ _ _ _ Hm). destruct Ho as [Hf Hg1]. eexists _, _, T1, sp, l1. split; [done|].
    split; [by eapply stepped_weaken; [done|lia]|]. split; [done|]. by apply page_range_error. }
  rewrite (bind_ok _ _ _ _ _ Hm). destruct Ho as [Hnone Hg1].
  assert (T1 !! [] = Some root) as Hr1 by (destruct Hs1 as [(u & _ & _ & [Hsub _]) _]; by eapply lookup_weaken).
  pose proof (avoids_all_stepped _ _ _ _ _ _ _ _ Hs1 Hg Ha) as Ha1.
  pose proof (rest_unmapped va pa permissions count Hh) as Hrest.
  destruct count as [|count'].
  { eexists _, _, T1, _, l1. split; [done|]. split; [by eapply stepped_weaken; [done|lia]|]. split; [exact Hg1|].
    cbn [range_pages]. split; [apply map_disjoint_insert_l; split; [done|apply map_disjoint_empty_l]|].
    by rewrite insert_union_singleton_l, insert_empty. }
  destruct (IH (i + 1) start base T1 _ l1 w1 Hg1 Hr1 Ha1) as (o & w2 & T2 & sp2 & l2 & Hm2 & Hs2 & Hg2 & Ho2);
    try lia; try done.
  { clear - Hh. destruct Hh as [Hx Hy]. unfold va, in_half in *. unfold FRAME_SIZE in *.
    split; [Z.div_mod_to_equations|]; lia. }
  replace (start + (i + 1) * FRAME_SIZE) with (va + FRAME_SIZE) in * by (unfold va; lia).
  replace (base + (i + 1) * FRAME_SIZE) with (pa + FRAME_SIZE) in * by (unfold pa; lia).
  set (rest := range_pages (va + FRAME_SIZE) (pa + FRAME_SIZE) (S count') permissions) in *.
  exists o, w2, T2, sp2, l2. split; [exact Hm2|].
  split; [eapply stepped_weaken; [by eapply stepped_trans|lia]|]. split; [done|].
  destruct o as [[]|e| |]; try done.
  - destruct Ho2 as [Hd ->]. apply map_disjoint_insert_r in Hd as [_ Hd]. split; [by apply map_disjoint_insert_l|].
    cbn [PhysFrame.start]. by rewrite <- insert_union_r, insert_union_l by done.
  - destruct Ho2 as [[He Hnd]|Ht].
    + left. split; [done|]. intros [_ Hd]%map_disjoint_insert_l. apply Hnd. by apply map_disjoint_insert_r.
    + right. apply (table_error_stepped _ _ _ _ _ _ _ _ _ Hs1) in Ht. eapply table_error_weaken; [|exact Ht]. lia.
Qed.

(** ** [map_range] *)

Definition page_count (r : VirtRange.t) : nat :=
  Z.to_nat ((VirtRange.end_ r - VirtRange.start r + FRAME_SIZE - 1) / FRAME_SIZE).

(** The pages of a range mapped from [base] on. *)
Definition pages_of (r : VirtRange.t) (base : Z) (permissions : PagePermissions) : space :=
  range_pages (VirtRange.start r) base (page_count r) permissions.

(** What is wrong with a range itself. *)
Inductive range_invalid (r : VirtRange.t) (base : Z) : PagingError -> Prop :=
| ri_unaligned : VirtRange.start r mod FRAME_SIZE <> 0 ->
    range_invalid r base (VirtualAddressNotPageAligned (VirtRange.start r))
| ri_start : canonical (VirtRange.start r) = false ->
    range_invalid r base (VirtualAddressNotCanonical (VirtRange.start r))
| ri_middle : VirtRange.start r < 2 ^ 38 < VirtRange.end_ r ->
    range_invalid r base (VirtualAddressNotCanonical (2 ^ 38))
| ri_physical : MAX_PHYSICAL_ADDRESS < base + (Z.of_nat (page_count r) - 1) * FRAME_SIZE ->
    range_invalid r base (PhysicalRangeNotRepresentable base (VirtRange.end_ r - VirtRange.start r)).

(** The offset of the last page of a range. *)
Lemma last_page_offset s e n :
  0 <= s < e -> e <= usize_max -> 0 < n -> n * FRAME_SIZE < e - s + FRAME_SIZE ->
  usub (E:=PagingError) e s = Ok (e - s) /\ usub (E:=PagingError) n 1 = Ok (n - 1) /\
  umul (E:=PagingError) usize_max (n - 1) PAGE_SIZE = Ok ((n - 1) * FRAME_SIZE).
Proof.
  intros Hs He Hn Hl. unfold usub, checked_sub, umul, checked_mul. change PAGE_SIZE with FRAME_SIZE.
  rewrite !(proj2 (Z.leb_le _ _)); [done|unfold FRAME_SIZE in *; lia..].
Qed.

(** The last frame of a range is representable, or the range is refused. *)
Lemma last_frame base k size :
  let last := base + k * FRAME_SIZE in
  let o := ok_or (A:=PhysAddr.t)
    (address ← PhysAddr.checked_add base (k * FRAME_SIZE);
     if PhysAddr.as_usize address <=? MAX_PHYSICAL_ADDRESS then Some address else None)
    (PhysicalRangeNotRepresentable base size) in
  last <= MAX_PHYSICAL_ADDRESS /\ o = Ok last \/
  MAX_PHYSICAL_ADDRESS < last /\ o = Err (PhysicalRangeNotRepresentable base size).
Proof.
  intros last o. unfold o, last, PhysAddr.checked_add, PhysAddr.as_usize.
  rewrite max_physical. unfold checked_add, usize_max. 
  destruct (_ <=? 2 ^ 64 - 1) eqn:E1; zbool; cbn [mbind option_bind].
  - destruct (_ <=? 2 ^ 56 - 1) eqn:E2; zbool; [by left|by right].
  - right. split; [lia|done].
Qed.

(** A range refused before any table is touched. *)
Ltac range_rejected :=
  eexists _, _, _, _, _; split; [done|]; split; [apply stepped_refl|]; split; [eassumption|]; left; split; [|done].

Lemma map_range_spec root r base permissions T sp l (w : A * machine * F) :
  good T sp l w -> T !! [] = Some root -> avoids_all T -> VirtRange.wf r -> PhysFrame.wf (PhysFrame.mk base) ->
  exists o w' T' sp' l', map_range (PhysFrame.mk root) r (PhysFrame.mk base) permissions w = (o, w') /\
  stepped (2 * page_count r) T l w T' l' w' /\ good T' sp' l' w' /\
  match o with
  | Ok _ => pages_of r base permissions ##ₘ sp /\ sp' = pages_of r base permissions ∪ sp /\
      in_half (VirtRange.start r) (page_count r)
  | Err e => range_invalid r base e /\ sp' = sp \/ range_error sp (pages_of r base permissions) l (page_count r) e
  | _ => False
  end.
Proof.
  intros Hg Hr Ha (H0 & Hlt & Hmax) (Hb0 & Hbm & Hbmax). destruct r as [s e].
  cbn [VirtRange.start VirtRange.end_ PhysFrame.start] in *.
  assert (0 < (e - s + FRAME_SIZE - 1) / FRAME_SIZE /\
    (e - s + FRAME_SIZE - 1) / FRAME_SIZE * FRAME_SIZE < e - s + FRAME_SIZE) as Hcount
    by (unfold FRAME_SIZE; Z.div_mod_to_equations; lia).
  unfold pages_of, page_count, map_range, VirtAddr.as_usize. cbn [VirtRange.start VirtRange.end_].
  set (n := (e - s + FRAME_SIZE - 1) / FRAME_SIZE) in *.
  rewrite page_mask_zero. destruct (s mod FRAME_SIZE =? 0) eqn:Hal; zbool; cbn [negb].
  2:{ range_rejected. by apply (ri_unaligned (VirtRange.mk s e)). }
  change SV39_LOW_HALF_END with (2 ^ 38). change SV39_HIGH_HALF_BASE with (2 ^ 64 - 2 ^ 38).
  destruct ((2 ^ 38 <=? s) && (s <? 2 ^ 64 - 2 ^ 38)) eqn:Hcan.
  { range_rejected. apply (ri_start (VirtRange.mk s e)). cbn. unfold canonical. lia. }
  destruct ((s <? 2 ^ 38) && (2 ^ 38 <? e)) eqn:Hmid.
  { range_rejected. apply (ri_middle (VirtRange.mk s e)). cbn. lia. }
  destruct (last_page_offset s e n) as (E1 & E2 & E3); [lia..|].
  rewrite E1, (bind_ok _ _ _ (e - s) w) by done. change ((e - s + PAGE_SIZE - 1) / PAGE_SIZE) with n.
  rewrite E2, (bind_ok _ _ _ (n - 1) w), E3 by done.
  rewrite (bind_ok _ _ _ ((n - 1) * FRAME_SIZE) w) by done.
  change (PhysFrame.start_address (PhysFrame.mk base)) with base.
  destruct (last_frame base (n - 1) (e - s)) as [[Hrep ->]|[Hrep ->]].
  2:{ rewrite (bind_err _ _ _ (PhysicalRangeNotRepresentable base (e - s)) w) by done. range_rejected.
      apply (ri_physical (VirtRange.mk s e)). unfold page_count. cbn [VirtRange.start VirtRange.end_]. fold n. lia. }
  rewrite (bind_ok _ _ _ (base + (n - 1) * FRAME_SIZE) w) by done.
  assert (in_half s (Z.to_nat n)) as Hh.
  { split; [done|]. rewrite Z2Nat.id by lia. unfold usize_max in Hmax. unfold FRAME_SIZE in *.
    clear Ha Hg. zbool. Z.div_mod_to_equations. lia. }
  assert (representable base) as Hrb by (split; [unfold FRAME_SIZE in *; lia|done]).
  destruct (map_pages_spec root (e - s) permissions (Z.to_nat n) 0 s base T sp l w Hg Hr Ha)
    as (o & w1 & T1 & sp1 & l1 & Hm & Hs & Hg1 & Ho); try lia; try done.
  { by rewrite Z.mul_0_l, Z.add_0_r. }
  rewrite !Z.mul_0_l, !Z.add_0_r in Ho.
  exists o, w1, T1, sp1, l1. split; [exact Hm|]. split; [done|]. split; [done|].
  destruct o as [[]|e'| |]; try done; [|by right].
  destruct Ho as [Hd ->]. done.
Qed.

End ranges.
