(* ===== verification/KFrameWindow.v ===== *)
(** * Temporary frame windows

    Both capabilities show a frame the same way: they write one entry of a
    table, fence, run the operation and clear the entry.  [FrameWindow] is what
    is common to them; the laws of [FrameAccess] follow from it. *)

From Stdlib Require Import ZArith Lia Bool.
From Stdlib Require Import Strings.Byte.
From stdpp Require Import base list numbers gmap.
From S2P Require Import Prelude FdtScan KMemory KBootAlloc KMachine KPaging KPte KTables KMapProofs.
Local Open Scope Z_scope.

(** A word of a table frame. *)
Definition table_word (w : Z) : Prop := exists g j, w = g + 8 * j /\ representable g /\ 0 <= j < 512.

(** Where a synchronised translation leads. *)
Lemma resolve_synced m w va lf :
  translate (mem m) (satp m) va = Some lf -> tlb m (va / 4096) = Some lf ->
  l_read lf = true -> l_write lf = true -> l_user lf = false ->
  resolve m w va = Some (l_ppn lf * 4096 + va mod 4096).
Proof.
  intros H1 H2 Hr Hw Hu. unfold resolve. rewrite H1, H2, bool_decide_eq_true_2, Hr, Hw, Hu by done.
  by destruct w.
Qed.

(** [shown_at f] is the address frame [f] is shown at; [opened] and [closed]
    are the hart after the entry is written and after it is cleared. *)
Class FrameWindow (A : Type) `{FrameAccess A} (inv : A -> machine -> Prop) (slot : Z) (busy : list Z)
    (shown_at : Z -> Z) (opened closed : Z -> machine -> machine) : Prop := {
  fw_run {R} a m f (op : VirtAddr.t -> M machine never R) r m' :
    inv a m -> representable f -> op (shown_at f) (opened f m) = (Ok r, m') ->
    satp m' = satp (opened f m) -> tlb m' = tlb (opened f m) ->
    Forall (fun w => read_word (mem m') w = read_word (mem (opened f m)) w) busy ->
    with_frame (PhysFrame.mk f) op (a, m) = (Ok r, (a, closed f m')) /\ inv a (closed f m');
  fw_high {R} a m f (op : VirtAddr.t -> M machine never R) :
    inv a m -> MAX_PHYSICAL_ADDRESS < f ->
    with_frame (PhysFrame.mk f) op (a, m) = (Err (PhysicalAddressNotRepresentable f), (a, m));
  fw_opened f m : satp (opened f m) = satp m /\ exists v, mem (opened f m) = write_word (mem m) slot v;
  fw_closed f m : satp (closed f m) = satp m /\ mem (closed f m) = write_word (mem m) slot 0;
  fw_empty a m : inv a m -> read_word (mem m) slot = 0;
  fw_words a m : inv a m -> table_word slot /\ Forall table_word busy;
  fw_busy a m f : inv a m -> representable f -> Forall (fun w => read_word (mem (opened f m)) w <> 0) busy;
  fw_shown a m f w i : inv a m -> representable f -> 0 <= i < 512 ->
    resolve (opened f m) w (shown_at f + 8 * i) = Some (f + 8 * i) /\
    ((shown_at f + 8 * i) mod 8 =? 0) = true /\ shown_at f mod 4096 = 0;
}.

Section laws.
Context {A : Type} `{ac : FrameAccess A} {inv : A -> machine -> Prop} {slot : Z} {busy : list Z}.
Context {shown_at : Z -> Z} {opened closed : Z -> machine -> machine}.
Context `{fw : !FrameWindow A inv slot busy shown_at opened closed}.

(** The memory after closing is the one the operation meant. *)
Lemma closed_mem a m f m' (g : memory) x :
  inv a m ->
  (forall y, ~ (slot <= y < slot + 8) -> mem m' y = g y) ->
  (forall y, slot <= y < slot + 8 -> g y = mem m y) ->
  mem (closed f m') x = g x.
Proof.
  intros Hi Hout Hin. destruct (fw_closed f m') as [_ ->].
  destruct (decide (slot <= x < slot + 8)) as [Hx|Hx].
  - rewrite Hin by done. rewrite (write_word_inside _ (mem m)) by done.
    rewrite <- (fw_empty a m Hi). apply write_word_read.
  - rewrite write_word_outside by lia. by apply Hout.
Qed.

Lemma table_word_apart f i w :
  representable f -> 0 <= i < 512 -> table_word w -> f + 8 * i <> w -> w + 8 <= f + 8 * i \/ f + 8 * i + 8 <= w.
Proof. intros Hf Hi (g & j & -> & Hg & Hj) Hne. by apply word_apart. Qed.

Lemma opened_word a m f i g :
  inv a m -> representable g -> 0 <= i < 512 -> g + 8 * i <> slot ->
  read_word (mem (opened f m)) (g + 8 * i) = entry (mem m) g i.
Proof.
  intros Hi Hg Hi' Hne. destruct (fw_opened f m) as [_ [v ->]].
  apply read_write_other. destruct (table_word_apart g i slot); try done; [apply (fw_words a m Hi)|lia|lia].
Qed.

Lemma opened_outside f m y : ~ (slot <= y < slot + 8) -> mem (opened f m) y = mem m y.
Proof. intros Hy. destruct (fw_opened f m) as [_ [v ->]]. apply write_word_outside. lia. Qed.

Lemma closed_satp f m m' : satp m' = satp (opened f m) -> satp (closed f m') = satp m.
Proof. intros Hs. destruct (fw_closed f m') as [-> _]. rewrite Hs. apply (fw_opened f m). Qed.

Lemma window_read a m f i :
  inv a m -> representable f -> 0 <= i < 512 -> f + 8 * i <> slot ->
  exists m', read_page_table_entry (PhysFrame.mk f) i (a, m) = (Ok (entry (mem m) f i), (a, m')) /\
    inv a m' /\ satp m' = satp m /\ forall x, mem m' x = mem m x.
Proof.
  intros Hi Hf Hi' Hne. destruct (fw_shown a m f false i Hi Hf Hi') as (Hr & Hal & _).
  destruct (fw_run a m f (fun address => as_result (read_mapped_page_table_entry address i))
              (Ok (entry (mem m) f i)) (opened f m) Hi Hf) as [Hwf Hinv]; try done.
  - unfold as_result, read_mapped_page_table_entry.
    replace (PAGE_TABLE_ENTRIES <=? i) with false by (unfold PAGE_TABLE_ENTRIES; lia).
    unfold VirtAddr.as_usize. rewrite (infallible_ok _ _ (entry (mem m) f i) (opened f m)); [done|].
    unfold load_word, bind, get. rewrite Hr, Hal. unfold ret. by rewrite (opened_word a m).
  - by apply List.Forall_forall.
  - eexists. split; [|split; [exact Hinv|split; [by apply closed_satp|]]].
    + unfold read_page_table_entry. by rewrite (bind_ok _ _ _ _ _ Hwf).
    + intros x. apply (closed_mem a m); [done| |done]. intros y Hy. by apply opened_outside.
Qed.

Lemma window_write_entry a m f i v :
  inv a m -> representable f -> 0 <= i < 512 -> is_u64 v -> f + 8 * i <> slot -> entry (mem m) f i = 0 ->
  exists m', write_page_table_entry (PhysFrame.mk f) i v (a, m) = (Ok tt, (a, m')) /\
    inv a m' /\ satp m' = satp m /\ forall x, mem m' x = write_word (mem m) (f + 8 * i) v x.
Proof.
  intros Hi Hf Hi' Hv Hne Hz. destruct (fw_shown a m f true i Hi Hf Hi') as (Hr & Hal & _).
  destruct (fw_words a m Hi) as [Hslot Hbusy].
  set (m1 := mkMachine (write_word (mem (opened f m)) (f + 8 * i) v) (satp (opened f m)) (tlb (opened f m))).
  destruct (fw_run a m f (fun address => as_result (write_mapped_page_table_entry address i v))
              (Ok tt) m1 Hi Hf) as [Hwf Hinv]; try done.
  - unfold as_result, write_mapped_page_table_entry.
    replace (PAGE_TABLE_ENTRIES <=? i) with false by (unfold PAGE_TABLE_ENTRIES; lia).
    unfold VirtAddr.as_usize. rewrite (infallible_ok _ _ tt m1); [done|].
    unfold store_word, bind, get. by rewrite Hr, Hal.
  - apply List.Forall_forall. intros w Hin. cbn [m1 mem].
    pose proof (proj1 (List.Forall_forall _ _) (fw_busy a m f Hi Hf) w Hin) as Hnz.
    pose proof (proj1 (List.Forall_forall _ _) Hbusy w Hin) as Hw.
    apply read_write_other. destruct (table_word_apart f i w Hf Hi' Hw); [|lia|lia].
    intros <-. apply Hnz. by rewrite (opened_word a m).
  - eexists. split; [|split; [exact Hinv|split; [by apply closed_satp|]]].
    + unfold write_page_table_entry. by rewrite (bind_ok _ _ _ _ _ Hwf).
    + intros x. destruct (table_word_apart f i slot Hf Hi' Hslot Hne) as [|];
        (apply (closed_mem a m); [done| |]; intros y Hy;
         [apply write_word_same_ext; by apply opened_outside|apply write_word_outside; lia]).
Qed.

Lemma window_zero a m f :
  inv a m -> representable f -> Forall (off_frame f) (slot :: busy) ->
  exists m', zero_frame (AllocatedFrame.mk (PhysFrame.mk f)) (a, m) = (Ok tt, (a, m')) /\
    inv a m' /\ satp m' = satp m /\ forall x, mem m' x = fill (mem m) f FRAME_SIZE x00 x.
Proof.
  intros Hi Hf [Hslot Hoff]%Forall_cons_1.
  destruct (fw_shown a m f true 0 Hi Hf ltac:(lia)) as (Hr & _ & Hpage). rewrite Z.mul_0_r, !Z.add_0_r in Hr.
  set (m1 := mkMachine (fill (mem (opened f m)) f FRAME_SIZE x00) (satp (opened f m)) (tlb (opened f m))).
  destruct (fw_run a m f (fun address => fill_page (VirtAddr.as_usize address) PAGE_SIZE x00)
              tt m1 Hi Hf) as [Hwf Hinv]; try done.
  - unfold fill_page, bind, get, VirtAddr.as_usize. by rewrite Hr, Hpage.
  - apply List.Forall_forall. intros w Hin.
    apply read_fill_other. exact (proj1 (List.Forall_forall _ _) Hoff w Hin).
  - eexists. split; [exact Hwf|split; [exact Hinv|split; [by apply closed_satp|]]].
    intros x. unfold off_frame in Hslot. apply (closed_mem a m); [done| |]; intros y Hy.
    + apply fill_same_ext. by apply opened_outside.
    + apply fill_outside. lia.
Qed.

(** A window meets the contract of [FrameAccess]. *)
Lemma window_access_laws : FrameAccessLaws A inv slot busy.
Proof.
  split; [apply window_read|apply window_write_entry|apply window_zero|].
  intros a m f Hi Hh. unfold zero_frame. by apply fw_high.
Qed.

End laws.
