(* ===== verification/KHeap.v ===== *)
(** * The kernel heap ([kernel/src/memory/heap.rs])

    A downward-growing allocator over a reserved virtual range.  The trait
    [HeapBacking] is the class of the same name, and its safety contract is
    [HeapBackingLaws]; the theorems about the heap use nothing else of its
    implementations.  The methods run on the pair of the heap and the backing
    object they borrow. *)

From Stdlib Require Import ZArith Lia Bool.
From stdpp Require Import base list numbers.
From S2P Require Import Prelude FdtScan KMemory.
Local Open Scope Z_scope.

(** [core::alloc::Layout]. *)
Record Layout := mkLayout { lsize : Z; lalign : Z }.

(** The documented guarantee of a [Layout]. *)
Definition layout_ok (l : Layout) : Prop :=
  0 <= lsize l /\ (exists k, 0 <= k < 64 /\ lalign l = 2 ^ k) /\ lsize l + (lalign l - 1) <= isize_max.

(** [NonNull::new]. *)
Definition nonnull (p : Z) : option Z := if p =? 0 then None else Some p.

(** The trait, with its associated error type. *)
Class HeapBacking (B E : Type) := map_page : VirtAddr.t -> M B E unit.

(** The trait's contract for the pages of a reserved range: a success backs
    exactly the requested page, a failure backs none, and what was backed stays
    backed. *)
Class HeapBackingLaws {B E : Type} `{HeapBacking B E} (inv : B -> Prop) (range : VirtRange.t)
    (backed : B -> Z -> Prop) : Prop := {
  backing_step b a :
    inv b -> VirtRange.contains range a -> a mod FRAME_SIZE = 0 -> ~ backed b a ->
    match map_page a b with
    | (Ok _, b') => inv b' /\ forall p, backed b' p <-> p = a \/ backed b p
    | (Err _, b') => inv b' /\ forall p, backed b' p <-> backed b p
    | _ => False
    end;
}.

(** A backing with enough left: [supply n] holds while [n] more pages can be
    backed. *)
Class HeapBackingSupply {B E : Type} `{HeapBacking B E} (inv : B -> Prop) (range : VirtRange.t)
    (backed : B -> Z -> Prop) (supply : nat -> B -> Prop) : Prop := {
  supply_step n b a :
    inv b -> VirtRange.contains range a -> a mod FRAME_SIZE = 0 -> ~ backed b a -> supply (S n) b ->
    exists b', map_page a b = (Ok tt, b') /\ supply n b';
  supply_less n b : supply (S n) b -> supply n b;
}.

Inductive HeapError (E : Type) :=
| InvalidRange (range : VirtRange.t)
| ZeroSizedAllocation
| Exhausted
| Backing (e : E).

Arguments InvalidRange {E} range.
Arguments ZeroSizedAllocation {E}.
Arguments Exhausted {E}.
Arguments Backing {E} e.

Module KernelHeap.

Record t := mk { range : VirtRange.t; cursor : VirtAddr.t; mapped_start : VirtAddr.t }.

Section operations.
Context {B E : Type} `{HeapBacking B E}.

(** The borrowed backing object. *)
Definition with_backing {A} (m : M B E A) : M (t * B) (HeapError E) A :=
  zoom snd (fun b s => (fst s, b)) (mmap_err Backing m).

Definition set_mapped_start (page : VirtAddr.t) : M (t * B) (HeapError E) unit :=
  let* (self, b) := get in put (mk (range self) (cursor self) page, b).

Definition set_cursor (address : VirtAddr.t) : M (t * B) (HeapError E) unit :=
  let* (self, b) := get in put (mk (range self) address (mapped_start self), b).

Fixpoint back_loop (fuel : nat) (start : VirtAddr.t) : M (t * B) (HeapError E) unit :=
  match fuel with
  | O => lift OutOfFuel
  | S fuel' =>
      let* (self, _) := get in
      if VirtAddr.as_usize start <? VirtAddr.as_usize (mapped_start self) then
        let* address := lift (ok_or (checked_sub (VirtAddr.as_usize (mapped_start self)) FRAME_SIZE)
                                Exhausted) in
        let page := VirtAddr.new address in
        let* _ := with_backing (map_page page) in
        let* _ := set_mapped_start page in
        back_loop fuel' start
      else ret tt
  end.

(** The pages from [start] up to the backed suffix, and one test more. *)
Definition back_fuel (start mapped_start : Z) : nat :=
  S (Z.to_nat ((mapped_start - start + FRAME_SIZE - 1) / FRAME_SIZE)).

Definition back_to (start : VirtAddr.t) : M (t * B) (HeapError E) unit :=
  let* (self, _) := get in back_loop (back_fuel start (mapped_start self)) start.

(** The heap under construction is part of the state. *)
Definition new (range : VirtRange.t) : M B (HeapError E) t :=
  let start := VirtAddr.as_usize (VirtRange.start range) in
  let end_ := VirtAddr.as_usize (VirtRange.end_ range) in
  if (start =? 0) || negb (start mod FRAME_SIZE =? 0) || negb (end_ mod FRAME_SIZE =? 0)
  then throw (InvalidRange range)
  else
    let heap := mk range (VirtRange.end_ range) (VirtRange.end_ range) in
    let* first_page := lift (ok_or (checked_sub end_ FRAME_SIZE) (InvalidRange range)) in
    fun b =>
      let '(o, (heap, b)) := back_to (VirtAddr.new first_page) (heap, b) in
      (let? _ := o in Ok heap, b).

Definition allocate (layout : Layout) : M (t * B) (HeapError E) Z :=
  if lsize layout =? 0 then throw ZeroSizedAllocation
  else
    let* (self, _) := get in
    let* mask := lift (usub (lalign layout) 1) in
    let* address :=
      lift (ok_or
        (address ← checked_sub (VirtAddr.as_usize (cursor self)) (lsize layout);
         let address := Z.land address (unot mask) in
         if VirtAddr.as_usize (VirtRange.start (range self)) <=? address then Some address else None)
        Exhausted) in
    let* pointer := lift (ok_or (nonnull address) Exhausted) in
    let first_page := VirtAddr.new (Z.land address (unot (FRAME_SIZE - 1))) in
    let* _ := back_to first_page in
    let* _ := set_cursor (VirtAddr.new address) in
    ret pointer.

(** A client's sequence of requests: the blocks of those that succeed. *)
Fixpoint allocate_all (layouts : list Layout) : M (t * B) never (list (Z * Layout)) :=
  match layouts with
  | [] => ret []
  | layout :: layouts =>
      fun s =>
        match allocate layout s with
        | (Ok address, s) =>
            (let* blocks := allocate_all layouts in ret ((address, layout) :: blocks)) s
        | (Err _, s) => allocate_all layouts s
        | (Panic, s) => (Panic, s)
        | (OutOfFuel, s) => (OutOfFuel, s)
        end
  end.

End operations.

End KernelHeap.
