(* ===== verification/KHeapProofs.v ===== *)
(** * The heap against the contract of its backing

    The invariant [heap_ok], its preservation, and the exact result of every
    request: a block inside the range and below the previous cursor, aligned
    and fully backed, or an error that leaves the cursor in place. *)

From Stdlib Require Import ZArith Lia Bool.
From stdpp Require Import base list numbers.
From S2P Require Import Prelude FdtScan KMemory KHeap.
Local Open Scope Z_scope.

Module HeapProofs.
Export KernelHeap.

Section laws.
Context {B E : Type} `{HeapBacking B E} (inv : B -> Prop) (R : VirtRange.t) (backed : B -> Z -> Prop).
Context `{!HeapBackingLaws inv R backed}.

(** A proper reservation. *)
Definition range_proper (r : VirtRange.t) : Prop :=
  VirtRange.wf r /\ 0 < VirtRange.start r /\
  VirtRange.start r mod FRAME_SIZE = 0 /\ VirtRange.end_ r mod FRAME_SIZE = 0.

(** The backed pages of the range are the suffix from [mapped_start]. *)
Record suffix_backed (h : t) (b : B) : Prop := {
  s_range : range h = R;
  s_proper : range_proper R;
  s_mapped : VirtRange.start R <= mapped_start h <= VirtRange.end_ R;
  s_aligned : mapped_start h mod FRAME_SIZE = 0;
  s_inv : inv b;
  s_backed p : VirtRange.contains R p -> p mod FRAME_SIZE = 0 -> (backed b p <-> mapped_start h <= p);
}.

(** The invariant: the cursor lies in the backed suffix. *)
Record heap_ok (h : t) (b : B) : Prop := {
  h_suffix : suffix_backed h b;
  h_cursor : mapped_start h <= cursor h <= VirtRange.end_ R;
}.

(** Every byte of a block lies in a backed page of the range. *)
Definition fully_backed (b : B) (a n : Z) : Prop :=
  forall x, a <= x < a + n -> VirtRange.contains R x /\ backed b (frame_floor x).

Lemma pages_apart a b :
  a mod FRAME_SIZE = 0 -> b mod FRAME_SIZE = 0 -> a < b -> a <= b - FRAME_SIZE.
Proof. unfold FRAME_SIZE. intros. Z.div_mod_to_equations. lia. Qed.

Lemma page_below a : a mod FRAME_SIZE = 0 -> (a - FRAME_SIZE) mod FRAME_SIZE = 0.
Proof. unfold FRAME_SIZE. intros. Z.div_mod_to_equations. lia. Qed.

(** The page below the backed suffix. *)
Lemma next_page h b :
  suffix_backed h b -> VirtRange.start R < mapped_start h ->
  let page := mapped_start h - FRAME_SIZE in
  VirtRange.contains R page /\ page mod FRAME_SIZE = 0 /\ ~ backed b page /\ VirtRange.start R <= page.
Proof.
  intros [Hr Hp Hm Ha Hi Hb] Hlt page. pose proof Hp as (Hw & H0 & Hs & He).
  pose proof (pages_apart _ _ Hs Ha Hlt) as Hle. pose proof (page_below _ Ha) as Hpa.
  assert (0 < FRAME_SIZE) by done.
  assert (VirtRange.contains R page) as Hc by (unfold VirtRange.contains, page; lia).
  split; [done|]. split; [done|]. split; [rewrite Hb by done; unfold page; lia|unfold page; lia].
Qed.

(** One page more. *)
Lemma back_page h b :
  suffix_backed h b -> VirtRange.start R < mapped_start h ->
  let page := mapped_start h - FRAME_SIZE in
  match map_page page b with
  | (Ok _, b') => suffix_backed (mk (range h) (cursor h) page) b'
  | (Err _, b') => suffix_backed h b'
  | _ => False
  end.
Proof.
  intros Hsb Hlt page. destruct (next_page h b Hsb Hlt) as (Hc & Hpa & Hn & Hle). destruct Hsb as [Hr Hp Hm Ha Hi Hb].
  assert (0 < FRAME_SIZE) by done.
  pose proof (backing_step b page Hi Hc Hpa Hn) as Hstep.
  destruct (map_page page b) as [[[]|e| |] b']; try done; destruct Hstep as [Hi' Hb'].
  - split; cbn [range cursor mapped_start]; try done; [unfold page; lia|]. intros p Hcp Hap.
    rewrite Hb', Hb by done. unfold page. split; [lia|]. intros Hpp.
    destruct (Z_lt_le_dec p (mapped_start h)) as [Hlt'|]; [left|by right].
    pose proof (pages_apart _ _ Hap Ha Hlt'). lia.
  - split; try done. intros p Hcp Hap. by rewrite Hb', Hb.
Qed.

Definition fuel_enough (start mapped : Z) (fuel : nat) : Prop :=
  1 <= Z.of_nat fuel /\ mapped <= start + FRAME_SIZE * (Z.of_nat fuel - 1).

Lemma back_fuel_enough start mapped : fuel_enough start mapped (back_fuel start mapped).
Proof.
  unfold fuel_enough, back_fuel, FRAME_SIZE. rewrite Nat2Z.inj_succ. split; [lia|].
  destruct (Z_lt_le_dec mapped start); [lia|]. rewrite Z2Nat.id; Z.div_mod_to_equations; lia.
Qed.

(** The loop backs down to [start], or stops at the first failure. *)
Lemma back_loop_spec fuel : forall start h b,
  suffix_backed h b -> VirtRange.start R <= start -> start mod FRAME_SIZE = 0 ->
  fuel_enough start (mapped_start h) fuel ->
  exists o h' b', back_loop fuel start (h, b) = (o, (h', b')) /\
    suffix_backed h' b' /\ cursor h' = cursor h /\ mapped_start h' <= mapped_start h /\
    match o with
    | Ok _ => mapped_start h' = Z.min start (mapped_start h)
    | Err e => (exists e', e = Backing e') /\ start < mapped_start h'
    | _ => False
    end.
Proof.
  induction fuel as [|fuel IH]; intros start h b Hsb Hs Hm [Hf1 Hf]; [lia|]. cbn [back_loop].
  rewrite (bind_Ok _ _ _ (h, b) (h, b)) by done. unfold VirtAddr.as_usize.
  destruct (start <? mapped_start h) eqn:Hlt; zbool.
  2:{ exists (Ok tt), h, b. split; [done|]. split; [done|]. split; [done|]. split; [lia|].
      by rewrite Z.min_r by lia. }
  pose proof Hsb as [Hr Hp Hmr Ha _ _]. pose proof (pages_apart _ _ Hm Ha Hlt) as Hle.
  pose proof Hp as ((Hw0 & _) & _). assert (0 < FRAME_SIZE) by done.
  rewrite (bind_Ok _ _ _ (mapped_start h - FRAME_SIZE) (h, b)).
  2:{ unfold lift, checked_sub. by replace (FRAME_SIZE <=? mapped_start h) with true by lia. }
  cbv zeta. unfold VirtAddr.new. pose proof (back_page h b Hsb ltac:(lia)) as Hpage. cbv zeta in Hpage.
  destruct (map_page (mapped_start h - FRAME_SIZE) b) as [[[]|e| |] b'] eqn:Hmp; try done.
  - rewrite (bind_Ok _ _ _ tt (h, b')).
    2:{ unfold with_backing. unfold_m. cbn [snd fst]. by rewrite Hmp. }
    rewrite (bind_Ok _ _ _ tt (mk (range h) (cursor h) (mapped_start h - FRAME_SIZE), b')) by done.
    destruct (IH start _ b' Hpage Hs Hm) as (o & h' & b2 & Hl & Hsb' & Hc & Hms & Ho).
    { unfold fuel_enough. cbn [mapped_start]. unfold FRAME_SIZE in *. lia. }
    cbn [cursor mapped_start] in *. exists o, h', b2. split; [done|]. split; [done|]. split; [done|].
    split; [lia|]. destruct o; try done. rewrite Ho. lia.
  - exists (Err (Backing e)), h, b'. split.
    { unfold bind at 1, with_backing. unfold_m. cbn [snd fst]. by rewrite Hmp. }
    split; [done|]. split; [done|]. split; [lia|]. split; [by exists e|done].
Qed.

Lemma back_to_spec start h b :
  suffix_backed h b -> VirtRange.start R <= start -> start mod FRAME_SIZE = 0 ->
  exists o h' b', back_to start (h, b) = (o, (h', b')) /\
    suffix_backed h' b' /\ cursor h' = cursor h /\ mapped_start h' <= mapped_start h /\
    match o with
    | Ok _ => mapped_start h' = Z.min start (mapped_start h)
    | Err e => (exists e', e = Backing e') /\ start < mapped_start h'
    | _ => False
    end.
Proof.
  intros Hsb Hs Hm. unfold back_to. rewrite (bind_Ok _ _ _ (h, b) (h, b)) by done.
  apply back_loop_spec; try done. apply back_fuel_enough.
Qed.

(** ** [new] *)

Lemma heap_new_spec b :
  range_proper R -> inv b ->
  (forall p, VirtRange.contains R p -> p mod FRAME_SIZE = 0 -> ~ backed b p) ->
  exists o b', new R b = (o, b') /\
    match o with
    | Ok h => heap_ok h b' /\ cursor h = VirtRange.end_ R /\
              mapped_start h = VirtRange.end_ R - FRAME_SIZE
    | Err e => (exists e', e = Backing e') /\ inv b'
    | _ => False
    end.
Proof.
  intros Hp Hi Hn. pose proof Hp as (Hw & H0 & Hs & He). pose proof Hw as (Hw0 & Hw1 & Hw2).
  pose proof (pages_apart _ _ Hs He Hw1) as Hle. assert (0 < FRAME_SIZE) by done.
  unfold new, VirtAddr.as_usize. rewrite Hs, He.
  replace (VirtRange.start R =? 0) with false by lia. cbn [orb negb Z.eqb].
  rewrite (bind_Ok _ _ _ (VirtRange.end_ R - FRAME_SIZE) b).
  2:{ unfold lift, checked_sub. by replace (FRAME_SIZE <=? _) with true by lia. }
  unfold VirtAddr.new. set (h0 := mk R (VirtRange.end_ R) (VirtRange.end_ R)).
  assert (suffix_backed h0 b) as Hsb.
  { split; try done; cbn; [lia|]. intros p Hc Ha. split; [by intros Hb; apply Hn in Hb|].
    unfold VirtRange.contains in Hc. lia. }
  destruct (back_to_spec (VirtRange.end_ R - FRAME_SIZE) h0 b Hsb) as
    (o & h' & b' & -> & Hsb' & Hc & _ & Ho); [lia|by apply page_below|].
  destruct o as [[]|e| |]; try done; cbn [obind].
  - eexists _, b'. split; [done|]. cbn in Ho. split; [|split; [done|lia]].
    split; [done|]. rewrite Hc. cbn. lia.
  - exists (Err e), b'. split; [done|]. split; [apply Ho|apply Hsb'].
Qed.

(** The range is reserved by backing its last page, once. *)
Lemma heap_new_backs b :
  range_proper R -> let first := VirtRange.end_ R - FRAME_SIZE in
  new R b = (let? _ := map_err Backing (fst (map_page first b)) in Ok (mk R (VirtRange.end_ R) first),
             snd (map_page first b)).
Proof.
  intros (Hw & H0 & Hs & He) first. destruct Hw as (_ & Hw1 & _). pose proof (pages_apart _ _ Hs He Hw1) as Hle.
  unfold new, VirtAddr.as_usize, VirtAddr.new. rewrite Hs, He. assert (0 < FRAME_SIZE) by done.
  replace (VirtRange.start R =? 0) with false by lia. cbn [orb negb Z.eqb].
  assert (checked_sub (VirtRange.end_ R) FRAME_SIZE = Some first) as Hsub
    by (unfold checked_sub; by replace (FRAME_SIZE <=? _) with true by lia).
  rewrite (bind_Ok _ _ _ first b) by (unfold lift; by rewrite Hsub). fold first.
  unfold back_to, bind at 1, get. cbn [mapped_start]. unfold back_fuel.
  replace (Z.to_nat ((VirtRange.end_ R - first + FRAME_SIZE - 1) / FRAME_SIZE)) with 1%nat
    by (unfold first; by replace (_ - _ + FRAME_SIZE - 1) with (FRAME_SIZE + (FRAME_SIZE - 1)) by lia).
  cbn [back_loop]. unfold VirtAddr.as_usize, bind at 1, get. cbn [mapped_start].
  replace (first <? VirtRange.end_ R) with true by (unfold first; lia).
  rewrite Hsub. unfold with_backing, set_mapped_start, zoom, mmap_err, bind, lift, get, put. cbn [ok_or fst snd].
  unfold VirtAddr.new. destruct (map_page first b) as [[[]|e| |] b']; cbn [map_err obind range cursor mapped_start fst snd]; try done.
  by rewrite Z.ltb_irrefl.
Qed.

(** ** [allocate] *)

(** The address of the next block: below the cursor, rounded down. *)
Definition block_address (h : t) (l : Layout) : Z := (cursor h - lsize l) / lalign l * lalign l.

(** The request fits what is left of the range. *)
Definition fits (h : t) (l : Layout) : Prop :=
  lsize l <= cursor h /\ VirtRange.start R <= block_address h l.

Lemma layout_align_pos l : layout_ok l -> 0 < lalign l.
Proof. intros (_ & (k & Hk & ->) & _). lia. Qed.

Lemma masked_address h b l :
  heap_ok h b -> layout_ok l -> lsize l <= cursor h ->
  Z.land (cursor h - lsize l) (unot (lalign l - 1)) = block_address h l.
Proof.
  intros [[_ ((_ & _ & Hw) & _) _ _ _ _] Hc] (Hs & (k & Hk & Ha) & _) Hle. unfold block_address.
  rewrite Ha. apply land_unot; [|done]. unfold is_usize. lia.
Qed.

Lemma backed_block h b a n :
  suffix_backed h b -> VirtRange.start R <= a -> mapped_start h <= frame_floor a ->
  a + n <= VirtRange.end_ R -> fully_backed b a n.
Proof.
  intros Hsb Ha Hm Hn x Hx. assert (VirtRange.contains R x) as Hc by (unfold VirtRange.contains; lia).
  split; [done|]. destruct (frame_floor_spec x) as [Hxm Hxf].
  assert (frame_floor a <= frame_floor x) as Hle.
  { unfold frame_floor, FRAME_SIZE. apply Z.mul_le_mono_nonneg_r; [lia|].
    apply Z.div_le_mono; lia. }
  pose proof (s_mapped _ _ Hsb). apply (s_backed _ _ Hsb); [|done|lia].
  unfold VirtRange.contains in *. lia.
Qed.

(** The result of a request, on every branch. *)
Definition allocated (h : t) (b : B) (l : Layout) (o : outcome (HeapError E) Z) (h' : t) (b' : B)
    : Prop :=
  heap_ok h' b' /\ mapped_start h' <= mapped_start h /\
  match o with
  | Ok a => 0 < lsize l /\ fits h l /\ a = block_address h l /\ cursor h' = a /\
            a mod lalign l = 0 /\ a + lsize l <= cursor h /\ fully_backed b' a (lsize l)
  | Err ZeroSizedAllocation => lsize l = 0 /\ h' = h /\ b' = b
  | Err Exhausted => 0 < lsize l /\ ~ fits h l /\ h' = h /\ b' = b
  | Err (Backing _) => 0 < lsize l /\ fits h l /\ cursor h' = cursor h
  | _ => False
  end.

(** A request that does not fit. *)
Lemma allocate_exhausted h b l :
  heap_ok h b -> layout_ok l -> 0 < lsize l -> ~ fits h l -> allocate l (h, b) = (Err Exhausted, (h, b)).
Proof.
  intros Hok Hl Hz Hnf. pose proof (layout_align_pos l Hl) as Hap. pose proof Hok as [[Hr _ _ _ _ _] _].
  unfold allocate. rewrite (proj2 (Z.eqb_neq (lsize l) 0)) by lia.
  rewrite (bind_Ok _ _ _ (h, b) (h, b)), (bind_Ok _ _ _ (lalign l - 1) (h, b)); [|
    unfold lift, usub, checked_sub; by replace (1 <=? lalign l) with true by lia|done].
  unfold VirtAddr.as_usize, bind, lift, checked_sub. rewrite Hr. destruct (lsize l <=? cursor h) eqn:Hle; zbool; [|done].
  cbn [mbind option_bind]. rewrite (masked_address h b) by done.
  by replace (VirtRange.start R <=? block_address h l) with false by (unfold fits in Hnf; lia).
Qed.

(** A request that fits backs the block from the frame of its address on. *)
Lemma allocate_fitting h b l :
  heap_ok h b -> layout_ok l -> 0 < lsize l -> fits h l ->
  let a := block_address h l in
  allocate l (h, b) = (let* _ := back_to (frame_floor a) in let* _ := set_cursor a in ret a) (h, b) /\
  VirtRange.start R <= frame_floor a <= a /\ frame_floor a mod FRAME_SIZE = 0 /\ a mod lalign l = 0 /\
  a + lsize l <= cursor h.
Proof.
  intros Hok Hl Hz [Hle Hge] a. pose proof (layout_align_pos l Hl) as Hap. pose proof Hok as [Hsb Hcur].
  pose proof Hsb as [Hr ((Hw0 & Hw1 & Hw2) & H0 & Hrs & Hre) _ _ _ _].
  destruct (round_down (cursor h - lsize l) (lalign l) Hap) as [Hmod Hrd].
  fold (block_address h l) in Hmod, Hrd. fold a in Hmod, Hrd, Hge. destruct (frame_floor_spec a) as [Hfm Hff].
  split.
  - unfold allocate. rewrite (proj2 (Z.eqb_neq (lsize l) 0)) by lia.
    rewrite (bind_Ok _ _ _ (h, b) (h, b)), (bind_Ok _ _ _ (lalign l - 1) (h, b)); [|
      unfold lift, usub, checked_sub; by replace (1 <=? lalign l) with true by lia|done].
    unfold VirtAddr.as_usize, checked_sub. rewrite Hr, (proj2 (Z.leb_le _ _) Hle).
    cbn [mbind option_bind]. rewrite (masked_address h b) by done. fold a. rewrite (proj2 (Z.leb_le _ _) Hge).
    rewrite (bind_Ok _ _ _ a (h, b)) by done.
    rewrite (bind_Ok _ _ _ a (h, b)) by (unfold lift, nonnull; by replace (a =? 0) with false by lia).
    rewrite land_frame_mask by (unfold is_usize; lia). done.
  - split; [|by split; [|split; [|lia]]]. split; [|lia].
    destruct (Z_lt_le_dec (frame_floor a) (VirtRange.start R)) as [Hlt|]; [|done].
    pose proof (pages_apart _ _ Hfm Hrs Hlt). lia.
Qed.

Lemma allocate_spec h b l :
  heap_ok h b -> layout_ok l ->
  exists o h' b', allocate l (h, b) = (o, (h', b')) /\ allocated h b l o h' b'.
Proof.
  intros Hok Hl. destruct (Z_le_gt_dec (lsize l) 0) as [Hz|Hz].
  { pose proof Hl as (Hs & _). assert (lsize l = 0) as Hz0 by lia. exists (Err ZeroSizedAllocation), h, b.
    unfold allocate. rewrite Hz0. split; [done|]. split; [done|]. by split. }
  assert (fits h l \/ ~ fits h l) as [Hfit|Hfit] by (unfold fits; lia).
  2:{ exists (Err Exhausted), h, b. split; [by apply allocate_exhausted; [..|lia|]|]. split; [done|]. split; [done|].
      by split; [lia|]. }
  destruct (allocate_fitting h b l Hok Hl ltac:(lia) Hfit) as (-> & [Hge Hfl] & Hfm & Hmod & Hend).
  set (a := block_address h l) in *. pose proof Hok as [Hsb Hcur].
  destruct (back_to_spec (frame_floor a) h b Hsb Hge Hfm) as (o & h' & b' & Hbt & Hsb' & Hc' & Hm' & Ho).
  destruct o as [[]|e| |]; try done.
  - rewrite (bind_Ok _ _ _ _ _ Hbt). exists (Ok a), (mk (range h') a (mapped_start h')), b'.
    split; [done|]. assert (suffix_backed (mk (range h') a (mapped_start h')) b') as Hsb2
      by (destruct Hsb'; by split).
    destruct (frame_floor_spec a) as [_ Hff].
    split; [split; [done|cbn]; pose proof (layout_align_pos l Hl); lia|]. split; [done|]. do 4 (split; [done || lia|]).
    split; [done|]. split; [lia|]. apply (backed_block _ _ _ _ Hsb2); cbn; lia.
  - exists (Err e), h', b'. unfold bind at 1. rewrite Hbt. split; [done|].
    destruct Ho as [(e' & ->) Hlt].
    split; [split; [done|rewrite Hc'; lia]|]. split; [done|]. split; [lia|done].
Qed.

(** ** Sequences of requests *)

(** A block as its client may rely on it. *)
Definition usable (b : B) (limit : Z) (block : Z * Layout) : Prop :=
  let '(a, l) := block in
  0 < lsize l /\ a mod lalign l = 0 /\ VirtRange.start R <= a /\ a + lsize l <= limit /\
  fully_backed b a (lsize l).

(** The second block ends at or before the start of the first. *)
Definition below (x y : Z * Layout) : Prop := fst y + lsize (snd y) <= fst x.

Lemma allocate_all_spec layouts : forall h b,
  heap_ok h b -> Forall layout_ok layouts ->
  exists blocks h' b', allocate_all layouts (h, b) = (Ok blocks, (h', b')) /\
    heap_ok h' b' /\ mapped_start h' <= mapped_start h /\
    Forall (usable b' (cursor h)) blocks /\ ForallOrdPairs below blocks.
Proof.
  induction layouts as [|l layouts IH]; intros h b Hok Hls.
  { exists [], h, b. split; [done|]. split; [done|]. split; [done|]. by split; constructor. }
  apply Forall_cons_1 in Hls as [Hl Hls]. cbn [allocate_all].
  destruct (allocate_spec h b l Hok Hl) as (o & h1 & b1 & -> & Hok1 & Hm1 & Ho).
  destruct (IH h1 b1 Hok1 Hls) as (blocks & h2 & b2 & Hall & Hok2 & Hm2 & Hus & Hpw).
  destruct o as [a|e| |]; try done.
  - destruct Ho as (Hs & [_ Hfs] & Ha & Hc1 & Hmod & Hend & _). rewrite <- Ha in Hfs.
    exists ((a, l) :: blocks), h2, b2. rewrite (bind_Ok _ _ _ _ _ Hall). split; [done|].
    split; [done|]. split; [lia|]. split; constructor; try done.
    + split; [done|]. do 3 (split; [done|]).
      pose proof (h_cursor _ _ Hok1) as Hcur. pose proof (h_cursor _ _ Hok) as Hcur0.
      apply (backed_block _ _ _ _ (h_suffix _ _ Hok2)); [done| |lia].
      destruct (frame_floor_spec a) as [Hfm Hff].
      pose proof (s_aligned _ _ (h_suffix _ _ Hok1)) as Ham.
      destruct (Z_lt_le_dec (frame_floor a) (mapped_start h1)) as [Hlt|]; [|lia].
      pose proof (pages_apart _ _ Hfm Ham Hlt). lia.
    + eapply list.Forall_impl; [exact Hus|]. intros [a' l'] (? & ? & ? & ? & ?).
      split; [done|]. do 2 (split; [done|]). split; [lia|done].
    + eapply list.Forall_impl; [exact Hus|]. intros [a' l'] (_ & _ & _ & Hle & _).
      unfold below. cbn. lia.
  - exists blocks, h2, b2. split; [done|]. split; [done|]. split; [lia|]. split; [|done].
    assert (cursor h1 = cursor h) as <-; [|done].
    destruct e; [done|by destruct Ho as (_ & -> & _)|by destruct Ho as (_ & _ & -> & _)|].
    by destruct Ho as (_ & _ & ->).
Qed.

End laws.

(** ** Requests with enough supply *)

Section supply.
Context {B E : Type} `{HeapBacking B E} (inv : B -> Prop) (R : VirtRange.t) (backed : B -> Z -> Prop).
Context `{!HeapBackingLaws inv R backed}.
Context (supply : nat -> B -> Prop) `{!HeapBackingSupply inv R backed supply}.

Abbreviation suffix_backed := (suffix_backed inv R backed).
Abbreviation heap_ok := (heap_ok inv R backed).

Lemma supply_more n k b : supply (n + k) b -> supply k b.
Proof. induction n as [|n IH]; [done|]. intros Hs. by apply IH, supply_less. Qed.

Lemma back_loop_supplied fuel : forall start h b n k,
  suffix_backed h b -> VirtRange.start R <= start -> start mod FRAME_SIZE = 0 ->
  fuel_enough start (mapped_start h) fuel -> supply (n + k) b -> mapped_start h <= start + Z.of_nat n * FRAME_SIZE ->
  exists h' b', back_loop fuel start (h, b) = (Ok tt, (h', b')) /\ supply k b'.
Proof.
  induction fuel as [|fuel IH]; intros start h b n k Hsb Hs Hm [Hf1 Hf] Hsup Hn; [lia|]. cbn [back_loop].
  rewrite (bind_Ok _ _ _ (h, b) (h, b)) by done. unfold VirtAddr.as_usize.
  destruct (start <? mapped_start h) eqn:Hlt; zbool; [|by exists h, b; split; [|by eapply supply_more]].
  destruct (next_page inv R backed h b Hsb ltac:(lia)) as (Hc & Hpa & Hnb & Hge).
  pose proof Hsb as [_ (_ & H0 & _) _ _ Hi _].
  rewrite (bind_Ok _ _ _ (mapped_start h - FRAME_SIZE) (h, b)).
  2:{ unfold lift, checked_sub. by replace (FRAME_SIZE <=? mapped_start h) with true by lia. }
  cbv zeta. unfold VirtAddr.new. destruct n as [|n]; [lia|].
  destruct (supply_step (n + k) b _ Hi Hc Hpa Hnb Hsup) as (b' & Hmp & Hsup').
  pose proof (back_page inv R backed h b Hsb ltac:(lia)) as Hpage. cbv zeta in Hpage. rewrite Hmp in Hpage.
  rewrite (bind_Ok _ _ _ tt (h, b')) by (unfold with_backing; unfold_m; cbn [snd fst]; by rewrite Hmp).
  rewrite (bind_Ok _ _ _ tt (mk (range h) (cursor h) (mapped_start h - FRAME_SIZE), b')) by done.
  apply (IH start _ b' n k Hpage Hs Hm); [|done|cbn [mapped_start]; lia].
  unfold fuel_enough. cbn [mapped_start]. unfold FRAME_SIZE in *. lia.
Qed.

(** A request that fits succeeds when the backing has a page for each one below
    the backed suffix. *)
Lemma allocate_supplied h b l n k :
  heap_ok h b -> layout_ok l -> 0 < lsize l -> fits R h l -> supply (n + k) b ->
  mapped_start h <= frame_floor (block_address h l) + Z.of_nat n * FRAME_SIZE ->
  exists h' b', allocate l (h, b) = (Ok (block_address h l), (h', b')) /\ supply k b'.
Proof.
  intros Hok Hl Hz Hfit Hs Hn.
  destruct (allocate_fitting inv R backed h b l Hok Hl Hz Hfit) as (-> & [Hge _] & Hfm & _).
  destruct (back_loop_supplied (back_fuel (frame_floor (block_address h l)) (mapped_start h)) _ h b n k
    (h_suffix _ _ _ _ _ Hok) Hge Hfm (back_fuel_enough _ _) Hs Hn) as (h' & b' & Hbt & Hs').
  exists (mk (range h') (block_address h l) (mapped_start h')), b'.
  rewrite (bind_Ok _ _ _ tt (h', b')); [done|]. unfold back_to. by rewrite (bind_Ok _ _ _ (h, b) (h, b)).
Qed.

End supply.

End HeapProofs.
