(* ===== verification/KKernelPaging.v ===== *)
(** * Bootstrap and kernel paging ([kernel/src/arch/riscv64/paging.rs] and
    [kernel/src/arch/riscv64/paging/kernel.rs])

    The two capabilities over the active root, both instances of [FrameAccess],
    the transition from one to the other, and the kernel's mapping operations. *)

From Stdlib Require Import ZArith Lia Bool.
From Stdlib Require Import Strings.Byte.
From stdpp Require Import base list numbers.
From S2P Require Import Prelude FdtScan KMemory KBootAlloc KMachine KPaging KHeap.
Local Open Scope Z_scope.

(** An operation of the hart, in the state of a capability. *)
Definition on_hart {A E R} (m : M machine E R) : M (A * machine) E R :=
  zoom snd (fun m s => (fst s, m)) m.

(** ** The root register *)

Definition active_root_table : M machine PagingError PhysAddr.t :=
  let* satp := minfallible read_satp in
  let mode := Z.land (Z.shiftr satp SATP_MODE_SHIFT) SATP_MODE_MASK in
  if negb (mode =? SATP_MODE_SV39) then throw (UnexpectedAddressTranslationMode mode)
  else
    let root_ppn := Z.land satp SATP_PPN_MASK in
    ret (PhysAddr.new (shl root_ppn PAGE_SHIFT)).

Definition activate_root (root : PhysFrame.t) : M machine never unit :=
  let satp := Z.lor (shl SATP_MODE_SV39 SATP_MODE_SHIFT)
                (Z.shiftr (PhysAddr.as_usize (PhysFrame.start_address root)) PAGE_SHIFT) in
  let* _ := fence_all in
  let* _ := write_satp satp in
  fence_all.

(** ** [BootstrapPaging] *)

Module BootstrapPaging.

Record t := mk { root_virtual : VirtAddr.t }.

(** The state is [BOOTSTRAP_PAGING_CLAIMED] and the hart. *)
Definition claim : M (bool * machine) PagingError t :=
  let* root := on_hart (A:=bool) active_root_table in
  let* (claimed, m) := get (S:=bool * machine) in
  if claimed then throw BootstrapPagingAlreadyClaimed
  else
    let* _ := put (true, m) in
    ret (mk (VirtAddr.new (PhysAddr.as_usize root))).

(** The two loops over [0..BOOT_FDT_WINDOW_GIGAPAGES]. *)
Fixpoint check_windows (count : nat) (window_index : Z) (root_virtual : VirtAddr.t)
    (physical_base : PhysAddr.t) : M machine PagingError unit :=
  match count with
  | O => ret tt
  | S count' =>
      let root_index := BOOT_FDT_WINDOW_VPN2 + window_index in
      let* existing := read_mapped_page_table_entry root_virtual root_index in
      if negb (existing =? 0) then throw (RootEntryInUse root_index existing)
      else
        let* physical_offset := lift (umul usize_max window_index GIGAPAGE_SIZE) in
        let* physical_address := lift (uadd usize_max (PhysAddr.as_usize physical_base) physical_offset) in
        let physical_address := PhysAddr.new physical_address in
        if MAX_PHYSICAL_ADDRESS <? PhysAddr.as_usize physical_address
        then throw (PhysicalAddressNotRepresentable physical_address)
        else check_windows count' (window_index + 1) root_virtual physical_base
  end.

Fixpoint install_windows (count : nat) (window_index : Z) (root_virtual : VirtAddr.t)
    (physical_base : PhysAddr.t) : M machine PagingError unit :=
  match count with
  | O => ret tt
  | S count' =>
      let root_index := BOOT_FDT_WINDOW_VPN2 + window_index in
      let* physical_offset := lift (umul usize_max window_index GIGAPAGE_SIZE) in
      let* physical_address := lift (uadd usize_max (PhysAddr.as_usize physical_base) physical_offset) in
      let physical_address := PhysAddr.new physical_address in
      let* entry := lift (page_table_entry physical_address BOOT_FDT_PTE_FLAGS) in
      let* _ := write_mapped_page_table_entry root_virtual root_index entry in
      install_windows count' (window_index + 1) root_virtual physical_base
  end.

Definition map_fdt (self : t) (dtb : PhysAddr.t) : M machine PagingError VirtAddr.t :=
  if MAX_PHYSICAL_ADDRESS <? PhysAddr.as_usize dtb then throw (PhysicalAddressNotRepresentable dtb)
  else
    let physical_base := PhysAddr.new (Z.land (PhysAddr.as_usize dtb) (unot GIGAPAGE_MASK)) in
    let windows := Z.to_nat BOOT_FDT_WINDOW_GIGAPAGES in
    let* _ := check_windows windows 0 (root_virtual self) physical_base in
    let* _ := install_windows windows 0 (root_virtual self) physical_base in
    let* _ := minfallible flush_all in
    let dtb_offset := Z.land (PhysAddr.as_usize dtb) GIGAPAGE_MASK in
    let* virtual_address := lift (uadd usize_max BOOT_FDT_WINDOW_BASE dtb_offset) in
    ret (VirtAddr.new virtual_address).

Definition with_frame {R} (frame : PhysFrame.t) (operation : VirtAddr.t -> M machine never R)
    : M (t * machine) PagingError R :=
  let* (self, _) := get in
  let* existing := on_hart (read_mapped_page_table_entry (root_virtual self) BOOT_FRAME_WINDOW_VPN2) in
  if negb (existing =? 0) then throw (RootEntryInUse BOOT_FRAME_WINDOW_VPN2 existing)
  else
    let frame_address := PhysFrame.start_address frame in
    if MAX_PHYSICAL_ADDRESS <? PhysAddr.as_usize frame_address
    then throw (PhysicalAddressNotRepresentable frame_address)
    else
      let physical_base :=
        PhysAddr.new (Z.land (PhysAddr.as_usize frame_address) (unot GIGAPAGE_MASK)) in
      let* entry := lift (page_table_entry physical_base FRAME_WINDOW_PTE_FLAGS) in
      let* _ := on_hart (write_mapped_page_table_entry (root_virtual self) BOOT_FRAME_WINDOW_VPN2 entry) in
      let frame_offset := Z.land (PhysAddr.as_usize frame_address) GIGAPAGE_MASK in
      let* virtual_address := lift (uadd usize_max BOOT_FRAME_WINDOW_BASE frame_offset) in
      let virtual_address := VirtAddr.new virtual_address in
      let* _ := on_hart (minfallible (flush_address virtual_address)) in
      let* result := on_hart (minfallible (operation virtual_address)) in
      let* _ := on_hart (write_mapped_page_table_entry (root_virtual self) BOOT_FRAME_WINDOW_VPN2 0) in
      let* _ := on_hart (minfallible (flush_address virtual_address)) in
      ret result.

#[global] Instance access : FrameAccess t := @with_frame.

End BootstrapPaging.

(** ** [KernelPaging] *)

Definition FIXMAP_TABLE_BASE : Z := BOOT_FRAME_WINDOW_BASE - GIGAPAGE_SIZE - shl 1 MEGAPAGE_SHIFT.
Definition FIXMAP_FRAME_BASE : Z := FIXMAP_TABLE_BASE + PAGE_SIZE.
Definition FIXMAP_FRAME_INDEX : Z := Z.land (Z.shiftr FIXMAP_FRAME_BASE PAGE_SHIFT) VPN_MASK.
Definition HEAP_START : Z := 0xffffffe000000000.
Definition HEAP_END : Z := HEAP_START + GIGAPAGE_SIZE.
Definition HEAP_RANGE : VirtRange.t := VirtRange.mk (VirtAddr.new HEAP_START) (VirtAddr.new HEAP_END).

Module KernelPaging.

Record t := mk {
  root : AllocatedFrame.t;
  fixmap_table : PhysFrame.t;
  dtb_mapping : VirtRange.t;
  frame_slot : Z;
  heap_claimed : bool;
}.

Definition with_frame {R} (frame : PhysFrame.t) (operation : VirtAddr.t -> M machine never R)
    : M (t * machine) PagingError R :=
  let* (self, _) := get in
  let* entry := lift (page_table_entry (PhysFrame.start_address frame) FRAME_WINDOW_PTE_FLAGS) in
  let* existing := on_hart (minfallible (load_word (frame_slot self))) in
  if negb (existing =? 0) then throw (PageAlreadyMapped FIXMAP_FRAME_BASE existing)
  else
    let* _ := on_hart (minfallible (store_word (frame_slot self) entry)) in
    let address := VirtAddr.new FIXMAP_FRAME_BASE in
    let* _ := on_hart (minfallible (flush_address address)) in
    let* result := on_hart (minfallible (operation address)) in
    let* _ := on_hart (minfallible (store_word (frame_slot self) 0)) in
    let* _ := on_hart (minfallible (flush_address address)) in
    ret result.

#[global] Instance access : FrameAccess t := @with_frame.

Definition zero_frame (frame : AllocatedFrame.t) : M (t * machine) PagingError unit :=
  KPaging.zero_frame frame.

Section mapping.
Context {F : Type} `{FrameAllocator F}.

(** [flush_all] after an operation, whose result is returned. *)
Definition then_flush {R} (m : M (t * machine * F) PagingError R) : M (t * machine * F) PagingError R :=
  let* result := minfallible (as_result m) in
  let* _ := on_access (on_hart (minfallible flush_all)) in
  lift result.

Definition map_user_page (virtual_address : VirtAddr.t) (frame : AllocatedFrame.t)
    (permissions : PagePermissions) : M (t * machine * F) PagingError unit :=
  let address := VirtAddr.as_usize virtual_address in
  if negb ((PAGE_SIZE <=? address) && (address <? SV39_LOW_HALF_END))
  then throw (VirtualAddressNotUser address)
  else
    let* (self, _, _) := get in
    then_flush (KPaging.map_page (AllocatedFrame.frame (root self)) virtual_address
                  (AllocatedFrame.into_frame frame) permissions User).

Definition install_page (virtual_address : VirtAddr.t) (frame : AllocatedFrame.t)
    (permissions : PagePermissions) : M (t * machine * F) PagingError unit :=
  let address := VirtAddr.as_usize virtual_address in
  if address <? SV39_HIGH_HALF_BASE then throw (VirtualAddressNotKernel address)
  else if address =? FIXMAP_FRAME_BASE then throw (ReservedVirtualPage address)
  else
    let* (self, _, _) := get in
    then_flush (KPaging.map_page (AllocatedFrame.frame (root self)) virtual_address
                  (AllocatedFrame.into_frame frame) permissions Supervisor).

Definition map_page (virtual_address : VirtAddr.t) (frame : AllocatedFrame.t)
    (permissions : PagePermissions) : M (t * machine * F) PagingError unit :=
  let address := VirtAddr.as_usize virtual_address in
  let* (self, _, _) := get in
  if heap_claimed self && ((HEAP_START <=? address) && (address <? HEAP_END))
  then throw (ReservedVirtualPage address)
  else install_page virtual_address frame permissions.

End mapping.

End KernelPaging.

(** ** [KernelHeapBacking] *)

(** The adapter borrows the capability and the frame allocator; the hart is
    the rest of its state. *)
Definition KernelHeapBacking (F : Type) : Type := KernelPaging.t * machine * F.

Definition backing_map_page {F} `{FrameAllocator F} (address : VirtAddr.t)
    : M (KernelHeapBacking F) PagingError unit :=
  let value := VirtAddr.as_usize address in
  let* (paging, _, _) := get in
  if negb (KernelPaging.heap_claimed paging) || negb ((HEAP_START <=? value) && (value <? HEAP_END))
  then throw (ReservedVirtualPage value)
  else if negb (Z.land value PAGE_MASK =? 0) then throw (VirtualAddressNotPageAligned value)
  else
    let* frame := next_frame in
    let* frame := lift (ok_or frame OutOfPhysicalFrames) in
    let* _ := on_access (KernelPaging.zero_frame frame) in
    KernelPaging.install_page address frame ReadWrite.

#[export] Instance kernel_heap_backing {F} `{FrameAllocator F}
  : HeapBacking (KernelHeapBacking F) PagingError := backing_map_page.

(** ** The rest of [KernelPaging] *)

Section transition.
Context {F : Type} `{FrameAllocator F}.

Definition set_heap_claimed : M (KernelPaging.t * machine * F) (HeapError PagingError) unit :=
  let* (self, m, f) := get in
  put (KernelPaging.mk (KernelPaging.root self) (KernelPaging.fixmap_table self)
         (KernelPaging.dtb_mapping self) (KernelPaging.frame_slot self) true, m, f).

Definition claim_heap : M (KernelPaging.t * machine * F) (HeapError PagingError) KernelHeap.t :=
  let* (self, _, _) := get in
  if KernelPaging.heap_claimed self then throw (Backing KernelHeapAlreadyClaimed)
  else
    let index := Z.land (Z.shiftr HEAP_START GIGAPAGE_SHIFT) VPN_MASK in
    let* entry := mmap_err Backing
      (on_access (read_page_table_entry (AllocatedFrame.frame (KernelPaging.root self)) index)) in
    if negb (entry =? 0) then throw (Backing (RootEntryInUse index entry))
    else
      let* _ := set_heap_claimed in
      KernelHeap.new (B:=KernelHeapBacking F) HEAP_RANGE.

(** [page_table.prepare_fixmap(bootstrap, frames)]. *)
Definition prepare_fixmap (root : PhysFrame.t)
    : M (BootstrapPaging.t * machine * F) PagingError PhysFrame.t :=
  let vpn2 := Z.land (Z.shiftr FIXMAP_TABLE_BASE GIGAPAGE_SHIFT) VPN_MASK in
  let vpn1 := Z.land (Z.shiftr FIXMAP_TABLE_BASE MEGAPAGE_SHIFT) VPN_MASK in
  let* level_1 := next_table root vpn2 in
  let* level_0 := next_table level_1 vpn1 in
  let* existing := on_access (read_page_table_entry level_0 FIXMAP_FRAME_INDEX) in
  if negb (existing =? 0) then throw (PageAlreadyMapped FIXMAP_FRAME_BASE existing)
  else
    let* _ := KPaging.map_page root (VirtAddr.new FIXMAP_TABLE_BASE) level_0 ReadWrite Supervisor in
    ret level_0.

Definition dtb_page_mapping (virtual_address : VirtAddr.t) (physical_range : PhysRange.t)
    : outcome PagingError (VirtRange.t * PhysFrame.t) :=
  let invalid_mapping := InvalidDtbMapping virtual_address physical_range in
  let physical_start := PhysAddr.as_usize (PhysRange.start physical_range) in
  let virtual_start := VirtAddr.as_usize virtual_address in
  if negb (Z.land virtual_start PAGE_MASK =? Z.land physical_start PAGE_MASK) then Err invalid_mapping
  else
    let? size := usub (PhysAddr.as_usize (PhysRange.end_ physical_range)) physical_start in
    let? virtual_end := ok_or
      (end_ ← VirtAddr.checked_add virtual_address size; VirtAddr.checked_add end_ PAGE_MASK)
      invalid_mapping in
    let? virtual_range := ok_or
      (VirtRange.new (VirtAddr.new (Z.land virtual_start (unot PAGE_MASK)))
         (VirtAddr.new (Z.land (VirtAddr.as_usize virtual_end) (unot PAGE_MASK))))
      invalid_mapping in
    let? physical_frame := ok_or
      (PhysFrame.from_start (PhysAddr.new (Z.land physical_start (unot PAGE_MASK))))
      invalid_mapping in
    Ok (virtual_range, physical_frame).

(** The loop over the sections. *)
Fixpoint map_sections (root : PhysFrame.t) (kernel_physical_start : PhysAddr.t) (virtual_start : VirtAddr.t)
    (sections : list (option VirtRange.t * PagePermissions))
    : M (BootstrapPaging.t * machine * F) PagingError unit :=
  match sections with
  | [] => ret tt
  | (None, _) :: sections => map_sections root kernel_physical_start virtual_start sections
  | (Some range, permissions) :: sections =>
      let* physical_start := lift (ok_or
        (offset ← checked_sub (VirtAddr.as_usize (VirtRange.start range)) (VirtAddr.as_usize virtual_start);
         address ← PhysAddr.checked_add kernel_physical_start offset;
         PhysFrame.from_start address)
        (InvalidKernelSection range)) in
      let* _ := map_range root range physical_start permissions in
      map_sections root kernel_physical_start virtual_start sections
  end.

Definition into_kernel (kernel_physical_start : PhysAddr.t) (sections : KernelSections)
    (dtb_virtual : VirtAddr.t) (dtb_physical : PhysRange.t)
    : M (BootstrapPaging.t * machine * F) PagingError KernelPaging.t :=
  let* (dtb_mapping, dtb_frame) := lift (dtb_page_mapping dtb_virtual dtb_physical) in
  let* page_table := Sv39PageTable_new in
  let root := AllocatedFrame.frame page_table in
  let* _ := map_sections root kernel_physical_start (virtual_start sections)
    [(text sections, ReadExecute); (rodata sections, ReadOnly); (data sections, ReadWrite);
     (bss sections, ReadWrite); (stack sections, ReadWrite)] in
  let* _ := map_range root dtb_mapping dtb_frame ReadOnly in
  let* fixmap_table := prepare_fixmap root in
  let kernel := KernelPaging.mk page_table fixmap_table dtb_mapping
                  (FIXMAP_TABLE_BASE + 8 * FIXMAP_FRAME_INDEX) false in
  let* _ := on_access (on_hart (minfallible (activate_root (AllocatedFrame.frame (KernelPaging.root kernel))))) in
  ret kernel.

End transition.
