(* ===== verification/KWindow.v ===== *)
(** * The kernel's frame window

    [KernelPaging.with_frame] changes one entry of the control table, which is
    mapped next to the window itself.  Under [kernel_inv] the window shows the
    requested frame while the operation runs and is closed afterwards, so
    [KernelPaging] is a [FrameWindow]. *)

From Stdlib Require Import ZArith Lia Bool.
From Stdlib Require Import Strings.Byte.
From stdpp Require Import base list numbers gmap.
From S2P Require Import Prelude FdtScan KMemory KBootAlloc KMachine KPaging KPte KTables KMapProofs KFrameWindow.
From S2P Require Import KHeap KKernelPaging.
Local Open Scope Z_scope.

(** The page numbers of the control table and of the window. *)
Definition table_vpn : Z := vpn_of FIXMAP_TABLE_BASE.
Definition frame_vpn : Z := vpn_of FIXMAP_FRAME_BASE.

Lemma fixmap_numbers :
  FIXMAP_TABLE_BASE = 0xffffffff7fe00000 /\ FIXMAP_FRAME_BASE = 0xffffffff7fe01000 /\
  idx2 table_vpn = 509 /\ idx1 table_vpn = 511 /\ idx0 table_vpn = 0 /\
  idx2 frame_vpn = 509 /\ idx1 frame_vpn = 511 /\ idx0 frame_vpn = 1.
Proof. vm_compute. by repeat split. Qed.

Lemma walk_through mm root l1 l0 v :
  entry mm root (idx2 v) = link_pte l1 -> entry mm l1 (idx1 v) = link_pte l0 ->
  representable l1 -> representable l0 ->
  walk mm 2 root v = walk mm 0 l0 v.
Proof.
  intros H2 H1 R1 R0. rewrite (walk_link mm 1 root v l1), (walk_link mm 0 l1 v l0); try done.
Qed.

(** The translations of the window, as words of memory. *)
Record window (root l1 l0 : Z) (mm : memory) : Prop := {
  w_root : representable root;
  w_l1 : representable l1;
  w_l0 : representable l0;
  w_distinct : root <> l1 /\ root <> l0 /\ l1 <> l0;
  w_link2 : entry mm root 509 = link_pte l1;
  w_link1 : entry mm l1 511 = link_pte l0;
  w_table : entry mm l0 0 = leaf_pte l0 ReadWrite Supervisor;
}.

(** The words the window's translations use, and the word it changes. *)
Definition window_busy (root l1 l0 : Z) : list Z := [root + 8 * 509; l1 + 8 * 511; l0 + 8 * 0].
Definition window_slot (l0 : Z) : Z := l0 + 8 * 1.

Definition root_satp (root : Z) : Z := 8 * 2 ^ 60 + root / FRAME_SIZE.

(** The capability controls the active root through a mapped control table. *)
Record control (root l1 l0 : Z) (a : KernelPaging.t) (m : machine) : Prop := {
  i_window : window root l1 l0 (mem m);
  i_satp : satp m = root_satp root;
  i_tlb : tlb m (FIXMAP_TABLE_BASE / 4096) = Some (leaf_for l0 ReadWrite Supervisor);
  i_root : AllocatedFrame.frame (KernelPaging.root a) = PhysFrame.mk root;
  i_slot : KernelPaging.frame_slot a = FIXMAP_TABLE_BASE + 8 * FIXMAP_FRAME_INDEX;
}.

(** The invariant between operations: the window is closed. *)
Record kernel_inv (root l1 l0 : Z) (a : KernelPaging.t) (m : machine) : Prop := {
  i_control : control root l1 l0 a m;
  i_closed : entry (mem m) l0 1 = 0;
}.

Lemma root_satp_fields root :
  representable root -> root_satp root / 2 ^ 60 = 8 /\ root_satp root mod 2 ^ 44 * 4096 = root.
Proof.
  intros Hr. pose proof (representable_ppn root Hr) as [Hp Hpa]. unfold root_satp. split.
  - Z.div_mod_to_equations. lia.
  - change 4096 with FRAME_SIZE. rewrite <- Hpa at 2. f_equal. Z.div_mod_to_equations. lia.
Qed.

(** The mode and the page number are disjoint bits. *)
Lemma root_satp_lor root : representable root -> Z.lor (8 * 2 ^ 60) (root / FRAME_SIZE) = root_satp root.
Proof.
  intros [Hp _]%representable_ppn. unfold root_satp. rewrite <- Z.add_lor_land.
  assert (Z.land (8 * 2 ^ 60) (root / FRAME_SIZE) = 0) as ->; [|lia].
  apply Z.bits_inj'. intros n Hn. rewrite Z.land_spec, Z.bits_0.
  destruct (Z_lt_le_dec n 60) as [Hlt|Hge]; [by rewrite Z.mul_pow2_bits_low|].
  rewrite <- (Z.mod_small (root / FRAME_SIZE) (2 ^ 44)) by done.
  rewrite (Z.mod_pow2_bits_high _ 44) by lia. apply andb_false_r.
Qed.

(** A page that is mapped by the tables and known to the hart. *)
Definition mapped_page (m : machine) (base f : Z) (permissions : PagePermissions) : Prop :=
  forall va, base <= va < base + FRAME_SIZE ->
    translate (mem m) (satp m) va = Some (leaf_for f permissions Supervisor) /\
    tlb m (va / 4096) = Some (leaf_for f permissions Supervisor).

Lemma resolve_page m base f w va :
  mapped_page m base f ReadWrite -> base mod FRAME_SIZE = 0 -> representable f ->
  base <= va < base + FRAME_SIZE -> resolve m w va = Some (f + (va - base)).
Proof.
  intros Hm Hb Hf Hva. destruct (Hm va Hva) as [H1 H2]. unfold resolve. rewrite H1, H2.
  pose proof (representable_ppn f Hf) as [_ Hpa]. rewrite bool_decide_eq_true_2 by done.
  replace (_ && _ && _) with true by by destruct w.
  cbn [l_ppn leaf_for]. change 4096 with FRAME_SIZE. rewrite Hpa. do 2 f_equal.
  unfold FRAME_SIZE in *. Z.div_mod_to_equations. lia.
Qed.

(** The page number and the canonical form are the same throughout a page. *)
Lemma page_number base va :
  base mod FRAME_SIZE = 0 -> base <= va < base + FRAME_SIZE -> va / 4096 = base / 4096.
Proof. unfold FRAME_SIZE. intros. Z.div_mod_to_equations. lia. Qed.

(** The control table is mapped. *)
Lemma table_mapped root l1 l0 a m :
  control root l1 l0 a m -> mapped_page m FIXMAP_TABLE_BASE l0 ReadWrite.
Proof.
  intros [[Rr R1 R0 _ H2 H1 H0] Hs Ht _ _] va Hva.
  destruct fixmap_numbers as (Ef & _ & E2 & E1 & E0 & _).
  assert (va / 4096 = FIXMAP_TABLE_BASE / 4096) as Hpn by (apply page_number; [by rewrite Ef|done]).
  rewrite Hpn. split; [|done]. unfold translate. rewrite Hs.
  destruct (root_satp_fields root Rr) as [-> ->].
  replace (canonical va) with true by (rewrite Ef in Hva; unfold canonical, FRAME_SIZE in *; lia).
  cbn [andb Z.eqb Pos.eqb]. rewrite Hpn. change (FIXMAP_TABLE_BASE / 4096 mod 2 ^ 27) with table_vpn.
  rewrite (walk_through _ root l1 l0) by (rewrite ?E2, ?E1; done).
  apply walk_leaf; [|done]. fold (idx0 table_vpn). by rewrite E0.
Qed.

(** ** Opening and closing the window *)

(** The hart while a frame is shown. *)
Definition opened (l0 f : Z) (m : machine) : machine :=
  let mm := write_word (mem m) (window_slot l0) (leaf_pte f ReadWrite Supervisor) in
  mkMachine mm (satp m)
    (fun vp => if vp =? FIXMAP_FRAME_BASE / 4096 then translate mm (satp m) FIXMAP_FRAME_BASE else tlb m vp).

(** The hart after the entry is cleared again. *)
Definition closed (l0 : Z) (m : machine) : machine :=
  let mm := write_word (mem m) (window_slot l0) 0 in
  mkMachine mm (satp m)
    (fun vp => if vp =? FIXMAP_FRAME_BASE / 4096 then translate mm (satp m) FIXMAP_FRAME_BASE else tlb m vp).

Lemma window_write root l1 l0 mm i v :
  window root l1 l0 mm -> is_u64 v -> 0 <= i < 512 -> i <> 0 -> window root l1 l0 (write_word mm (l0 + 8 * i) v).
Proof.
  intros [Rr R1 R0 (D1 & D2 & D3) H2 H1 H0] Hv Hi Hne.
  split; try done; rewrite entry_write, bool_decide_eq_false_2 by (done || congruence); done.
Qed.

Section at_window.
Context (root l1 l0 : Z).

Lemma store_slot a m v :
  control root l1 l0 a m ->
  store_word (KernelPaging.frame_slot a) v m =
    (Ok tt, mkMachine (write_word (mem m) (window_slot l0) v) (satp m) (tlb m)).
Proof.
  intros Hi. pose proof (table_mapped _ _ _ _ _ Hi) as Hm. destruct Hi as [[_ _ R0 _ _ _ _] _ _ _ Hs].
  unfold store_word, bind, get. rewrite Hs.
  change (FIXMAP_TABLE_BASE + 8 * FIXMAP_FRAME_INDEX) with (FIXMAP_TABLE_BASE + 8).
  rewrite (resolve_page m FIXMAP_TABLE_BASE l0) by (done || unfold FRAME_SIZE; lia).
  replace (l0 + (FIXMAP_TABLE_BASE + 8 - FIXMAP_TABLE_BASE)) with (window_slot l0)
    by (unfold window_slot; lia).
  reflexivity.
Qed.

Lemma load_slot a m :
  kernel_inv root l1 l0 a m -> load_word (KernelPaging.frame_slot a) m = (Ok 0, m).
Proof.
  intros [Hi Hc]. pose proof (table_mapped _ _ _ _ _ Hi) as Hm. destruct Hi as [[_ _ R0 _ _ _ _] _ _ _ Hs].
  unfold load_word, bind, get. rewrite Hs.
  change (FIXMAP_TABLE_BASE + 8 * FIXMAP_FRAME_INDEX) with (FIXMAP_TABLE_BASE + 8).
  rewrite (resolve_page m FIXMAP_TABLE_BASE l0) by (done || unfold FRAME_SIZE; lia).
  replace (l0 + (FIXMAP_TABLE_BASE + 8 - FIXMAP_TABLE_BASE)) with (l0 + 8 * 1) by lia.
  fold (entry (mem m) l0 1). rewrite Hc. reflexivity.
Qed.

(** While open, the window shows the frame and the control table stays
    mapped. *)
Lemma opened_mapped a m f :
  kernel_inv root l1 l0 a m -> representable f ->
  mapped_page (opened l0 f m) FIXMAP_FRAME_BASE f ReadWrite.
Proof.
  intros [[Hw Hs Ht _ _] Hc] Hf va Hva. destruct fixmap_numbers as (_ & Ef & _ & _ & _ & E2 & E1 & E0).
  assert (va / 4096 = FIXMAP_FRAME_BASE / 4096) as Hpn by (apply page_number; [by rewrite Ef|done]).
  assert (is_u64 (leaf_pte f ReadWrite Supervisor)) as Hu by (apply pte_u64; [done|apply leaf_flags_range]).
  pose proof (window_write _ _ _ _ 1 _ Hw Hu ltac:(lia) ltac:(lia)) as [Rr R1 R0 _ H2 H1 _].
  assert (forall x, x / 4096 = FIXMAP_FRAME_BASE / 4096 -> canonical x = true ->
    translate (mem (opened l0 f m)) (satp m) x = Some (leaf_for f ReadWrite Supervisor)) as Htr.
  { intros x Hx Hcan. unfold translate. rewrite Hs. destruct (root_satp_fields root Rr) as [-> ->].
    rewrite Hcan. cbn [andb Z.eqb Pos.eqb]. rewrite Hx.
    change (FIXMAP_FRAME_BASE / 4096 mod 2 ^ 27) with frame_vpn.
    rewrite (walk_through _ root l1 l0) by (rewrite ?E2, ?E1; done).
    apply walk_leaf; [|done]. fold (idx0 frame_vpn). rewrite E0. by apply read_write_same. }
  rewrite Hpn. cbn [opened satp tlb]. rewrite Z.eqb_refl. split; apply Htr; try done.
  rewrite Ef in Hva. unfold canonical, FRAME_SIZE in *. lia.
Qed.

(** What an operation on a shown frame leaves of the window. *)
Record undisturbed (m m' : machine) : Prop := {
  u_satp : satp m' = satp m;
  u_tlb : tlb m' = tlb m;
  u_window : window root l1 l0 (mem m');
}.

Lemma opened_control a m f :
  kernel_inv root l1 l0 a m -> representable f -> control root l1 l0 a (opened l0 f m).
Proof.
  intros [[Hw Hs Ht Hr Hsl] _] Hf. split; try done.
  apply window_write; [done| |lia|lia]. apply pte_u64; [done|apply leaf_flags_range].
Qed.

Lemma undisturbed_control a m m' : control root l1 l0 a m -> undisturbed m m' -> control root l1 l0 a m'.
Proof. intros [Hw Hs Ht Hr Hsl] [Us Ut Uw]. split; try done; congruence. Qed.

Lemma closed_inv a m : control root l1 l0 a m -> kernel_inv root l1 l0 a (closed l0 m).
Proof.
  intros [Hw Hs Ht Hr Hsl]. split; [split; try done|].
  - by apply (window_write _ _ _ _ 1).
  - by apply read_write_same.
Qed.

(** [with_frame] runs the operation on the frame and restores the window. *)
Lemma with_frame_spec {R} a m f (op : VirtAddr.t -> M machine never R) r m' :
  kernel_inv root l1 l0 a m -> representable f ->
  op FIXMAP_FRAME_BASE (opened l0 f m) = (Ok r, m') -> undisturbed (opened l0 f m) m' ->
  with_frame (PhysFrame.mk f) op (a, m) = (Ok r, (a, closed l0 m')) /\
  kernel_inv root l1 l0 a (closed l0 m').
Proof.
  intros Hi Hf Hop Hu. pose proof (opened_control _ _ _ Hi Hf) as Hc.
  pose proof (undisturbed_control _ _ _ Hc Hu) as Hc'. split; [|by apply closed_inv].
  unfold with_frame, KernelPaging.access, KernelPaging.with_frame.
  rewrite (bind_ok _ _ _ (a, m) (a, m)) by done.
  rewrite (bind_ok _ _ _ (leaf_pte f ReadWrite Supervisor) (a, m))
    by (unfold lift; by rewrite page_table_entry_eq).
  rewrite (bind_ok _ _ _ 0 (a, m)) by (unfold on_hart, zoom; by rewrite (infallible_ok _ _ _ _ (load_slot _ _ Hi))).
  cbn [Z.eqb negb].
  erewrite bind_ok by (unfold on_hart, zoom; by erewrite (infallible_ok _ _ _ _ (store_slot _ _ _ (i_control _ _ _ _ _ Hi)))).
  erewrite bind_ok by reflexivity.
  erewrite bind_ok by (unfold on_hart, zoom; by erewrite (infallible_ok _ _ _ _ Hop)).
  erewrite bind_ok by (unfold on_hart, zoom; by erewrite (infallible_ok _ _ _ _ (store_slot _ _ _ Hc'))).
  by erewrite bind_ok by reflexivity.
Qed.

Lemma with_frame_high {R} a m f (op : VirtAddr.t -> M machine never R) :
  MAX_PHYSICAL_ADDRESS < f ->
  with_frame (PhysFrame.mk f) op (a, m) = (Err (PhysicalAddressNotRepresentable f), (a, m)).
Proof.
  intros Hh. unfold with_frame, KernelPaging.access, KernelPaging.with_frame.
  rewrite (bind_ok _ _ _ (a, m) (a, m)) by done. apply bind_err.
  unfold lift, PhysFrame.start_address. by rewrite page_table_entry_high.
Qed.

(** ** The contract *)

Lemma busy_words mm :
  window root l1 l0 mm -> Forall (fun w => read_word mm w <> 0) (window_busy root l1 l0).
Proof.
  intros [_ R1 R0 _ H2 H1 H0]. unfold entry in *. repeat constructor.
  - rewrite H2. by apply link_pte_nonzero.
  - rewrite H1. by apply link_pte_nonzero.
  - rewrite H0. apply leaf_pte_nonzero.
Qed.

Lemma window_same mm mm' :
  window root l1 l0 mm ->
  Forall (fun w => read_word mm' w = read_word mm w) (window_busy root l1 l0) ->
  window root l1 l0 mm'.
Proof.
  intros [Rr R1 R0 Hd H2 H1 H0] Hf. unfold entry in *.
  apply Forall_cons_1 in Hf as [F2 [F1 [F0 _]%Forall_cons_1]%Forall_cons_1]. unfold window_busy in *.
  split; try done; unfold entry; congruence.
Qed.

(** The kernel capability is a frame window. *)
#[export] Instance kernel_window :
  FrameWindow KernelPaging.t (kernel_inv root l1 l0) (window_slot l0) (window_busy root l1 l0)
    (fun _ => FIXMAP_FRAME_BASE) (opened l0) (fun _ => closed l0).
Proof.
  split.
  - intros R a m f op r m' Hi Hf Hop Hs Ht Hw. apply with_frame_spec; [done|done|done|].
    split; [done|done|]. eapply window_same; [|exact Hw]. by eapply opened_control.
  - intros R a m f op _ Hh. by apply with_frame_high.
  - intros f m. split; [done|]. by eexists.
  - done.
  - intros a m [_ Hc]. exact Hc.
  - intros a m [[[Rr R1 R0 _ _ _ _] _ _ _ _] _]. split; [by exists l0, 1|].
    repeat constructor; do 2 eexists; (split; [reflexivity|split; [done|lia]]).
  - intros a m f Hi Hf. apply busy_words. by eapply opened_control.
  - intros a m f w i Hi Hf Hi'. pose proof (opened_mapped _ _ _ Hi Hf) as Hm. split_and!; [| |done].
    + rewrite (resolve_page _ FIXMAP_FRAME_BASE f) by (done || unfold FRAME_SIZE; lia). f_equal. lia.
    + destruct fixmap_numbers as (_ & -> & _). apply Z.eqb_eq. Z.div_mod_to_equations. lia.
Qed.

(** It meets the contract of [FrameAccess]. *)
#[export] Instance kernel_access_laws :
  FrameAccessLaws KernelPaging.t (kernel_inv root l1 l0) (window_slot l0) (window_busy root l1 l0).
Proof. eapply window_access_laws. Qed.

End at_window.
