(* ===== verification/KBootWindow.v ===== *)
(** * The bootstrap frame window

    [BootstrapPaging.with_frame] maps the gigapage of a frame through entry 511
    of the active root, which is identity mapped.  Under [boot_inv] it is a
    [FrameWindow], so the table operations of the transition meet the same
    contract as those of the kernel. *)

From Stdlib Require Import ZArith Lia Bool.
From Stdlib Require Import Strings.Byte.
From stdpp Require Import base list numbers gmap.
From S2P Require Import Prelude FdtScan KMemory KBootAlloc KMachine KPaging KPte KTables KMapProofs KFrameWindow.
From S2P Require Import KHeap KKernelPaging KWindow.
Local Open Scope Z_scope.

(** The start of the gigapage of an address. *)
Definition giga (a : Z) : Z := a / 2 ^ 30 * 2 ^ 30.

(** [PTE_VRWXAD] of the entry code: the kernel's own gigapage. *)
Definition IDENTITY_FLAGS : Z := 0xcf.

Lemma giga_spec a : giga a mod 2 ^ 30 = 0 /\ giga a <= a < giga a + 2 ^ 30 /\ a - giga a = a mod 2 ^ 30.
Proof. unfold giga. split; [apply Z_mod_mult|]. Z.div_mod_to_equations. lia. Qed.

Lemma giga_representable f : 0 <= f <= MAX_PHYSICAL_ADDRESS -> representable (giga f).
Proof.
  intros Hf. destruct (giga_spec f) as (Hm & Hle & _). unfold representable, giga, FRAME_SIZE in *.
  split; Z.div_mod_to_equations; lia.
Qed.

(** A leaf of the root. *)
Lemma walk_giga mm table vpn base flags :
  entry mm table (vpn / 512 ^ 2 mod 512) = pte base flags -> representable base -> base mod 2 ^ 30 = 0 ->
  0 <= flags < 2 ^ 10 -> Z.testbit flags 0 = true -> Z.testbit flags 1 = true -> Z.testbit flags 6 = true ->
  walk mm 2 table vpn =
    Some (mkLeaf (base / FRAME_SIZE + vpn mod 512 ^ 2) true (Z.testbit flags 2 && Z.testbit flags 7)
            (Z.testbit flags 3) (Z.testbit flags 4)).
Proof.
  intros He Hr Hb Hf H0 H1 H6. destruct (pte_u64 base flags Hr Hf) as [_ Hhigh].
  unfold entry in He. cbn [walk]. change (512 ^ Z.of_nat 2) with (512 ^ 2). rewrite He, Hhigh.
  rewrite !pte_testbit, H0, H1, H6, !pte_ppn_eq by done. cbn [negb andb orb Z.eqb].
  assert (base / FRAME_SIZE mod 512 ^ 2 = 0) as ->; [|done].
  unfold FRAME_SIZE. change (512 ^ 2) with 262144. change (2 ^ 30) with 1073741824 in Hb.
  Z.div_mod_to_equations. lia.
Qed.

(** The translation of an address by a gigapage leaf. *)
Lemma translate_giga mm root va base flags :
  representable root -> entry mm root (va / 2 ^ 30 mod 512) = pte base flags -> representable base ->
  base mod 2 ^ 30 = 0 -> canonical va = true -> 0 <= va ->
  0 <= flags < 2 ^ 10 -> Z.testbit flags 0 = true -> Z.testbit flags 1 = true -> Z.testbit flags 6 = true ->
  translate mm (root_satp root) va =
    Some (mkLeaf ((base + va mod 2 ^ 30) / FRAME_SIZE) true (Z.testbit flags 2 && Z.testbit flags 7)
            (Z.testbit flags 3) (Z.testbit flags 4)).
Proof.
  intros Hroot He Hr Hb Hcan Hva Hf H0 H1 H6. unfold translate. rewrite Hcan.
  destruct (root_satp_fields root Hroot) as [-> ->]. cbn [andb Z.eqb Pos.eqb].
  rewrite (walk_giga _ _ _ base flags); try done.
  - do 2 f_equal. unfold FRAME_SIZE. change (2 ^ 27) with 134217728. change (512 ^ 2) with 262144.
    change (2 ^ 30) with 1073741824 in *. Z.div_mod_to_equations. lia.
  - rewrite <- He. f_equal. change (2 ^ 27) with 134217728. change (512 ^ 2) with 262144.
    change (2 ^ 30) with 1073741824. Z.div_mod_to_equations. lia.
Qed.

(** ** The invariant *)

Definition identity_leaf (root : Z) : leaf := mkLeaf (root / FRAME_SIZE) true true true false.

(** The capability controls the active root through its identity mapping. *)
Record boot_control (root : Z) (a : BootstrapPaging.t) (m : machine) : Prop := {
  b_root : representable root;
  b_low : root < 2 ^ 38;
  b_virtual : BootstrapPaging.root_virtual a = root;
  b_satp : satp m = root_satp root;
  b_identity : entry (mem m) root (root / 2 ^ 30) = pte (giga root) IDENTITY_FLAGS;
  b_tlb : tlb m (root / 4096) = Some (identity_leaf root);
}.

(** The invariant between operations: the window is closed. *)
Record boot_inv (root : Z) (a : BootstrapPaging.t) (m : machine) : Prop := {
  b_control : boot_control root a m;
  b_closed : entry (mem m) root BOOT_FRAME_WINDOW_VPN2 = 0;
}.

Definition boot_slot (root : Z) : Z := root + 8 * 511.
Definition boot_busy (root : Z) : list Z := [root + 8 * (root / 2 ^ 30)].

(** Where a frame is shown. *)
Definition boot_shown (f : Z) : Z := BOOT_FRAME_WINDOW_BASE + f mod 2 ^ 30.

Definition refreshed (mm : memory) (m : machine) (va : Z) : machine :=
  mkMachine mm (satp m) (fun vp => if vp =? va / 4096 then translate mm (satp m) va else tlb m vp).

Definition boot_opened (root f : Z) (m : machine) : machine :=
  refreshed (write_word (mem m) (boot_slot root) (pte (giga f) FRAME_WINDOW_PTE_FLAGS)) m (boot_shown f).

Definition boot_closed (root f : Z) (m : machine) : machine :=
  refreshed (write_word (mem m) (boot_slot root) 0) m (boot_shown f).

Lemma boot_window_base : BOOT_FRAME_WINDOW_BASE = 2 ^ 64 - 2 ^ 30.
Proof. vm_compute. reflexivity. Qed.

Lemma boot_shown_range f x :
  0 <= x < FRAME_SIZE -> f mod FRAME_SIZE = 0 ->
  let va := boot_shown f + x in
  canonical va = true /\ is_usize va /\ va / 2 ^ 30 mod 512 = 511 /\ va mod 2 ^ 30 = f mod 2 ^ 30 + x /\
  va / 4096 = boot_shown f / 4096.
Proof.
  intros Hx Hf va. unfold va, boot_shown, is_usize, usize_max, canonical, FRAME_SIZE in *. rewrite boot_window_base.
  change (2 ^ 30) with 1073741824 in *. split_and!; try lia; try (Z.div_mod_to_equations; lia).
Qed.

Section at_window.
Context (root : Z).

Lemma root_index a m : boot_control root a m -> 0 <= root / 2 ^ 30 < 256.
Proof. intros [[Hr _] Hl _ _ _ _]. Z.div_mod_to_equations. lia. Qed.

(** The root is reached through its identity mapping. *)
Lemma root_resolve a m w i :
  boot_control root a m -> 0 <= i < 512 ->
  resolve m w (root + 8 * i) = Some (root + 8 * i) /\ ((root + 8 * i) mod 8 =? 0) = true.
Proof.
  intros Hc Hi. pose proof (root_index a m Hc) as Hidx. destruct Hc as [Hr Hl _ Hs He Ht].
  pose proof Hr as [[H0 Hmax] Hal]. unfold FRAME_SIZE in Hal. split.
  - rewrite (resolve_synced m w _ (identity_leaf root)); try done.
    + cbn [identity_leaf l_ppn]. f_equal. unfold FRAME_SIZE. Z.div_mod_to_equations. lia.
    + rewrite Hs. rewrite (translate_giga _ _ _ (giga root) IDENTITY_FLAGS); try done.
      * unfold identity_leaf. f_equal. f_equal. unfold giga, FRAME_SIZE. Z.div_mod_to_equations. lia.
      * rewrite <- He. f_equal. Z.div_mod_to_equations. lia.
      * by apply giga_representable.
      * apply giga_spec.
      * unfold canonical. Z.div_mod_to_equations. lia.
      * lia.
    + rewrite <- Ht. f_equal. Z.div_mod_to_equations. lia.
  - apply Z.eqb_eq. Z.div_mod_to_equations. lia.
Qed.

(** Writing another entry of the root. *)
Lemma control_write a m i v :
  boot_control root a m -> is_u64 v -> 0 <= i < 512 -> i <> root / 2 ^ 30 ->
  boot_control root a (mkMachine (write_word (mem m) (root + 8 * i) v) (satp m) (tlb m)).
Proof.
  intros Hc Hv Hi Hne. pose proof (root_index a m Hc) as Hidx. destruct Hc as [Hr Hl Hva Hs He Ht].
  split; try done. cbn [mem]. rewrite entry_write by (done || lia).
  by rewrite bool_decide_eq_false_2 by congruence.
Qed.

(** Refreshing the translation of a window page. *)
Lemma control_refreshed a m f v :
  boot_control root a m -> is_u64 v ->
  boot_control root a (refreshed (write_word (mem m) (boot_slot root) v) m (boot_shown f)).
Proof.
  intros Hc Hv. pose proof (root_index a m Hc) as Hidx.
  destruct (control_write a m 511 v Hc Hv ltac:(lia) ltac:(lia)) as [Hr Hl Hva Hs He Ht]. split; try done.
  cbn [refreshed tlb]. rewrite (proj2 (Z.eqb_neq _ _)); [done|]. unfold boot_shown. rewrite boot_window_base.
  change (2 ^ 30) with 1073741824 in *. Z.div_mod_to_equations. lia.
Qed.

Lemma closed_boot_inv a m f : boot_control root a m -> boot_inv root a (boot_closed root f m).
Proof.
  intros Hc. assert (representable root) as Hr by apply Hc. split.
  - by apply control_refreshed.
  - by apply read_write_same.
Qed.

Lemma gigapage_flags_u64 f : 0 <= f <= MAX_PHYSICAL_ADDRESS -> is_u64 (pte (giga f) FRAME_WINDOW_PTE_FLAGS).
Proof. intros Hf. apply pte_u64; [by apply giga_representable|done]. Qed.

(** While open, the window shows the frame. *)
Lemma boot_shown_word a m f w x :
  boot_inv root a m -> representable f -> 0 <= x < FRAME_SIZE ->
  resolve (boot_opened root f m) w (boot_shown f + x) = Some (f + x).
Proof.
  intros [Hc _] Hf Hx. pose proof Hf as [Hfr Hal]. destruct (boot_shown_range f x Hx Hal) as (Hcan & Hus & Hidx & Hoff & Hp).
  destruct (boot_shown_range f 0 ltac:(unfold FRAME_SIZE; lia) Hal) as (Hcan0 & Hus0 & Hidx0 & Hoff0 & _).
  rewrite Z.add_0_r in *. pose proof Hc as [Hr _ _ Hs _ _].
  assert (forall y, 0 <= y < FRAME_SIZE -> canonical (boot_shown f + y) = true -> 0 <= boot_shown f + y ->
    (boot_shown f + y) / 2 ^ 30 mod 512 = 511 -> (boot_shown f + y) mod 2 ^ 30 = f mod 2 ^ 30 + y ->
    translate (mem (boot_opened root f m)) (satp m) (boot_shown f + y) = Some (leaf_for f ReadWrite Supervisor)) as Htr.
  { intros y Hy Hcy H0y Hiy Hoy. rewrite Hs. rewrite (translate_giga _ _ _ (giga f) FRAME_WINDOW_PTE_FLAGS); try done.
    - unfold leaf_for. f_equal. f_equal. rewrite Hoy. destruct (giga_spec f) as (_ & _ & <-). unfold FRAME_SIZE in *.
      Z.div_mod_to_equations. lia.
    - rewrite Hiy. apply read_write_same. by apply gigapage_flags_u64.
    - by apply giga_representable.
    - apply giga_spec. }
  rewrite (resolve_synced _ _ _ (leaf_for f ReadWrite Supervisor)); try done.
  - cbn [leaf_for l_ppn]. f_equal. pose proof (representable_ppn f Hf) as [_ Hpa]. change 4096 with FRAME_SIZE.
    rewrite Hpa. f_equal. unfold boot_shown. rewrite boot_window_base. unfold FRAME_SIZE in *.
    change (2 ^ 30) with (4096 * 262144) in *. Z.div_mod_to_equations. lia.
  - apply Htr; try done. by destruct Hus.
  - rewrite Hp. cbn [boot_opened refreshed tlb]. rewrite Z.eqb_refl.
    specialize (Htr 0). rewrite Z.add_0_r in Htr. apply Htr; try done; by destruct Hus0.
Qed.

(** ** The window *)

Lemma boot_write a m i v :
  boot_control root a m -> 0 <= i < 512 ->
  write_mapped_page_table_entry (BootstrapPaging.root_virtual a) i v m =
    (Ok tt, mkMachine (write_word (mem m) (root + 8 * i) v) (satp m) (tlb m)).
Proof.
  intros Hc Hi. destruct (root_resolve a m true i Hc Hi) as [Hr Hal]. unfold write_mapped_page_table_entry.
  rewrite (proj2 (Z.leb_gt _ _)) by (unfold PAGE_TABLE_ENTRIES; lia).
  rewrite (b_virtual _ _ _ Hc). apply infallible_ok. unfold store_word, bind, get, VirtAddr.as_usize.
  by rewrite Hr, Hal.
Qed.

Lemma boot_read a m i :
  boot_control root a m -> 0 <= i < 512 ->
  read_mapped_page_table_entry (BootstrapPaging.root_virtual a) i m = (Ok (entry (mem m) root i), m).
Proof.
  intros Hc Hi. destruct (root_resolve a m false i Hc Hi) as [Hr Hal]. unfold read_mapped_page_table_entry.
  rewrite (proj2 (Z.leb_gt _ _)) by (unfold PAGE_TABLE_ENTRIES; lia).
  rewrite (b_virtual _ _ _ Hc). apply infallible_ok. unfold load_word, bind, get, VirtAddr.as_usize.
  by rewrite Hr, Hal.
Qed.

Lemma boot_store a m v :
  boot_control root a m ->
  write_mapped_page_table_entry (BootstrapPaging.root_virtual a) BOOT_FRAME_WINDOW_VPN2 v m =
    (Ok tt, mkMachine (write_word (mem m) (boot_slot root) v) (satp m) (tlb m)).
Proof. intros Hc. by apply (boot_write a m 511). Qed.

Lemma boot_load a m :
  boot_inv root a m ->
  read_mapped_page_table_entry (BootstrapPaging.root_virtual a) BOOT_FRAME_WINDOW_VPN2 m = (Ok 0, m).
Proof. intros [Hc H0]. rewrite <- H0. by apply (boot_read a m 511). Qed.

Lemma on_hart_ok {A E R} (m : M machine E R) (a : A) h r h' :
  m h = (Ok r, h') -> on_hart (A:=A) m (a, h) = (Ok r, (a, h')).
Proof. intros Hm. unfold on_hart, zoom. cbn [snd]. by rewrite Hm. Qed.

Lemma boot_with_frame {R} a m f (op : VirtAddr.t -> M machine never R) r m' :
  boot_inv root a m -> representable f -> op (boot_shown f) (boot_opened root f m) = (Ok r, m') ->
  boot_control root a m' ->
  with_frame (PhysFrame.mk f) op (a, m) = (Ok r, (a, boot_closed root f m')) /\
  boot_inv root a (boot_closed root f m').
Proof.
  intros Hi Hf Hop Hc'. pose proof Hf as [Hfr Hal]. split; [|by apply closed_boot_inv].
  unfold with_frame, BootstrapPaging.access, BootstrapPaging.with_frame.
  rewrite (bind_ok _ _ _ (a, m) (a, m)) by done.
  erewrite bind_ok by (apply on_hart_ok, boot_load; exact Hi). cbn [Z.eqb negb].
  unfold PhysFrame.start_address, PhysAddr.as_usize, PhysAddr.new. cbn [PhysFrame.start].
  rewrite (proj2 (Z.ltb_ge _ f)) by lia.
  assert (is_usize f) as Hu by (rewrite max_physical in Hfr; unfold is_usize, usize_max; lia).
  assert (Z.land f (unot GIGAPAGE_MASK) = giga f) as -> by (apply (land_unot f 30 Hu); lia).
  assert (Z.land f GIGAPAGE_MASK = f mod 2 ^ 30) as -> by (change GIGAPAGE_MASK with (Z.ones 30); by apply Z.land_ones).
  rewrite page_table_entry_eq by (done || by apply giga_representable).
  rewrite (bind_ok _ _ _ (pte (giga f) FRAME_WINDOW_PTE_FLAGS) (a, m)) by done.
  erewrite bind_ok by (apply on_hart_ok, boot_store, Hi).
  assert (uadd (E:=PagingError) usize_max BOOT_FRAME_WINDOW_BASE (f mod 2 ^ 30) = Ok (boot_shown f)) as ->.
  { unfold uadd, checked_add, boot_shown. rewrite boot_window_base. unfold usize_max.
    rewrite (proj2 (Z.leb_le _ _)); [done|]. change (2 ^ 30) with 1073741824. Z.div_mod_to_equations. lia. }
  erewrite bind_ok by reflexivity.
  erewrite bind_ok by (apply on_hart_ok, infallible_ok; reflexivity).
  erewrite bind_ok by (apply on_hart_ok, infallible_ok; exact Hop).
  erewrite bind_ok by (apply on_hart_ok, boot_store; exact Hc').
  by erewrite bind_ok by (apply on_hart_ok, infallible_ok; reflexivity).
Qed.

Lemma boot_high {R} a m f (op : VirtAddr.t -> M machine never R) :
  boot_inv root a m -> MAX_PHYSICAL_ADDRESS < f ->
  with_frame (PhysFrame.mk f) op (a, m) = (Err (PhysicalAddressNotRepresentable f), (a, m)).
Proof.
  intros Hi Hf. unfold with_frame, BootstrapPaging.access, BootstrapPaging.with_frame.
  rewrite (bind_ok _ _ _ (a, m) (a, m)) by done.
  erewrite bind_ok by (apply on_hart_ok, boot_load; exact Hi). cbn [Z.eqb negb].
  unfold PhysFrame.start_address, PhysAddr.as_usize. cbn [PhysFrame.start].
  by rewrite (proj2 (Z.ltb_lt _ f)) by lia.
Qed.

(** The bootstrap capability is a frame window. *)
#[export] Instance boot_window :
  FrameWindow BootstrapPaging.t (boot_inv root) (boot_slot root) (boot_busy root) boot_shown
    (boot_opened root) (boot_closed root).
Proof.
  split.
  - intros R a m f op r m' Hi Hf Hop Hs Ht Hw. apply boot_with_frame; [done|done|done|].
    assert (boot_control root a (boot_opened root f m)) as [Hr Hl Hv Hs' He Ht'].
    { apply control_refreshed; [apply Hi|apply gigapage_flags_u64, Hf]. }
    apply Forall_cons_1 in Hw as [Hw _]. split; try done; try congruence.
    unfold entry in *. congruence.
  - intros R a m f op Hi Hh. by apply boot_high.
  - intros f m. split; [done|]. by eexists.
  - done.
  - intros a m [_ Hc]. exact Hc.
  - intros a m [Hc _]. pose proof (root_index a m Hc). destruct Hc as [Hr _ _ _ _ _].
    split; [by exists root, 511|]. repeat constructor. exists root, (root / 2 ^ 30). by split_and!; [| |lia|lia].
  - intros a m f [Hc _] Hf. pose proof (root_index a m Hc) as Hidx. destruct Hc as [Hr _ _ _ He _].
    repeat constructor. change (entry (mem (boot_opened root f m)) root (root / 2 ^ 30) <> 0).
    cbn [boot_opened refreshed mem]. unfold boot_slot.
    rewrite entry_write by (done || lia || apply gigapage_flags_u64, Hf).
    rewrite bool_decide_eq_false_2 by (intros [= Hx]; lia). rewrite He. unfold pte, IDENTITY_FLAGS.
    destruct Hr as [[Hr0 _] _]. unfold giga, FRAME_SIZE. Z.div_mod_to_equations. lia.
  - intros a m f w i Hi Hf Hi'. split; [apply (boot_shown_word a); try done; unfold FRAME_SIZE; lia|].
    destruct Hf as [_ Hal]. unfold boot_shown. rewrite boot_window_base. unfold FRAME_SIZE in Hal.
    change (2 ^ 30) with (4096 * 262144). rewrite Z.eqb_eq. split; Z.div_mod_to_equations; lia.
Qed.

(** It meets the contract of [FrameAccess]. *)
#[export] Instance boot_access_laws :
  FrameAccessLaws BootstrapPaging.t (boot_inv root) (boot_slot root) (boot_busy root).
Proof. eapply window_access_laws. Qed.

End at_window.
