(* ===== verification/KBootFdt.v ===== *)
(** * Claiming the bootstrap tables and mapping the devicetree

    [BootstrapPaging::claim] and [map_fdt]: the root of the active tables, and
    the read-only window of five gigapages onto the devicetree. *)

From Stdlib Require Import ZArith Lia Bool.
From Stdlib Require Import Strings.Byte.
From stdpp Require Import base list numbers gmap.
From S2P Require Import Prelude FdtScan KMemory KBootAlloc KMachine KPaging KPte KTables KMapProofs KFrameWindow.
From S2P Require Import KHeap KKernelPaging KWindow KBootWindow.
Local Open Scope Z_scope.

(** ** The claim *)

Lemma satp_fields s :
  is_u64 s ->
  Z.land (Z.shiftr s SATP_MODE_SHIFT) SATP_MODE_MASK = s / 2 ^ 60 /\
  shl (Z.land s SATP_PPN_MASK) PAGE_SHIFT = s mod 2 ^ 44 * 4096.
Proof.
  intros [H0 Hs]. unfold u64_max in Hs. split.
  - unfold SATP_MODE_SHIFT. rewrite Z.shiftr_div_pow2 by done. change SATP_MODE_MASK with (Z.ones 4).
    rewrite Z.land_ones by done. apply Z.mod_small. split; [by apply Z.div_pos|]. apply Z.div_lt_upper_bound; lia.
  - change SATP_PPN_MASK with (Z.ones 44). rewrite Z.land_ones by done.
    pose proof (Z.mod_pos_bound s (2 ^ 44) ltac:(done)). apply shl_small; [done|].
    unfold PAGE_SHIFT, usize_max. lia.
Qed.

Lemma bootstrap_claim_spec claimed m :
  is_u64 (satp m) ->
  BootstrapPaging.claim (claimed, m) =
    if negb (satp m / 2 ^ 60 =? 8) then (Err (UnexpectedAddressTranslationMode (satp m / 2 ^ 60)), (claimed, m))
    else if claimed then (Err BootstrapPagingAlreadyClaimed, (claimed, m))
    else (Ok (BootstrapPaging.mk (satp m mod 2 ^ 44 * 4096)), (true, m)).
Proof.
  intros Hs. destruct (satp_fields _ Hs) as [Hm Hr].
  unfold BootstrapPaging.claim, active_root_table, on_hart, zoom, minfallible, read_satp, bind, get, ret.
  cbn [snd fst infallible]. rewrite Hm, Hr. change SATP_MODE_SV39 with 8.
  destruct (satp m / 2 ^ 60 =? 8); cbn [negb]; [|done]. by destruct claimed.
Qed.

(** ** The window onto the devicetree *)

(** The first gigapage the window cannot show, and why. *)
Definition window_error (mm : memory) (root base j : Z) (e : PagingError) : Prop :=
  entry mm root (256 + j) <> 0 /\ e = RootEntryInUse (256 + j) (entry mm root (256 + j)) \/
  entry mm root (256 + j) = 0 /\ MAX_PHYSICAL_ADDRESS < base + j * 2 ^ 30 /\
    e = PhysicalAddressNotRepresentable (base + j * 2 ^ 30).

Definition window_free (mm : memory) (root base j : Z) : Prop :=
  entry mm root (256 + j) = 0 /\ base + j * 2 ^ 30 <= MAX_PHYSICAL_ADDRESS.

(** What the hart sees through the window. *)
Definition fdt_window (m : machine) (dtb : Z) : Prop :=
  forall va, BOOT_FDT_WINDOW_BASE <= va < BOOT_FDT_WINDOW_BASE + 5 * 2 ^ 30 ->
    let lf := mkLeaf ((giga dtb + (va - BOOT_FDT_WINDOW_BASE)) / FRAME_SIZE) true false false false in
    translate (mem m) (satp m) va = Some lf /\ tlb m (va / 4096) = Some lf.

(** Five gigapages show every blob, whose size has 32 bits, for reading only. *)
Lemma fdt_window_resolve m dtb x :
  fdt_window m dtb -> 0 <= dtb -> 0 <= x < 2 ^ 32 ->
  let va := BOOT_FDT_WINDOW_BASE + dtb mod 2 ^ 30 + x in
  resolve m false va = Some (dtb + x) /\ resolve m true va = None.
Proof.
  intros Hw Hd Hx va. assert (BOOT_FDT_WINDOW_BASE = 2 ^ 64 - 2 ^ 38) as E by done.
  pose proof (Z.mod_pos_bound dtb (2 ^ 30) ltac:(done)) as Hm.
  destruct (Hw va) as [Ht Hl]; [unfold va; change (5 * 2 ^ 30) with (2 ^ 32 + 2 ^ 30); lia|].
  unfold resolve. rewrite Ht, Hl, bool_decide_eq_true_2 by done. cbn [l_read l_write l_user l_ppn andb negb].
  split; [|done]. f_equal. unfold va. rewrite E. unfold giga, FRAME_SIZE.
  change (2 ^ 30) with 1073741824. change (2 ^ 64 - 2 ^ 38) with (4096 * 4503599560261632). Z.div_mod_to_equations. lia.
Qed.

Section window.
Context (root : Z) (a : BootstrapPaging.t).

Lemma window_arithmetic {E} i base :
  0 <= i < 5 -> 0 <= base <= MAX_PHYSICAL_ADDRESS ->
  umul (E:=E) usize_max i GIGAPAGE_SIZE = Ok (i * 2 ^ 30) /\
  uadd (E:=E) usize_max base (i * 2 ^ 30) = Ok (base + i * 2 ^ 30).
Proof.
  intros Hi Hb. rewrite max_physical in Hb. change GIGAPAGE_SIZE with (2 ^ 30).
  unfold umul, uadd, checked_mul, checked_add, usize_max.
  rewrite !(proj2 (Z.leb_le _ _)) by lia. done.
Qed.

Lemma check_windows_spec m base : forall count i,
  boot_control root a m -> 0 <= i -> i + Z.of_nat count <= 5 -> 0 <= base <= MAX_PHYSICAL_ADDRESS ->
  exists o, BootstrapPaging.check_windows count i (BootstrapPaging.root_virtual a) base m = (o, m) /\
  match o with
  | Ok _ => forall j, i <= j < i + Z.of_nat count -> window_free (mem m) root base j
  | Err e => exists j, i <= j < i + Z.of_nat count /\ window_error (mem m) root base j e /\
      forall j', i <= j' < j -> window_free (mem m) root base j'
  | _ => False
  end.
Proof.
  induction count as [|count IH]; intros i Hc Hi Hn Hb.
  { eexists. split; [done|]. cbn beta iota. intros j Hj. lia. }
  cbn [BootstrapPaging.check_windows]. change BOOT_FDT_WINDOW_VPN2 with 256.
  rewrite (bind_ok _ _ _ _ _ (boot_read root a m (256 + i) Hc ltac:(lia))).
  destruct (entry (mem m) root (256 + i) =? 0) eqn:He; zbool; cbn [negb].
  2:{ eexists. split; [done|]. exists i. split; [lia|]. split; [by left|]. intros. lia. }
  destruct (window_arithmetic (E:=PagingError) i base ltac:(lia) Hb) as [-> Hadd].
  rewrite (bind_ok _ _ _ (i * 2 ^ 30) m) by done. unfold PhysAddr.as_usize, PhysAddr.new. rewrite Hadd.
  rewrite (bind_ok _ _ _ (base + i * 2 ^ 30) m) by done.
  destruct (MAX_PHYSICAL_ADDRESS <? base + i * 2 ^ 30) eqn:Hmax; zbool.
  { eexists. split; [done|]. exists i. split; [lia|]. split; [by right|]. intros. lia. }
  destruct (IH (i + 1) Hc ltac:(lia) ltac:(lia) Hb) as (o & Hw & Ho). exists o. split; [exact Hw|].
  assert (window_free (mem m) root base i) as Hfree by by split.
  destruct o as [[]|e| |]; try done.
  - intros j Hj. destruct (Z.eq_dec j i) as [->|]; [done|]. apply Ho. lia.
  - destruct Ho as (j & Hj & Hj1 & Hj2). exists j. split; [lia|]. split; [done|]. intros j' Hj'.
    destruct (Z.eq_dec j' i) as [->|]; [done|]. apply Hj2. lia.
Qed.

(** The entries of the window. *)
Definition fdt_entry (base j : Z) : Z := pte (base + j * 2 ^ 30) BOOT_FDT_PTE_FLAGS.

Lemma install_windows_spec base : forall count i m,
  boot_control root a m -> 0 <= i -> i + Z.of_nat count <= 5 -> 0 <= base -> base mod 2 ^ 30 = 0 ->
  (forall j, i <= j < i + Z.of_nat count -> base + j * 2 ^ 30 <= MAX_PHYSICAL_ADDRESS) ->
  exists m', BootstrapPaging.install_windows count i (BootstrapPaging.root_virtual a) base m = (Ok tt, m') /\
    boot_control root a m' /\ satp m' = satp m /\
    (forall j, i <= j < i + Z.of_nat count -> entry (mem m') root (256 + j) = fdt_entry base j) /\
    forall x, ~ (root + 8 * (256 + i) <= x < root + 8 * (256 + i + Z.of_nat count)) -> mem m' x = mem m x.
Proof.
  induction count as [|count IH]; intros i m Hc Hi Hn Hb0 Hb Hmax.
  { exists m. split; [done|]. split_and!; [done|done| |done]. intros j Hj. lia. }
  cbn [BootstrapPaging.install_windows]. change BOOT_FDT_WINDOW_VPN2 with 256.
  pose proof (Hmax i ltac:(lia)) as Hmi. pose proof (root_index root a m Hc) as Hidx.
  assert (representable (base + i * 2 ^ 30)) as Hrep.
  { split; [lia|]. unfold FRAME_SIZE. change (2 ^ 30) with (4096 * 262144) in *. Z.div_mod_to_equations. lia. }
  destruct (window_arithmetic (E:=PagingError) i base ltac:(lia) ltac:(lia)) as [-> Hadd].
  rewrite (bind_ok _ _ _ (i * 2 ^ 30) m) by done. unfold PhysAddr.as_usize, PhysAddr.new. rewrite Hadd.
  rewrite (bind_ok _ _ _ (base + i * 2 ^ 30) m) by done.
  rewrite page_table_entry_eq by done. rewrite (bind_ok _ _ _ (fdt_entry base i) m) by done.
  assert (is_u64 (fdt_entry base i)) as Hu by (by apply pte_u64).
  rewrite (bind_ok _ _ _ _ _ (boot_write root a m (256 + i) (fdt_entry base i) Hc ltac:(lia))).
  pose proof (control_write root a m (256 + i) _ Hc Hu ltac:(lia) ltac:(lia)) as Hc1.
  destruct (IH (i + 1) _ Hc1 ltac:(lia) ltac:(lia) Hb0 Hb ltac:(intros; apply Hmax; lia))
    as (m' & Hw & Hc' & Hs & He & Hm).
  exists m'. split; [exact Hw|]. split; [done|]. split; [done|]. cbn [mem] in *. split.
  - intros j Hj. destruct (Z.eq_dec j i) as [->|]; [|apply He; lia].
    transitivity (read_word (write_word (mem m) (root + 8 * (256 + i)) (fdt_entry base i)) (root + 8 * (256 + i)));
      [|by apply read_write_same]. apply read_word_ext. intros x Hx. apply Hm. lia.
  - intros x Hx. rewrite Hm by lia. apply write_word_outside. lia.
Qed.

Lemma fdt_window_translate m dtb va :
  boot_control root a m -> 0 <= giga dtb ->
  (forall j, 0 <= j < 5 -> giga dtb + j * 2 ^ 30 <= MAX_PHYSICAL_ADDRESS /\
     entry (mem m) root (256 + j) = fdt_entry (giga dtb) j) ->
  BOOT_FDT_WINDOW_BASE <= va < BOOT_FDT_WINDOW_BASE + 5 * 2 ^ 30 ->
  translate (mem m) (satp m) va =
    Some (mkLeaf ((giga dtb + (va - BOOT_FDT_WINDOW_BASE)) / FRAME_SIZE) true false false false).
Proof.
  intros Hc H0 He Hva. assert (BOOT_FDT_WINDOW_BASE = 2 ^ 64 - 2 ^ 38) as E by done. rewrite E in *.
  destruct (giga_spec dtb) as (Hg & _ & _). set (j := (va - (2 ^ 64 - 2 ^ 38)) / 2 ^ 30).
  assert (0 <= j < 5) as Hj by (unfold j; change (2 ^ 30) with 1073741824 in *; Z.div_mod_to_equations; lia).
  destruct (He j Hj) as [Hmax Hej]. rewrite (b_satp _ _ _ Hc).
  assert (representable (giga dtb + j * 2 ^ 30)) as Hrep.
  { split; [lia|]. unfold FRAME_SIZE. change (2 ^ 30) with (4096 * 262144) in *. Z.div_mod_to_equations. lia. }
  assert ((giga dtb + j * 2 ^ 30) mod 2 ^ 30 = 0) as Hal by (by rewrite Z_mod_plus_full).
  rewrite (translate_giga _ root va (giga dtb + j * 2 ^ 30) BOOT_FDT_PTE_FLAGS); try done.
  - f_equal. f_equal. f_equal. unfold j. change (2 ^ 30) with 1073741824 in *. Z.div_mod_to_equations. lia.
  - apply Hc.
  - etransitivity; [|exact Hej]. f_equal. unfold j. change (2 ^ 30) with 1073741824 in *. Z.div_mod_to_equations. lia.
  - unfold canonical. lia.
  - lia.
Qed.

Lemma map_fdt_spec m dtb :
  boot_inv root a m -> is_usize dtb ->
  exists o m', BootstrapPaging.map_fdt a dtb m = (o, m') /\
  match o with
  | Ok va => va = BOOT_FDT_WINDOW_BASE + dtb mod 2 ^ 30 /\ boot_inv root a m' /\ satp m' = satp m /\
      (forall j, 0 <= j < 5 -> window_free (mem m) root (giga dtb) j) /\ fdt_window m' dtb /\
      (forall x, ~ (root + 8 * 256 <= x < root + 8 * 261) -> mem m' x = mem m x) /\
      (forall vp, tlb m' vp = translate (mem m') (satp m') (vp * 4096))
  | Err e => m' = m /\
      (MAX_PHYSICAL_ADDRESS < dtb /\ e = PhysicalAddressNotRepresentable dtb \/
       dtb <= MAX_PHYSICAL_ADDRESS /\ exists j, 0 <= j < 5 /\ window_error (mem m) root (giga dtb) j e /\
         forall j', 0 <= j' < j -> window_free (mem m) root (giga dtb) j')
  | _ => False
  end.
Proof.
  intros [Hc Hclosed] Hd. unfold BootstrapPaging.map_fdt, PhysAddr.as_usize, PhysAddr.new, VirtAddr.new.
  destruct (MAX_PHYSICAL_ADDRESS <? dtb) eqn:Hmax; zbool.
  { do 2 eexists. split; [done|]. split; [done|]. by left. }
  assert (Z.land dtb (unot GIGAPAGE_MASK) = giga dtb) as -> by (apply (land_unot dtb 30 Hd); lia).
  assert (Z.land dtb GIGAPAGE_MASK = dtb mod 2 ^ 30) as -> by (change GIGAPAGE_MASK with (Z.ones 30); by apply Z.land_ones).
  destruct (giga_spec dtb) as (Hg & Hle & _). destruct Hd as [Hd0 _].
  assert (0 <= giga dtb) as Hg0 by (unfold giga; Z.div_mod_to_equations; lia).
  change (Z.to_nat BOOT_FDT_WINDOW_GIGAPAGES) with 5%nat.
  destruct (check_windows_spec m (giga dtb) 5 0 Hc ltac:(lia) ltac:(lia) ltac:(lia)) as (o & Hw & Ho).
  destruct o as [[]|e| |]; try done.
  2:{ rewrite (bind_err _ _ _ _ _ Hw). do 2 eexists. split; [done|]. split; [done|]. right. by split. }
  rewrite (bind_ok _ _ _ _ _ Hw).
  destruct (install_windows_spec (giga dtb) 5 0 m Hc ltac:(lia) ltac:(lia) Hg0 Hg ltac:(intros j Hj; by apply Ho))
    as (m1 & Hi & Hc1 & Hs1 & He1 & Hm1).
  rewrite (bind_ok _ _ _ _ _ Hi). erewrite bind_ok by (apply infallible_ok; reflexivity).
  assert (uadd (E:=PagingError) usize_max BOOT_FDT_WINDOW_BASE (dtb mod 2 ^ 30) = Ok (BOOT_FDT_WINDOW_BASE + dtb mod 2 ^ 30)) as ->.
  { assert (BOOT_FDT_WINDOW_BASE = 2 ^ 64 - 2 ^ 38) as -> by done.
    pose proof (Z.mod_pos_bound dtb (2 ^ 30) ltac:(done)). unfold uadd, checked_add, usize_max.
    by rewrite (proj2 (Z.leb_le _ _)) by lia. }
  pose proof (root_index root a m Hc) as Hidx.
  assert (forall va, BOOT_FDT_WINDOW_BASE <= va < BOOT_FDT_WINDOW_BASE + 5 * 2 ^ 30 ->
    translate (mem m1) (satp m1) va =
      Some (mkLeaf ((giga dtb + (va - BOOT_FDT_WINDOW_BASE)) / FRAME_SIZE) true false false false)) as Htr.
  { intros va Hva. apply fdt_window_translate; try done. intros j Hj. split; [by apply Ho|]. by apply He1. }
  do 2 eexists. split; [reflexivity|]. split; [done|]. cbn [mem satp tlb].
  split; [|split; [done|split; [exact Ho|split; [|split; [|done]]]]].
  - split.
    + destruct Hc1 as [Hr Hl Hv Hs He Ht]. split; try done. cbn [tlb].
      destruct (root_resolve root a m1 false 0) as [Hres _]; [by split|lia|]. unfold resolve in Hres.
      rewrite Z.add_0_r in Hres. destruct (translate (mem m1) (satp m1) root) as [lf|] eqn:Htr0; [|done].
      rewrite Ht in Hres. case_bool_decide as Hlf; [subst lf|done].
      rewrite <- Htr0. f_equal. destruct Hr as [_ Hal]. unfold FRAME_SIZE in Hal. Z.div_mod_to_equations. lia.
    + cbn [mem]. rewrite <- Hclosed. apply read_word_ext. intros x Hx. apply Hm1.
      change BOOT_FRAME_WINDOW_VPN2 with 511 in Hx. lia.
  - intros va Hva. cbn zeta. split; [by apply Htr|]. cbn [mem satp tlb].
    assert (BOOT_FDT_WINDOW_BASE = 2 ^ 64 - 2 ^ 38) as E by done.
    rewrite Htr by (rewrite E in *; change (2 ^ 30) with 1073741824 in *; Z.div_mod_to_equations; lia).
    do 2 f_equal. destruct (giga_spec dtb) as (Hgm & _). rewrite E in *. unfold FRAME_SIZE.
    change (2 ^ 30) with (4096 * 262144) in *. Z.div_mod_to_equations. lia.
  - intros x Hx. apply Hm1. lia.
Qed.

End window.
