(* ===== verification/KKernelProofs.v ===== *)
(** * The kernel address space

    [kernel_state] relates the active root to an address space and to the free
    frames.  The mapping operations of [KernelPaging] insert one page or map
    nothing, and leave the hart synchronised with the tables. *)

From Stdlib Require Import ZArith Lia Bool.
From Stdlib Require Import Strings.Byte.
From stdpp Require Import base list numbers gmap.
From S2P Require Import Prelude FdtScan KMemory KBootAlloc KMachine KPaging KPte KTables KMapProofs.
From S2P Require Import KHeap KKernelPaging KWindow.
Local Open Scope Z_scope.

(** No page maps a frame of the list. *)
Definition unmapped (sp : space) (l : list PhysFrame.t) : Prop :=
  forall v lf fr, sp !! v = Some lf -> In fr l -> l_ppn lf <> PhysFrame.start fr / FRAME_SIZE.

(** The hart translates every address as the address space says. *)
Definition shows_space (m : machine) (sp : space) : Prop :=
  forall va, is_usize va ->
    let answer := if canonical va then sp !! vpn_of va else None in
    translate (mem m) (satp m) va = answer /\ tlb m (va / 4096) = answer.

Section kernel.
Context {F : Type} `{FrameAllocator F} (root l1 l0 : Z).

Abbreviation good := (good (kernel_inv root l1 l0) (window_slot l0) (window_busy root l1 l0)).
Abbreviation state := (KernelPaging.t * machine * F)%type.

Definition hart (w : state) : machine := snd (fst w).
Definition capability (w : state) : KernelPaging.t := fst (fst w).

Record kernel_state (T : table_map) (sp : space) (l : list PhysFrame.t) (w : state) : Prop := {
  ks_good : good T sp l w;
  ks_root : T !! [] = Some root;
  ks_l1 : T !! [509] = Some l1;
  ks_l0 : T !! [509; 511] = Some l0;
  ks_unmapped : unmapped sp l;
}.

(** Only the window's own page leads to the slot. *)
Lemma avoids_slot T sp l w v :
  kernel_state T sp l w -> is_vpn v -> v <> frame_vpn -> avoids (window_slot l0) T v.
Proof.
  intros [[[Hi Ht] _ _] _ _ H0 _] Hv Hne p f i q Hp Hq Heq.
  destruct (idx_range v) as (R2 & R1 & R0).
  assert (0 <= i < 512) as Hi'.
  { assert (In i [idx2 v; idx1 v; idx0 v]) as Hin by (rewrite <- Hq; apply in_or_app; right; by left).
    destruct Hin as [<-|[<-|[<-|[]]]]; done. }
  pose proof (t_frame _ _ _ Ht p f Hp) as [Hf _]. pose proof (t_frame _ _ _ Ht _ _ H0) as [Hl0 _].
  apply word_inj in Heq as [-> ->]; try done. pose proof (t_inj _ _ _ Ht _ _ _ Hp H0) as ->.
  cbn in Hq. injection Hq as E2 E1 E0 _. apply Hne.
  destruct fixmap_numbers as (_ & _ & _ & _ & _ & F2 & F1 & F0).
  apply vpn_eq; try congruence. apply is_vpn_of.
Qed.

(** ** Synchronisation *)

Definition flushed (m : machine) : machine :=
  mkMachine (mem m) (satp m) (fun vp => translate (mem m) (satp m) (vp * 4096)).

Lemma flushed_inv a m : kernel_inv root l1 l0 a m -> kernel_inv root l1 l0 a (flushed m).
Proof.
  intros Hi. pose proof (table_mapped _ _ _ _ _ (i_control _ _ _ _ _ Hi) FIXMAP_TABLE_BASE) as Hm.
  destruct Hi as [[Hw Hs Ht Hr Hsl] Hc]. split; [split; try done|done].
  cbn [flushed tlb]. apply Hm. unfold FRAME_SIZE. lia.
Qed.

Lemma then_flush_spec {R} (m : M state PagingError R) w o w' :
  m w = (o, w') -> no_panic o ->
  KernelPaging.then_flush m w = (o, (capability w', flushed (hart w'), snd w')).
Proof.
  intros Hm Ho. destruct w' as [[a h] s]. unfold KernelPaging.then_flush.
  destruct o as [r|e| |]; try done; unfold_m; unfold as_result, on_access, zoom, bind; by rewrite Hm.
Qed.

Lemma good_flushed T sp l w :
  good T sp l w -> good T sp l (capability w, flushed (hart w), snd w).
Proof. intros [[Hi Ht] Hp Hf]. split; [split; [by apply flushed_inv|done]|done|done]. Qed.

Lemma vpn_of_page va : vpn_of (va / 4096 * 4096) = vpn_of va.
Proof. unfold vpn_of, FRAME_SIZE. by rewrite Z_div_mult. Qed.

Lemma canonical_page va : canonical (va / 4096 * 4096) = canonical va.
Proof. unfold canonical. f_equal; apply eq_true_iff_eq; rewrite ?Z.ltb_lt, ?Z.leb_le; Z.div_mod_to_equations; lia. Qed.

(** The tables translate as the address space says. *)
Lemma translate_represented T sp l w va :
  kernel_state T sp l w -> 
  translate (mem (hart w)) (satp (hart w)) va = if canonical va then sp !! vpn_of va else None.
Proof.
  intros [[[[[Hw Hs _ _ _] _] Ht] _ _] Hroot _ _ _]. destruct w as [[a m] s]. cbn [hart fst snd] in *.
  unfold translate. rewrite Hs. destruct (root_satp_fields root (w_root _ _ _ _ Hw)) as [-> ->].
  destruct (canonical va); [|done]. cbn [andb Z.eqb Pos.eqb].
  apply (walk_represented _ T); [done|done|]. apply is_vpn_of.
Qed.

Lemma flushed_shows T sp l w :
  kernel_state T sp l w -> shows_space (flushed (hart w)) sp.
Proof.
  intros Hk va Hva. pose proof (fun x => translate_represented T sp l w x Hk) as Htr.
  cbn [flushed mem satp tlb]. rewrite !Htr. by rewrite canonical_page, vpn_of_page.
Qed.

(** ** Mapping *)

(** Why an acceptable address cannot be mapped. *)
Inductive page_failure (sp : space) (l : list PhysFrame.t) (va : Z) (fr : PhysFrame.t)
    : PagingError -> Prop :=
| pf_unaligned : va mod FRAME_SIZE <> 0 -> page_failure sp l va fr (VirtualAddressNotPageAligned va)
| pf_map e : va mod FRAME_SIZE = 0 -> map_failure sp l va fr e -> page_failure sp l va fr e.

Lemma unmapped_tail sp used l : unmapped sp (used ++ l) -> unmapped sp l.
Proof. intros Hu v lf fr Hlf Hin. apply (Hu v lf fr Hlf). apply in_or_app. auto. Qed.

Lemma unmapped_insert sp l v fr permissions privilege :
  unmapped sp l -> PhysFrame.wf fr -> Forall PhysFrame.wf l -> ~ In fr l ->
  unmapped (<[v := leaf_for (PhysFrame.start fr) permissions privilege]> sp) l.
Proof.
  intros Hu Hfr Hwf Hni w lf g [[<- <-]|[_ Hlf]]%lookup_insert_Some Hg; [|by eapply Hu].
  cbn [leaf_for l_ppn]. intros Heq. apply Hni. rewrite List.Forall_forall in Hwf.
  destruct Hfr as (_ & Hm & _), (Hwf g Hg) as (_ & Hm' & _). destruct fr as [a], g as [b]. cbn in *.
  assert (a = b) as ->; [|done]. unfold FRAME_SIZE in *. Z.div_mod_to_equations. lia.
Qed.

Lemma state_grown n T T' sp sp' l l' w w' :
  kernel_state T sp l w -> stepped n T l w T' l' w' -> good T' sp' l' w' -> unmapped sp' l' ->
  kernel_state T' sp' l' w'.
Proof.
  intros [_ Hr H1 H0 _] [(u & _ & _ & [Hsub _]) _] Hg Hu.
  split; try done; by eapply lookup_weaken.
Qed.

Lemma root_frame T sp l w :
  kernel_state T sp l w -> AllocatedFrame.frame (KernelPaging.root (capability w)) = PhysFrame.mk root.
Proof. intros [[[[[_ _ _ Hr _] _] _] _ _] _ _ _ _]. exact Hr. Qed.

(** A frame the allocator gave away and no table uses. *)
Definition owned (T : table_map) (l : list PhysFrame.t) (fr : PhysFrame.t) : Prop :=
  PhysFrame.wf fr /\ ~ In fr l /\ unused T (PhysFrame.start fr).

Lemma owned_tail T fr l fr' : owned T (fr :: l) fr' -> owned T l fr'.
Proof. intros (Hwf & Hni & Hun). cbn in Hni. by split_and!; [|tauto|]. Qed.

(** The tables grow by frames of the list only. *)
Lemma stepped_owned n T l w T' l' (w' : state) fr :
  stepped n T l w T' l' w' -> owned T l fr -> owned T' l' fr.
Proof.
  intros [(u & -> & _ & [_ Hnew]) _] (Hfr & Hni & Hun). split; [done|].
  split; [intros Hin; apply Hni, in_or_app; auto|].
  intros p [Hq|Hin]%Hnew; [by apply (Hun p)|]. apply Hni, in_or_app. destruct fr. auto.
Qed.

(** [map_page] and the flush after it, at an address of the active root. *)
Lemma map_flush_spec T sp l w va fr permissions privilege :
  kernel_state T sp l w -> is_usize va -> canonical va = true -> vpn_of va <> frame_vpn ->
  PhysFrame.wf fr -> ~ In fr l ->
  exists o w' T' sp' l',
    KernelPaging.then_flush
      (KPaging.map_page (AllocatedFrame.frame (KernelPaging.root (capability w))) va fr permissions privilege) w
      = (o, w') /\
    kernel_state T' sp' l' w' /\ stepped 2 T l w T' l' w' /\ shows_space (hart w') sp' /\
    match o with
    | Ok _ => va mod FRAME_SIZE = 0 /\ sp !! vpn_of va = None /\
        sp' = <[vpn_of va := leaf_for (PhysFrame.start fr) permissions privilege]> sp
    | Err e => page_failure sp l va fr e /\ sp' = sp
    | _ => False
    end.
Proof.
  intros Hk Hva Hcan Hne Hfr Hni. pose proof Hk as [Hg Hroot _ _ Hum].
  rewrite (root_frame T sp l w Hk).
  assert (forall n T' sp' l' w' o, 
    KPaging.map_page (PhysFrame.mk root) va fr permissions privilege w = (o, w') -> no_panic o ->
    stepped n T l w T' l' w' -> good T' sp' l' w' -> unmapped sp' l' ->
    let w2 := (capability w', flushed (hart w'), snd w') in
    KernelPaging.then_flush (KPaging.map_page (PhysFrame.mk root) va fr permissions privilege) w = (o, w2) /\
    kernel_state T' sp' l' w2 /\ stepped n T l w T' l' w2 /\ shows_space (hart w2) sp') as Hflush.
  { intros n T' sp' l' w' o Hm Hnp Hst Hg' Hu'. cbn zeta. split; [by apply then_flush_spec|].
    assert (stepped n T l w T' l' (capability w', flushed (hart w'), snd w')) as Hst'
      by (destruct Hst as [Hst [K1 K2 K3]]; by split).
    split; [eapply state_grown; eauto using good_flushed|]. split; [done|].
    eapply (flushed_shows T' sp' l'). eapply state_grown; eauto. }
  destruct (decide (va mod FRAME_SIZE = 0)) as [Hal|Hal].
  - pose proof (avoids_slot T sp l w (vpn_of va) Hk (is_vpn_of va) Hne) as Hav.
    destruct (map_page_spec _ _ _ T sp l w root va fr permissions privilege Hg Hroot Hva Hal Hcan Hav Hfr)
      as (o & w' & T' & l' & Hm & Hst & Ho).
    pose proof (stepped_used _ _ _ _ _ _ _ Hst) as (u & Hu & _).
    destruct o as [[]|e| |]; try done; destruct Ho as [Ho Hg'].
    + assert (unmapped (<[vpn_of va:=leaf_for (PhysFrame.start fr) permissions privilege]> sp) l') as Hum'.
      { apply unmapped_insert; [by apply (unmapped_tail _ u); rewrite <- Hu|done|apply Hg'|].
        intros Hin. apply Hni. rewrite Hu. apply in_or_app. auto. }
      eexists _, _, T', _, l'. destruct (Hflush _ _ _ _ _ _ Hm I Hst Hg' Hum') as (? & ? & ? & ?).
      split; [done|]. by split_and!.
    + assert (unmapped sp l') as Hum' by (by apply (unmapped_tail _ u); rewrite <- Hu).
      eexists _, _, T', _, l'. destruct (Hflush _ _ _ _ _ _ Hm I Hst Hg' Hum') as (? & ? & ? & ?).
      split; [done|]. split_and!; try done. by constructor.
  - assert (KPaging.map_page (PhysFrame.mk root) va fr permissions privilege w =
      (Err (VirtualAddressNotPageAligned va), w)) as Hm.
    { unfold KPaging.map_page, VirtAddr.as_usize. rewrite page_mask_zero.
      by replace (va mod FRAME_SIZE =? 0) with false by lia. }
    eexists _, _, T, _, l.
    destruct (Hflush _ _ _ _ _ _ Hm I (stepped_refl 2 T l w) Hg Hum) as (? & ? & ? & ?).
    split; [done|]. split_and!; try done. by constructor.
Qed.

(** ** The operations of the capability *)

Lemma high_numbers : SV39_HIGH_HALF_BASE = 2 ^ 64 - 2 ^ 38 /\ SV39_LOW_HALF_END = 2 ^ 38 /\ PAGE_SIZE = FRAME_SIZE.
Proof. vm_compute. by repeat split. Qed.

(** The window's page number belongs to its page only, among canonical
    addresses. *)
Lemma frame_vpn_page va :
  is_usize va -> canonical va = true -> vpn_of va = frame_vpn -> va / FRAME_SIZE = FIXMAP_FRAME_BASE / FRAME_SIZE.
Proof.
  intros [H0 Hm] Hcan Hv. change (FIXMAP_FRAME_BASE / FRAME_SIZE) with 0xffffffff7fe01.
  change frame_vpn with 0x7f7fe01 in Hv. unfold vpn_of, canonical, FRAME_SIZE, usize_max in *.
  Z.div_mod_to_equations. lia.
Qed.

(** The outcome of a mapping of an owned frame. *)
Definition mapping_result (T : table_map) (sp : space) (l : list PhysFrame.t) (w : state)
    (va : Z) (fr : PhysFrame.t) (permissions : PagePermissions) (privilege : PagePrivilege)
    (refused : PagingError -> Prop) (o : outcome PagingError unit) (w' : state) : Prop :=
  exists T' sp' l', kernel_state T' sp' l' w' /\ stepped 2 T l w T' l' w' /\
  match o with
  | Ok _ => shows_space (hart w') sp' /\ va mod FRAME_SIZE = 0 /\ sp !! vpn_of va = None /\
      sp' = <[vpn_of va := leaf_for (PhysFrame.start fr) permissions privilege]> sp
  | Err e => sp' = sp /\
      (refused e /\ w' = w \/ page_failure sp l va fr e /\ shows_space (hart w') sp')
  | _ => False
  end.

Lemma mapping_refused T sp l w va fr permissions privilege (refused : PagingError -> Prop) e :
  kernel_state T sp l w -> refused e ->
  mapping_result T sp l w va fr permissions privilege refused (Err e) w.
Proof.
  intros Hk He. exists T, sp, l. split; [done|]. split; [apply stepped_refl|]. split; [done|]. by left.
Qed.

Lemma mapping_flushed T sp l w va fr permissions privilege refused :
  kernel_state T sp l w -> is_usize va -> canonical va = true ->
  (va mod FRAME_SIZE = 0 -> va <> FIXMAP_FRAME_BASE) -> PhysFrame.wf fr -> ~ In fr l ->
  exists o w', KernelPaging.then_flush
      (KPaging.map_page (AllocatedFrame.frame (KernelPaging.root (capability w))) va fr permissions privilege) w
      = (o, w') /\ mapping_result T sp l w va fr permissions privilege refused o w'.
Proof.
  intros Hk Hva Hcan Hne Hfr Hni. destruct (decide (vpn_of va = frame_vpn)) as [Hv|Hv].
  - (* another offset of the window's page: unaligned *)
    apply frame_vpn_page in Hv; [|done|done].
    assert (va mod FRAME_SIZE <> 0) as Hal.
    { intros Hal. apply (Hne Hal). assert (FIXMAP_FRAME_BASE mod FRAME_SIZE = 0) by done.
      unfold FRAME_SIZE in *. Z.div_mod_to_equations. lia. }
    assert (KPaging.map_page (AllocatedFrame.frame (KernelPaging.root (capability w))) va fr permissions privilege w =
      (Err (VirtualAddressNotPageAligned va), w)) as Hm.
    { unfold KPaging.map_page, VirtAddr.as_usize. rewrite page_mask_zero.
      by replace (va mod FRAME_SIZE =? 0) with false by lia. }
    assert (kernel_state T sp l (capability w, flushed (hart w), snd w)) as Hk'.
    { eapply (state_grown 2 T T sp sp l l w); [done| |apply good_flushed, Hk|apply Hk].
      destruct (stepped_refl 2 T l w) as [Hs [K1 K2 K3]]. by split. }
    eexists _, _. split; [by apply then_flush_spec|]. exists T, sp, l. split; [done|].
    split; [destruct (stepped_refl 2 T l w) as [Hs [K1 K2 K3]]; by split|].
    split; [done|]. right. split; [by constructor|]. by apply (flushed_shows T sp l w).
  - destruct (map_flush_spec T sp l w va fr permissions privilege Hk Hva Hcan Hv Hfr Hni)
      as (o & w' & T' & sp' & l' & Hm & Hk' & Hst & Hsh & Ho).
    exists o, w'. split; [done|]. exists T', sp', l'. split; [done|]. split; [done|].
    destruct o as [[]|e| |]; try done. destruct Ho as [Hpf ->]. split; [done|]. right. by split.
Qed.

Lemma install_page_spec T sp l w va fr permissions :
  kernel_state T sp l w -> is_usize va -> PhysFrame.wf fr -> ~ In fr l ->
  exists o w', KernelPaging.install_page va (AllocatedFrame.mk fr) permissions w = (o, w') /\
    mapping_result T sp l w va fr permissions Supervisor
      (fun e => va < SV39_HIGH_HALF_BASE /\ e = VirtualAddressNotKernel va \/
                va = FIXMAP_FRAME_BASE /\ e = ReservedVirtualPage va) o w' /\
    (o = Ok tt -> SV39_HIGH_HALF_BASE <= va /\ va <> FIXMAP_FRAME_BASE).
Proof.
  intros Hk Hva Hfr Hni. unfold KernelPaging.install_page, VirtAddr.as_usize.
  destruct (va <? SV39_HIGH_HALF_BASE) eqn:Hlow; zbool.
  { eexists _, _. split; [done|]. split; [|done]. apply mapping_refused; [done|]. by left. }
  destruct (va =? FIXMAP_FRAME_BASE) eqn:Hfix; zbool.
  { eexists _, _. split; [done|]. split; [|done]. apply mapping_refused; [done|]. by right. }
  rewrite (bind_ok _ _ _ w w) by done. destruct high_numbers as (E & _).
  assert (canonical va = true) as Hcan by (rewrite E in Hlow; unfold canonical; lia).
  destruct (mapping_flushed T sp l w va fr permissions Supervisor
    (fun e => va < SV39_HIGH_HALF_BASE /\ e = VirtualAddressNotKernel va \/
              va = FIXMAP_FRAME_BASE /\ e = ReservedVirtualPage va) Hk Hva Hcan ltac:(done) Hfr Hni)
    as (o & w' & Hm & Hr).
  exists o, w'. split; [|by split]. destruct w as [[a m] s]. exact Hm.
Qed.

Lemma map_user_page_spec T sp l w va fr permissions :
  kernel_state T sp l w -> is_usize va -> PhysFrame.wf fr -> ~ In fr l ->
  exists o w', KernelPaging.map_user_page va (AllocatedFrame.mk fr) permissions w = (o, w') /\
    mapping_result T sp l w va fr permissions User
      (fun e => ~ (FRAME_SIZE <= va < SV39_LOW_HALF_END) /\ e = VirtualAddressNotUser va) o w' /\
    (o = Ok tt -> FRAME_SIZE <= va < SV39_LOW_HALF_END).
Proof.
  intros Hk Hva Hfr Hni. unfold KernelPaging.map_user_page, VirtAddr.as_usize.
  destruct high_numbers as (_ & E & ->). destruct (_ && _) eqn:Hin; cbn [negb].
  2:{ eexists _, _. split; [done|]. split; [|done]. apply mapping_refused; [done|]. split; [|done]. lia. }
  zbool. rewrite (bind_ok _ _ _ w w) by done.
  assert (canonical va = true) as Hcan by (rewrite E in *; unfold canonical; lia).
  assert (va <> FIXMAP_FRAME_BASE) by (destruct fixmap_numbers as (_ & -> & _); rewrite E in *; lia).
  destruct (mapping_flushed T sp l w va fr permissions User
    (fun e => ~ (FRAME_SIZE <= va < SV39_LOW_HALF_END) /\ e = VirtualAddressNotUser va)
    Hk Hva Hcan ltac:(done) Hfr Hni) as (o & w' & Hm & Hr).
  exists o, w'. split; [|by split]. destruct w as [[a m] s]. exact Hm.
Qed.

Lemma map_kernel_page_spec T sp l w va fr permissions :
  kernel_state T sp l w -> is_usize va -> PhysFrame.wf fr -> ~ In fr l ->
  exists o w', KernelPaging.map_page va (AllocatedFrame.mk fr) permissions w = (o, w') /\
    mapping_result T sp l w va fr permissions Supervisor
      (fun e => va < SV39_HIGH_HALF_BASE /\ e = VirtualAddressNotKernel va \/
                (va = FIXMAP_FRAME_BASE \/
                 KernelPaging.heap_claimed (capability w) = true /\ HEAP_START <= va < HEAP_END) /\
                e = ReservedVirtualPage va) o w' /\
    (o = Ok tt -> SV39_HIGH_HALF_BASE <= va /\ va <> FIXMAP_FRAME_BASE /\
       (KernelPaging.heap_claimed (capability w) = true -> ~ (HEAP_START <= va < HEAP_END))).
Proof.
  intros Hk Hva Hfr Hni. unfold KernelPaging.map_page, VirtAddr.as_usize.
  rewrite (bind_ok _ _ _ w w) by done. destruct w as [[a m] s] eqn:Hw. rewrite <- Hw in *.
  assert (capability w = a) as Ha by by subst w. rewrite Ha.
  destruct (KernelPaging.heap_claimed a && _) eqn:Hres; zbool.
  { eexists _, _. split; [done|]. split; [|done]. apply mapping_refused; [done|]. right. split; [|done].
    right. zbool. split; [done|lia]. }
  destruct (install_page_spec T sp l w va fr permissions Hk Hva Hfr Hni) as (o & w' & Hi & (T' & sp' & l' & K & St & Ho) & Hok).
  exists o, w'. split; [done|]. split.
  - exists T', sp', l'. split; [done|]. split; [done|]. destruct o as [[]|e| |]; try done.
    destruct Ho as [-> [[[?|[? ?]] ?]|?]]; (split; [done|]); [left; split; [by left|done]|left; split; [right; split; [by left|done]|done]|by right].
  - intros Heq. destruct (Hok Heq) as [H1 H2]. split; [done|]. split; [done|]. intros Hcl. rewrite Hcl in Hres.
    cbn [andb] in Hres. rewrite andb_false_iff in Hres. destruct Hres; zbool; lia.
Qed.

End kernel.

(** ** What keeps the hart synchronised

    Only fences change what the hart has cached.  An operation that fences
    nothing but the frame window's page leaves every other cached translation
    alone; mapping operations end with a complete fence.  So between operations
    the hart translates every address but the window's as the tables do. *)

(** The page of the frame window. *)
Definition window_page : Z := FIXMAP_FRAME_BASE / 4096.

(** The cached translations of every other page. *)
Definition same_tlb (m m' : machine) : Prop := forall vp, vp <> window_page -> tlb m' vp = tlb m vp.

Definition keeps_tlb {S E R} (g : S -> machine) (c : M S E R) : Prop := forall s, same_tlb (g s) (g (snd (c s))).

Create HintDb keeps.

Lemma same_tlb_refl m : same_tlb m m.
Proof. done. Qed.

Lemma same_tlb_trans m1 m2 m3 : same_tlb m1 m2 -> same_tlb m2 m3 -> same_tlb m1 m3.
Proof. intros H1 H2 vp Hvp. by rewrite H2, H1. Qed.

Lemma keeps_result {S E R} (g : S -> machine) (c : M S E R) s o s' :
  keeps_tlb g c -> c s = (o, s') -> same_tlb (g s) (g s').
Proof. intros Hk Hc. specialize (Hk s). by rewrite Hc in Hk. Qed.

Section logic.
Context {S : Type} (g : S -> machine).

Lemma keeps_ret {E R} (a : R) : keeps_tlb g (ret (E:=E) a).
Proof. done. Qed.

Lemma keeps_throw {E R} (e : E) : keeps_tlb g (throw (A:=R) e).
Proof. done. Qed.

Lemma keeps_lift {E R} (o : outcome E R) : keeps_tlb g (lift o).
Proof. done. Qed.

Lemma keeps_panic {E R} : keeps_tlb g (panic (E:=E) (A:=R)).
Proof. done. Qed.

Lemma keeps_get {E} : keeps_tlb g (get (E:=E)).
Proof. done. Qed.

Lemma keeps_bind {E A B} (c : M S E A) (k : A -> M S E B) :
  keeps_tlb g c -> (forall a, keeps_tlb g (k a)) -> keeps_tlb g (bind c k).
Proof.
  intros Hc Hk s. unfold bind. specialize (Hc s). destruct (c s) as [[a|e| |] s']; try exact Hc.
  eapply same_tlb_trans; [exact Hc|]. apply Hk.
Qed.

Lemma keeps_minfallible {E R} (c : M S never R) : keeps_tlb g c -> keeps_tlb g (minfallible (E:=E) c).
Proof. intros Hc s. unfold minfallible. specialize (Hc s). by destruct (c s). Qed.

Lemma keeps_mmap_err {E E' R} (f : E -> E') (c : M S E R) : keeps_tlb g c -> keeps_tlb g (mmap_err f c).
Proof. intros Hc s. unfold mmap_err. specialize (Hc s). by destruct (c s). Qed.

Lemma keeps_as_result {E R} (c : M S E R) : keeps_tlb g c -> keeps_tlb g (as_result c).
Proof. intros Hc s. unfold as_result. specialize (Hc s). by destruct (c s) as [[] ?]. Qed.

Lemma keeps_zoom {T E R} (h : T -> machine) (p : S -> T) (q : T -> S -> S) (c : M T E R) :
  (forall s, h (p s) = g s) -> (forall t s, g (q t s) = h t) -> keeps_tlb h c -> keeps_tlb g (zoom p q c).
Proof.
  intros Hp Hq Hc s. unfold zoom. specialize (Hc (p s)). destruct (c (p s)) as [o t]. cbn in *. by rewrite Hq, <- Hp.
Qed.

End logic.

#[export] Hint Resolve keeps_ret keeps_throw keeps_lift keeps_panic keeps_get keeps_minfallible keeps_mmap_err
  keeps_as_result keeps_bind : keeps.

(** Runs the rules over the shape of a computation. *)
Ltac keeps :=
  repeat first
    [ progress intros
    | apply keeps_bind
    | match goal with
      | |- keeps_tlb _ (match ?x with _ => _ end) => destruct x
      end
    | progress eauto with keeps ].

(** ** The hart *)

Lemma keeps_load_word va : keeps_tlb id (load_word va).
Proof. intros m. unfold load_word, bind, get. cbn. by repeat case_match. Qed.

Lemma keeps_store_word va v : keeps_tlb id (store_word va v).
Proof. intros m. unfold store_word, bind, get. cbn. by repeat case_match. Qed.

Lemma keeps_fill_page va n b : keeps_tlb id (fill_page va n b).
Proof. intros m. unfold fill_page, bind, get. cbn. by repeat case_match. Qed.

Lemma keeps_copy_bytes va l : keeps_tlb id (copy_bytes va l).
Proof. intros m. unfold copy_bytes, bind, get. cbn. by repeat case_match. Qed.

Lemma keeps_flush_window : keeps_tlb id (flush_address FIXMAP_FRAME_BASE).
Proof. intros m vp Hvp. cbn. by rewrite (proj2 (Z.eqb_neq _ _)). Qed.

#[export] Hint Resolve keeps_load_word keeps_store_word keeps_fill_page keeps_copy_bytes keeps_flush_window : keeps.

Lemma keeps_on_hart {A E R} (c : M machine E R) : keeps_tlb id c -> keeps_tlb snd (on_hart (A:=A) c).
Proof. by apply keeps_zoom. Qed.

#[export] Hint Resolve keeps_on_hart : keeps.

(** ** The frame window *)

Lemma keeps_with_frame {R} f (op : VirtAddr.t -> M machine never R) :
  (forall a, keeps_tlb id (op a)) -> keeps_tlb snd (KernelPaging.with_frame f op).
Proof. intros Hop. unfold KernelPaging.with_frame. keeps. Qed.

Lemma keeps_read_mapped a i : keeps_tlb id (read_mapped_page_table_entry a i).
Proof. unfold read_mapped_page_table_entry. keeps. Qed.

Lemma keeps_write_mapped a i v : keeps_tlb id (write_mapped_page_table_entry a i v).
Proof. unfold write_mapped_page_table_entry. keeps. Qed.

#[export] Hint Resolve keeps_with_frame keeps_read_mapped keeps_write_mapped : keeps.

Lemma keeps_zero_frame f : keeps_tlb snd (KernelPaging.zero_frame f).
Proof. unfold KernelPaging.zero_frame, zero_frame, with_frame, KernelPaging.access. keeps. Qed.

Lemma keeps_read_entry f i : keeps_tlb snd (read_page_table_entry (A:=KernelPaging.t) f i).
Proof. unfold read_page_table_entry, with_frame, KernelPaging.access. keeps. Qed.

#[export] Hint Resolve keeps_zero_frame keeps_read_entry : keeps.

(** ** Synchronisation *)

Definition synced (m : machine) : Prop :=
  forall va, is_usize va -> va / 4096 <> window_page -> tlb m (va / 4096) = translate (mem m) (satp m) va.

Lemma shows_synced m sp : shows_space m sp -> synced m.
Proof. intros Hs va Hva _. by destruct (Hs va Hva) as [-> ->]. Qed.

Section kernel.
Context {F : Type} `{FrameAllocator F} (root l1 l0 : Z).

Abbreviation state := (KernelPaging.t * machine * F)%type.
Abbreviation kernel_state := (kernel_state root l1 l0).

Lemma keeps_on_access {R} (c : M (KernelPaging.t * machine) PagingError R) :
  keeps_tlb snd c -> keeps_tlb (hart (F:=F)) (on_access c).
Proof. intros Hc. by apply (keeps_zoom hart snd). Qed.

Lemma synced_kept T sp l (w : state) T' l' (w' : state) :
  kernel_state T sp l w -> kernel_state T' sp l' w' -> same_tlb (hart w) (hart w') ->
  synced (hart w) -> synced (hart w').
Proof.
  intros Hk Hk' Ht Hs va Hva Hne. rewrite (translate_represented root l1 l0 _ _ _ _ _ Hk').
  rewrite <- (translate_represented root l1 l0 _ _ _ _ _ Hk), Ht by done. by apply Hs.
Qed.

(** The outcome of a mapping leaves the hart synchronised. *)
Lemma mapping_synced T sp l (w : state) va fr permissions privilege refused o w' :
  mapping_result root l1 l0 T sp l w va fr permissions privilege refused o w' ->
  synced (hart w) -> synced (hart w').
Proof.
  intros (T' & sp' & l' & _ & _ & Ho) Hs. destruct o as [[]|e| |]; try done.
  - by eapply shows_synced, Ho.
  - destruct Ho as [_ [[_ ->]|[_ Hsh]]]; [done|]. by eapply shows_synced.
Qed.

End kernel.
