(* ===== verification/KTransition.v ===== *)
(** * Entering the kernel address space

    [BootstrapPaging::into_kernel] builds a fresh root through the bootstrap
    window and activates it.  [planned] is the address space it is asked for;
    on success the hart is in [kernel_state] with exactly that space and the
    control page of the new window. *)

From Stdlib Require Import ZArith Lia Bool.
From Stdlib Require Import Strings.Byte.
From stdpp Require Import base list numbers gmap.
From S2P Require Import Prelude FdtScan KMemory KBootAlloc KMachine KPaging KPte KTables KMapProofs KRangeProofs KFrameWindow.
From S2P Require Import KHeap KKernelPaging KWindow KKernelProofs KBootWindow.
Local Open Scope Z_scope.

(** ** The devicetree's pages *)

(** The whole pages of the alias and the first frame. *)
Lemma dtb_page_mapping_spec va r :
  is_usize va -> PhysRange.wf r ->
  match dtb_page_mapping va r with
  | Ok (pages, frame) =>
      va mod FRAME_SIZE = PhysRange.start r mod FRAME_SIZE /\ VirtRange.wf pages /\ PhysFrame.wf frame /\
      VirtRange.start pages = frame_floor va /\ PhysFrame.start frame = frame_floor (PhysRange.start r) /\
      VirtRange.end_ pages = frame_ceil (va + (PhysRange.end_ r - PhysRange.start r))
  | Err e => e = InvalidDtbMapping va r /\
      (va mod FRAME_SIZE <> PhysRange.start r mod FRAME_SIZE \/
       usize_max < va + (PhysRange.end_ r - PhysRange.start r) + PAGE_MASK \/
       usize_max < frame_floor (PhysRange.start r) + FRAME_SIZE)
  | _ => False
  end.
Proof.
  intros [H0 Hmax] (S0 & Slt & Smax). destruct r as [s e]. cbn [PhysRange.start PhysRange.end_] in *.
  unfold dtb_page_mapping, PhysAddr.as_usize, VirtAddr.as_usize, VirtAddr.new, PhysAddr.new.
  cbn [PhysRange.start PhysRange.end_]. rewrite !page_mask_zero.
  destruct (va mod FRAME_SIZE =? s mod FRAME_SIZE) eqn:Hoff; zbool; cbn [negb]; [|by split; [|left]].
  assert (usub (E:=PagingError) e s = Ok (e - s)) as ->
    by (unfold usub, checked_sub; by rewrite (proj2 (Z.leb_le _ _)) by lia).
  cbn [obind]. unfold VirtAddr.checked_add, VirtAddr.as_usize, VirtAddr.new.
  destruct (checked_add usize_max va (e - s)) as [x|] eqn:Hx; cbn [mbind option_bind].
  2:{ apply checked_add_None in Hx. split; [done|]. right. left. change PAGE_MASK with 4095. lia. }
  apply checked_add_Some in Hx as [Hx ->].
  destruct (checked_add usize_max (va + (e - s)) PAGE_MASK) as [y|] eqn:Hy; cbn [ok_or obind].
  2:{ apply checked_add_None in Hy. split; [done|]. right. by left. }
  apply checked_add_Some in Hy as [Hy ->]. change PAGE_MASK with (FRAME_SIZE - 1) in *.
  rewrite !land_frame_mask by (unfold is_usize, FRAME_SIZE in *; lia).
  assert (frame_floor (va + (e - s) + (FRAME_SIZE - 1)) = frame_ceil (va + (e - s))) as -> by done.
  destruct (frame_floor_spec va) as [_ Hf], (frame_ceil_spec (va + (e - s))) as [Hcm Hc].
  destruct (frame_floor_spec s) as [Hsm Hsf].
  assert (0 <= frame_floor va /\ 0 <= frame_floor s) as [Hf0 Hs0]
    by (unfold frame_floor, FRAME_SIZE; split; Z.div_mod_to_equations; lia).
  rewrite (proj2 (VirtRange.virt_new_Some _ _ (VirtRange.mk (frame_floor va) (frame_ceil (va + (e - s))))))
    by (split; [lia|done]).
  cbn [ok_or obind]. destruct (PhysFrame.from_start (frame_floor s)) as [fr|] eqn:Hfr; cbn [ok_or obind].
  - apply PhysFrame.from_start_Some in Hfr as [Hwf Hst]; [|done]. cbn [VirtRange.start VirtRange.end_].
    split_and!; try done. unfold VirtRange.wf. cbn [VirtRange.start VirtRange.end_].
    unfold frame_ceil, FRAME_SIZE in *. split; [done|]. split; [lia|]. Z.div_mod_to_equations. lia.
  - split; [done|]. right. right. destruct (Z_lt_le_dec usize_max (frame_floor s + FRAME_SIZE)); [done|]. exfalso.
    assert (PhysFrame.from_start (frame_floor s) = Some (PhysFrame.mk (frame_floor s))) as Hsome; [|congruence].
    by apply PhysFrame.from_start_Some.
Qed.

(** ** Sections *)

(** Where a section is loaded, when it can be mapped there. *)
Definition load_address (kernel_start vstart : Z) (r : VirtRange.t) : Z :=
  kernel_start + (VirtRange.start r - vstart).

Definition loadable (kernel_start vstart : Z) (r : VirtRange.t) : Prop :=
  vstart <= VirtRange.start r /\ PhysFrame.wf (PhysFrame.mk (load_address kernel_start vstart r)).

(** The pages of the sections. *)
Fixpoint section_pages (kernel_start vstart : Z) (sections : list (option VirtRange.t * PagePermissions))
    (sp : space) : space :=
  match sections with
  | [] => sp
  | (None, _) :: sections => section_pages kernel_start vstart sections sp
  | (Some r, permissions) :: sections =>
      section_pages kernel_start vstart sections (pages_of r (load_address kernel_start vstart r) permissions ∪ sp)
  end.

Fixpoint sections_disjoint (kernel_start vstart : Z) (sections : list (option VirtRange.t * PagePermissions))
    (sp : space) : Prop :=
  match sections with
  | [] => True
  | (None, _) :: sections => sections_disjoint kernel_start vstart sections sp
  | (Some r, permissions) :: sections =>
      let pages := pages_of r (load_address kernel_start vstart r) permissions in
      loadable kernel_start vstart r /\ in_half (VirtRange.start r) (page_count r) /\ pages ##ₘ sp /\
      sections_disjoint kernel_start vstart sections (pages ∪ sp)
  end.

Definition sections_of (s : KernelSections) : list (option VirtRange.t * PagePermissions) :=
  [(text s, ReadExecute); (rodata s, ReadOnly); (data s, ReadWrite); (bss s, ReadWrite); (stack s, ReadWrite)].

Definition section_wf (x : option VirtRange.t * PagePermissions) : Prop :=
  match fst x with Some r => VirtRange.wf r | None => True end.

(** Why the transition fails: a range that cannot be mapped, pages that collide,
    or frames that run out or have no page-table encoding. *)
Inductive transition_error (l : list PhysFrame.t) : PagingError -> Prop :=
| te_dtb va r : transition_error l (InvalidDtbMapping va r)
| te_section r : transition_error l (InvalidKernelSection r)
| te_range r base e : range_invalid r base e -> transition_error l e
| te_mapped va x : transition_error l (PageAlreadyMapped va x)
| te_exhausted : transition_error l OutOfPhysicalFrames
| te_frame fr : In fr l -> MAX_PHYSICAL_ADDRESS < PhysFrame.start fr ->
    transition_error l (PhysicalAddressNotRepresentable (PhysFrame.start fr)).

Lemma te_tables l n e : table_error l n e -> transition_error l e.
Proof. intros [[-> _]|(fr & Hin%in_take & -> & Hm)]; by constructor. Qed.

Lemma te_ranges sp pages l n e : range_error sp pages l n e -> transition_error l e.
Proof. intros [[(va & x & ->) _]|Ht]; [constructor|by eapply te_tables]. Qed.

Lemma te_page sp l va fr e : map_failure sp l va fr e -> PhysFrame.start fr <= MAX_PHYSICAL_ADDRESS -> transition_error l e.
Proof. intros [Hm|lf x _|? Ht] Hle; [lia|constructor|by eapply te_tables]. Qed.

Lemma te_suffix l used e : transition_error l e -> transition_error (used ++ l) e.
Proof. intros []; try by econstructor. apply te_frame; [|done]. apply in_or_app. auto. Qed.

Section transition.
Context {F : Type} `{FrameAllocator F} (root : Z).

Abbreviation state := (BootstrapPaging.t * machine * F)%type.
Abbreviation good := (good (boot_inv root) (boot_slot root) (boot_busy root)).
Abbreviation avoids_all := (avoids_all (boot_slot root)).

(** Steps that grew the tables, without the number of frames. *)
Definition advanced (T : table_map) (l : list PhysFrame.t) (w : state) (T' : table_map) (l' : list PhysFrame.t)
    (w' : state) : Prop := exists n, stepped n T l w T' l' w'.

Lemma advanced_refl T l w : advanced T l w T l w.
Proof. exists 0%nat. apply stepped_refl. Qed.

Lemma advanced_trans T1 l1 w1 T2 l2 w2 T3 l3 w3 :
  advanced T1 l1 w1 T2 l2 w2 -> advanced T2 l2 w2 T3 l3 w3 -> advanced T1 l1 w1 T3 l3 w3.
Proof. intros [n Hn] [m Hm]. eexists. by eapply stepped_trans. Qed.

Lemma advanced_sub T l w T' l' w' p f : advanced T l w T' l' w' -> T !! p = Some f -> T' !! p = Some f.
Proof. intros [n [(u & _ & _ & [Hsub _]) _]] Hp. by eapply lookup_weaken. Qed.

Lemma advanced_error T l w T' l' w' e : advanced T l w T' l' w' -> transition_error l' e -> transition_error l e.
Proof. intros [n [(u & -> & _) _]]. apply te_suffix. Qed.

Lemma advanced_avoids T sp l w T' l' w' :
  advanced T l w T' l' w' -> good T sp l w -> avoids_all T -> avoids_all T'.
Proof. intros [n Hn] Hg. by eapply (avoids_all_stepped (boot_inv root) (boot_slot root) (boot_busy root)). Qed.

(** The loop over the sections. *)
Lemma map_sections_spec top kernel_start vstart sections : forall T sp l (w : state),
  good T sp l w -> T !! [] = Some top -> avoids_all T -> Forall section_wf sections ->
  0 <= kernel_start ->
  exists o w' T' sp' l', map_sections (PhysFrame.mk top) kernel_start vstart sections w = (o, w') /\
  advanced T l w T' l' w' /\ good T' sp' l' w' /\
  match o with
  | Ok _ => sections_disjoint kernel_start vstart sections sp /\
      sp' = section_pages kernel_start vstart sections sp
  | Err e => transition_error l e
  | _ => False
  end.
Proof.
  induction sections as [|[[r|] permissions] sections IH]; intros T sp l w Hg Ht Ha Hwf Hk;
    cbn [map_sections section_pages sections_disjoint].
  - eexists _, _, T, sp, l. split; [done|]. split; [apply advanced_refl|]. done.
  - apply Forall_cons_1 in Hwf as [Hr Hwf]. cbn [section_wf fst] in Hr.
    unfold VirtAddr.as_usize, PhysAddr.checked_add, PhysAddr.new, PhysAddr.as_usize.
    match goal with |- context [ok_or ?x ?y] => set (o := ok_or (E:=PagingError) x y) end.
    assert (loadable kernel_start vstart r /\ o = Ok (PhysFrame.mk (load_address kernel_start vstart r)) \/
      o = Err (InvalidKernelSection r)) as [[Hl ->]| ->].
    { unfold o, checked_sub. destruct (vstart <=? VirtRange.start r) eqn:E1; zbool; [|by right].
      cbn [mbind option_bind]. destruct (checked_add usize_max kernel_start _) as [x|] eqn:E2; [|by right].
      apply checked_add_Some in E2 as [Hx ->]. cbn [mbind option_bind].
      destruct (PhysFrame.from_start _) as [fr|] eqn:E3; [|by right]. left.
      apply PhysFrame.from_start_Some in E3 as [Hf Hs]; [|lia]. destruct fr as [x]. cbn in Hs. subst x. done. }
    2:{ rewrite (bind_err _ _ _ (InvalidKernelSection r) w) by done. eexists _, _, T, sp, l. split; [done|].
        split; [apply advanced_refl|]. split; [done|]. constructor. }
    rewrite (bind_ok _ _ _ (PhysFrame.mk (load_address kernel_start vstart r)) w) by done.
    destruct (map_range_spec (boot_inv root) (boot_slot root) (boot_busy root) top r
      (load_address kernel_start vstart r) permissions T sp l w Hg Ht Ha Hr (proj2 Hl))
      as (o1 & w1 & T1 & sp1 & l1 & Hm & Hs & Hg1 & Ho).
    assert (advanced T l w T1 l1 w1) as Hadv by by eexists.
    destruct o1 as [[]|e| |]; try done; cycle 1.
    { rewrite (bind_err _ _ _ _ _ Hm). eexists _, _, T1, sp1, l1. split; [done|]. split; [done|]. split; [done|].
      destruct Ho as [[Hi _]|He]; [by eapply te_range|by eapply te_ranges]. }
    rewrite (bind_ok _ _ _ _ _ Hm). destruct Ho as (Hd & -> & Hh).
    destruct (IH T1 _ l1 w1 Hg1 (advanced_sub _ _ _ _ _ _ _ _ Hadv Ht) (advanced_avoids _ _ _ _ _ _ _ Hadv Hg Ha) Hwf Hk)
      as (o2 & w2 & T2 & sp2 & l2 & Hm2 & Hs2 & Hg2 & Ho2).
    exists o2, w2, T2, sp2, l2. split; [exact Hm2|]. split; [by eapply advanced_trans|]. split; [done|].
    destruct o2 as [[]|e| |]; try done; [|by eapply advanced_error].
    destruct Ho2 as [Hds ->]. by split_and!.
  - apply Forall_cons_1 in Hwf as [_ Hwf]. by apply IH.
Qed.

End transition.
