(* ===== verification/KEntry.v ===== *)
(** * The kernel address space, active

    The control page of the new window, the activation of the root, and the
    whole of [into_kernel]: from the bootstrap invariant to [kernel_state]. *)

From Stdlib Require Import ZArith Lia Bool.
From Stdlib Require Import Strings.Byte.
From stdpp Require Import base list numbers gmap.
From S2P Require Import Prelude FdtScan KMemory KBootAlloc KMachine KPaging KPte KTables KMapProofs KRangeProofs KFrameWindow.
From S2P Require Import KHeap KKernelPaging KWindow KKernelProofs KBootWindow KTransition.
Local Open Scope Z_scope.

(** An empty root. *)
Lemma tables_root mm mm' c :
  representable c -> (forall x, mm' x = fill mm c FRAME_SIZE x00 x) -> tables mm' {[ [] := c ]} ∅.
Proof.
  intros Hc Hm. assert (forall i, 0 <= i < 512 -> entry mm' c i = 0) as He.
  { intros i Hi. rewrite (entry_ext _ _ _ _ Hm), entry_fill by done. by rewrite bool_decide_eq_true_2. }
  split.
  - intros p f [<- <-]%lookup_singleton_Some. split; [done|cbn; lia].
  - intros p i f [Hp _]%lookup_singleton_Some. by destruct p.
  - intros p q f [<- _]%lookup_singleton_Some [<- _]%lookup_singleton_Some. done.
  - intros p f i [<- <-]%lookup_singleton_Some _ Hi. rewrite He by done. cbn [app].
    by rewrite lookup_singleton_ne.
  - intros v g _ [Hp _]%lookup_singleton_Some. done.
  - intros v lf Hv. by rewrite lookup_empty in Hv.
Qed.

Lemma tables_empty mm : tables mm ∅ ∅.
Proof. split; intros *; rewrite ?lookup_empty; done. Qed.

Lemma leaf_for_inj a b p q u v :
  representable a -> representable b -> leaf_for a p u = leaf_for b q v -> a = b /\ p = q /\ u = v.
Proof.
  intros [_ Ha]%representable_ppn [_ Hb]%representable_ppn [= Hp Hw He Hu].
  split; [congruence|]. split; [by destruct p, q|by destruct u, v].
Qed.

(** The tables of a space hold what [control] asks of the window. *)
Lemma tables_window mm T sp top l1 l0 :
  tables mm T sp -> T !! [] = Some top -> T !! [509] = Some l1 -> T !! [509; 511] = Some l0 ->
  sp !! table_vpn = Some (leaf_for l0 ReadWrite Supervisor) -> sp !! frame_vpn = None ->
  window top l1 l0 mm /\ entry mm l0 1 = 0.
Proof.
  intros Ht Htop H1 H0 Hs Hn. destruct fixmap_numbers as (_ & _ & E2 & E1 & E0 & F2 & F1 & F0).
  destruct (t_frame _ _ _ Ht _ _ Htop) as [Rt _], (t_frame _ _ _ Ht _ _ H1) as [R1 _], (t_frame _ _ _ Ht _ _ H0) as [R0 _].
  assert (forall p q f g, p <> q -> T !! p = Some f -> T !! q = Some g -> f <> g) as Hd
    by (intros p q f g Hpq Hp Hq ->; by apply Hpq, (t_inj _ _ _ Ht p q g)).
  pose proof (t_leaf _ _ _ Ht table_vpn l0 (is_vpn_of _)) as Hl. rewrite E2, E1, E0, Hs in Hl.
  pose proof (t_leaf _ _ _ Ht frame_vpn l0 (is_vpn_of _)) as Hf. rewrite F2, F1, F0, Hn in Hf.
  split; [|by apply Hf]. split; try assumption.
  - split_and!; [by eapply (Hd [] [509])|by eapply (Hd [] [509; 511])|by eapply (Hd [509] [509; 511])].
  - rewrite (t_link _ _ _ Ht [] top 509) by (exact Htop || (cbn; lia)). cbn [app]. by rewrite H1.
  - rewrite (t_link _ _ _ Ht [509] l1 511) by (exact H1 || (cbn; lia)). cbn [app]. by rewrite H0.
  - destruct (Hl H0) as (a & p & u & Ra & -> & Heq). by apply leaf_for_inj in Heq as (-> & <- & <-).
Qed.

Section entry.
Context {F : Type} `{FrameAllocator F} (root : Z).

Abbreviation state := (BootstrapPaging.t * machine * F)%type.
Abbreviation good := (good (boot_inv root) (boot_slot root) (boot_busy root)).
Abbreviation avoids_all := (avoids_all (boot_slot root)).

(** The new root. *)
Lemma new_root_spec l (w : state) :
  good ∅ ∅ l w ->
  exists o w', Sv39PageTable_new w = (o, w') /\
  match o with
  | Ok c => exists top l', AllocatedFrame.frame c = PhysFrame.mk top /\ advanced ∅ l w {[ [] := top ]} l' w' /\
      good {[ [] := top ]} ∅ l' w'
  | Err e => transition_error l e /\ exists l', good ∅ ∅ l' w' /\ advanced ∅ l w ∅ l' w'
  | _ => False
  end.
Proof.
  intros Hg. unfold Sv39PageTable_new.
  destruct (allocate_page_table_spec (boot_inv root) (boot_slot root) (boot_busy root) ∅ ∅ l w Hg) as (o & w1 & Ha & Ho).
  exists o, w1. split; [done|]. destruct o as [c|e| |]; try done.
  2:{ destruct Ho as (He & l' & Hg' & Hs). split; [by eapply te_tables|]. exists l'. split; [done|]. by eexists. }
  destruct Ho as ([top] & l' & -> & -> & Hr & Hi & Hp & Hc & Hs & Hm). cbn [PhysFrame.start] in *.
  exists top, l'. split; [done|].
  assert (grown ∅ {[ [] := top ]} [PhysFrame.mk top]) as Hgr.
  { split; [apply map_empty_subseteq|]. intros p f [_ <-]%lookup_singleton_Some. right. by left. }
  split.
  - exists 1%nat. split; [exists [PhysFrame.mk top]; split_and!; [done|done|done]|]. split; [done|done|].
    intros x Hx. rewrite Hm. apply fill_outside. specialize (Hx [] top ltac:(apply lookup_singleton_eq)). lia.
  - split; [split; [done|by eapply tables_root]|done|].
    eapply (grown_fresh _ _ ∅ _ [PhysFrame.mk top]); [done|apply Hg|apply Hg].
Qed.

Lemma prepare_fixmap_spec top T sp l (w : state) :
  good T sp l w -> T !! [] = Some top -> avoids_all T ->
  exists o w' T' sp' l', prepare_fixmap (PhysFrame.mk top) w = (o, w') /\ advanced T l w T' l' w' /\ good T' sp' l' w' /\
  match o with
  | Ok c => exists l1 l0, c = PhysFrame.mk l0 /\ T' !! [509] = Some l1 /\ T' !! [509; 511] = Some l0 /\
      sp !! table_vpn = None /\ sp !! frame_vpn = None /\
      sp' = <[table_vpn := leaf_for l0 ReadWrite Supervisor]> sp
  | Err e => transition_error l e
  | _ => False
  end.
Proof.
  intros Hg Htop Ha. destruct fixmap_numbers as (Etb & Efb & E2 & E1 & E0 & F2 & F1 & F0).
  unfold prepare_fixmap.
  change (Z.land (Z.shiftr FIXMAP_TABLE_BASE GIGAPAGE_SHIFT) VPN_MASK) with (idx2 table_vpn).
  change (Z.land (Z.shiftr FIXMAP_TABLE_BASE MEGAPAGE_SHIFT) VPN_MASK) with (idx1 table_vpn).
  rewrite bind_assoc.
  destruct (tables_for_spec (boot_inv root) (boot_slot root) (boot_busy root) T sp l w top table_vpn Hg Htop
              (Ha _ (is_vpn_of _))) as (o1 & w1 & T1 & l1 & Hn & Hg1 & Hs1 & Ho1).
  assert (advanced T l w T1 l1 w1) as Hadv1 by by eexists.
  destruct o1 as [[c]|e| |]; try contradiction; cycle 1.
  { rewrite (bind_err _ _ _ _ _ Hn). eexists _, _, T1, sp, l1. split; [done|]. split; [done|]. split; [done|].
    by eapply te_tables. }
  rewrite (bind_ok _ _ _ _ _ Hn). rewrite E2, E1 in Ho1. cbn [PhysFrame.start] in Ho1.
  pose proof (advanced_avoids root _ _ _ _ _ _ _ Hadv1 Hg Ha) as Ha1.
  assert (c + 8 * 1 <> boot_slot root) as Hslot.
  { apply (Ha1 frame_vpn (is_vpn_of _) [509; 511] c 1 []); [done|]. by rewrite F2, F1, F0. }
  destruct (read_step (boot_inv root) (boot_slot root) (boot_busy root) T1 sp l1 w1 [509; 511] c 1 Hg1 Ho1 ltac:(lia) Hslot)
    as (w2 & Hr & Hg2 & Hk2 & Hm2).
  change FIXMAP_FRAME_INDEX with 1. rewrite (bind_ok _ _ _ _ _ Hr).
  assert (advanced T l w T1 l1 w2) as Hadv2.
  { eapply advanced_trans; [exact Hadv1|]. exists 0%nat. split; [|done]. exists []. split_and!; [done|done|apply grown_refl]. }
  pose proof (t_leaf _ _ _ (s_tables _ _ _ _ (g_settled _ _ _ _ _ _ _ Hg1)) frame_vpn c (is_vpn_of _)) as Hf.
  rewrite F2, F1, F0 in Hf. specialize (Hf Ho1). unfold leaf_entry in Hf.
  destruct (sp !! frame_vpn) as [lf|] eqn:Hfv.
  { destruct Hf as (a & pm & pv & _ & He & _).
    replace (entry (mem (snd (fst w1))) c 1 =? 0) with false by (pose proof (leaf_pte_nonzero a pm pv); lia).
    eexists _, _, T1, sp, l1. split; [done|]. split; [done|]. split; [done|]. constructor. }
  rewrite Hf. cbn [Z.eqb negb].
  assert (T1 !! [] = Some top) as Htop1 by (by eapply advanced_sub).
  assert (representable c) as Rc by (by apply (t_frame _ _ _ (s_tables _ _ _ _ (g_settled _ _ _ _ _ _ _ Hg1))) in Ho1 as [? _]).
  assert (PhysFrame.wf (PhysFrame.mk c)) as Wc.
  { destruct Rc as [[Hc0 Hc1] Hc2]. rewrite max_physical in Hc1. unfold PhysFrame.wf, usize_max, FRAME_SIZE in *. cbn. lia. }
  destruct (map_page_spec (boot_inv root) (boot_slot root) (boot_busy root) T1 sp l1 w2 top FIXMAP_TABLE_BASE
    (PhysFrame.mk c) ReadWrite Supervisor Hg2 Htop1 ltac:(vm_compute; split; congruence) eq_refl eq_refl (Ha1 _ (is_vpn_of _)) Wc)
    as (o3 & w3 & T3 & l3 & Hm & Hs3 & Ho3).
  assert (advanced T l w T3 l3 w3) as Hadv3 by (eapply advanced_trans; [exact Hadv2|by eexists]).
  destruct o3 as [[]|e| |]; try contradiction; destruct Ho3 as [Ho3 Hg3].
  - rewrite (bind_ok _ _ _ _ _ Hm). eexists _, _, T3, _, l3. split; [done|]. split; [done|]. split; [exact Hg3|].
    assert (T3 !! [509; 511] = Some c) as Hc3 by (eapply (advanced_sub T1 l1 w2); [eexists; exact Hs3|exact Ho1]).
    pose proof (t_parent _ _ _ (s_tables _ _ _ _ (g_settled _ _ _ _ _ _ _ Hg3)) [509] 511 c Hc3) as [[b Hb] _].
    exists b, c. by split_and!.
  - rewrite (bind_err _ _ _ _ _ Hm). eexists _, _, T3, _, l3. split; [done|]. split; [done|]. split; [exact Hg3|].
    eapply (advanced_error T l w T1 l1 w1); [done|]. eapply te_page; [done|]. by destruct Rc as [[_ ?] _].
Qed.

(** ** Activation *)

Definition activated (top : Z) (m : machine) : machine :=
  mkMachine (mem m) (root_satp top) (fun vp => translate (mem m) (root_satp top) (vp * 4096)).

Lemma activate_root_eq top (m : machine) :
  representable top -> activate_root (PhysFrame.mk top) m = (Ok tt, activated top m).
Proof.
  intros Hr. assert (Z.lor (shl SATP_MODE_SV39 SATP_MODE_SHIFT) (Z.shiftr top PAGE_SHIFT) = root_satp top) as He.
  { unfold PAGE_SHIFT. rewrite Z.shiftr_div_pow2 by done. by apply root_satp_lor. }
  unfold activate_root, PhysFrame.start_address, PhysAddr.as_usize. cbn [PhysFrame.start]. rewrite He. reflexivity.
Qed.

(** Activating the finished tables hands them to the kernel capability. *)
Lemma activated_state top l1 l0 T sp l (w : state) pages :
  good T (<[table_vpn := leaf_for l0 ReadWrite Supervisor]> sp) l w ->
  T !! [] = Some top -> T !! [509] = Some l1 -> T !! [509; 511] = Some l0 ->
  sp !! frame_vpn = None -> unmapped sp l ->
  let k := KernelPaging.mk (AllocatedFrame.mk (PhysFrame.mk top)) (PhysFrame.mk l0) pages
             (FIXMAP_TABLE_BASE + 8 * FIXMAP_FRAME_INDEX) false in
  let w' := (k, activated top (snd (fst w)), snd w) in
  kernel_state top l1 l0 T (<[table_vpn := leaf_for l0 ReadWrite Supervisor]> sp) l w' /\
  shows_space (hart w') (<[table_vpn := leaf_for l0 ReadWrite Supervisor]> sp).
Proof.
  intros [[_ Ht] Hp Hf] Htop H1 H0 Hn Hu k w'. set (sp' := <[table_vpn := _]> sp) in *.
  assert (sp' !! table_vpn = Some (leaf_for l0 ReadWrite Supervisor)) as Hs by apply lookup_insert_eq.
  assert (sp' !! frame_vpn = None) as Hn' by (unfold sp'; by rewrite lookup_insert_ne).
  destruct (tables_window _ _ _ _ _ _ Ht Htop H1 H0 Hs Hn') as [Hw Hc].
  pose proof Hw as [Rt R1 R0 _ _ _ _]. cbn [fst snd] in *.
  assert (kernel_inv top l1 l0 k (activated top (snd (fst w)))) as Hinv.
  { split; [split; try done|done]. cbn [activated tlb]. unfold translate.
    destruct (root_satp_fields top Rt) as [-> ->]. 
    change (canonical _) with true. cbn [andb Z.eqb Pos.eqb].
    change (FIXMAP_TABLE_BASE / 4096 * 4096 / 4096 mod 2 ^ 27) with table_vpn.
    rewrite <- Hs. apply (walk_represented _ T); [done|done|apply is_vpn_of]. }
  assert (kernel_state top l1 l0 T sp' l w') as Hk.
  { split; try done.
    - split; [split; [done|done]|done|]. intros fr Hin. destruct (Hf fr Hin) as [Hun _]. split; [done|].
      pose proof (proj1 (List.Forall_forall _ _) (proj1 (proj2 Hp)) fr Hin) as (_ & Ha & _).
      assert (forall p f i, T !! p = Some f -> representable f -> 0 <= i < 512 -> off_frame (PhysFrame.start fr) (f + 8 * i)) as Hoff.
      { intros p f i Hpf [_ Hfa] Hi. assert (f <> PhysFrame.start fr) by (intros ->; by apply (Hun p)).
        unfold off_frame, FRAME_SIZE in *. Z.div_mod_to_equations. lia. }
      apply List.Forall_forall. intros x Hx. destruct Hx as [<-|[<-|[<-|[<-|[]]]]]; by eapply Hoff.
    - intros v lf fr [[<- <-]|[_ Hv]]%lookup_insert_Some Hin; [|by eapply Hu].
      destruct (Hf fr Hin) as [Hun _]. cbn [leaf_for l_ppn]. intros He. apply (Hun [509; 511]). rewrite H0. f_equal.
      destruct R0 as [_ R0].
      pose proof (proj1 (List.Forall_forall _ _) (proj1 (proj2 Hp)) fr Hin) as (_ & Ha & _).
      unfold FRAME_SIZE in *. Z.div_mod_to_equations. lia. }
  split; [done|]. apply (flushed_shows top l1 l0 T sp' l w' Hk).
Qed.

(** ** The transition *)

(** The pages the transition is asked to map. *)
Definition planned (kernel_start : Z) (sections : KernelSections) (dtb_virtual : Z) (dtb : PhysRange.t) : space :=
  match dtb_page_mapping dtb_virtual dtb with
  | Ok (pages, frame) =>
      pages_of pages (PhysFrame.start frame) ReadOnly ∪
      section_pages kernel_start (virtual_start sections) (sections_of sections) ∅
  | _ => ∅
  end.

(** Memory outside a list of frames. *)
Definition off_frames (l : list PhysFrame.t) (x : Z) : Prop :=
  forall fr, In fr l -> ~ (PhysFrame.start fr <= x < PhysFrame.start fr + FRAME_SIZE).

(** What the transition leaves, whether it succeeds or not: frames of the
    allocator became tables and no other byte changed. *)
Definition built (l : list PhysFrame.t) (w : state) (l' : list PhysFrame.t) (m' : memory) : Prop :=
  exists used, l = used ++ l' /\ forall x, off_frames used x -> m' x = mem (snd (fst w)) x.

Lemma advanced_built l (w : state) T' l' w' :
  advanced ∅ l w T' l' w' ->
  built l w l' (mem (snd (fst w'))) /\ satp (snd (fst w')) = satp (snd (fst w)) /\ fst (fst w') = fst (fst w).
Proof.
  intros [n [(used & -> & _ & [_ Hn]) [K1 K2 K3]]]. split; [|done]. exists used. split; [done|].
  intros x Hx. apply K3. intros p f Hp. apply Hn in Hp as [Hp|Hin]; [by rewrite lookup_empty in Hp|].
  exact (Hx _ Hin).
Qed.

Lemma start_good l (w : state) :
  boot_inv root (fst (fst w)) (snd (fst w)) -> provides (snd w) l ->
  (forall fr, In fr l -> PhysFrame.start fr <> root) ->
  good ∅ ∅ l w /\ avoids_all ∅.
Proof.
  intros Hi Hp Hr. split; [|intros v _ p f i q; by rewrite lookup_empty].
  split; [split; [done|apply tables_empty]|done|]. intros fr Hin. split; [intros p; by rewrite lookup_empty|].
  pose proof (proj1 (List.Forall_forall _ _) (proj1 (proj2 Hp)) fr Hin) as (_ & Ha & _).
  pose proof (root_index root _ _ (b_control _ _ _ Hi)) as Hidx. pose proof (b_root _ _ _ (b_control _ _ _ Hi)) as [_ Hm].
  specialize (Hr fr Hin). apply List.Forall_forall. intros x Hx. unfold off_frame, boot_slot, FRAME_SIZE in *.
  destruct Hx as [<-|[<-|[]]]; Z.div_mod_to_equations; lia.
Qed.

(** The sections and the devicetree, below a fresh root. *)
Lemma fill_plan_spec top kernel_start vstart sections pages fbase l (w : state) :
  good {[ [] := top ]} ∅ l w -> avoids_all {[ [] := top ]} -> Forall section_wf sections -> 0 <= kernel_start ->
  VirtRange.wf pages -> PhysFrame.wf (PhysFrame.mk fbase) ->
  let loaded := section_pages kernel_start vstart sections ∅ in
  let alias := pages_of pages fbase ReadOnly in
  exists o w' T' sp' l',
    (let* _ := map_sections (PhysFrame.mk top) kernel_start vstart sections in
     map_range (PhysFrame.mk top) pages (PhysFrame.mk fbase) ReadOnly) w = (o, w') /\
    advanced {[ [] := top ]} l w T' l' w' /\ good T' sp' l' w' /\
    match o with
    | Ok _ => sections_disjoint kernel_start vstart sections ∅ /\ in_half (VirtRange.start pages) (page_count pages) /\
        alias ##ₘ loaded /\ sp' = alias ∪ loaded
    | Err e => transition_error l e
    | _ => False
    end.
Proof.
  intros Hg Ha Hwf Hks Hpw Hfw loaded alias.
  destruct (map_sections_spec root top kernel_start vstart sections _ ∅ l w Hg
    ltac:(apply lookup_singleton_eq) Ha Hwf Hks) as (o2 & w2 & T2 & sp2 & l2 & Hm2 & Hadv2 & Hg2 & Ho2).
  destruct o2 as [[]|e| |]; try contradiction; cycle 1.
  { rewrite (bind_err _ _ _ _ _ Hm2). by eexists _, w2, T2, sp2, l2. }
  rewrite (bind_ok _ _ _ _ _ Hm2). destruct Ho2 as [Hds ->].
  assert (T2 !! [] = Some top) as Htop2 by (eapply advanced_sub; [exact Hadv2|apply lookup_singleton_eq]).
  pose proof (advanced_avoids root _ _ _ _ _ _ _ Hadv2 Hg Ha) as Ha2.
  destruct (map_range_spec (boot_inv root) (boot_slot root) (boot_busy root) top pages fbase ReadOnly T2 _ l2 w2
    Hg2 Htop2 Ha2 Hpw Hfw) as (o3 & w3 & T3 & sp3 & l3 & Hm3 & Hs3 & Hg3 & Ho3).
  eexists _, w3, T3, sp3, l3. split; [exact Hm3|].
  split; [eapply advanced_trans; [exact Hadv2|by eexists]|]. split; [done|].
  destruct o3 as [[]|e| |]; try done; [by destruct Ho3 as (Hd & -> & Hh)|].
  eapply advanced_error; [exact Hadv2|]. destruct Ho3 as [[He _]|He]; [by eapply te_range|by eapply te_ranges].
Qed.

(** What a failure leaves. *)
Definition abandoned (l : list PhysFrame.t) (w : state) (e : PagingError) (w' : state) : Prop :=
  transition_error l e /\ boot_inv root (fst (fst w')) (snd (fst w')) /\
  exists l', provides (snd w') l' /\ built l w l' (mem (snd (fst w'))) /\ satp (snd (fst w')) = satp (snd (fst w)).

Lemma abandon l w e T sp l' w' :
  advanced ∅ l w T l' w' -> good T sp l' w' -> transition_error l e -> abandoned l w e w'.
Proof.
  intros Hadv [[Hi' _] Hp' _] He. split; [done|]. split; [done|]. exists l'.
  apply advanced_built in Hadv as (Hb & Hs & _). by split_and!.
Qed.

Lemma into_kernel_spec kernel_start sections dtb_virtual dtb l (w : state) :
  boot_inv root (fst (fst w)) (snd (fst w)) -> provides (snd w) l ->
  (forall fr, In fr l -> PhysFrame.start fr <> root) ->
  Forall section_wf (sections_of sections) -> 0 <= kernel_start ->
  is_usize dtb_virtual -> PhysRange.wf dtb -> unmapped (planned kernel_start sections dtb_virtual dtb) l ->
  exists o w', into_kernel kernel_start sections dtb_virtual dtb w = (o, w') /\
  match o with
  | Ok k => exists top l1 l0 T l' pages frame,
      dtb_page_mapping dtb_virtual dtb = Ok (pages, frame) /\
      sections_disjoint kernel_start (virtual_start sections) (sections_of sections) ∅ /\
      in_half (VirtRange.start pages) (page_count pages) /\
      pages_of pages (PhysFrame.start frame) ReadOnly ##ₘ
        section_pages kernel_start (virtual_start sections) (sections_of sections) ∅ /\
      planned kernel_start sections dtb_virtual dtb !! table_vpn = None /\
      let sp := <[table_vpn := leaf_for l0 ReadWrite Supervisor]> (planned kernel_start sections dtb_virtual dtb) in
      let state' := (k, snd (fst w'), snd w') in
      kernel_state top l1 l0 T sp l' state' /\ shows_space (hart state') sp /\
      KernelPaging.dtb_mapping k = pages /\ KernelPaging.heap_claimed k = false /\
      built l w l' (mem (snd (fst w')))
  | Err e => abandoned l w e w'
  | _ => False
  end.
Proof.
  intros Hi Hp Hroot Hwf Hks Hva Hdtb. unfold planned, into_kernel.
  pose proof (dtb_page_mapping_spec dtb_virtual dtb Hva Hdtb) as Hspec.
  destruct (start_good l w Hi Hp Hroot) as [Hg Ha].
  destruct (dtb_page_mapping dtb_virtual dtb) as [[pages [fbase]]|e| |] eqn:Hmapping; try done; intros Hun.
  2:{ rewrite (bind_err _ _ _ e w) by done. do 2 eexists. split; [done|].
      apply (abandon l w e ∅ ∅ l w (advanced_refl _ _ _) Hg). destruct Hspec as [-> _]. constructor. }
  destruct Hspec as (_ & Hpw & Hfw & _). rewrite (bind_ok _ _ _ (pages, PhysFrame.mk fbase) w) by done.
  destruct (new_root_spec l w Hg) as (o1 & w1 & Hn & Ho1). destruct o1 as [[cfr]|e| |]; try contradiction; cycle 1.
  { rewrite (bind_err _ _ _ _ _ Hn). do 2 eexists. split; [done|]. destruct Ho1 as (He & l' & Hg' & Hadv).
    by eapply abandon. }
  rewrite (bind_ok _ _ _ _ _ Hn). destruct Ho1 as (top & l1 & Hc & Hadv1 & Hg1).
  cbn [AllocatedFrame.frame] in *. subst cfr. rewrite bind_assoc.
  pose proof (advanced_avoids root _ _ _ _ _ _ _ Hadv1 Hg Ha) as Ha1.
  destruct (fill_plan_spec top kernel_start (virtual_start sections) (sections_of sections) pages fbase l1 w1
    Hg1 Ha1 Hwf Hks Hpw Hfw) as (o3 & w3 & T3 & sp3 & l3 & Hm3 & Hadv3 & Hg3 & Ho3).
  pose proof (advanced_trans _ _ _ _ _ _ _ _ _ Hadv1 Hadv3) as Hadv03.
  destruct o3 as [[]|e| |]; try contradiction; cycle 1.
  { rewrite (bind_err _ _ _ _ _ Hm3). do 2 eexists. split; [done|].
    eapply abandon; [done|done|eapply advanced_error; [exact Hadv1|done]]. }
  rewrite (bind_ok _ _ _ _ _ Hm3). destruct Ho3 as (Hds & Hh & Hd & ->).
  assert (T3 !! [] = Some top) as Htop3 by (eapply advanced_sub; [exact Hadv3|apply lookup_singleton_eq]).
  pose proof (advanced_avoids root _ _ _ _ _ _ _ Hadv3 Hg1 Ha1) as Ha3.
  destruct (prepare_fixmap_spec top T3 _ l3 w3 Hg3 Htop3 Ha3) as (o4 & w4 & T4 & sp4 & l4 & Hm4 & Hadv4 & Hg4 & Ho4).
  pose proof (advanced_trans _ _ _ _ _ _ _ _ _ Hadv03 Hadv4) as Hadv04.
  destruct o4 as [cf|e| |]; try contradiction; cycle 1.
  { rewrite (bind_err _ _ _ _ _ Hm4). do 2 eexists. split; [done|].
    eapply abandon; [done|done|eapply advanced_error; [exact Hadv03|done]]. }
  rewrite (bind_ok _ _ _ _ _ Hm4). destruct Ho4 as (b & l0 & -> & Hb & Hl0 & Htv & Hfv & ->).
  pose proof (advanced_sub _ _ _ _ _ _ _ _ Hadv4 Htop3) as Htop4.
  assert (representable top) as Rt by (by apply (t_frame _ _ _ (s_tables _ _ _ _ (g_settled _ _ _ _ _ _ _ Hg4))) in Htop4 as [? _]).
  cbn [KernelPaging.root AllocatedFrame.frame]. destruct w4 as [[a4 m4] s4].
  erewrite bind_ok by (apply on_access_eq, on_hart_ok, infallible_ok, activate_root_eq; exact Rt).
  do 2 eexists. split; [reflexivity|]. exists top, b, l0, T4, l4, pages, (PhysFrame.mk fbase).
  destruct (advanced_built _ _ _ _ _ Hadv04) as ((used & -> & Hout) & Hs & Hcap).
  pose proof (unmapped_tail _ used _ Hun) as Hum.
  destruct (activated_state top b l0 T4 _ l4 (a4, m4, s4) pages Hg4 Htop4 Hb Hl0 Hfv Hum) as [Hk Hsh].
  cbn [fst snd] in *. do 5 (split; [done|]). split; [exact Hk|]. split; [exact Hsh|].
  split; [done|]. split; [done|]. by exists used.
Qed.

End entry.
