(* ===== verification/KPlan.v ===== *)
(** * What the planned address space contains

    The pages of the sections and of the devicetree, address by address: every
    byte of a section is mapped where it was loaded with the permissions of the
    section, and nothing else is mapped. *)

From Stdlib Require Import ZArith Lia Bool.
From Stdlib Require Import Strings.Byte.
From stdpp Require Import base list numbers gmap.
From S2P Require Import Prelude FdtScan KMemory KBootAlloc KMachine KPaging KPte KTables KMapProofs KRangeProofs.
From S2P Require Import KHeap KKernelPaging KWindow KKernelProofs KBootWindow KTransition KEntry.
Local Open Scope Z_scope.

Lemma page_count_spec r :
  VirtRange.wf r -> let n := Z.of_nat (page_count r) in
  0 < n /\ (n - 1) * FRAME_SIZE < VirtRange.end_ r - VirtRange.start r <= n * FRAME_SIZE.
Proof.
  intros (H0 & Hlt & _). unfold page_count, FRAME_SIZE.
  rewrite Z2Nat.id by (Z.div_mod_to_equations; lia). cbn zeta. Z.div_mod_to_equations. lia.
Qed.

(** An address of a mapped range. *)
Lemma pages_of_at r base permissions va :
  VirtRange.wf r -> in_half (VirtRange.start r) (page_count r) -> base mod FRAME_SIZE = 0 ->
  VirtRange.contains r va ->
  pages_of r base permissions !! vpn_of va =
    Some (leaf_for (base + (va - VirtRange.start r)) permissions Supervisor).
Proof.
  intros Hwf Hh Hb [Hlo Hhi]. destruct (page_count_spec r Hwf) as (Hn & Hn1 & Hn2). destruct Hh as [Ha Hh'].
  set (j := (va - VirtRange.start r) / FRAME_SIZE).
  assert (0 <= j < Z.of_nat (page_count r)) as Hj by (unfold j, FRAME_SIZE in *; Z.div_mod_to_equations; lia).
  unfold pages_of. assert (vpn_of va = vpn_of (VirtRange.start r + j * FRAME_SIZE)) as ->.
  { unfold vpn_of, j. f_equal. unfold FRAME_SIZE in *. Z.div_mod_to_equations. lia. }
  rewrite range_pages_at by done. unfold leaf_for. do 2 f_equal. unfold j, FRAME_SIZE in *.
  Z.div_mod_to_equations. lia.
Qed.

(** A mapped page of a range holds one of its addresses. *)
Lemma pages_of_inv r base permissions v lf :
  VirtRange.wf r -> pages_of r base permissions !! v = Some lf ->
  exists va, VirtRange.contains r va /\ v = vpn_of va /\
    lf = leaf_for (base + (va - VirtRange.start r)) permissions Supervisor.
Proof.
  intros Hwf (j & Hj & -> & ->)%range_pages_lookup. destruct (page_count_spec r Hwf) as (Hn & Hn1 & Hn2).
  exists (VirtRange.start r + j * FRAME_SIZE). split; [unfold VirtRange.contains, FRAME_SIZE in *; lia|].
  split; [done|]. f_equal. lia.
Qed.

Section sections.
Context (kernel_start vstart : Z).

Abbreviation section_pages := (section_pages kernel_start vstart).
Abbreviation sections_disjoint := (sections_disjoint kernel_start vstart).
Abbreviation load_address := (load_address kernel_start vstart).

Lemma section_pages_keep sections : forall sp v lf,
  sections_disjoint sections sp -> sp !! v = Some lf -> section_pages sections sp !! v = Some lf.
Proof.
  induction sections as [|[[r|] p] sections IH]; intros sp v lf Hd Hv; cbn in *; [done| |by apply IH].
  destruct Hd as (_ & _ & Hd & Hds). apply IH; [done|]. by apply lookup_union_Some_r.
Qed.

Lemma section_pages_mapped sections : forall sp r p v lf,
  sections_disjoint sections sp -> In (Some r, p) sections ->
  pages_of r (load_address r) p !! v = Some lf -> section_pages sections sp !! v = Some lf.
Proof.
  induction sections as [|[[r'|] p'] sections IH]; intros sp r p v lf Hd Hin Hv; cbn in *; [done| |].
  - destruct Hd as (_ & _ & Hd & Hds). destruct Hin as [[= -> ->]|Hin]; [|by eapply IH].
    apply section_pages_keep; [done|]. by apply lookup_union_Some_l.
  - destruct Hin as [|Hin]; [done|]. by eapply IH.
Qed.

Lemma section_pages_inv sections : forall sp v lf,
  section_pages sections sp !! v = Some lf ->
  sp !! v = Some lf \/ exists r p, In (Some r, p) sections /\ pages_of r (load_address r) p !! v = Some lf.
Proof.
  induction sections as [|[[r|] p] sections IH]; intros sp v lf Hv; cbn in *; [by left| |].
  - apply IH in Hv as [Hv|(r' & p' & Hin & Hv)]; [|right; by eauto].
    apply lookup_union_Some_raw in Hv as [Hv|[_ Hv]]; [right; by eauto|by left].
  - apply IH in Hv as [Hv|(r' & p' & Hin & Hv)]; [by left|right; by eauto].
Qed.

Lemma sections_disjoint_in sections : forall sp r p,
  sections_disjoint sections sp -> In (Some r, p) sections ->
  loadable kernel_start vstart r /\ in_half (VirtRange.start r) (page_count r).
Proof.
  induction sections as [|[[r'|] p'] sections IH]; intros sp r p Hd Hin; cbn in *; [done| |].
  - destruct Hd as (Hl & Hh & _ & Hds). destruct Hin as [[= <- <-]|Hin]; [done|by eapply IH].
  - destruct Hin as [|Hin]; [done|]. by eapply IH.
Qed.

End sections.

(** Where an address of the image was loaded. *)
Definition loaded_at (kernel_start : Z) (sections : KernelSections) (va : Z) : Z :=
  kernel_start + (va - virtual_start sections).

(** An address of a section, with the permissions of the section. *)
Definition in_section (sections : KernelSections) (p : PagePermissions) (va : Z) : Prop :=
  exists r, In (Some r, p) (sections_of sections) /\ VirtRange.contains r va.

Lemma section_range sections r p :
  Forall section_wf (sections_of sections) -> In (Some r, p) (sections_of sections) -> VirtRange.wf r.
Proof. intros Hf Hin. rewrite List.Forall_forall in Hf. exact (Hf _ Hin). Qed.

(** No free frame holds a byte of the image or of the devicetree. *)
Definition clear_of (l : list PhysFrame.t) (kernel_start : Z) (sections : KernelSections) (dtb : PhysRange.t) : Prop :=
  forall fr pa, In fr l -> PhysFrame.start fr <= pa < PhysFrame.start fr + FRAME_SIZE ->
    ~ PhysRange.contains dtb pa /\
    forall p va, in_section sections p va -> loaded_at kernel_start sections va <> pa.

Section plan.
Context (kernel_start : Z) (sections : KernelSections) (dtb_virtual : Z) (dtb : PhysRange.t).
Context (Hwf : Forall section_wf (sections_of sections)) (Hva : is_usize dtb_virtual) (Hdtb : PhysRange.wf dtb).

Abbreviation planned := (planned kernel_start sections dtb_virtual dtb).
Abbreviation loaded := (section_pages kernel_start (virtual_start sections) (sections_of sections) ∅).

(** A page of the plan is a page of a section or of the devicetree. *)
Lemma planned_inv v lf :
  planned !! v = Some lf ->
  (exists p va, in_section sections p va /\ v = vpn_of va /\
     lf = leaf_for (loaded_at kernel_start sections va) p Supervisor) \/
  (exists x, 0 <= x < PhysRange.end_ dtb - PhysRange.start dtb /\ v = vpn_of (dtb_virtual + x) /\
     lf = leaf_for (PhysRange.start dtb + x) ReadOnly Supervisor).
Proof.
  unfold planned. pose proof (dtb_page_mapping_spec dtb_virtual dtb Hva Hdtb) as Hspec.
  destruct (dtb_page_mapping dtb_virtual dtb) as [[pages frame]|e| |]; intros Hv; try by rewrite lookup_empty in Hv.
  destruct Hspec as (Hoff & Hpw & _ & Hs & Hf & He).
  apply lookup_union_Some_raw in Hv as [Hv|[_ Hv]].
  - right. apply pages_of_inv in Hv as (va & [Hlo Hhi] & -> & ->); [|done]. rewrite Hs, Hf, He in *.
    destruct Hdtb as (D0 & D1 & D2), Hva as [V0 V1]. pose proof (Z.div_mod va FRAME_SIZE ltac:(done)) as Ev.
    pose proof (Z.mod_pos_bound va FRAME_SIZE ltac:(done)) as Mv.
    exists (Z.max 0 (va / FRAME_SIZE * FRAME_SIZE - dtb_virtual)).
    destruct (Z.max_spec 0 (va / FRAME_SIZE * FRAME_SIZE - dtb_virtual)) as [[Hm ->]|[Hm ->]];
      unfold leaf_for, vpn_of, frame_floor, frame_ceil, FRAME_SIZE in *;
      (split; [Z.div_mod_to_equations; lia|]); (split; f_equal; Z.div_mod_to_equations; lia).
  - left. apply section_pages_inv in Hv as [Hv|(r & p & Hin & Hv)]; [by rewrite lookup_empty in Hv|].
    apply pages_of_inv in Hv as (va & Hc & -> & ->); [|by eapply section_range]. exists p, va.
    split; [by exists r|]. split; [done|]. unfold load_address, loaded_at. f_equal. lia.
Qed.

Lemma planned_unmapped l :
  Forall PhysFrame.wf l -> clear_of l kernel_start sections dtb -> unmapped planned l.
Proof.
  intros Hl Hc v lf fr Hv Hin. pose proof (proj1 (List.Forall_forall _ _) Hl fr Hin) as (_ & Hm & _).
  assert (forall pa, pa / FRAME_SIZE = PhysFrame.start fr / FRAME_SIZE ->
    PhysFrame.start fr <= pa < PhysFrame.start fr + FRAME_SIZE) as Hpa
    by (intros pa; unfold FRAME_SIZE in *; Z.div_mod_to_equations; lia).
  apply planned_inv in Hv as [(p & va & Hs & -> & ->)|(x & Hx & -> & ->)]; cbn [leaf_for l_ppn]; intros He.
  - by apply (proj2 (Hc fr _ Hin (Hpa _ He)) p va).
  - apply (proj1 (Hc fr _ Hin (Hpa _ He))). unfold PhysRange.contains. lia.
Qed.

(** The plan maps what it was made for. *)
Lemma planned_section pages frame p va :
  dtb_page_mapping dtb_virtual dtb = Ok (pages, frame) ->
  sections_disjoint kernel_start (virtual_start sections) (sections_of sections) ∅ ->
  pages_of pages (PhysFrame.start frame) ReadOnly ##ₘ loaded -> in_section sections p va ->
  planned !! vpn_of va = Some (leaf_for (loaded_at kernel_start sections va) p Supervisor).
Proof.
  intros He Hds Hd (r & Hin & Hc). unfold planned. rewrite He. apply lookup_union_Some_r; [done|].
  destruct (sections_disjoint_in _ _ _ _ _ _ Hds Hin) as [[Hl Hwf'] Hh].
  eapply section_pages_mapped; [done|done|].
  rewrite pages_of_at; [|by eapply section_range|done|apply Hwf'|done].
  do 2 f_equal. unfold load_address, loaded_at. lia.
Qed.

Lemma planned_dtb pages frame x :
  dtb_page_mapping dtb_virtual dtb = Ok (pages, frame) ->
  in_half (VirtRange.start pages) (page_count pages) ->
  0 <= x < PhysRange.end_ dtb - PhysRange.start dtb ->
  planned !! vpn_of (dtb_virtual + x) = Some (leaf_for (PhysRange.start dtb + x) ReadOnly Supervisor).
Proof.
  intros He Hh Hx. unfold planned. pose proof (dtb_page_mapping_spec dtb_virtual dtb Hva Hdtb) as Hspec.
  rewrite He in Hspec |- *. destruct Hspec as (Hoff & Hpw & Hfw & Hs & Hf & Hend).
  apply lookup_union_Some_l. rewrite pages_of_at; [|done|done|apply Hfw|].
  - unfold leaf_for. do 2 f_equal. rewrite Hs, Hf. unfold frame_floor, FRAME_SIZE in *. Z.div_mod_to_equations. lia.
  - unfold VirtRange.contains. rewrite Hs, Hend. unfold frame_floor, frame_ceil, FRAME_SIZE.
    Z.div_mod_to_equations. lia.
Qed.

End plan.

(** ** The transition *)

(** What an address may be mapped for. *)
Definition accounted (sections : KernelSections) (dtb_virtual : Z) (dtb : PhysRange.t) (l0 va : Z) (lf : leaf) : Prop :=
  vpn_of va = table_vpn /\ lf = leaf_for l0 ReadWrite Supervisor \/
  (exists p x, in_section sections p x /\ vpn_of va = vpn_of x /\ l_write lf = bool_decide (p = ReadWrite) /\
     l_exec lf = bool_decide (p = ReadExecute)) \/
  (exists x, 0 <= x < PhysRange.end_ dtb - PhysRange.start dtb /\ vpn_of va = vpn_of (dtb_virtual + x) /\
     l_write lf = false /\ l_exec lf = false).

Lemma into_kernel_plan {F} `{FrameAllocator F} root kernel_start sections dtb_virtual dtb l
    (w : BootstrapPaging.t * machine * F) :
  boot_inv root (fst (fst w)) (snd (fst w)) -> provides (snd w) l ->
  (forall fr, In fr l -> PhysFrame.start fr <> root) -> clear_of l kernel_start sections dtb ->
  Forall section_wf (sections_of sections) -> 0 <= kernel_start -> is_usize dtb_virtual -> PhysRange.wf dtb ->
  exists o w', into_kernel kernel_start sections dtb_virtual dtb w = (o, w') /\
  match o with
  | Ok k => exists top l1 l0 T sp l',
      let hart := snd (fst w') in
      kernel_state top l1 l0 T sp l' (k, hart, snd w') /\ shows_space hart sp /\
      (forall p va, in_section sections p va ->
         sp !! vpn_of va = Some (leaf_for (loaded_at kernel_start sections va) p Supervisor)) /\
      (forall x, 0 <= x < PhysRange.end_ dtb - PhysRange.start dtb ->
         sp !! vpn_of (dtb_virtual + x) = Some (leaf_for (PhysRange.start dtb + x) ReadOnly Supervisor)) /\
      (forall va lf, sp !! vpn_of va = Some lf ->
         accounted sections dtb_virtual dtb l0 va lf /\ l_user lf = false /\ l_write lf && l_exec lf = false) /\
      KernelPaging.heap_claimed k = false /\ built l w l' (mem hart)
  | Err e => transition_error l e /\ boot_inv root (fst (fst w')) (snd (fst w')) /\
      exists l', provides (snd w') l' /\ built l w l' (mem (snd (fst w'))) /\ satp (snd (fst w')) = satp (snd (fst w))
  | _ => False
  end.
Proof.
  intros Hi Hp Hroot Hc Hwf Hks Hva Hdtb.
  assert (unmapped (planned kernel_start sections dtb_virtual dtb) l) as Hu
    by (apply planned_unmapped; [done|done|done|apply Hp|done]).
  destruct (into_kernel_spec root kernel_start sections dtb_virtual dtb l w Hi Hp Hroot Hwf Hks Hva Hdtb Hu)
    as (o & w' & Hk & Ho).
  exists o, w'. split; [done|]. destruct o as [k|e| |]; try done.
  destruct Ho as (top & l1 & l0 & T & l' & pages & frame & He & Hds & Hh & Hd & Htv & Hks' & Hsh & _ & Hcl & Hb).
  set (sp := <[table_vpn := _]> (planned kernel_start sections dtb_virtual dtb)) in *.
  assert (forall v lf, planned kernel_start sections dtb_virtual dtb !! v = Some lf -> sp !! v = Some lf) as Hsp.
  { intros v lf Hv. unfold sp. rewrite lookup_insert_ne; [done|]. intros <-. congruence. }
  exists top, l1, l0, T, sp, l'. cbn zeta. split; [exact Hks'|]. split; [exact Hsh|]. split; [|split; [|split; [|done]]].
  - intros p va Hin. apply Hsp. by eapply planned_section.
  - intros x Hx. apply Hsp. by eapply planned_dtb.
  - intros va lf [[Hv <-]|[_ Hv]]%lookup_insert_Some; [split; [by left|done]|].
    apply planned_inv in Hv as [(p & x & Hin & Hx & ->)|(x & Hx & Hvx & ->)]; [| |done..].
    + split; [right; left; by exists p, x|]. split; [done|]. by destruct p.
    + split; [right; right; by exists x|done].
Qed.
