(* ===== verification/KBackingProofs.v ===== *)
(** * Heap pages on the real page tables

    [KernelHeapBacking] meets the contract of [HeapBacking]: each success maps
    one zeroed, exclusively owned frame, readable and writable by the
    supervisor; a failure maps nothing.
    The last part is stores to the heap. *)

From Stdlib Require Import ZArith Lia Bool.
From Stdlib Require Import Strings.Byte.
From stdpp Require Import base list numbers gmap.
From S2P Require Import Prelude FdtScan KMemory KBootAlloc KMachine KPaging KPte KTables KMapProofs.
From S2P Require Import KHeap KHeapProofs KKernelPaging KWindow KKernelProofs.
From S2P Require Import KFrameWindow.
Local Open Scope Z_scope.

Section backing.
Context {F : Type} `{FrameAllocator F} (root l1 l0 : Z).

Abbreviation state := (KernelPaging.t * machine * F)%type.
Abbreviation kernel_state := (kernel_state root l1 l0).

(** Every byte of a frame is zero. *)
Definition zeroed (m : machine) (fr : PhysFrame.t) : Prop :=
  forall x, PhysFrame.start fr <= x < PhysFrame.start fr + FRAME_SIZE -> mem m x = x00.

Lemma state_taken T sp fr l w w' :
  kernel_state T sp (fr :: l) w -> fst w' = fst w -> provides (snd w') l -> kernel_state T sp l w'.
Proof.
  intros [[[Hi Ht] Hp Hf] Hr H1 H0 Hu] Hw Hp'. split; try done.
  - split; [split; by rewrite Hw|done|]. intros x Hx. apply Hf. by right.
  - by apply (unmapped_tail _ [fr]).
Qed.

Lemma state_exhausted T sp w w' :
  kernel_state T sp [] w -> fst w' = fst w -> provides (snd w') [] -> kernel_state T sp [] w'.
Proof.
  intros [[[Hi Ht] Hp Hf] Hr H1 H0 Hu] Hw Hp'. split; try done. by split; [split; rewrite Hw|..].
Qed.

(** Memory of a frame that is not a table survives the growth of the tables. *)
Lemma stepped_frame n T sp l w T' l' w' fr x :
  kernel_state T sp l w -> stepped n T l w T' l' w' ->
  PhysFrame.wf fr -> ~ In fr l -> Forall PhysFrame.wf l -> unused T (PhysFrame.start fr) ->
  PhysFrame.start fr <= x < PhysFrame.start fr + FRAME_SIZE ->
  mem (hart w') x = mem (hart w) x.
Proof.
  intros [[[_ Ht] _ _] _ _ _ _] [(u & -> & _ & [_ Hnew]) Hk] Hfr Hni Hwf Hun Hx.
  apply (k_mem _ _ _ Hk). intros p f Hp Hxf.
  assert (f mod FRAME_SIZE = 0 /\ f <> PhysFrame.start fr) as [Hm Hne].
  { apply Hnew in Hp as [Hp|Hin].
    - split; [by apply (t_frame _ _ _ Ht) in Hp as [[_ ?] _]|]. intros ->. by apply (Hun p).
    - rewrite List.Forall_forall in Hwf. assert (In (PhysFrame.mk f) (u ++ l')) as Hin' by (apply in_or_app; auto).
      split; [by apply Hwf in Hin' as (_ & ? & _)|]. intros ->. apply Hni. by destruct fr. }
  destruct Hfr as (_ & Hm' & _). apply Hne. unfold FRAME_SIZE in *. Z.div_mod_to_equations. lia.
Qed.

(** A request inside the claimed reservation passes every guard. *)
Lemma backing_page_steps a (w : state) :
  KernelPaging.heap_claimed (capability w) = true -> HEAP_START <= a < HEAP_END -> a mod FRAME_SIZE = 0 ->
  backing_map_page a w = (let* frame := next_frame in
    let* frame := lift (ok_or frame OutOfPhysicalFrames) in
    let* _ := on_access (KernelPaging.zero_frame frame) in
    KernelPaging.install_page a frame ReadWrite) w.
Proof.
  intros Hcl Ha Hal. destruct w as [[c m] s]. unfold backing_map_page, VirtAddr.as_usize.
  rewrite (bind_ok _ _ _ (c, m, s) (c, m, s)) by done. cbn [capability fst] in Hcl. rewrite Hcl.
  replace ((HEAP_START <=? a) && (a <? HEAP_END)) with true by lia. by rewrite page_mask_zero, Hal.
Qed.

(** One request for a heap page. *)
Lemma backing_page_spec T sp l (w : state) a :
  kernel_state T sp l w -> KernelPaging.heap_claimed (capability w) = true ->
  HEAP_START <= a < HEAP_END -> a mod FRAME_SIZE = 0 ->
  exists o w' T' sp' l', backing_map_page a w = (o, w') /\
    kernel_state T' sp' l' w' /\ capability w' = capability w /\ (forall fr, owned T l fr -> owned T' l' fr) /\
    (synced (hart w) -> synced (hart w')) /\ used_up 3 l l' /\
    match o with
    | Ok _ => exists fr, In fr l /\ owned T' l' fr /\ representable (PhysFrame.start fr) /\ zeroed (hart w') fr /\
        sp !! vpn_of a = None /\ sp' = <[vpn_of a := leaf_for (PhysFrame.start fr) ReadWrite Supervisor]> sp /\
        shows_space (hart w') sp'
    | Err e => sp' = sp /\
        (e = OutOfPhysicalFrames /\ (length l < 3)%nat \/ (exists lf x, sp !! vpn_of a = Some lf /\ e = PageAlreadyMapped a x) \/
         exists fr, In fr (take 3 l) /\ MAX_PHYSICAL_ADDRESS < PhysFrame.start fr /\
           e = PhysicalAddressNotRepresentable (PhysFrame.start fr))
    | _ => False
    end.
Proof.
  intros Hk Hcl Ha Hal. assert (is_usize a /\ SV39_HIGH_HALF_BASE <= a /\ a <> FIXMAP_FRAME_BASE) as (Hua & Hhi & Hnf).
  { destruct high_numbers as (-> & _), fixmap_numbers as (_ & -> & _). change HEAP_START with 0xffffffe000000000 in Ha.
    change HEAP_END with 0xffffffe040000000 in Ha. unfold is_usize, usize_max. lia. }
  rewrite (backing_page_steps a w Hcl Ha Hal).
  destruct l as [|fr l].
  { destruct (next_frame_nil w (g_provides _ _ _ _ _ _ _ (ks_good _ _ _ _ _ _ _ Hk))) as (w' & Hn & Hw & Hp).
    rewrite (bind_ok _ _ _ _ _ Hn), (bind_err _ _ _ OutOfPhysicalFrames w') by done.
    eexists _, _, T, sp, []. split; [done|]. split; [by eapply state_exhausted|].
    split; [unfold capability; by rewrite Hw|]. split; [done|]. split; [unfold hart; by rewrite Hw|].
    split; [by exists []; split; [|cbn; lia]|]. split; [done|]. left. split; [done|cbn; lia]. }
  pose proof Hk as [[Hse Hpr Hfresh] _ _ _ Hum]. destruct (Hfresh fr (or_introl eq_refl)) as [Hun Hoff].
  destruct (next_frame_cons w fr l Hpr) as (w1 & Hn & Hw & Hp).
  apply provides_cons in Hpr as (_ & _ & _ & Hfr & Hni). pose proof (state_taken T sp fr l w w1 Hk Hw Hp) as Hk1.
  rewrite (bind_ok _ _ _ _ _ Hn), (bind_ok _ _ _ (AllocatedFrame.mk fr) w1) by done. destruct fr as [f].
  destruct (Z_lt_le_dec MAX_PHYSICAL_ADDRESS f) as [Hhigh|Hlow].
  { pose proof (s_inv _ _ _ _ (g_settled _ _ _ _ _ _ _ (ks_good _ _ _ _ _ _ _ Hk1))) as Hi1.
    destruct w1 as [[a1 m1] s1]. cbn [fst snd] in *.
    erewrite bind_err by (apply on_access_eq, (access_high (inv:=kernel_inv root l1 l0)); done).
    eexists _, _, T, sp, l. split; [done|]. split; [done|].
    split; [unfold capability; by rewrite <- Hw|]. split; [by intros ? ?%owned_tail|].
    split; [unfold hart; by rewrite <- Hw|]. split; [by exists [PhysFrame.mk f]; split; [|cbn; lia]|].
    split; [done|]. right. right.
    exists (PhysFrame.mk f). split; [by left|done]. }
  assert (representable f) as Hrep by (split; [split; [apply Hfr|done]|apply Hfr]).
  destruct (zero_step _ _ _ T sp l w1 f (ks_good _ _ _ _ _ _ _ Hk1) Hrep Hun Hoff)
    as (w2 & Hz & Hg2 & Hc2 & _ & Hm2).
  rewrite (bind_ok _ _ _ _ _ Hz).
  assert (kernel_state T sp l w2) as Hk2 by (destruct Hk1 as [_ ? ? ? ?]; by split).
  destruct (install_page_spec root l1 l0 T sp l w2 a (PhysFrame.mk f) ReadWrite Hk2 Hua Hfr Hni)
    as (o & w3 & Hi & Hres & _). pose proof Hres as (T' & sp' & l' & Hk3 & Hst & Ho).
  exists o, w3, T', sp', l'. split; [done|]. split; [done|].
  assert (capability w3 = capability w) as Hcap.
  { unfold capability. rewrite (k_cap _ _ _ (st_kept _ _ _ _ _ _ _ Hst)), Hc2, Hw. done. }
  split; [done|]. split; [intros fr' Hfr'%owned_tail; by eapply stepped_owned|]. split.
  { intros Hs. eapply mapping_synced; [exact Hres|]. apply (synced_kept root l1 l0 T sp l w1 T l w2 Hk1 Hk2).
    - eapply keeps_result; [apply keeps_on_access, keeps_zero_frame|exact Hz].
    - unfold hart. by rewrite Hw. }
  split; [apply (used_up_trans 1 2 _ l); [by exists [PhysFrame.mk f]|by eapply stepped_used]|].
  destruct o as [[]|e| |]; try done.
  - destruct Ho as (Hsh & _ & Hnone & ->). exists (PhysFrame.mk f). split; [by left|].
    split; [eapply stepped_owned; [exact Hst|by split_and!]|]. split; [done|]. split; [|done]. intros x Hx.
    rewrite (stepped_frame 2 T sp _ w2 T' l' w3 (PhysFrame.mk f) x Hk2 Hst Hfr Hni); [|apply Hp|done|done].
    unfold hart. rewrite Hm2. unfold fill. cbn in Hx. by replace ((f <=? x) && (x <? f + FRAME_SIZE)) with true by lia.
  - destruct Ho as [-> [[[[? _]|[? _]] _]|[Hpf _]]]; [lia|done|]. split; [done|].
    destruct Hpf as [?|e' _ Hmf]; [done|]. destruct Hmf as [Hh|lf x Hlf|e' [[-> Hshort]|(g & Hg & -> & Hh)]].
    + cbn in Hh. lia.
    + right. left. by exists lf, x.
    + left. split; [done|cbn; lia].
    + right. right. exists g. split; [by right|done].
Qed.

(** ** The contract *)

(** The pages of the heap's reservation. *)
Definition heap_vpn (v : Z) : Prop := exists a, HEAP_START <= a < HEAP_END /\ v = vpn_of a.

(** No page shares the frame of a heap page. *)
Definition private (sp : space) : Prop :=
  forall v v' lf lf', heap_vpn v -> sp !! v = Some lf -> sp !! v' = Some lf' ->
    l_ppn lf = l_ppn lf' -> v = v'.

(** A heap page is a frame of its own, which no table uses. *)
Definition heap_frames (T : table_map) (sp : space) (l : list PhysFrame.t) : Prop :=
  forall v lf, heap_vpn v -> sp !! v = Some lf ->
    exists fr, owned T l fr /\ representable (PhysFrame.start fr) /\ lf = leaf_for (PhysFrame.start fr) ReadWrite Supervisor.

(** What was mapped when the heap was claimed. *)
Context (base : space).

(** The heap's reservation is claimed, the state is sound, the hart is
    synchronised, exactly heap pages were added to what was mapped, and the
    heap's frames are its own. *)
Definition backing_inv (w : state) : Prop :=
  KernelPaging.heap_claimed (capability w) = true /\ synced (hart w) /\
  exists T sp l, kernel_state T sp l w /\ base ⊆ sp /\ private sp /\ heap_frames T sp l /\
    forall v lf, sp !! v = Some lf -> base !! v = Some lf \/ heap_vpn v.

Lemma private_insert sp l v fr permissions privilege :
  private sp -> unmapped sp l -> In fr l ->
  private (<[v := leaf_for (PhysFrame.start fr) permissions privilege]> sp).
Proof.
  intros Hp Hu Hin v1 v2 lf1 lf2 Hv [[<- <-]|[Hn1 H1]]%lookup_insert_Some [[<- <-]|[Hn2 H2]]%lookup_insert_Some Heq;
    [done| | |by eapply Hp].
  - exfalso. by apply (Hu _ _ fr H2 Hin).
  - exfalso. by apply (Hu _ _ fr H1 Hin).
Qed.

Lemma heap_frames_kept T sp l T' l' :
  heap_frames T sp l -> (forall fr, owned T l fr -> owned T' l' fr) -> heap_frames T' sp l'.
Proof. intros Hh Hown v lf Hv Hlf. destruct (Hh v lf Hv Hlf) as (fr & Hfr & Hr). exists fr. by split; [apply Hown|]. Qed.

(** A page of the heap that the hart's tables map read-write for the
    supervisor. *)
Definition page_backed (w : state) (p : Z) : Prop :=
  is_usize p /\ p mod FRAME_SIZE = 0 /\
  exists f, translate (mem (hart w)) (satp (hart w)) p = Some (leaf_for f ReadWrite Supervisor).

Lemma page_backed_iff T sp l w p :
  kernel_state T sp l w ->
  page_backed w p <-> is_usize p /\ p mod FRAME_SIZE = 0 /\
    exists f, (if canonical p then sp !! vpn_of p else None) = Some (leaf_for f ReadWrite Supervisor).
Proof. intros Hk. unfold page_backed. by rewrite (translate_represented root l1 l0 _ _ _ _ _ Hk). Qed.

Lemma vpn_of_inj a p :
  is_usize a -> is_usize p -> a mod FRAME_SIZE = 0 -> p mod FRAME_SIZE = 0 ->
  canonical a = true -> canonical p = true -> vpn_of a = vpn_of p -> a = p.
Proof.
  unfold is_usize, usize_max, canonical, vpn_of, FRAME_SIZE. intros [? ?] [? ?] ? ? ? ? ?.
  Z.div_mod_to_equations. lia.
Qed.

Lemma heap_pages a :
  VirtRange.contains HEAP_RANGE a -> is_usize a /\ canonical a = true /\ HEAP_START <= a < HEAP_END.
Proof.
  unfold VirtRange.contains, HEAP_RANGE, VirtAddr.new. cbn [VirtRange.start VirtRange.end_].
  intros Ha. split_and!; try lia; revert Ha; change HEAP_START with 0xffffffe000000000;
    change HEAP_END with 0xffffffe040000000; unfold is_usize, usize_max, canonical; lia.
Qed.

#[export] Instance kernel_backing_laws : HeapBackingLaws (B:=state) (E:=PagingError) backing_inv HEAP_RANGE page_backed.
Proof.
  split. intros w a (Hcl & Hsync & T & sp & l & Hk & Hbase & Hpriv & Hheap & Honly) (Hua & Hcan & Hr)%heap_pages Hal Hnb.
  destruct (backing_page_spec T sp l w a Hk Hcl Hr Hal)
    as (o & w' & T' & sp' & l' & Hm & Hk' & Hcap & Hown & Hs' & _ & Ho).
  assert (backing_inv w') as Hinv.
  { split; [by rewrite Hcap|]. split; [by apply Hs'|]. exists T', sp', l'. split; [done|].
    destruct o; [|destruct Ho as [-> _]; split_and!; [done|done|by eapply heap_frames_kept|done]|done|done].
    destruct Ho as (fr & Hin & Hfr & Hrep & _ & Hnone & -> & _).
    split; [etrans; [exact Hbase|by apply insert_subseteq]|].
    split; [eapply private_insert; [done|apply Hk|done]|].
    split; intros v lf.
    - intros Hv [[<- <-]|[_ Hlf]]%lookup_insert_Some; [by exists fr|].
      by apply (heap_frames_kept T sp l T' l' Hheap Hown v).
    - intros [[<- _]|[_ Hlf]]%lookup_insert_Some; [right; by exists a|by eapply Honly]. }
  change (map_page a w) with (backing_map_page a w). rewrite Hm.
  destruct o as [[]|e| |]; try done.
  - destruct Ho as (fr & _ & _ & _ & _ & _ & -> & _). split; [done|]. intros p.
    rewrite (page_backed_iff _ _ _ _ p Hk'), (page_backed_iff _ _ _ _ p Hk). split.
    + intros (Hp & Hpal & f & Hf). destruct (decide (p = a)) as [->|Hne]; [by left|right].
      split; [done|]. split; [done|]. exists f. destruct (canonical p) eqn:Hcp; [|done].
      rewrite lookup_insert_ne in Hf; [done|]. intros He. apply Hne. symmetry. by apply vpn_of_inj.
    + intros [->|(Hp & Hpal & f & Hf)].
      * split; [done|]. split; [done|]. exists (PhysFrame.start fr). by rewrite Hcan, lookup_insert_eq.
      * split; [done|]. split; [done|]. destruct (canonical p); [|done].
        destruct (decide (vpn_of a = vpn_of p)) as [<-|Hne].
        { rewrite lookup_insert_eq. by eexists. }
        rewrite lookup_insert_ne by done. by exists f.
  - destruct Ho as [-> _]. split; [done|]. intros p.
    by rewrite (page_backed_iff _ _ _ _ p Hk'), (page_backed_iff _ _ _ _ p Hk).
Qed.

(** ** Enough frames *)

(** Three frames for each of [n] pages, which an entry can name. *)
Definition enough (n : nat) (l : list PhysFrame.t) : Prop :=
  (3 * n <= length l)%nat /\ forall fr, In fr (take (3 * n) l) -> PhysFrame.start fr <= MAX_PHYSICAL_ADDRESS.

Lemma enough_less n m l : (n <= m)%nat -> enough m l -> enough n l.
Proof.
  intros Hnm [Hl Hf]. split; [lia|]. intros fr Hin. apply Hf. eapply in_take_more; [|exact Hin]. lia.
Qed.

Lemma enough_used n k l l' : used_up (3 * n) l l' -> enough (n + k) l -> enough k l'.
Proof.
  intros Hu [Hl Hf]. split; [pose proof (used_up_length _ _ _ Hu); lia|]. intros fr Hin. apply Hf.
  rewrite Nat.mul_add_distr_l. by eapply used_up_in.
Qed.

(** What the allocator has left. *)
Definition frames_left (n : nat) (w : state) : Prop :=
  exists l, provides (snd w) l /\ enough n l.

Lemma frames_left_of n T sp l w :
  kernel_state T sp l w -> frames_left n w -> enough n l.
Proof.
  intros Hk (l' & Hp & Hl). pose proof (g_provides _ _ _ _ _ _ _ (ks_good _ _ _ _ _ _ _ Hk)) as Hp'.
  by rewrite (provides_unique _ _ _ Hp' Hp).
Qed.

#[export] Instance kernel_backing_supply : HeapBackingSupply (B:=state) (E:=PagingError) backing_inv HEAP_RANGE page_backed frames_left.
Proof.
  split; [|intros n w (l & Hp & Hl); exists l; split; [done|]; eapply enough_less; [|done]; lia].
  intros n w a (Hcl & _ & T & sp & l & Hk & _ & _ & Hheap & _) (Hua & Hcan & Hr)%heap_pages Hal Hnb Hsup.
  pose proof (frames_left_of _ T sp l w Hk Hsup) as Hen.
  destruct (backing_page_spec T sp l w a Hk Hcl Hr Hal) as (o & w' & T' & sp' & l' & Hm & Hk' & _ & _ & _ & Hused & Ho).
  change (map_page a w) with (backing_map_page a w). rewrite Hm. destruct o as [[]|e| |]; try done.
  - exists w'. split; [done|]. exists l'. split; [apply Hk'|]. by apply (enough_used 1 n l).
  - exfalso. destruct Hen as [Hl Hf], Ho as [_ [[_ Hs]|[(lf & x & Hlf & _)|(fr & Hin & Hh & _)]]]; [lia| |].
    + apply Hnb, (page_backed_iff T sp l w a Hk). split; [done|]. split; [done|]. rewrite Hcan.
      destruct (Hheap (vpn_of a) lf (ex_intro _ a (conj Hr eq_refl)) Hlf) as (fr & _ & _ & ->). by eexists.
    + assert (PhysFrame.start fr <= MAX_PHYSICAL_ADDRESS) by (apply Hf; eapply in_take_more; [|exact Hin]; lia). lia.
Qed.

(** ** The physical memory of the heap *)

(** Where an address leads. *)
Definition leads_to (w : state) (va pa : Z) : Prop :=
  is_usize va /\ exists lf, translate (mem (hart w)) (satp (hart w)) va = Some lf /\
    pa = l_ppn lf * FRAME_SIZE + va mod FRAME_SIZE.

Lemma leads_to_unique w x va pa :
  backing_inv w -> HEAP_START <= x < HEAP_END -> leads_to w x pa -> leads_to w va pa -> va = x.
Proof.
  intros (_ & _ & T & sp & l & Hk & _ & Hp & _) Hx (Hux & lf & Hlf & ->) (Huv & lf' & Hlf' & He).
  rewrite (translate_represented root l1 l0 _ _ _ _ _ Hk) in Hlf.
  rewrite (translate_represented root l1 l0 _ _ _ _ _ Hk) in Hlf'.
  destruct (canonical x) eqn:Hcx; [|done]. destruct (canonical va) eqn:Hcv; [|done].
  assert (l_ppn lf = l_ppn lf' /\ x mod FRAME_SIZE = va mod FRAME_SIZE) as [Hl Ho]
    by (unfold FRAME_SIZE in *; Z.div_mod_to_equations; lia).
  assert (vpn_of x = vpn_of va) as Hv by (apply (Hp _ _ _ _ (ex_intro _ x (conj Hx eq_refl)) Hlf Hlf' Hl)).
  unfold is_usize, usize_max, canonical, vpn_of, FRAME_SIZE in *. Z.div_mod_to_equations. lia.
Qed.

(** ** Claiming the heap *)

Definition heap_index : Z := idx2 (vpn_of HEAP_START).

Lemma heap_range_proper : HeapProofs.range_proper HEAP_RANGE.
Proof. vm_compute. repeat split; congruence. Qed.

Lemma heap_vpn_index v : heap_vpn v -> idx2 v = heap_index.
Proof.
  intros (a & Ha & ->). revert Ha. change heap_index with 384. change HEAP_START with 0xffffffe000000000.
  change HEAP_END with 0xffffffe040000000. unfold idx2, vpn_of, FRAME_SIZE. intros. Z.div_mod_to_equations. lia.
Qed.

(** Below an empty root entry nothing is mapped. *)
Lemma unlinked_unmapped T sp l w v :
  kernel_state T sp l w -> T !! [idx2 v] = None -> sp !! v = None.
Proof.
  intros [[[_ Ht] _ _] _ _ _ _] Hn. destruct (sp !! v) as [lf|] eqn:Hv; [|done].
  apply (t_space _ _ _ Ht) in Hv as [_ [g Hg]]. apply (t_parent _ _ _ Ht [idx2 v]) in Hg as [[f Hf] _].
  congruence.
Qed.

Lemma claimed_state T sp l (w : state) :
  kernel_state T sp l w ->
  exists w', set_heap_claimed w = (Ok tt, w') /\ kernel_state T sp l w' /\
    KernelPaging.heap_claimed (capability w') = true /\ hart w' = hart w.
Proof.
  intros [[[[[Hw Hs Ht Hr Hsl] Hc] Htab] Hp Hf] Hr1 H1 H0 Hu]. destruct w as [[a m] s].
  eexists. split; [reflexivity|]. split; [|done]. by repeat (split; try done).
Qed.

(** Why the first page of the heap is not backed: a page and its two tables
    take three frames, which there must be, and an entry must name them. *)
Definition first_page_error (l : list PhysFrame.t) (e : PagingError) : Prop :=
  e = OutOfPhysicalFrames /\ (length l < 3)%nat \/
  exists fr, In fr (take 3 l) /\ MAX_PHYSICAL_ADDRESS < PhysFrame.start fr /\
    e = PhysicalAddressNotRepresentable (PhysFrame.start fr).

Lemma heap_new_error T sp l (w w' : state) e :
  kernel_state T sp l w -> KernelPaging.heap_claimed (capability w) = true ->
  (forall v, heap_vpn v -> sp !! v = None) ->
  KernelHeap.new (B:=KernelHeapBacking F) HEAP_RANGE w = (Err e, w') -> exists e', e = Backing e' /\ first_page_error l e'.
Proof.
  intros Hk Hcl Hnone Hn. assert (HEAP_START <= HEAP_END - FRAME_SIZE < HEAP_END) as Ha by done.
  rewrite (HeapProofs.heap_new_backs (B:=state) HEAP_RANGE w heap_range_proper) in Hn.
  destruct (backing_page_spec T sp l w (HEAP_END - FRAME_SIZE) Hk Hcl Ha ltac:(done))
    as (o & w1 & T' & sp' & l' & Hm & _ & _ & _ & _ & _ & Ho).
  change (map_page (VirtRange.end_ HEAP_RANGE - FRAME_SIZE) w) with (backing_map_page (HEAP_END - FRAME_SIZE) w) in Hn.
  rewrite Hm in Hn. cbn [fst snd] in Hn. destruct o as [[]|e'| |]; cbn [map_err obind] in Hn; try discriminate.
  injection Hn as <- _. exists e'. split; [done|]. destruct Ho as [_ [Ho|[(lf & x & Hlf & _)|Ho]]]; [by left| |by right].
  by rewrite (Hnone _ (ex_intro _ _ (conj Ha eq_refl))) in Hlf.
Qed.

Lemma claim_heap_spec T sp l (w : state) :
  kernel_state T sp l w -> synced (hart w) -> base = sp ->
  exists o w', claim_heap w = (o, w') /\
  match o with
  | Ok h => KernelPaging.heap_claimed (capability w) = false /\ T !! [heap_index] = None /\
      HeapProofs.heap_ok backing_inv HEAP_RANGE page_backed h w' /\ KernelHeap.cursor h = HEAP_END
  | Err e =>
      KernelPaging.heap_claimed (capability w) = true /\ e = Backing KernelHeapAlreadyClaimed /\ w' = w \/
      KernelPaging.heap_claimed (capability w) = false /\
      (exists c, T !! [heap_index] = Some c /\ e = Backing (RootEntryInUse heap_index (link_pte c))) /\
      kernel_state T sp l w' \/
      KernelPaging.heap_claimed (capability w) = false /\ T !! [heap_index] = None /\
      (exists e', e = Backing e' /\ first_page_error l e') /\ backing_inv w'
  | _ => False
  end.
Proof.
  intros Hk Hsync Hbase. pose proof (root_frame _ _ _ _ _ _ _ Hk) as Hrf. pose proof Hk as [Hg Hroot _ _ Hu].
  assert (forall k : KernelPaging.t -> M state (HeapError PagingError) KernelHeap.t,
    (let* (self, _, _) := get in k self) w = k (capability w) w) as Hget by (by destruct w as [[a m] s]).
  unfold claim_heap. rewrite Hget. destruct (KernelPaging.heap_claimed (capability w)) eqn:Hcl.
  { do 2 eexists. split; [done|]. by left. }
  change (Z.land (Z.shiftr HEAP_START GIGAPAGE_SHIFT) VPN_MASK) with heap_index. rewrite Hrf.
  assert (root + 8 * heap_index <> window_slot l0) as Hslot.
  { apply (avoids_slot _ _ _ T sp l w (vpn_of HEAP_START) Hk (is_vpn_of _) ltac:(done) [] root heap_index
      [idx1 (vpn_of HEAP_START); idx0 (vpn_of HEAP_START)]); done. }
  destruct (read_step _ _ _ T sp l w [] root heap_index Hg Hroot ltac:(done) Hslot)
    as (w1 & Hr & Hg1 & Hk1 & Hm1).
  rewrite (bind_ok _ _ _ (entry (mem (hart w)) root heap_index) w1) by (unfold mmap_err; by rewrite Hr).
  assert (kernel_state T sp l w1) as Hs1 by (destruct Hk as [_ ? ? ? ?]; by split).
  assert (entry (mem (hart w)) root heap_index = link_entry (T !! [heap_index])) as ->.
  { apply (t_link _ _ _ (s_tables _ _ _ _ (g_settled _ _ _ _ _ _ _ Hg)) []); [done|cbn; lia|done]. }
  destruct (T !! [heap_index]) as [c|] eqn:Hc; cbn [link_entry].
  { pose proof (t_frame _ _ _ (s_tables _ _ _ _ (g_settled _ _ _ _ _ _ _ Hg)) _ c Hc) as [Hrc _].
    replace (link_pte c =? 0) with false by (pose proof (link_pte_nonzero c Hrc); lia).
    do 2 eexists. split; [done|]. right. left. split; [done|]. split; [by exists c|done]. }
  cbn [Z.eqb negb]. destruct (claimed_state T sp l w1 Hs1) as (w2 & Hset & Hs2 & Hcl2 & Hh2).
  rewrite (bind_ok _ _ _ _ _ Hset).
  assert (forall v, heap_vpn v -> sp !! v = None) as Hnone.
  { intros v Hv%heap_vpn_index. apply (unlinked_unmapped T sp l w v Hk). by rewrite Hv. }
  destruct (HeapProofs.heap_new_spec backing_inv HEAP_RANGE page_backed w2 heap_range_proper) as (o & w3 & Hn & Ho).
  - split; [done|]. split.
    { rewrite Hh2. apply (synced_kept root l1 l0 T sp l w T l w1 Hk Hs1); [|done].
      eapply keeps_result; [apply keeps_on_access, keeps_read_entry|exact Hr]. }
    exists T, sp, l. split; [done|]. split; [by rewrite Hbase|].
    split; [intros v v' lf lf' Hv Hlf; by rewrite (Hnone v Hv) in Hlf|].
    split; [intros v lf Hv Hlf; by rewrite (Hnone v Hv) in Hlf|]. intros v lf Hlf. left. by rewrite Hbase.
  - intros p (Hp & Hcan & Hin)%heap_pages Hal. rewrite (page_backed_iff _ _ _ _ p Hs2). rewrite Hcan.
    intros (_ & _ & f & Hf). by rewrite (Hnone _ (ex_intro _ p (conj Hin eq_refl))) in Hf.
  - exists o, w3. split; [exact Hn|]. destruct o as [h|e| |]; try contradiction.
    + by destruct Ho as (? & ? & _).
    + right. right. split; [done|]. split; [done|].
      split; [by eapply heap_new_error|by destruct Ho as [_ ?]].
Qed.

Lemma claimed_heap_ok T sp l (w w' : state) h :
  kernel_state T sp l w -> synced (hart w) -> base = sp -> claim_heap w = (Ok h, w') ->
  HeapProofs.heap_ok backing_inv HEAP_RANGE page_backed h w'.
Proof.
  intros Hk Hs Hbase Hc. destruct (claim_heap_spec T sp l w Hk Hs Hbase) as (o & w1 & Hc' & Ho).
  rewrite Hc in Hc'. injection Hc' as <- <-. apply Ho.
Qed.

(** Every byte of every block lies on a page of its own in physical memory. *)
Lemma blocks_private layouts h (w : state) :
  HeapProofs.heap_ok backing_inv HEAP_RANGE page_backed h w -> Forall layout_ok layouts ->
  exists blocks h' w', KernelHeap.allocate_all layouts (h, w) = (Ok blocks, (h', w')) /\
    ForallOrdPairs HeapProofs.below blocks /\ backing_inv w' /\
    forall a layout x, In (a, layout) blocks -> a <= x < a + lsize layout ->
      exists f pa, translate (mem (hart w')) (satp (hart w')) x = Some (leaf_for f ReadWrite Supervisor) /\
        leads_to w' x pa /\ forall va, leads_to w' va pa -> va = x.
Proof.
  intros Hok Hls. destruct (HeapProofs.allocate_all_spec _ _ _ layouts h w Hok Hls)
    as (blocks & h' & w' & Ha & Hok' & _ & Hus & Hp).
  exists blocks, h', w'. split; [done|]. split; [done|].
  split; [apply (HeapProofs.s_inv _ _ _ _ _ (HeapProofs.h_suffix _ _ _ _ _ Hok'))|]. intros a layout x Hin Hx.
  rewrite List.Forall_forall in Hus. destruct (Hus _ Hin) as (_ & _ & _ & _ & Hb).
  destruct (Hb x Hx) as [Hc (_ & _ & f & Hf)].
  pose proof (HeapProofs.s_inv _ _ _ _ _ (HeapProofs.h_suffix _ _ _ _ _ Hok')) as Hinv.
  pose proof Hinv as (_ & _ & T & sp & l & Hk & _). apply heap_pages in Hc as (Hux & _ & Hr).
  rewrite (translate_represented root l1 l0 _ _ _ _ _ Hk) in Hf.
  unfold frame_floor, FRAME_SIZE in Hf. rewrite canonical_page, vpn_of_page in Hf.
  rewrite <- (translate_represented root l1 l0 _ _ _ _ x Hk) in Hf.
  assert (leads_to w' x (l_ppn (leaf_for f ReadWrite Supervisor) * FRAME_SIZE + x mod FRAME_SIZE)) as Hl
    by (split; [done|]; by eexists).
  eexists f, _. split; [done|]. split; [exact Hl|]. intros va Hva. by eapply leads_to_unique.
Qed.

(** What was mapped at the claim is translated as it was. *)
Lemma backing_keeps w va lf :
  backing_inv w -> canonical va = true -> base !! vpn_of va = Some lf ->
  translate (mem (hart w)) (satp (hart w)) va = Some lf.
Proof.
  intros (_ & _ & T & sp & l & Hk & Hb & _) Hc Hv. rewrite (translate_represented root l1 l0 _ _ _ _ _ Hk), Hc.
  by eapply lookup_weaken.
Qed.

End backing.

(** ** Writing to the kernel heap

    A heap block lies on frames no table uses, so a supervisor store to it
    reaches its own physical memory and disturbs neither the tables, nor the
    cached translations, nor any other address. *)

Section writes.
Context {F : Type} `{FrameAllocator F} (root l1 l0 : Z).

Abbreviation state := (KernelPaging.t * machine * F)%type.
Abbreviation kernel_state := (kernel_state root l1 l0).

(** Only memory of one frame changed. *)
Definition changed_in (f : Z) (m m' : machine) : Prop :=
  satp m' = satp m /\ tlb m' = tlb m /\ forall x, x < f \/ f + FRAME_SIZE <= x -> mem m' x = mem m x.

Definition with_hart (w : state) (m : machine) : state := (fst (fst w), m, snd w).

(** A table's words lie outside every frame no table uses. *)
Lemma entry_elsewhere T sp (w : state) l f m' p g i :
  kernel_state T sp l w -> representable f -> unused T f -> changed_in f (hart w) m' ->
  T !! p = Some g -> 0 <= i < 512 -> entry (mem m') g i = entry (mem (hart w)) g i.
Proof.
  intros [[[_ Ht] _ _] _ _ _ _] [_ Hf] Hun (_ & _ & Hm) Hp Hi. apply read_word_ext. intros x Hx. apply Hm.
  apply (t_frame _ _ _ Ht) in Hp as Hg. destruct Hg as [[_ Hg] _]. assert (g <> f) by (intros ->; by apply (Hun p)).
  unfold FRAME_SIZE in *. Z.div_mod_to_equations. lia.
Qed.

(** Such a change keeps the address space and the synchronisation. *)
Lemma state_written T sp l (w : state) f m' :
  kernel_state T sp l w -> representable f -> unused T f -> changed_in f (hart w) m' ->
  kernel_state T sp l (with_hart w m').
Proof.
  intros Hk Hf Hun Hm.
  assert (forall p g i, T !! p = Some g -> 0 <= i < 512 -> entry (mem m') g i = entry (mem (hart w)) g i) as He
    by (intros p g i; by apply (entry_elsewhere T sp w l f)).
  pose proof Hk as [[[Hi Ht] Hp Hfr] Hr H1 H0 Hu]. destruct w as [[a m] s]. destruct Hm as (Hs & Htlb & Hm).
  change (with_hart (a, m, s) m') with (a, m', s). cbn [fst snd hart] in *. split; try done. split; [split; [|]|done|done]; cbn [fst snd].
  - destruct Hi as [[[Rr R1 R0 Hd E2 E1 E0] Hsat Ht0 Hroot Hsl] Hc]. split; [split; [split|..]|].
    all: try done; try congruence.
    + etrans; [apply (He [] root 509); done || lia|exact E2].
    + etrans; [apply (He [509] l1 511); done || lia|exact E1].
    + etrans; [apply (He [509; 511] l0 0); done || lia|exact E0].
    + etrans; [apply (He [509; 511] l0 1); done || lia|exact Hc].
  - by apply (tables_elsewhere (mem m) _ T sp f).
Qed.

Lemma synced_written T sp l (w : state) f m' :
  kernel_state T sp l w -> representable f -> unused T f -> changed_in f (hart w) m' ->
  synced (hart w) -> synced m'.
Proof.
  intros Hk Hf Hun Hm Hs. apply (synced_kept root l1 l0 T sp l w T l (with_hart w m') Hk); [|intros vp _|done].
  - by eapply state_written.
  - change (hart (with_hart w m')) with m'. by destruct Hm as (_ & -> & _).
Qed.

Context (base : space).
Abbreviation backing_inv := (backing_inv (F:=F) root l1 l0 base).

Lemma heap_not_window va : HEAP_START <= va < HEAP_END -> va / 4096 <> window_page.
Proof.
  change HEAP_START with 0xffffffe000000000. change HEAP_END with 0xffffffe040000000.
  change window_page with 0xffffffff7fe01. intros. Z.div_mod_to_equations. lia.
Qed.

(** The frame behind an address of a backed heap page. *)
Lemma heap_frame (w : state) T sp l va :
  kernel_state T sp l w -> heap_frames T sp l -> HEAP_START <= va < HEAP_END -> page_backed w (frame_floor va) ->
  exists fr, owned T l fr /\ representable (PhysFrame.start fr) /\ canonical va = true /\ is_usize va /\
    sp !! vpn_of va = Some (leaf_for (PhysFrame.start fr) ReadWrite Supervisor).
Proof.
  intros Hk Hh Hva Hb. apply (page_backed_iff root l1 l0 T sp l w _ Hk) in Hb as (_ & _ & f & Hf).
  unfold frame_floor, FRAME_SIZE in Hf. rewrite canonical_page, vpn_of_page in Hf.
  destruct (canonical va) eqn:Hc; [|done].
  destruct (Hh (vpn_of va) _ (ex_intro _ va (conj Hva eq_refl)) Hf) as (fr & Hown & Hrep & Hlf).
  exists fr. split; [done|]. split; [done|]. split; [done|]. split; [|by rewrite Hf, Hlf].
  revert Hva. change HEAP_START with 0xffffffe000000000. change HEAP_END with 0xffffffe040000000.
  unfold is_usize, usize_max. lia.
Qed.

(** A store of a word to a backed page. *)
Lemma heap_store (w : state) va v :
  backing_inv w -> HEAP_START <= va < HEAP_END -> va mod 8 = 0 -> page_backed w (frame_floor va) ->
  exists m' pa, store_word va v (hart w) = (Ok tt, m') /\ backing_inv (with_hart w m') /\
    leads_to w va pa /\ pa mod 8 = 0 /\ mem m' = write_word (mem (hart w)) pa v /\
    forall x, translate (mem m') (satp m') x = translate (mem (hart w)) (satp (hart w)) x.
Proof.
  intros (Hcl & Hsync & T & sp & l & Hk & Hbase & Hpriv & Hheap & Honly) Hva Hal Hb.
  destruct (heap_frame w T sp l va Hk Hheap Hva Hb) as (fr & (Hwf & Hni & Hun) & Hrep & Hcan & Hus & Hsp).
  set (f := PhysFrame.start fr) in *. pose proof (representable_ppn f Hrep) as [_ Hpa].
  assert (translate (mem (hart w)) (satp (hart w)) va = Some (leaf_for f ReadWrite Supervisor)) as Htr
    by (rewrite (translate_represented root l1 l0 _ _ _ _ _ Hk), Hcan; exact Hsp).
  assert (resolve (hart w) true va = Some (f + va mod 4096)) as Hres.
  { rewrite (resolve_synced _ _ _ (leaf_for f ReadWrite Supervisor)); try done.
    - cbn [leaf_for l_ppn]. change 4096 with FRAME_SIZE at 1. by rewrite Hpa.
    - rewrite Hsync; [exact Htr|done|by apply heap_not_window]. }
  set (pa := f + va mod 4096) in *.
  set (m' := mkMachine (write_word (mem (hart w)) pa v) (satp (hart w)) (tlb (hart w))).
  assert (va mod 4096 mod 8 = 0 /\ va mod 4096 + 8 <= 4096) as [Ho8 Hin] by (Z.div_mod_to_equations; lia).
  assert (0 <= va mod 4096) by (by apply Z.mod_pos_bound).
  assert (changed_in f (hart w) m') as Hch.
  { split; [done|]. split; [done|]. intros x Hx. apply write_word_outside. unfold pa, FRAME_SIZE in *. lia. }
  pose proof (state_written T sp l w f m' Hk Hrep Hun Hch) as Hk'.
  exists m', pa. split.
  { unfold store_word, bind, get. rewrite Hres. by rewrite (proj2 (Z.eqb_eq _ _) Hal). }
  split; [split; [done|]; split; [exact (synced_written T sp l w f m' Hk Hrep Hun Hch Hsync)|]; by exists T, sp, l|].
  split; [split; [done|]; eexists; split; [exact Htr|]; cbn [leaf_for l_ppn]; by rewrite Hpa|].
  split; [destruct Hrep as [_ Hfm]; unfold pa, FRAME_SIZE in *; Z.div_mod_to_equations; lia|].
  split; [done|]. intros x. change m' with (hart (with_hart w m')).
  by rewrite (translate_represented root l1 l0 _ _ _ _ _ Hk'), (translate_represented root l1 l0 _ _ _ _ _ Hk).
Qed.

End writes.
