(* ===== verification/KKernelSample.v ===== *)
(** * A sample kernel address space

    A list of frames as an allocator, and a root with nothing but the frame
    window, for instances of the theorems about kernel paging. *)

From Stdlib Require Import ZArith Lia Bool.
From Stdlib Require Import Strings.Byte.
From stdpp Require Import base list numbers gmap.
From S2P Require Import Prelude FdtScan KMemory KBootAlloc KMachine KPaging KPte KTables KMapProofs.
From S2P Require Import KHeap KHeapProofs KKernelPaging KWindow KKernelProofs KBackingProofs.
Local Open Scope Z_scope.

(** ** An allocator over a list *)

#[export] Instance list_frames : FrameAllocator (list PhysFrame.t) := fun l =>
  match l with
  | [] => (Ok None, [])
  | f :: l => (Ok (Some (AllocatedFrame.mk f)), l)
  end.

Lemma list_provides l : Forall PhysFrame.wf l -> NoDup l -> provides l l.
Proof.
  intros Hw Hn. split; [|done]. clear Hw Hn. induction l as [|f l IH].
  - apply yields_nil, exhausted_stay. done.
  - by eapply yields_cons.
Qed.

(** ** The tables *)

Definition sample_root : Z := 0x80001000.
Definition sample_l1 : Z := 0x80002000.
Definition sample_l0 : Z := 0x80003000.

Definition memory_0 : memory := fun _ => x00.
Definition memory_1 : memory :=
  write_word (fill memory_0 sample_l1 FRAME_SIZE x00) (sample_root + 8 * 509) (link_pte sample_l1).
Definition memory_2 : memory :=
  write_word (fill memory_1 sample_l0 FRAME_SIZE x00) (sample_l1 + 8 * 511) (link_pte sample_l0).
Definition memory_3 : memory :=
  write_word memory_2 (sample_l0 + 8 * 0) (leaf_pte sample_l0 ReadWrite Supervisor).

Definition tables_0 : table_map := {[ [] := sample_root ]}.
Definition tables_1 : table_map := <[ [509] := sample_l1 ]> tables_0.
Definition tables_2 : table_map := <[ [509; 511] := sample_l0 ]> tables_1.
Definition sample_space : space := {[ table_vpn := leaf_for sample_l0 ReadWrite Supervisor ]}.

Lemma sample_representable :
  representable sample_root /\ representable sample_l1 /\ representable sample_l0.
Proof. vm_compute. repeat split; congruence. Qed.

Lemma sample_tables_0 : tables memory_0 tables_0 ∅.
Proof.
  assert (forall f i, entry memory_0 f i = 0) as He by (intros; vm_compute; reflexivity).
  unfold tables_0. split.
  - intros p f [<- <-]%lookup_singleton_Some. split; [apply sample_representable|cbn; lia].
  - intros p i c [Hp _]%lookup_singleton_Some. by destruct p.
  - intros p q f [<- _]%lookup_singleton_Some [<- _]%lookup_singleton_Some. done.
  - intros p f i [<- <-]%lookup_singleton_Some _ _. rewrite He. cbn [app].
    by rewrite lookup_singleton_ne.
  - intros v g _ [Hp _]%lookup_singleton_Some. done.
  - done.
Qed.

Lemma sample_tables : tables memory_3 tables_2 sample_space.
Proof.
  destruct sample_representable as (Rr & R1 & R0).
  assert (tables memory_1 tables_1 ∅) as H1.
  { apply (tables_link memory_0 memory_1 tables_0 ∅ [] sample_root 509 sample_l1); try done.
    - apply sample_tables_0.
    - cbn. lia.
    - unfold tables_0. intros p [_ Hp]%lookup_singleton_Some. done. }
  assert (tables memory_2 tables_2 ∅) as H2.
  { apply (tables_link memory_1 memory_2 tables_1 ∅ [509] sample_l1 511 sample_l0); try done; [cbn; lia|].
    unfold tables_1, tables_0. intros p [[_ Hp]|[_ [_ Hp]%lookup_singleton_Some]]%lookup_insert_Some; done. }
  assert (sample_space = <[table_vpn := leaf_for sample_l0 ReadWrite Supervisor]> ∅) as ->
    by (symmetry; apply insert_empty).
  by apply (tables_map memory_2 memory_3 tables_2 ∅ table_vpn sample_l0).
Qed.

(** ** The state *)

Definition sample_satp : Z := root_satp sample_root.

Definition sample_machine : machine :=
  mkMachine memory_3 sample_satp (fun vp => translate memory_3 sample_satp (vp * 4096)).

Definition sample_capability : KernelPaging.t :=
  KernelPaging.mk (AllocatedFrame.mk (PhysFrame.mk sample_root)) (PhysFrame.mk sample_l0)
    (VirtRange.mk 0xffffffc000000000 0xffffffc000001000)
    (FIXMAP_TABLE_BASE + 8 * FIXMAP_FRAME_INDEX) false.

Definition sample_frames : list PhysFrame.t :=
  map PhysFrame.mk ([0x80010000; 0x80011000; 0x80012000; 0x80013000; 0x80014000; 0x80015000] ++
    map (fun i => 0x80030000 + FRAME_SIZE * i) (seqZ 0 42)).

Definition sample_state : KernelPaging.t * machine * list PhysFrame.t :=
  (sample_capability, sample_machine, sample_frames).

Lemma sample_entries :
  entry memory_3 sample_root 509 = link_pte sample_l1 /\ entry memory_3 sample_l1 511 = link_pte sample_l0 /\
  entry memory_3 sample_l0 0 = leaf_pte sample_l0 ReadWrite Supervisor /\ entry memory_3 sample_l0 1 = 0.
Proof. vm_compute. by repeat split. Qed.

Lemma sample_kernel_inv : kernel_inv sample_root sample_l1 sample_l0 sample_capability sample_machine.
Proof.
  destruct sample_representable as (Rr & R1 & R0), sample_entries as (E2 & E1 & E0 & Ec).
  split; [split; try done|done].
Qed.

Lemma sample_apart :
  Forall (fun fr => sample_l0 + FRAME_SIZE <= PhysFrame.start fr /\
    Forall (off_frame (PhysFrame.start fr)) (window_slot sample_l0 :: window_busy sample_root sample_l1 sample_l0))
  sample_frames.
Proof. repeat constructor; unfold off_frame; vm_compute; try congruence; left; congruence. Qed.

Lemma sample_kernel_state :
  kernel_state sample_root sample_l1 sample_l0 tables_2 sample_space sample_frames sample_state.
Proof.
  assert (Forall PhysFrame.wf sample_frames) as Hwf by (repeat constructor; vm_compute; congruence).
  split.
  - split; [split; [apply sample_kernel_inv|apply sample_tables]|apply list_provides; [done|]|].
    + apply (bool_decide_unpack _). vm_compute. exact I.
    + intros fr Hfr. pose proof (proj1 (List.Forall_forall _ _) sample_apart fr Hfr) as (A & Hoff).
      split; [|done]. unfold tables_2, tables_1, tables_0.
      intros p [[_ Hq]|[_ [[_ Hq]|[_ [_ Hq]%lookup_singleton_Some]]%lookup_insert_Some]]%lookup_insert_Some;
        unfold sample_root, sample_l1, sample_l0, FRAME_SIZE in *; lia.
  - done.
  - done.
  - done.
  - unfold sample_space. intros v lf fr [_ <-]%lookup_singleton_Some Hin.
    pose proof (proj1 (List.Forall_forall _ _) sample_apart fr Hin) as (A & _).
    cbn [leaf_for l_ppn]. unfold sample_l0, FRAME_SIZE in *. Z.div_mod_to_equations. lia.
Qed.

(** Its hart is synchronised. *)
Lemma sample_synced : synced (hart sample_state).
Proof. exact (shows_synced (flushed (hart sample_state)) sample_space (flushed_shows _ _ _ _ _ _ _ sample_kernel_state)). Qed.

(** ** The heap *)

(** The claim on the sample succeeds, and takes three frames. *)
Lemma sample_claimed_heap :
  exists h w, claim_heap sample_state = (Ok h, w) /\ KernelHeap.cursor h = HEAP_END /\ snd w = drop 3 sample_frames.
Proof.
  assert (match fst (claim_heap sample_state) with Ok h => KernelHeap.cursor h = HEAP_END | _ => False end /\
    snd (snd (claim_heap sample_state)) = drop 3 sample_frames) as [Hok Hw] by (vm_compute; by split).
  destruct (claim_heap sample_state) as [o w]. cbn [fst snd] in Hok, Hw. destruct o as [h| | |]; [|contradiction..].
  by exists h, w.
Qed.

Lemma sample_installed :
  exists h w, HeapProofs.heap_ok (backing_inv (F:=list PhysFrame.t) sample_root sample_l1 sample_l0 sample_space) HEAP_RANGE
    page_backed h w /\ claim_heap sample_state = (Ok h, w) /\ KernelHeap.cursor h = HEAP_END /\
    snd w = drop 3 sample_frames.
Proof.
  destruct sample_claimed_heap as (h & w & Hc & Hcur & Hw). exists h, w. split; [|by split_and!].
  by apply (claimed_heap_ok sample_root sample_l1 sample_l0 sample_space tables_2 sample_space sample_frames
    sample_state w h sample_kernel_state sample_synced).
Qed.
