(* ===== verification/KPagingProperties.v ===== *)
(** * What kernel paging guarantees

    The theorems about [kernel/src/arch/riscv64/paging], each with an instance
    on the sample address space. *)

From Stdlib Require Import ZArith Lia Bool.
From Stdlib Require Import Strings.Byte.
From stdpp Require Import base list numbers gmap.
From S2P Require Import Prelude FdtScan KMemory KBootAlloc KMachine KPaging KPte KTables KMapProofs.
From S2P Require Import KHeap KHeapProofs KKernelPaging KWindow KKernelProofs KBackingProofs KKernelSample.
Local Open Scope Z_scope.

Import HeapProofs.

(** ** Mapping *)

(** C6: [KernelPaging::map_page] on an owned frame: it inserts exactly the
    page asked for into the kernel address space, with the frame, the
    permissions and supervisor privilege, and the hart translates every address
    as the new space says; or it returns an error whose cause is determined (a
    low, reserved, unaligned or mapped address, an unrepresentable frame,
    exhausted frames) and maps nothing.  At most two frames become tables, no
    other byte of memory changes, and no call panics. *)
Theorem kernel_map_page_exactly {F} `{FrameAllocator F} root l1 l0 T sp l w va fr permissions :
  kernel_state root l1 l0 T sp l w -> is_usize va -> PhysFrame.wf fr -> ~ In fr l ->
  exists o w', KernelPaging.map_page va (AllocatedFrame.mk fr) permissions w = (o, w') /\
    mapping_result root l1 l0 T sp l w va fr permissions Supervisor
      (fun e => va < SV39_HIGH_HALF_BASE /\ e = VirtualAddressNotKernel va \/
                (va = FIXMAP_FRAME_BASE \/
                 KernelPaging.heap_claimed (capability w) = true /\ HEAP_START <= va < HEAP_END) /\
                e = ReservedVirtualPage va) o w' /\
    (o = Ok tt -> SV39_HIGH_HALF_BASE <= va /\ va <> FIXMAP_FRAME_BASE /\
       (KernelPaging.heap_claimed (capability w) = true -> ~ (HEAP_START <= va < HEAP_END))).
Proof. apply map_kernel_page_spec. Qed.

Definition sample_page : PhysFrame.t := PhysFrame.mk 0x80020000.

Lemma sample_page_owned : PhysFrame.wf sample_page /\ ~ In sample_page sample_frames.
Proof.
  split; [vm_compute; repeat split; congruence|]. rewrite <- list_elem_of_In.
  apply (bool_decide_unpack _). vm_compute. exact I.
Qed.

Lemma kernel_map_page_exactly_witness :
  is_usize 0xffffffd000000000 /\
  exists o w', KernelPaging.map_page 0xffffffd000000000 (AllocatedFrame.mk sample_page) ReadExecute sample_state
      = (o, w') /\
    mapping_result sample_root sample_l1 sample_l0 tables_2 sample_space sample_frames sample_state
      0xffffffd000000000 sample_page ReadExecute Supervisor
      (fun e => 0xffffffd000000000 < SV39_HIGH_HALF_BASE /\ e = VirtualAddressNotKernel 0xffffffd000000000 \/
                (0xffffffd000000000 = FIXMAP_FRAME_BASE \/
                 KernelPaging.heap_claimed (capability sample_state) = true /\
                 HEAP_START <= 0xffffffd000000000 < HEAP_END) /\
                e = ReservedVirtualPage 0xffffffd000000000) o w' /\
    (o = Ok tt -> SV39_HIGH_HALF_BASE <= 0xffffffd000000000 /\ 0xffffffd000000000 <> FIXMAP_FRAME_BASE /\
       (KernelPaging.heap_claimed (capability sample_state) = true ->
        ~ (HEAP_START <= 0xffffffd000000000 < HEAP_END))).
Proof.
  split; [vm_compute; split; congruence|].
  apply (kernel_map_page_exactly sample_root sample_l1 sample_l0 tables_2 sample_space sample_frames
    sample_state 0xffffffd000000000 sample_page ReadExecute).
  - exact sample_kernel_state.
  - vm_compute. split; congruence.
  - exact (proj1 sample_page_owned).
  - exact (proj2 sample_page_owned).
Defined.

(** C17: [KernelPaging::map_user_page] on an owned frame: it maps exactly the
    page asked for, user accessible, below the user limit and above the null
    page, or returns an error with a determined cause and maps nothing. *)
Theorem user_map_page_exactly {F} `{FrameAllocator F} root l1 l0 T sp l w va fr permissions :
  kernel_state root l1 l0 T sp l w -> is_usize va -> PhysFrame.wf fr -> ~ In fr l ->
  exists o w', KernelPaging.map_user_page va (AllocatedFrame.mk fr) permissions w = (o, w') /\
    mapping_result root l1 l0 T sp l w va fr permissions User
      (fun e => ~ (FRAME_SIZE <= va < SV39_LOW_HALF_END) /\ e = VirtualAddressNotUser va) o w' /\
    (o = Ok tt -> FRAME_SIZE <= va < SV39_LOW_HALF_END).
Proof. apply map_user_page_spec. Qed.

Lemma user_map_page_exactly_witness :
  is_usize 0x10000 /\
  exists o w', KernelPaging.map_user_page 0x10000 (AllocatedFrame.mk sample_page) ReadExecute sample_state
      = (o, w') /\
    mapping_result sample_root sample_l1 sample_l0 tables_2 sample_space sample_frames sample_state
      0x10000 sample_page ReadExecute User
      (fun e => ~ (FRAME_SIZE <= 0x10000 < SV39_LOW_HALF_END) /\ e = VirtualAddressNotUser 0x10000) o w' /\
    (o = Ok tt -> FRAME_SIZE <= 0x10000 < SV39_LOW_HALF_END).
Proof.
  split; [vm_compute; split; congruence|].
  apply (user_map_page_exactly sample_root sample_l1 sample_l0 tables_2 sample_space sample_frames
    sample_state 0x10000 sample_page ReadExecute).
  - exact sample_kernel_state.
  - vm_compute. split; congruence.
  - exact (proj1 sample_page_owned).
  - exact (proj2 sample_page_owned).
Defined.

(** The page is really there. *)
Example sample_user_page :
  match KernelPaging.map_user_page 0x10000 (AllocatedFrame.mk sample_page) ReadExecute sample_state with
  | (Ok _, w) => translate (mem (hart w)) (satp (hart w)) 0x10123 =
                   Some (leaf_for 0x80020000 ReadExecute User)
  | _ => False
  end.
Proof. vm_compute. reflexivity. Qed.

(** ** The kernel heap *)

(** C18: [KernelPaging::claim_heap] succeeds only on the first claim, with an
    empty root slot, and then yields a heap in its invariant over the real page
    tables.  A second claim and a used slot are errors that say so and leave
    the heap unclaimed or claimed as it was; a first page that cannot be backed
    is an error only for want of three frames or for a frame among the next
    three that no entry can name, so that a first claim of an empty slot with
    three representable frames left succeeds.  What was mapped before stays
    mapped as it was, through the claim and through every later request, and no
    error breaks the address space. *)
Theorem claim_heap_exactly {F} `{FrameAllocator F} root l1 l0 T sp l w :
  kernel_state root l1 l0 T sp l w -> synced (hart w) ->
  exists o w', claim_heap w = (o, w') /\
  match o with
  | Ok h => KernelPaging.heap_claimed (capability w) = false /\ T !! [heap_index] = None /\
      heap_ok (backing_inv root l1 l0 sp) HEAP_RANGE page_backed h w' /\ KernelHeap.cursor h = HEAP_END
  | Err e =>
      KernelPaging.heap_claimed (capability w) = true /\ e = Backing KernelHeapAlreadyClaimed /\ w' = w \/
      KernelPaging.heap_claimed (capability w) = false /\
      (exists c, T !! [heap_index] = Some c /\ e = Backing (RootEntryInUse heap_index (link_pte c))) /\
      kernel_state root l1 l0 T sp l w' \/
      KernelPaging.heap_claimed (capability w) = false /\ T !! [heap_index] = None /\
      (e = Backing OutOfPhysicalFrames /\ (length l < 3)%nat \/
       exists fr, In fr (take 3 l) /\ MAX_PHYSICAL_ADDRESS < PhysFrame.start fr /\
         e = Backing (PhysicalAddressNotRepresentable (PhysFrame.start fr))) /\
      backing_inv root l1 l0 sp w'
  | _ => False
  end /\
  (KernelPaging.heap_claimed (capability w) = false -> T !! [heap_index] = None -> enough 1 l -> exists h, o = Ok h).
Proof.
  intros Hk Hs. destruct (claim_heap_spec root l1 l0 sp T sp l w Hk Hs eq_refl) as (o & w' & Hc & Ho).
  exists o, w'. split; [exact Hc|]. destruct o as [h|e| |]; try contradiction.
  { split; [exact Ho|]. by exists h. }
  destruct Ho as [(Hcl & Ho)|[(Hcl & (c & Hc' & He) & Ho)|(Hcl & Hn & (e' & -> & He) & Hinv)]].
  - split; [by left|]. by rewrite Hcl.
  - split; [right; left; split; [done|]; split; [by exists c|done]|]. by rewrite Hc'.
  - split.
    + right. right. split; [done|]. split; [done|]. split; [|done].
      destruct He as [[-> Hl]|(fr & Hin & Hh & ->)]; [by left|right; by exists fr].
    + intros _ _ [Hl Hf]. destruct He as [[_ Hlt]|(fr & Hin & Hh & _)]; [lia|]. specialize (Hf fr Hin). lia.
Qed.

Lemma claim_heap_exactly_witness :
  exists h w', claim_heap sample_state = (Ok h, w') /\ KernelHeap.cursor h = HEAP_END /\
    heap_ok (backing_inv sample_root sample_l1 sample_l0 sample_space) HEAP_RANGE page_backed h w'.
Proof.
  destruct (claim_heap_exactly sample_root sample_l1 sample_l0 tables_2 sample_space sample_frames sample_state)
    as (o & w' & Hc & Ho & Hok).
  - exact sample_kernel_state.
  - exact sample_synced.
  - destruct Hok as [h ->].
    + reflexivity.
    + reflexivity.
    + split; [cbn; lia|]. intros fr Hin. cbn in Hin.
      destruct Hin as [<-|[<-|[<-|[]]]]; vm_compute; congruence.
    + destruct Ho as (_ & _ & Hheap & Hcur). exists h, w'. exact (conj Hc (conj Hcur Hheap)).
Defined.

(** C9: From the moment the heap is claimed, whatever a client requests of it,
    every byte of every block it gets is mapped read-write for the supervisor to
    a byte of physical memory that no other virtual address of the hart reaches,
    and the blocks are disjoint; what was mapped at the claim stays mapped as it
    was.  This holds through failed requests and frame exhaustion. *)
Theorem kernel_heap_private {F} `{FrameAllocator F} root l1 l0 T sp l (w0 w : KernelPaging.t * machine * F)
    h layouts :
  kernel_state root l1 l0 T sp l w0 -> synced (hart w0) -> claim_heap w0 = (Ok h, w) -> Forall layout_ok layouts ->
  exists blocks h' w', KernelHeap.allocate_all layouts (h, w) = (Ok blocks, (h', w')) /\
    ForallOrdPairs below blocks /\ backing_inv root l1 l0 sp w' /\
    forall a layout x, In (a, layout) blocks -> a <= x < a + lsize layout ->
      exists f pa, translate (mem (hart w')) (satp (hart w')) x = Some (leaf_for f ReadWrite Supervisor) /\
        leads_to w' x pa /\ forall va, leads_to w' va pa -> va = x.
Proof.
  intros Hk0 Hs Hclaim Hls. apply (blocks_private root l1 l0 sp layouts h w); [|done].
  by apply (claimed_heap_ok root l1 l0 sp T sp l w0 w h Hk0 Hs).
Qed.

Lemma kernel_heap_private_witness :
  exists h w blocks h' w', claim_heap sample_state = (Ok h, w) /\
    KernelHeap.allocate_all [mkLayout 5000 16; mkLayout 8 8] (h, w) = (Ok blocks, (h', w')) /\
    ForallOrdPairs below blocks /\ backing_inv sample_root sample_l1 sample_l0 sample_space w' /\
    forall a layout x, In (a, layout) blocks -> a <= x < a + lsize layout ->
      exists f pa, translate (mem (hart w')) (satp (hart w')) x = Some (leaf_for f ReadWrite Supervisor) /\
        leads_to (F:=list PhysFrame.t) w' x pa /\ forall va, leads_to w' va pa -> va = x.
Proof.
  destruct sample_claimed_heap as (h & w & Hc & _).
  destruct (kernel_heap_private sample_root sample_l1 sample_l0 tables_2 sample_space sample_frames
    sample_state w h [mkLayout 5000 16; mkLayout 8 8]) as (blocks & h' & w' & Hr).
  - exact sample_kernel_state.
  - exact sample_synced.
  - exact Hc.
  - repeat constructor; cbn; try lia; try (unfold isize_max; lia); [exists 4|exists 3]; lia.
  - exists h, w, blocks, h', w'. split; [exact Hc|exact Hr].
Defined.
