(* ===== verification/KEntryProperties.v ===== *)
(** * What entering the kernel address space guarantees

    The theorem about [BootstrapPaging::into_kernel], with an instance on a
    small kernel image, its devicetree and a handful of frames. *)

From Stdlib Require Import ZArith Lia Bool.
From Stdlib Require Import Strings.Byte.
From stdpp Require Import base list numbers gmap.
From S2P Require Import Prelude FdtScan KMemory KBootAlloc KMachine KPaging KPte KTables KMapProofs KRangeProofs KFrameWindow.
From S2P Require Import KHeap KKernelPaging KWindow KKernelProofs KBootWindow KTransition KEntry KPlan KKernelSample.
Local Open Scope Z_scope.

(** C5: [BootstrapPaging::into_kernel] on a controlled bootstrap root and
    frames that hold nothing of the image or the devicetree.  On success the
    hart translates by a fresh root in the invariant of the kernel's paging:
    every address of a section leads to where it was loaded with exactly the
    permissions of the section, every byte of the devicetree is readable at its
    alias, everything else that is mapped is accounted for by those pages and
    the window's control page, and no page is user-accessible or both writable
    and executable.  On an error, whose cause is one of those listed, the old
    root is still active and controlled.  Either way only frames taken from the
    allocator changed, and no call panics. *)
Theorem into_kernel_exactly {F} `{FrameAllocator F} root kernel_start sections dtb_virtual dtb l
    (w : BootstrapPaging.t * machine * F) :
  boot_inv root (fst (fst w)) (snd (fst w)) -> provides (snd w) l ->
  (forall fr, In fr l -> PhysFrame.start fr <> root) -> clear_of l kernel_start sections dtb ->
  Forall section_wf (sections_of sections) -> 0 <= kernel_start -> is_usize dtb_virtual -> PhysRange.wf dtb ->
  exists o w', into_kernel kernel_start sections dtb_virtual dtb w = (o, w') /\
  match o with
  | Ok k => exists top l1 l0 T sp l',
      let hart := snd (fst w') in
      kernel_state top l1 l0 T sp l' (k, hart, snd w') /\ shows_space hart sp /\
      (forall p va, in_section sections p va ->
         sp !! vpn_of va = Some (leaf_for (loaded_at kernel_start sections va) p Supervisor)) /\
      (forall x, 0 <= x < PhysRange.end_ dtb - PhysRange.start dtb ->
         sp !! vpn_of (dtb_virtual + x) = Some (leaf_for (PhysRange.start dtb + x) ReadOnly Supervisor)) /\
      (forall va lf, sp !! vpn_of va = Some lf ->
         accounted sections dtb_virtual dtb l0 va lf /\ l_user lf = false /\ l_write lf && l_exec lf = false) /\
      KernelPaging.heap_claimed k = false /\ built l w l' (mem hart)
  | Err e => transition_error l e /\ boot_inv root (fst (fst w')) (snd (fst w')) /\
      exists l', provides (snd w') l' /\ built l w l' (mem (snd (fst w'))) /\ satp (snd (fst w')) = satp (snd (fst w))
  | _ => False
  end.
Proof. apply into_kernel_plan. Qed.

(** ** A sample image *)

Definition sample_boot_root : Z := 0x80201000.

(** The root as the entry code and the devicetree window leave it. *)
Definition sample_boot_memory : memory :=
  fold_left (fun m e => write_word m (sample_boot_root + 8 * fst e) (snd e))
    [(2, pte 0x80000000 IDENTITY_FLAGS); (510, pte 0x80000000 IDENTITY_FLAGS);
     (256, pte 0x80000000 BOOT_FDT_PTE_FLAGS); (257, pte 0xc0000000 BOOT_FDT_PTE_FLAGS)] (fun _ => x00).

Definition sample_boot_machine : machine :=
  mkMachine sample_boot_memory (root_satp sample_boot_root)
    (fun vp => translate sample_boot_memory (root_satp sample_boot_root) (vp * 4096)).

Definition sample_boot_frames : list PhysFrame.t :=
  map (fun i => PhysFrame.mk (0x80400000 + 4096 * Z.of_nat i)) (seq 0 12).

Definition sample_boot_state : BootstrapPaging.t * machine * list PhysFrame.t :=
  (BootstrapPaging.mk sample_boot_root, sample_boot_machine, sample_boot_frames).

(** One page of each section but the read-only data, which is empty. *)
Definition sample_sections : KernelSections :=
  let range := fun start end_ => VirtRange.new (VirtAddr.new start) (VirtAddr.new end_) in
  mkSections 0xffffffff80200000 (range 0xffffffff80202000 0xffffffff80203800)
    (range 0xffffffff80204000 0xffffffff80204000) (range 0xffffffff80204000 0xffffffff80204010)
    (range 0xffffffff80205000 0xffffffff80205100) (range 0xffffffff80206000 0xffffffff80208000).

Definition sample_dtb : PhysRange.t := PhysRange.mk 0x82200010 0x82201100.
Definition sample_dtb_virtual : Z := BOOT_FDT_WINDOW_BASE + 0x2200010.

Lemma sample_boot_inv : boot_inv sample_boot_root (BootstrapPaging.mk sample_boot_root) sample_boot_machine.
Proof. repeat split; vm_compute; congruence. Qed.

Lemma sample_boot_provides : provides sample_boot_frames sample_boot_frames.
Proof.
  apply list_provides.
  - apply (bool_decide_unpack (Forall _ _)). vm_compute. exact I.
  - apply (bool_decide_unpack _). vm_compute. exact I.
Qed.

Lemma sample_boot_clear : clear_of sample_boot_frames 0x80200000 sample_sections sample_dtb.
Proof.
  intros fr pa Hin Hpa. apply in_map_iff in Hin as (i & <- & Hi%in_seq). cbn [PhysFrame.start] in Hpa.
  unfold FRAME_SIZE in Hpa. split; [unfold PhysRange.contains; cbn; lia|].
  intros p va (r & Hr & Hc). unfold loaded_at. cbn [sample_sections virtual_start]. unfold VirtRange.contains in Hc.
  vm_compute in Hr. repeat destruct Hr as [Hr|Hr]; inversion Hr; subst; cbn in Hc; lia.
Qed.

Lemma sample_sections_wf : Forall section_wf (sections_of sample_sections).
Proof. repeat constructor; vm_compute; congruence. Qed.

(** The sample image enters its address space. *)
Lemma sample_entry_succeeds :
  match fst (into_kernel 0x80200000 sample_sections sample_dtb_virtual sample_dtb sample_boot_state) with
  | Ok _ => True
  | _ => False
  end.
Proof. vm_compute. exact I. Qed.

Lemma into_kernel_exactly_witness :
  exists k w' top l1 l0 T sp l',
    into_kernel 0x80200000 sample_sections sample_dtb_virtual sample_dtb sample_boot_state = (Ok k, w') /\
    kernel_state top l1 l0 T sp l' (k, snd (fst w'), snd w') /\
    sp !! vpn_of 0xffffffff80202abc = Some (leaf_for 0x80202abc ReadExecute Supervisor) /\
    sp !! vpn_of 0xffffffff80207ff8 = Some (leaf_for 0x80207ff8 ReadWrite Supervisor) /\
    sp !! vpn_of sample_dtb_virtual = Some (leaf_for 0x82200010 ReadOnly Supervisor).
Proof.
  destruct (into_kernel_exactly sample_boot_root 0x80200000 sample_sections sample_dtb_virtual sample_dtb
    sample_boot_frames sample_boot_state) as (o & w' & Hk & Ho).
  - exact sample_boot_inv.
  - exact sample_boot_provides.
  - intros fr Hin. apply in_map_iff in Hin as (i & <- & _). cbn. unfold sample_boot_root. lia.
  - exact sample_boot_clear.
  - exact sample_sections_wf.
  - lia.
  - vm_compute. split; congruence.
  - vm_compute. repeat split; congruence.
  - pose proof sample_entry_succeeds as Hok. rewrite Hk in Hok. cbn [fst] in Hok. destruct o as [k|e| |]; try contradiction.
    destruct Ho as (top & l1 & l0 & T & sp & l' & H1 & H2 & H3 & H4 & _).
    exists k, w', top, l1, l0, T, sp, l'. split; [exact Hk|]. split; [exact H1|]. split; [|split].
    + apply (H3 ReadExecute 0xffffffff80202abc). eexists. split; [left; reflexivity|]. split; vm_compute; congruence.
    + apply (H3 ReadWrite 0xffffffff80207ff8). eexists. split; [do 4 right; left; reflexivity|].
      split; vm_compute; congruence.
    + replace sample_dtb_virtual with (sample_dtb_virtual + 0) at 1 by lia. apply (H4 0). cbn. lia.
Defined.
