(* ===== verification/KAsm.v ===== *)
(** * The instructions of the kernel's assembly

    The RV64 instructions that the assembly of [boot.rs], [trap.rs] and
    [time.rs] uses, on a register file, a flat memory and the supervisor's
    control registers, with the trap and return rules of the privileged
    architecture.  A piece of assembly is a list of labelled blocks, in the
    order of the source; a block that does not jump falls through to the next
    one.  The memory is the one the assembly addresses: physical before
    translation is on, the mapped kernel memory afterwards.
    The last part gives the bits of [sstatus] as Booleans. *)

From Stdlib Require Import ZArith Lia Bool.
From Stdlib Require Import Strings.Byte Strings.String.
From stdpp Require Import base list numbers.
From S2P Require Import Prelude FdtScan KMemory KMachine.
Local Open Scope Z_scope.

(** ** State *)

Inductive csr := Sstatus | Sie | Sscratch | Sepc | Scause | Stval | Stvec | Satp.

#[export] Instance csr_eq_decision : EqDecision csr.
Proof. solve_decision. Defined.

Record hart := mkHart {
  regs : Z -> Z;
  data : memory;
  csrs : csr -> Z;
  pc : Z;
  user : bool;
}.

Definition wrap (x : Z) : Z := x mod 2 ^ 64.

(** Register 0 reads as zero and ignores writes. *)
Definition reg (h : hart) (r : Z) : Z := if r =? 0 then 0 else regs h r.

Definition set_reg (h : hart) (r v : Z) : hart :=
  mkHart (fun i => if i =? r then v else regs h i) (data h) (csrs h) (pc h) (user h).

Definition set_data (h : hart) (m : memory) : hart := mkHart (regs h) m (csrs h) (pc h) (user h).

Definition set_csr (h : hart) (c : csr) (v : Z) : hart :=
  mkHart (regs h) (data h) (fun c' => if decide (c' = c) then v else csrs h c') (pc h) (user h).

(** The names of the calling convention. *)
Abbreviation zero := 0.  Abbreviation ra := 1.  Abbreviation sp := 2.  Abbreviation gp := 3.
Abbreviation tp := 4.  Abbreviation t0 := 5.  Abbreviation t1 := 6.  Abbreviation t2 := 7.
Abbreviation s0 := 8.  Abbreviation s1 := 9.  Abbreviation a0 := 10.  Abbreviation a1 := 11.
Abbreviation a2 := 12.  Abbreviation a3 := 13.  Abbreviation a4 := 14.  Abbreviation a5 := 15.
Abbreviation a6 := 16.  Abbreviation a7 := 17.  Abbreviation s2 := 18.  Abbreviation s3 := 19.
Abbreviation s4 := 20.  Abbreviation s5 := 21.  Abbreviation s6 := 22.  Abbreviation s7 := 23.
Abbreviation s8 := 24.  Abbreviation s9 := 25.  Abbreviation s10 := 26.  Abbreviation s11 := 27.
Abbreviation t3 := 28.  Abbreviation t4 := 29.  Abbreviation t5 := 30.  Abbreviation t6 := 31.

(** ** Instructions *)

Inductive instr :=
| Li (rd imm : Z)
| La (rd address : Z)
| Mv (rd rs : Z)
| Addi (rd rs imm : Z)
| Add (rd rs rt : Z)
| Andi (rd rs imm : Z)
| Ori (rd rs imm : Z)
| Or (rd rs rt : Z)
| Srli (rd rs k : Z)
| Slli (rd rs k : Z)
| Ld (rd offset rs : Z)
| Sd (rt offset rs : Z)
| Csrr (rd : Z) (c : csr)
| Csrw (c : csr) (rs : Z)
| Csrrw (rd : Z) (c : csr) (rs : Z)
| Csrc (c : csr) (rs : Z)
| Csrs (c : csr) (rs : Z)
| Csrci (c : csr) (imm : Z)
| Csrsi (c : csr) (imm : Z)
| Csrrci (rd : Z) (c : csr) (imm : Z)
| Sfence_vma
| Fence_i.

(** A sign-extended immediate of an operation on 64 bits. *)
Definition immediate (i : Z) : Z := wrap i.

Definition clear_bits (v m : Z) : Z := Z.land v (Z.lxor m usize_max).

Definition exec (i : instr) (h : hart) : hart :=
  match i with
  | Li rd imm => set_reg h rd (immediate imm)
  | La rd a => set_reg h rd a
  | Mv rd rs => set_reg h rd (reg h rs)
  | Addi rd rs imm => set_reg h rd (wrap (reg h rs + imm))
  | Add rd rs rt => set_reg h rd (wrap (reg h rs + reg h rt))
  | Andi rd rs imm => set_reg h rd (Z.land (reg h rs) (immediate imm))
  | Ori rd rs imm => set_reg h rd (Z.lor (reg h rs) (immediate imm))
  | Or rd rs rt => set_reg h rd (Z.lor (reg h rs) (reg h rt))
  | Srli rd rs k => set_reg h rd (Z.shiftr (reg h rs) k)
  | Slli rd rs k => set_reg h rd (wrap (Z.shiftl (reg h rs) k))
  | Ld rd offset rs => set_reg h rd (read_word (data h) (wrap (reg h rs + offset)))
  | Sd rt offset rs => set_data h (write_word (data h) (wrap (reg h rs + offset)) (reg h rt))
  | Csrr rd c => set_reg h rd (csrs h c)
  | Csrw c rs => set_csr h c (reg h rs)
  | Csrrw rd c rs => set_reg (set_csr h c (reg h rs)) rd (csrs h c)
  | Csrc c rs => set_csr h c (clear_bits (csrs h c) (reg h rs))
  | Csrs c rs => set_csr h c (Z.lor (csrs h c) (reg h rs))
  | Csrci c imm => set_csr h c (clear_bits (csrs h c) imm)
  | Csrsi c imm => set_csr h c (Z.lor (csrs h c) imm)
  | Csrrci rd c imm => set_reg (set_csr h c (clear_bits (csrs h c) imm)) rd (csrs h c)
  | Sfence_vma | Fence_i => h
  end.

Definition exec_all (l : list instr) (h : hart) : hart := fold_left (fun h i => exec i h) l h.

Lemma exec_all_app l l' h : exec_all (l ++ l') h = exec_all l' (exec_all l h).
Proof. apply fold_left_app. Qed.

(** ** Blocks *)

(** How a block ends. *)
Inductive terminator :=
| Fall
| J (label : string)
| Bnez (rs : Z) (label : string)
| Bgeu (rs rt : Z) (label : string)
| Jr (rs : Z)
| Call (label : string)
| Tail (label : string)
| Sret
| Ret.

Definition block : Type := string * list instr * terminator.

(** Where control goes when it leaves the assembly. *)
Inductive exit := Jumped (address : Z) | Called (label : string) | Returned.

(** [sret]: the interrupt enable and the privilege saved in [sstatus] return. *)
Definition sret (h : hart) : hart :=
  let s := csrs h Sstatus in
  let s' := Z.lor (if Z.testbit s 5 then Z.lor s 2 else clear_bits s 2) 32 in
  let h := set_csr h Sstatus (clear_bits s' 256) in
  mkHart (regs h) (data h) (csrs h) (csrs h Sepc) (negb (Z.testbit s 8)).

(** A trap: the hart saves where and why, masks interrupts and enters the
    supervisor at the vector. *)
Definition take_trap (cause value : Z) (h : hart) : hart :=
  let s := csrs h Sstatus in
  let s := if Z.testbit s 1 then Z.lor s 32 else clear_bits s 32 in
  let s := if user h then clear_bits s 256 else Z.lor s 256 in
  let h' := set_csr (set_csr (set_csr h Scause cause) Stval value) Sepc (pc h) in
  let h' := set_csr h' Sstatus (clear_bits s 2) in
  mkHart (regs h') (data h') (csrs h') (csrs h Stvec) false.

Fixpoint blocks_from (label : string) (prog : list block) : list block :=
  match prog with
  | [] => []
  | (l, _, _) :: rest => if (l =? label)%string then prog else blocks_from label rest
  end.

(** At most [fuel] blocks from the head of [rest]; control that falls off the
    end or to an unknown label is stuck. *)
Fixpoint run (fuel : nat) (prog rest : list block) (h : hart) : option (exit * hart) :=
  match fuel, rest with
  | S fuel', (_, body, t) :: rest =>
      let h := exec_all body h in
      match t with
      | Fall => run fuel' prog rest h
      | J l => run fuel' prog (blocks_from l prog) h
      | Bnez rs l => run fuel' prog (if negb (reg h rs =? 0) then blocks_from l prog else rest) h
      | Bgeu rs rt l => run fuel' prog (if reg h rt <=? reg h rs then blocks_from l prog else rest) h
      | Jr rs => Some (Jumped (reg h rs), h)
      | Call l | Tail l => Some (Called l, h)
      | Sret => Some (Returned, sret h)
      | Ret => Some (Returned, h)
      end
  | _, _ => None
  end.

(** From a label. *)
Definition run_at (fuel : nat) (prog : list block) (label : string) (h : hart) : option (exit * hart) :=
  run fuel prog (blocks_from label prog) h.

(** ** The bits of [sstatus]

    What a trap, the restore path and [sret] make of the status word, bit by
    bit. *)

Lemma testbit_pow k n : 0 <= k -> Z.testbit (2 ^ k) n = (n =? k).
Proof.
  intros Hk. destruct (n =? k) eqn:E; zbool; [subst; by apply Z.pow2_bits_true|]. apply Z.pow2_bits_false. lia.
Qed.

Lemma u64_high s n : is_u64 s -> 64 <= n -> Z.testbit s n = false.
Proof.
  intros Hs Hn. unfold is_u64, u64_max in Hs. destruct (decide (s = 0)) as [->|Hne]; [apply Z.testbit_0_l|].
  apply Z.bits_above_log2; [lia|]. assert (Z.log2 s < 64) by (apply Z.log2_lt_pow2; lia). lia.
Qed.

Lemma u64_of_bits s : 0 <= s -> (forall n, 64 <= n -> Z.testbit s n = false) -> is_u64 s.
Proof.
  intros H0 Hn. unfold is_u64, u64_max. split; [done|].
  assert (s = s mod 2 ^ 64) as ->; [|pose proof (Z.mod_pos_bound s (2 ^ 64)); lia].
  apply Z.bits_inj'. intros n Hn0. destruct (Z_lt_le_dec n 64).
  - by rewrite Z.mod_pow2_bits_low.
  - rewrite Z.mod_pow2_bits_high by lia. by apply Hn.
Qed.

Lemma testbit_clear s k n :
  is_u64 s -> 0 <= k < 64 -> 0 <= n -> Z.testbit (clear_bits s (2 ^ k)) n = Z.testbit s n && negb (n =? k).
Proof.
  intros Hs Hk Hn. unfold clear_bits. rewrite Z.land_spec, Z.lxor_spec, testbit_pow by lia.
  change usize_max with (Z.ones 64). rewrite Z.testbit_ones_nonneg by lia.
  destruct (n <? 64) eqn:E; zbool; [|by rewrite (u64_high s n Hs) by lia].
  by destruct (n =? k).
Qed.

Lemma testbit_set s k n : 0 <= k -> Z.testbit (Z.lor s (2 ^ k)) n = Z.testbit s n || (n =? k).
Proof. intros Hk. by rewrite Z.lor_spec, testbit_pow. Qed.

Lemma clear_u64 s k : is_u64 s -> 0 <= k < 64 -> is_u64 (clear_bits s (2 ^ k)).
Proof.
  intros Hs Hk. apply u64_of_bits.
  - unfold clear_bits. apply Z.land_nonneg. left. apply Hs.
  - intros n Hn. rewrite testbit_clear by (done || lia). by rewrite (u64_high s n Hs).
Qed.

Lemma set_u64 s k : is_u64 s -> 0 <= k < 64 -> is_u64 (Z.lor s (2 ^ k)).
Proof.
  intros Hs Hk. apply u64_of_bits.
  - apply Z.lor_nonneg. split; [apply Hs|]. apply Z.pow_nonneg. lia.
  - intros n Hn. rewrite testbit_set by lia. rewrite (u64_high s n Hs) by lia.
    by rewrite (proj2 (Z.eqb_neq n k)) by lia.
Qed.

(** The status of a trap, after the enable bit and the privilege moved. *)
Definition trap_status (was_user : bool) (s : Z) : Z :=
  let s := if Z.testbit s 1 then Z.lor s 32 else clear_bits s 32 in
  clear_bits (if was_user then clear_bits s 256 else Z.lor s 256) 2.

Lemma trap_status_bits was_user s n :
  is_u64 s -> 0 <= n ->
  Z.testbit (trap_status was_user s) n =
  if n =? 1 then false else if n =? 5 then Z.testbit s 1 else if n =? 8 then negb was_user else Z.testbit s n.
Proof.
  intros Hs Hn. unfold trap_status. change 2 with (2 ^ 1) at 1. change 256 with (2 ^ 8). change 32 with (2 ^ 5).
  destruct was_user, (Z.testbit s 1) eqn:E1;
    rewrite ?testbit_clear, ?testbit_set, ?testbit_clear, ?testbit_set
      by (repeat (apply clear_u64 || apply set_u64); done || lia);
    destruct (n =? 1) eqn:?, (n =? 5) eqn:?, (n =? 8) eqn:?; zbool; subst; try lia; cbn;
    rewrite ?E1, ?andb_true_r, ?andb_false_r, ?orb_false_r, ?orb_true_r; done.
Qed.

Lemma trap_status_u64 was_user s : is_u64 s -> is_u64 (trap_status was_user s).
Proof.
  intros Hs. unfold trap_status. change 2 with (2 ^ 1). change 256 with (2 ^ 8). change 32 with (2 ^ 5).
  destruct was_user, (Z.testbit s 1); repeat (apply clear_u64 || apply set_u64); done || lia.
Qed.

(** The status [sret] leaves when [sstatus] is [s]. *)
Definition returned_status (s : Z) : Z :=
  clear_bits (Z.lor (if Z.testbit s 5 then Z.lor s 2 else clear_bits s 2) 32) 256.

Lemma returned_status_bits s n :
  is_u64 s -> 0 <= n ->
  Z.testbit (returned_status s) n =
  if n =? 1 then Z.testbit s 5 else if n =? 5 then true else if n =? 8 then false else Z.testbit s n.
Proof.
  intros Hs Hn. unfold returned_status. change 2 with (2 ^ 1). change 256 with (2 ^ 8). change 32 with (2 ^ 5).
  destruct (Z.testbit s 5) eqn:E5;
    rewrite ?testbit_clear, ?testbit_set, ?testbit_clear, ?testbit_set
      by (repeat (apply clear_u64 || apply set_u64); done || lia);
    destruct (n =? 1) eqn:?, (n =? 5) eqn:?, (n =? 8) eqn:?; zbool; subst; try lia; cbn;
    rewrite ?E5, ?andb_true_r, ?andb_false_r, ?orb_false_r, ?orb_true_r; done.
Qed.

(** [andi t0, t0, -3] clears the enable bit. *)
Lemma land_minus_3 s : Z.land s (wrap (- 3)) = clear_bits s 2.
Proof. reflexivity. Qed.

(** The test of [SPP] in the restore path. *)
Lemma land_origin s : is_u64 s -> (Z.land (clear_bits s 2) 256 =? 0) = negb (Z.testbit s 8).
Proof.
  intros Hs. change 2 with (2 ^ 1). change 256 with (2 ^ 8).
  pose proof (testbit_clear s 1 8 Hs ltac:(lia) ltac:(lia)) as H8.
  change (negb (8 =? 1)) with true in H8. rewrite andb_true_r in H8.
  rewrite <- H8. destruct (Z.testbit (clear_bits s (2 ^ 1)) 8) eqn:E; cbn [negb].
  - apply Z.eqb_neq. intros Hz. apply (f_equal (fun x => Z.testbit x 8)) in Hz.
    by rewrite Z.land_spec, E, testbit_pow in Hz.
  - apply Z.eqb_eq, Z.bits_inj'. intros n Hn. rewrite Z.land_spec, testbit_pow, Z.bits_0 by lia.
    destruct (n =? 8) eqn:En; zbool; [subst; by rewrite E|by rewrite andb_false_r].
Qed.
