(* ===== verification/KTimer.v ===== *)
(** * Interrupt guards, the time counter and the periodic timer

    [kernel/src/arch/riscv64/interrupt.rs], [time.rs], [timer.rs] and the calls
    of [kernel/src/firmware/sbi.rs].  The firmware and the counter are outside
    the repository: they are the operations of a class, on a state of their
    own.  The atomics are the fields of the state the operations thread. *)

From Stdlib Require Import ZArith Lia Bool.
From Stdlib Require Import Strings.Byte.
From stdpp Require Import base list numbers.
From S2P Require Import Prelude FdtScan KMemory KMachine KPaging KAsm.
Local Open Scope Z_scope.

(** The execution environment: an SBI call returns an error code, [rdtime] the
    counter, and only some harts have the counter. *)
Class Environment (W : Type) := {
  sbi_call : Z -> Z -> Z -> W -> Z * W;
  rdtime : W -> Z * W;
  counter_readable : W -> bool;
}.

Record kernel (W : Type) := mkKernel {
  control : csr -> Z;
  STATE : Z;
  INTERVAL : Z;
  TICKS : Z;
  USER_TICKS : Z;
  world : W;
}.
Arguments mkKernel {W}. Arguments control {W}. Arguments STATE {W}. Arguments INTERVAL {W}.
Arguments TICKS {W}. Arguments USER_TICKS {W}. Arguments world {W}.

Section kernel.
Context {W : Type} `{Environment W}.

Definition with_control (k : kernel W) (c : csr) (v : Z) : kernel W :=
  mkKernel (fun c' => if decide (c' = c) then v else control k c') (STATE k) (INTERVAL k) (TICKS k)
    (USER_TICKS k) (world k).

Definition with_STATE (k : kernel W) (v : Z) : kernel W :=
  mkKernel (control k) v (INTERVAL k) (TICKS k) (USER_TICKS k) (world k).

Definition with_INTERVAL (k : kernel W) (v : Z) : kernel W :=
  mkKernel (control k) (STATE k) v (TICKS k) (USER_TICKS k) (world k).

Definition with_TICKS (k : kernel W) (v : Z) : kernel W :=
  mkKernel (control k) (STATE k) (INTERVAL k) v (USER_TICKS k) (world k).

Definition with_USER_TICKS (k : kernel W) (v : Z) : kernel W :=
  mkKernel (control k) (STATE k) (INTERVAL k) (TICKS k) v (world k).

Definition with_world (k : kernel W) (w : W) : kernel W :=
  mkKernel (control k) (STATE k) (INTERVAL k) (TICKS k) (USER_TICKS k) w.

(** [csrr], [csrs] and [csrc] of a control register. *)
Definition read_csr {E} (c : csr) : M (kernel W) E Z := let* k := get in ret (control k c).
Definition set_csr_bits {E} (c : csr) (m : Z) : M (kernel W) E unit :=
  let* k := get in put (with_control k c (Z.lor (control k c) m)).
Definition clear_csr_bits {E} (c : csr) (m : Z) : M (kernel W) E unit :=
  let* k := get in put (with_control k c (clear_bits (control k c) m)).

(** ** [interrupt.rs] *)

Record InterruptGuard := mkGuard { was_enabled : bool }.

(** [csrrci status, sstatus, 2]. *)
Definition disable {E} : M (kernel W) E InterruptGuard :=
  let* status := read_csr Sstatus in
  let* _ := clear_csr_bits Sstatus 2 in
  ret (mkGuard (negb (Z.land status 2 =? 0))).

Definition enable {E} : M (kernel W) E unit := set_csr_bits Sstatus 2.

Definition drop_guard {E} (self : InterruptGuard) : M (kernel W) E unit :=
  if was_enabled self then set_csr_bits Sstatus 2 else clear_csr_bits Sstatus 2.

(** [let _interrupts = disable();] for the rest of a function body, on every
    return path. *)
Definition with_interrupts_masked {E A} (body : M (kernel W) E A) : M (kernel W) E A :=
  let* guard := disable in
  let* result := minfallible (as_result body) in
  let* _ := drop_guard guard in
  lift result.

(** ** [firmware/sbi.rs] *)

Definition DBCN_EID : Z := 0x4442434E.
Definition DBCN_WRITE_BYTE_FID : Z := 2.
Definition TIME_EID : Z := 0x54494d45.
Definition SET_TIMER_FID : Z := 0.

Inductive SetTimerError := NotSupported | Denied | Unexpected (error : Z).
Inductive WriteByteError := WriteFailed | WriteDenied | WriteUnexpected (error : Z).

Definition call {E} (extension function argument : Z) : M (kernel W) E Z :=
  let* k := get in
  let '(error, w) := sbi_call extension function argument (world k) in
  let* _ := put (with_world k w) in
  ret error.

Definition write_byte (byte : Z) : M (kernel W) WriteByteError unit :=
  let* error := call DBCN_EID DBCN_WRITE_BYTE_FID byte in
  match error with
  | 0 => ret tt
  | -1 => throw WriteFailed
  | -4 => throw WriteDenied
  | error => throw (WriteUnexpected error)
  end.

Definition set_timer (deadline : Z) : M (kernel W) SetTimerError unit :=
  let* error := call TIME_EID SET_TIMER_FID deadline in
  match error with
  | 0 => ret tt
  | -2 => throw NotSupported
  | -4 => throw Denied
  | error => throw (Unexpected error)
  end.

(** ** [time.rs] *)

Definition UNINITIALIZED : Z := 0.
Definition UNAVAILABLE : Z := 1.
Definition AVAILABLE : Z := 2.

(** [ticks]: the counter, read only after a successful probe. *)
Definition time_ticks {E} : M (kernel W) E (option Z) :=
  let* k := get in
  if negb (STATE k =? AVAILABLE) then ret None
  else
    let '(ticks, w) := rdtime (world k) in
    let* _ := put (with_world k w) in
    ret (Some ticks).

Definition time_disable {E} : M (kernel W) E unit :=
  let* k := get in put (with_STATE k UNAVAILABLE).

(** ** [timer.rs] *)

Definition TIMER_ENABLE : Z := 32.

Inductive TimerError :=
| AlreadyInitialized
| NotInitialized
| CounterUnavailable
| InvalidInterval
| DeadlineOverflow
| Firmware (error : SetTimerError).

(** [core::time::Duration]. *)
Record Duration := mkDuration { secs : Z; subsec_nanos : Z }.

Definition as_nanos (d : Duration) : Z := secs d * 10 ^ 9 + subsec_nanos d.

Definition from_millis (ms : Z) : Duration := mkDuration (ms / 1000) (ms mod 1000 * 10 ^ 6).

Definition u128_max : Z := 2 ^ 128 - 1.

(** [div_ceil] of unsigned integers. *)
Definition div_ceil (a b : Z) : Z := if a mod b =? 0 then a / b else a / b + 1.

Definition interval_ticks (timebase_hz : Z) (period : Duration) : outcome TimerError Z :=
  let? scaled := ok_or (checked_mul u128_max timebase_hz (as_nanos period)) InvalidInterval in
  let ticks := div_ceil scaled 1000000000 in
  let? ticks := ok_or (if ticks <=? u64_max then Some ticks else None) InvalidInterval in
  ok_or (if ticks =? 0 then None else Some ticks) InvalidInterval.

Definition next_deadline (interval : Z) : M (kernel W) TimerError Z :=
  let* now := time_ticks in
  let* now := lift (ok_or now CounterUnavailable) in
  lift (ok_or (checked_add u64_max now interval) DeadlineOverflow).

Definition timer_init (timebase_hz : Z) (period : Duration) : M (kernel W) TimerError unit :=
  with_interrupts_masked
    (let* k := get in
     if negb (INTERVAL k =? 0) then throw AlreadyInitialized
     else
       let* interval := lift (interval_ticks timebase_hz period) in
       let* deadline := next_deadline interval in
       let* _ := mmap_err Firmware (set_timer deadline) in
       let* k := get in
       let* _ := put (with_INTERVAL k interval) in
       set_csr_bits Sie TIMER_ENABLE).

(** [ticks]. *)
Definition timer_ticks {E} : M (kernel W) E Z := let* k := get in ret (TICKS k).

(** [fetch_add(1)] wraps. *)
Definition handle_interrupt : M (kernel W) TimerError unit :=
  let* k := get in
  let interval := INTERVAL k in
  if interval =? 0 then throw NotInitialized
  else
    let* deadline := next_deadline interval in
    let* _ := mmap_err Firmware (set_timer deadline) in
    let* k := get in
    put (with_TICKS k (wrap (TICKS k + 1))).

End kernel.
