(* ===== verification/KTimerProofs.v ===== *)
(** * The periodic timer is configured once and rearmed at every interrupt *)

From Stdlib Require Import ZArith Lia Bool.
From stdpp Require Import base list numbers.
From S2P Require Import Prelude FdtScan KMemory KPaging KAsm KTimer.
Local Open Scope Z_scope.

Section kernel.
Context {W : Type} `{Environment W}.

Implicit Types (k : kernel W) (w : W).

(** The error [set_timer] makes of a code. *)
Definition timer_error (error : Z) : SetTimerError :=
  match error with -2 => NotSupported | -4 => Denied | error => Unexpected error end.

Lemma with_world_id k : with_world k (world k) = k.
Proof. by destruct k. Qed.

(** Programming the deadline one interval after the counter. *)
Definition arm (interval : Z) : M (kernel W) TimerError unit :=
  let* deadline := next_deadline interval in
  mmap_err Firmware (set_timer deadline).

(** How it can end, with the world it leaves. *)
Definition armed k (interval : Z) (o : outcome TimerError unit) w' : Prop :=
  match o with
  | Ok _ => STATE k = AVAILABLE /\ exists now w, rdtime (world k) = (now, w) /\ now + interval <= u64_max /\
      sbi_call TIME_EID SET_TIMER_FID (now + interval) w = (0, w')
  | Err CounterUnavailable => STATE k <> AVAILABLE /\ w' = world k
  | Err DeadlineOverflow => STATE k = AVAILABLE /\ exists now, rdtime (world k) = (now, w') /\
      u64_max < now + interval
  | Err (Firmware e) => STATE k = AVAILABLE /\ exists now w error, rdtime (world k) = (now, w) /\
      now + interval <= u64_max /\
      sbi_call TIME_EID SET_TIMER_FID (now + interval) w = (error, w') /\ error <> 0 /\ e = timer_error error
  | _ => False
  end.

Lemma set_timer_spec deadline k :
  let '(error, w) := sbi_call TIME_EID SET_TIMER_FID deadline (world k) in
  set_timer deadline k = (if error =? 0 then Ok tt else Err (timer_error error), with_world k w).
Proof.
  unfold set_timer, call, bind, get. cbn. destruct (sbi_call _ _ _ _) as [error w]. cbn.
  destruct error as [|p|p]; cbn; try done. do 3 (destruct p as [p|p|]; try done).
Qed.

Lemma arm_spec interval k :
  exists o w', arm interval k = (o, with_world k w') /\ armed k interval o w'.
Proof.
  unfold arm, next_deadline, time_ticks, bind, get, lift, put, ret. destruct (STATE k =? AVAILABLE) eqn:Hs; zbool; cbn [negb].
  2:{ exists (Err CounterUnavailable), (world k). cbn. by rewrite with_world_id. }
  destruct (rdtime (world k)) as [now w] eqn:Hr. cbn [ok_or].
  destruct (checked_add u64_max now interval) as [deadline|] eqn:Ha; cbn [ok_or].
  - apply checked_add_Some in Ha as [Hle ->]. pose proof (set_timer_spec (now + interval) (with_world k w)) as Hset.
    cbn [world with_world] in Hset. destruct (sbi_call _ _ _ w) as [error w'] eqn:Hc.
    unfold mmap_err. rewrite Hset. exists (if error =? 0 then Ok tt else Err (Firmware (timer_error error))), w'.
    destruct (error =? 0) eqn:He; zbool; (split; [done|]); split; try done.
    + exists now, w. subst error. done.
    + by exists now, w, error.
  - exists (Err DeadlineOverflow), w. split; [done|]. split; [done|]. exists now. split; [done|].
    unfold checked_add in Ha. case_match; zbool; [done|lia].
Qed.

Lemma handle_interrupt_eq k :
  handle_interrupt k =
  (if INTERVAL k =? 0 then throw NotInitialized
   else let* _ := arm (INTERVAL k) in let* k := get in put (with_TICKS k (wrap (TICKS k + 1)))) k.
Proof.
  unfold handle_interrupt, arm. unfold bind at 1, get at 1. destruct (INTERVAL k =? 0); [done|].
  by rewrite bind_assoc.
Qed.

(** Every outcome of one interrupt. *)
Lemma handle_interrupt_spec k :
  exists o k', handle_interrupt k = (o, k') /\
  match o with
  | Ok _ => INTERVAL k <> 0 /\ exists w', armed k (INTERVAL k) (Ok tt) w' /\
      k' = with_TICKS (with_world k w') (wrap (TICKS k + 1))
  | Err NotInitialized => INTERVAL k = 0 /\ k' = k
  | Err e => INTERVAL k <> 0 /\ exists w', armed k (INTERVAL k) (Err e) w' /\ k' = with_world k w'
  | _ => False
  end.
Proof.
  rewrite handle_interrupt_eq. destruct (INTERVAL k =? 0) eqn:Hi; zbool; [by do 2 eexists|].
  destruct (arm_spec (INTERVAL k) k) as (o & w' & Ha & Hr). destruct o as [[]|e| |]; try done.
  - rewrite (bind_ok _ _ _ _ _ Ha). do 2 eexists. split; [reflexivity|]. split; [done|]. by exists w'.
  - rewrite (bind_err _ _ _ e _ Ha). do 2 eexists. split; [reflexivity|]. destruct e; try done;
      (split; [done|]); by exists w'.
Qed.

Lemma arm_armed interval k w : armed k interval (Ok tt) w -> arm interval k = (Ok tt, with_world k w).
Proof.
  intros (Hs & now & w1 & Hr & Hle & Hc). unfold arm, next_deadline, time_ticks, bind, get, lift, put, ret.
  rewrite Hs. cbn -[checked_add set_timer u64_max]. rewrite Hr. cbn -[checked_add set_timer u64_max].
  rewrite (proj2 (checked_add_Some _ _ _ (now + interval))) by done. cbn -[set_timer].
  pose proof (set_timer_spec (now + interval) (with_world k w1)) as Hset. cbn [world with_world] in Hset.
  rewrite Hc in Hset. unfold mmap_err. by rewrite Hset.
Qed.

Lemma handle_interrupt_armed k w :
  INTERVAL k <> 0 -> armed k (INTERVAL k) (Ok tt) w ->
  handle_interrupt k = (Ok tt, with_TICKS (with_world k w) (wrap (TICKS k + 1))).
Proof.
  intros Hi Ha%arm_armed. rewrite handle_interrupt_eq, (proj2 (Z.eqb_neq _ _)) by done.
  by rewrite (bind_ok _ _ _ _ _ Ha).
Qed.

(** ** Configuration *)

Definition duration_ok (d : Duration) : Prop := is_u64 (secs d) /\ 0 <= subsec_nanos d < 10 ^ 9.

(** The least number of ticks that last at least the period. *)
Definition lasts (hz : Z) (period : Duration) (n : Z) : Prop :=
  (n - 1) * 10 ^ 9 < hz * as_nanos period <= n * 10 ^ 9.

Lemma lasts_unique hz period n n' : lasts hz period n -> lasts hz period n' -> n = n'.
Proof. unfold lasts. lia. Qed.

Lemma interval_ticks_spec hz period :
  0 <= hz <= u32_max -> duration_ok period ->
  exists n, lasts hz period n /\ 0 <= n /\
    interval_ticks hz period = (if decide (0 < n <= u64_max) then Ok n else Err InvalidInterval).
Proof.
  intros Hz [Hs Hn]. unfold is_u64, u64_max, u32_max in *.
  assert (0 <= as_nanos period <= (2 ^ 64 - 1) * 10 ^ 9 + 10 ^ 9) as Hp by (unfold as_nanos; lia).
  assert (0 <= hz * as_nanos period) as Hpos by (apply Z.mul_nonneg_nonneg; lia).
  exists (div_ceil (hz * as_nanos period) 1000000000). unfold interval_ticks, div_ceil, lasts.
  set (a := hz * as_nanos period) in *.
  assert (a <= u128_max) as Ha.
  { unfold u128_max, a. apply Z.le_trans with ((2 ^ 32 - 1) * ((2 ^ 64 - 1) * 10 ^ 9 + 10 ^ 9)); [|lia].
    apply Z.mul_le_mono_nonneg; lia. }
  unfold checked_mul. fold a. rewrite (proj2 (Z.leb_le a u128_max)) by done. cbn [ok_or obind].
  set (n := if a mod 1000000000 =? 0 then _ else _).
  assert ((n - 1) * 10 ^ 9 < a <= n * 10 ^ 9 /\ 0 <= n) as [Hl H0]
    by (unfold n; destruct (a mod 1000000000 =? 0) eqn:E; zbool; Z.div_mod_to_equations; lia).
  split; [done|]. split; [done|]. unfold u64_max.
  destruct (n <=? 2 ^ 64 - 1) eqn:E1; zbool; cbn [ok_or obind].
  - destruct (n =? 0) eqn:E2; zbool; cbn [ok_or]; [rewrite decide_False by lia|rewrite decide_True by lia]; done.
  - by rewrite decide_False by lia.
Qed.

(** The body of [timer_init] under the guard. *)
Definition configure (hz : Z) (period : Duration) : M (kernel W) TimerError unit :=
  let* k := get in
  if negb (INTERVAL k =? 0) then throw AlreadyInitialized
  else
    let* interval := lift (interval_ticks hz period) in
    let* deadline := next_deadline interval in
    let* _ := mmap_err Firmware (set_timer deadline) in
    let* k := get in
    let* _ := put (with_INTERVAL k interval) in
    set_csr_bits Sie TIMER_ENABLE.

Definition configured k hz period (o : outcome TimerError unit) k' : Prop :=
  match o with
  | Ok _ => INTERVAL k = 0 /\ exists n w', lasts hz period n /\ 0 < n <= u64_max /\ armed k n (Ok tt) w' /\
      k' = with_control (with_INTERVAL (with_world k w') n) Sie (Z.lor (control k Sie) TIMER_ENABLE)
  | Err AlreadyInitialized => INTERVAL k <> 0 /\ k' = k
  | Err InvalidInterval => INTERVAL k = 0 /\ k' = k /\ forall n, lasts hz period n -> ~ (0 < n <= u64_max)
  | Err e => INTERVAL k = 0 /\ exists n w', lasts hz period n /\ 0 < n <= u64_max /\ armed k n (Err e) w' /\
      k' = with_world k w'
  | _ => False
  end.

Lemma configure_spec hz period k :
  0 <= hz <= u32_max -> duration_ok period ->
  exists o k', configure hz period k = (o, k') /\ configured k hz period o k'.
Proof.
  intros Hz Hd. unfold configure. unfold bind at 1, get at 1. destruct (INTERVAL k =? 0) eqn:Hi; zbool; cbn [negb].
  2:{ by exists (Err AlreadyInitialized), k. }
  destruct (interval_ticks_spec hz period Hz Hd) as (n & Hl & H0 & ->). case_decide as Hn; cbn.
  2:{ exists (Err InvalidInterval), k. split; [done|]. split; [done|]. split; [done|]. intros n' Hn'.
      by rewrite (lasts_unique _ _ _ _ Hn' Hl). }
  destruct (arm_spec n k) as (o & w' & Ha & Hr).
  assert ((let* deadline := next_deadline n in
           let* _ := mmap_err Firmware (set_timer deadline) in
           let* k := get in let* _ := put (with_INTERVAL k n) in set_csr_bits Sie TIMER_ENABLE) k =
          (let* _ := arm n in let* k := get in let* _ := put (with_INTERVAL k n) in set_csr_bits Sie TIMER_ENABLE) k)
    as Hassoc by (unfold arm; by rewrite bind_assoc).
  rewrite Hassoc. destruct o as [[]|e| |]; try done.
  - rewrite (bind_ok _ _ _ _ _ Ha). do 2 eexists. split; [reflexivity|]. split; [done|]. by exists n, w'.
  - rewrite (bind_err _ _ _ e _ Ha). exists (Err e), (with_world k w'). split; [done|].
    destruct e; try done; (split; [done|]); by exists n, w'.
Qed.

End kernel.

(** ** Guards *)

Section guard.
Context {W : Type} `{Environment W}.

Implicit Types k : kernel W.

Lemma land_enabled s : is_u64 s -> negb (Z.land s 2 =? 0) = Z.testbit s 1.
Proof.
  intros Hs. destruct (Z.testbit s 1) eqn:E.
  - apply negb_true_iff, Z.eqb_neq. intros Hz. apply (f_equal (fun x => Z.testbit x 1)) in Hz.
    rewrite Z.land_spec, E in Hz. done.
  - apply negb_false_iff, Z.eqb_eq, Z.bits_inj'. intros n Hn. change 2 with (2 ^ 1).
    rewrite Z.land_spec, testbit_pow, Z.bits_0 by lia.
    destruct (n =? 1) eqn:En; zbool; [subst; by rewrite E|by rewrite andb_false_r].
Qed.

(** What the guard does on acquisition and on drop gives back the status. *)
Lemma guard_restores s :
  is_u64 s -> (if Z.testbit s 1 then Z.lor (clear_bits s 2) 2 else clear_bits (clear_bits s 2) 2) = s.
Proof.
  intros Hs. apply Z.bits_inj'. intros n Hn. change 2 with (2 ^ 1).
  destruct (Z.testbit s 1) eqn:E; rewrite ?testbit_set, ?testbit_clear by (try apply clear_u64; done || lia).
  - destruct (n =? 1) eqn:En; zbool; [subst; by rewrite E|by rewrite andb_true_r, orb_false_r].
  - destruct (n =? 1) eqn:En; zbool; [subst; by rewrite E|by rewrite !andb_true_r].
Qed.

Lemma masked_spec {E A} (body : M (kernel W) E A) k o k2 :
  is_u64 (control k Sstatus) ->
  body (with_control k Sstatus (clear_bits (control k Sstatus) 2)) = (o, k2) ->
  no_panic o -> control k2 Sstatus = clear_bits (control k Sstatus) 2 ->
  with_interrupts_masked body k = (o, with_control k2 Sstatus (control k Sstatus)).
Proof.
  intros Hs Hb Ho Hc. unfold with_interrupts_masked, disable, read_csr, clear_csr_bits, bind, get, put, ret,
    minfallible, as_result, lift. rewrite Hb. destruct o as [x|e| |]; [| |done..]; cbn [was_enabled infallible].
  all: rewrite land_enabled by done; pose proof (guard_restores _ Hs) as Hg.
  all: unfold drop_guard, set_csr_bits, clear_csr_bits, bind, get, put; cbn [was_enabled].
  all: destruct (Z.testbit (control k Sstatus) 1); rewrite Hc, Hg; done.
Qed.

End guard.

(** ** Initialization *)

(** Equal states, register by register. *)
Definition same {W} (k k' : kernel W) : Prop :=
  (forall c, control k c = control k' c) /\ STATE k = STATE k' /\ INTERVAL k = INTERVAL k' /\
  TICKS k = TICKS k' /\ USER_TICKS k = USER_TICKS k' /\ world k = world k'.

Lemma same_status {W} `{Environment W} (k : kernel W) v :
  same (with_control (with_control k Sstatus v) Sstatus (control k Sstatus)) k.
Proof. split; [|done]. intros c. cbn. by repeat case_decide; subst. Qed.

Lemma timer_init_spec {W} `{Environment W} hz period (k : kernel W) :
  is_u64 (control k Sstatus) -> 0 <= hz <= u32_max -> duration_ok period ->
  exists o k' k2, timer_init hz period k = (o, k') /\ same k' k2 /\ configured k hz period o k2.
Proof.
  intros Hs Hz Hd. set (k1 := with_control k Sstatus (clear_bits (control k Sstatus) 2)).
  destruct (configure_spec hz period k1 Hz Hd) as (o & k2 & Hc & Ho).
  assert (no_panic o /\ control k2 Sstatus = clear_bits (control k Sstatus) 2) as [Hn Hcs].
  { destruct o as [[]|e| |]; try done; (split; [done|]).
    - destruct Ho as (_ & n & w' & _ & _ & _ & ->). done.
    - destruct e; try by destruct Ho as (_ & n & w' & _ & _ & _ & ->).
      + by destruct Ho as [_ ->].
      + by destruct Ho as (_ & -> & _). }
  pose proof (masked_spec (configure hz period) k o k2 Hs Hc Hn Hcs) as Hm.
  exists o, (with_control k2 Sstatus (control k Sstatus)).
  destruct o as [[]|e| |]; try done.
  - destruct Ho as (Hi & n & w' & Hl & Hr & Ha & ->). eexists. split; [exact Hm|]. split.
    2:{ split; [done|]. exists n, w'. split; [done|]. split; [done|]. split; [exact Ha|reflexivity]. }
    split; [|done]. intros c. cbn. by repeat case_decide; subst.
  - destruct e; try (destruct Ho as (Hi & n & w' & Hl & Hr & Ha & ->); exists (with_world k w');
      split; [exact Hm|]; split; [apply (same_status (with_world k w'))|]; split; [done|]; by exists n, w').
    + destruct Ho as [Hi ->]. exists k. split; [exact Hm|]. split; [apply same_status|done].
    + destruct Ho as (Hi & -> & Hl). exists k. split; [exact Hm|]. by split; [apply same_status|].
Qed.
