(* ===== verification/KConsole.v ===== *)
(** * The console ([kernel/src/console/sbi.rs])

    The writer over the firmware's debug console, and what an execution
    environment with a console promises: the bytes it accepted, in order.
    [prints] is what the firmware is sent of a text. *)

From Stdlib Require Import ZArith Lia Bool.
From Stdlib Require Import Strings.Byte Strings.String.
From stdpp Require Import base list numbers.
From S2P Require Import Prelude FdtScan KMemory KPaging KAsm KTimer KTimerProofs.
Local Open Scope Z_scope.

Section console.
Context {W : Type} `{Environment W}.

(** [SbiConsole::write_byte]: any firmware error is a [fmt::Error]. *)
Definition console_write_byte (byte : Z) : M (kernel W) unit unit := mmap_err (fun _ => tt) (write_byte byte).

Fixpoint write_str (string : list byte) : M (kernel W) unit unit :=
  match string with
  | [] => ret tt
  | byte :: string =>
      let* _ := console_write_byte (u8 byte) in
      write_str string
  end.

(** Nothing of the kernel but the world changed. *)
Definition outside (k k' : kernel W) : Prop := k' = with_world k (world k').

Lemma outside_refl k : outside k k.
Proof. by destruct k. Qed.

Lemma outside_trans k1 k2 k3 : outside k1 k2 -> outside k2 k3 -> outside k1 k3.
Proof. unfold outside. intros -> ->. done. Qed.

(** ** What the firmware is sent

    [prints w bytes w' out]: from [w], the firmware is handed the bytes one
    after another, each once, up to and with the first one it rejects; [w'] is
    its state then, and [out] is what it accepted. *)
Inductive prints : W -> list byte -> W -> list byte -> Prop :=
| prints_end w : prints w [] w []
| prints_accepted w b w1 bytes w' out :
    sbi_call DBCN_EID DBCN_WRITE_BYTE_FID (u8 b) w = (0, w1) -> prints w1 bytes w' out ->
    prints w (b :: bytes) w' (b :: out)
| prints_rejected w b e w1 bytes :
    sbi_call DBCN_EID DBCN_WRITE_BYTE_FID (u8 b) w = (e, w1) -> e <> 0 -> prints w (b :: bytes) w1 [].

Lemma write_byte_step b (k : kernel W) :
  exists o k', write_byte (u8 b) k = (o, k') /\ outside k k' /\
    match o with
    | Ok _ => sbi_call DBCN_EID DBCN_WRITE_BYTE_FID (u8 b) (world k) = (0, world k')
    | Err _ => exists e, sbi_call DBCN_EID DBCN_WRITE_BYTE_FID (u8 b) (world k) = (e, world k') /\ e <> 0
    | _ => False
    end.
Proof.
  unfold write_byte, call, bind, get.
  destruct (sbi_call DBCN_EID DBCN_WRITE_BYTE_FID (u8 b) (world k)) as [e w]. cbn [put ret].
  destruct (decide (e = 0)) as [->|Hne].
  - eexists _, _. split; [reflexivity|]. by split.
  - assert (exists err, (match e with 0 => ret tt | -1 => throw WriteFailed | -4 => throw WriteDenied
      | error => throw (WriteUnexpected error) end) (with_world k w) = (Err err, with_world k w)) as (err & Herr).
    { destruct e as [|p|p]; [done|by eexists|]. destruct p as [p|p|]; try by eexists. destruct p as [p|p|]; try by eexists.
      destruct p; by eexists. }
    exists (Err err), (with_world k w). split; [exact Herr|]. split; [done|]. by exists e.
Qed.

(** A string reaches the firmware byte by byte, up to the first rejection. *)
Lemma write_str_prints s : forall (k : kernel W),
  exists o k' out, write_str s k = (o, k') /\ outside k k' /\ prints (world k) s (world k') out /\ no_panic o.
Proof.
  induction s as [|b s IH]; intros k.
  - exists (Ok tt), k, []. split; [done|]. split; [apply outside_refl|]. split; [constructor|done].
  - destruct (write_byte_step b k) as (o & k1 & Hw & Hk1 & Ho). cbn [write_str]. unfold console_write_byte, mmap_err.
    unfold bind at 1. rewrite Hw. destruct o as [[]|e| |]; try done; cbn [map_err].
    + destruct (IH k1) as (o & k2 & out & -> & Hk2 & Hp & Hnp). exists o, k2, (b :: out). split; [done|].
      split; [by eapply outside_trans|]. split; [by eapply prints_accepted|done].
    + destruct Ho as (x & Hx & Hne). exists (Err tt), k1, []. split; [done|]. split; [done|].
      split; [by eapply prints_rejected|done].
Qed.

(** Every text is sent one way or the other. *)
Lemma prints_total s : forall w, exists w' out, prints w s w' out.
Proof.
  induction s as [|b s IH]; intros w; [exists w, []; constructor|].
  destruct (sbi_call DBCN_EID DBCN_WRITE_BYTE_FID (u8 b) w) as [e w1] eqn:Hc. destruct (decide (e = 0)) as [->|Hne].
  - destruct (IH w1) as (w' & out & Hp). exists w', (b :: out). by eapply prints_accepted.
  - exists w1, []. by eapply prints_rejected.
Qed.

(** Only the front of a text is accepted. *)
Lemma prints_prefix w s w' out : prints w s w' out -> out `prefix_of` s.
Proof.
  induction 1 as [w|w b w1 s w' out _ _ IH|w b e w1 s _ _]; [done| |apply prefix_nil]. by apply prefix_cons.
Qed.

End console.

(** The bytes printed so far; only an accepted write adds one. *)
Class Console (W : Type) `{Environment W} := {
  printed : W -> list byte;
  write_prints w b : let '(error, w') := sbi_call DBCN_EID DBCN_WRITE_BYTE_FID (u8 b) w in
    printed w' = if error =? 0 then printed w ++ [b] else printed w;
  timer_silent a w : printed (snd (sbi_call TIME_EID SET_TIMER_FID a w)) = printed w;
  clock_silent w : printed (snd (rdtime w)) = printed w;
}.

Section laws.
Context {W : Type} `{Console W}.

(** The firmware accepts every byte, now and later. *)
Definition open_console (inv : W -> Prop) : Prop :=
  forall w b, inv w -> exists w', sbi_call DBCN_EID DBCN_WRITE_BYTE_FID (u8 b) w = (0, w') /\ inv w'.

Lemma prints_printed w s w' out : prints w s w' out -> printed w' = printed w ++ out.
Proof.
  induction 1 as [w|w b w1 s w' out Hc _ IH|w b e w1 s Hc He]; [by rewrite app_nil_r| |].
  - pose proof (write_prints w b) as Hb. rewrite Hc, Z.eqb_refl in Hb. by rewrite IH, Hb, <- app_assoc.
  - pose proof (write_prints w b) as Hb. rewrite Hc, (proj2 (Z.eqb_neq e 0)) in Hb by done. by rewrite app_nil_r.
Qed.

(** A console that accepts everything accepts all of a text. *)
Lemma open_prints inv w s w' out :
  open_console inv -> prints w s w' out -> inv w -> out = s /\ inv w'.
Proof.
  intros Ho. induction 1 as [w|w b w1 s w' out Hc _ IH|w b e w1 s Hc He]; intros Hi; [done| |];
    destruct (Ho w b Hi) as (w2 & Hc2 & Hi2); rewrite Hc in Hc2.
  - injection Hc2 as <-. by destruct (IH Hi2) as [-> ?].
  - by injection Hc2 as -> _.
Qed.

Lemma open_write inv b (k : kernel W) :
  open_console inv -> inv (world k) -> exists k', write_byte (u8 b) k = (Ok tt, k') /\ outside k k' /\
    printed (world k') = printed (world k) ++ [b] /\ inv (world k').
Proof.
  intros Ho Hi. destruct (Ho (world k) b Hi) as (w & Hc & Hw). pose proof (write_prints (world k) b) as Hp.
  rewrite Hc in Hp. unfold write_byte, call, bind, get. rewrite Hc. eexists. split; [reflexivity|]. by split.
Qed.

End laws.
