(* ===== verification/KLogging.v ===== *)
(** * Logging ([kernel/src/logging.rs])

    The record the macros compile to: which calls the build keeps, and the
    formatting and printing of one record.  The strings are ASCII, as the
    paths and messages of the source are; the message is the formatted text of
    the arguments.  [log_returns] shows that a call changes nothing of the
    kernel, so that most other files leave logging out.  [record_layout] says
    what a line looks like and [compiled_in] which calls are kept, neither in
    terms of the code; [logged] is what a call is then shown to print.
    [log_fdt_outside] and [log_fdt_records] show that the boot log ([log_fdt] of
    [main.rs]) does no more and lists exactly the memory of the blob. *)

From Stdlib Require Import ZArith Lia Bool.
From Stdlib Require Import Strings.Byte Strings.String.
From stdpp Require Import base list numbers.
From S2P Require Import Prelude FdtScan FdtRegRange FdtMemory FdtReserved FdtReservation Fdt KMemory KBootAlloc.
From S2P Require Import KBootProofs KPaging KAsm KTimer KTimerProofs KConsole.
Local Open Scope Z_scope.

Inductive Level := Trace | Debug | Info | Warn | Error.
Inductive Target := Boot | Frames | Paging | Timer | Trap | Process | Syscall.

Definition level_name (level : Level) : list byte :=
  list_byte_of_string
    (match level with
     | Trace => "TRACE" | Debug => "DEBUG" | Info => "INFO" | Warn => "WARN" | Error => "ERROR"
     end).

Definition target_name (target : Target) : list byte :=
  list_byte_of_string
    (match target with
     | Boot => "boot" | Frames => "frames" | Paging => "paging" | Timer => "timer" | Trap => "trap"
     | Process => "process" | Syscall => "syscall"
     end).

(** [pad] and the width of a format: strings are never cut. *)
Definition spaces (width : nat) (s : list byte) : list byte := replicate (width - length s) x20.
Definition pad_right (width : nat) (s : list byte) : list byte := s ++ spaces width s.
Definition pad_left (width : nat) (s : list byte) : list byte := spaces width s ++ s.

Definition timestamp (time : option Z) : list byte :=
  match time with
  | Some ticks => [x5b] ++ pad_left 12 (decimal ticks) ++ [x5d]
  | None => []
  end.

(** [strip_prefix(prefix).unwrap_or(s)]. *)
Definition strip_prefix (prefix s : list byte) : list byte :=
  if bool_decide (take (length prefix) s = prefix) then drop (length prefix) s else s.

Definition source_prefix : list byte := list_byte_of_string "kernel/src/".

(** The line [writeln!] formats. *)
Definition record_bytes (level : Level) (target : Target) (file : list byte) (line : Z) (args : list byte)
    (time : option Z) : list byte :=
  let file := strip_prefix source_prefix file in
  list_byte_of_string "[" ++ pad_right 5 (level_name level) ++ list_byte_of_string "][" ++
  pad_right 7 (target_name target) ++ list_byte_of_string "]" ++ timestamp time ++ list_byte_of_string " " ++
  pad_left 32 file ++ list_byte_of_string ":" ++ pad_right 4 (decimal line) ++ list_byte_of_string " | " ++
  args ++ [x0a].

(** The Cargo features of the build. *)
Record features := mkFeatures { log_debug : bool; log_trace : bool; log_target : Target -> bool }.

(** [log-trace] enables [log-debug]. *)
Definition verbose_enabled (f : features) (level : Level) : bool :=
  match level with
  | Trace => log_trace f
  | Debug => log_debug f || log_trace f
  | _ => true
  end.

(** The records the macros [trace], [debug], [info], [warn] and [error] emit. *)
Definition enabled (f : features) (level : Level) (target : Target) : bool :=
  match level with
  | Trace | Debug => verbose_enabled f level && log_target f target
  | Info | Warn | Error => true
  end.

(** The features the kernel is built with. *)
Class Build := build : features.

Section logging.
Context {W : Type} `{Environment W}.

(** [write]: the result of printing is dropped. *)
Definition write (level : Level) (target : Target) (file : list byte) (line : Z) (args : list byte)
    : M (kernel W) never unit :=
  let* time := time_ticks in
  let* _write_result := as_result (write_str (record_bytes level target file line args time)) in
  ret tt.

Definition log (f : features) (level : Level) (target : Target) (file : list byte) (line : Z) (args : list byte)
    : M (kernel W) never unit :=
  if enabled f level target then write level target file line args else ret tt.

(** A macro call in a function that may fail, with the features of the build. *)
Definition log_at {E} `{Build} (level : Level) (target : Target) (file : list byte) (line : Z) (args : list byte)
    : M (kernel W) E unit :=
  minfallible (log build level target file line args).

(** The counter a record shows, and the kernel after reading it. *)
Definition shown_time (k : kernel W) : option Z :=
  if STATE k =? AVAILABLE then Some (fst (rdtime (world k))) else None.

Definition stamped (k : kernel W) : kernel W :=
  if STATE k =? AVAILABLE then with_world k (snd (rdtime (world k))) else k.

Lemma time_ticks_spec (k : kernel W) : time_ticks (E:=never) k = (Ok (shown_time k), stamped k).
Proof.
  unfold time_ticks, shown_time, stamped, bind, get. destruct (STATE k =? AVAILABLE); [|done]. cbn [negb].
  by destruct (rdtime (world k)).
Qed.

Lemma stamped_outside (k : kernel W) : outside k (stamped k).
Proof. unfold stamped. destruct (_ =? _); [done|apply outside_refl]. Qed.

Lemma write_spec level target file line args (k : kernel W) :
  exists k' out, write level target file line args k = (Ok tt, k') /\ outside k k' /\
    prints (world (stamped k)) (record_bytes level target file line args (shown_time k)) (world k') out.
Proof.
  destruct (write_str_prints (record_bytes level target file line args (shown_time k)) (stamped k))
    as (o & k' & out & Hw & Hk & Hp & Hnp).
  exists k', out. unfold write. rewrite (bind_ok _ _ _ _ _ (time_ticks_spec k)). unfold bind at 1, as_result.
  rewrite Hw. split; [by destruct o|]. split; [|done]. eapply outside_trans; [apply stamped_outside|done].
Qed.

(** A log call never fails and stays outside the kernel. *)
Lemma log_returns f level target file line args (k : kernel W) :
  exists k', log f level target file line args k = (Ok tt, k') /\ outside k k'.
Proof.
  unfold log. destruct (enabled _ _ _); [|exists k; split; [done|apply outside_refl]].
  destruct (write_spec level target file line args k) as (k' & out & Hw & Ho & _). by exists k'.
Qed.

Lemma log_at_returns {E} `{Build} level target file line args (k : kernel W) :
  exists k', log_at (E:=E) level target file line args k = (Ok tt, k') /\ outside k k'.
Proof.
  destruct (log_returns build level target file line args k) as (k' & Hl & Ho). exists k'. split; [|done].
  by apply infallible_ok.
Qed.

(** A call compiled out does nothing. *)
Lemma log_at_off {E} `{Build} level target file line args (k : kernel W) :
  enabled build level target = false -> log_at (E:=E) level target file line args k = (Ok tt, k).
Proof. intros Hoff. apply infallible_ok. unfold log. by rewrite Hoff. Qed.

End logging.

(** Runs the next log call of the goal. *)
Ltac skip_log k :=
  match goal with
  | |- context [bind (log_at (E:=?E) ?l ?t ?f ?n ?a) _ ?k0] =>
      let Hl := fresh "Hlog" in
      let Ho := fresh "Hout" in
      destruct (log_at_returns (E:=E) l t f n a k0) as (k & Hl & Ho); rewrite (bind_ok _ _ _ _ _ Hl)
  end.

(** ** What a record looks like

    The layout of a line, without saying how it is formatted. *)

(** The source's names, in columns of five and of seven. *)
Definition level_field (level : Level) : string :=
  match level with
  | Trace => "TRACE" | Debug => "DEBUG" | Info => "INFO " | Warn => "WARN " | Error => "ERROR"
  end.

Definition target_field (target : Target) : string :=
  match target with
  | Boot => "boot   " | Frames => "frames " | Paging => "paging " | Timer => "timer  " | Trap => "trap   "
  | Process => "process" | Syscall => "syscall"
  end.

(** A text at the right or the left of a column; a longer one is not cut. *)
Definition at_right (width : nat) (text field : list byte) : Prop :=
  exists blanks, field = blanks ++ text /\ Forall (eq x20) blanks /\ length field = Nat.max width (length text).

Definition at_left (width : nat) (text field : list byte) : Prop :=
  exists blanks, field = text ++ blanks /\ Forall (eq x20) blanks /\ length field = Nat.max width (length text).

(** A time is bracketed in a column of twelve; without a counter there is
    nothing, brackets included. *)
Inductive time_field : option Z -> list byte -> Prop :=
| no_time : time_field None []
| a_time t n field : numeral 10 t n -> at_right 12 n field -> time_field (Some t) (bs "[" ++ field ++ bs "]").

(** Paths are shown from the kernel's sources on. *)
Inductive path_shown : list byte -> list byte -> Prop :=
| path_below rest : path_shown (bs "kernel/src/" ++ rest) rest
| path_elsewhere file : (forall rest, file <> bs "kernel/src/" ++ rest) -> path_shown file file.

Inductive record_layout (level : Level) (target : Target) (file : list byte) (line : Z) (args : list byte)
    (time : option Z) : list byte -> Prop :=
| layout stamp path path_field n line_field :
    time_field time stamp -> path_shown file path -> at_right 32 path path_field ->
    numeral 10 line n -> at_left 4 n line_field ->
    record_layout level target file line args time
      (bs "[" ++ bs (level_field level) ++ bs "][" ++ bs (target_field target) ++ bs "]" ++ stamp ++
       bs " " ++ path_field ++ bs ":" ++ line_field ++ bs " | " ++ args ++ [x0a]).

(** The calls a build keeps. *)
Definition compiled_in (f : features) (level : Level) (target : Target) : Prop :=
  match level with
  | Trace => log_trace f = true /\ log_target f target = true
  | Debug => (log_debug f = true \/ log_trace f = true) /\ log_target f target = true
  | Info | Warn | Error => True
  end.

Lemma enabled_spec f level target : enabled f level target = true <-> compiled_in f level target.
Proof.
  unfold enabled, verbose_enabled, compiled_in.
  destruct level; by rewrite ?andb_true_iff, ?orb_true_iff.
Qed.

Lemma not_enabled f level target : ~ compiled_in f level target <-> enabled f level target = false.
Proof. rewrite <- enabled_spec. by destruct (enabled f level target). Qed.

Lemma pad_left_right n s : at_right n s (pad_left n s).
Proof.
  exists (spaces n s). split; [done|]. split; [by apply Forall_replicate|].
  unfold pad_left, spaces. rewrite length_app, length_replicate. lia.
Qed.

Lemma pad_right_left n s : at_left n s (pad_right n s).
Proof.
  exists (spaces n s). split; [done|]. split; [by apply Forall_replicate|].
  unfold pad_right, spaces. rewrite length_app, length_replicate. lia.
Qed.

Lemma strip_prefix_path file : path_shown file (strip_prefix source_prefix file).
Proof.
  unfold strip_prefix. case_bool_decide as Hp.
  - rewrite <- (take_drop (length source_prefix) file) at 1. rewrite Hp. constructor.
  - constructor. intros rest ->. apply Hp. apply take_app_length.
Qed.

(** The formatter writes that line. *)
Lemma record_bytes_layout level target file line args time :
  is_u32 line -> (forall t, time = Some t -> is_u64 t) ->
  record_layout level target file line args time (record_bytes level target file line args time).
Proof.
  intros Hl Ht. unfold record_bytes.
  replace (pad_right 5 (level_name level)) with (bs (level_field level)) by (by destruct level).
  replace (pad_right 7 (target_name target)) with (bs (target_field target)) by (by destruct target).
  econstructor.
  - destruct time as [t|]; [|constructor]. eapply a_time; [by apply decimal_numeral, Ht|apply pad_left_right].
  - apply strip_prefix_path.
  - apply pad_left_right.
  - apply decimal_numeral. unfold is_u32, is_u64, u32_max, u64_max in *. lia.
  - apply pad_right_left.
Qed.

(** ** What a log call prints

    [logged level target file line args k k' out]: the record was sent to the
    firmware after the counter was read, [out] of it was accepted, and nothing
    else of the kernel changed. *)
Definition logged {W} `{Environment W} (level : Level) (target : Target) (file : list byte) (line : Z)
    (args : list byte) (k k' : kernel W) (out : list byte) : Prop :=
  outside k k' /\ exists record, record_layout level target file line args (shown_time k) record /\
    prints (world (stamped k)) record (world k') out.

(** The counter is a 64-bit register. *)
Definition clock_u64 {W} `{Environment W} : Prop := forall w, is_u64 (fst (rdtime w)).

Lemma shown_u64 {W} `{Environment W} (k : kernel W) t : clock_u64 -> shown_time k = Some t -> is_u64 t.
Proof. intros Hc. unfold shown_time. destruct (_ =? _); [|done]. intros [= <-]. apply Hc. Qed.

Lemma log_logged {W} `{Environment W} f level target file line args (k : kernel W) :
  is_u32 line -> (forall t, shown_time k = Some t -> is_u64 t) -> compiled_in f level target ->
  exists k' out, log f level target file line args k = (Ok tt, k') /\ logged level target file line args k k' out.
Proof.
  intros Hl Hc Hin%enabled_spec. destruct (write_spec level target file line args k) as (k' & out & Hw & Ho & Hp).
  exists k', out. split; [unfold log; by rewrite Hin|]. split; [done|].
  eexists. split; [by apply record_bytes_layout|exact Hp].
Qed.

Lemma log_at_logged {W E} `{Environment W} `{Build} level target file line args (k : kernel W) :
  is_u32 line -> clock_u64 -> compiled_in build level target ->
  exists k' out, log_at (E:=E) level target file line args k = (Ok tt, k') /\ logged level target file line args k k' out.
Proof.
  intros Hl Hc Hin. destruct (log_logged build level target file line args k Hl) as (k' & out & Hlog & Ho); [|done|].
  - intros t. by apply shown_u64.
  - exists k', out. split; [by apply infallible_ok|done].
Qed.

Lemma stamped_printed {W} `{Console W} (k : kernel W) : printed (world (stamped k)) = printed (world k).
Proof. unfold stamped. destruct (STATE k =? AVAILABLE); [apply clock_silent|done]. Qed.

Lemma stamped_kept {W} `{Console W} (inv : W -> Prop) (k : kernel W) :
  (forall w, inv w -> inv (snd (rdtime w))) -> inv (world k) ->
  inv (world (stamped k)) /\ printed (world (stamped k)) = printed (world k).
Proof. intros Hc Hi. split; [|apply stamped_printed]. unfold stamped. destruct (STATE k =? AVAILABLE); [by apply Hc|done]. Qed.

(** A console that accepts everything shows the whole line. *)
Lemma open_logged {W} `{Console W} inv level target file line args (k k' : kernel W) out :
  open_console inv -> (forall w, inv w -> inv (snd (rdtime w))) -> inv (world k) ->
  logged level target file line args k k' out ->
  record_layout level target file line args (shown_time k) out /\ inv (world k') /\
  printed (world k') = printed (world k) ++ out.
Proof.
  intros Ho Hclock Hi (_ & record & Hl & Hp).
  destruct (stamped_kept inv k Hclock Hi) as [Hs Hps].
  destruct (open_prints inv _ _ _ _ Ho Hp Hs) as [-> Hi']. split; [done|]. split; [done|].
  by rewrite (prints_printed _ _ _ _ Hp), Hps.
Qed.

(** Whatever is accepted is printed. *)
Lemma logged_printed {W} `{Console W} level target file line args (k k' : kernel W) out :
  logged level target file line args k k' out -> printed (world k') = printed (world k) ++ out.
Proof.
  intros (_ & record & _ & Hp). by rewrite (prints_printed _ _ _ _ Hp), stamped_printed.
Qed.

(** ** Widths *)

Lemma length_pad_right n s : length (pad_right n s) = Nat.max n (length s).
Proof. unfold pad_right, spaces. rewrite length_app, length_replicate. lia. Qed.

Lemma length_pad_left n s : length (pad_left n s) = Nat.max n (length s).
Proof. unfold pad_left, spaces. rewrite length_app, length_replicate. lia. Qed.

(** The message starts in the same column in every record of short names and
    the same kind of timestamp. *)
Lemma message_column level target file line args time :
  (length (strip_prefix source_prefix file) <= 32)%nat -> (length (decimal line) <= 4)%nat ->
  (forall t, time = Some t -> (length (decimal t) <= 12)%nat) ->
  exists head, record_bytes level target file line args time = head ++ args ++ [x0a] /\
    length head = (57 + match time with Some _ => 14 | None => 0 end)%nat.
Proof.
  intros Hf Hl Ht. unfold record_bytes.
  eexists (list_byte_of_string "[" ++ pad_right 5 (level_name level) ++ list_byte_of_string "][" ++
    pad_right 7 (target_name target) ++ list_byte_of_string "]" ++ timestamp time ++ list_byte_of_string " " ++
    pad_left 32 (strip_prefix source_prefix file) ++ list_byte_of_string ":" ++ pad_right 4 (decimal line) ++
    list_byte_of_string " | ").
  split; [by rewrite <- !app_assoc|].
  assert (length (level_name level) <= 5)%nat by (destruct level; cbn; lia).
  assert (length (target_name target) <= 7)%nat by (destruct target; cbn; lia).
  assert (length (timestamp time) = match time with Some _ => 14 | None => 0 end)%nat as Htime.
  { destruct time as [t|]; [|done]. unfold timestamp. rewrite !length_app, length_pad_left. cbn [length].
    specialize (Ht t eq_refl). lia. }
  rewrite !length_app, !length_pad_right, !length_pad_left, Htime. cbn [list_byte_of_string length].
  change (length (list_byte_of_string "[")) with 1%nat. change (length (list_byte_of_string "][")) with 2%nat.
  change (length (list_byte_of_string "]")) with 1%nat. change (length (list_byte_of_string " ")) with 1%nat.
  change (length (list_byte_of_string ":")) with 1%nat. change (length (list_byte_of_string " | ")) with 3%nat.
  lia.
Qed.

(** ** The boot log *)

(** A console that accepts everything shows all of a record. *)
Lemma open_write_record {W} `{Console W} inv level target file line args (k : kernel W) :
  open_console inv -> (forall w, inv w -> inv (snd (rdtime w))) -> inv (world k) ->
  exists k', write level target file line args k = (Ok tt, k') /\ outside k k' /\ inv (world k') /\
    printed (world k') = printed (world k) ++ record_bytes level target file line args (shown_time k).
Proof.
  intros Ho Hclock Hi. destruct (write_spec level target file line args k) as (k' & out & Hw & Hk & Hp).
  destruct (stamped_kept inv k Hclock Hi) as [Hs Hps].
  destruct (open_prints inv _ _ _ _ Ho Hp Hs) as [-> Hi'].
  exists k'. split; [done|]. split; [done|]. split; [done|]. by rewrite (prints_printed _ _ _ _ Hp), Hps.
Qed.

(** ** [log_fdt] ([kernel/src/main.rs]) *)

(** The text of [{:?}] values is that of the parser's [Debug]s; the text of
    the whole description is [derive]d, and is an argument. *)
Section log_fdt.
Context {W : Type} `{Environment W} (feats : features).

Definition main_rs : list byte := list_byte_of_string "kernel/src/main.rs".

Definition trace (line : Z) (args : list byte) : M (kernel W) never unit := log feats Trace Boot main_rs line args.

(** [for item in it { trace!(..) }]. *)
Fixpoint log_each {S I} (next : M S never (option I)) (text : I -> list byte) (line : Z) (fuel : nat) (it : S)
    : M (kernel W) never unit :=
  match fuel with
  | O => lift OutOfFuel
  | Datatypes.S fuel' =>
      match next it with
      | (Ok None, _) => ret tt
      | (Ok (Some item), it) =>
          let* _ := trace line (text item) in
          log_each next text line fuel' it
      | (Err e, _) => match e with end
      | (Panic, _) => panic
      | (OutOfFuel, _) => lift OutOfFuel
      end
  end.

Definition ram_text (r : MemoryRange) : list byte := list_byte_of_string "FDT RAM: " ++ Memory.debug r.
Definition reserved_text (r : ReservedMemoryRange) : list byte :=
  list_byte_of_string "FDT /reserved-memory: " ++ Reserved.debug r.
Definition reservation_text (r : Reservations.MemoryReservation) : list byte :=
  list_byte_of_string "FDT reservation: " ++ Reservations.debug_reservation r.

Definition log_fdt (shown : list byte) (fdt : Fdt.t) : M (kernel W) never unit :=
  let* _ := trace 292 (list_byte_of_string "FDT data structure:" ++ [x0a] ++ shown) in
  let* ranges := lift (Fdt.memory_ranges fdt) in
  let* _ := log_each Memory.next ram_text 295 (BootFrameAllocator.structure_fuel fdt) ranges in
  let* ranges := lift (Fdt.reserved_memory_ranges fdt) in
  let* _ := log_each Reserved.next reserved_text 299 (BootFrameAllocator.structure_fuel fdt) ranges in
  log_each Reservations.Iter.next reservation_text 303 (BootFrameAllocator.reservation_fuel fdt) (Fdt.memory_reservations fdt).

End log_fdt.

(** The messages of a description. *)
Definition fdt_messages (shown : list byte) (ram reserved : list RegRange)
    (rsv : list Reservations.MemoryReservation) : list (Z * list byte) :=
  [(292, list_byte_of_string "FDT data structure:" ++ [x0a] ++ shown)] ++
  map (fun r => (295, ram_text r)) ram ++ map (fun r => (299, reserved_text r)) reserved ++
  map (fun r => (303, reservation_text r)) rsv.

(** What [L] says of one message, it says of the messages of a description. *)
Section log_fdt_proofs.
Context {W : Type} `{Environment W} (feats : features) (inv : kernel W -> Prop).
Context (L : list (Z * list byte) -> kernel W -> kernel W -> Prop).
Context (L_nil : forall k, inv k -> L [] k k).
Context (L_app : forall ms ns k k1 k2, L ms k k1 -> L ns k1 k2 -> L (ms ++ ns) k k2).
Context (L_inv : forall ms k k', L ms k k' -> inv k').
Context (L_trace : forall line args k, inv k ->
  exists k', trace feats line args k = (Ok tt, k') /\ L [(line, args)] k k').

Lemma log_each_spec {S I} (next : M S never (option I)) text line l : forall fuel it k,
  yields next eq it l -> (length l < fuel)%nat -> inv k ->
  exists k', log_each feats next text line fuel it k = (Ok tt, k') /\ L (map (fun i => (line, text i)) l) k k'.
Proof.
  induction l as [|t l IH]; intros fuel it k Hy Hf Hi; (destruct fuel as [|fuel]; [cbn in Hf; lia|]); cbn [log_each].
  - inversion Hy as [it' Hx|]; subst. destruct (exhausted_next _ _ Hx) as (it' & -> & _).
    exists k. split; [done|]. by apply L_nil.
  - inversion Hy as [|? i it' ? ? Hn -> Hy']; subst. rewrite Hn.
    destruct (L_trace line (text t) k Hi) as (k1 & Ht & Hk1). rewrite (bind_ok _ _ _ _ _ Ht).
    destruct (IH fuel it' k1 Hy') as (k2 & Hl & Hk2); [cbn in Hf; lia|by eapply L_inv|].
    exists k2. split; [exact Hl|]. exact (L_app [_] _ _ _ _ Hk1 Hk2).
Qed.

Lemma log_fdt_spec mem ptr h tr rs shown k :
  Fdt.describes mem ptr h tr rs -> inv k ->
  let f := Fdt.built mem ptr h rs in
  exists k', log_fdt feats shown f k = (Ok tt, k') /\
    L (fdt_messages shown (Memory.memory_ranges (Fdt.strings f) tr) (Reserved.reserved_ranges (Fdt.strings f) tr) rs) k k'.
Proof.
  intros Hd Hi f. destruct (BootProofs.described_lists _ _ _ _ _ Hd)
    as [(ram & Hram & Hyr) (resv & Hresv & Hyv) Hrsv _ _ _ Hlr Hlv _ Hls].
  fold f in Hram, Hresv, Hyr, Hyv, Hrsv, Hlr, Hlv, Hls. unfold log_fdt.
  destruct (L_trace 292 (list_byte_of_string "FDT data structure:" ++ [x0a] ++ shown) k Hi) as (k1 & Ht & Hk1).
  rewrite (bind_ok _ _ _ _ _ Ht), Hram, (bind_ok _ _ _ ram k1) by done.
  destruct (log_each_spec _ ram_text 295 _ _ _ k1 Hyr Hlr (L_inv _ _ _ Hk1)) as (k2 & H2 & Hk2).
  rewrite (bind_ok _ _ _ _ _ H2), Hresv, (bind_ok _ _ _ resv k2) by done.
  destruct (log_each_spec _ reserved_text 299 _ _ _ k2 Hyv Hlv (L_inv _ _ _ Hk2)) as (k3 & H3 & Hk3).
  rewrite (bind_ok _ _ _ _ _ H3).
  destruct (log_each_spec _ reservation_text 303 _ _ _ k3 Hrsv Hls (L_inv _ _ _ Hk3)) as (k4 & H4 & Hk4).
  exists k4. split; [exact H4|]. unfold fdt_messages. do 3 (eapply L_app; [eassumption|]). exact Hk4.
Qed.

End log_fdt_proofs.

(** Of a blob [from_ptr] accepts, the boot log is written without a panic and
    changes nothing of the kernel, whatever the console does. *)
Lemma log_fdt_outside {W} `{Console W} feats mem ptr h tr rs shown (k : kernel W) :
  Fdt.describes mem ptr h tr rs ->
  exists k', log_fdt feats shown (Fdt.built mem ptr h rs) k = (Ok tt, k') /\ outside k k'.
Proof.
  intros Hd. apply (log_fdt_spec feats (fun _ => True) (fun _ => outside)) with (tr := tr); try done.
  - intros. apply outside_refl.
  - intros. by eapply outside_trans.
  - intros line args k0 _. apply log_returns.
Qed.

(** The records of a list of messages, each with the time it was printed. *)
Definition records (messages : list (Z * list byte)) (bytes : list byte) : Prop :=
  exists rs, bytes = concat rs /\
    Forall2 (fun m r => exists time, r = record_bytes Trace Boot main_rs (fst m) (snd m) time) messages rs.

Lemma records_app ms ns b c : records ms b -> records ns c -> records (ms ++ ns) (b ++ c).
Proof.
  intros (rs & -> & Hr) (qs & -> & Hq). exists (rs ++ qs). split; [by rewrite concat_app|]. by apply Forall2_app.
Qed.

(** On a console that accepts everything the log lists exactly the memory, the
    reserved memory and the reservations of the blob, in order. *)
Lemma log_fdt_records {W} `{Console W} feats inv mem ptr h tr rs shown (k : kernel W) :
  open_console inv -> (forall w, inv w -> inv (snd (rdtime w))) -> inv (world k) ->
  log_trace feats = true -> log_target feats Boot = true -> Fdt.describes mem ptr h tr rs ->
  let f := Fdt.built mem ptr h rs in
  exists k', log_fdt feats shown f k = (Ok tt, k') /\ outside k k' /\ inv (world k') /\
    exists bytes, printed (world k') = printed (world k) ++ bytes /\
    records (fdt_messages shown (Memory.memory_ranges (Fdt.strings f) tr)
               (Reserved.reserved_ranges (Fdt.strings f) tr) rs) bytes.
Proof.
  intros Ho Hc Hi Ht Hb Hd.
  apply (log_fdt_spec feats (fun k => inv (world k)) (fun ms k k' => outside k k' /\ inv (world k') /\
    exists bytes, printed (world k') = printed (world k) ++ bytes /\ records ms bytes)); try done.
  - intros k0 Hk0. split; [apply outside_refl|]. split; [done|]. exists []. rewrite app_nil_r. split; [done|].
    exists []. split; [done|constructor].
  - intros ms ns k0 k1 k2 (Ho1 & _ & b & Hb1 & Hr) (Ho2 & Hi2 & c & Hc2 & Hq).
    split; [by eapply outside_trans|]. split; [done|]. exists (b ++ c).
    split; [by rewrite Hc2, Hb1, app_assoc|]. by apply records_app.
  - by intros ms k0 k1 (_ & ? & _).
  - intros line args k0 Hk0.
    destruct (open_write_record inv Trace Boot main_rs line args k0 Ho Hc Hk0) as (k' & Hw & Ho' & Hi' & Hp).
    exists k'. unfold trace, log, enabled, verbose_enabled. rewrite Ht, Hb. split; [exact Hw|].
    split; [done|]. split; [done|]. eexists. split; [exact Hp|]. eexists [_].
    split; [by rewrite concat_cons, app_nil_r|]. constructor; [by eexists|constructor].
Qed.
