(* ===== verification/KSyscall.v ===== *)
(** * System calls and the ends of execution

    [kernel/src/process/syscall.rs], the functions of [kernel/src/process.rs]
    and [kernel/src/arch/riscv64.rs] that do not return, and the constants of
    [user/abi/src/lib.rs].  A call that does not return is an error of the
    monad, whose state is the one execution ends in.  The records they log are
    part of them, with the features of the build. *)

From Stdlib Require Import ZArith Lia Bool.
From Stdlib Require Import Strings.Byte Strings.String.
From stdpp Require Import base list numbers.
From S2P Require Import Prelude FdtScan KMemory KPaging KAsm KTimer KTimerProofs KConsole KLogging.
Local Open Scope Z_scope.

(** ** [user/abi/src/lib.rs] *)

Definition CONSOLE_WRITE_BYTE : Z := 1.
Definition EXIT : Z := 2.
Definition TIMER_TICKS : Z := 3.
Definition ERROR_IO : Z := wrap (- 5).
Definition ERROR_INVALID_ARGUMENT : Z := wrap (- 22).
Definition ERROR_NOT_SUPPORTED : Z := wrap (- 38).

(** How execution ends: the hart is parked for good, or the kernel idles with
    interrupts delivered after the process exited or faulted. *)
Inductive stopped :=
| Halted
| Exited (status : Z)
| Faulted (cause pc value : Z).

(** The files that log here, and the texts of their records. *)
Definition process_rs : list byte := bs "kernel/src/process.rs".
Definition syscall_rs : list byte := bs "kernel/src/process/syscall.rs".

Definition exited_text (status user_ticks : Z) : list byte :=
  bs "User process exited (status=" ++ decimal status ++ bs ", user_timer_interrupts=" ++ decimal user_ticks ++ bs ")".

Definition fault_text (cause pc value : Z) : list byte :=
  bs "User process fault (cause=" ++ lower_hex cause ++ bs ", pc=" ++ lower_hex pc ++ bs ", value=" ++
  lower_hex value ++ bs "), terminating".

Definition syscall_text (number argument : Z) : list byte :=
  bs "User syscall (number=" ++ decimal number ++ bs ", argument=" ++ lower_hex argument ++ bs ")".

Section kernel.
Context {W : Type} `{Environment W} `{Build}.

(** [wfi] in a loop, with delivery disabled. *)
Definition halt {A} : M (kernel W) stopped A :=
  let* _ := disable in
  throw Halted.

(** [arch::idle]: [wfi] in a loop, with delivery enabled. *)
Definition arch_idle {A} (why : stopped) : M (kernel W) stopped A :=
  let* _ := enable in
  throw why.

(** The tail of [exit] and [fault]. *)
Definition idle {A} (why : stopped) : M (kernel W) stopped A :=
  let* _ := log_at Info Process process_rs 174 (bs "Kernel idle after user process") in
  arch_idle why.

Definition user_timer_ticks {E} : M (kernel W) E Z := let* k := get in ret (USER_TICKS k).

(** [exit]. *)
Definition exit_process {A} (status : Z) : M (kernel W) stopped A :=
  let* ticks := user_timer_ticks in
  let* _ :=
    if status =? 0
    then log_at Info Process process_rs 150
           (bs "User process exited (status=0, user_timer_interrupts=" ++ decimal ticks ++ bs ")")
    else log_at Warn Process process_rs 155 (exited_text status ticks) in
  idle (Exited status).

Definition fault {A} (cause pc value : Z) : M (kernel W) stopped A :=
  let* _ := log_at Error Process process_rs 165 (fault_text cause pc value) in
  idle (Faulted cause pc value).

(** [handle]. *)
Definition handle_syscall (number argument : Z) : M (kernel W) stopped Z :=
  let* _ := log_at Trace Syscall syscall_rs 10 (syscall_text number argument) in
  if number =? CONSOLE_WRITE_BYTE then
    if argument <=? 255 then
      let* written := minfallible (as_result (write_byte argument)) in
      match written with
      | Ok _ => ret 0
      | _ => ret ERROR_IO
      end
    else
      let* _ := log_at Debug Syscall syscall_rs 17
                  (bs "Rejected console byte (value=" ++ lower_hex argument ++ bs ")") in
      ret ERROR_INVALID_ARGUMENT
  else if number =? TIMER_TICKS then user_timer_ticks
  else if number =? EXIT then exit_process argument
  else
    let* _ := log_at Debug Syscall syscall_rs 25
                (bs "Unsupported user syscall (number=" ++ decimal number ++ bs ")") in
    ret ERROR_NOT_SUPPORTED.

End kernel.
