(* ===== verification/KTrap.v ===== *)
(** * Traps ([kernel/src/arch/riscv64/trap.rs])

    The trap frame, the entry and restore assembly, the handler, and the first
    entry into user mode.  The assembly is a list of blocks in the order of the
    source; the handler runs on the kernel state and the frame it is given, and
    logs what the source logs. *)

From Stdlib Require Import ZArith Lia Bool.
From Stdlib Require Import Strings.Byte Strings.String.
From stdpp Require Import base list numbers.
From S2P Require Import Prelude FdtScan KMemory KMachine KPaging KAsm KTimer KTimerProofs KConsole KLogging KSyscall.
Local Open Scope Z_scope.

Definition SUPERVISOR_ORIGIN : Z := Z.shiftl 1 8.
Definition EXTENSION_STATE_MASK : Z := Z.lor (Z.shiftl 3 13) (Z.shiftl 3 9).
Definition TIMER_INTERRUPT : Z := Z.lor (Z.shiftl 1 63) 5.
Definition ILLEGAL_INSTRUCTION : Z := 2.
Definition USER_ECALL : Z := 8.
Definition INITIAL_USER_STATUS : Z := Z.lor (Z.shiftl 2 32) (Z.shiftl 1 5).

(** ** The frame *)

Record TrapFrame := mkFrame {
  registers : list Z;
  epc : Z;
  status : Z;
  cause : Z;
  value : Z;
}.

(** [size_of] and [offset_of] of the [repr(C)] structure. *)
Definition frame_size : Z := 8 * 32 + 4 * 8.
Definition registers_offset : Z := 0.
Definition epc_offset : Z := 256.
Definition status_offset : Z := 264.
Definition cause_offset : Z := 272.
Definition value_offset : Z := 280.

(** The frame at an address, and a write of one. *)
Definition read_frame (m : memory) (a : Z) : TrapFrame :=
  mkFrame (map (fun i => read_word m (a + registers_offset + 8 * Z.of_nat i)) (seq 0 32))
    (read_word m (a + epc_offset)) (read_word m (a + status_offset))
    (read_word m (a + cause_offset)) (read_word m (a + value_offset)).

Fixpoint write_words (m : memory) (a : Z) (l : list Z) : memory :=
  match l with
  | [] => m
  | v :: l => write_words (write_word m a v) (a + 8) l
  end.

Definition write_frame (m : memory) (a : Z) (f : TrapFrame) : memory :=
  write_words m a (registers f ++ [epc f; status f; cause f; value f]).

(** [UserContext::new]. *)
Definition UserContext_new (entry stack : VirtAddr.t) : TrapFrame :=
  mkFrame (<[2%nat := VirtAddr.as_usize stack]> (replicate 32 0)) (VirtAddr.as_usize entry)
    INITIAL_USER_STATUS 0 0.

(** ** The assembly *)

Section assembly.
(** [__global_pointer$], from the linker. *)
Context (global_pointer : Z).

Definition entry_blocks : list block := [
  ("__trap_entry"%string,
    [Csrrw sp Sscratch sp], Bnez sp ".Luser_stack");
  (""%string,
    [Csrrw sp Sscratch sp;
     Addi sp sp (- frame_size);
     Sd t0 (registers_offset + 8 * 5) sp;
     Addi t0 sp frame_size], J ".Lsave_context");
  (".Luser_stack"%string,
    [Addi sp sp (- frame_size);
     Sd t0 (registers_offset + 8 * 5) sp;
     Csrr t0 Sscratch;
     Csrw Sscratch zero], Fall)
].

Definition save_context : block :=
  (".Lsave_context"%string,
    [Sd t0 (registers_offset + 8 * 2) sp;
     Sd zero (registers_offset + 8 * 0) sp;
     Sd ra (registers_offset + 8 * 1) sp;
     Sd gp (registers_offset + 8 * 3) sp;
     Sd tp (registers_offset + 8 * 4) sp;
     Sd t1 (registers_offset + 8 * 6) sp;
     Sd t2 (registers_offset + 8 * 7) sp;
     Sd s0 (registers_offset + 8 * 8) sp;
     Sd s1 (registers_offset + 8 * 9) sp;
     Sd a0 (registers_offset + 8 * 10) sp;
     Sd a1 (registers_offset + 8 * 11) sp;
     Sd a2 (registers_offset + 8 * 12) sp;
     Sd a3 (registers_offset + 8 * 13) sp;
     Sd a4 (registers_offset + 8 * 14) sp;
     Sd a5 (registers_offset + 8 * 15) sp;
     Sd a6 (registers_offset + 8 * 16) sp;
     Sd a7 (registers_offset + 8 * 17) sp;
     Sd s2 (registers_offset + 8 * 18) sp;
     Sd s3 (registers_offset + 8 * 19) sp;
     Sd s4 (registers_offset + 8 * 20) sp;
     Sd s5 (registers_offset + 8 * 21) sp;
     Sd s6 (registers_offset + 8 * 22) sp;
     Sd s7 (registers_offset + 8 * 23) sp;
     Sd s8 (registers_offset + 8 * 24) sp;
     Sd s9 (registers_offset + 8 * 25) sp;
     Sd s10 (registers_offset + 8 * 26) sp;
     Sd s11 (registers_offset + 8 * 27) sp;
     Sd t3 (registers_offset + 8 * 28) sp;
     Sd t4 (registers_offset + 8 * 29) sp;
     Sd t5 (registers_offset + 8 * 30) sp;
     Sd t6 (registers_offset + 8 * 31) sp;
     Csrr t0 Sepc;
     Sd t0 epc_offset sp;
     Csrr t0 Sstatus;
     Sd t0 status_offset sp;
     Csrr t0 Scause;
     Sd t0 cause_offset sp;
     Csrr t0 Stval;
     Sd t0 value_offset sp;
     Li t0 EXTENSION_STATE_MASK;
     Csrc Sstatus t0;
     La gp global_pointer;
     Mv tp zero;
     Mv a0 sp], Call "trap_handler").

Definition restore_blocks : list block := [
  ("__trap_restore"%string,
    [Ld t0 epc_offset sp;
     Csrw Sepc t0;
     Ld t0 status_offset sp;
     Andi t0 t0 (- 3);
     Csrw Sstatus t0;
     Csrw Sscratch zero;
     Andi t0 t0 SUPERVISOR_ORIGIN], Bnez t0 ".Lrestore_registers");
  (""%string,
    [Addi t0 sp frame_size;
     Csrw Sscratch t0], Fall);
  (".Lrestore_registers"%string,
    [Ld ra (registers_offset + 8 * 1) sp;
     Ld gp (registers_offset + 8 * 3) sp;
     Ld tp (registers_offset + 8 * 4) sp;
     Ld t1 (registers_offset + 8 * 6) sp;
     Ld t2 (registers_offset + 8 * 7) sp;
     Ld s0 (registers_offset + 8 * 8) sp;
     Ld s1 (registers_offset + 8 * 9) sp;
     Ld a0 (registers_offset + 8 * 10) sp;
     Ld a1 (registers_offset + 8 * 11) sp;
     Ld a2 (registers_offset + 8 * 12) sp;
     Ld a3 (registers_offset + 8 * 13) sp;
     Ld a4 (registers_offset + 8 * 14) sp;
     Ld a5 (registers_offset + 8 * 15) sp;
     Ld a6 (registers_offset + 8 * 16) sp;
     Ld a7 (registers_offset + 8 * 17) sp;
     Ld s2 (registers_offset + 8 * 18) sp;
     Ld s3 (registers_offset + 8 * 19) sp;
     Ld s4 (registers_offset + 8 * 20) sp;
     Ld s5 (registers_offset + 8 * 21) sp;
     Ld s6 (registers_offset + 8 * 22) sp;
     Ld s7 (registers_offset + 8 * 23) sp;
     Ld s8 (registers_offset + 8 * 24) sp;
     Ld s9 (registers_offset + 8 * 25) sp;
     Ld s10 (registers_offset + 8 * 26) sp;
     Ld s11 (registers_offset + 8 * 27) sp;
     Ld t3 (registers_offset + 8 * 28) sp;
     Ld t4 (registers_offset + 8 * 29) sp;
     Ld t5 (registers_offset + 8 * 30) sp;
     Ld t6 (registers_offset + 8 * 31) sp;
     Ld t0 (registers_offset + 8 * 5) sp;
     Ld sp (registers_offset + 8 * 2) sp], Sret)
].

Definition trap_assembly : list block := entry_blocks ++ save_context :: restore_blocks.

(** The paths of the assembly have at most four blocks. *)
Definition trap_entry (h : hart) : option (exit * hart) := run_at 4 trap_assembly "__trap_entry" h.

Definition trap_restore (h : hart) : option (exit * hart) := run_at 4 trap_assembly "__trap_restore" h.

(** [init]: the vector, with every interrupt source masked. *)
Definition trap_init (address : Z) (h : hart) : hart :=
  exec_all [Csrw Sie zero; Csrw Sscratch zero; Csrw Stvec t0] (exec (La t0 address) h).

(** [enter_user], from the write of the frame to the restore path. *)
Definition enter_user (context : TrapFrame) (kernel_stack_top : VirtAddr.t) (h : hart)
    : option (exit * hart) :=
  let frame := wrap (VirtAddr.as_usize kernel_stack_top - frame_size) in
  let h := set_data h (write_frame (data h) frame context) in
  let h := exec_all [Csrci Sstatus 2; Fence_i; Mv sp t0] (exec (La t0 frame) h) in
  trap_restore h.

End assembly.

(** ** The handler *)

(** The texts the handler logs. *)
Definition trap_rs : list byte := bs "kernel/src/arch/riscv64/trap.rs".

(** The derived [Debug]s. *)
Definition debug_set_timer_error (error : SetTimerError) : list byte :=
  match error with
  | NotSupported => bs "NotSupported"
  | Denied => bs "Denied"
  | Unexpected code => bs "Unexpected(" ++ signed_decimal code ++ bs ")"
  end.

Definition debug_timer_error (error : TimerError) : list byte :=
  match error with
  | AlreadyInitialized => bs "AlreadyInitialized"
  | NotInitialized => bs "NotInitialized"
  | CounterUnavailable => bs "CounterUnavailable"
  | InvalidInterval => bs "InvalidInterval"
  | DeadlineOverflow => bs "DeadlineOverflow"
  | Firmware error => bs "Firmware(" ++ debug_set_timer_error error ++ bs ")"
  end.

Definition fatal_text (frame : TrapFrame) : list byte :=
  bs "Unhandled supervisor trap occurred:" ++ [x0a] ++
  bs "scause:  " ++ padded_hex (cause frame) ++ [x0a] ++
  bs "sepc:    " ++ padded_hex (epc frame) ++ [x0a] ++
  bs "stval:   " ++ padded_hex (value frame) ++ [x0a] ++
  bs "sstatus: " ++ padded_hex (status frame).

Section handler.
Context {W : Type} `{Environment W} `{Build}.
(** The addresses of [__probe_time_read] and [__probe_time_unavailable]. *)
Context (probe_time_read probe_time_unavailable : Z).

Definition fatal {A} (frame : TrapFrame) : M (kernel W) stopped A :=
  let* _ := time_disable in
  let* _ := log_at Error Trap trap_rs 357 (fatal_text frame) in
  halt.

Definition with_epc (f : TrapFrame) (v : Z) : TrapFrame :=
  mkFrame (registers f) v (status f) (cause f) (value f).

Definition register (f : TrapFrame) (r : nat) : Z := nth r (registers f) 0.

Definition set_register (f : TrapFrame) (r : nat) (v : Z) : TrapFrame :=
  mkFrame (<[r := v]> (registers f)) (epc f) (status f) (cause f) (value f).

Definition trap_handler (frame : TrapFrame) : M (kernel W) stopped TrapFrame :=
  let supervisor := negb (Z.land (status frame) SUPERVISOR_ORIGIN =? 0) in
  if supervisor && (cause frame =? ILLEGAL_INSTRUCTION) && (epc frame =? probe_time_read)
  then ret (with_epc frame probe_time_unavailable)
  else if cause frame =? TIMER_INTERRUPT then
    let* handled := minfallible (as_result handle_interrupt) in
    match handled with
    | Ok _ =>
        if negb supervisor then
          let* k := get in
          let* _ := put (with_USER_TICKS k (wrap (USER_TICKS k + 1))) in
          ret frame
        else ret frame
    | Err error =>
        let* _ := log_at Error Timer trap_rs 327
                    (bs "Supervisor timer failed (" ++ debug_timer_error error ++ bs ")") in
        fatal frame
    | Panic => panic
    | OutOfFuel => lift OutOfFuel
    end
  else if negb supervisor then
    if cause frame =? USER_ECALL then
      match checked_add usize_max (epc frame) 4 with
      | None => fault (cause frame) (epc frame) (value frame)
      | Some next =>
          let frame := with_epc frame next in
          let* result := handle_syscall (register frame 17) (register frame 10) in
          ret (set_register frame 10 result)
      end
    else fault (cause frame) (epc frame) (value frame)
  else fatal frame.

(** The handler runs on the control registers of the hart. *)
Definition on_hart_csrs (h : hart) (k : kernel W) : kernel W :=
  mkKernel (csrs h) (STATE k) (INTERVAL k) (TICKS k) (USER_TICKS k) (world k).

(** One trap of the hart, from the interrupted state to the resumed one.  The
    call of the handler keeps the stack pointer, and leaves its frame and the
    control registers as [trap_handler] does; other registers and memory are
    left open. *)
Inductive trap (global_pointer trap_cause trap_value : Z) : hart * kernel W -> hart * kernel W -> Prop :=
| trap_returns h k h2 f k' h3 h4 :
    trap_entry global_pointer (take_trap trap_cause trap_value h) = Some (Called "trap_handler", h2) ->
    trap_handler (read_frame (data h2) (reg h2 a0)) (on_hart_csrs h2 k) = (Ok f, k') ->
    reg h3 sp = reg h2 sp -> read_frame (data h3) (reg h2 a0) = f -> csrs h3 = control k' ->
    trap_restore global_pointer h3 = Some (Returned, h4) ->
    trap global_pointer trap_cause trap_value (h, k) (h4, k').

End handler.
