(* ===== verification/KTrapProofs.v ===== *)
(** * The trap path saves and restores everything

    Entering through [__trap_entry] leaves a frame with the interrupted state
    on the supervisor stack; [__trap_restore] resumes exactly the state its
    frame describes. *)

From Stdlib Require Import ZArith Lia Bool.
From Stdlib Require Import Strings.Byte Strings.String.
From stdpp Require Import base list numbers.
From S2P Require Import Prelude FdtScan KMemory KMachine KPaging KAsm KTimer KSyscall KTrap.
Local Open Scope Z_scope.

(** ** Stores at offsets of a base *)

Definition stores (m : memory) (base : Z) (l : list (Z * Z)) : memory :=
  fold_left (fun m '(o, v) => write_word m (base + o) v) l m.

Lemma stores_app m base l l' : stores m base (l ++ l') = stores (stores m base l) base l'.
Proof. apply fold_left_app. Qed.

Lemma stores_outside m base l x :
  Forall (fun '(o, _) => x < base + o \/ base + o + 8 <= x) l -> stores m base l x = m x.
Proof.
  revert m. induction l as [|[o v] l IH]; intros m Hl; [done|].
  apply Forall_cons_1 in Hl as [H Hl]. cbn. change (fold_left _ l ?m) with (stores m base l).
  rewrite IH by done. by apply write_word_outside.
Qed.

Lemma read_stores_other m base l o :
  Forall (fun '(o', _) => o + 8 <= o' \/ o' + 8 <= o) l ->
  read_word (stores m base l) (base + o) = read_word m (base + o).
Proof.
  intros Hl. apply read_word_ext. intros x Hx. apply stores_outside.
  eapply list.Forall_impl; [exact Hl|]. intros [o' v] Ho. lia.
Qed.

(** Words at distinct multiples of eight. *)
Definition spread (l : list (Z * Z)) : Prop :=
  NoDup (map fst l) /\ Forall (fun '(o, v) => o mod 8 = 0 /\ is_u64 v) l.

Lemma read_stores m base l o v :
  spread l -> In (o, v) l -> read_word (stores m base l) (base + o) = v.
Proof.
  intros [Hn Hf]. revert m. induction l as [|[o' v'] l IH]; intros m Hin; [done|].
  cbn in Hn. apply list.NoDup_cons in Hn as [Hni Hn]. apply Forall_cons_1 in Hf as [[Ho Hv] Hf].
  cbn [stores fold_left]. change (fold_left _ l ?m) with (stores m base l). destruct Hin as [[= -> ->]|Hin].
  - rewrite read_stores_other; [by apply read_write_same|]. apply List.Forall_forall. intros [o' v'] Hin.
    rewrite List.Forall_forall in Hf. destruct (Hf _ Hin) as [Ho' _].
    assert (o' <> o) by (intros ->; apply Hni, list_elem_of_In, in_map_iff; by exists (o, v')).
    clear - Ho Ho' H. Z.div_mod_to_equations. lia.
  - by apply IH.
Qed.

(** ** Runs of instructions *)

Lemma wrap_id x : 0 <= x < 2 ^ 64 -> wrap x = x.
Proof. apply Z.mod_small. Qed.

Lemma reg_set_other h r v r' : r' <> r -> reg (set_reg h r v) r' = reg h r'.
Proof. intros Hr. unfold reg, set_reg. cbn [regs]. by rewrite (proj2 (Z.eqb_neq r' r)). Qed.

Lemma reg_set_same h r v : r <> 0 -> reg (set_reg h r v) r = v.
Proof. intros Hr. unfold reg, set_reg. cbn [regs]. by rewrite (proj2 (Z.eqb_neq r 0)), Z.eqb_refl. Qed.

(** Stores of registers relative to [sp]. *)
Lemma exec_stores l h :
  0 <= reg h sp -> Forall (fun '(r, o) => 0 <= o /\ reg h sp + o < 2 ^ 64) l ->
  exec_all (map (fun '(r, o) => Sd r o sp) l) h =
  set_data h (stores (data h) (reg h sp) (map (fun '(r, o) => (o, reg h r)) l)).
Proof.
  revert h. induction l as [|[r o] l IH]; intros h H0 Hl; [by destruct h|].
  apply Forall_cons_1 in Hl as [[Ho Hr] Hl]. cbn [map exec_all fold_left]. change (fold_left _ ?l ?h) with (exec_all l h).
  rewrite IH; [|done|done]. cbn [exec]. rewrite wrap_id by lia. done.
Qed.

(** Loads of registers other than [sp] relative to it. *)
Lemma exec_loads l h :
  0 <= reg h sp -> Forall (fun '(r, o) => r <> sp /\ 0 < r /\ 0 <= o /\ reg h sp + o < 2 ^ 64) l -> NoDup (map fst l) ->
  let h' := exec_all (map (fun '(r, o) => Ld r o sp) l) h in
  data h' = data h /\ csrs h' = csrs h /\ pc h' = pc h /\ user h' = user h /\
  (forall r o, In (r, o) l -> reg h' r = read_word (data h) (reg h sp + o)) /\
  (forall r, ~ In r (map fst l) -> reg h' r = reg h r).
Proof.
  revert h. induction l as [|[r o] l IH]; intros h H0 Hl Hn; [by repeat split|].
  apply Forall_cons_1 in Hl as [(Hr & Hp & Ho & Hw) Hl]. cbn in Hn. apply list.NoDup_cons in Hn as [Hni Hn].
  cbn [map exec_all fold_left exec]. change (fold_left _ ?l ?h) with (exec_all l h).
  assert (forall h' v, reg (set_reg h' r v) sp = reg h' sp) as Hsp.
  { intros h' v. apply reg_set_other. lia. }
  destruct (IH (set_reg h r (read_word (data h) (wrap (reg h sp + o))))) as (Hd & Hc & Hpc & Hu & Hin & Hout);
    [by rewrite Hsp|by rewrite Hsp|done|].
  rewrite Hsp in Hin. cbn [data csrs pc user set_reg] in *. rewrite Hd, Hc, Hpc, Hu.
  assert (forall i v, i <> r -> reg (set_reg h r v) i = reg h i) as Hother.
  { intros i v Hi. by apply reg_set_other. }
  split; [done|]. split; [done|]. split; [done|]. split; [done|]. split.
  - intros r' o' [[= <- <-]|Hi]; [|by apply Hin]. rewrite Hout by (by rewrite <- list_elem_of_In).
    unfold reg at 1, set_reg. cbn [regs]. rewrite (proj2 (Z.eqb_neq r 0)), Z.eqb_refl by lia.
    by rewrite wrap_id by lia.
  - intros i Hi. cbn in Hi. rewrite Hout by tauto. apply Hother. intros ->. tauto.
Qed.

(** ** Entry *)

(** Where the entry path puts the frame: below the stack [sscratch] names, or
    below the interrupted one. *)
Definition top_of (h : hart) : Z := if csrs h Sscratch =? 0 then reg h sp else csrs h Sscratch.

Section entry.
Context (global_pointer : Z).

Abbreviation assembly := (trap_assembly global_pointer).

Lemma entry_unfold h :
  trap_entry global_pointer h =
  let h := exec (Csrrw sp Sscratch sp) h in
  run 3 assembly (if negb (reg h sp =? 0) then blocks_from ".Luser_stack" assembly
                  else skipn 1 assembly) h.
Proof. reflexivity. Qed.

Lemma stack_path h :
  run 3 assembly (skipn 1 assembly) h =
  run 2 assembly (save_context global_pointer :: restore_blocks)
    (exec_all [Csrrw sp Sscratch sp; Addi sp sp (- frame_size); Sd t0 40 sp; Addi t0 sp frame_size] h).
Proof. reflexivity. Qed.

Lemma user_path h :
  run 3 assembly (blocks_from ".Luser_stack" assembly) h =
  run 2 assembly (save_context global_pointer :: restore_blocks)
    (exec_all [Addi sp sp (- frame_size); Sd t0 40 sp; Csrr t0 Sscratch; Csrw Sscratch zero] h).
Proof. reflexivity. Qed.

Lemma wrap_down x : frame_size <= x < 2 ^ 64 -> wrap (x + - frame_size) = x - frame_size.
Proof. change frame_size with 288. intros Hx. rewrite wrap_id by lia. lia. Qed.

(** The fields of a state that instructions computed. *)
Ltac head_fields :=
  match goal with
  | |- forall r, _ <> _ -> _ <> _ -> _ => intros ? ??; unfold reg, set_reg, set_csr, set_data; cbn [regs];
      repeat case_match; zbool; try done; lia
  | |- forall c, _ <> _ -> _ => intros ??; cbn; rewrite ?decide_False by done; done
  | |- _ => try done; cbn -[wrap frame_size write_word Z.sub Z.add Z.opp];
      rewrite ?(decide_True (P:=Sscratch = Sscratch)) by done; try done; unfold reg in *; cbn [Z.eqb] in *
  end.

Lemma entry_head h :
  frame_size <= top_of h < 2 ^ 64 -> 0 <= reg h sp ->
  exists h2, trap_entry global_pointer h = run 2 assembly (save_context global_pointer :: restore_blocks) h2 /\
    reg h2 sp = top_of h - frame_size /\ reg h2 t0 = reg h sp /\
    data h2 = stores (data h) (top_of h - frame_size) [(40, reg h t0)] /\
    (forall r, r <> sp -> r <> t0 -> reg h2 r = reg h r) /\
    csrs h2 Sscratch = 0 /\ (forall c, c <> Sscratch -> csrs h2 c = csrs h c) /\
    pc h2 = pc h /\ user h2 = user h.
Proof.
  intros Ht H0. rewrite entry_unfold. cbv zeta.
  assert (reg (exec (Csrrw sp Sscratch sp) h) sp = csrs h Sscratch) as -> by reflexivity.
  unfold top_of in *. destruct (csrs h Sscratch =? 0) eqn:Hs; cbn [negb]; [rewrite stack_path|rewrite user_path].
  - zbool. eexists. split; [reflexivity|]. split_and!; cbn [exec_all fold_left exec]; head_fields.
    all: rewrite (wrap_down (regs h 2)) by done; change frame_size with 288 in *; rewrite ?wrap_id by lia; done || lia.
  - zbool. eexists. split; [reflexivity|]. split_and!; cbn [exec_all fold_left exec]; head_fields.
    all: rewrite (wrap_down (csrs h Sscratch)) by done; change frame_size with 288 in *; rewrite ?wrap_id by lia; done.
Qed.

(** The stores of [.Lsave_context] in three groups. *)
Definition plain : list (Z * Z) :=
  map (fun r => (r, 8 * r))
    [0; 1; 3; 4; 6; 7; 8; 9; 10; 11; 12; 13; 14; 15; 16; 17; 18; 19; 20; 21; 22; 23; 24; 25; 26; 27; 28;
     29; 30; 31].

Definition metadata : list (csr * Z) :=
  [(Sepc, epc_offset); (Sstatus, status_offset); (Scause, cause_offset); (Stval, value_offset)].

Definition save_csr (h : hart) (p : csr * Z) : hart :=
  exec_all [Csrr t0 p.1; Sd t0 p.2 sp] h.

Definition enter_rust (h : hart) : hart :=
  exec_all [Li t0 EXTENSION_STATE_MASK; Csrc Sstatus t0; La gp global_pointer; Mv tp zero; Mv a0 sp] h.

Lemma save_split h :
  run 2 assembly (save_context global_pointer :: restore_blocks) h =
  Some (Called "trap_handler",
    enter_rust (fold_left save_csr metadata
      (exec_all (map (fun '(r, o) => Sd r o sp) ((t0, 16) :: plain)) h))).
Proof. reflexivity. Qed.

(** The words the entry path stores, in a state whose [sp] is the frame and
    whose [t0] holds the interrupted [sp]. *)
Definition stored (h2 : hart) : list (Z * Z) :=
  (16, reg h2 t0) :: map (fun '(r, o) => (o, reg h2 r)) plain ++
  map (fun '(c, o) => (o, csrs h2 c)) metadata.

Lemma metadata_spec l h :
  0 <= reg h sp -> Forall (fun '(_, o) => 0 <= o /\ reg h sp + o < 2 ^ 64) l ->
  let h' := fold_left save_csr l h in
  data h' = stores (data h) (reg h sp) (map (fun '(c, o) => (o, csrs h c)) l) /\
  (forall r, r <> t0 -> reg h' r = reg h r) /\ csrs h' = csrs h /\ pc h' = pc h /\ user h' = user h.
Proof.
  revert h. induction l as [|[c o] l IH]; intros h H0 Hl; [done|].
  apply Forall_cons_1 in Hl as [[Ho Hw] Hl]. cbn [fold_left].
  destruct (IH (save_csr h (c, o)) H0 Hl) as (Hd & Hr & Hc & Hp & Hu).
  cbv zeta. rewrite Hd, Hc, Hp, Hu. split; [|split; [|done]].
  - cbn [map]. change (reg (save_csr h (c, o)) sp) with (reg h sp).
    unfold stores at 2. cbn [fold_left]. change (fold_left _ ?l' ?m) with (stores m (reg h sp) l').
    f_equal. cbn -[wrap write_word Z.add]. change (regs h 2) with (reg h sp). by rewrite wrap_id by lia.
  - intros r Hrt. rewrite Hr by done. unfold save_csr. cbn [exec_all fold_left exec fst snd].
    by rewrite <- (reg_set_other h t0 (csrs h c) r).
Qed.

Lemma plain_in r : 0 <= r < 32 -> r <> sp -> r <> t0 -> In (r, 8 * r) plain.
Proof.
  intros Hr H2 H5. unfold plain. apply (in_map (fun r => (r, 8 * r))). rewrite <- list_elem_of_In.
  assert (Forall (fun i => i = 2 \/ i = 5 \/ i ∈ [0; 1; 3; 4; 6; 7; 8; 9; 10; 11; 12; 13; 14; 15; 16; 17; 18;
    19; 20; 21; 22; 23; 24; 25; 26; 27; 28; 29; 30; 31]) (seqZ 0 32)) as Hall
    by (apply (bool_decide_unpack _); vm_compute; exact I).
  rewrite Forall_forall in Hall. destruct (Hall r) as [?|[?|?]]; [by apply list_elem_of_In, elem_of_seqZ|lia|lia|done].
Qed.

(** What the interrupted state is, as a frame. *)
Definition interrupted (h : hart) : TrapFrame :=
  mkFrame (map (fun i => reg h (Z.of_nat i)) (seq 0 32))
    (csrs h Sepc) (csrs h Sstatus) (csrs h Scause) (csrs h Stval).

(** Registers and control registers of 64 bits. *)
Definition word_sized (h : hart) : Prop := (forall r, is_u64 (reg h r)) /\ forall c, is_u64 (csrs h c).

Lemma offsets_small {A} (l : list (A * Z)) base :
  0 <= base -> base + 288 < 2 ^ 64 -> Forall (fun '(_, o) => 0 <= o < 288) l ->
  Forall (fun '(_, o) => 0 <= o /\ base + o < 2 ^ 64) l.
Proof. intros ???. eapply list.Forall_impl; [done|]. intros [r o] Ho. lia. Qed.

(** The state after the stores of the block. *)
Lemma save_stores h2 base :
  reg h2 sp = base -> 0 <= base -> base + 288 < 2 ^ 64 ->
  let h4 := fold_left save_csr metadata (exec_all (map (fun '(r, o) => Sd r o sp) ((t0, 16) :: plain)) h2) in
  data h4 = stores (data h2) base (stored h2) /\
  (forall r, r <> t0 -> reg h4 r = reg h2 r) /\ csrs h4 = csrs h2 /\ user h4 = user h2.
Proof.
  intros Hsp H0 H1. rewrite exec_stores; rewrite Hsp; [|done|].
  2:{ apply offsets_small; [done..|]. apply (bool_decide_unpack _). vm_compute. exact I. }
  destruct (metadata_spec metadata (set_data h2 (stores (data h2) base (map (fun '(r, o) => (o, reg h2 r))
    ((t0, 16) :: plain))))) as (Hd & Hr & Hc & _ & Hu).
  - change (reg (set_data h2 _) sp) with (reg h2 sp). by rewrite Hsp.
  - change (reg (set_data h2 _) sp) with (reg h2 sp). rewrite Hsp.
    apply offsets_small; [done..|]. apply (bool_decide_unpack _). vm_compute. exact I.
  - change (reg (set_data h2 _) sp) with (reg h2 sp) in Hd. rewrite Hsp in Hd. cbv zeta. rewrite Hd, Hc, Hu.
    split; [|done]. cbn [data set_data]. by rewrite <- stores_app.
Qed.

(** All the stores of the entry path, from the interrupted state. *)
Definition frame_words (h : hart) : list (Z * Z) :=
  (40, reg h t0) :: (16, reg h sp) :: map (fun '(r, o) => (o, reg h r)) plain ++
  map (fun '(c, o) => (o, csrs h c)) metadata.

Definition frame_offsets : list Z := 40 :: 16 :: map snd plain ++ map snd metadata.

Lemma frame_words_offsets h : map fst (frame_words h) = frame_offsets.
Proof. reflexivity. Qed.

Lemma frame_offsets_ok : NoDup frame_offsets /\ Forall (fun o => 0 <= o < 288 /\ o mod 8 = 0) frame_offsets.
Proof. apply (bool_decide_unpack _). vm_compute. exact I. Qed.

Lemma frame_word_range h o v : In (o, v) (frame_words h) -> 0 <= o < 288 /\ o mod 8 = 0.
Proof.
  intros Hin. apply (in_map fst) in Hin. rewrite frame_words_offsets in Hin.
  pose proof (proj2 frame_offsets_ok) as Hall. rewrite List.Forall_forall in Hall. by apply Hall.
Qed.

Lemma frame_words_spread h : word_sized h -> spread (frame_words h).
Proof.
  intros [Hr Hc]. split; [rewrite frame_words_offsets; apply frame_offsets_ok|].
  apply List.Forall_forall. intros [o v] Hin. split; [by apply frame_word_range in Hin as [_ ?]|].
  unfold frame_words in Hin. destruct Hin as [[= <- <-]|[[= <- <-]|Hin]]; [apply Hr..|].
  apply in_app_or in Hin as [Hin|Hin]; apply in_map_iff in Hin as ([r o'] & [= <- <-] & _); [apply Hr|apply Hc].
Qed.

Lemma read_frame_words h m base :
  word_sized h -> read_frame (stores m base (frame_words h)) base = interrupted h.
Proof.
  intros Hw%frame_words_spread. unfold read_frame, interrupted. f_equal.
  - apply map_ext_in. intros i Hi%in_seq. unfold registers_offset. rewrite Z.add_0_r. apply read_stores; [done|].
    destruct (decide (i = 2%nat)) as [->|H2]; [right; by left|].
    destruct (decide (i = 5%nat)) as [->|H5]; [by left|]. right. right. apply in_or_app. left.
    apply (in_map (fun '(r, o) => (o, reg h r)) _ (Z.of_nat i, 8 * Z.of_nat i)). apply plain_in; lia.
  - apply read_stores; [done|]. right. right. apply in_or_app. right. by left.
  - apply read_stores; [done|]. right. right. apply in_or_app. right. right. by left.
  - apply read_stores; [done|]. right. right. apply in_or_app. right. right. right. by left.
  - apply read_stores; [done|]. right. right. apply in_or_app. right. right. right. right. by left.
Qed.

Lemma enter_rust_spec h :
  reg (enter_rust h) sp = reg h sp /\ reg (enter_rust h) a0 = reg h sp /\
  reg (enter_rust h) gp = global_pointer /\ reg (enter_rust h) tp = 0 /\ data (enter_rust h) = data h /\
  csrs (enter_rust h) Sstatus = clear_bits (csrs h Sstatus) EXTENSION_STATE_MASK /\
  (forall c, c <> Sstatus -> csrs (enter_rust h) c = csrs h c) /\ user (enter_rust h) = user h.
Proof.
  repeat (split; [reflexivity|]). split; [|reflexivity]. intros c Hc. cbn -[wrap clear_bits].
  by rewrite decide_False.
Qed.

Lemma trap_entry_spec h :
  word_sized h -> frame_size <= top_of h < 2 ^ 64 ->
  exists h', trap_entry global_pointer h = Some (Called "trap_handler", h') /\
    reg h' sp = top_of h - frame_size /\ reg h' a0 = top_of h - frame_size /\
    reg h' gp = global_pointer /\ reg h' tp = 0 /\
    read_frame (data h') (top_of h - frame_size) = interrupted h /\
    (forall x, ~ (top_of h - frame_size <= x < top_of h) -> data h' x = data h x) /\
    csrs h' Sscratch = 0 /\ csrs h' Sstatus = clear_bits (csrs h Sstatus) EXTENSION_STATE_MASK /\
    (forall c, c <> Sscratch -> c <> Sstatus -> csrs h' c = csrs h c) /\ user h' = user h.
Proof.
  intros [Hwr Hwc] Ht. destruct (entry_head h Ht) as (h2 & -> & Hsp & Ht0 & Hd & Hr & Hss & Hc & Hpc & Hu);
    [apply Hwr|]. rewrite save_split. change frame_size with 288 in *.
  set (base := top_of h - 288) in *.
  destruct (save_stores h2 base Hsp) as (Hd4 & Hr4 & Hc4 & Hu4); [unfold base; lia..|].
  set (h4 := fold_left save_csr metadata _) in *. clearbody h4.
  assert (data h4 = stores (data h) base (frame_words h)) as Hdata.
  { rewrite Hd4, Hd, <- stores_app. f_equal. unfold stored, frame_words. rewrite Ht0. cbn [app]. f_equal.
    f_equal. f_equal.
    - apply map_ext_in. intros [r o] Hin. f_equal. apply Hr; intros ->; revert Hin; cbn; intuition congruence.
    - cbn [map metadata]. by rewrite !Hc by done. }
  destruct (enter_rust_spec h4) as (Er & Ea & Eg & Et & Ed & Es & Ec & Eu).
  exists (enter_rust h4). split; [reflexivity|].
  split; [by rewrite Er, Hr4|]. split; [by rewrite Ea, Hr4|]. split; [exact Eg|]. split; [exact Et|].
  split; [|split; [|split; [|split; [|split]]]].
  - rewrite Ed, Hdata. by apply read_frame_words.
  - intros x Hx. rewrite Ed, Hdata. apply stores_outside. apply List.Forall_forall. intros [o v] Hin.
    apply frame_word_range in Hin. unfold base in *. Z.div_mod_to_equations. lia.
  - by rewrite Ec, Hc4 by done.
  - by rewrite Es, Hc4, Hc.
  - intros c H1 H2. by rewrite Ec, Hc4, Hc.
  - by rewrite Eu, Hu4.
Qed.

End entry.

(** ** Restore *)

Section restore.
Context (global_pointer : Z).

Abbreviation assembly := (trap_assembly global_pointer).

Definition restore_head (h : hart) : hart :=
  exec_all [Ld t0 256 sp; Csrw Sepc t0; Ld t0 264 sp; Andi t0 t0 (- 3); Csrw Sstatus t0; Csrw Sscratch zero;
            Andi t0 t0 SUPERVISOR_ORIGIN] h.

Definition restore_stack (h : hart) : hart := exec_all [Addi t0 sp frame_size; Csrw Sscratch t0] h.

Definition restored : list (Z * Z) :=
  map (fun r => (r, 8 * r))
    [1; 3; 4; 6; 7; 8; 9; 10; 11; 12; 13; 14; 15; 16; 17; 18; 19; 20; 21; 22; 23; 24; 25; 26; 27; 28;
     29; 30; 31; 5].

Definition restore_registers (h : hart) : hart :=
  exec (Ld sp 16 sp) (exec_all (map (fun '(r, o) => Ld r o sp) restored) h).

Lemma restored_in r : 0 < r < 32 -> r <> sp -> In (r, 8 * r) restored.
Proof.
  intros Hr H2. unfold restored. apply (in_map (fun r => (r, 8 * r))). rewrite <- list_elem_of_In.
  assert (Forall (fun i => i = 0 \/ i = 2 \/ i ∈ [1; 3; 4; 6; 7; 8; 9; 10; 11; 12; 13; 14; 15; 16; 17; 18;
    19; 20; 21; 22; 23; 24; 25; 26; 27; 28; 29; 30; 31; 5]) (seqZ 0 32)) as Hall
    by (apply (bool_decide_unpack _); vm_compute; exact I).
  rewrite Forall_forall in Hall. destruct (Hall r) as [?|[?|?]]; [apply list_elem_of_In, elem_of_seqZ; lia|lia|lia|done].
Qed.

Lemma load_sp h :
  let h' := exec (Ld sp 16 sp) h in
  reg h' sp = read_word (data h) (wrap (reg h sp + 16)) /\ (forall r, r <> sp -> reg h' r = reg h r) /\
  data h' = data h /\ csrs h' = csrs h /\ pc h' = pc h /\ user h' = user h.
Proof. split; [done|]. split; [|done]. intros r Hr. by apply reg_set_other. Qed.

Lemma loads_restored h :
  0 <= reg h sp -> reg h sp + 288 < 2 ^ 64 ->
  let h' := exec_all (map (fun '(r, o) => Ld r o sp) restored) h in
  data h' = data h /\ csrs h' = csrs h /\ pc h' = pc h /\ user h' = user h /\
  (forall r, 0 < r < 32 -> r <> sp -> reg h' r = read_word (data h) (reg h sp + 8 * r)) /\
  reg h' sp = reg h sp.
Proof.
  intros H0 H1. destruct (exec_loads restored h H0) as (Hd & Hc & Hp & Hu & Hin & Hout).
  - assert (Forall (fun '(r, o) => r <> 2 /\ 0 < r /\ 0 <= o < 288) restored) as Hall
      by (apply (bool_decide_unpack _); vm_compute; exact I).
    eapply list.Forall_impl; [exact Hall|]. intros [r o] (? & ? & ?). cbn beta. lia.
  - apply (bool_decide_unpack _). vm_compute. exact I.
  - cbv zeta. rewrite Hd, Hc, Hp, Hu. repeat (split; [reflexivity|]). split.
    + intros r Hr Hne. by apply Hin, restored_in.
    + apply Hout. rewrite <- list_elem_of_In. apply (bool_decide_unpack _). vm_compute. exact I.
Qed.

Lemma restore_registers_spec h :
  0 <= reg h sp -> reg h sp + 288 < 2 ^ 64 ->
  let h' := restore_registers h in
  (forall r, 0 < r < 32 -> reg h' r = read_word (data h) (reg h sp + 8 * r)) /\
  data h' = data h /\ csrs h' = csrs h /\ pc h' = pc h /\ user h' = user h.
Proof.
  intros H0 H1. pose proof (loads_restored h H0 H1) as Hl. cbv zeta in *. unfold restore_registers.
  revert Hl. generalize (exec_all (map (fun '(r, o) => Ld r o sp) restored) h). intros h3 (Hd & Hc & Hp & Hu & Hr & Hs).
  destruct (load_sp h3) as (Ls & Lr & Ld & Lc & Lp & Lu). rewrite Ld, Lc, Lp, Lu.
  split; [|done]. intros r Hr32. destruct (decide (r = sp)) as [->|Hne].
  - rewrite Ls, Hd, Hs, wrap_id by lia. done.
  - rewrite Lr by done. by apply Hr.
Qed.

Lemma restore_block :
  blocks_from "__trap_restore" assembly =
  ("__trap_restore"%string,
   [Ld t0 256 sp; Csrw Sepc t0; Ld t0 264 sp; Andi t0 t0 (- 3); Csrw Sstatus t0; Csrw Sscratch zero;
    Andi t0 t0 SUPERVISOR_ORIGIN], Bnez t0 ".Lrestore_registers") :: skipn 5 assembly.
Proof. reflexivity. Qed.

Lemma restore_unfold h :
  trap_restore global_pointer h =
  run 3 assembly (if negb (reg (restore_head h) t0 =? 0) then blocks_from ".Lrestore_registers" assembly
                  else skipn 5 assembly) (restore_head h).
Proof. unfold trap_restore, run_at. rewrite restore_block. cbn [run]. unfold restore_head. reflexivity. Qed.

Lemma registers_block :
  blocks_from ".Lrestore_registers" assembly =
  [(".Lrestore_registers"%string, map (fun '(r, o) => Ld r o sp) restored ++ [Ld sp 16 sp], Sret)].
Proof. reflexivity. Qed.

Lemma registers_path n h :
  run (S n) assembly (blocks_from ".Lrestore_registers" assembly) h =
  Some (Returned, KAsm.sret (restore_registers h)).
Proof. rewrite registers_block. cbn [run]. rewrite exec_all_app. reflexivity. Qed.

Lemma stack_block :
  skipn 5 assembly =
  (""%string, [Addi t0 sp frame_size; Csrw Sscratch t0], Fall) :: blocks_from ".Lrestore_registers" assembly.
Proof. reflexivity. Qed.

Lemma restore_stack_path h :
  run 3 assembly (skipn 5 assembly) h =
  run 2 assembly (blocks_from ".Lrestore_registers" assembly) (restore_stack h).
Proof. rewrite stack_block. cbn [run]. unfold restore_stack. reflexivity. Qed.

Lemma restore_head_spec h :
  0 <= reg h sp -> reg h sp + 288 < 2 ^ 64 ->
  let f := read_frame (data h) (reg h sp) in
  let h' := restore_head h in
  reg h' sp = reg h sp /\ data h' = data h /\ user h' = user h /\
  reg h' t0 = Z.land (Z.land (status f) (wrap (- 3))) SUPERVISOR_ORIGIN /\
  csrs h' Sepc = epc f /\ csrs h' Sstatus = Z.land (status f) (wrap (- 3)) /\ csrs h' Sscratch = 0 /\
  (forall c, c <> Sepc -> c <> Sstatus -> c <> Sscratch -> csrs h' c = csrs h c).
Proof.
  intros H0 H1. cbv zeta. split; [done|]. split; [done|]. split; [done|].
  unfold read_frame. cbn [epc status]. change epc_offset with 256. change status_offset with 264.
  rewrite <- (wrap_id (reg h sp + 256)), <- (wrap_id (reg h sp + 264)) by lia.
  split; [reflexivity|]. split; [reflexivity|]. split; [reflexivity|]. split; [reflexivity|].
  intros c Hc1 Hc2 Hc3. cbn -[wrap Z.land read_word Z.add]. by rewrite !decide_False.
Qed.

Lemma sret_fields h :
  reg (KAsm.sret h) = reg h /\ data (KAsm.sret h) = data h /\ pc (KAsm.sret h) = csrs h Sepc /\
  user (KAsm.sret h) = negb (Z.testbit (csrs h Sstatus) 8) /\
  csrs (KAsm.sret h) Sstatus = returned_status (csrs h Sstatus) /\
  forall c, c <> Sstatus -> csrs (KAsm.sret h) c = csrs h c.
Proof. repeat (split; [reflexivity|]). intros c Hc. cbn. by rewrite decide_False. Qed.

Lemma status_u64 m a : is_u64 (status (read_frame m a)).
Proof. apply read_word_range. Qed.

Lemma register_word m a r : 0 <= r < 32 -> register (read_frame m a) (Z.to_nat r) = read_word m (a + 8 * r).
Proof.
  intros Hr. unfold register, read_frame. cbn [registers].
  rewrite (nth_indep _ 0 (read_word m (a + registers_offset + 8 * Z.of_nat 0)))
    by (rewrite length_map, length_seq; lia).
  rewrite (map_nth (fun i => read_word m (a + registers_offset + 8 * Z.of_nat i))), seq_nth by lia.
  f_equal. unfold registers_offset. lia.
Qed.

(** The state before the registers are loaded. *)
Lemma restore_prefix h :
  0 <= reg h sp -> reg h sp + 288 < 2 ^ 64 ->
  let f := read_frame (data h) (reg h sp) in
  exists h2, trap_restore global_pointer h = Some (Returned, KAsm.sret (restore_registers h2)) /\
    reg h2 sp = reg h sp /\ data h2 = data h /\ csrs h2 Sepc = epc f /\
    csrs h2 Sstatus = clear_bits (status f) 2 /\
    csrs h2 Sscratch = (if Z.testbit (status f) 8 then 0 else reg h sp + 288) /\
    (forall c, c <> Sepc -> c <> Sstatus -> c <> Sscratch -> csrs h2 c = csrs h c).
Proof.
  intros H0 H1. destruct (restore_head_spec h H0 H1) as (Hs & Hd & Hu & Ht & He & Hst & Hss & Hc).
  cbv zeta in *. rewrite restore_unfold, Ht, land_minus_3. change SUPERVISOR_ORIGIN with 256.
  rewrite (land_origin _ (status_u64 _ _)), negb_involutive. revert Hs Hd Hu He Hst Hss Hc.
  generalize (restore_head h). intros h1 Hs Hd Hu He Hst Hss Hc.
  destruct (Z.testbit (status (read_frame (data h) (reg h sp))) 8).
  - exists h1. rewrite registers_path. by repeat split.
  - exists (restore_stack h1). rewrite restore_stack_path, registers_path. split; [done|].
    change (data (restore_stack h1)) with (data h1). change (reg (restore_stack h1) sp) with (reg h1 sp).
    change (csrs (restore_stack h1) Sepc) with (csrs h1 Sepc).
    change (csrs (restore_stack h1) Sstatus) with (csrs h1 Sstatus).
    change (csrs (restore_stack h1) Sscratch) with (wrap (reg h1 sp + frame_size)).
    change frame_size with 288. rewrite Hs, wrap_id by lia. repeat (split; [done|]).
    intros c Hc1 Hc2 Hc3. rewrite <- Hc by done. cbn. by rewrite decide_False.
Qed.

Lemma trap_restore_spec h :
  0 <= reg h sp -> reg h sp + 288 < 2 ^ 64 ->
  let f := read_frame (data h) (reg h sp) in
  exists h', trap_restore global_pointer h = Some (Returned, h') /\
    (forall r, 0 <= r < 32 -> reg h' r = if r =? 0 then 0 else register f (Z.to_nat r)) /\
    pc h' = epc f /\ user h' = negb (Z.testbit (status f) 8) /\ data h' = data h /\
    csrs h' Sscratch = (if Z.testbit (status f) 8 then 0 else reg h sp + 288) /\
    csrs h' Sstatus = returned_status (clear_bits (status f) 2) /\
    (forall c, c <> Sepc -> c <> Sstatus -> c <> Sscratch -> csrs h' c = csrs h c).
Proof.
  intros H0 H1. destruct (restore_prefix h H0 H1) as (h2 & Hrun & Hs & Hd & He & Hst & Hss & Hc). cbv zeta.
  destruct (restore_registers_spec h2) as (Rr & Rd & Rc & Rp & Ru); [by rewrite Hs..|].
  revert Hrun Rr Rd Rc Rp Ru. generalize (restore_registers h2). intros h3 Hrun Rr Rd Rc Rp Ru.
  exists (KAsm.sret h3). split; [exact Hrun|]. destruct (sret_fields h3) as (Sr & Sd & Sp & Su & Ss & Sc).
  rewrite Sr, Sd, Sp, Su, Ss, Rd, Rc, He, Hst, Hd.
  split; [|split; [|split; [|split; [|split; [|split]]]]]; try done.
  - intros r Hr. destruct (r =? 0) eqn:E; zbool; [by subst|]. rewrite Rr, Hd, Hs by lia.
    by rewrite register_word.
  - f_equal. change 2 with (2 ^ 1). rewrite testbit_clear by (apply status_u64 || lia). by rewrite andb_true_r.
  - by rewrite Sc, Rc.
  - intros c Hc1 Hc2 Hc3. by rewrite Sc, Rc, Hc.
Qed.

End restore.
