(* ===== verification/KTrapSteps.v ===== *)
(** * Whole traps

    The handler's effect on the frame, and a trap from the interrupted state to
    the resumed one.  The last part is the first entry into user mode, which
    takes the same way back. *)

From Stdlib Require Import ZArith Lia Bool.
From Stdlib Require Import Strings.Byte Strings.String.
From stdpp Require Import base list numbers.
From S2P Require Import Prelude FdtScan KMemory KMachine KPaging KAsm KTimer KTimerProofs.
From S2P Require Import KConsole KLogging KSyscall KTrap KTrapProofs.
Local Open Scope Z_scope.

Section kernel.
Context {W : Type} `{Environment W} `{Build}.
Context (probe_time_read probe_time_unavailable global_pointer : Z).

Implicit Types (k : kernel W) (f : TrapFrame).

Abbreviation trap_handler := (trap_handler probe_time_read probe_time_unavailable).

(** ** The handler *)

Definition from_supervisor f : bool := Z.testbit (status f) 8.

Lemma origin_bit f : is_u64 (status f) -> negb (Z.land (status f) SUPERVISOR_ORIGIN =? 0) = from_supervisor f.
Proof.
  intros Hs. unfold from_supervisor. change SUPERVISOR_ORIGIN with (2 ^ 8).
  destruct (Z.testbit (status f) 8) eqn:E.
  - apply negb_true_iff, Z.eqb_neq. intros Hz. apply (f_equal (fun x => Z.testbit x 8)) in Hz.
    by rewrite Z.land_spec, E, testbit_pow in Hz.
  - apply negb_false_iff, Z.eqb_eq, Z.bits_inj'. intros n Hn. rewrite Z.land_spec, testbit_pow, Z.bits_0 by lia.
    destruct (n =? 8) eqn:En; zbool; [subst; by rewrite E|by rewrite andb_false_r].
Qed.

(** The kernel state after a handled timer interrupt. *)
Definition ticked f k w : kernel W :=
  let k' := with_TICKS (with_world k w) (wrap (TICKS k + 1)) in
  if from_supervisor f then k' else with_USER_TICKS k' (wrap (USER_TICKS k + 1)).

(** The three ways the handler returns. *)
Inductive returns k f : TrapFrame -> kernel W -> Prop :=
| returns_probe :
    from_supervisor f = true -> cause f = ILLEGAL_INSTRUCTION -> epc f = probe_time_read ->
    returns k f (with_epc f probe_time_unavailable) k
| returns_timer w :
    cause f = TIMER_INTERRUPT -> INTERVAL k <> 0 -> armed k (INTERVAL k) (Ok tt) w ->
    returns k f f (ticked f k w)
| returns_ecall v k' :
    from_supervisor f = false -> cause f = USER_ECALL -> epc f + 4 <= usize_max ->
    handle_syscall (register f 17) (register f 10) k = (Ok v, k') ->
    returns k f (set_register (with_epc f (epc f + 4)) 10 v) k'.

Lemma write_byte_no_panic b k : no_panic (fst (write_byte b k)).
Proof.
  unfold write_byte, call, bind, get. cbn. destruct (sbi_call _ _ _ _) as [e w]. cbn.
  destruct e as [|p|p]; cbn; try done. do 3 (destruct p as [p|p|]; try done).
Qed.

(** The ends of execution, whatever is printed on the way. *)
Lemma idle_stops {A} why k : exists k', idle (A:=A) why k = (Err why, k').
Proof. unfold idle. skip_log k1. by eexists. Qed.

Lemma exit_stops {A} n k : exists k', exit_process (A:=A) n k = (Err (Exited n), k').
Proof.
  unfold exit_process. rewrite (bind_ok _ _ _ (USER_TICKS k) k) by done.
  destruct (n =? 0); skip_log k1; apply idle_stops.
Qed.

Lemma fault_stops {A} c p v k : exists k', fault (A:=A) c p v k = (Err (Faulted c p v), k').
Proof. unfold fault. skip_log k1. apply idle_stops. Qed.

Lemma fatal_halts {A} f k : exists k', fatal (A:=A) f k = (Err Halted, k').
Proof.
  unfold fatal. rewrite (bind_ok _ _ _ tt (with_STATE k UNAVAILABLE)) by done.
  skip_log k1. by eexists.
Qed.

(** A system call returns or ends the process. *)
Lemma handle_syscall_ends n a k :
  exists o k', handle_syscall n a k = (o, k') /\
    match o with Ok _ => True | Err e => n = EXIT /\ e = Exited a | _ => False end.
Proof.
  unfold handle_syscall. skip_log k1. destruct (n =? CONSOLE_WRITE_BYTE).
  { destruct (a <=? 255); [|skip_log k2; by do 2 eexists].
    pose proof (write_byte_no_panic a k1) as Hw. unfold minfallible, as_result, bind.
    destruct (write_byte a k1) as [[] k2]; try done; by do 2 eexists. }
  destruct (n =? TIMER_TICKS); [by do 2 eexists|]. destruct (n =? EXIT) eqn:He; zbool.
  - destruct (exit_stops (A:=Z) a k1) as (k2 & ->). by do 2 eexists.
  - skip_log k2. by do 2 eexists.
Qed.

(** Every outcome of the handler: it returns in one of the three ways or ends
    execution, and never panics. *)
Lemma trap_handler_spec f k :
  is_u64 (status f) ->
  exists o k', trap_handler f k = (o, k') /\
  match o with
  | Ok f' => returns k f f' k'
  | Err Halted =>
      from_supervisor f = true /\ cause f <> TIMER_INTERRUPT /\
        ~ (cause f = ILLEGAL_INSTRUCTION /\ epc f = probe_time_read) \/
      cause f = TIMER_INTERRUPT /\ exists e, fst (handle_interrupt k) = Err e
  | Err (Exited n) => from_supervisor f = false /\ cause f = USER_ECALL /\ register f 17 = EXIT /\
      n = register f 10
  | Err (Faulted c p v) => from_supervisor f = false /\ c = cause f /\ p = epc f /\ v = value f /\
      cause f <> TIMER_INTERRUPT /\ (cause f = USER_ECALL -> usize_max < epc f + 4)
  | _ => False
  end.
Proof.
  intros Hs. unfold KTrap.trap_handler. rewrite origin_bit by done.
  destruct (from_supervisor f && (cause f =? ILLEGAL_INSTRUCTION) && (epc f =? probe_time_read)) eqn:Hp.
  { apply andb_true_iff in Hp as [[H1 H2%Z.eqb_eq]%andb_true_iff H3%Z.eqb_eq]. do 2 eexists. split; [reflexivity|]. by apply returns_probe. }
  destruct (cause f =? TIMER_INTERRUPT) eqn:Ht; zbool.
  { destruct (handle_interrupt_spec k) as (o & k' & Hh & Ho).
    rewrite (bind_ok _ _ _ o k'); [|by unfold minfallible, as_result; rewrite Hh; destruct o as [[]| | |]].
    destruct o as [[]|e| |]; try done.
    - destruct Ho as (Hi & w & Ha & ->). pose proof (returns_timer k f w Ht Hi Ha) as Hr.
      unfold ticked in Hr. destruct (from_supervisor f); do 2 eexists; (split; [reflexivity|exact Hr]).
    - skip_log k1. destruct (fatal_halts (A:=TrapFrame) f k1) as (k2 & ->).
      do 2 eexists. split; [reflexivity|]. right. split; [done|]. exists e. by rewrite Hh. }
  destruct (from_supervisor f) eqn:Hf; cbn [negb].
  { destruct (fatal_halts (A:=TrapFrame) f k) as (k2 & ->). do 2 eexists. split; [reflexivity|]. left. split; [done|]. split; [done|]. intros [H1 H2].
    by rewrite H1, H2, !Z.eqb_refl in Hp. }
  destruct (cause f =? USER_ECALL) eqn:He; zbool.
  2:{ destruct (fault_stops (A:=TrapFrame) (cause f) (epc f) (value f) k) as (k2 & ->).
      do 2 eexists. split; [reflexivity|]. by repeat split. }
  destruct (checked_add usize_max (epc f) 4) as [next|] eqn:Hn.
  2:{ destruct (fault_stops (A:=TrapFrame) (cause f) (epc f) (value f) k) as (k2 & ->).
      do 2 eexists. split; [reflexivity|]. repeat (split; [done|]). intros _.
      unfold checked_add in Hn. case_match; zbool; [done|lia]. }
  apply checked_add_Some in Hn as [Hle ->].
  change (register (with_epc f (epc f + 4)) 17) with (register f 17).
  change (register (with_epc f (epc f + 4)) 10) with (register f 10).
  destruct (handle_syscall_ends (register f 17) (register f 10) k) as (o & k' & Hsys & Ho).
  unfold bind. rewrite Hsys. destruct o as [v|e| |]; try done.
  - do 2 eexists. split; [reflexivity|]. by apply returns_ecall.
  - destruct Ho as [Hx ->]. do 2 eexists. split; [reflexivity|]. done.
Qed.

(** ** The interrupted and the resumed state *)

(** A hart that can take a trap: words in its registers, and room for a frame
    on the stack the entry path selects. *)
Record ready (h : hart) : Prop := {
  r_words : word_sized h;
  r_pc : is_u64 (pc h);
  r_stack : if user h then frame_size <= csrs h Sscratch
            else csrs h Sscratch = 0 /\ frame_size <= reg h sp;
}.

Lemma take_trap_fields c v h :
  reg (take_trap c v h) = reg h /\ data (take_trap c v h) = data h /\
  csrs (take_trap c v h) Sscratch = csrs h Sscratch /\ csrs (take_trap c v h) Sepc = pc h /\
  csrs (take_trap c v h) Sstatus = trap_status (user h) (csrs h Sstatus) /\
  csrs (take_trap c v h) Scause = c /\ csrs (take_trap c v h) Stval = v /\
  forall c', c' <> Sstatus -> c' <> Sepc -> c' <> Scause -> c' <> Stval -> csrs (take_trap c v h) c' = csrs h c'.
Proof.
  split; [done|]. split; [done|]. split; [done|]. split; [done|]. split; [by destruct h as [? ? ? ? []]|].
  split; [done|]. split; [done|]. intros c' H1 H2 H3 H4. cbn. by rewrite !decide_False.
Qed.

Lemma taken_words c v h : ready h -> is_u64 c -> is_u64 v -> word_sized (take_trap c v h).
Proof.
  intros [[Hr Hc] Hp _] H1 H2. destruct (take_trap_fields c v h) as (Er & _ & _ & Ee & Es & Ec & Ev & Eo).
  split; [intros r; rewrite Er; apply Hr|]. intros c'.
  destruct (decide (c' = Sstatus)) as [->|]; [rewrite Es; by apply trap_status_u64|].
  destruct (decide (c' = Sepc)) as [->|]; [by rewrite Ee|].
  destruct (decide (c' = Scause)) as [->|]; [by rewrite Ec|].
  destruct (decide (c' = Stval)) as [->|]; [by rewrite Ev|]. by rewrite Eo.
Qed.

Lemma taken_top c v h :
  ready h -> frame_size <= top_of (take_trap c v h) < 2 ^ 64 /\
  (if user h then top_of (take_trap c v h) = csrs h Sscratch else csrs h Sscratch = 0).
Proof.
  intros [[Hr Hc] _ Hst]. destruct (take_trap_fields c v h) as (Er & _ & Es & _).
  unfold top_of. rewrite Es, Er. pose proof (Hr sp) as [_ Hu]. pose proof (Hc Sscratch) as [_ Hu'].
  unfold u64_max, frame_size in *. destruct (user h).
  - rewrite (proj2 (Z.eqb_neq (csrs h Sscratch) 0)) by lia. lia.
  - destruct Hst as [-> Hst]. change (0 =? 0) with true. lia.
Qed.

(** What the restore path makes of the status of a trap. *)
Lemma status_round_trip was_user s n :
  is_u64 s -> 0 <= n -> n <> 5 -> n <> 8 ->
  Z.testbit (returned_status (clear_bits (trap_status was_user s) 2)) n = Z.testbit s n.
Proof.
  intros Hs Hn H5 H8. change 2 with (2 ^ 1). pose proof (trap_status_u64 was_user s Hs) as Ht.
  rewrite returned_status_bits by (done || (apply clear_u64; done || lia)).
  rewrite !testbit_clear by (done || lia). rewrite !trap_status_bits by (done || lia).
  rewrite (proj2 (Z.eqb_neq n 5)), (proj2 (Z.eqb_neq n 8)) by done.
  destruct (n =? 1) eqn:E; zbool; [subst; cbn; by rewrite andb_true_r|]. cbn [negb]. by rewrite andb_true_r.
Qed.

(** A trap that returns leaves the saved status alone. *)
Lemma returns_status k f f' k' : returns k f f' k' -> status f' = status f.
Proof. by intros []. Qed.

(** The resumed state, from the frame the handler left. *)
Lemma trap_resumes c v h k h4 k' :
  ready h -> is_u64 c -> is_u64 v ->
  trap probe_time_read probe_time_unavailable global_pointer c v (h, k) (h4, k') ->
  exists h2 f',
    let f := interrupted (take_trap c v h) in
    returns (on_hart_csrs h2 k) f f' k' /\ csrs h2 Sscratch = 0 /\
    (forall r, 0 <= r < 32 -> reg h4 r = if r =? 0 then 0 else register f' (Z.to_nat r)) /\
    pc h4 = epc f' /\ user h4 = user h /\ csrs h4 Sscratch = csrs h Sscratch /\
    (forall n, 0 <= n -> n <> 5 -> n <> 8 -> Z.testbit (csrs h4 Sstatus) n = Z.testbit (csrs h Sstatus) n).
Proof.
  intros Hready Hc Hv Htrap. inversion Htrap as [? ? h2 f' ? h3 ? Hentry Hhandler Hsp Hframe Hcsrs Hrestore]. subst.
  destruct (taken_top c v h Hready) as [Htop Hss]. pose proof (taken_words c v h Hready Hc Hv) as Hw.
  destruct (trap_entry_spec global_pointer _ Hw Htop) as (h2' & He & Es & Ea & _ & _ & Ef & _ & Ess & _).
  rewrite Hentry in He. injection He as <-. rewrite Ea, Ef in Hhandler. rewrite Es in Hsp.
  remember (top_of (take_trap c v h) - frame_size) as base eqn:Hbase. unfold frame_size in *.
  destruct (take_trap_fields c v h) as (_ & _ & Ts & Te & Tst & Tc & Tv & _).
  assert (is_u64 (status (interrupted (take_trap c v h)))) as Hst by apply Hw.
  destruct (trap_handler_spec (interrupted (take_trap c v h)) (on_hart_csrs h2 k) Hst) as (o & k2 & Hh & Ho).
  rewrite Hhandler in Hh. injection Hh as <- <-.
  exists h2, (read_frame (data h3) base). split; [done|]. split; [done|].
  assert (status (read_frame (data h3) base) = trap_status (user h) (csrs h Sstatus)) as Hstatus.
  { assert (status (interrupted (take_trap c v h)) = trap_status (user h) (csrs h Sstatus)) as <- by exact Tst.
    by eapply returns_status. }
  destruct (trap_restore_spec global_pointer h3) as (h4' & Hr & Rr & Rp & Ru & _ & Rs & Rst & _);
    [rewrite Hsp; lia..|]. rewrite Hsp in Rr, Rp, Ru, Rs, Rst.
  rewrite Hrestore in Hr. injection Hr as <-. pose proof (r_words h Hready) as [_ Hcs].
  assert (Z.testbit (status (read_frame (data h3) base)) 8 = negb (user h)) as H8
    by (rewrite Hstatus, trap_status_bits by (apply Hcs || lia); done).
  rewrite H8 in Ru, Rs. rewrite Hstatus in Rst.
  split; [exact Rr|]. split; [exact Rp|]. split; [by rewrite Ru, negb_involutive|]. split.
  - rewrite Rs. destruct (user h); cbn [negb]; [|by symmetry]. rewrite <- Hss. lia.
  - intros n Hn H5 Hn8. rewrite Rst. by apply status_round_trip.
Qed.

Lemma register_interrupted c v h r :
  0 <= r < 32 -> register (interrupted (take_trap c v h)) (Z.to_nat r) = reg h r.
Proof.
  intros Hr. unfold register, interrupted. cbn [registers].
  rewrite (nth_indep _ 0 (reg (take_trap c v h) (Z.of_nat 0))) by (rewrite length_map, length_seq; lia).
  rewrite (map_nth (fun i => reg (take_trap c v h) (Z.of_nat i))), seq_nth by lia.
  cbn [Nat.add]. by rewrite Z2Nat.id by lia.
Qed.

Lemma interrupted_origin c v h : word_sized h -> from_supervisor (interrupted (take_trap c v h)) = negb (user h).
Proof.
  intros [_ Hc]. unfold from_supervisor, interrupted. cbn [status].
  destruct (take_trap_fields c v h) as (_ & _ & _ & _ & -> & _). by rewrite trap_status_bits by (apply Hc || lia).
Qed.

(** The frame the handler returns, against the interrupted state. *)
Lemma returned_frame c v h h2 k f k' :
  ready h -> returns (on_hart_csrs h2 k) (interrupted (take_trap c v h)) f k' ->
  (forall r, 0 < r < 32 -> r <> a0 -> register f (Z.to_nat r) = reg h r) /\
  (c = TIMER_INTERRUPT /\ epc f = pc h /\ register f (Z.to_nat a0) = reg h a0 /\ TICKS k' = wrap (TICKS k + 1) /\
     USER_TICKS k' = (if user h then wrap (USER_TICKS k + 1) else USER_TICKS k) \/
   c = ILLEGAL_INSTRUCTION /\ user h = false /\ pc h = probe_time_read /\ epc f = probe_time_unavailable /\
     register f (Z.to_nat a0) = reg h a0 /\ TICKS k' = TICKS k \/
   c = USER_ECALL /\ user h = true /\ epc f = pc h + 4 /\
     handle_syscall (reg h a7) (reg h a0) (on_hart_csrs h2 k) = (Ok (register f (Z.to_nat a0)), k')).
Proof.
  intros [Hw _ _] Hret. pose proof (interrupted_origin c v h Hw) as Ho.
  pose proof (register_interrupted c v h) as Hreg.
  inversion Hret as [Hs Hc He|w Hc Hi Ha|x k2 Hs Hc He Hsys]; subst f k'.
  - split; [intros r Hr _; apply Hreg; lia|]. right. left. rewrite Ho in Hs. split; [exact Hc|].
    split; [by destruct (user h)|]. split; [exact He|]. split; [done|]. split; [apply Hreg; lia|done].
  - split; [intros r Hr _; apply Hreg; lia|]. left. split; [exact Hc|]. split; [done|]. split; [apply Hreg; lia|].
    unfold ticked. rewrite Ho. by destruct (user h).
  - assert (forall r, register (set_register (with_epc (interrupted (take_trap c v h)) (epc (interrupted (take_trap c v h)) + 4)) 10 x) r =
      if decide (r = 10%nat) then x else register (interrupted (take_trap c v h)) r) as Hset.
    { intros r. unfold register, set_register. cbn [registers with_epc]. case_decide as Hr.
      - subst r. rewrite nth_lookup, list_lookup_insert_eq; [done|]. unfold interrupted. cbn. lia.
      - rewrite !nth_lookup. by rewrite list_lookup_insert_ne by done. }
    split.
    + intros r Hr Hne. rewrite Hset, decide_False by lia. apply Hreg. lia.
    + right. right. rewrite Ho in Hs. split; [exact Hc|]. split; [by destruct (user h)|]. split; [done|].
      rewrite Hset, decide_True by done. rewrite <- (Hreg 17), <- (Hreg 10) by lia. exact Hsys.
Qed.

Lemma handler_ticks f k w :
  cause f = TIMER_INTERRUPT -> INTERVAL k <> 0 -> armed k (INTERVAL k) (Ok tt) w ->
  exists k', trap_handler f k = (Ok f, k').
Proof.
  intros Hc Hi Ha. unfold KTrap.trap_handler. rewrite Hc.
  replace (TIMER_INTERRUPT =? ILLEGAL_INSTRUCTION) with false by done.
  rewrite andb_false_r, andb_false_l, Z.eqb_refl. unfold minfallible, as_result, bind.
  rewrite (handle_interrupt_armed k w Hi Ha). cbn [infallible]. case_match; by eexists.
Qed.

(** A timer interrupt whose deadline is programmed resumes. *)
Lemma timer_trap_completes v h k w :
  ready h -> is_u64 v -> INTERVAL k <> 0 -> armed k (INTERVAL k) (Ok tt) w ->
  exists h4 k', trap probe_time_read probe_time_unavailable global_pointer TIMER_INTERRUPT v (h, k) (h4, k').
Proof.
  intros Hready Hv Hi Ha. assert (is_u64 TIMER_INTERRUPT) as Hc by (vm_compute; split; congruence).
  destruct (taken_top TIMER_INTERRUPT v h Hready) as [Htop _].
  pose proof (taken_words _ _ _ Hready Hc Hv) as Hw.
  destruct (trap_entry_spec global_pointer _ Hw Htop) as (h2 & He & Es & Ea & _ & _ & Ef & _).
  set (f := interrupted (take_trap TIMER_INTERRUPT v h)) in *.
  destruct (handler_ticks f (on_hart_csrs h2 k) w eq_refl Hi Ha) as (k' & Hh).
  set (h3 := mkHart (regs h2) (data h2) (control k') (pc h2) (user h2)).
  assert (reg h3 sp = reg h2 sp) as Hsp3 by reflexivity.
  unfold frame_size in *. destruct (trap_restore_spec global_pointer h3) as (h4 & Hr & _); [rewrite Hsp3, Es; lia..|].
  exists h4, k'. apply (trap_returns _ _ _ _ _ h k h2 f k' h3 h4).
  - exact He.
  - rewrite Ea, Ef. exact Hh.
  - exact Hsp3.
  - rewrite Ea. exact Ef.
  - reflexivity.
  - exact Hr.
Qed.

End kernel.

(** ** The first entry into user mode

    [enter_user] writes the context as a trap frame below the top of the kernel
    stack and leaves through the restore path, so that the hart starts the
    program exactly as the context says. *)

(** ** A frame in memory *)

Lemma write_words_outside l : forall m a x,
  x < a \/ a + 8 * zlen l <= x -> write_words m a l x = m x.
Proof.
  induction l as [|v l IH]; intros m a x Hx; [done|]. rewrite zlen_cons in Hx. pose proof (zlen_nonneg l).
  cbn [write_words]. rewrite IH by lia. apply write_word_outside. lia.
Qed.

Lemma read_write_words l : forall m a k,
  Forall is_u64 l -> (k < length l)%nat -> read_word (write_words m a l) (a + 8 * Z.of_nat k) = nth k l 0.
Proof.
  induction l as [|v l IH]; intros m a k Hl Hk; [cbn in Hk; lia|].
  apply Forall_cons_1 in Hl as [Hv Hl].
  cbn [write_words]. destruct k as [|k]; cbn [nth].
  - rewrite Z.mul_0_r, Z.add_0_r. etrans; [|by apply (read_write_same m a v)].
    apply read_word_ext. intros x Hx. apply write_words_outside. lia.
  - replace (a + 8 * Z.of_nat (S k)) with (a + 8 + 8 * Z.of_nat k) by lia. apply IH; [done|]. cbn in Hk. lia.
Qed.

(** A context that fits a frame. *)
Record context_ok (f : TrapFrame) : Prop := {
  co_registers : length (registers f) = 32%nat;
  co_words : Forall is_u64 (registers f ++ [epc f; status f; cause f; value f]);
}.

Lemma read_write_frame m a f : context_ok f -> read_frame (write_frame m a f) a = f.
Proof.
  intros [Hlen Hw]. destruct f as [rs pc st c v]. cbn [registers epc status cause value] in *.
  unfold read_frame, write_frame. cbn [registers epc status cause value].
  assert (forall k, (k < 36)%nat -> read_word (write_words m a (rs ++ [pc; st; c; v])) (a + 8 * Z.of_nat k) =
    nth k (rs ++ [pc; st; c; v]) 0) as Hread
    by (intros k Hk; apply read_write_words; [done|rewrite length_app, Hlen; cbn; lia]).
  assert (forall i, (i < 4)%nat -> nth (32 + i) (rs ++ [pc; st; c; v]) 0 = nth i [pc; st; c; v] 0) as Htail.
  { intros i Hi. rewrite app_nth2 by lia. f_equal. lia. }
  f_equal.
  - apply (nth_ext _ _ 0 0); [by rewrite length_map, length_seq|]. intros i Hi. rewrite length_map, length_seq in Hi.
    rewrite (nth_indep _ 0 (read_word (write_words m a (rs ++ [pc; st; c; v])) (a + registers_offset + 8 * Z.of_nat 0)))
      by (by rewrite length_map, length_seq).
    rewrite (map_nth (fun i => read_word (write_words m a (rs ++ [pc; st; c; v])) (a + registers_offset + 8 * Z.of_nat i))).
    rewrite seq_nth by lia. unfold registers_offset. rewrite Z.add_0_r. cbn [Nat.add]. rewrite Hread by lia.
    by rewrite app_nth1 by lia.
  - exact (eq_trans (Hread 32%nat ltac:(lia)) (Htail 0%nat ltac:(lia))).
  - exact (eq_trans (Hread 33%nat ltac:(lia)) (Htail 1%nat ltac:(lia))).
  - exact (eq_trans (Hread 34%nat ltac:(lia)) (Htail 2%nat ltac:(lia))).
  - exact (eq_trans (Hread 35%nat ltac:(lia)) (Htail 3%nat ltac:(lia))).
Qed.

Lemma user_context_ok entry stack : is_u64 entry -> is_u64 stack -> context_ok (UserContext_new entry stack).
Proof.
  intros He Hs. assert (is_u64 0) as H0 by (split; done). assert (is_u64 INITIAL_USER_STATUS) as Hi by (vm_compute; split; congruence).
  split; [done|]. unfold UserContext_new, VirtAddr.as_usize. cbn -[INITIAL_USER_STATUS is_u64].
  repeat (apply list.Forall_cons; split; [done|]). constructor.
Qed.

(** Every register but the stack pointer starts at zero. *)
Lemma user_context_register entry stack r :
  0 <= r < 32 -> r <> sp -> register (UserContext_new entry stack) (Z.to_nat r) = 0.
Proof.
  intros Hr Hne. unfold register, UserContext_new. cbn [registers].
  rewrite nth_lookup, list_lookup_insert_ne by (change sp with 2 in Hne; lia).
  destruct (replicate 32 0 !! Z.to_nat r) as [v|] eqn:E; [|done]. by apply lookup_replicate_1 in E as [-> _].
Qed.

(** ** The transfer *)

Section entry.
Context (global_pointer : Z).

Lemma enter_user_spec f top h :
  context_ok f -> frame_size <= top < 2 ^ 64 -> Z.testbit (status f) 8 = false ->
  exists h', enter_user global_pointer f top h = Some (Returned, h') /\
    (forall r, 0 < r < 32 -> reg h' r = register f (Z.to_nat r)) /\ reg h' 0 = 0 /\
    pc h' = epc f /\ user h' = true /\ csrs h' Sscratch = top /\
    csrs h' Sstatus = returned_status (clear_bits (status f) 2) /\
    (forall c, c <> Sepc -> c <> Sstatus -> c <> Sscratch -> csrs h' c = csrs h c) /\
    (forall x, x < top - frame_size \/ top <= x -> data h' x = data h x).
Proof.
  intros Hf Htop H8. unfold frame_size in *. change (8 * 32 + 4 * 8) with 288 in *.
  set (base := top - 288). assert (wrap (VirtAddr.as_usize top - 288) = base) as Hbase by (apply wrap_id; unfold base, VirtAddr.as_usize; lia).
  unfold enter_user, frame_size. change (8 * 32 + 4 * 8) with 288. rewrite Hbase.
  set (h1 := exec_all [Csrci Sstatus 2; Fence_i; Mv sp t0] (exec (La t0 base) (set_data h (write_frame (data h) base f)))).
  assert (reg h1 sp = base) as Hsp by (unfold h1; cbn; apply wrap_id || done).
  assert (data h1 = write_frame (data h) base f) as Hd by done.
  destruct (trap_restore_spec global_pointer h1) as (h' & Hr & Rr & Rp & Ru & Rd & Rs & Rst & Rc); [rewrite Hsp; unfold base; lia..|].
  rewrite Hsp, Hd, read_write_frame in Rr, Rp, Ru, Rs, Rst by done.
  exists h'. split; [exact Hr|]. split.
  { intros r Hr0. rewrite Rr by lia. by rewrite (proj2 (Z.eqb_neq r 0)) by lia. }
  split; [by rewrite Rr by lia|]. split; [exact Rp|]. split; [by rewrite Ru, H8|].
  split; [rewrite Rs, H8; unfold base; lia|]. split; [exact Rst|]. split.
  - intros c H1 H2 H3. rewrite Rc by done. unfold h1. cbn. by rewrite ?decide_False by done.
  - intros x Hx. rewrite Rd, Hd. unfold write_frame. apply write_words_outside. unfold base, zlen.
    rewrite length_app, (co_registers _ Hf). cbn [length]. lia.
Qed.

End entry.
