(* ===== verification/KProbe.v ===== *)
(** * The probe of the time counter ([kernel/src/arch/riscv64/time.rs])

    The assembly that reads the counter once, with the trap a denied read takes
    through the kernel's own handler, and [init], which records the result. *)

From Stdlib Require Import ZArith Lia Bool.
From Stdlib Require Import Strings.Byte Strings.String.
From stdpp Require Import base list numbers.
From S2P Require Import Prelude FdtScan KMemory KMachine KAsm KTimer KConsole KLogging KSyscall KTrap KTrapProofs KTrapSteps.
Local Open Scope Z_scope.

Section probe.
Context {W : Type} `{Environment W} `{Build}.
Context (probe_time_read probe_time_unavailable global_pointer : Z).

(** [rdtime] writes what the counter holds, [time], when it completes. *)
Definition probe_blocks (time : Z) : list block := [
  ("__probe_time"%string, [Csrrci t1 Sstatus 2], Fall);
  ("__probe_time_read"%string,
    [La a1 time;
     Li a0 1], J ".Lrestore_and_return");
  ("__probe_time_unavailable"%string, [Li a0 0], Fall);
  (".Lrestore_and_return"%string, [Csrw Sstatus t1], Ret)
].

(** The labels control can resume at. *)
Definition label_at (address : Z) : option string :=
  if address =? probe_time_read then Some "__probe_time_read"%string
  else if address =? probe_time_unavailable then Some "__probe_time_unavailable"%string
  else None.

(** The hart about to read the counter. *)
Definition at_read (h : hart) : hart :=
  let h := exec_all [Csrrci t1 Sstatus 2] h in
  mkHart (regs h) (data h) (csrs h) probe_time_read (user h).

(** The routine to its return, and from the label at [pc] after a trap. *)
Definition complete (time : Z) (h : hart) : option (exit * hart) :=
  run_at 3 (probe_blocks time) "__probe_time" h.

Definition recover (h : hart) : option (exit * hart) :=
  match label_at (pc h) with Some label => run_at 2 (probe_blocks 0) label h | None => None end.

(** A denied read is an illegal instruction. *)
Definition read_trap (value : Z) : hart * kernel W -> hart * kernel W -> Prop :=
  trap probe_time_read probe_time_unavailable global_pointer ILLEGAL_INSTRUCTION value.

(** One call: the read completes, or the trap it takes resumes at the label
    the handler chose. *)
Definition granted (h : hart) (k : kernel W) (h' : hart) (k' : kernel W) : Prop :=
  counter_readable (world k) = true /\
  exists time w, rdtime (world k) = (time, w) /\ complete time h = Some (Returned, h') /\ k' = with_world k w.

Definition denied (h : hart) (k : kernel W) (h' : hart) (k' : kernel W) : Prop :=
  counter_readable (world k) = false /\
  exists value h2, is_u64 value /\ read_trap value (at_read h, k) (h2, k') /\ recover h2 = Some (Returned, h').

Definition probe_time (h : hart) (k : kernel W) (h' : hart) (k' : kernel W) : Prop :=
  granted h k h' k' \/ denied h k h' k'.

(** The result of the call, on the kernel's state. *)
Definition probe {E} : M (kernel W) E bool :=
  let* k := get in
  if counter_readable (world k) then
    let* _ := put (with_world k (snd (rdtime (world k)))) in
    ret true
  else ret false.

(** [init]: [compare_exchange], the probe, and the store of its result. *)
Definition time_init {E} : M (kernel W) E unit :=
  let* k := get in
  if negb (STATE k =? UNINITIALIZED) then ret tt
  else
    let* _ := put (with_STATE k UNAVAILABLE) in
    let* available := probe in
    if available : bool then
      let* k := get in
      put (with_STATE k AVAILABLE)
    else ret tt.

Lemma at_read_ready h : ready h -> user h = false -> is_u64 probe_time_read -> ready (at_read h).
Proof.
  intros [[Hr Hc] Hp Hst] Hu Hpr. rewrite Hu in Hst. unfold at_read. cbn [exec_all fold_left exec].
  change (clear_bits (csrs h Sstatus) 2) with (clear_bits (csrs h Sstatus) (2 ^ 1)). split; [split| |].
  - intros r. unfold reg. cbn [regs set_reg set_csr]. destruct (r =? 0) eqn:E; [by split|]. destruct (r =? t1); [apply Hc|].
    specialize (Hr r). unfold reg in Hr. rewrite E in Hr. exact Hr.
  - intros c. cbn [csrs set_reg set_csr]. case_decide; [|apply Hc]. apply clear_u64; [apply Hc|lia].
  - exact Hpr.
  - cbn [user set_reg set_csr]. rewrite Hu. exact Hst.
Qed.

Lemma complete_spec time h :
  exists h', complete time h = Some (Returned, h') /\
    reg h' a0 = 1 /\ csrs h' Sstatus = csrs h Sstatus /\ user h' = user h /\ data h' = data h /\
    (forall c, c <> Sstatus -> csrs h' c = csrs h c) /\
    (forall r, r <> a0 -> r <> a1 -> r <> t1 -> reg h' r = reg h r).
Proof.
  eexists. split; [reflexivity|]. split; [reflexivity|]. split; [reflexivity|]. split; [reflexivity|].
  split; [reflexivity|]. split.
  - intros c Hc. cbn. by rewrite !decide_False.
  - intros r H1 H2 H3. cbn [exec_all fold_left exec].
    change (reg (set_csr ?h Sstatus ?v) r) with (reg h r). by rewrite !reg_set_other.
Qed.

Lemma recover_spec h :
  pc h = probe_time_unavailable -> probe_time_read <> probe_time_unavailable ->
  exists h', recover h = Some (Returned, h') /\
    reg h' a0 = 0 /\ csrs h' Sstatus = reg h t1 /\ user h' = user h /\
    (forall c, c <> Sstatus -> csrs h' c = csrs h c) /\ (forall r, r <> a0 -> reg h' r = reg h r).
Proof.
  intros Hp Hne. unfold recover, label_at. rewrite Hp, Z.eqb_refl.
  rewrite (proj2 (Z.eqb_neq probe_time_unavailable probe_time_read)) by congruence.
  eexists. split; [reflexivity|]. split; [reflexivity|]. split; [reflexivity|]. split; [reflexivity|]. split.
  - intros c Hc. cbn. by rewrite !decide_False.
  - intros r Hr. cbn [exec_all fold_left exec].
    change (reg (set_csr ?h Sstatus ?v) r) with (reg h r). by rewrite reg_set_other.
Qed.

(** A denied read comes back to the recovery label with its registers. *)
Lemma read_trap_spec value h k h2 k' :
  ready h -> user h = false -> is_u64 probe_time_read -> is_u64 value ->
  read_trap value (at_read h, k) (h2, k') ->
  pc h2 = probe_time_unavailable /\ user h2 = false /\ csrs h2 Sscratch = csrs h Sscratch /\
  reg h2 t1 = csrs h Sstatus /\ (forall r, 0 <= r < 32 -> r <> t1 -> reg h2 r = reg h r) /\
  STATE k' = STATE k /\ INTERVAL k' = INTERVAL k /\ TICKS k' = TICKS k /\ world k' = world k.
Proof.
  intros Hr Hu Hp Hv Ht. pose proof (at_read_ready h Hr Hu Hp) as Hready.
  destruct (trap_resumes probe_time_read probe_time_unavailable global_pointer ILLEGAL_INSTRUCTION value (at_read h) k h2 k'
    Hready ltac:(vm_compute; by split) Hv Ht) as (hh & f & Hret & _ & Hregs & Hpc & Hus & Hss & _).
  pose proof (returned_frame probe_time_read probe_time_unavailable ILLEGAL_INSTRUCTION value (at_read h) hh k f k'
    Hready Hret) as [Hf Hcase].
  destruct Hcase as [[? _]|[(_ & _ & _ & He & Ha0 & _)|[? _]]]; [done| |done].
  split; [by rewrite Hpc|]. split; [by rewrite Hus|]. split; [by rewrite Hss|].
  assert (forall r, 0 <= r < 32 -> reg h2 r = reg (at_read h) r) as Hall.
  { intros r Hr0. rewrite Hregs by done. destruct (r =? 0) eqn:E; zbool; [by subst|].
    destruct (decide (r = a0)) as [->|Hne]; [exact Ha0|]. apply Hf; [lia|done]. }
  split; [rewrite Hall by done; reflexivity|].
  split.
  { intros r Hr0 Hne. rewrite Hall by done. unfold at_read. cbn [exec_all fold_left exec].
    by apply (reg_set_other (set_csr h Sstatus (clear_bits (csrs h Sstatus) 2)) t1 (csrs h Sstatus) r). }
  inversion Hret as [Hs Hc He'|w Hc Hi Ha|x k2 Hs Hc He' Hsys]; subst; [by split_and!|discriminate Hc|discriminate Hc].
Qed.

End probe.
