(* ===== verification/KBoot.v ===== *)
(** * The entry code ([kernel/src/arch/riscv64/boot.rs])

    The two stages of the bootstrap as blocks, in the order of the source.
    [_start] addresses physical memory; [__high_half_start] runs through the
    translation the first stage installs.  The addresses of symbols are
    parameters, as the linker fixes them. *)

From Stdlib Require Import ZArith Lia Bool.
From Stdlib Require Import Strings.Byte Strings.String.
From stdpp Require Import base list numbers.
From S2P Require Import Prelude KMemory KMachine KPaging KAsm.
Local Open Scope Z_scope.

(** The constants the assembly sets. *)
Module Asm.
Definition PAGE_SIZE : Z := 4096.
Definition PAGE_SHIFT : Z := 12.
Definition GIGAPAGE_SHIFT : Z := 30.
Definition PTE_BYTE_SHIFT : Z := 3.
Definition VPN2_MASK : Z := 0x1ff.
Definition PTE_VRWXAD : Z := 0xcf.
Definition SATP_MODE_SV39 : Z := 8.
Definition SATP_MODE_SHIFT : Z := 60.
End Asm.

Section assembly.
(** Physical addresses of [_start], [__boot_page_table] and
    [.Lhigh_half_start_address]. *)
Context (start boot_page_table high_half_start_address : Z).
(** Virtual addresses from the linker. *)
Context (global_pointer stack_end bss_start bss_end : Z).

Definition physical_blocks : list block := [
  ("_start"%string,
    [La t0 boot_page_table;
     Mv t1 t0;
     Li t2 Asm.PAGE_SIZE;
     Add t2 t0 t2], Fall);
  (".Lclear_boot_page_table"%string, [], Bgeu t1 t2 ".Lboot_page_table_cleared");
  (""%string,
    [Sd zero 0 t1;
     Addi t1 t1 8], J ".Lclear_boot_page_table");
  (".Lboot_page_table_cleared"%string,
    [La t5 high_half_start_address;
     Ld t6 0 t5;
     La t3 start;
     Srli t3 t3 Asm.GIGAPAGE_SHIFT;
     Slli t3 t3 Asm.GIGAPAGE_SHIFT;
     Srli t4 t3 2;
     Ori t4 t4 Asm.PTE_VRWXAD;
     Srli t5 t3 Asm.GIGAPAGE_SHIFT;
     Andi t5 t5 Asm.VPN2_MASK;
     Slli t5 t5 Asm.PTE_BYTE_SHIFT;
     Add t5 t0 t5;
     Sd t4 0 t5;
     Srli t5 t6 Asm.GIGAPAGE_SHIFT;
     Andi t5 t5 Asm.VPN2_MASK;
     Slli t5 t5 Asm.PTE_BYTE_SHIFT;
     Add t5 t0 t5;
     Sd t4 0 t5;
     Sfence_vma;
     Srli t1 t0 Asm.PAGE_SHIFT;
     Li t2 Asm.SATP_MODE_SV39;
     Slli t2 t2 Asm.SATP_MODE_SHIFT;
     Or t1 t1 t2;
     Csrw Satp t1;
     Sfence_vma], Jr t6)
].

Definition high_half_blocks : list block := [
  ("__high_half_start"%string,
    [La gp global_pointer;
     La sp stack_end;
     La t0 bss_start;
     La t1 bss_end], Fall);
  (".Lbss_loop"%string, [], Bgeu t0 t1 ".Lbss_done");
  (""%string,
    [Sd zero 0 t0;
     Addi t0 t0 8], J ".Lbss_loop");
  (".Lbss_done"%string, [], Tail "main")
].

(** Each stage with the number of blocks its loop needs: two per word, and
    the blocks around it. *)
Definition start_stage (h : hart) : option (exit * hart) :=
  run_at (2 * 512 + 3) physical_blocks "_start" h.

Definition high_half_stage (h : hart) : option (exit * hart) :=
  run_at (2 * Z.to_nat ((bss_end - bss_start) / 8) + 3) high_half_blocks "__high_half_start" h.

End assembly.

(** Between the stages: the machine whose tables the first stage activated, as
    its second fence left it, and the hart addressing memory through it. *)
Definition synchronised (h : hart) : machine :=
  mkMachine (data h) (csrs h Satp) (fun vp => translate (data h) (csrs h Satp) (vp * 4096)).

Definition through (h : hart) : hart :=
  set_data h (fun va => match resolve (synchronised h) false va with Some pa => data h pa | None => x00 end).
