(* ===== verification/KBootStages.v ===== *)
(** * The entry code ends, with the tables it means to build

    A clearing loop of one word per round ends after exactly its words.  The
    first stage leaves a root with two gigapage leaves and activates it; the
    second one an empty [.bss], the stack and the global pointer. *)

From Stdlib Require Import ZArith Lia Bool.
From Stdlib Require Import Strings.Byte Strings.String.
From stdpp Require Import base list numbers.
From S2P Require Import Prelude FdtScan KMemory KMachine KPaging KPte KTables KAsm KTrapProofs KWindow KKernelPaging KBootWindow KBoot.
Local Open Scope Z_scope.

(** ** Clearing loops *)

(** The hart after [n] words from [reg h rs] on are cleared. *)
Record cleared (rs : Z) (n : Z) (h h' : hart) : Prop := {
  cl_reg r : r <> rs -> reg h' r = reg h r;
  cl_cursor : reg h' rs = reg h rs + 8 * n;
  cl_data x : data h' x = fill (data h) (reg h rs) (8 * n) x00 x;
  cl_csrs : csrs h' = csrs h;
  cl_user : user h' = user h;
}.

Lemma cleared_refl rs h : cleared rs 0 h h.
Proof. split; try done; [lia|]. intros x. symmetry. apply fill_outside. lia. Qed.

Lemma write_zero m a x : write_word m a 0 x = fill m a 8 x00 x.
Proof.
  destruct (decide (a <= x < a + 8)) as [Hx|Hx]; [|by rewrite write_word_outside, fill_outside by lia].
  unfold write_word, write_bytes, fill. change (le_bytes 8 0) with (replicate 8 x00).
  change (zlen (replicate 8 x00)) with 8. case_match; [|done].
  destruct (nth_in_or_default (Z.to_nat (x - a)) (replicate 8 x00) x00) as [Hin| ->]; [|done].
  by apply list_elem_of_In, elem_of_replicate in Hin as [-> _].
Qed.

Lemma clear_round rs n h :
  0 < rs -> 0 <= n -> 0 <= reg h rs -> reg h rs + 8 * (n + 1) < 2 ^ 64 ->
  let h1 := exec_all [Sd zero 0 rs; Addi rs rs 8] h in
  reg h1 rs = reg h rs + 8 /\ (forall r, r <> rs -> reg h1 r = reg h r) /\
  forall h', cleared rs n h1 h' -> cleared rs (n + 1) h h'.
Proof.
  intros Hrs Hn H0 Hb h1. assert (reg h1 rs = reg h rs + 8) as Hc.
  { unfold h1. cbn [exec_all fold_left exec]. rewrite reg_set_same by lia.
    change (reg (set_data h _) rs) with (reg h rs). apply wrap_id. lia. }
  assert (forall r, r <> rs -> reg h1 r = reg h r) as Ho.
  { intros r Hr. unfold h1. cbn [exec_all fold_left exec]. rewrite reg_set_other by done. done. }
  split; [done|]. split; [done|]. intros h' [C1 C2 C3 C4 C5]. split.
  - intros r Hr. rewrite C1 by done. by apply Ho.
  - rewrite C2, Hc. lia.
  - intros x. rewrite C3, Hc. unfold h1. cbn [exec_all fold_left exec data set_reg set_data].
    rewrite Z.add_0_r, wrap_id by lia. change (reg h zero) with 0.
    destruct (decide (reg h rs + 8 <= x < reg h rs + 8 + 8 * n)) as [Hin|Hout].
    + unfold fill. by rewrite !(proj2 (Z.leb_le _ _)), !(proj2 (Z.ltb_lt _ _)) by lia.
    + rewrite fill_outside, write_zero by lia. destruct (decide (reg h rs <= x < reg h rs + 8)) as [Hin|Hout'].
      * unfold fill. by rewrite !(proj2 (Z.leb_le _ _)), !(proj2 (Z.ltb_lt _ _)) by lia.
      * by rewrite !fill_outside by lia.
  - by rewrite C4.
  - by rewrite C5.
Qed.

(** The loop: a test, and a body that jumps back to it. *)
Lemma clear_loop prog rest test label after rs re fuel n : forall h,
  blocks_from test prog = (test, [], Bgeu rs re after) :: (label, [Sd zero 0 rs; Addi rs rs 8], J test) :: rest ->
  0 < rs -> rs <> re -> 0 <= reg h rs -> reg h re = reg h rs + 8 * Z.of_nat n -> reg h re < 2 ^ 64 ->
  exists h', run (2 * n + S fuel) prog (blocks_from test prog) h = run fuel prog (blocks_from after prog) h' /\
    cleared rs (Z.of_nat n) h h'.
Proof.
  induction n as [|n IH]; intros h Hb Hrs Hne H0 He Hmax.
  - exists h. split; [|apply cleared_refl]. cbn [Nat.mul Nat.add]. rewrite Hb at 1. cbn [run exec_all fold_left].
    by rewrite (proj2 (Z.leb_le _ _)) by lia.
  - destruct (clear_round rs (Z.of_nat n) h Hrs ltac:(lia) H0 ltac:(lia)) as (Hc & Ho & Hcl).
    set (h1 := exec_all [Sd zero 0 rs; Addi rs rs 8] h) in *.
    destruct (IH h1 Hb Hrs Hne) as (h' & Hrun & Hh'); [lia|rewrite Ho, Hc by done; lia|rewrite Ho by done; lia|].
    exists h'. split; [|replace (Z.of_nat (S n)) with (Z.of_nat n + 1) by lia; by apply Hcl].
    replace (2 * S n + S fuel)%nat with (S (S (2 * n + S fuel))) by lia. rewrite <- Hrun. rewrite Hb at 1.
    cbn [run]. change (exec_all [] h) with h. by rewrite (proj2 (Z.leb_gt _ _)) by lia.
Qed.

(** A block that falls through. *)
Lemma run_fall fuel prog label body rest h :
  run (S fuel) prog ((label, body, Fall) :: rest) h = run fuel prog rest (exec_all body h).
Proof. reflexivity. Qed.

(** ** The physical stage *)

Section stages.
Context (start table literal : Z).

Abbreviation blocks := (physical_blocks start table literal).

(** What the code computes for the leaf, the two entries and [satp]. *)
Definition code_giga : Z := wrap (Z.shiftl (Z.shiftr start 30) 30).
Definition code_leaf : Z := Z.lor (Z.shiftr code_giga 2) (immediate 0xcf).
Definition code_slot (base a : Z) : Z :=
  wrap (wrap (base + wrap (Z.shiftl (Z.land (Z.shiftr a 30) (immediate 0x1ff)) 3)) + 0).
Definition code_satp (base : Z) : Z := Z.lor (Z.shiftr base 12) (wrap (Z.shiftl (immediate 8) 60)).

(** The last block, in closed form. *)
Lemma tables_block h :
  let high := read_word (data h) (wrap (literal + 0)) in
  exists h', run 1 blocks (blocks_from ".Lboot_page_table_cleared" blocks) h = Some (Jumped high, h') /\
    data h' = write_word (write_word (data h) (code_slot (reg h t0) code_giga) code_leaf)
                (code_slot (reg h t0) high) code_leaf /\
    csrs h' Satp = code_satp (reg h t0) /\ (forall c, c <> Satp -> csrs h' c = csrs h c) /\
    reg h' a0 = reg h a0 /\ reg h' a1 = reg h a1 /\ user h' = user h.
Proof.
  intros high. eexists. split; [reflexivity|]. split; [reflexivity|]. split; [reflexivity|].
  split; [|by split_and!]. intros c Hc. cbn. by rewrite decide_False.
Qed.

Context (Hstart : 0 <= start < 2 ^ 56) (Htable : representable table).

Lemma code_giga_eq : code_giga = giga start.
Proof.
  unfold code_giga, giga. rewrite Z.shiftl_mul_pow2, Z.shiftr_div_pow2 by done. apply wrap_id.
  Z.div_mod_to_equations. lia.
Qed.

Lemma code_leaf_eq : code_leaf = pte (giga start) IDENTITY_FLAGS.
Proof.
  unfold code_leaf. rewrite code_giga_eq. change (immediate 207) with IDENTITY_FLAGS.
  rewrite Z.shiftr_div_pow2 by done. destruct (giga_spec start) as (Hm & Hle & _).
  assert (giga start / 2 ^ 2 = giga start / FRAME_SIZE * 2 ^ 10) as ->.
  { unfold FRAME_SIZE. change (2 ^ 30) with (4096 * 262144) in *. change (2 ^ 2) with 4. change (2 ^ 10) with 1024.
    Z.div_mod_to_equations. lia. }
  unfold pte. rewrite <- Z.add_lor_land. assert (Z.land (giga start / FRAME_SIZE * 2 ^ 10) IDENTITY_FLAGS = 0) as ->; [|lia].
  apply Z.bits_inj'. intros n Hn. rewrite Z.land_spec, Z.bits_0. destruct (Z_lt_le_dec n 10) as [Hlt|Hge].
  - by rewrite Z.mul_pow2_bits_low.
  - change IDENTITY_FLAGS with (IDENTITY_FLAGS mod 2 ^ 10). rewrite (Z.mod_pow2_bits_high IDENTITY_FLAGS) by lia.
    apply andb_false_r.
Qed.

Lemma code_slot_eq a : 0 <= a < 2 ^ 64 -> code_slot table a = table + 8 * (a / 2 ^ 30 mod 512).
Proof.
  intros Ha. destruct Htable as [[H0 Hm] _]. rewrite max_physical in Hm. unfold code_slot.
  change (immediate 511) with (Z.ones 9). rewrite Z.land_ones, Z.shiftr_div_pow2, Z.shiftl_mul_pow2 by done.
  change (2 ^ 9) with 512. pose proof (Z.mod_pos_bound (a / 2 ^ 30) 512 ltac:(done)).
  rewrite (wrap_id (_ * 2 ^ 3)) by lia. rewrite (wrap_id (table + _)) by lia. rewrite Z.add_0_r, wrap_id by lia. lia.
Qed.

Lemma code_satp_eq : code_satp table = root_satp table.
Proof.
  unfold code_satp. change (wrap (Z.shiftl (immediate 8) 60)) with (8 * 2 ^ 60). rewrite Z.lor_comm.
  rewrite Z.shiftr_div_pow2 by done. change (2 ^ 12) with FRAME_SIZE. apply root_satp_lor. exact Htable.
Qed.

(** The entries of the finished root. *)
Definition boot_entry (high i : Z) : Z :=
  if (i =? start / 2 ^ 30 mod 512) || (i =? high / 2 ^ 30 mod 512) then pte (giga start) IDENTITY_FLAGS else 0.

Lemma start_stage_spec h high :
  read_word (data h) literal = high -> 0 <= literal < 2 ^ 64 ->
  (literal + 8 <= table \/ table + FRAME_SIZE <= literal) ->
  exists h', start_stage start table literal h = Some (Jumped high, h') /\
    csrs h' Satp = root_satp table /\ (forall c, c <> Satp -> csrs h' c = csrs h c) /\
    reg h' a0 = reg h a0 /\ reg h' a1 = reg h a1 /\ user h' = user h /\
    (forall i, 0 <= i < 512 -> entry (data h') table i = boot_entry high i) /\
    (forall x, ~ (table <= x < table + FRAME_SIZE) -> data h' x = data h x).
Proof.
  intros Hlit Hl Hout. pose proof Htable as [[T0 Tm] _]. rewrite max_physical in Tm.
  pose proof (read_word_range (data h) literal) as Hhigh. rewrite Hlit in Hhigh. unfold is_u64, u64_max in Hhigh.
  set (h1 := exec_all [La t0 table; Mv t1 t0; Li t2 Asm.PAGE_SIZE; Add t2 t0 t2] h).
  assert (reg h1 t0 = table /\ reg h1 t1 = table /\ reg h1 t2 = table + 8 * Z.of_nat 512) as (R0 & R1 & R2).
  { split; [reflexivity|]. split; [reflexivity|]. transitivity (wrap (table + 4096)); [reflexivity|].
    rewrite wrap_id by lia. lia. }
  destruct (clear_loop blocks (skipn 3 blocks) ".Lclear_boot_page_table" "" ".Lboot_page_table_cleared" t1 t2 1 512 h1)
    as (h2 & Hrun & [C1 C2 C3 C4 C5]);
    [reflexivity|reflexivity|discriminate|rewrite R1; exact T0|rewrite R1; exact R2|rewrite R2; clear -Tm; lia|].
  destruct (tables_block h2) as (h' & Hlast & Hd & Hs & Hcs & Ha0 & Ha1 & Hu).
  assert (forall x, data h2 x = fill (data h) table FRAME_SIZE x00 x) as Hd2 by (intros x; rewrite C3, R1; reflexivity).
  assert (read_word (data h2) (wrap (literal + 0)) = high) as Hr.
  { rewrite Z.add_0_r, wrap_id by done. rewrite <- Hlit. apply read_word_ext. intros x Hx. rewrite Hd2.
    apply fill_outside. lia. }
  rewrite Hr in *. rewrite (C1 t0), R0 in * by done.
  exists h'. split.
  { unfold start_stage, run_at. replace (2 * 512 + 3)%nat with (S (2 * 512 + 2)) by lia.
    rewrite <- Hlast, <- Hrun. apply run_fall. }
  split; [rewrite Hs; apply code_satp_eq|]. split; [intros c Hc; rewrite Hcs, C4 by done; reflexivity|].
  split; [rewrite Ha0, C1 by done; reflexivity|]. split; [rewrite Ha1, C1 by done; reflexivity|].
  split; [by rewrite Hu, C5|]. rewrite Hd, code_leaf_eq, !code_slot_eq by (rewrite ?code_giga_eq; unfold giga; Z.div_mod_to_equations; lia).
  rewrite code_giga_eq. assert (giga start / 2 ^ 30 = start / 2 ^ 30) as -> by (unfold giga; by rewrite Z_div_mult).
  pose proof (Z.mod_pos_bound (start / 2 ^ 30) 512 ltac:(done)) as B1.
  pose proof (Z.mod_pos_bound (high / 2 ^ 30) 512 ltac:(done)) as B2.
  assert (is_u64 (pte (giga start) IDENTITY_FLAGS)) as Hp.
  { apply pte_u64; [apply giga_representable; rewrite max_physical; lia|unfold IDENTITY_FLAGS; lia]. }
  split.
  - intros i Hi. rewrite !entry_write by (done || lia). unfold boot_entry.
    rewrite (entry_ext _ _ _ _ Hd2), entry_fill, (bool_decide_eq_true_2 (table = table)) by done.
    destruct (i =? start / 2 ^ 30 mod 512) eqn:E1, (i =? high / 2 ^ 30 mod 512) eqn:E2; zbool; cbn [orb];
      repeat case_bool_decide; congruence.
  - intros x Hx. rewrite !write_word_outside, Hd2 by (unfold FRAME_SIZE in *; lia). apply fill_outside. lia.
Qed.

End stages.

(** ** The higher-half stage *)

Lemma high_half_stage_spec global_pointer stack_end bss_start bss_end n h :
  bss_end = bss_start + 8 * Z.of_nat n -> 0 <= bss_start -> bss_end < 2 ^ 64 ->
  exists h', high_half_stage global_pointer stack_end bss_start bss_end h = Some (Called "main", h') /\
    reg h' gp = global_pointer /\ reg h' sp = stack_end /\ reg h' a0 = reg h a0 /\ reg h' a1 = reg h a1 /\
    (forall x, data h' x = fill (data h) bss_start (bss_end - bss_start) x00 x) /\
    csrs h' = csrs h /\ user h' = user h.
Proof.
  intros He H0 Hm. set (blocks := high_half_blocks global_pointer stack_end bss_start bss_end).
  set (h1 := exec_all [La gp global_pointer; La sp stack_end; La t0 bss_start; La t1 bss_end] h).
  destruct (clear_loop blocks (skipn 3 blocks) ".Lbss_loop" "" ".Lbss_done" t0 t1 1 n h1)
    as (h2 & Hrun & [C1 C2 C3 C4 C5]);
    [reflexivity|reflexivity|discriminate|exact H0|exact He|exact Hm|].
  exists h2. split.
  { unfold high_half_stage, run_at. fold blocks. replace ((bss_end - bss_start) / 8) with (Z.of_nat n).
    - rewrite Nat2Z.id. replace (2 * n + 3)%nat with (S (2 * n + 2)) by lia.
      transitivity (run 1 blocks (blocks_from ".Lbss_done" blocks) h2); [|reflexivity].
      rewrite <- Hrun. apply run_fall.
    - rewrite He. replace (_ - _) with (Z.of_nat n * 8) by lia. by rewrite Z_div_mult. }
  rewrite !C1 by done. split_and!; try reflexivity; [|exact C4|exact C5].
  intros x. rewrite C3. change (reg h1 t0) with bss_start. replace (bss_end - bss_start) with (8 * Z.of_nat n) by lia.
  reflexivity.
Qed.
