(* ===== verification/KBootProperties.v ===== *)
(** * What the entry code and the devicetree window guarantee

    The two assembly stages reach [main] with tables that translate exactly the
    kernel's gigapage, and [BootstrapPaging::map_fdt] opens exactly the window
    onto the devicetree in them. *)

From Stdlib Require Import ZArith Lia Bool.
From Stdlib Require Import Strings.Byte Strings.String.
From stdpp Require Import base list numbers.
From S2P Require Import Prelude FdtScan KMemory KMachine KPaging KPte KTables KFrameWindow KKernelPaging KWindow KBootWindow.
From S2P Require Import KAsm KBoot KBootStages KBootFdt.
Local Open Scope Z_scope.

(** ** The linked image *)

(** The symbols the linker fixes. *)
Record symbols := mkSymbols {
  start : Z; boot_page_table : Z; high_half_start_address : Z;
  high_half_start : Z; global_pointer : Z; stack_end : Z; bss_start : Z; bss_end : Z;
}.

Definition KERNEL_HIGH_BASE : Z := 0xffffffff80000000.

(** Where an address of the image is loaded. *)
Definition load_address (s : symbols) (va : Z) : Z := giga (start s) + va mod 2 ^ 30.

(** What the linker script asserts and lays out: the image in one physical
    gigapage below the low half's end and in the gigapage of the higher half's
    kernel base, the table a page of its own, [.bss] whole words. *)
Record linked (s : symbols) : Prop := {
  k_start : 0 <= start s < 2 ^ 38;
  k_table : representable (boot_page_table s) /\ giga (boot_page_table s) = giga (start s);
  k_literal : 0 <= high_half_start_address s < 2 ^ 64 /\
    (high_half_start_address s + 8 <= boot_page_table s \/
     boot_page_table s + FRAME_SIZE <= high_half_start_address s);
  k_high : KERNEL_HIGH_BASE <= high_half_start s < KERNEL_HIGH_BASE + 2 ^ 30;
  k_bss : KERNEL_HIGH_BASE <= bss_start s <= bss_end s /\ bss_end s < KERNEL_HIGH_BASE + 2 ^ 30 /\
    (bss_end s - bss_start s) mod 8 = 0;
  k_bss_table : load_address s (bss_end s) <= boot_page_table s \/
    boot_page_table s + FRAME_SIZE <= load_address s (bss_start s);
}.

(** The physical memory once [.bss] is cleared in what the first stage left. *)
Definition cleared_bss (s : symbols) (mm : memory) : memory :=
  fill mm (load_address s (bss_start s)) (bss_end s - bss_start s) x00.

(** The only translations of the boot tables. *)
Definition boot_leaf (s : symbols) (va : Z) : option leaf :=
  if canonical va && ((va / 2 ^ 30 =? start s / 2 ^ 30) || (va / 2 ^ 30 =? KERNEL_HIGH_BASE / 2 ^ 30))
  then Some (mkLeaf (load_address s va / FRAME_SIZE) true true true false)
  else None.

(** An invalid entry ends the walk. *)
Lemma walk_absent mm level table vpn :
  entry mm table (vpn / 512 ^ Z.of_nat level mod 512) = 0 -> walk mm level table vpn = None.
Proof. unfold entry. intros He. destruct level; cbn [walk]; rewrite He; done. Qed.

Section image.
Context (s : symbols) (L : linked s).

Abbreviation table := (boot_page_table s).

Lemma table_low : 0 <= table < 2 ^ 38.
Proof.
  destruct L as [Hs [_ Hg] _ _ _ _]. unfold giga in Hg. change (2 ^ 38) with (256 * 2 ^ 30) in *.
  change (2 ^ 30) with 1073741824 in *. Z.div_mod_to_equations. lia.
Qed.

(** Tables with the entries of the first stage translate exactly that. *)
Lemma boot_tables_translate mm va :
  (forall i, 0 <= i < 512 -> entry mm table i = boot_entry (start s) (high_half_start s) i) -> is_usize va ->
  translate mm (root_satp table) va = boot_leaf s va.
Proof.
  intros He Hva. destruct L as [Hs [Ht Hg] _ Hh _ _]. unfold boot_leaf, KERNEL_HIGH_BASE in *.
  destruct (canonical va) eqn:Hc; cbn [andb]; [|unfold translate; by rewrite Hc].
  pose proof (Z.mod_pos_bound (va / 2 ^ 30) 512 ltac:(done)) as Hi.
  assert (entry mm table (va / 2 ^ 30 mod 512) =
    if (va / 2 ^ 30 =? start s / 2 ^ 30) || (va / 2 ^ 30 =? 0xffffffff80000000 / 2 ^ 30)
    then pte (giga (start s)) IDENTITY_FLAGS else 0) as Hent.
  { rewrite He by done. unfold boot_entry.
    assert ((va / 2 ^ 30 mod 512 =? start s / 2 ^ 30 mod 512) = (va / 2 ^ 30 =? start s / 2 ^ 30)) as ->.
    { unfold canonical, is_usize, usize_max in *. apply eq_true_iff_eq. rewrite !Z.eqb_eq. Z.div_mod_to_equations. lia. }
    assert ((va / 2 ^ 30 mod 512 =? high_half_start s / 2 ^ 30 mod 512) = (va / 2 ^ 30 =? 0xffffffff80000000 / 2 ^ 30)) as ->.
    { unfold canonical, is_usize, usize_max in *. apply eq_true_iff_eq. rewrite !Z.eqb_eq. Z.div_mod_to_equations. lia. }
    done. }
  destruct (_ || _) eqn:Hin.
  - rewrite (translate_giga _ _ _ _ _ Ht Hent); try done.
    + apply giga_representable. rewrite max_physical. lia.
    + apply giga_spec.
    + apply Hva.
  - unfold translate. rewrite Hc. destruct (root_satp_fields table Ht) as [-> ->]. cbn [andb Z.eqb Pos.eqb].
    apply walk_absent. rewrite <- Hent. f_equal.
    change (512 ^ Z.of_nat 2) with 262144. change (2 ^ 27) with 134217728. change (2 ^ 30) with 1073741824.
    Z.div_mod_to_equations. lia.
Qed.

(** The boot tables are what the bootstrap capability expects. *)
Lemma boot_tables_inv mm tl :
  (forall i, 0 <= i < 512 -> entry mm table i = boot_entry (start s) (high_half_start s) i) ->
  (forall vp, tl vp = translate mm (root_satp table) (vp * 4096)) ->
  boot_inv table (BootstrapPaging.mk table) (mkMachine mm (root_satp table) tl).
Proof.
  intros He Htl. pose proof table_low as Hlow. destruct L as [Hs [Ht Hg] _ Hh _ _]. unfold KERNEL_HIGH_BASE in Hh.
  assert (table / 2 ^ 30 = start s / 2 ^ 30) as Hi by (unfold giga in Hg; Z.div_mod_to_equations; lia).
  assert (0 <= table / 2 ^ 30 < 256) by (change (2 ^ 38) with (256 * 2 ^ 30) in Hlow; Z.div_mod_to_equations; lia).
  split; [split|]; cbn [mem KMachine.satp tlb]; try done; [lia|..].
  - rewrite He by lia. unfold boot_entry. rewrite <- Hi, Z.mod_small, Z.eqb_refl by lia. cbn [orb]. by rewrite Hg.
  - rewrite Htl, boot_tables_translate; [|done|unfold is_usize, usize_max; Z.div_mod_to_equations; lia].
    unfold boot_leaf. destruct Ht as [_ Hal]. unfold FRAME_SIZE in Hal.
    replace (table / 4096 * 4096) with table by (Z.div_mod_to_equations; lia).
    rewrite <- Hi, Z.eqb_refl. replace (canonical table) with true by (unfold canonical; lia). cbn [andb orb].
    unfold load_address. rewrite <- Hg. by replace (giga table + table mod 2 ^ 30) with table by (unfold giga; Z.div_mod_to_equations; lia).
  - rewrite He by done. unfold boot_entry. change BOOT_FRAME_WINDOW_VPN2 with 511. rewrite <- Hi, Z.mod_small by lia.
    replace (511 =? table / 2 ^ 30) with false by lia.
    replace (high_half_start s / 2 ^ 30 mod 512) with 510; [done|].
    change (2 ^ 30) with 1073741824 in *. Z.div_mod_to_equations. lia.
Qed.

Lemma load_range va : KERNEL_HIGH_BASE <= va < KERNEL_HIGH_BASE + 2 ^ 30 ->
  load_address s va = giga (start s) + (va - KERNEL_HIGH_BASE) /\ 0 <= load_address s va < 2 ^ 38.
Proof.
  intros Hva. destruct L as [Hs _ _ _ _ _]. unfold load_address, giga, KERNEL_HIGH_BASE in *.
  change (2 ^ 38) with (256 * 2 ^ 30) in *. change (2 ^ 30) with 1073741824 in *. Z.div_mod_to_equations. lia.
Qed.

(** What the second stage addresses in the kernel's gigapage. *)
Lemma through_load h va :
  csrs h Satp = root_satp table ->
  (forall i, 0 <= i < 512 -> entry (data h) table i = boot_entry (start s) (high_half_start s) i) ->
  KERNEL_HIGH_BASE <= va < KERNEL_HIGH_BASE + 2 ^ 30 ->
  data (through h) va = data h (load_address s va).
Proof.
  intros Hs He Hva. destruct (load_range va Hva) as [Hl Hr]. unfold KERNEL_HIGH_BASE in *.
  assert (forall x, 0 <= x -> 0xffffffff80000000 <= x < 0xffffffff80000000 + 2 ^ 30 ->
    translate (data h) (root_satp table) x = Some (mkLeaf (load_address s x / FRAME_SIZE) true true true false)) as Ht.
  { intros x H0 Hx. rewrite boot_tables_translate; [|done|unfold is_usize, usize_max; lia]. unfold boot_leaf, canonical, KERNEL_HIGH_BASE.
    replace (x / 2 ^ 30 =? 0xffffffff80000000 / 2 ^ 30) with true
      by (symmetry; apply Z.eqb_eq; change (2 ^ 30) with 1073741824 in *; Z.div_mod_to_equations; lia).
    replace ((x <? 2 ^ 38) || (2 ^ 64 - 2 ^ 38 <=? x)) with true by lia. by rewrite orb_true_r. }
  unfold through. cbn [data set_data].
  rewrite (resolve_synced _ false va (mkLeaf (load_address s va / FRAME_SIZE) true true true false)); cbn [synchronised mem KMachine.satp tlb];
    rewrite ?Hs; try done.
  - cbn [l_ppn]. f_equal. unfold FRAME_SIZE, load_address, giga. change (2 ^ 30) with (4096 * 262144). Z.div_mod_to_equations. lia.
  - apply Ht; lia.
  - rewrite Ht by (change (2 ^ 30) with 1073741824 in *; Z.div_mod_to_equations; lia). do 2 f_equal.
    unfold FRAME_SIZE, load_address, giga. change (2 ^ 30) with (4096 * 262144). Z.div_mod_to_equations. lia.
Qed.

End image.

(** C8: on an image laid out by the linker script the entry code ends, and it
    ends at [main]: the first stage jumps to the higher half with its own table
    active, the second one, which addresses memory through that table, clears
    exactly [.bss], and sets the stack and the global pointer.  The hart id and
    the devicetree's address arrive unchanged.  The tables translate exactly
    the image's gigapage, where it was loaded and at the kernel's base, claiming
    the bootstrap capability yields their root in the capability's invariant,
    and no byte outside the table and [.bss] changed. *)
Theorem boot_reaches_main s h :
  linked s -> read_word (data h) (high_half_start_address s) = high_half_start s ->
  exists h1 h2,
    start_stage (start s) (boot_page_table s) (high_half_start_address s) h = Some (Jumped (high_half_start s), h1) /\
    high_half_stage (global_pointer s) (stack_end s) (bss_start s) (bss_end s) (through h1) = Some (Called "main", h2) /\
    reg h2 a0 = reg h a0 /\ reg h2 a1 = reg h a1 /\ reg h2 sp = stack_end s /\ reg h2 gp = global_pointer s /\
    user h2 = user h /\ (forall c, c <> Satp -> csrs h2 c = csrs h c) /\
    let m := synchronised (set_data h2 (cleared_bss s (data h1))) in
    (forall va, KERNEL_HIGH_BASE <= va < KERNEL_HIGH_BASE + 2 ^ 30 -> data h2 va = mem m (load_address s va)) /\
    (forall va, is_usize va -> translate (mem m) (satp m) va = boot_leaf s va) /\
    BootstrapPaging.claim (false, m) = (Ok (BootstrapPaging.mk (boot_page_table s)), (true, m)) /\
    boot_inv (boot_page_table s) (BootstrapPaging.mk (boot_page_table s)) m /\
    (forall x, ~ (boot_page_table s <= x < boot_page_table s + FRAME_SIZE) ->
       mem m x = cleared_bss s (data h) x).
Proof.
  intros L Hlit. pose proof (k_table s L) as [Ht _]. pose proof (k_start s L) as Hstart.
  destruct (start_stage_spec (start s) (boot_page_table s) (high_half_start_address s) ltac:(lia) Ht h _ Hlit)
    as (h1 & Hrun1 & Hs1 & Hc1 & Ha0 & Ha1 & Hu1 & He1 & Hd1); [apply (k_literal s L)..|].
  pose proof (k_bss s L) as (Hb1 & Hb2 & Hb3). pose proof (k_bss_table s L) as Hout.
  assert (bss_end s = bss_start s + 8 * Z.of_nat (Z.to_nat ((bss_end s - bss_start s) / 8))) as Hn
    by (Z.div_mod_to_equations; lia).
  unfold KERNEL_HIGH_BASE in Hb1, Hb2.
  destruct (high_half_stage_spec (global_pointer s) (stack_end s) (bss_start s) (bss_end s) _ (through h1) Hn)
    as (h2 & Hrun2 & Hgp & Hsp & Ha0' & Ha1' & Hd2 & Hcs & Hu2); [lia..|].
  destruct (load_range s L (bss_start s)) as [Hl1 _]; [unfold KERNEL_HIGH_BASE; lia|].
  assert (forall x, ~ (load_address s (bss_start s) <= x < load_address s (bss_end s)) -> cleared_bss s (data h1) x = data h1 x) as Hkeep.
  { destruct (load_range s L (bss_end s)) as [Hl2 _]; [unfold KERNEL_HIGH_BASE; lia|].
    intros x Hx. apply fill_outside. lia. }
  assert (forall i, 0 <= i < 512 -> entry (cleared_bss s (data h1)) (boot_page_table s) i = boot_entry (start s) (high_half_start s) i) as He.
  { intros i Hi. rewrite <- He1 by done. apply read_word_ext. intros x Hx. apply Hkeep. unfold FRAME_SIZE in Hout. lia. }
  assert (csrs h2 Satp = root_satp (boot_page_table s)) as Hsat by (rewrite Hcs; exact Hs1).
  exists h1, h2. split; [exact Hrun1|]. split; [exact Hrun2|]. rewrite Ha0', Ha1', Hu2.
  split; [exact Ha0|]. split; [exact Ha1|]. split; [exact Hsp|]. split; [exact Hgp|]. split; [exact Hu1|].
  split; [intros c Hc; rewrite Hcs; by apply Hc1|]. cbn zeta. cbn [synchronised mem KMachine.satp set_data data csrs].
  split; [|split; [|split; [|split]]].
  - intros va Hva. rewrite Hd2. destruct (load_range s L va Hva) as [Hl _]. unfold cleared_bss, fill.
    rewrite (through_load s L h1) by done. rewrite Hl, Hl1.
    replace (giga (start s) + (bss_start s - KERNEL_HIGH_BASE) <=? giga (start s) + (va - KERNEL_HIGH_BASE))
      with (bss_start s <=? va) by lia.
    by replace (giga (start s) + (va - KERNEL_HIGH_BASE) <? giga (start s) + (bss_start s - KERNEL_HIGH_BASE) + (bss_end s - bss_start s))
      with (va <? bss_start s + (bss_end s - bss_start s)) by lia.
  - intros va Hva. rewrite Hsat. by apply boot_tables_translate.
  - destruct (root_satp_fields _ Ht) as [F1 F2]. rewrite bootstrap_claim_spec; cbn [synchronised mem KMachine.satp set_data data csrs]; rewrite Hsat.
    + rewrite F1, F2. reflexivity.
    + pose proof (representable_ppn _ Ht). unfold root_satp, is_u64, u64_max. lia.
  - unfold synchronised. cbn [data csrs set_data]. rewrite Hsat. by apply boot_tables_inv.
  - intros x Hx. unfold cleared_bss. apply fill_same_ext. by apply Hd1.
Qed.

(** ** A sample image *)

Definition sample_symbols : symbols :=
  mkSymbols 0x80200000 0x80201000 0x80200100 0xffffffff80202000 0xffffffff80205800 0xffffffff8020c000
    0xffffffff80206000 0xffffffff80207010.

(** The literal is loaded; everything else is what firmware left. *)
Definition sample_boot_hart : hart :=
  mkHart (fun r => if r =? a1 then 0x82200000 else 7)
    (write_word (fun x => x5a) (high_half_start_address sample_symbols) (high_half_start sample_symbols))
    (fun _ => 0) (start sample_symbols) false.

Lemma sample_linked : linked sample_symbols.
Proof.
  split; unfold representable.
  - vm_compute. by split.
  - repeat split; vm_compute; congruence.
  - split; [|left]; repeat split; vm_compute; congruence.
  - vm_compute. by split.
  - repeat split; vm_compute; congruence.
  - right. vm_compute. congruence.
Qed.

Lemma boot_reaches_main_witness :
  read_word (data sample_boot_hart) (high_half_start_address sample_symbols) = high_half_start sample_symbols /\
  exists h1 h2,
    start_stage 0x80200000 0x80201000 0x80200100 sample_boot_hart = Some (Jumped 0xffffffff80202000, h1) /\
    high_half_stage 0xffffffff80205800 0xffffffff8020c000 0xffffffff80206000 0xffffffff80207010 (through h1)
      = Some (Called "main", h2) /\
    reg h2 a1 = 0x82200000 /\ reg h2 sp = 0xffffffff8020c000.
Proof.
  assert (read_word (data sample_boot_hart) (high_half_start_address sample_symbols) = high_half_start sample_symbols) as Hlit
    by (apply read_write_same; vm_compute; split; congruence).
  split; [exact Hlit|].
  destruct (boot_reaches_main sample_symbols sample_boot_hart sample_linked Hlit)
    as (h1 & h2 & H1 & H2 & _ & Ha1 & Hsp & _).
  exists h1, h2. split; [exact H1|]. split; [exact H2|]. split; [exact Ha1|exact Hsp].
Defined.

(** ** The devicetree window *)

(** C24: on a controlled root, [BootstrapPaging::map_fdt] returns the alias of
    the devicetree in a window through which the hart reads every byte of the
    4 GiB from it on and can write none, having changed nothing but the five
    entries of the window; the capability stays in its invariant.  Otherwise it
    changes nothing and reports the address or the first gigapage that physical
    addresses cannot represent, or the first entry of the window in use. *)
Theorem map_fdt_exactly root a m dtb :
  boot_inv root a m -> is_usize dtb ->
  exists o m', BootstrapPaging.map_fdt a dtb m = (o, m') /\
  match o with
  | Ok va => va = BOOT_FDT_WINDOW_BASE + dtb mod 2 ^ 30 /\
      (forall x, 0 <= x < 2 ^ 32 -> resolve m' false (va + x) = Some (dtb + x) /\ resolve m' true (va + x) = None) /\
      (forall j, 0 <= j < 5 -> window_free (mem m) root (giga dtb) j) /\
      boot_inv root a m' /\ satp m' = satp m /\
      (forall x, ~ (root + 8 * 256 <= x < root + 8 * 261) -> mem m' x = mem m x)
  | Err e => m' = m /\
      (MAX_PHYSICAL_ADDRESS < dtb /\ e = PhysicalAddressNotRepresentable dtb \/
       dtb <= MAX_PHYSICAL_ADDRESS /\ exists j, 0 <= j < 5 /\ window_error (mem m) root (giga dtb) j e /\
         forall j', 0 <= j' < j -> window_free (mem m) root (giga dtb) j')
  | _ => False
  end.
Proof.
  intros Hi Hd. destruct (map_fdt_spec root a m dtb Hi Hd) as (o & m' & Hm & Ho). exists o, m'. split; [exact Hm|].
  destruct o as [va|e| |]; try done. destruct Ho as (-> & Hi' & Hs & Hf & Hw & Hmem & _).
  split; [done|]. split; [|by split_and!]. intros x Hx. apply fdt_window_resolve; [done|apply Hd|done].
Qed.

Definition sample_fdt_machine : machine :=
  mkMachine (fold_left (fun m e => write_word m (0x80201000 + 8 * fst e) (snd e))
      [(2, pte 0x80000000 IDENTITY_FLAGS); (510, pte 0x80000000 IDENTITY_FLAGS)] (fun _ => x00))
    (root_satp 0x80201000)
    (fun vp => if vp =? 0x80201 then Some (identity_leaf 0x80201000) else None).

Lemma map_fdt_exactly_witness :
  exists m', BootstrapPaging.map_fdt (BootstrapPaging.mk 0x80201000) 0x82200000 sample_fdt_machine =
      (Ok 0xffffffc002200000, m') /\
    resolve m' false 0xffffffc002200000 = Some 0x82200000 /\ resolve m' true 0xffffffc002200000 = None.
Proof.
  destruct (map_fdt_exactly 0x80201000 (BootstrapPaging.mk 0x80201000) sample_fdt_machine 0x82200000)
    as (o & m' & Hm & Ho).
  - repeat split; vm_compute; congruence.
  - vm_compute. split; congruence.
  - pose proof (f_equal fst Hm) as Hf. vm_compute in Hf. subst o. exists m'. split; [exact Hm|].
    destruct Ho as (_ & Hx & _). apply (Hx 0). lia.
Defined.
