(* ===== verification/KAllocator.v ===== *)
(** * The global allocator ([kernel/src/memory/allocator.rs])

    The gate around the heap, the paging capability and the frame allocator.
    The kernel's state is a record of the control state, the hart's memory, the
    gate and the slot it protects; an operation under the gate runs on all of
    it, so that it may request memory itself. *)

From Stdlib Require Import ZArith Lia Bool.
From Stdlib Require Import Strings.Byte.
From stdpp Require Import base list numbers.
From S2P Require Import Prelude FdtScan KMemory KBootAlloc KMachine KPaging KHeap KKernelPaging KAsm KTimer.
Local Open Scope Z_scope.

Inductive AllocatorInitError := AllocatorBusy | AllocatorAlreadyInitialized.
Inductive MemoryAccessError := Busy | MemoryNotInitialized.

(** The capabilities that [initialize] installs. *)
Record MemoryState (F : Type) := mkMemory { heap : KernelHeap.t; paging : KernelPaging.t; frames : F }.
Arguments mkMemory {F}. Arguments heap {F}. Arguments paging {F}. Arguments frames {F}.

Record system (W F : Type) := mkSystem {
  core : kernel W;
  memory_of : machine;
  busy : bool;
  slot : option (MemoryState F);
  CLAIMED : bool;
}.
Arguments mkSystem {W F}. Arguments core {W F}. Arguments memory_of {W F}. Arguments busy {W F}.
Arguments slot {W F}. Arguments CLAIMED {W F}.

Section allocator.
Context {W F : Type} `{Environment W} `{FrameAllocator F}.

Abbreviation system := (system W F).

Definition on_core {E A} (m : M (kernel W) E A) : M system E A :=
  zoom core (fun k s => mkSystem k (memory_of s) (busy s) (slot s) (CLAIMED s)) m.

Definition set_busy {E} (b : bool) : M system E unit :=
  let* s := get in put (mkSystem (core s) (memory_of s) b (slot s) (CLAIMED s)).

(** The system with another memory. *)
Definition set_memory (m : machine) (s : system) : system := mkSystem (core s) m (busy s) (slot s) (CLAIMED s).

Definition set_slot {E} (m : option (MemoryState F)) : M system E unit :=
  let* s := get in put (mkSystem (core s) (memory_of s) (busy s) m (CLAIMED s)).

(** Both guards are dropped on every return, the gate before the interrupts. *)
Definition with_state {R} (operation : M system never R) : M system never (option R) :=
  let* interrupts := on_core disable in
  let* s := get in
  if busy s then
    let* _ := on_core (drop_guard interrupts) in
    ret None
  else
    let* _ := set_busy true in
    let* result := operation in
    let* _ := set_busy false in
    let* _ := on_core (drop_guard interrupts) in
    ret (Some result).

(** A borrow of the installed capabilities together with the hart's memory. *)
Definition on_memory {R} (state : MemoryState F)
    (m : M (KernelHeap.t * KernelHeapBacking F) never R) : M system never R :=
  let* s := get in
  let '(o, (h, (p, mem, f))) := m (heap state, (paging state, memory_of s, frames state)) in
  let* _ := put (mkSystem (core s) mem (busy s) (Some (mkMemory h p f)) (CLAIMED s)) in
  lift o.

(** [alloc]: the null pointer is zero. *)
Definition alloc (layout : Layout) : M system never Z :=
  let* pointer := with_state
    (let* s := get in
     match slot s with
     | None => ret 0
     | Some state =>
         let* result := on_memory state (as_result (KernelHeap.allocate (B:=KernelHeapBacking F) layout)) in
         ret (match result with Ok pointer => pointer | _ => 0 end)
     end) in
  ret (default 0 pointer).

(** [dealloc] retains the block. *)
Definition dealloc (pointer : Z) (layout : Layout) : M system never unit := ret tt.

Definition with_paging {E R} (operation : M (KernelPaging.t * machine * F) E R)
    : M system never (outcome MemoryAccessError (outcome E R)) :=
  let* result := with_state
    (let* s := get in
     match slot s with
     | None => ret (Err MemoryNotInitialized)
     | Some state =>
         let* result := on_memory state
           (zoom snd (fun b hb => (fst hb, b)) (as_result operation)) in
         ret (Ok result)
     end) in
  ret (default (Err Busy) result).

Definition initialize (heap : KernelHeap.t) (paging : KernelPaging.t) (frames : F)
    : M system never (outcome AllocatorInitError unit) :=
  let state := mkMemory heap paging frames in
  let* result := with_state
    (let* s := get in
     match slot s with
     | Some _ => ret (Err AllocatorAlreadyInitialized)
     | None =>
         let* _ := set_slot (Some state) in
         ret (Ok tt)
     end) in
  ret (default (Err AllocatorBusy) result).

End allocator.
