(* ===== verification/KAllocatorProofs.v ===== *)
(** * The gate of the global allocator

    Every entry restores the interrupt state and the gate; a request under the
    gate, or before installation, changes nothing; a granted request is one of
    the kernel heap. *)

From Stdlib Require Import ZArith Lia Bool.
From Stdlib Require Import Strings.Byte.
From stdpp Require Import base list numbers.
From S2P Require Import Prelude FdtScan KMemory KBootAlloc KMachine KPaging KTables KHeap KHeapProofs.
From S2P Require Import KKernelPaging KKernelProofs KBackingProofs KAsm KTimer KTimerProofs KAllocator.
Local Open Scope Z_scope.

Section allocator.
Context {W F : Type} `{Environment W} `{FrameAllocator F}.

Abbreviation system := (system W F).

Implicit Types s : system.

(** Everything but the memory and the slot is as it was. *)
Record quiet s s' : Prop := {
  q_core : same (core s') (core s);
  q_busy : busy s' = busy s;
  q_claimed : CLAIMED s' = CLAIMED s;
}.

Record unchanged s s' : Prop := {
  u_quiet : quiet s s';
  u_memory : memory_of s' = memory_of s;
  u_slot : slot s' = slot s;
}.

Definition status_ok s : Prop := is_u64 (control (core s) Sstatus).

Lemma same_trans (k1 k2 k3 : kernel W) : same k1 k2 -> same k2 k3 -> same k1 k3.
Proof. intros (C1 & ? & ? & ? & ? & ?) (C2 & ? & ? & ? & ? & ?). split; [intros c; by rewrite C1|]. by repeat split; etrans. Qed.

Lemma quiet_trans s1 s2 s3 : quiet s1 s2 -> quiet s2 s3 -> quiet s1 s3.
Proof. intros [C1 B1 D1] [C2 B2 D2]. split; [by eapply same_trans|congruence..]. Qed.

Lemma quiet_status s s' : quiet s s' -> status_ok s -> status_ok s'.
Proof. intros [(C & _) _ _]. unfold status_ok. by rewrite C. Qed.

(** ** [with_state] *)

Definition masked (k : kernel W) : kernel W := with_control k Sstatus (clear_bits (control k Sstatus) 2).

Definition locked s : system := mkSystem (masked (core s)) (memory_of s) (busy s) (slot s) (CLAIMED s).

Lemma disable_spec s :
  on_core disable s = (Ok (mkGuard (negb (Z.land (control (core s) Sstatus) 2 =? 0))),
    locked s) :> outcome never InterruptGuard * system.
Proof. reflexivity. Qed.

Lemma drop_spec s v :
  is_u64 v -> control (core s) Sstatus = clear_bits v 2 ->
  on_core (drop_guard (mkGuard (negb (Z.land v 2 =? 0)))) s =
    (Ok tt, mkSystem (with_control (core s) Sstatus v) (memory_of s) (busy s) (slot s) (CLAIMED s))
    :> outcome never unit * system.
Proof.
  intros Hv Hc. rewrite land_enabled by done. pose proof (guard_restores _ Hv) as Hg.
  unfold on_core, zoom, drop_guard, set_csr_bits, clear_csr_bits, bind, get, put. cbn [was_enabled].
  destruct (Z.testbit v 1); rewrite Hc, Hg; done.
Qed.

Lemma bind_get {S E A} (k : S -> M S E A) x : bind get k x = k x x.
Proof. reflexivity. Qed.

Lemma set_busy_spec b s :
  set_busy b s = (Ok tt, mkSystem (core s) (memory_of s) b (slot s) (CLAIMED s)) :> outcome never unit * system.
Proof. reflexivity. Qed.

Lemma with_state_busy {R} (op : M system never R) s :
  busy s = true -> status_ok s -> exists s', with_state op s = (Ok None, s') /\ unchanged s s'.
Proof.
  intros Hb Hs. unfold with_state. rewrite (bind_ok _ _ _ _ _ (disable_spec s)). rewrite (bind_get _).
  cbn [busy locked]. rewrite Hb. rewrite (bind_ok _ _ _ _ _ (drop_spec (locked s) _ Hs eq_refl)). eexists. split; [reflexivity|].
  split; [split; [apply same_status|done|done]|done|done].
Qed.

(** Under the gate. *)
Definition held s : system := mkSystem (masked (core s)) (memory_of s) true (slot s) (CLAIMED s).

Lemma slot_held s : slot (held s) = slot s.
Proof. reflexivity. Qed.

Lemma with_state_free {R} (op : M system never R) s r s2 :
  busy s = false -> status_ok s ->
  op (held s) = (Ok r, s2) ->
  control (core s2) Sstatus = clear_bits (control (core s) Sstatus) 2 ->
  with_state op s =
    (Ok (Some r), mkSystem (with_control (core s2) Sstatus (control (core s) Sstatus)) (memory_of s2) false
                    (slot s2) (CLAIMED s2)).
Proof.
  intros Hb Hs Hop Hc. unfold with_state. rewrite (bind_ok _ _ _ _ _ (disable_spec s)). rewrite (bind_get _).
  cbn [busy locked]. rewrite Hb. rewrite (bind_ok _ _ _ _ _ (set_busy_spec _ _)).
  rewrite (bind_ok _ _ _ _ _ Hop). rewrite (bind_ok _ _ _ _ _ (set_busy_spec _ _)).
  rewrite (bind_ok _ _ _ _ _ (drop_spec (mkSystem (core s2) (memory_of s2) false (slot s2) (CLAIMED s2)) _ Hs Hc)).
  done.
Qed.

(** ** [alloc] *)

Definition parts (m : MemoryState F) s : KernelHeap.t * KernelHeapBacking F :=
  (heap m, (paging m, memory_of s, frames m)).

(** The state with other parts. *)
Definition with_parts s (hb : KernelHeap.t * KernelHeapBacking F) : system :=
  mkSystem (core s) (snd (fst (snd hb))) (busy s) (Some (mkMemory (fst hb) (fst (fst (snd hb))) (snd (snd hb))))
    (CLAIMED s).

Lemma on_memory_spec {R} (m : MemoryState F) (op : M (KernelHeap.t * KernelHeapBacking F) never R) s r hb :
  op (parts m s) = (Ok r, hb) -> on_memory m op s = (Ok r, with_parts s hb).
Proof.
  intros Hop. unfold on_memory, bind, get, put, lift. fold (parts m s). rewrite Hop.
  by destruct hb as [h [[p mem] f]].
Qed.

Lemma alloc_busy layout s :
  busy s = true -> status_ok s -> exists s', alloc layout s = (Ok 0, s') /\ unchanged s s'.
Proof.
  intros Hb Hs. unfold alloc. edestruct (with_state_busy (R:=Z)) as (s' & Hw & Hu); [exact Hb|exact Hs|].
  exists s'. rewrite (bind_ok _ _ _ _ _ Hw). done.
Qed.

Lemma alloc_missing layout s :
  busy s = false -> status_ok s -> slot s = None -> exists s', alloc layout s = (Ok 0, s') /\ unchanged s s'.
Proof.
  intros Hb Hs Hn. unfold alloc. erewrite bind_ok.
  2:{ apply (with_state_free _ s 0 (held s) Hb Hs); [|done].
      rewrite bind_get, slot_held. by rewrite Hn. }
  eexists. split; [reflexivity|]. split; [|done|done].
  split; [apply (same_status (core s))|by rewrite Hb|done].
Qed.

Lemma alloc_spec layout s m o hb :
  busy s = false -> status_ok s -> slot s = Some m ->
  KernelHeap.allocate layout (parts m s) = (o, hb) -> no_panic o ->
  exists s', alloc layout s = (Ok (match o with Ok p => p | _ => 0 end), s') /\ quiet s s' /\
    slot s' = Some (mkMemory (fst hb) (fst (fst (snd hb))) (snd (snd hb))) /\ memory_of s' = snd (fst (snd hb)).
Proof.
  intros Hb Hs Hm Ha Ho. unfold alloc. erewrite bind_ok.
  2:{ apply (with_state_free _ s (match o with Ok p => p | _ => 0 end) (with_parts (held s) hb) Hb Hs); [|done].
      rewrite bind_get, slot_held, Hm. erewrite bind_ok; [reflexivity|]. apply on_memory_spec.
      change (parts m (held s)) with (parts m s). unfold as_result. rewrite Ha. by destruct o. }
  eexists. split; [reflexivity|]. split; [|done].
  split; [apply (same_status (core s))|by rewrite Hb|done].
Qed.

(** A client's requests: the blocks of those that do not return null. *)
Fixpoint alloc_all (layouts : list Layout) : M system never (list (Z * Layout)) :=
  match layouts with
  | [] => ret []
  | layout :: layouts =>
      let* pointer := alloc layout in
      let* blocks := alloc_all layouts in
      ret (if pointer =? 0 then blocks else (pointer, layout) :: blocks)
  end.

Section heap.
Context (root l1 l0 : Z) (base : space).

Abbreviation heap_ok := (HeapProofs.heap_ok (backing_inv (F:=F) root l1 l0 base) HEAP_RANGE page_backed).

(** Installed capabilities in the heap's invariant. *)
Definition serving s (m : MemoryState F) : Prop :=
  busy s = false /\ status_ok s /\ slot s = Some m /\ heap_ok (heap m) (paging m, memory_of s, frames m).

(** The global allocator serves what the kernel heap does. *)
Lemma alloc_all_spec layouts s m blocks h' b' :
  serving s m -> Forall layout_ok layouts ->
  KernelHeap.allocate_all layouts (parts m s) = (Ok blocks, (h', b')) ->
  exists s', alloc_all layouts s = (Ok blocks, s') /\ quiet s s' /\
    slot s' = Some (mkMemory h' (fst (fst b')) (snd b')) /\ memory_of s' = snd (fst b').
Proof.
  revert s m blocks h' b'. induction layouts as [|l layouts IH]; intros s m blocks h' b' (Hb & Hs & Hm & Hok) Hls Hall.
  { cbn in Hall. injection Hall as <- <- <-. exists s. split; [done|]. split; [by repeat split|]. by destruct m. }
  apply Forall_cons_1 in Hls as [Hl Hls]. cbn [KernelHeap.allocate_all] in Hall.
  destruct (HeapProofs.allocate_spec _ _ _ (heap m) _ l Hok Hl) as (o & h1 & b1 & Ha & Hok1 & _ & Ho).
  change (KernelHeap.allocate (B:=KernelHeapBacking F) l (parts m s) = (o, (h1, b1))) in Ha. rewrite Ha in Hall.
  destruct (alloc_spec l s m o (h1, b1) Hb Hs Hm Ha ltac:(by destruct o)) as (s1 & Hal & Hq & Hsl & Hme).
  cbn [fst snd] in Hsl, Hme. destruct b1 as [[p1 mem1] f1]. cbn [fst snd] in Hsl, Hme.
  assert (serving s1 (mkMemory h1 p1 f1)) as Hserv.
  { split; [by rewrite (q_busy _ _ Hq)|]. split; [by apply (quiet_status s)|]. split; [done|].
    cbn [heap paging frames]. by rewrite Hme. }
  assert (parts (mkMemory h1 p1 f1) s1 = (h1, (p1, mem1, f1))) as Hparts by (unfold parts; cbn; by rewrite Hme).
  cbn [alloc_all]. rewrite (bind_ok _ _ _ _ _ Hal). destruct o as [a|e| |]; try done.
  - unfold bind at 1 in Hall. destruct (KernelHeap.allocate_all layouts _) as [ob [h2 b2]] eqn:Hrec in Hall.
    destruct ob as [bs|[]| |]; try done. injection Hall as <- <- <-.
    destruct (IH s1 _ bs h2 b2 Hserv Hls ltac:(rewrite Hparts; exact Hrec)) as (s2 & Hal2 & Hq2 & Hsl2 & Hme2).
    exists s2. rewrite (bind_ok _ _ _ _ _ Hal2). split; [|split; [by eapply quiet_trans|done]].
    destruct Ho as (_ & [_ Hfit] & Ha0 & _). rewrite <- Ha0 in Hfit.
    assert (0 < VirtRange.start HEAP_RANGE) by done. by rewrite (proj2 (Z.eqb_neq a 0)) by lia.
  - destruct (IH s1 _ blocks h' b' Hserv Hls ltac:(rewrite Hparts; exact Hall)) as (s2 & Hal2 & Hq2 & Hsl2 & Hme2).
    exists s2. rewrite (bind_ok _ _ _ _ _ Hal2). split; [done|]. split; [by eapply quiet_trans|done].
Qed.

End heap.

(** ** [with_paging] and [initialize] *)

Lemma with_paging_busy {E R} (op : M (KernelPaging.t * machine * F) E R) s :
  busy s = true -> status_ok s -> exists s', with_paging op s = (Ok (Err Busy), s') /\ unchanged s s'.
Proof.
  intros Hb Hs. unfold with_paging.
  edestruct (with_state_busy (R:=outcome MemoryAccessError (outcome E R))) as (s' & Hw & Hu); [exact Hb|exact Hs|].
  exists s'. rewrite (bind_ok _ _ _ _ _ Hw). done.
Qed.

Lemma with_paging_missing {E R} (op : M (KernelPaging.t * machine * F) E R) s :
  busy s = false -> status_ok s -> slot s = None ->
  exists s', with_paging op s = (Ok (Err MemoryNotInitialized), s') /\ unchanged s s'.
Proof.
  intros Hb Hs Hn. unfold with_paging. erewrite bind_ok.
  2:{ apply (with_state_free _ s (Err MemoryNotInitialized) (held s) Hb Hs); [|done].
      rewrite bind_get, slot_held. by rewrite Hn. }
  eexists. split; [reflexivity|]. split; [|done|done].
  split; [apply (same_status (core s))|by rewrite Hb|done].
Qed.

(** The heap's cursor is not part of the borrow. *)
Lemma with_paging_spec {E R} (op : M (KernelPaging.t * machine * F) E R) s m o w :
  busy s = false -> status_ok s -> slot s = Some m ->
  op (paging m, memory_of s, frames m) = (o, w) -> no_panic o ->
  exists s', with_paging op s = (Ok (Ok o), s') /\ quiet s s' /\
    slot s' = Some (mkMemory (heap m) (capability w) (snd w)) /\ memory_of s' = KKernelProofs.hart w.
Proof.
  intros Hb Hs Hm Hop Ho. unfold with_paging. erewrite bind_ok.
  2:{ apply (with_state_free _ s (Ok o) (with_parts (held s) (heap m, w)) Hb Hs); [|done].
      rewrite bind_get, slot_held, Hm. erewrite bind_ok; [reflexivity|]. apply on_memory_spec.
      unfold zoom. change (snd (parts m (held s))) with (paging m, memory_of s, frames m).
      unfold as_result. rewrite Hop. by destruct o. }
  eexists. split; [reflexivity|]. split; [|done].
  split; [apply (same_status (core s))|by rewrite Hb|done].
Qed.

Lemma initialize_busy h p (f : F) s :
  busy s = true -> status_ok s -> exists s', initialize h p f s = (Ok (Err AllocatorBusy), s') /\ unchanged s s'.
Proof.
  intros Hb Hs. unfold initialize.
  edestruct (with_state_busy (R:=outcome AllocatorInitError unit)) as (s' & Hw & Hu); [exact Hb|exact Hs|].
  exists s'. rewrite (bind_ok _ _ _ _ _ Hw). done.
Qed.

Lemma initialize_again h p (f : F) s m :
  busy s = false -> status_ok s -> slot s = Some m ->
  exists s', initialize h p f s = (Ok (Err AllocatorAlreadyInitialized), s') /\ unchanged s s'.
Proof.
  intros Hb Hs Hm. unfold initialize. erewrite bind_ok.
  2:{ apply (with_state_free _ s (Err AllocatorAlreadyInitialized) (held s) Hb Hs); [|done].
      rewrite bind_get, slot_held. by rewrite Hm. }
  eexists. split; [reflexivity|]. split; [|done|done].
  split; [apply (same_status (core s))|by rewrite Hb|done].
Qed.

Lemma initialize_spec h p (f : F) s :
  busy s = false -> status_ok s -> slot s = None ->
  exists s', initialize h p f s = (Ok (Ok tt), s') /\ quiet s s' /\ memory_of s' = memory_of s /\
    slot s' = Some (mkMemory h p f).
Proof.
  intros Hb Hs Hn. unfold initialize. erewrite bind_ok.
  2:{ apply (with_state_free _ s (Ok tt) (mkSystem (masked (core s)) (memory_of s) true
        (Some (mkMemory h p f)) (CLAIMED s)) Hb Hs); [|done].
      rewrite bind_get, slot_held. by rewrite Hn. }
  eexists. split; [reflexivity|]. split; [|done].
  split; [apply (same_status (core s))|by rewrite Hb|done].
Qed.

End allocator.
