(* ===== verification/KProcess.v ===== *)
(** * User images ([kernel/src/process.rs] and [process/image.rs])

    Parsing the embedded image, copying it into fresh user pages, and loading
    the process with its two stacks. *)

From Stdlib Require Import ZArith Lia Bool.
From Stdlib Require Import Strings.Byte Strings.String.
From stdpp Require Import base list numbers.
From S2P Require Import Prelude FdtScan KMemory KBootAlloc KMachine KPaging KHeap KKernelPaging KAsm KTimer.
From S2P Require Import KSyscall KTrap KAllocator.
Local Open Scope Z_scope.

Definition USER_STACK_TOP : Z := 0x40000000.
Definition STACK_SIZE : Z := 16 * 1024.
Definition KERNEL_STACK_ELEMENTS : Z := STACK_SIZE / 16.
Definition USER_STACK_BOTTOM : Z := USER_STACK_TOP - STACK_SIZE.
Definition IMAGE_LIMIT : Z := USER_STACK_BOTTOM - FRAME_SIZE.

Inductive LoadError :=
| MissingImage
| InvalidImage
| ProcessAlreadyClaimed
| KernelStackAllocation
| Memory (error : MemoryAccessError)
| Paging (error : PagingError).

Module Image.

Definition HEADER_SIZE : Z := 32.

Definition MAGIC : list byte := list_byte_of_string "BBUSER01".

Record t := mk { base : VirtAddr.t; entry : VirtAddr.t; bytes : list byte }.

(** [field(start..end)], a little-endian u64 of the header. *)
Definition field (header : list byte) (start end_ : Z) : option Z :=
  range ← zslice header start end_;
  if zlen range =? 8 then Some (le_val range) else None.

Definition parse (bytes : list byte) (limit : Z) : outcome LoadError t :=
  if zlen bytes =? 0 then Err MissingImage
  else
    let? header := ok_or (zslice bytes 0 HEADER_SIZE) InvalidImage in
    if bool_decide (zslice header 0 8 <> Some MAGIC) then Err InvalidImage
    else
      let? base := ok_or (field header 8 16) InvalidImage in
      let? entry := ok_or (field header 16 24) InvalidImage in
      let? size := ok_or (field header 24 32) InvalidImage in
      let? payload := ok_or (zfrom bytes HEADER_SIZE) InvalidImage in
      let? end_ := ok_or (Prelude.checked_add usize_max base size) InvalidImage in
      let? rounded := ok_or (Prelude.checked_add usize_max end_ (FRAME_SIZE - 1)) InvalidImage in
      let mapped_end := Z.land rounded (unot (FRAME_SIZE - 1)) in
      if (size =? 0) || negb (size =? zlen payload) || (base <? FRAME_SIZE) ||
         negb (base mod FRAME_SIZE =? 0) || negb ((base <=? entry) && (entry <? end_)) ||
         negb (entry mod 2 =? 0) || (limit <? mapped_end)
      then Err InvalidImage
      else Ok (mk (VirtAddr.new base) (VirtAddr.new entry) payload).

(** [chunks], the last one possibly shorter. *)
Fixpoint pages_fuel (fuel : nat) (bytes : list byte) : list (list byte) :=
  match fuel, bytes with
  | S fuel', _ :: _ => ztake FRAME_SIZE bytes :: pages_fuel fuel' (zdrop FRAME_SIZE bytes)
  | _, _ => []
  end.

Definition pages (bytes : list byte) : list (list byte) := pages_fuel (length bytes) bytes.

Section load.
Context {F : Type} `{FrameAllocator F}.

(** [?] on a paging error. *)
Definition paging {R} (m : M (KernelPaging.t * machine * F) PagingError R)
    : M (KernelPaging.t * machine * F) LoadError R := mmap_err Paging m.

Definition map_page (address : VirtAddr.t) (bytes : list byte) (permissions : PagePermissions)
    : M (KernelPaging.t * machine * F) LoadError unit :=
  if FRAME_SIZE <? zlen bytes then throw InvalidImage
  else
    let* frame := paging next_frame in
    let* frame := lift (ok_or frame (Paging OutOfPhysicalFrames)) in
    let* _ := paging (on_access (KernelPaging.zero_frame frame)) in
    let* _ :=
      if zlen bytes =? 0 then ret tt
      else paging (on_access (KernelPaging.with_frame (AllocatedFrame.frame frame)
             (fun alias => copy_bytes (VirtAddr.as_usize alias) bytes))) in
    paging (KernelPaging.map_user_page address frame permissions).

Fixpoint load_pages (chunks : list (list byte)) (address : VirtAddr.t)
    : M (KernelPaging.t * machine * F) LoadError unit :=
  match chunks with
  | [] => ret tt
  | bytes :: chunks =>
      let* _ := map_page address bytes ReadExecute in
      let* address := lift (ok_or (VirtAddr.checked_add address FRAME_SIZE)
                              (Paging (VirtualAddressNotUser (VirtAddr.as_usize address)))) in
      load_pages chunks address
  end.

Definition load (self : t) : M (KernelPaging.t * machine * F) LoadError unit :=
  load_pages (pages (bytes self)) (base self).

(** [for address in (USER_STACK_BOTTOM..USER_STACK_TOP).step_by(FRAME_SIZE)]. *)
Fixpoint map_stack (count : nat) (address : Z) : M (KernelPaging.t * machine * F) LoadError unit :=
  match count with
  | O => ret tt
  | S count' =>
      let* _ := map_page (VirtAddr.new address) [] ReadWrite in
      map_stack count' (address + FRAME_SIZE)
  end.

End load.

End Image.

(** ** [process.rs] *)

Record Process := mkProcess { context : TrapFrame; kernel_stack : Z }.

Section load.
Context {W F : Type} `{Environment W} `{FrameAllocator F}.
(** [INIT_IMAGE], which the build embeds. *)
Context (INIT_IMAGE : list byte).

Abbreviation system := (system W F).

(** [CLAIMED.swap(true)]. *)
Definition swap_claimed : M system LoadError bool :=
  let* s := get in
  let* _ := put (mkSystem (core s) (memory_of s) (busy s) (slot s) true) in
  ret (CLAIMED s).

(** An operation of the hart's mapped memory. *)
Definition on_mapped {E R} (m : M machine never R) : M system E R :=
  zoom memory_of set_memory (minfallible m).

(** [resize] of the reserved vector: zeroed elements of sixteen bytes. *)
Fixpoint zero_elements (count : nat) (address : Z) : M system LoadError unit :=
  match count with
  | O => ret tt
  | S count' =>
      let* _ := on_mapped (store_word address 0) in
      let* _ := on_mapped (store_word (address + 8) 0) in
      zero_elements count' (address + 16)
  end.

Definition load_init : M system LoadError Process :=
  let* image := lift (Image.parse INIT_IMAGE IMAGE_LIMIT) in
  let* claimed := swap_claimed in
  if claimed : bool then throw ProcessAlreadyClaimed
  else
    let* pointer := minfallible (alloc (mkLayout STACK_SIZE 16)) in
    if pointer =? 0 then throw KernelStackAllocation
    else
      let* _ := zero_elements (Z.to_nat KERNEL_STACK_ELEMENTS) pointer in
      let* loaded := minfallible (with_paging
        (let* _ := Image.load image in
         Image.map_stack (Z.to_nat (STACK_SIZE / FRAME_SIZE)) USER_STACK_BOTTOM)) in
      let* loaded := lift (map_err Memory loaded) in
      let* _ := lift loaded in
      ret (mkProcess (UserContext_new (Image.entry image) (VirtAddr.new USER_STACK_TOP)) pointer).

End load.
