(* ===== verification/KImageProofs.v ===== *)
(** * The format of user images

    [Image::parse] accepts exactly the encodings of valid images. *)

From Stdlib Require Import ZArith Lia Bool.
From Stdlib Require Import Strings.Byte Strings.String.
From stdpp Require Import base list numbers.
From S2P Require Import Prelude FdtScan KMemory KMachine KPaging KProcess.
Local Open Scope Z_scope.

Import Image.

(** What an image must satisfy to be loaded below [limit]. *)
Record valid (limit : Z) (i : t) : Prop := {
  i_base : FRAME_SIZE <= base i;
  i_aligned : base i mod FRAME_SIZE = 0;
  i_size : 0 < zlen (bytes i);
  i_entry : base i <= entry i < base i + zlen (bytes i);
  i_even : entry i mod 2 = 0;
  i_limit : frame_ceil (base i + zlen (bytes i)) <= limit;
}.

Definition encode (i : t) : list byte :=
  MAGIC ++ le_bytes 8 (base i) ++ le_bytes 8 (entry i) ++ le_bytes 8 (zlen (bytes i)) ++ bytes i.

(** ** Words *)

Lemma le_val_u64 l : zlen l = 8 -> is_u64 (le_val l).
Proof.
  intros Hl. pose proof (be_val_range (rev l)) as Hr. unfold le_val, is_u64, u64_max.
  replace (zlen (rev l)) with 8 in Hr by (unfold zlen in *; by rewrite length_rev). lia.
Qed.

Lemma le_bytes_le_val l : zlen l = 8 -> le_bytes 8 (le_val l) = l.
Proof.
  intros Hl. unfold le_bytes, le_val. replace 8%nat with (length (rev l)).
  - by rewrite be_bytes_be_val, rev_involutive.
  - rewrite length_rev. unfold zlen in Hl. lia.
Qed.

Lemma le_val_le_bytes v : is_u64 v -> le_val (le_bytes 8 v) = v.
Proof.
  intros Hv. unfold le_val, le_bytes. rewrite rev_involutive, be_val_be_bytes. apply Z.mod_small.
  unfold is_u64, u64_max in Hv. change (256 ^ Z.of_nat 8) with (2 ^ 64). lia.
Qed.

Lemma zlen_le_bytes v : zlen (le_bytes 8 v) = 8.
Proof. unfold zlen, le_bytes. by rewrite length_rev, length_be_bytes. Qed.

(** ** The header *)

Lemma zslice_app (l k m : list byte) : zslice (l ++ k ++ m) (zlen l) (zlen l + zlen k) = Some k.
Proof.
  pose proof (zlen_nonneg l). pose proof (zlen_nonneg k). pose proof (zlen_nonneg m).
  rewrite zslice_ok by (rewrite ?zlen_app; lia). rewrite zdrop_app_exact.
  replace (zlen l + zlen k - zlen l) with (zlen k) by lia. by rewrite ztake_app_exact.
Qed.

Lemma zslice_first (k m : list byte) : zslice (k ++ m) 0 (zlen k) = Some k.
Proof. apply (zslice_app [] k m). Qed.

(** A long enough input is four words and a payload. *)
Lemma header_pieces (l : list byte) :
  HEADER_SIZE <= zlen l ->
  exists m b e n payload, l = m ++ b ++ e ++ n ++ payload /\
    zlen m = 8 /\ zlen b = 8 /\ zlen e = 8 /\ zlen n = 8.
Proof.
  unfold HEADER_SIZE. intros Hl.
  exists (ztake 8 l), (ztake 8 (zdrop 8 l)), (ztake 8 (zdrop 16 l)), (ztake 8 (zdrop 24 l)), (zdrop 32 l).
  assert (forall k, 0 <= k -> ztake 8 (zdrop k l) ++ zdrop (k + 8) l = zdrop k l) as Hstep.
  { intros k Hk. rewrite <- (ztake_zdrop 8 (zdrop k l)) at 2. f_equal. rewrite zdrop_zdrop by lia. by f_equal; lia. }
  split.
  - pose proof (Hstep 24 ltac:(lia)) as H24. pose proof (Hstep 16 ltac:(lia)) as H16.
    pose proof (Hstep 8 ltac:(lia)) as H8.
    change (24 + 8) with 32 in H24. change (16 + 8) with 24 in H16. change (8 + 8) with 16 in H8.
    rewrite H24, H16, H8. symmetry. apply ztake_zdrop.
  - rewrite !zlen_ztake; [done|rewrite ?zlen_zdrop; lia..].
Qed.

#[export] Instance valid_decision limit i : Decision (valid limit i).
Proof.
  refine (cast_if (decide (FRAME_SIZE <= base i /\ base i mod FRAME_SIZE = 0 /\ 0 < zlen (bytes i) /\
    (base i <= entry i < base i + zlen (bytes i)) /\ entry i mod 2 = 0 /\
    frame_ceil (base i + zlen (bytes i)) <= limit))).
  - destruct a as (? & ? & ? & ? & ? & ?). by split.
  - intros [? ? ? ? ? ?]. by apply n.
Defined.

(** What [parse] makes of the fields. *)
Definition accept (limit base entry size : Z) (payload : list byte) : outcome LoadError t :=
  if decide (size = zlen payload /\ valid limit (mk base entry payload)) then Ok (mk base entry payload)
  else Err InvalidImage.

Lemma mapped_end_eq e :
  0 <= e -> e + (FRAME_SIZE - 1) <= usize_max ->
  Z.land (e + (FRAME_SIZE - 1)) (unot (FRAME_SIZE - 1)) = frame_ceil e.
Proof. intros H0 Hle. rewrite land_frame_mask; [done|]. split; [unfold FRAME_SIZE; lia|done]. Qed.

(** The sums of [parse] overflow only past the limit. *)
Lemma accept_sums limit base entry size payload :
  0 <= base -> 0 <= size -> is_usize limit ->
  (let? end_ := ok_or (Prelude.checked_add usize_max base size) InvalidImage in
   let? rounded := ok_or (Prelude.checked_add usize_max end_ (FRAME_SIZE - 1)) InvalidImage in
   let mapped_end := Z.land rounded (unot (FRAME_SIZE - 1)) in
   if (size =? 0) || negb (size =? zlen payload) || (base <? FRAME_SIZE) ||
      negb (base mod FRAME_SIZE =? 0) || negb ((base <=? entry) && (entry <? end_)) ||
      negb (entry mod 2 =? 0) || (limit <? mapped_end)
   then Err InvalidImage
   else Ok (mk (VirtAddr.new base) (VirtAddr.new entry) payload)) =
  accept limit base entry size payload.
Proof.
  intros Hb Hs [Hl0 Hl]. unfold accept. destruct (frame_ceil_spec (base + size)) as [Hcm Hc].
  assert (base + size + (FRAME_SIZE - 1) <= usize_max \/ limit < frame_ceil (base + size)) as Hover.
  { destruct (Z_le_gt_dec (base + size + (FRAME_SIZE - 1)) usize_max) as [|Hgt]; [by left|right].
    unfold frame_ceil, FRAME_SIZE, usize_max in *. Z.div_mod_to_equations. lia. }
  destruct (decide (base + size + (FRAME_SIZE - 1) <= usize_max)) as [Hle|Hgt].
  - assert (0 < FRAME_SIZE) by done. unfold Prelude.checked_add.
    rewrite (proj2 (Z.leb_le (base + size) usize_max)) by lia. cbn [ok_or obind].
    rewrite (proj2 (Z.leb_le (base + size + _) usize_max)) by done. cbn [ok_or obind].
    rewrite mapped_end_eq by lia. case_decide as Hv.
    + destruct Hv as [-> [V1 V2 V3 V4 V5 V6]]. cbn [Image.base Image.entry Image.bytes] in *.
      rewrite (proj2 (Z.eqb_neq _ 0)), Z.eqb_refl, (proj2 (Z.ltb_ge base _)), V2, V5 by lia.
      rewrite (proj2 (Z.leb_le base entry)), (proj2 (Z.ltb_lt entry _)), (proj2 (Z.ltb_ge limit _)) by lia. done.
    + case_match eqn:E; [done|]. exfalso. apply Hv. zbool.
      subst size. split; [done|]. split; cbn [Image.base Image.entry Image.bytes]; done || lia.
  - rewrite decide_False by (intros [-> [? ? ? ? ? V6]]; cbn in V6; lia).
    unfold Prelude.checked_add. destruct (base + size <=? usize_max); [|done]. cbn [ok_or obind].
    by rewrite (proj2 (Z.leb_gt (base + size + _) usize_max)) by lia.
Qed.

Lemma parse_pieces m b e n payload limit :
  zlen m = 8 -> zlen b = 8 -> zlen e = 8 -> zlen n = 8 -> is_usize limit ->
  parse (m ++ b ++ e ++ n ++ payload) limit =
  if decide (m = MAGIC) then accept limit (le_val b) (le_val e) (le_val n) payload else Err InvalidImage.
Proof.
  intros Hm Hb He Hn Hl. unfold parse. pose proof (zlen_nonneg payload).
  rewrite (proj2 (Z.eqb_neq _ 0)) by (rewrite !zlen_app; lia).
  assert (zslice (m ++ b ++ e ++ n ++ payload) 0 HEADER_SIZE = Some (m ++ b ++ e ++ n)) as ->.
  { replace (m ++ b ++ e ++ n ++ payload) with ((m ++ b ++ e ++ n) ++ payload) by (by rewrite <- !app_assoc).
    replace HEADER_SIZE with (zlen (m ++ b ++ e ++ n)) by (rewrite !zlen_app; unfold HEADER_SIZE; lia).
    apply zslice_first. }
  cbn [ok_or obind]. pose proof (zslice_first m (b ++ e ++ n)) as Hz0. rewrite Hm in Hz0. rewrite Hz0.
  destruct (decide (m = MAGIC)) as [->|Hne].
  2:{ by rewrite bool_decide_true by congruence. }
  rewrite bool_decide_false by congruence.
  assert (field (MAGIC ++ b ++ e ++ n) 8 16 = Some (le_val b)) as ->.
  { unfold field. pose proof (zslice_app MAGIC b (e ++ n)) as Hz. rewrite Hm, Hb in Hz.
    change (8 + 8) with 16 in Hz. rewrite Hz. cbn [mbind option_bind]. by rewrite Hb. }
  assert (field (MAGIC ++ b ++ e ++ n) 16 24 = Some (le_val e)) as ->.
  { unfold field. pose proof (zslice_app (MAGIC ++ b) e n) as Hz. rewrite zlen_app, Hm, Hb, He, <- app_assoc in Hz.
    change (8 + 8) with 16 in Hz. change (16 + 8) with 24 in Hz. rewrite Hz. cbn [mbind option_bind]. by rewrite He. }
  assert (field (MAGIC ++ b ++ e ++ n) 24 32 = Some (le_val n)) as ->.
  { unfold field. pose proof (zslice_app (MAGIC ++ b ++ e) n []) as Hz.
    rewrite !zlen_app, Hm, Hb, He, Hn, app_nil_r, <- !app_assoc in Hz.
    change (8 + (8 + 8)) with 24 in Hz. change (24 + 8) with 32 in Hz. rewrite Hz. cbn [mbind option_bind]. by rewrite Hn. }
  assert (zfrom (MAGIC ++ b ++ e ++ n ++ payload) HEADER_SIZE = Some payload) as ->.
  { rewrite zfrom_ok by (rewrite !zlen_app; unfold HEADER_SIZE; lia). f_equal.
    replace (MAGIC ++ b ++ e ++ n ++ payload) with ((MAGIC ++ b ++ e ++ n) ++ payload) by (by rewrite <- !app_assoc).
    replace HEADER_SIZE with (zlen (MAGIC ++ b ++ e ++ n)) by (rewrite !zlen_app; unfold HEADER_SIZE; lia).
    apply zdrop_app_exact. }
  cbn [ok_or obind]. pose proof (le_val_u64 b Hb) as [? _]. pose proof (le_val_u64 n Hn) as [? _].
  by apply accept_sums.
Qed.

Lemma parse_short l limit :
  zlen l < HEADER_SIZE -> parse l limit = Err (if zlen l =? 0 then MissingImage else InvalidImage).
Proof.
  intros Hs. unfold parse. destruct (zlen l =? 0); [done|].
  unfold zslice. by rewrite (proj2 (Z.leb_gt HEADER_SIZE (zlen l))), andb_false_r.
Qed.

Lemma valid_size limit i : is_usize limit -> valid limit i -> is_u64 (base i) -> is_u64 (zlen (bytes i)).
Proof.
  intros Hl [V1 V2 V3 V4 V5 V6] _. destruct (frame_ceil_spec (base i + zlen (bytes i))) as [_ Hc].
  unfold is_u64, u64_max, is_usize, usize_max, FRAME_SIZE in *. lia.
Qed.

Lemma valid_words limit i : is_usize limit -> valid limit i -> is_u64 (base i) /\ is_u64 (entry i).
Proof.
  intros Hl [V1 V2 V3 V4 V5 V6]. destruct (frame_ceil_spec (base i + zlen (bytes i))) as [_ Hc].
  unfold is_u64, u64_max, is_usize, usize_max, FRAME_SIZE in *. lia.
Qed.

(** The pieces of an encoding are its fields. *)
Lemma pieces_inj m b e n payload i :
  zlen m = 8 -> zlen b = 8 -> zlen e = 8 -> zlen n = 8 ->
  is_u64 (base i) -> is_u64 (entry i) -> is_u64 (zlen (bytes i)) ->
  m ++ b ++ e ++ n ++ payload = encode i ->
  m = MAGIC /\ le_val b = base i /\ le_val e = entry i /\ le_val n = zlen (bytes i) /\ payload = bytes i.
Proof.
  intros Hm Hb He Hn Ub Ue Un Hx. unfold encode in Hx.
  apply app_inj_1 in Hx as [-> Hx]; [|unfold zlen in Hm; by apply Nat2Z.inj].
  assert (forall (x : list byte) y, zlen x = 8 -> length x = length (le_bytes 8 y)) as Hlen
    by (intros x y Hx'; pose proof (zlen_le_bytes y); unfold zlen in *; lia).
  apply app_inj_1 in Hx as [-> Hx]; [|by apply Hlen]. apply app_inj_1 in Hx as [-> Hx]; [|by apply Hlen].
  apply app_inj_1 in Hx as [-> Hx]; [|by apply Hlen]. by rewrite !le_val_le_bytes.
Qed.

Lemma parse_spec l limit :
  is_usize limit ->
  match parse l limit with
  | Ok i => valid limit i /\ l = encode i
  | Err MissingImage => l = []
  | Err InvalidImage => l <> [] /\ forall i, valid limit i -> is_u64 (base i) -> is_u64 (entry i) -> l <> encode i
  | _ => False
  end.
Proof.
  intros Hl. destruct (Z_lt_le_dec (zlen l) HEADER_SIZE) as [Hs|Hs].
  - rewrite parse_short by done. destruct (zlen l =? 0) eqn:E; zbool.
    + destruct l; [done|]. rewrite zlen_cons in E. pose proof (zlen_nonneg l). lia.
    + split; [by intros ->|]. intros i _ _ _ ->. unfold encode in Hs. rewrite !zlen_app, !zlen_le_bytes in Hs.
      change (zlen MAGIC) with 8 in Hs. pose proof (zlen_nonneg (bytes i)). unfold HEADER_SIZE in Hs. lia.
  - destruct (header_pieces l Hs) as (m & b & e & n & payload & -> & Hm & Hb & He & Hn).
    rewrite parse_pieces by done. assert (m ++ b ++ e ++ n ++ payload <> []) as Hne.
    { intros Hx. apply (f_equal zlen) in Hx. rewrite zlen_app in Hx. pose proof (zlen_nonneg (b ++ e ++ n ++ payload)).
      change (zlen (@nil byte)) with 0 in Hx. lia. }
    destruct (decide (m = MAGIC)) as [->|Hmagic].
    + unfold accept. case_decide as Hv.
      * destruct Hv as [Hn' Hv]. split; [done|]. unfold encode. cbn [base entry bytes].
        by rewrite <- Hn', !le_bytes_le_val.
      * split; [done|]. intros i Hi Ub Ue Hx. apply Hv.
        destruct (pieces_inj _ _ _ _ _ i Hm Hb He Hn Ub Ue (valid_size limit i Hl Hi Ub) Hx) as (_ & -> & -> & -> & ->). split; [done|]. by destruct i.
    + split; [done|]. intros i Hi Ub Ue Hx. apply Hmagic. by apply (pieces_inj _ _ _ _ _ i Hm Hb He Hn Ub Ue (valid_size limit i Hl Hi Ub) Hx).
Qed.
