(* ===== verification/KLoadProofs.v ===== *)
(** * Loading user pages

    [image::map_page] fills a fresh frame and maps it for the user; loading an
    image makes its bytes readable at their addresses and touches nothing that
    was there. *)

From Stdlib Require Import ZArith Lia Bool.
From Stdlib Require Import Strings.Byte.
From stdpp Require Import base list numbers gmap.
From S2P Require Import Prelude FdtScan KMemory KBootAlloc KMachine KPaging KPte KTables KMapProofs KFrameWindow.
From S2P Require Import KHeap KKernelPaging KWindow KKernelProofs KBackingProofs KProcess KImageProofs.
Local Open Scope Z_scope.

(** ** Copying into a frame *)

Lemma write_bytes_outside mm a l x : x < a \/ a + zlen l <= x -> write_bytes mm a l x = mm x.
Proof. intros Hx. unfold write_bytes. by replace ((a <=? x) && (x <? a + zlen l)) with false by lia. Qed.

Lemma write_bytes_same_ext mm mm' a l x : mm x = mm' x -> write_bytes mm a l x = write_bytes mm' a l x.
Proof. intros H. unfold write_bytes. by rewrite H. Qed.

Lemma write_bytes_nth mm a l k :
  0 <= k < zlen l -> write_bytes mm a l (a + k) = nth (Z.to_nat k) l x00.
Proof.
  intros Hk. unfold write_bytes. replace ((a <=? a + k) && (a + k <? a + zlen l)) with true by lia.
  f_equal. lia.
Qed.

Lemma read_write_bytes_other mm a l b :
  b + 8 <= a \/ a + zlen l <= b -> read_word (write_bytes mm a l) b = read_word mm b.
Proof. intros Hd. apply read_word_ext. intros x Hx. apply write_bytes_outside. lia. Qed.

Section load.
Context {F : Type} `{FrameAllocator F} (root l1 l0 : Z).

Abbreviation state := (KernelPaging.t * machine * F)%type.
Abbreviation kernel_state := (kernel_state root l1 l0).

Lemma kernel_copy a m f l :
  kernel_inv root l1 l0 a m -> representable f -> zlen l <= FRAME_SIZE ->
  Forall (off_frame f) (window_slot l0 :: window_busy root l1 l0) ->
  exists m', KernelPaging.with_frame (PhysFrame.mk f) (fun alias => copy_bytes (VirtAddr.as_usize alias) l) (a, m)
      = (Ok tt, (a, m')) /\
    kernel_inv root l1 l0 a m' /\ satp m' = satp m /\ forall x, mem m' x = write_bytes (mem m) f l x.
Proof.
  intros Hi Hf Hl [Hslot Hoff]%Forall_cons_1. pose proof (zlen_nonneg l) as Hz.
  destruct (fw_shown a m f true 0 Hi Hf ltac:(lia)) as (Hr & _ & Hpage). rewrite Z.mul_0_r, !Z.add_0_r in Hr.
  set (m1 := mkMachine (write_bytes (mem (opened l0 f m)) f l) (satp m) (tlb (opened l0 f m))).
  destruct (fw_run a m f (fun address => copy_bytes (VirtAddr.as_usize address) l) tt m1 Hi Hf) as [Hwf Hinv];
    try done.
  - unfold copy_bytes, bind, get, VirtAddr.as_usize. rewrite Hr, Hpage. unfold FRAME_SIZE in Hl.
    by rewrite (proj2 (Z.leb_le (0 + zlen l) 4096)) by lia.
  - apply List.Forall_forall. intros w Hin. pose proof (proj1 (List.Forall_forall _ _) Hoff w Hin) as Ho.
    apply read_write_bytes_other. unfold off_frame in Ho. lia.
  - eexists. split; [exact Hwf|split; [exact Hinv|split; [done|]]].
    intros x. unfold off_frame in Hslot. apply (closed_mem (fw:=kernel_window root l1 l0) a m f); [done| |]; intros y Hy.
    + cbn [m1 mem]. apply write_bytes_same_ext. by apply (opened_outside (fw:=kernel_window root l1 l0) f m).
    + apply write_bytes_outside. lia.
Qed.

Lemma copy_step T sp l (w : state) c bytes :
  kernel_state T sp l w -> representable c -> unused T c -> zlen bytes <= FRAME_SIZE ->
  Forall (off_frame c) (window_slot l0 :: window_busy root l1 l0) ->
  exists w', on_access (KernelPaging.with_frame (PhysFrame.mk c)
      (fun alias => copy_bytes (VirtAddr.as_usize alias) bytes)) w = (Ok tt, w') /\
    kernel_state T sp l w' /\ capability w' = capability w /\
    forall x, mem (hart w') x = write_bytes (mem (hart w)) c bytes x.
Proof.
  intros [[[Hi Ht] Hp Hf] Hr H1 H0 Hu] Hc Hun Hl Hoff. destruct w as [[a m] s]. cbn [fst snd] in *.
  destruct (kernel_copy a m c bytes Hi Hc Hl Hoff) as (m' & Hz & Hi' & Hs' & Hm).
  eexists. split; [by apply on_access_eq|]. split; [|by split_and!].
  split; try done. split; [split; cbn; [done|]|done|done]. apply (tables_elsewhere (mem m) _ T sp c); [done..|].
  intros x Hx. rewrite Hm. apply write_bytes_outside. lia.
Qed.

(** ** Progress that keeps what was there *)

Definition in_frame (fr : PhysFrame.t) (x : Z) : Prop :=
  PhysFrame.start fr <= x < PhysFrame.start fr + FRAME_SIZE.

Record advance (T : table_map) (sp : space) (l : list PhysFrame.t) (w : state)
    (T' : table_map) (sp' : space) (l' : list PhysFrame.t) (w' : state) : Prop := {
  a_state : kernel_state T' sp' l' w';
  a_capability : capability w' = capability w;
  a_space : sp ⊆ sp';
  a_owned fr : owned T l fr ->
    owned T' l' fr /\ forall x, in_frame fr x -> mem (hart w') x = mem (hart w) x;
  a_synced : synced (hart w) -> synced (hart w');
  a_user v lf : sp' !! v = Some lf -> sp !! v = Some lf \/ l_user lf = true /\ v < 2 ^ 26;
  a_fresh v lf v' lf' : sp !! v = Some lf -> sp' !! v' = Some lf' -> l_ppn lf = l_ppn lf' -> sp !! v' = Some lf';
}.

Lemma advance_refl T sp l w : kernel_state T sp l w -> advance T sp l w T sp l w.
Proof. split; auto. Qed.

Lemma advance_trans T sp l w T1 sp1 l1' w1 T2 sp2 l2 w2 :
  advance T sp l w T1 sp1 l1' w1 -> advance T1 sp1 l1' w1 T2 sp2 l2 w2 -> advance T sp l w T2 sp2 l2 w2.
Proof.
  intros [S1 C1 P1 O1 Y1 U1 F1] [S2 C2 P2 O2 Y2 U2 F2]. split; [done|congruence|by etrans| |auto| |].
  - intros fr [Ho Hm]%O1. destruct (O2 fr Ho) as [Ho' Hm']. split; [done|]. intros x Hx. by rewrite Hm', Hm.
  - intros v lf [Hv|Hu]%U2; [by apply U1|by right].
  - intros v lf v' lf' Hv Hv' Heq. eapply F1; [exact Hv| |exact Heq].
    by apply (F2 v lf v' lf' (lookup_weaken _ _ _ _ Hv P1)).
Qed.

(** Distinct frames share no byte. *)
Lemma frames_apart fr fr' x :
  PhysFrame.wf fr -> PhysFrame.wf fr' -> fr <> fr' -> in_frame fr x -> ~ in_frame fr' x.
Proof.
  intros (_ & Hm & _) (_ & Hm' & _) Hne Hx Hx'. destruct fr as [f], fr' as [f']. apply Hne. f_equal.
  unfold in_frame, FRAME_SIZE in *. cbn in *. Z.div_mod_to_equations. lia.
Qed.

(** Only frames and memory off the owned ones changed. *)
Lemma advance_same T sp l w l' w' :
  kernel_state T sp l' w' -> capability w' = capability w -> (synced (hart w) -> synced (hart w')) ->
  (forall fr, owned T l fr -> owned T l' fr /\ forall x, in_frame fr x -> mem (hart w') x = mem (hart w) x) ->
  advance T sp l w T sp l' w'.
Proof. intros Hk Hc Hs Ho. split; auto. Qed.

(** Writing only a frame taken from the allocator. *)
Lemma advance_taken T sp fr l w w1 :
  kernel_state T sp (fr :: l) w -> PhysFrame.wf fr -> kernel_state T sp l w1 -> capability w1 = capability w ->
  (synced (hart w) -> synced (hart w1)) ->
  (forall x, ~ in_frame fr x -> mem (hart w1) x = mem (hart w) x) ->
  advance T sp (fr :: l) w T sp l w1.
Proof.
  intros Hk Hfr Hk1 Hc Hs Hm. apply advance_same; [done..|]. intros fr' (Hwf & Hni & Hun). cbn in Hni.
  split; [by split_and!; [|tauto|]|]. intros x Hx. apply Hm. apply (frames_apart fr'); try done. intros ->. tauto.
Qed.

(** A mapping operation. *)
Lemma advance_mapped T sp l w va fr permissions refused o w' :
  kernel_state T sp l w -> Forall PhysFrame.wf l -> unmapped sp [fr] -> (o = Ok tt -> 0 <= va < 2 ^ 38) ->
  mapping_result root l1 l0 T sp l w va fr permissions User refused o w' ->
  exists T' sp' l', advance T sp l w T' sp' l' w' /\ used_up 2 l l' /\
  match o with
  | Ok _ => shows_space (hart w') sp' /\ va mod FRAME_SIZE = 0 /\
      sp' = <[vpn_of va := leaf_for (PhysFrame.start fr) permissions User]> sp
  | Err e => sp' = sp /\ (refused e \/ page_failure sp l va fr e)
  | _ => False
  end.
Proof.
  intros Hk Hwf Hum Hlow Hres. pose proof Hres as (T' & sp' & l' & Hk' & Hst & Ho). exists T', sp', l'.
  assert (sp ⊆ sp') as Hsub.
  { destruct o as [[]|e| |]; try done; [|by destruct Ho as [-> _]].
    destruct Ho as (_ & _ & Hn & ->). by apply insert_subseteq. }
  split; [split|split]; [done| |done| | | | |exact (stepped_used _ _ _ _ _ _ _ Hst)|].
  - apply (k_cap _ _ _ (st_kept _ _ _ _ _ _ _ Hst)).
  - intros fr' Hown. split; [by eapply stepped_owned|]. destruct Hown as (Hfr & Hni & Hun).
    intros x Hx. by apply (stepped_frame root l1 l0 2 T sp l w T' l' w' fr').
  - by eapply mapping_synced.
  - destruct o as [[]|e| |]; try done; [|destruct Ho as [-> _]; auto]. destruct Ho as (_ & _ & _ & ->).
    intros v lf [[<- <-]|[_ Hv]]%lookup_insert_Some; [right|by left]. split; [done|].
    specialize (Hlow eq_refl). unfold vpn_of, FRAME_SIZE. Z.div_mod_to_equations. lia.
  - destruct o as [[]|e| |]; try done; [|destruct Ho as [-> _]; auto]. destruct Ho as (_ & _ & _ & ->).
    intros v lf v' lf' Hv [[<- <-]|[_ Hv']]%lookup_insert_Some Heq; [|done].
    exfalso. by apply (Hum v lf fr Hv (or_introl eq_refl)).
  - destruct o as [[]|e| |]; try done; [by destruct Ho as (? & ? & _ & ?)|].
    destruct Ho as [-> [[? _]|[? _]]]; (split; [done|]); auto.
Qed.

(** ** One page *)

(** A frame that holds [bytes], and zeros after them. *)
Definition filled (m : machine) (fr : PhysFrame.t) (bytes : list byte) : Prop :=
  forall k, 0 <= k < FRAME_SIZE -> mem m (PhysFrame.start fr + k) = nth (Z.to_nat k) bytes x00.

(** A user page with the given contents, on a frame of its own. *)
Definition user_page (T : table_map) (sp : space) (l : list PhysFrame.t) (w : state)
    (permissions : PagePermissions) (page : Z * list byte) : Prop :=
  exists fr, owned T l fr /\ filled (hart w) fr (snd page) /\
    sp !! vpn_of (fst page) = Some (leaf_for (PhysFrame.start fr) permissions User).

Lemma user_page_advance T sp l w T' sp' l' w' permissions page :
  advance T sp l w T' sp' l' w' -> user_page T sp l w permissions page ->
  user_page T' sp' l' w' permissions page.
Proof.
  intros [_ _ Hsp Ho] (fr & Hown & Hf & Hl). destruct (Ho fr Hown) as [Hown' Hm].
  exists fr. split; [done|]. split; [|by apply (lookup_weaken _ _ _ _ Hl)].
  intros k Hk. rewrite Hm by (unfold in_frame; lia). by apply Hf.
Qed.

(** Zeroing and copying into a frame the allocator just gave. *)
Lemma fill_frame T sp fr l w bytes :
  kernel_state T sp l w -> representable (PhysFrame.start fr) -> unused T (PhysFrame.start fr) ->
  Forall (off_frame (PhysFrame.start fr)) (window_slot l0 :: window_busy root l1 l0) ->
  zlen bytes <= FRAME_SIZE ->
  exists w', (let* _ := Image.paging (on_access (KernelPaging.zero_frame (AllocatedFrame.mk fr))) in
      if zlen bytes =? 0 then ret tt
      else Image.paging (on_access (KernelPaging.with_frame fr
             (fun alias => copy_bytes (VirtAddr.as_usize alias) bytes)))) w = (Ok tt, w') /\
    kernel_state T sp l w' /\ capability w' = capability w /\ filled (hart w') fr bytes /\
    (forall x, ~ in_frame fr x -> mem (hart w') x = mem (hart w) x).
Proof.
  intros Hk Hrep Hun Hoff Hl. destruct fr as [f]. cbn [PhysFrame.start] in *. pose proof (zlen_nonneg bytes) as Hz.
  destruct (zero_step _ _ _ T sp l w f (ks_good _ _ _ _ _ _ _ Hk) Hrep Hun Hoff) as (w2 & Hzero & Hg2 & Hc2 & _ & Hm2).
  change (zero_frame (AllocatedFrame.mk (PhysFrame.mk f)))
    with (KernelPaging.zero_frame (AllocatedFrame.mk (PhysFrame.mk f))) in Hzero.
  assert (kernel_state T sp l w2) as Hk2 by (destruct Hk as [_ ? ? ? ?]; by split).
  rewrite (bind_ok _ _ _ tt w2) by (unfold Image.paging, mmap_err; by rewrite Hzero).
  destruct (zlen bytes =? 0) eqn:E; zbool.
  - exists w2. split; [done|]. split; [done|]. split; [exact Hc2|].
    assert (bytes = []) as -> by (destruct bytes; [done|]; rewrite zlen_cons in E; pose proof (zlen_nonneg bytes); lia).
    split.
    + intros k Hk'. change (hart w2) with (snd (fst w2)). rewrite Hm2. unfold fill. cbn [PhysFrame.start].
      replace ((f <=? f + k) && (f + k <? f + FRAME_SIZE)) with true by lia. by destruct (Z.to_nat k).
    + intros x Hx. change (hart w2) with (snd (fst w2)). rewrite Hm2. apply fill_outside. unfold in_frame in Hx. cbn in Hx. lia.
  - destruct (copy_step T sp l w2 f bytes Hk2 Hrep Hun Hl Hoff) as (w3 & Hcopy & Hk3 & Hc3 & Hm3).
    exists w3. split; [unfold Image.paging, mmap_err; by rewrite Hcopy|]. split; [done|].
    split; [rewrite Hc3; exact Hc2|]. split.
    + intros k Hk'. rewrite Hm3. cbn [PhysFrame.start]. destruct (Z_lt_le_dec k (zlen bytes)) as [Hlt|Hge].
      * apply write_bytes_nth. lia.
      * rewrite write_bytes_outside by lia. change (hart w2) with (snd (fst w2)). rewrite Hm2. unfold fill.
        replace ((f <=? f + k) && (f + k <? f + FRAME_SIZE)) with true by lia.
        symmetry. apply nth_overflow. unfold zlen in Hge. lia.
    + intros x Hx. unfold in_frame in Hx. cbn [PhysFrame.start] in Hx.
      rewrite Hm3, write_bytes_outside by (unfold FRAME_SIZE in *; lia). change (hart w2) with (snd (fst w2)).
      rewrite Hm2. apply fill_outside. lia.
Qed.

Lemma keeps_fill fr bytes :
  keeps_tlb (hart (F:=F)) (let* _ := Image.paging (on_access (KernelPaging.zero_frame (AllocatedFrame.mk fr))) in
    if zlen bytes =? 0 then ret tt
    else Image.paging (on_access (KernelPaging.with_frame fr
           (fun alias => copy_bytes (VirtAddr.as_usize alias) bytes)))).
Proof.
  apply keeps_bind; [apply keeps_mmap_err, keeps_on_access, keeps_zero_frame|]. intros _.
  destruct (zlen bytes =? 0); [apply keeps_ret|]. apply keeps_mmap_err, keeps_on_access, keeps_with_frame. auto with keeps.
Qed.

(** An address a user page may have. *)
Definition user_address (a : Z) : Prop := FRAME_SIZE <= a < SV39_LOW_HALF_END /\ a mod FRAME_SIZE = 0.

Lemma user_address_usize a : user_address a -> is_usize a.
Proof.
  intros [Ha _]. destruct high_numbers as (_ & E & _). rewrite E in Ha. unfold is_usize, usize_max, FRAME_SIZE in *. lia.
Qed.

(** Why pages cannot be mapped: each takes a frame and at most two for its
    tables, every frame they take must be one an entry can name, and nothing may be
    mapped at their addresses. *)
Inductive load_failure (sp : space) (l : list PhysFrame.t) (pages : list (Z * list byte)) : PagingError -> Prop :=
| lf_frames : (length l < 3 * length pages)%nat -> load_failure sp l pages OutOfPhysicalFrames
| lf_high fr : In fr (take (3 * length pages) l) -> MAX_PHYSICAL_ADDRESS < PhysFrame.start fr ->
    load_failure sp l pages (PhysicalAddressNotRepresentable (PhysFrame.start fr))
| lf_mapped page lf x : In page pages -> sp !! vpn_of (fst page) = Some lf ->
    load_failure sp l pages (PageAlreadyMapped (fst page) x).

(** The failure of one page. *)
Lemma page_load_failure sp l fr a bytes e :
  user_address a -> PhysFrame.start fr <= MAX_PHYSICAL_ADDRESS -> page_failure sp l a fr e ->
  load_failure sp (fr :: l) [(a, bytes)] e.
Proof.
  intros [_ Hal] Hfr [?|e' _ [?|lf x Hlf|e'' [[-> Hn]|(g & Hg & -> & Hhigh)]]]; [done|lia| | |].
  - apply (lf_mapped _ _ _ (a, bytes) lf); [by left|done].
  - apply lf_frames. cbn. lia.
  - apply lf_high; [by right|done].
Qed.

Lemma map_image_page T sp l w a bytes permissions :
  kernel_state T sp l w -> user_address a -> zlen bytes <= FRAME_SIZE ->
  exists o w' T' sp' l', Image.map_page a bytes permissions w = (o, w') /\ advance T sp l w T' sp' l' w' /\
  used_up 3 l l' /\
  match o with
  | Ok _ => user_page T' sp' l' w' permissions (a, bytes) /\ shows_space (hart w') sp' /\
      (forall v lf, sp' !! v = Some lf -> v = vpn_of a \/ sp !! v = Some lf)
  | Err e => sp' = sp /\ exists e', e = Paging e' /\ load_failure sp l [(a, bytes)] e'
  | _ => False
  end.
Proof.
  intros Hk Hua Hl. pose proof (user_address_usize a Hua) as Ha. unfold Image.map_page. rewrite (proj2 (Z.ltb_ge FRAME_SIZE (zlen bytes))) by done.
  destruct l as [|fr l].
  { destruct (next_frame_nil w (g_provides _ _ _ _ _ _ _ (ks_good _ _ _ _ _ _ _ Hk))) as (w' & Hn & Hw & Hp).
    rewrite (bind_ok _ _ _ None w') by (unfold Image.paging, mmap_err; by rewrite Hn).
    rewrite (bind_err _ _ _ (Paging OutOfPhysicalFrames) w') by done.
    eexists _, _, T, sp, []. split; [done|].
    split; [|split; [by exists []; split; [|cbn; lia]|split; [done|]; eexists; split; [done|apply lf_frames; cbn; lia]]].
    apply advance_same; [by eapply state_exhausted|unfold capability; by rewrite Hw|unfold hart; by rewrite Hw|].
    intros fr Ho. split; [done|]. intros x _. unfold hart. by rewrite Hw. }
  pose proof (g_provides _ _ _ _ _ _ _ (ks_good _ _ _ _ _ _ _ Hk)) as Hpr.
  destruct (next_frame_cons w fr l Hpr) as (w1 & Hn & Hw & Hp).
  apply provides_cons in Hpr as (_ & _ & _ & Hfr & Hni). pose proof (state_taken root l1 l0 T sp fr l w w1 Hk Hw Hp) as Hk1.
  assert (capability w1 = capability w /\ hart w1 = hart w) as [Hc1 Hh1] by (unfold capability, hart; by rewrite Hw).
  rewrite (bind_ok _ _ _ (Some (AllocatedFrame.mk fr)) w1) by (unfold Image.paging, mmap_err; by rewrite Hn).
  rewrite (bind_ok _ _ _ (AllocatedFrame.mk fr) w1) by done.
  destruct (Z_lt_le_dec MAX_PHYSICAL_ADDRESS (PhysFrame.start fr)) as [Hhigh|Hlow].
  { pose proof (s_inv _ _ _ _ (g_settled _ _ _ _ _ _ _ (ks_good _ _ _ _ _ _ _ Hk1))) as Hi1.
    destruct w1 as [[a1 m1] s1], fr as [f]. cbn [fst snd PhysFrame.start] in *.
    erewrite bind_err by (unfold Image.paging, mmap_err; erewrite on_access_eq by
      (apply (access_high (inv:=kernel_inv root l1 l0)); done); reflexivity).
    eexists _, _, T, sp, l. split; [done|].
    split; [|split; [by exists [PhysFrame.mk f]; split; [|cbn; lia]|split; [done|]; eexists; split; [done|]]].
    2:{ apply (lf_high sp _ _ (PhysFrame.mk f)); [by left|done]. }
    apply advance_taken; try done; [by rewrite <- Hh1|]. intros x _. by rewrite <- Hh1. }
  assert (representable (PhysFrame.start fr)) as Hrep by (split; [split; [apply Hfr|done]|apply Hfr]).
  destruct (g_fresh _ _ _ _ _ _ _ (ks_good _ _ _ _ _ _ _ Hk) fr (or_introl eq_refl)) as [Hun Hoff].
  destruct (fill_frame T sp fr l w1 bytes Hk1 Hrep Hun Hoff Hl) as (w2 & Hfill & Hk2 & Hc2 & Hf2 & Hm2).
  rewrite bind_assoc, (bind_ok _ _ _ _ _ Hfill).
  assert (advance T sp (fr :: l) w T sp l w2) as Hadv.
  { apply advance_taken; try done; [by rewrite Hc2| |intros x Hx; by rewrite Hm2, Hh1].
    rewrite <- Hh1. apply (synced_kept root l1 l0 T sp l w1 T l w2 Hk1 Hk2).
    eapply keeps_result; [|exact Hfill]. apply keeps_fill. }
  destruct (map_user_page_spec root l1 l0 T sp l w2 a fr permissions Hk2 Ha Hfr Hni) as (o & w3 & Hmap & Hres & Hlow').
  assert (unmapped sp [fr]) as Hum1.
  { intros v lf g Hv [<-|[]]. apply (ks_unmapped _ _ _ _ _ _ _ Hk v lf fr Hv). by left. }
  assert (o = Ok tt -> 0 <= a < 2 ^ 38) as Hlow2.
  { intros Hb%Hlow'. destruct high_numbers as (_ & E & _). rewrite E in Hb. unfold FRAME_SIZE in Hb. lia. }
  destruct (advance_mapped _ _ _ _ _ _ _ _ _ _ Hk2 (proj1 (proj2 Hp)) Hum1 Hlow2 Hres) as (T' & sp' & l' & Hadv' & Hused & Ho).
  exists (map_err Paging o), w3, T', sp', l'. split; [unfold Image.paging, mmap_err; by rewrite Hmap|].
  split; [by eapply advance_trans|].
  split; [apply (used_up_trans 1 2 _ l); [by exists [fr]|done]|]. destruct o as [[]|e| |]; try done.
  2:{ destruct Ho as [-> Hf]. split; [done|]. exists e. split; [done|].
      destruct Hf as [[Hr _]|Hf]; [by destruct Hua|]. by apply page_load_failure. }
  destruct Ho as (Hsh & Hal & ->). split; [|split; [done|]].
  - assert (owned T l fr) as [Hown Hmem]%(a_owned _ _ _ _ _ _ _ _ Hadv') by done.
    exists fr. split; [done|]. split; [|apply lookup_insert_eq].
    intros k Hk'. rewrite Hmem by (unfold in_frame; lia). by apply Hf2.
  - intros v lf [[<- _]|[_ Hv]]%lookup_insert_Some; auto.
Qed.

(** ** Sequences of pages *)

(** Contents at consecutive page addresses. *)
Fixpoint addressed (a : Z) (chunks : list (list byte)) : list (Z * list byte) :=
  match chunks with
  | [] => []
  | bytes :: chunks => (a, bytes) :: addressed (a + FRAME_SIZE) chunks
  end.

(** The pages were mapped, and nothing else. *)
Definition mapped_pages (T : table_map) (sp : space) (l : list PhysFrame.t) (w : state)
    (permissions : PagePermissions) (sp0 : space) (pages : list (Z * list byte)) : Prop :=
  Forall (user_page T sp l w permissions) pages /\
  forall v lf, sp !! v = Some lf -> sp0 !! v = Some lf \/ exists page, In page pages /\ v = vpn_of (fst page).

(** The result of mapping a sequence of pages. *)
Definition sequence_result (T : table_map) (sp : space) (l : list PhysFrame.t) (w : state)
    (permissions : PagePermissions) (pages : list (Z * list byte)) (o : outcome LoadError unit) (w' : state) : Prop :=
  exists T' sp' l', advance T sp l w T' sp' l' w' /\ used_up (3 * length pages) l l' /\
  match o with
  | Ok _ => mapped_pages T' sp' l' w' permissions sp pages
  | Err e => exists e', e = Paging e' /\ load_failure sp l pages e'
  | _ => False
  end.

(** Pages that fit their frames, at different user addresses. *)
Definition page_list (pages : list (Z * list byte)) : Prop :=
  Forall (fun page => user_address (fst page) /\ zlen (snd page) <= FRAME_SIZE) pages /\ NoDup (map fst pages).

Lemma page_list_cons a bytes pages :
  page_list ((a, bytes) :: pages) ->
  user_address a /\ zlen bytes <= FRAME_SIZE /\ page_list pages /\
  forall page, In page pages -> vpn_of (fst page) <> vpn_of a.
Proof.
  intros [[[Ha Hb] Hp]%Forall_cons_1 [Hn Hnd]%list.NoDup_cons]. split; [done|]. split; [done|]. split; [by split|].
  intros page Hin Hv. apply Hn, list_elem_of_In, in_map_iff. exists page. split; [|done]. cbn [fst].
  rewrite List.Forall_forall in Hp. destruct (Hp page Hin) as [[Hr Hm] _], Ha as [Hra Hma].
  destruct high_numbers as (_ & E & _). rewrite E in Hr, Hra. revert Hv Hr Hra Hm Hma. generalize (fst page).
  cbn [fst]. unfold vpn_of, FRAME_SIZE. intros. Z.div_mod_to_equations. lia.
Qed.

Lemma sequence_nil T sp l w permissions :
  kernel_state T sp l w -> sequence_result T sp l w permissions [] (Ok tt) w.
Proof.
  intros Hk. exists T, sp, l. split; [by apply advance_refl|]. split; [by exists []|]. split; [constructor|]. by left.
Qed.

(** A failure after some pages. *)
Lemma load_failure_after sp sp1 l lm pages pages' e :
  used_up (3 * length pages) l lm ->
  (forall v lf, sp1 !! v = Some lf -> sp !! v = Some lf \/ exists page, In page pages /\ v = vpn_of (fst page)) ->
  (forall page page', In page pages -> In page' pages' -> vpn_of (fst page') <> vpn_of (fst page)) ->
  load_failure sp1 lm pages' e -> load_failure sp l (pages ++ pages') e.
Proof.
  intros Hused Hn Hne [Hl|fr Hin Hhigh|page' lf x Hin Hlf].
  - apply lf_frames. apply used_up_length in Hused. rewrite length_app. lia.
  - apply lf_high; [|done]. rewrite length_app, Nat.mul_add_distr_l. by eapply used_up_in.
  - apply Hn in Hlf as [Hlf|(page & Hp & Hv)]; [|by apply (Hne page page') in Hv].
    eapply lf_mapped; [apply in_or_app; by right|exact Hlf].
Qed.

Lemma load_failure_before sp l pages pages' e : load_failure sp l pages e -> load_failure sp l (pages ++ pages') e.
Proof.
  intros [Hl|fr Hin Hhigh|page lf x Hin Hlf].
  - apply lf_frames. rewrite length_app. lia.
  - apply lf_high; [|done]. eapply in_take_more; [|exact Hin]. rewrite length_app. lia.
  - eapply lf_mapped; [apply in_or_app; by left|exact Hlf].
Qed.

(** A page before a sequence. *)
Lemma sequence_cons T sp l w a bytes permissions pages (k : M state LoadError unit) :
  kernel_state T sp l w -> page_list ((a, bytes) :: pages) ->
  (forall T1 sp1 l1' w1, kernel_state T1 sp1 l1' w1 ->
     exists o w', k w1 = (o, w') /\ sequence_result T1 sp1 l1' w1 permissions pages o w') ->
  exists o w', (let* _ := Image.map_page a bytes permissions in k) w = (o, w') /\
    sequence_result T sp l w permissions ((a, bytes) :: pages) o w'.
Proof.
  intros Hk (Ha & Hb & _ & Hne)%page_list_cons Hrest.
  destruct (map_image_page T sp l w a bytes permissions Hk Ha Hb) as (o & w1 & T1 & sp1 & lr & Hm & Hadv & Hused & Ho).
  destruct o as [[]|e| |]; try done.
  2:{ rewrite (bind_err _ _ _ e w1) by done. do 2 eexists. split; [done|]. exists T1, sp1, lr. split; [done|].
      split; [destruct Hused as (u & ? & ?); exists u; split; [done|cbn; lia]|].
      destruct Ho as (_ & e' & -> & Hf). exists e'. split; [done|]. by apply (load_failure_before _ _ [(a, bytes)]). }
  rewrite (bind_ok _ _ _ _ _ Hm). destruct Ho as (Hu & _ & Hn).
  destruct (Hrest T1 sp1 lr w1 (a_state _ _ _ _ _ _ _ _ Hadv)) as (o & w' & Hk' & T' & sp' & l' & Hadv' & Hused' & Ho).
  exists o, w'. split; [done|]. exists T', sp', l'. split; [by eapply advance_trans|].
  split; [replace (3 * length ((a, bytes) :: pages))%nat with (3 + 3 * length pages)%nat by (cbn; lia);
    by eapply used_up_trans|].
  destruct o as [[]|e| |]; try done.
  - destruct Ho as [Hall Hv]. split.
    + apply List.Forall_cons; [by eapply user_page_advance|done].
    + intros v lf [Hs|(page & Hin & ->)]%Hv; [|right; exists page; split; [by right|done]].
      apply Hn in Hs as [->|Hs]; [|by left]. right. exists (a, bytes). split; [by left|done].
  - destruct Ho as (e' & -> & Hf). exists e'. split; [done|].
    apply (load_failure_after sp sp1 l lr [(a, bytes)]); [exact Hused| | |exact Hf].
    + intros v lf [->|?]%Hn; [right; exists (a, bytes); split; [by left|done]|by left].
    + intros page page' [<-|[]]. apply Hne.
Qed.

Lemma load_pages_spec chunks : forall T sp l w a,
  kernel_state T sp l w -> page_list (addressed a chunks) ->
  exists o w', Image.load_pages chunks a w = (o, w') /\
    sequence_result T sp l w ReadExecute (addressed a chunks) o w'.
Proof.
  induction chunks as [|c chunks IH]; intros T sp l w a Hk Hp.
  { do 2 eexists. split; [done|]. by apply sequence_nil. }
  cbn [Image.load_pages addressed] in *. apply sequence_cons; [done..|].
  intros T1 sp1 lr w1 Hk1. apply page_list_cons in Hp as ([Ha _] & _ & Hp & _).
  destruct high_numbers as (_ & E & _). rewrite E in Ha.
  rewrite (bind_ok _ _ _ (a + FRAME_SIZE) w1); [by apply IH|].
  unfold lift, VirtAddr.checked_add, Prelude.checked_add.
  rewrite (proj2 (Z.leb_le _ usize_max)) by (unfold usize_max, FRAME_SIZE; lia). done.
Qed.

Lemma map_stack_spec n : forall T sp l w a,
  kernel_state T sp l w -> page_list (addressed a (replicate n [])) ->
  exists o w', Image.map_stack n a w = (o, w') /\
    sequence_result T sp l w ReadWrite (addressed a (replicate n [])) o w'.
Proof.
  induction n as [|n IH]; intros T sp l w a Hk Hp.
  { do 2 eexists. split; [done|]. by apply sequence_nil. }
  cbn [Image.map_stack replicate addressed] in *. apply sequence_cons; [done..|].
  intros T1 sp1 lr w1 Hk1. apply IH; [done|]. by apply page_list_cons in Hp as (_ & _ & Hp & _).
Qed.

End load.

(** ** The pages of an image *)

Lemma pages_fuel_short fuel l : Forall (fun c => zlen c <= FRAME_SIZE) (Image.pages_fuel fuel l).
Proof.
  revert l. induction fuel as [|fuel IH]; intros l; [constructor|]. destruct l as [|b l]; [constructor|].
  cbn [Image.pages_fuel]. apply List.Forall_cons; [|apply IH].
  unfold zlen, ztake. rewrite length_take. unfold FRAME_SIZE. lia.
Qed.

(** The page of a byte, and its place in it. *)
Lemma addressed_page fuel l a k :
  (length l <= fuel)%nat -> 0 <= k < zlen l ->
  In (a + k / FRAME_SIZE * FRAME_SIZE, ztake FRAME_SIZE (zdrop (k / FRAME_SIZE * FRAME_SIZE) l))
    (addressed a (Image.pages_fuel fuel l)).
Proof.
  revert l a k. induction fuel as [|fuel IH]; intros l a k Hf Hk.
  { destruct l; [cbn in Hk; unfold zlen in Hk; cbn in Hk; lia|cbn in Hf; lia]. }
  destruct l as [|b l]; [unfold zlen in Hk; cbn in Hk; lia|]. cbn [Image.pages_fuel addressed].
  set (bytes := b :: l) in *. destruct (Z_lt_le_dec k FRAME_SIZE) as [Hlt|Hge].
  - left. rewrite Z.div_small, Z.mul_0_l, Z.add_0_r by lia. done.
  - right. assert (k / FRAME_SIZE = (k - FRAME_SIZE) / FRAME_SIZE + 1) as Hd
      by (unfold FRAME_SIZE; Z.div_mod_to_equations; lia).
    assert (0 <= (k - FRAME_SIZE) / FRAME_SIZE) by (apply Z.div_pos; [lia|done]).
    assert (zlen (zdrop FRAME_SIZE bytes) = zlen bytes - FRAME_SIZE) as Hz
      by (apply zlen_zdrop; unfold FRAME_SIZE in *; lia).
    specialize (IH (zdrop FRAME_SIZE bytes) (a + FRAME_SIZE) (k - FRAME_SIZE)).
    rewrite zdrop_zdrop in IH by (unfold FRAME_SIZE in *; lia).
    replace (a + FRAME_SIZE + (k - FRAME_SIZE) / FRAME_SIZE * FRAME_SIZE) with (a + k / FRAME_SIZE * FRAME_SIZE) in IH
      by (rewrite Hd; lia).
    replace ((k - FRAME_SIZE) / FRAME_SIZE * FRAME_SIZE + FRAME_SIZE) with (k / FRAME_SIZE * FRAME_SIZE) in IH
      by (rewrite Hd; lia).
    replace (FRAME_SIZE + (k - FRAME_SIZE) / FRAME_SIZE * FRAME_SIZE) with (k / FRAME_SIZE * FRAME_SIZE) in IH
      by (rewrite Hd; lia).
    apply IH; [|rewrite Hz; lia]. unfold zlen, FRAME_SIZE in *. lia.
Qed.

Lemma page_byte (l : list byte) k :
  0 <= k < zlen l ->
  nth (Z.to_nat (k mod FRAME_SIZE)) (ztake FRAME_SIZE (zdrop (k / FRAME_SIZE * FRAME_SIZE) l)) x00 =
  nth (Z.to_nat k) l x00.
Proof.
  intros Hk. assert (0 <= k mod FRAME_SIZE < FRAME_SIZE) by (by apply Z.mod_pos_bound).
  assert (k = k / FRAME_SIZE * FRAME_SIZE + k mod FRAME_SIZE) as Hd by (unfold FRAME_SIZE; Z.div_mod_to_equations; lia).
  assert (0 <= k / FRAME_SIZE) by (apply Z.div_pos; [lia|done]).
  rewrite !nth_lookup. unfold ztake, zdrop. rewrite lookup_take_lt by (unfold FRAME_SIZE in *; lia).
  rewrite lookup_drop. do 2 f_equal. unfold FRAME_SIZE in *. rewrite <- Z2Nat.inj_add by lia. f_equal. lia.
Qed.

(** Every page lies in the image's range. *)
Lemma addressed_range fuel l a page :
  In page (addressed a (Image.pages_fuel fuel l)) ->
  (exists i, 0 <= i /\ fst page = a + i * FRAME_SIZE) /\ fst page < a + zlen l.
Proof.
  revert l a. induction fuel as [|fuel IH]; intros l a Hin; [done|]. destruct l as [|b l]; [done|].
  cbn [Image.pages_fuel addressed] in Hin. pose proof (zlen_nonneg l). destruct Hin as [<-|Hin].
  - split; [exists 0; cbn [fst]; lia|]. rewrite zlen_cons. cbn [fst]. lia.
  - destruct (Z_le_gt_dec (zlen (b :: l)) FRAME_SIZE) as [Hle|Hgt].
    { assert (zdrop FRAME_SIZE (b :: l) = []) as Hz by (apply drop_ge; unfold zlen, FRAME_SIZE in *; lia).
      rewrite Hz in Hin. by destruct fuel. }
    apply IH in Hin as [(i & Hi & He) Hlt]. split; [exists (i + 1); unfold FRAME_SIZE in *; lia|].
    rewrite zlen_zdrop in Hlt by (unfold FRAME_SIZE in *; lia). lia.
Qed.

(** ** [Image::load] *)

Lemma vpn_of_low va p :
  is_usize va -> canonical va = true -> 0 <= p < 2 ^ 38 -> p mod FRAME_SIZE = 0 -> vpn_of va = vpn_of p ->
  p <= va < p + FRAME_SIZE.
Proof.
  unfold is_usize, usize_max, canonical, vpn_of, FRAME_SIZE. intros Hu Hc Hp Hm He.
  Z.div_mod_to_equations. lia.
Qed.

Section image.
Context {F : Type} `{FrameAllocator F} (root l1 l0 : Z).

Abbreviation kernel_state := (kernel_state root l1 l0).

(** The translation the hart's tables give. *)
Definition translation (w : KernelPaging.t * machine * F) (va : Z) : option leaf :=
  translate (mem (hart w)) (satp (hart w)) va.

Lemma advance_translation T sp l w T' sp' l' w' va lf :
  kernel_state T sp l w -> advance root l1 l0 T sp l w T' sp' l' w' ->
  translation w va = Some lf -> translation w' va = Some lf.
Proof.
  intros Hk [Hk' _ Hsp _]. unfold translation. rewrite (translate_represented _ _ _ _ _ _ _ va Hk).
  rewrite (translate_represented _ _ _ _ _ _ _ va Hk'). destruct (canonical va); [|done].
  intros Hl. by apply (lookup_weaken _ _ _ _ Hl).
Qed.

(** Every byte of a user page is where its address leads. *)
Lemma user_page_byte T sp l w permissions a bytes k :
  kernel_state T sp l w -> user_page T sp l w permissions (a, bytes) ->
  0 <= a < 2 ^ 38 -> a mod FRAME_SIZE = 0 -> 0 <= k < FRAME_SIZE ->
  exists f, translation w (a + k) = Some (leaf_for f permissions User) /\
    mem (hart w) (f + (a + k) mod FRAME_SIZE) = nth (Z.to_nat k) bytes x00.
Proof.
  intros Hk (fr & _ & Hf & Hl) Ha Hal Hk0. exists (PhysFrame.start fr). cbn [fst snd] in *. split.
  - unfold translation. rewrite (translate_represented _ _ _ _ _ _ _ _ Hk).
    assert (vpn_of (a + k) = vpn_of a) as ->
      by (unfold vpn_of, FRAME_SIZE in *; Z.div_mod_to_equations; lia).
    replace (canonical (a + k)) with true; [done|]. symmetry. unfold canonical, FRAME_SIZE in *.
    apply orb_true_iff. left. apply Z.ltb_lt. Z.div_mod_to_equations. lia.
  - rewrite Z.add_mod, Hal, Z.add_0_l, Z.mod_mod, Z.mod_small by done. by apply Hf.
Qed.

(** Bytes from an address on, in user pages. *)
Definition user_bytes (w : KernelPaging.t * machine * F) (a : Z) (l : list byte) (permissions : PagePermissions) : Prop :=
  forall k, 0 <= k < zlen l -> exists f, translation w (a + k) = Some (leaf_for f permissions User) /\
    mem (hart w) (f + (a + k) mod FRAME_SIZE) = nth (Z.to_nat k) l x00.

(** The pages of an image show its bytes. *)
Lemma image_bytes T sp l w limit i :
  kernel_state T sp l w -> valid limit i -> limit <= SV39_LOW_HALF_END ->
  Forall (user_page T sp l w ReadExecute) (addressed (Image.base i) (Image.pages (Image.bytes i))) ->
  user_bytes w (Image.base i) (Image.bytes i) ReadExecute.
Proof.
  intros Hk [Vb Va Vs _ _ Vl] Hlim Hall k Hk0. destruct high_numbers as (_ & E & _). rewrite E in Hlim.
  destruct (frame_ceil_spec (Image.base i + zlen (Image.bytes i))) as [Hcm Hcr].
  pose proof (addressed_page (length (Image.bytes i)) (Image.bytes i) (Image.base i) k ltac:(lia) Hk0) as Hin.
  rewrite List.Forall_forall in Hall. specialize (Hall _ Hin).
  assert (0 <= k / FRAME_SIZE) by (apply Z.div_pos; [lia|done]).
  assert (k = k / FRAME_SIZE * FRAME_SIZE + k mod FRAME_SIZE) as Hd
    by (unfold FRAME_SIZE; Z.div_mod_to_equations; lia).
  assert (0 <= k mod FRAME_SIZE < FRAME_SIZE) as Hm by (by apply Z.mod_pos_bound).
  destruct (user_page_byte T sp l w _ _ _ (k mod FRAME_SIZE) Hk Hall) as (f & Ht & Hb); [| |done|].
  - unfold FRAME_SIZE in *. lia.
  - rewrite Z.add_mod, Va, Z_mod_mult by done. done.
  - rewrite <- Z.add_assoc, <- Hd in Ht, Hb. exists f. split; [done|]. rewrite Hb. by apply page_byte.
Qed.

(** An address whose page is one of a sequence's. *)
Lemma mapped_page_of T sp0 sp l (w : KernelPaging.t * machine * F) (w0 : KernelPaging.t * machine * F) T0 l0' (pages : list (Z * list byte)) va lf :
  kernel_state T0 sp0 l0' w0 -> kernel_state T sp l w ->
  (forall v lf, sp !! v = Some lf -> sp0 !! v = Some lf \/ exists page, In page pages /\ v = vpn_of (fst page)) ->
  (forall page, In page pages -> 0 <= fst page < 2 ^ 38 /\ fst page mod FRAME_SIZE = 0) ->
  is_usize va -> translation w va = Some lf ->
  translation w0 va = Some lf \/ exists page, In page pages /\ fst page <= va < fst page + FRAME_SIZE.
Proof.
  intros Hk0 Hk Hnew Hpages Hva Ht. unfold translation in Ht. rewrite (translate_represented _ _ _ _ _ _ _ va Hk) in Ht.
  destruct (canonical va) eqn:Hcan; [|done]. apply Hnew in Ht as [Ht|(page & Hin & Hv)].
  - left. unfold translation. by rewrite (translate_represented _ _ _ _ _ _ _ va Hk0), Hcan.
  - right. exists page. split; [done|]. destruct (Hpages page Hin). by apply vpn_of_low.
Qed.

Lemma image_pages limit i page :
  valid limit i -> limit <= SV39_LOW_HALF_END ->
  In page (addressed (Image.base i) (Image.pages (Image.bytes i))) ->
  (0 <= fst page < 2 ^ 38 /\ fst page mod FRAME_SIZE = 0) /\
  Image.base i <= fst page /\ fst page + FRAME_SIZE <= frame_ceil (Image.base i + zlen (Image.bytes i)).
Proof.
  intros [Vb Va Vs _ _ Vl] Hlim Hin. destruct high_numbers as (_ & E & _). rewrite E in Hlim.
  destruct (frame_ceil_spec (Image.base i + zlen (Image.bytes i))) as [Hcm Hcr].
  apply addressed_range in Hin as [(j & Hj & Hp) Hlt].
  assert (fst page mod FRAME_SIZE = 0) as Hpm by (rewrite Hp, Z.add_mod, Va, Z_mod_mult by done; done).
  unfold FRAME_SIZE in *. Z.div_mod_to_equations. lia.
Qed.

(** Consecutive pages are a page list while they stay in the user's half. *)
Lemma addressed_pages chunks : forall a,
  FRAME_SIZE <= a -> a mod FRAME_SIZE = 0 -> Forall (fun c => zlen c <= FRAME_SIZE) chunks ->
  (forall page, In page (addressed a chunks) -> fst page < SV39_LOW_HALF_END) ->
  page_list (addressed a chunks) /\ forall page, In page (addressed a chunks) -> a <= fst page.
Proof.
  induction chunks as [|c chunks IH]; intros a Ha Hal Hc Hlim; [by split; [split; constructor|]|].
  apply Forall_cons_1 in Hc as [Hc Hcs]. cbn [addressed] in *.
  destruct (IH (a + FRAME_SIZE)) as [[Hp Hn] Hlow]; [unfold FRAME_SIZE in *; lia| |done| |].
  { unfold FRAME_SIZE in *. Z.div_mod_to_equations. lia. }
  { intros page Hin. apply Hlim. by right. }
  split.
  - split.
    + apply List.Forall_cons; [|done]. split; [|done]. split; [|done]. split; [done|]. apply (Hlim (a, c)). by left.
    + cbn [map fst]. constructor; [|done]. intros (page & He & Hin)%list_elem_of_In%in_map_iff.
      apply Hlow in Hin. unfold FRAME_SIZE in *. lia.
  - intros page [<-|Hin]; [done|]. apply Hlow in Hin. unfold FRAME_SIZE in *. lia.
Qed.

(** The pages of an image. *)
Definition image_list (i : Image.t) : list (Z * list byte) := addressed (Image.base i) (Image.pages (Image.bytes i)).

Lemma image_page_list limit i : valid limit i -> limit <= SV39_LOW_HALF_END -> page_list (image_list i).
Proof.
  intros Hv Hlim. pose proof Hv as [Vb Va _ _ _ _]. apply addressed_pages; [done|done|apply pages_fuel_short|].
  intros page Hin. destruct (image_pages limit i page Hv Hlim Hin) as [[Hr _] _]. destruct high_numbers as (_ & E & _). lia.
Qed.

(** [Image::load]. *)
Lemma image_load_spec T sp l w limit i :
  kernel_state T sp l w -> valid limit i -> limit <= SV39_LOW_HALF_END ->
  exists o w', Image.load i w = (o, w') /\ sequence_result root l1 l0 T sp l w ReadExecute (image_list i) o w'.
Proof. intros Hk Hv Hlim. apply load_pages_spec; [done|]. by eapply image_page_list. Qed.

Lemma image_loaded T sp l w limit i :
  kernel_state T sp l w -> valid limit i -> limit <= SV39_LOW_HALF_END ->
  exists o w', Image.load i w = (o, w') /\
    (exists T' sp' l', kernel_state T' sp' l' w') /\ capability w' = capability w /\
    (forall va lf, translation w va = Some lf -> translation w' va = Some lf) /\
    match o with
    | Ok _ =>
        user_bytes w' (Image.base i) (Image.bytes i) ReadExecute /\
        (forall va lf, is_usize va -> translation w' va = Some lf ->
           translation w va = Some lf \/
           Image.base i <= va < frame_ceil (Image.base i + zlen (Image.bytes i)))
    | Err e => exists e', e = Paging e' /\ load_failure sp l (image_list i) e'
    | _ => False
    end.
Proof.
  intros Hk Hv Hlim. destruct (image_load_spec T sp l w limit i Hk Hv Hlim) as (o & w' & Hload & T' & sp' & l' & Hadv & _ & Ho).
  pose proof (a_state _ _ _ _ _ _ _ _ _ _ _ Hadv) as Hk'.
  exists o, w'. split; [exact Hload|]. split; [by exists T', sp', l'|]. split; [apply Hadv|].
  split; [intros va lf; by apply (advance_translation T sp l w T' sp' l')|].
  destruct o as [[]|e| |]; try done. destruct Ho as [Hall Hnew]. split; [by eapply image_bytes|].
  intros va lf Hva Ht.
  destruct (mapped_page_of T' sp sp' l' w' w T l _ va lf Hk Hk' Hnew) as [?|(page & Hin & Hp)]; [|done|done|by left|].
  - intros page Hin. by apply (image_pages limit i page Hv Hlim).
  - right. destruct (image_pages limit i page Hv Hlim Hin) as [_ ?]. lia.
Qed.

End image.
