(* ===== verification/KProcessProofs.v ===== *)
(** * Loading the process

    The kernel stack of the process is a zeroed block of the kernel heap; the
    image and the user stack are user pages on frames of their own.  Loading
    keeps the global allocator in its invariant. *)

From Stdlib Require Import ZArith Lia Bool.
From Stdlib Require Import Strings.Byte Strings.String.
From stdpp Require Import base list numbers gmap.
From S2P Require Import Prelude FdtScan KMemory KBootAlloc KMachine KPaging KPte KTables KMapProofs.
From S2P Require Import KAsm KTimer KTimerProofs KSyscall KTrap KAllocator KAllocatorProofs.
From S2P Require Import KHeap KHeapProofs KKernelPaging KWindow KKernelProofs KBackingProofs.
From S2P Require Import KProcess KImageProofs KLoadProofs.
Local Open Scope Z_scope.

Section memory.
Context {F : Type} `{FrameAllocator F} (root l1 l0 : Z) (base : space).

Abbreviation state := (KernelPaging.t * machine * F)%type.
Abbreviation backing_inv := (backing_inv (F:=F) root l1 l0 base).

(** Bytes that are mapped read-write for the supervisor and are zero. *)
Definition zeroed (w : state) (a n : Z) : Prop :=
  forall x, a <= x < a + n ->
    exists f pa, translation w x = Some (leaf_for f ReadWrite Supervisor) /\ leads_to w x pa /\ mem (hart w) pa = x00.

(** An address and its neighbours in the same word. *)
Lemma leads_to_word (w : state) va pa i :
  HEAP_START <= va < HEAP_END -> va mod 8 = 0 -> 0 <= i < 8 ->
  leads_to w va pa -> leads_to w (va + i) (pa + i) /\ translation w (va + i) = translation w va.
Proof.
  intros Hva Hal Hi (_ & lf & Hlf & ->).
  assert ((va + i) / 4096 = va / 4096 /\ (va + i) mod 4096 = va mod 4096 + i /\ HEAP_START <= va + i < HEAP_END)
    as (Hpn & Hoff & Hvi).
  { revert Hva. change HEAP_START with 0xffffffe000000000. change HEAP_END with 0xffffffe040000000.
    intros. Z.div_mod_to_equations. lia. }
  assert (forall x, HEAP_START <= x < HEAP_END -> is_usize x /\ canonical x = true) as Hc.
  { intros x. change HEAP_START with 0xffffffe000000000. change HEAP_END with 0xffffffe040000000.
    unfold is_usize, usize_max, canonical. intros. split; lia. }
  assert (translation w (va + i) = translation w va) as Htr.
  { unfold translation, translate. rewrite Hpn. by destruct (Hc va Hva) as [_ ->], (Hc (va + i) Hvi) as [_ ->]. }
  split; [|done]. split; [by apply Hc|]. exists lf. split; [unfold translation in Htr; by rewrite Htr|].
  unfold FRAME_SIZE. rewrite Hoff. lia.
Qed.

Lemma write_zero_byte mm pa x : pa <= x < pa + 8 -> write_word mm pa 0 x = x00.
Proof.
  intros Hx. replace x with (pa + (x - pa)) by lia. unfold write_word.
  rewrite write_bytes_nth by (rewrite zlen_le_bytes; lia). change (le_bytes 8 0) with (replicate 8 x00).
  assert (Z.to_nat (x - pa) < 8)%nat as Hn by lia. revert Hn. generalize (Z.to_nat (x - pa)).
  intros n Hn. do 8 (destruct n as [|n]; [done|]). lia.
Qed.

(** Clearing the next word of a block. *)
Lemma clear_word (w : state) a n :
  backing_inv w -> HEAP_START <= a -> 0 <= n -> a + n < HEAP_END -> (a + n) mod 8 = 0 ->
  page_backed w (frame_floor (a + n)) -> zeroed w a n ->
  exists m', store_word (a + n) 0 (hart w) = (Ok tt, m') /\ backing_inv (with_hart w m') /\
    zeroed (with_hart w m') a (n + 8) /\
    forall p, page_backed (with_hart w m') p <-> page_backed w p.
Proof.
  intros Hb Ha Hn Hend Hal Hp Hz.
  destruct (heap_store root l1 l0 base w (a + n) 0 Hb ltac:(lia) Hal Hp) as (m' & pa & Hst & Hb' & Hl & Hpal & Hmem & Htr).
  exists m'. split; [exact Hst|]. split; [exact Hb'|].
  assert (forall x pb, leads_to (with_hart w m') x pb <-> leads_to w x pb) as Hle
    by (intros x pb; unfold leads_to; cbn [with_hart hart fst snd]; by rewrite Htr).
  split; [|intros p; unfold page_backed; cbn [with_hart hart fst snd]; by rewrite Htr].
  intros x Hx. unfold translation. change (hart (with_hart w m')) with m'. rewrite Htr, Hmem.
  destruct (Z_lt_le_dec x (a + n)) as [Hlt|Hge].
  - destruct (Hz x ltac:(lia)) as (f & pb & Hf & Hlb & H0). exists f, pb. split; [exact Hf|]. split; [by apply Hle|].
    rewrite write_word_outside; [done|].
    destruct (Z_lt_le_dec pb pa) as [?|Hpb1]; [by left|]. destruct (Z_lt_le_dec pb (pa + 8)) as [Hpb2|?]; [|by right].
    exfalso. destruct (leads_to_word w (a + n) pa (pb - pa) ltac:(lia) Hal ltac:(lia) Hl) as [Hl' _].
    replace (pa + (pb - pa)) with pb in Hl' by lia.
    pose proof (leads_to_unique root l1 l0 base w x (a + n + (pb - pa)) pb Hb ltac:(lia) Hlb Hl'). lia.
  - destruct (leads_to_word w (a + n) pa (x - (a + n)) ltac:(lia) Hal ltac:(lia) Hl) as [Hl' Ht'].
    replace (a + n + (x - (a + n))) with x in Hl', Ht' by lia.
    destruct Hp as (_ & _ & f & Hf).
    exists f, (pa + (x - (a + n))). split; [|split; [by apply Hle|apply write_zero_byte; lia]].
    unfold translation in Ht'. rewrite Ht'. rewrite <- Hf. unfold translate, frame_floor, FRAME_SIZE.
    rewrite canonical_page. by rewrite Z_div_mult.
Qed.

(** ** The user pages *)

Lemma addressed_zeros n : forall a page,
  In page (addressed a (replicate n [])) <-> exists j, 0 <= j < Z.of_nat n /\ page = (a + j * FRAME_SIZE, []).
Proof.
  induction n as [|n IH]; intros a page; cbn [replicate addressed In]; [split; [done|]; intros (j & ? & _); lia|].
  rewrite IH. split.
  - intros [<-|(j & Hj & ->)]; [exists 0; split; [lia|]; f_equal; lia|].
    exists (j + 1). split; [lia|]. f_equal. unfold FRAME_SIZE. lia.
  - intros (j & Hj & ->). destruct (decide (j = 0)) as [->|Hne]; [left; f_equal; lia|right].
    exists (j - 1). split; [lia|]. f_equal. unfold FRAME_SIZE. lia.
Qed.

Definition stack_pages : list (Z * list byte) :=
  addressed USER_STACK_BOTTOM (replicate (Z.to_nat (STACK_SIZE / FRAME_SIZE)) []).

Lemma stack_page_range page :
  In page stack_pages ->
  (0 <= fst page < 2 ^ 38 /\ fst page mod FRAME_SIZE = 0) /\
  USER_STACK_BOTTOM <= fst page /\ fst page + FRAME_SIZE <= USER_STACK_TOP.
Proof.
  intros (j & Hj & ->)%addressed_zeros. revert Hj. cbn [fst].
  change (Z.of_nat (Z.to_nat (STACK_SIZE / FRAME_SIZE))) with 4. change USER_STACK_BOTTOM with 0x3fffc000.
  change USER_STACK_TOP with 0x40000000. unfold FRAME_SIZE. intros. Z.div_mod_to_equations. lia.
Qed.

(** The user stack is mapped and zero. *)
Lemma stack_bytes T sp l (w : state) :
  kernel_state root l1 l0 T sp l w -> Forall (user_page T sp l w ReadWrite) stack_pages ->
  user_bytes w USER_STACK_BOTTOM (replicate (Z.to_nat STACK_SIZE) x00) ReadWrite.
Proof.
  intros Hk Hall k Hk0. assert (0 <= k < STACK_SIZE) as Hk1.
  { revert Hk0. unfold zlen. rewrite length_replicate. rewrite Z2Nat.id; [done|]. vm_compute. congruence. }
  assert (k = k / FRAME_SIZE * FRAME_SIZE + k mod FRAME_SIZE) as Hd by (unfold FRAME_SIZE; Z.div_mod_to_equations; lia).
  assert (In (USER_STACK_BOTTOM + k / FRAME_SIZE * FRAME_SIZE, []) stack_pages) as Hin.
  { apply addressed_zeros. exists (k / FRAME_SIZE). split; [|done].
    change (Z.of_nat (Z.to_nat (STACK_SIZE / FRAME_SIZE))) with 4. revert Hk1. change STACK_SIZE with 16384.
    unfold FRAME_SIZE. intros. Z.div_mod_to_equations. lia. }
  pose proof (stack_page_range _ Hin) as [[Hr Hm] _]. cbn [fst] in Hr, Hm.
  rewrite List.Forall_forall in Hall. specialize (Hall _ Hin).
  destruct (user_page_byte root l1 l0 T sp l w _ _ _ (k mod FRAME_SIZE) Hk Hall Hr Hm ltac:(by apply Z.mod_pos_bound))
    as (f & Ht & Hb).
  rewrite <- Z.add_assoc, <- Hd in Ht, Hb. exists f. split; [exact Ht|]. rewrite Hb, (nth_lookup (replicate _ _)).
  destruct (replicate (Z.to_nat STACK_SIZE) x00 !! Z.to_nat k) as [b|] eqn:E; [apply lookup_replicate_1 in E as [-> _]|];
    by destruct (Z.to_nat (k mod FRAME_SIZE)).
Qed.

(** What loading makes of the address space. *)
Record user_loaded (i : Image.t) (w w' : state) : Prop := {
  ul_image : user_bytes w' (Image.base i) (Image.bytes i) ReadExecute;
  ul_stack : user_bytes w' USER_STACK_BOTTOM (replicate (Z.to_nat STACK_SIZE) x00) ReadWrite;
  ul_only va lf : is_usize va -> translation w' va = Some lf ->
    translation w va = Some lf \/ Image.base i <= va < frame_ceil (Image.base i + zlen (Image.bytes i)) \/
    USER_STACK_BOTTOM <= va < USER_STACK_TOP;
}.

Definition load_user (i : Image.t) : M state LoadError unit :=
  let* _ := Image.load i in
  Image.map_stack (Z.to_nat (STACK_SIZE / FRAME_SIZE)) USER_STACK_BOTTOM.

(** The pages of a process. *)
Definition user_pages (i : Image.t) : list (Z * list byte) := image_list i ++ stack_pages.

Lemma stack_page_list : page_list stack_pages.
Proof.
  apply addressed_pages; [vm_compute; congruence|done|by repeat constructor|].
  intros page Hin. destruct (stack_page_range page Hin) as [[[_ Hr] _] _]. destruct high_numbers as (_ & E & _). by rewrite E.
Qed.

(** The image ends below the stack. *)
Lemma user_pages_apart limit i page page' :
  valid limit i -> limit <= USER_STACK_BOTTOM -> In page (image_list i) -> In page' stack_pages ->
  vpn_of (fst page') <> vpn_of (fst page).
Proof.
  intros Hv Hlim Hin Hin'. assert (USER_STACK_BOTTOM <= SV39_LOW_HALF_END) as Hb by (vm_compute; congruence).
  destruct (image_pages limit i page Hv ltac:(lia) Hin) as [[Hr Hm] [_ He]].
  destruct (stack_page_range page' Hin') as [[Hr' Hm'] [Hs _]]. pose proof (i_limit _ _ Hv) as Hl.
  assert (fst page + FRAME_SIZE <= fst page') as Hlt by lia. revert Hr Hm Hr' Hm' Hlt.
  generalize (fst page), (fst page'). unfold vpn_of, FRAME_SIZE. intros. Z.div_mod_to_equations. lia.
Qed.

Lemma user_page_address limit i page :
  valid limit i -> limit <= USER_STACK_BOTTOM -> In page (user_pages i) ->
  vpn_of (fst page) < 2 ^ 26 /\ canonical (fst page) = true.
Proof.
  intros Hv Hlim Hin. assert (0 <= fst page < 2 ^ 38) as Hr.
  { apply in_app_or in Hin as [Hin|Hin]; [|apply (stack_page_range page Hin)].
    assert (USER_STACK_BOTTOM <= SV39_LOW_HALF_END) as Hb by (vm_compute; congruence).
    apply (image_pages limit i page Hv ltac:(lia) Hin). }
  split; [|unfold canonical; lia].
  revert Hr. generalize (fst page). unfold vpn_of, FRAME_SIZE. intros. Z.div_mod_to_equations. lia.
Qed.

Lemma load_user_spec T sp l (w : state) limit i :
  kernel_state root l1 l0 T sp l w -> valid limit i -> limit <= USER_STACK_BOTTOM ->
  exists o w' T' sp' l', load_user i w = (o, w') /\ advance root l1 l0 T sp l w T' sp' l' w' /\
    match o with
    | Ok _ => user_loaded i w w'
    | Err e => exists e', e = Paging e' /\ load_failure sp l (user_pages i) e'
    | _ => False
    end.
Proof.
  intros Hk Hv Hbot. assert (limit <= SV39_LOW_HALF_END) as Hlim
    by (assert (USER_STACK_BOTTOM <= SV39_LOW_HALF_END) by (vm_compute; congruence); lia).
  destruct (image_load_spec root l1 l0 T sp l w limit i Hk Hv Hlim) as (o & w1 & Hload & T1 & sp1 & l1' & Hadv1 & Hus1 & Ho).
  unfold load_user. destruct o as [[]|e| |]; try done.
  2:{ rewrite (bind_err _ _ _ _ _ Hload). exists (Err e), w1, T1, sp1, l1'. split; [done|]. split; [done|].
      destruct Ho as (e' & -> & Hf). exists e'. split; [done|]. by apply load_failure_before. }
  rewrite (bind_ok _ _ _ _ _ Hload). pose proof (a_state _ _ _ _ _ _ _ _ _ _ _ Hadv1) as Hk1. destruct Ho as [Hall1 Hnew1].
  destruct (map_stack_spec root l1 l0 (Z.to_nat (STACK_SIZE / FRAME_SIZE)) T1 sp1 l1' w1 USER_STACK_BOTTOM Hk1 stack_page_list)
    as (o & w2 & Hstack & T2 & sp2 & l2 & Hadv2 & _ & Ho).
  exists o, w2, T2, sp2, l2. split; [exact Hstack|]. split; [by eapply advance_trans|].
  destruct o as [[]|e| |]; try done.
  2:{ destruct Ho as (e' & -> & Hf). exists e'. split; [done|].
      eapply load_failure_after; [exact Hus1|exact Hnew1| |exact Hf]. intros page page'. by apply (user_pages_apart limit). }
  destruct Ho as [Hall2 Hnew2].
  pose proof (a_state _ _ _ _ _ _ _ _ _ _ _ Hadv2) as Hk2. split.
  - apply (image_bytes root l1 l0 T2 sp2 l2 w2 limit i Hk2 Hv Hlim).
    eapply list.Forall_impl; [exact Hall1|]. intros page.
    by apply (user_page_advance root l1 l0 T1 sp1 l1' w1).
  - by apply (stack_bytes T2 sp2 l2).
  - intros va lf Hva Ht.
    destruct (mapped_page_of root l1 l0 T2 sp1 sp2 l2 w2 w1 T1 l1' stack_pages va lf Hk1 Hk2 Hnew2) as [Ht1|(page & Hin & Hp)];
      [by intros page [? _]%stack_page_range|done|done| |].
    + destruct (mapped_page_of root l1 l0 T1 sp sp1 l1' w1 w T l _ va lf Hk Hk1 Hnew1) as [?|(page & Hin & Hp)];
        [by intros page [? _]%(image_pages limit i page Hv Hlim)|done|done|by left|].
      right. left. destruct (image_pages limit i page Hv Hlim Hin) as [_ ?]. lia.
    + right. right. apply stack_page_range in Hin as [_ ?]. lia.
Qed.

(** With a frame for each page and nothing mapped there, loading succeeds. *)
Lemma load_user_succeeds T sp l (w : state) limit i :
  kernel_state root l1 l0 T sp l w -> valid limit i -> limit <= USER_STACK_BOTTOM ->
  frames_left (length (user_pages i)) w -> (forall page, In page (user_pages i) -> sp !! vpn_of (fst page) = None) ->
  exists w', load_user i w = (Ok tt, w').
Proof.
  intros Hk Hv Hlim Hf Hn. destruct (load_user_spec T sp l w limit i Hk Hv Hlim) as (o & w' & T' & sp' & l' & Hload & _ & Ho).
  destruct (frames_left_of root l1 l0 _ T sp l w Hk Hf) as [Hl Hfr].
  destruct o as [[]|e| |]; try done; [by exists w'|]. exfalso.
  destruct Ho as (e' & _ & [Hshort|fr Hin Hhigh|page lf x Hin Hlf]); [lia| |by rewrite Hn in Hlf].
  specialize (Hfr fr Hin). lia.
Qed.

(** ** What loading keeps *)

Lemma heap_vpn_high v : heap_vpn v -> 2 ^ 26 <= v.
Proof.
  intros (a & Ha & ->). revert Ha. change HEAP_START with 0xffffffe000000000. change HEAP_END with 0xffffffe040000000.
  unfold vpn_of, FRAME_SIZE. intros. Z.div_mod_to_equations. lia.
Qed.

(** New user pages leave the heap its frames and what they hold. *)
Lemma advance_backing T sp l (w : state) T' sp' l' w' :
  KernelPaging.heap_claimed (capability w) = true -> synced (hart w) -> kernel_state root l1 l0 T sp l w ->
  base ⊆ sp -> private sp -> heap_frames T sp l -> (forall v lf, sp !! v = Some lf -> base !! v = Some lf \/ heap_vpn v) ->
  advance root l1 l0 T sp l w T' sp' l' w' ->
  KBackingProofs.backing_inv root l1 l0 sp' w' /\ base ⊆ sp' /\
  (forall v lf, sp' !! v = Some lf -> base !! v = Some lf \/ heap_vpn v \/ l_user lf = true /\ v < 2 ^ 26) /\
  (forall p, VirtRange.contains HEAP_RANGE p -> page_backed w' p <-> page_backed w p) /\
  forall a n, HEAP_START <= a -> a + n <= HEAP_END -> zeroed w a n -> zeroed w' a n.
Proof.
  intros Hcl Hs Hk Hbase Hpriv Hheap Honly [Hk' Hcap Hsub Hown Hsy Huser Hfresh].
  assert (forall v lf, heap_vpn v -> sp' !! v = Some lf -> sp !! v = Some lf) as Hold.
  { intros v lf Hv%heap_vpn_high [?|[_ Hlow]]%Huser; [done|lia]. }
  assert (heap_frames T' sp' l') as Hheap'.
  { intros v lf Hv Hlf%Hold; [|done]. destruct (Hheap v lf Hv Hlf) as (fr & Hfr & Hr). exists fr. by split; [apply Hown|]. }
  split; [|split; [by etrans|split; [|split]]].
  - split; [by rewrite Hcap|]. split; [by apply Hsy|]. exists T', sp', l'. split; [done|]. split; [done|].
    split; [|by split; [done|left]]. intros v v' lf lf' Hv Hlf Hlf' Heq. apply Hold in Hlf; [|done].
    eapply Hpriv; [exact Hv|exact Hlf| |exact Heq]. by apply (Hfresh v lf v' lf').
  - intros v lf [[?|?]%Honly|?]%Huser; auto.
  - intros p (Hpu & Hpc & Hpr)%heap_pages. assert (heap_vpn (vpn_of p)) as Hv by (by exists p).
    rewrite (page_backed_iff root l1 l0 T' sp' l' w' p Hk'), (page_backed_iff root l1 l0 T sp l w p Hk), Hpc.
    split; intros (? & ? & f & Hf); (split; [done|split; [done|exists f]]); [by apply Hold|by eapply lookup_weaken].
  - intros a n Ha Han Hz x Hx. destruct (Hz x Hx) as (f & pa & Hf & Hl & H0).
    assert (HEAP_START <= x < HEAP_END) as Hxr by lia.
    exists f, pa. pose proof Hf as Hlf. unfold translation in Hlf. rewrite (translate_represented root l1 l0 _ _ _ _ _ Hk) in Hlf.
    destruct (canonical x) eqn:Hc; [|done].
    destruct (Hheap (vpn_of x) _ (ex_intro _ x (conj Hxr eq_refl)) Hlf) as (fr & Hfr & Hrep & Heq).
    assert (translation w' x = Some (leaf_for f ReadWrite Supervisor)) as Ht'.
    { unfold translation. rewrite (translate_represented root l1 l0 _ _ _ _ _ Hk'), Hc. by eapply lookup_weaken. }
    destruct Hl as (Hus & lf & Hlf' & ->). unfold translation in Hf. rewrite Hf in Hlf'. injection Hlf' as <-.
    split; [done|]. split; [split; [done|]; by eexists|].
    pose proof (representable_ppn _ Hrep) as [_ Hppn].
    destruct (Hown fr Hfr) as [_ Hmem]. rewrite Hmem; [exact H0|]. rewrite Heq. cbn [leaf_for l_ppn]. rewrite Hppn.
    unfold in_frame. pose proof (Z.mod_pos_bound x FRAME_SIZE ltac:(done)). lia.
Qed.

End memory.

(** ** [load_init] *)

Section system.
Context {W F : Type} `{Environment W} `{FrameAllocator F} (root l1 l0 : Z).

Abbreviation system := (system W F).

Implicit Types s : system.

(** What the installed capabilities act on. *)
Definition view (m : MemoryState F) s : KernelPaging.t * machine * F := (KAllocator.paging m, memory_of s, KAllocator.frames m).

Lemma mapped_store s va v m' :
  store_word va v (memory_of s) = (Ok tt, m') -> on_mapped (E:=LoadError) (store_word va v) s = (Ok tt, set_memory m' s).
Proof. intros Hst. unfold on_mapped, zoom. by rewrite (infallible_ok _ _ _ _ Hst). Qed.

(** Clearing an element is clearing its two words. *)
Lemma clear_element base m s a n :
  backing_inv root l1 l0 base (view m s) -> HEAP_START <= a -> 0 <= n -> a + n + 16 <= HEAP_END -> (a + n) mod 16 = 0 ->
  page_backed (view m s) (frame_floor (a + n)) -> page_backed (view m s) (frame_floor (a + n + 8)) ->
  zeroed (view m s) a n ->
  exists m', (let* _ := on_mapped (E:=LoadError) (store_word (a + n) 0) in on_mapped (store_word (a + n + 8) 0)) s =
      (Ok tt, set_memory m' s) /\
    backing_inv root l1 l0 base (view m (set_memory m' s)) /\ zeroed (view m (set_memory m' s)) a (n + 16) /\
    forall p, page_backed (view m (set_memory m' s)) p <-> page_backed (view m s) p.
Proof.
  intros Hb Ha Hn Hend Hal Hp1 Hp2 Hz. assert ((a + n) mod 8 = 0 /\ (a + n + 8) mod 8 = 0) as [Hal1 Hal2]
    by (Z.div_mod_to_equations; lia).
  destruct (clear_word root l1 l0 base (view m s) a n Hb Ha Hn ltac:(lia) Hal1 Hp1 Hz) as (m1 & H1 & Hb1 & Hz1 & Hpb1).
  destruct (clear_word root l1 l0 base (view m (set_memory m1 s)) a (n + 8) Hb1 Ha ltac:(lia) ltac:(lia))
    as (m2 & H2 & Hb2 & Hz2 & Hpb2); [by rewrite Z.add_assoc|rewrite Z.add_assoc; by apply Hpb1|exact Hz1|].
  rewrite Z.add_assoc in H2. exists m2. split.
  { rewrite (bind_ok _ _ _ _ _ (mapped_store s _ _ m1 H1)). exact (mapped_store (set_memory m1 s) _ _ m2 H2). }
  split; [exact Hb2|]. split; [by replace (n + 16) with (n + 8 + 8) by lia|].
  intros p. etrans; [apply (Hpb2 p)|apply (Hpb1 p)].
Qed.

Lemma zero_elements_spec base m count : forall s a n,
  backing_inv root l1 l0 base (view m s) -> HEAP_START <= a -> 0 <= n -> a + n + 16 * Z.of_nat count <= HEAP_END ->
  (a + n) mod 16 = 0 ->
  (forall x, a <= x < a + n + 16 * Z.of_nat count -> page_backed (view m s) (frame_floor x)) ->
  zeroed (view m s) a n ->
  exists m', zero_elements count (a + n) s = (Ok tt, set_memory m' s) /\
    backing_inv root l1 l0 base (view m (set_memory m' s)) /\
    zeroed (view m (set_memory m' s)) a (n + 16 * Z.of_nat count) /\
    forall p, page_backed (view m (set_memory m' s)) p <-> page_backed (view m s) p.
Proof.
  induction count as [|count IH]; intros s a n Hb Ha Hn Hend Hal Hp Hz.
  { exists (memory_of s). cbn [zero_elements]. rewrite Z.mul_0_r, Z.add_0_r. by destruct s. }
  destruct (clear_element base m s a n Hb Ha Hn ltac:(lia) Hal) as (m1 & H1 & Hb1 & Hz1 & Hpb1);
    [apply Hp; lia..|exact Hz|].
  destruct (IH (set_memory m1 s) a (n + 16) Hb1 Ha ltac:(lia) ltac:(lia)) as (m2 & H2 & Hb2 & Hz2 & Hpb2).
  - rewrite Z.add_assoc, Z.add_mod, Hal by done. done.
  - intros x Hx. apply Hpb1, Hp. lia.
  - exact Hz1.
  - exists m2. cbn [zero_elements]. rewrite bind_assoc, (bind_ok _ _ _ _ _ H1), <- Z.add_assoc.
    split; [exact H2|]. split; [exact Hb2|]. replace (n + 16 * Z.of_nat (S count)) with (n + 16 + 16 * Z.of_nat count) by lia.
    split; [exact Hz2|]. intros p. etrans; [apply (Hpb2 p)|apply (Hpb1 p)].
Qed.

(** The heap's invariant depends on its backed pages only. *)
Lemma heap_moved base base' h (w w' : KernelPaging.t * machine * F) :
  HeapProofs.heap_ok (backing_inv root l1 l0 base) HEAP_RANGE page_backed h w -> backing_inv root l1 l0 base' w' ->
  (forall p, VirtRange.contains HEAP_RANGE p -> page_backed w' p <-> page_backed w p) ->
  HeapProofs.heap_ok (backing_inv root l1 l0 base') HEAP_RANGE page_backed h w'.
Proof.
  intros [[Hr Hp Hm Ha _ Hb] Hc] Hi Hpb. split; [|done]. split; try done.
  intros p Hcp Hap. by rewrite Hpb, Hb.
Qed.

(** The stack block of the process. *)
Definition stack_layout : Layout := mkLayout STACK_SIZE 16.

Lemma stack_layout_ok : layout_ok stack_layout.
Proof. split; [vm_compute; congruence|]. split; [by exists 4|]. vm_compute. congruence. Qed.

(** A loaded process: its registers, its zeroed kernel stack in what was left
    of the heap, its image and its user stack, and no other user page. *)
Record loaded (base : space) (m : MemoryState F) (i : Image.t) (p : Process) (w : KernelPaging.t * machine * F) : Prop := {
  ld_context : context p = UserContext_new (Image.entry i) (VirtAddr.new USER_STACK_TOP);
  ld_aligned : kernel_stack p mod 16 = 0;
  ld_block : HEAP_START <= kernel_stack p /\ kernel_stack p + STACK_SIZE <= KernelHeap.cursor (KAllocator.heap m) /\
    kernel_stack p + STACK_SIZE <= HEAP_END;
  ld_zeroed : zeroed w (kernel_stack p) STACK_SIZE;
  ld_image : user_bytes w (Image.base i) (Image.bytes i) ReadExecute;
  ld_stack : user_bytes w USER_STACK_BOTTOM (replicate (Z.to_nat STACK_SIZE) x00) ReadWrite;
  ld_user va lf : is_usize va -> translation w va = Some lf -> l_user lf = true ->
    base !! vpn_of va = Some lf \/ Image.base i <= va < frame_ceil (Image.base i + zlen (Image.bytes i)) \/
    USER_STACK_BOTTOM <= va < USER_STACK_TOP;
}.

(** The user pages before loading are those of the base. *)
Lemma user_of_base base (w : KernelPaging.t * machine * F) va lf :
  backing_inv root l1 l0 base w -> is_usize va -> translation w va = Some lf -> l_user lf = true ->
  base !! vpn_of va = Some lf.
Proof.
  intros (_ & _ & T & sp & l & Hk & _ & _ & Hheap & Honly) Hva Ht Hu. unfold translation in Ht.
  rewrite (translate_represented root l1 l0 _ _ _ _ _ Hk) in Ht. destruct (canonical va); [|done].
  destruct (Honly _ _ Ht) as [?|Hv]; [done|]. by destruct (Hheap _ _ Hv Ht) as (fr & _ & _ & ->).
Qed.

(** Claimed before: the call changes nothing. *)
Definition claimed_state (s : system) : system := mkSystem (core s) (memory_of s) (busy s) (slot s) true.

Lemma load_init_refused image s i :
  Image.parse image IMAGE_LIMIT = Ok i -> CLAIMED s = true -> load_init image s = (Err ProcessAlreadyClaimed, s).
Proof. intros Hp Hc. unfold load_init. rewrite Hp. destruct s. cbn in Hc. by subst. Qed.

(** The kernel stack starts at most five pages below the backed part of the heap. *)
Definition stack_reach : nat := 5.

Lemma stack_pages_needed base h (w : KernelPaging.t * machine * F) :
  HeapProofs.heap_ok (backing_inv root l1 l0 base) HEAP_RANGE page_backed h w ->
  KernelHeap.mapped_start h <=
    frame_floor (HeapProofs.block_address h stack_layout) + Z.of_nat stack_reach * FRAME_SIZE.
Proof.
  intros [[_ _ _ Ha _ _] [Hc _]]. revert Ha Hc. unfold HeapProofs.block_address, stack_layout, stack_reach, frame_floor.
  cbn [lsize lalign]. change STACK_SIZE with 16384. unfold FRAME_SIZE. generalize (KernelHeap.mapped_start h), (KernelHeap.cursor h).
  intros. Z.div_mod_to_equations. lia.
Qed.

(** The stack fits the heap and its pages can be backed, with [k] to spare. *)
Definition stack_room (k : nat) m s : Prop :=
  HeapProofs.fits HEAP_RANGE (KAllocator.heap m) stack_layout /\ frames_left (stack_reach + k) (view m s).

(** The kernel stack: allocated and cleared. *)
Lemma stack_region base s m :
  serving root l1 l0 base s m ->
  exists a s1, alloc stack_layout s = (Ok a, s1) /\ quiet s s1 /\
    ((a = 0 /\ (forall k, ~ stack_room k m s) /\ exists m1, serving root l1 l0 base s1 m1) \/
     (a <> 0 /\ exists m1 mem2, (forall k, stack_room k m s -> frames_left k (view m1 (set_memory mem2 s1))) /\
        zero_elements (Z.to_nat KERNEL_STACK_ELEMENTS) a s1 = (Ok tt, set_memory mem2 s1) /\
        serving root l1 l0 base (set_memory mem2 s1) m1 /\ a mod 16 = 0 /\ HEAP_START <= a /\
        a + STACK_SIZE <= KernelHeap.cursor (KAllocator.heap m) /\ a + STACK_SIZE <= HEAP_END /\
        zeroed (view m1 (set_memory mem2 s1)) a STACK_SIZE)).
Proof.
  intros (Hb & Hs & Hm & Hok).
  destruct (HeapProofs.allocate_spec _ _ _ (KAllocator.heap m) _ stack_layout Hok stack_layout_ok) as (o & h1 & b1 & Ha & Hok1 & Hms & Ho).
  change (KernelHeap.allocate (B:=KernelHeapBacking F) stack_layout (parts m s) = (o, (h1, b1))) in Ha.
  destruct (alloc_spec stack_layout s m o (h1, b1) Hb Hs Hm Ha ltac:(by destruct o)) as (s1 & Hal & Hq & Hsl & Hme).
  assert (forall k, stack_room k m s -> (exists a, o = Ok a) /\ frames_left k b1) as Hroom.
  { intros k [Hfit Hleft].
    destruct (HeapProofs.allocate_supplied (backing_inv root l1 l0 base) HEAP_RANGE page_backed frames_left (KAllocator.heap m)
      (view m s) stack_layout stack_reach k Hok stack_layout_ok ltac:(done) Hfit Hleft (stack_pages_needed base _ _ Hok))
      as (h' & b' & Ha' & Hk).
    change (KernelHeap.allocate (B:=KernelHeapBacking F) stack_layout (parts m s) =
      (Ok (HeapProofs.block_address (KAllocator.heap m) stack_layout), (h', b'))) in Ha'.
    rewrite Ha in Ha'. injection Ha' as -> -> ->. split; [by eexists|done]. }
  cbn [fst snd] in Hsl, Hme. destruct b1 as [[p1 mem1] f1]. cbn [fst snd] in Hsl, Hme.
  eexists _, s1. split; [exact Hal|]. split; [exact Hq|].
  assert (forall mem2, HeapProofs.heap_ok (backing_inv root l1 l0 base) HEAP_RANGE page_backed h1 (p1, mem2, f1) ->
    serving root l1 l0 base (set_memory mem2 s1) (mkMemory h1 p1 f1)) as Hserv.
  { intros mem2 Hok2. split; [cbn [set_memory busy]; by rewrite (q_busy _ _ Hq)|].
    split; [exact (quiet_status _ _ Hq Hs)|]. split; [exact Hsl|]. exact Hok2. }
  destruct o as [a|e| |]; try done.
  2:{ left. split; [done|]. split; [by intros k [[a Ha'] _]%Hroom|]. exists (mkMemory h1 p1 f1). pose proof (Hserv mem1 Hok1) as Hs1.
      assert (set_memory mem1 s1 = s1) as Heq by (rewrite <- Hme; by destruct s1). by rewrite Heq in Hs1. }
  right. destruct Ho as (_ & [Hle Hfit] & Ha0 & Hcur & Hmod & Hbl & Hfb). rewrite <- Ha0 in Hfit.
  change (lsize stack_layout) with STACK_SIZE in *. change (lalign stack_layout) with 16 in *.
  change (VirtRange.start HEAP_RANGE) with HEAP_START in Hfit.
  assert (a + STACK_SIZE <= HEAP_END) as Hend by (pose proof (HeapProofs.h_cursor _ _ _ _ _ Hok) as [_ Hc];
    change (VirtRange.end_ HEAP_RANGE) with HEAP_END in Hc; lia).
  assert (0 < HEAP_START) by done. split; [lia|].
  assert (view (mkMemory h1 p1 f1) s1 = (p1, mem1, f1)) as Hview by (unfold view; cbn; by rewrite Hme).
  destruct (zero_elements_spec base (mkMemory h1 p1 f1) (Z.to_nat KERNEL_STACK_ELEMENTS) s1 a 0) as (mem2 & Hz & Hb2 & Hz2 & Hpb2).
  - rewrite Hview. apply (HeapProofs.s_inv _ _ _ _ _ (HeapProofs.h_suffix _ _ _ _ _ Hok1)).
  - exact Hfit.
  - lia.
  - change (16 * Z.of_nat (Z.to_nat KERNEL_STACK_ELEMENTS)) with STACK_SIZE. lia.
  - by rewrite Z.add_0_r.
  - change (16 * Z.of_nat (Z.to_nat KERNEL_STACK_ELEMENTS)) with STACK_SIZE. intros x Hx. rewrite Hview. apply Hfb. lia.
  - intros x Hx. lia.
  - exists (mkMemory h1 p1 f1), mem2. rewrite Z.add_0_r in Hz. rewrite Z.add_0_l in Hz2.
    change (16 * Z.of_nat (Z.to_nat KERNEL_STACK_ELEMENTS)) with STACK_SIZE in Hz2.
    split; [intros k Hk; apply (Hroom k Hk)|].
    split; [exact Hz|]. split; [|by split_and!]. apply Hserv. apply (heap_moved base base h1 (p1, mem1, f1)); [exact Hok1|exact Hb2|].
    intros p _. rewrite <- Hview. apply Hpb2.
Qed.

(** A failed or finished load leaves an allocator that serves, over the pages it
    had and user pages. *)
Definition still_serving (base : space) (s' : system) (m' : MemoryState F) : Prop :=
  exists base', serving root l1 l0 base' s' m' /\ base ⊆ base' /\
    forall v lf, base' !! v = Some lf -> base !! v = Some lf \/ heap_vpn v \/ l_user lf = true /\ v < 2 ^ 26.

Lemma serving_still base s m : serving root l1 l0 base s m -> still_serving base s m.
Proof. intros Hs. exists base. split; [done|]. split; [done|]. auto. Qed.

(** Nothing is mapped where the pages of the process go. *)
Definition pages_free (base : space) (i : Image.t) : Prop :=
  forall page, In page (user_pages i) -> base !! vpn_of (fst page) = None.

(** Loading the user pages under the gate. *)
Lemma load_under_gate base s m i limit a :
  serving root l1 l0 base s m -> valid limit i -> limit <= USER_STACK_BOTTOM ->
  HEAP_START <= a -> a + STACK_SIZE <= HEAP_END -> zeroed (view m s) a STACK_SIZE ->
  exists o s' m', with_paging (load_user i) s = (Ok (Ok o), s') /\ quiet s s' /\ still_serving base s' m' /\
    match o with
    | Ok _ => user_loaded i (view m s) (view m' s') /\ zeroed (view m' s') a STACK_SIZE
    | Err e => (exists e', e = Paging e') /\
        ~ (frames_left (length (user_pages i)) (view m s) /\ pages_free base i)
    | _ => False
    end.
Proof.
  intros (Hb & Hs & Hm & Hok) Hv Hlim Ha Hend Hz.
  pose proof (HeapProofs.s_inv _ _ _ _ _ (HeapProofs.h_suffix _ _ _ _ _ Hok))
    as (Hcl & Hsync & T & sp & l & Hk & Hbase & Hpriv & Hheap & Honly).
  destruct (load_user_spec root l1 l0 T sp l (view m s) limit i Hk Hv Hlim) as (o & w' & T' & sp' & l' & Hload & Hadv & Ho).
  destruct (advance_backing root l1 l0 base T sp l (view m s) T' sp' l' w' Hcl Hsync Hk Hbase Hpriv Hheap Honly Hadv)
    as (Hinv & Hsub & Hnew & Hpb & Hzk).
  destruct (with_paging_spec (load_user i) s m o w' Hb Hs Hm Hload ltac:(by destruct o)) as (s' & Hw & Hq & Hsl & Hme).
  set (m' := mkMemory (KAllocator.heap m) (capability w') (snd w')) in *.
  assert (view m' s' = w') as Hview by (unfold view; cbn; rewrite Hme; by destruct w' as [[? ?] ?]).
  exists o, s', m'. split; [exact Hw|]. split; [exact Hq|]. split.
  - exists sp'. split; [|by split]. split; [by rewrite (q_busy _ _ Hq)|]. split; [exact (quiet_status _ _ Hq Hs)|].
    split; [exact Hsl|]. change (parts m' s') with (KAllocator.heap m, view m' s').
    change (HeapProofs.heap_ok (backing_inv root l1 l0 sp') HEAP_RANGE page_backed (KAllocator.heap m) (view m' s')).
    rewrite Hview. by apply (heap_moved base sp' _ (view m s)).
  - rewrite Hview. destruct o as [[]|e| |]; try done; [split; [done|]; by apply Hzk|].
    split; [by destruct Ho as (e' & -> & _); exists e'|]. intros [Hleft Hfree].
    destruct (load_user_succeeds root l1 l0 T sp l (view m s) limit i Hk Hv Hlim Hleft) as (w2 & Hok2); [|congruence].
    intros page Hin. destruct (sp !! vpn_of (fst page)) as [lf|] eqn:Hlf; [|done].
    apply Honly in Hlf as [Hlf|Hlf%heap_vpn_high]; [by rewrite (Hfree page Hin) in Hlf|].
    destruct (user_page_address limit i page Hv Hlim Hin). lia.
Qed.

(** All that [load_init] needs: room for the kernel stack in the heap, frames
    for the pages of the stack, the image and the user stack with their tables,
    and no page where the user pages go. *)
Record room m s i : Prop := {
  rm_stack : stack_room (length (user_pages i)) m s;
  rm_free page : In page (user_pages i) -> translation (view m s) (fst page) = None;
}.

Lemma room_free base m s limit i :
  serving root l1 l0 base s m -> valid limit i -> limit <= USER_STACK_BOTTOM -> room m s i -> pages_free base i.
Proof.
  intros (_ & _ & _ & Hok) Hv Hlim [_ Hfree] page Hin.
  pose proof (HeapProofs.s_inv _ _ _ _ _ (HeapProofs.h_suffix _ _ _ _ _ Hok)) as (_ & _ & T & sp & l & Hk & Hbase & _).
  specialize (Hfree page Hin). unfold translation in Hfree.
  change (kernel_state root l1 l0 T sp l (view m s)) in Hk. rewrite (translate_represented root l1 l0 _ _ _ _ _ Hk) in Hfree.
  destruct (user_page_address limit i page Hv Hlim Hin) as [_ Hc]. rewrite Hc in Hfree.
  destruct (base !! vpn_of (fst page)) as [lf|] eqn:Hlf; [|done]. by rewrite (lookup_weaken _ _ _ _ Hlf Hbase) in Hfree.
Qed.

(** [load_init] on a serving allocator. *)
Lemma load_init_spec image base s m :
  serving root l1 l0 base s m ->
  exists o s', load_init image s = (o, s') /\ same (core s') (core s) /\
  match o with
  | Ok p => CLAIMED s = false /\ CLAIMED s' = true /\
      exists i m', valid IMAGE_LIMIT i /\ image = encode i /\ still_serving base s' m' /\
        loaded base m i p (view m' s')
  | Err e =>
      Image.parse image IMAGE_LIMIT = Err e /\ s' = s \/
      exists i, Image.parse image IMAGE_LIMIT = Ok i /\
      (CLAIMED s = true /\ e = ProcessAlreadyClaimed /\ s' = s \/
       CLAIMED s = false /\ CLAIMED s' = true /\ (exists m', still_serving base s' m') /\ ~ room m s i /\
         (e = KernelStackAllocation \/ exists e', e = Paging e'))
  | _ => False
  end.
Proof.
  intros Hserv. assert (is_usize IMAGE_LIMIT) as Hl by (vm_compute; split; congruence).
  pose proof (parse_spec image IMAGE_LIMIT Hl) as Hparse.
  assert (same (core s) (core s)) as Hsame by done.
  destruct (Image.parse image IMAGE_LIMIT) as [i|e| |] eqn:Hp; [|by (exists (Err e), s; unfold load_init; rewrite Hp; split; [|split; [|left]])|done|done].
  destruct Hparse as [Hv Henc]. destruct (CLAIMED s) eqn:Hc.
  { exists (Err ProcessAlreadyClaimed), s. split; [by apply load_init_refused with i|]. split; [done|].
    right. exists i. split; [done|]. by left. }
  set (s0 := claimed_state s).
  assert (serving root l1 l0 base s0 m) as Hserv0 by exact Hserv.
  destruct (stack_region base s0 m Hserv0) as (a & s1 & Hal & Hq1 & Hstack).
  unfold load_init. rewrite Hp. rewrite (bind_ok _ _ _ i s) by done. rewrite (bind_ok _ _ _ false s0) by (unfold swap_claimed, bind, get, put, ret; by rewrite Hc).
  change (mkLayout STACK_SIZE 16) with stack_layout. rewrite (bind_ok _ _ _ a s1) by (by apply infallible_ok).
  destruct Hstack as [(-> & Hnone & m1 & Hs1)|(Ha0 & m1 & mem2 & Hleft & Hz & Hs2 & Hmod & Hge & Hcur & Hend & Hzero)].
  { exists (Err KernelStackAllocation), s1. split; [done|]. split; [apply (q_core _ _ Hq1)|]. right. exists i. split; [done|].
    right. split; [done|]. split; [by rewrite (q_claimed _ _ Hq1)|]. split; [by exists m1; apply serving_still|].
    split; [intros [Hr _]; by apply (Hnone _ Hr)|by left]. }
  rewrite (proj2 (Z.eqb_neq a 0)) by done. rewrite (bind_ok _ _ _ _ _ Hz). set (s2 := set_memory mem2 s1) in *.
  destruct (load_under_gate base s2 m1 i IMAGE_LIMIT a Hs2 Hv ltac:(vm_compute; congruence) Hge Hend Hzero)
    as (o & s3 & m3 & Hw & Hq3 & Hs3 & Ho).
  fold (load_user i). rewrite (bind_ok _ _ _ (Ok o) s3) by (by apply infallible_ok).
  rewrite (bind_ok _ _ _ o s3) by done.
  assert (same (core s3) (core s)) as Hcore by (eapply same_trans; [apply (q_core _ _ Hq3)|apply (q_core _ _ Hq1)]).
  assert (CLAIMED s3 = true) as Hcl3 by (rewrite (q_claimed _ _ Hq3); exact (q_claimed _ _ Hq1)).
  destruct o as [[]|e| |]; try done.
  2:{ exists (Err e), s3. split; [done|]. split; [exact Hcore|]. right. exists i. split; [done|]. right.
      split; [done|]. split; [exact Hcl3|]. split; [by exists m3|]. destruct Ho as [He Hno]. split; [|by right].
      intros Hr. apply Hno. split; [by apply Hleft, Hr|].
      apply (room_free base m s IMAGE_LIMIT i Hserv Hv ltac:(vm_compute; congruence) Hr). }
  destruct Ho as [[Himg Hstk Honly] Hz3]. eexists _, s3. split; [reflexivity|]. split; [exact Hcore|]. split; [done|].
  split; [exact Hcl3|]. exists i, m3. split; [done|]. split; [done|]. split; [done|]. split; try done.
  intros va lf Hva Ht Hu. destruct (Honly va lf Hva Ht) as [Ht2|?]; [left|by right].
  destruct Hs2 as (_ & _ & _ & Hok2).
  exact (user_of_base base (view m1 s2) va lf (HeapProofs.s_inv _ _ _ _ _ (HeapProofs.h_suffix _ _ _ _ _ Hok2)) Hva Ht2 Hu).
Qed.

End system.
