(* ===== verification/KOwnership.v ===== *)
(** * Frames are linear and permissions are types

    [AllocatedFrame] is moved, never copied, and [PagePermissions] has no value
    that allows both writing and execution.  A client that holds the paging
    capability and the frame allocator and calls them in any order, moving
    frames as the types require, keeps every frame in one place: in the
    allocator, in the client's hands, in a table, or behind one address. *)

From Stdlib Require Import ZArith Lia Bool.
From Stdlib Require Import Strings.Byte.
From stdpp Require Import base list numbers gmap.
From S2P Require Import Prelude FdtScan KMemory KBootAlloc KMachine KPaging KPte KTables KMapProofs.
From S2P Require Import KHeap KKernelPaging KWindow KKernelProofs KBackingProofs KKernelSample KLoadProofs.
Local Open Scope Z_scope.

(** The calls of a client; a frame is named by its place in the client's hands. *)
Inductive operation :=
| Take
| MapKernel (va : Z) (i : nat) (permissions : PagePermissions)
| MapUser (va : Z) (i : nat) (permissions : PagePermissions)
| Clear (i : nat)
| Copy (i : nat) (bytes : list byte)
| BackHeap (va : Z).

(** Addresses are machine words, and a copy is of at most one page, as the
    callers ensure. *)
Definition proper (op : operation) : Prop :=
  match op with
  | MapKernel va _ _ | MapUser va _ _ | BackHeap va => is_usize va
  | Copy _ bytes => zlen bytes <= FRAME_SIZE
  | Take | Clear _ => True
  end.

Section client.
Context {F : Type} `{FrameAllocator F}.

Abbreviation state := (KernelPaging.t * machine * F)%type.
Abbreviation client := (list PhysFrame.t * state)%type.

Definition returned {E A} (o : outcome E A) : bool :=
  match o with Ok _ | Err _ => true | Panic | OutOfFuel => false end.

(** One call, with whether it returned.  Mapping moves the frame away. *)
Definition on_hand {A} (i : nat) (hand' : list PhysFrame.t) (call : AllocatedFrame.t -> M state PagingError A)
    (c : client) : bool * client :=
  match fst c !! i with
  | Some frame => let '(o, w) := call (AllocatedFrame.mk frame) (snd c) in (returned o, (hand', w))
  | None => (true, c)
  end.

Definition perform (op : operation) (c : client) : bool * client :=
  let '(hand, w) := c in
  match op with
  | Take =>
      let '(o, w') := next_frame w in
      (returned o, (match o with Ok (Some frame) => AllocatedFrame.frame frame :: hand | _ => hand end, w'))
  | MapKernel va i permissions =>
      on_hand i (delete i hand) (fun frame => KernelPaging.map_page va frame permissions) c
  | MapUser va i permissions =>
      on_hand i (delete i hand) (fun frame => KernelPaging.map_user_page va frame permissions) c
  | Clear i => on_hand i hand (fun frame => on_access (KernelPaging.zero_frame frame)) c
  | Copy i bytes =>
      on_hand i hand (fun frame => on_access (KernelPaging.with_frame (AllocatedFrame.frame frame)
        (fun alias => copy_bytes (VirtAddr.as_usize alias) bytes))) c
  | BackHeap va => let '(o, w') := backing_map_page va w in (returned o, (hand, w'))
  end.

Fixpoint perform_all (ops : list operation) (c : client) : bool * client :=
  match ops with
  | [] => (true, c)
  | op :: ops =>
      let '(ok, c) := perform op c in
      let '(ok', c) := perform_all ops c in
      (ok && ok', c)
  end.

Lemma in_sublist {A} (x : A) l l' : l `sublist_of` l' -> In x l -> In x l'.
Proof. rewrite <- !list_elem_of_In. intros Hs Hx. by eapply elem_of_sublist. Qed.

Lemma Forall_sublist {A} (P : A -> Prop) l l' : l `sublist_of` l' -> Forall P l' -> Forall P l.
Proof. rewrite !List.Forall_forall. intros Hs HP x Hx. by eapply HP, in_sublist. Qed.

(** ** The invariant *)

Section state.
Context (root l1 l0 : Z).

Abbreviation kernel_state := (kernel_state root l1 l0).

(** A page whose frame is a client's: it is behind that address only, and its
    permissions and privilege are typed. *)
Definition granted (T : table_map) (sp : space) (l : list PhysFrame.t) (v : Z) (lf : leaf) : Prop :=
  (forall v' lf', sp !! v' = Some lf' -> l_ppn lf' = l_ppn lf -> v' = v) /\
  exists frame permissions privilege,
    owned T l frame /\ lf = leaf_for (PhysFrame.start frame) permissions privilege /\
    (privilege = User <-> v < 2 ^ 26).

Record linear (sp0 : space) (T : table_map) (sp : space) (l hand : list PhysFrame.t) (w : state) : Prop := {
  ln_state : kernel_state T sp l w;
  ln_hand : NoDup hand;
  ln_owned : Forall (owned T l) hand;
  ln_unmapped : unmapped sp hand;
  ln_base : sp0 ⊆ sp;
  ln_granted v lf : sp !! v = Some lf -> sp0 !! v = Some lf \/ granted T sp l v lf;
}.

Lemma granted_kept T sp l T' l' v lf :
  (forall frame, owned T l frame -> owned T' l' frame) -> granted T sp l v lf -> granted T' sp l' v lf.
Proof. intros Ho (He & frame & p & q & Hf & Hr). split; [done|]. exists frame, p, q. auto. Qed.

(** A call that maps nothing. *)
Lemma linear_kept sp0 T sp l hand w T' l' hand' w' :
  linear sp0 T sp l hand w -> kernel_state T' sp l' w' -> (forall frame, owned T l frame -> owned T' l' frame) ->
  hand' `sublist_of` hand -> linear sp0 T' sp l' hand' w'.
Proof.
  intros [Hk Hn Ho Hu Hb Hg] Hk' Hown Hsub. split; try done.
  - by eapply sublist_NoDup.
  - apply (Forall_sublist _ _ _ Hsub). by eapply list.Forall_impl.
  - intros v lf fr Hv Hin. apply (Hu v lf fr Hv). by eapply in_sublist.
  - intros v lf [Hv|Hv]%Hg; [by left|right]. by eapply granted_kept.
Qed.

(** A call that maps one page to a frame of its own. *)
Lemma linear_insert sp0 T sp l hand w T' l' hand' w' v fr permissions privilege :
  linear sp0 T sp l hand w -> (forall frame, owned T l frame -> owned T' l' frame) ->
  let sp' := <[v := leaf_for (PhysFrame.start fr) permissions privilege]> sp in
  kernel_state T' sp' l' w' -> sp !! v = None -> owned T' l' fr -> unmapped sp [fr] ->
  ~ In fr hand' -> hand' `sublist_of` hand -> (privilege = User <-> v < 2 ^ 26) ->
  linear sp0 T' sp' l' hand' w'.
Proof.
  intros [Hk Hn Ho Hu Hb Hg] Hown sp' Hk' Hv Hfr Hnew Hni Hsub Hpriv.
  assert (Forall (owned T l) hand') as Ho' by (by apply (Forall_sublist _ _ _ Hsub)).
  split; try done.
  - by eapply sublist_NoDup.
  - by eapply list.Forall_impl.
  - apply unmapped_insert; [|apply Hfr| |done].
    + intros v' lf g Hlf Hin. apply (Hu v' lf g Hlf). by eapply in_sublist.
    + eapply list.Forall_impl; [exact Ho'|]. intros g Hg'. apply Hg'.
  - etrans; [exact Hb|]. by apply insert_subseteq.
  - intros x lf [[<- <-]|[Hne Hx]]%lookup_insert_Some.
    + right. split; [|by exists fr, permissions, privilege].
      intros x' lf' [[<- _]|[_ Hx']]%lookup_insert_Some Heq; [done|].
      destruct (Hnew x' lf' fr Hx' (or_introl eq_refl)). exact Heq.
    + destruct (Hg x lf Hx) as [?|[He (g & p & q & Hog & -> & Hq)]]; [by left|right].
      split; [|exists g, p, q; auto]. intros x' lf' [[<- <-]|[_ Hx']]%lookup_insert_Some Heq; [|by eapply He].
      destruct (Hnew x _ fr Hx (or_introl eq_refl)). symmetry. exact Heq.
Qed.

(** ** Each call *)

(** A frame that is not a table holds no entry of the window. *)
Lemma owned_off T sp l w fr :
  kernel_state T sp l w -> owned T l fr ->
  Forall (off_frame (PhysFrame.start fr)) (window_slot l0 :: window_busy root l1 l0).
Proof.
  intros [[[_ Ht] _ _] Hr H1 H0 _] ((_ & Hm & _) & _ & Hun).
  assert (forall p f i, T !! p = Some f -> 0 <= i < 512 -> off_frame (PhysFrame.start fr) (f + 8 * i)) as Hoff.
  { intros p f i Hp Hi. pose proof (t_frame _ _ _ Ht p f Hp) as [[_ Hal] _].
    assert (f <> PhysFrame.start fr) by (intros ->; by apply (Hun p)).
    unfold off_frame, FRAME_SIZE in *. Z.div_mod_to_equations. lia. }
  apply List.Forall_forall. intros x [<-|[<-|[<-|[<-|[]]]]]; by eapply Hoff.
Qed.

(** Writing a frame in hand. *)
Lemma written_linear sp0 T sp l hand w w' :
  linear sp0 T sp l hand w -> kernel_state T sp l w' -> linear sp0 T sp l hand w'.
Proof. intros Hl Hk. by eapply linear_kept. Qed.

Lemma on_hand_linear {A} sp0 T sp l hand w i hand' (call : AllocatedFrame.t -> M state PagingError A) :
  linear sp0 T sp l hand w ->
  (forall fr, hand !! i = Some fr -> owned T l fr ->
     exists o w' T' sp' l', call (AllocatedFrame.mk fr) w = (o, w') /\ returned o = true /\
       linear sp0 T' sp' l' hand' w') ->
  exists c' T' sp' l', on_hand i hand' call (hand, w) = (true, c') /\ linear sp0 T' sp' l' (fst c') (snd c').
Proof.
  intros Hl Hcall. unfold on_hand. cbn [fst snd]. destruct (hand !! i) as [fr|] eqn:Hi.
  - pose proof (ln_owned _ _ _ _ _ _ Hl) as Ho. rewrite List.Forall_forall in Ho.
    destruct (Hcall fr eq_refl) as (o & w' & T' & sp' & l' & -> & -> & Hl').
    + apply Ho, list_elem_of_In. by eapply list_elem_of_lookup_2.
    + eexists _, T', sp', l'. by split.
  - eexists _, T, sp, l. by split.
Qed.

Lemma clear_linear sp0 T sp l hand w fr :
  linear sp0 T sp l hand w -> owned T l fr ->
  exists o w' T' sp' l', on_access (KernelPaging.zero_frame (AllocatedFrame.mk fr)) w = (o, w') /\
    returned o = true /\ linear sp0 T' sp' l' hand w'.
Proof.
  intros Hl Ho. pose proof (ln_state _ _ _ _ _ _ Hl) as Hk. pose proof (owned_off _ _ _ _ _ Hk Ho) as Hoff.
  destruct Ho as (Hfr & _ & Hun), fr as [f]. cbn [PhysFrame.start] in *.
  destruct (Z_lt_le_dec MAX_PHYSICAL_ADDRESS f) as [Hhigh|Hlow].
  - pose proof (s_inv _ _ _ _ (g_settled _ _ _ _ _ _ _ (ks_good _ _ _ _ _ _ _ Hk))) as Hi. destruct w as [[a m] s].
    eexists _, _, T, sp, l. split; [by apply on_access_eq, (access_high (inv:=kernel_inv root l1 l0))|by split].
  - assert (representable f) as Hrep by (split; [split; [apply Hfr|done]|apply Hfr]).
    destruct (zero_step _ _ _ T sp l w f (ks_good _ _ _ _ _ _ _ Hk) Hrep Hun Hoff) as (w' & Hz & Hg & _).
    exists (Ok tt), w', T, sp, l. split; [exact Hz|]. split; [done|]. eapply written_linear; [exact Hl|].
    destruct Hk as [_ ? ? ? ?]. by split.
Qed.

Lemma copy_linear sp0 T sp l hand w fr bytes :
  linear sp0 T sp l hand w -> owned T l fr -> zlen bytes <= FRAME_SIZE ->
  exists o w' T' sp' l', on_access (KernelPaging.with_frame fr
      (fun alias => copy_bytes (VirtAddr.as_usize alias) bytes)) w = (o, w') /\
    returned o = true /\ linear sp0 T' sp' l' hand w'.
Proof.
  intros Hl Ho Hlen. pose proof (ln_state _ _ _ _ _ _ Hl) as Hk. pose proof (owned_off _ _ _ _ _ Hk Ho) as Hoff.
  destruct Ho as (Hfr & _ & Hun), fr as [f]. cbn [PhysFrame.start] in *.
  destruct (Z_lt_le_dec MAX_PHYSICAL_ADDRESS f) as [Hhigh|Hlow].
  - destruct w as [[a m] s]. exists (Err (PhysicalAddressNotRepresentable f)), (a, m, s), T, sp, l.
    split; [|by split]. apply (on_access_eq _ (a, m, s) _ (a, m)). unfold KernelPaging.with_frame.
    unfold bind, get. cbn [fst]. unfold PhysFrame.start_address. cbn [PhysFrame.start].
    by rewrite page_table_entry_high.
  - assert (representable f) as Hrep by (split; [split; [apply Hfr|done]|apply Hfr]).
    destruct (copy_step root l1 l0 T sp l w f bytes Hk Hrep Hun Hlen Hoff) as (w' & Hz & Hk' & _).
    exists (Ok tt), w', T, sp, l. split; [exact Hz|]. split; [done|]. by eapply written_linear.
Qed.

Lemma take_linear sp0 T sp l hand w :
  linear sp0 T sp l hand w ->
  exists c' T' sp' l', perform Take (hand, w) = (true, c') /\ linear sp0 T' sp' l' (fst c') (snd c').
Proof.
  intros Hl. pose proof Hl as [Hk Hn Ho Hu Hb Hg]. unfold perform. destruct l as [|fr l].
  - destruct (next_frame_nil w (g_provides _ _ _ _ _ _ _ (ks_good _ _ _ _ _ _ _ Hk))) as (w' & -> & Hw & Hp).
    eexists _, T, sp, []. split; [done|]. eapply written_linear; [exact Hl|]. by eapply state_exhausted.
  - pose proof (g_provides _ _ _ _ _ _ _ (ks_good _ _ _ _ _ _ _ Hk)) as Hpr.
    destruct (next_frame_cons w fr l Hpr) as (w' & -> & Hw & Hp).
    apply provides_cons in Hpr as (_ & _ & _ & Hfr & Hni).
    destruct (g_fresh _ _ _ _ _ _ _ (ks_good _ _ _ _ _ _ _ Hk) fr (or_introl eq_refl)) as [Hun _].
    eexists _, T, sp, l. split; [done|]. cbn [fst snd AllocatedFrame.frame]. split.
    + by eapply state_taken.
    + apply list.NoDup_cons. split; [|done]. rewrite list_elem_of_In. intros Hin.
      rewrite List.Forall_forall in Ho. destruct (Ho fr Hin) as (_ & Hni' & _). apply Hni'. by left.
    + constructor; [by split_and!|]. eapply list.Forall_impl; [exact Ho|]. intros g. apply owned_tail.
    + intros v lf g Hv [<-|Hin]; [|by eapply Hu]. apply (ks_unmapped _ _ _ _ _ _ _ Hk v lf fr Hv). by left.
    + done.
    + intros v lf [Hv|Hv]%Hg; [by left|right]. eapply granted_kept; [|done]. intros g. apply owned_tail.
Qed.

Lemma mapped_linear sp0 T sp l hand w i fr va permissions privilege refused o w' :
  linear sp0 T sp l hand w -> hand !! i = Some fr -> owned T l fr ->
  mapping_result root l1 l0 T sp l w va fr permissions privilege refused o w' ->
  (o = Ok tt -> privilege = User <-> vpn_of va < 2 ^ 26) ->
  exists T' sp' l', returned o = true /\ linear sp0 T' sp' l' (delete i hand) w'.
Proof.
  intros Hl Hi Ho (T' & sp' & l' & Hk' & Hst & Hr) Hpriv. exists T', sp', l'.
  assert (forall frame, owned T l frame -> owned T' l' frame) as Hown by (intros g; by eapply stepped_owned).
  pose proof (sublist_delete hand i) as Hsub. destruct o as [[]|e| |]; try contradiction; (split; [done|]).
  - destruct Hr as (_ & _ & Hnone & ->).
    eapply (linear_insert sp0 T sp l hand w); [exact Hl|exact Hown|exact Hk'|exact Hnone|by apply Hown| | |exact Hsub|by apply Hpriv].
    + intros v lf g Hv [<-|[]]. apply (ln_unmapped _ _ _ _ _ _ Hl v lf fr Hv), list_elem_of_In. by eapply list_elem_of_lookup_2.
    + intros Hin. pose proof (ln_hand _ _ _ _ _ _ Hl) as Hn. rewrite (delete_Permutation _ _ _ Hi) in Hn.
      apply list.NoDup_cons in Hn as [Hn _]. by apply Hn, list_elem_of_In.
  - destruct Hr as [-> _]. by eapply linear_kept.
Qed.

Lemma backed_linear sp0 T sp l hand w va :
  linear sp0 T sp l hand w -> is_usize va ->
  exists c' T' sp' l', perform (BackHeap va) (hand, w) = (true, c') /\ linear sp0 T' sp' l' (fst c') (snd c').
Proof.
  intros Hl Hva. pose proof (ln_state _ _ _ _ _ _ Hl) as Hk. unfold perform.
  destruct (KernelPaging.heap_claimed (capability w) && ((HEAP_START <=? va) && (va <? HEAP_END)) &&
    (va mod FRAME_SIZE =? 0)) eqn:Hc.
  - apply andb_true_iff in Hc as [[Hcl Hrange]%andb_true_iff Hal%Z.eqb_eq].
    assert (HEAP_START <= va < HEAP_END) as Hr by lia. clear Hrange.
    destruct (backing_page_spec root l1 l0 T sp l w va Hk Hcl Hr Hal) as (o & w' & T' & sp' & l' & -> & Hk' & _ & Hown & _ & _ & Ho).
    eexists _, T', sp', l'. destruct o as [[]|e| |]; try contradiction; (split; [done|]); cbn [fst snd].
    + destruct Ho as (fr & Hin & Hfr & _ & _ & Hnone & -> & _).
      eapply (linear_insert sp0 T sp l hand w); [exact Hl|exact Hown|exact Hk'|exact Hnone|exact Hfr| | |done|].
      * intros v lf g Hv [<-|[]]. by apply (ks_unmapped _ _ _ _ _ _ _ Hk v lf fr Hv).
      * intros Hh. pose proof (ln_owned _ _ _ _ _ _ Hl) as Hf. rewrite List.Forall_forall in Hf.
        by destruct (Hf fr Hh) as (_ & Hni & _).
      * split; [done|]. intros Hlow. exfalso. revert Hr Hlow. change HEAP_START with 0xffffffe000000000.
        change HEAP_END with 0xffffffe040000000. unfold vpn_of, FRAME_SIZE. change (2 ^ 26) with 67108864.
        Z.div_mod_to_equations. lia.
    + destruct Ho as [-> _]. by eapply linear_kept.
  - assert (exists e, backing_map_page va w = (Err e, w)) as (e & ->).
    { destruct w as [[a m] s]. unfold backing_map_page, VirtAddr.as_usize. cbn [capability fst] in Hc.
      rewrite (bind_ok _ _ _ (a, m, s) (a, m, s)) by done. rewrite page_mask_zero.
      destruct (KernelPaging.heap_claimed a), ((HEAP_START <=? va) && (va <? HEAP_END)); cbn [negb orb andb] in *;
        try by eexists. rewrite Hc. by eexists. }
    eexists _, T, sp, l. by split.
Qed.

Lemma perform_linear sp0 T sp l hand w op :
  linear sp0 T sp l hand w -> proper op ->
  exists c' T' sp' l', perform op (hand, w) = (true, c') /\ linear sp0 T' sp' l' (fst c') (snd c').
Proof.
  intros Hl Hop. pose proof (ln_state _ _ _ _ _ _ Hl) as Hk. destruct op as [|va i p|va i p|i|i bytes|va]; cbn [proper] in Hop.
  - by apply (take_linear sp0 T sp l).
  - apply (on_hand_linear sp0 T sp l); [done|]. intros fr Hi Hfr. pose proof Hfr as (Hwf & Hni & _).
    destruct (map_kernel_page_spec root l1 l0 T sp l w va fr p Hk Hop Hwf Hni) as (o & w' & Hm & Hr & Hhigh).
    destruct (mapped_linear _ _ _ _ _ _ _ _ _ _ _ _ _ _ Hl Hi Hfr Hr) as (T' & sp' & l' & ? & ?).
    { intros (Hb & _)%Hhigh. destruct high_numbers as (E & _). rewrite E in Hb. split; [done|]. intros Hv. exfalso. revert Hv.
      unfold is_usize, usize_max in Hop. unfold vpn_of, FRAME_SIZE. change (2 ^ 26) with 67108864. Z.div_mod_to_equations. lia. }
    exists o, w', T', sp', l'. by split.
  - apply (on_hand_linear sp0 T sp l); [done|]. intros fr Hi Hfr. pose proof Hfr as (Hwf & Hni & _).
    destruct (map_user_page_spec root l1 l0 T sp l w va fr p Hk Hop Hwf Hni) as (o & w' & Hm & Hr & Hlow).
    destruct (mapped_linear _ _ _ _ _ _ _ _ _ _ _ _ _ _ Hl Hi Hfr Hr) as (T' & sp' & l' & ? & ?).
    { intros Hb%Hlow. destruct high_numbers as (_ & E & _). rewrite E in Hb. split; [intros _|done].
      unfold vpn_of. change (2 ^ 26) with 67108864. unfold FRAME_SIZE in *. Z.div_mod_to_equations. lia. }
    exists o, w', T', sp', l'. by split.
  - apply (on_hand_linear sp0 T sp l); [done|]. intros fr _ Hfr. by eapply clear_linear.
  - apply (on_hand_linear sp0 T sp l); [done|]. intros fr _ Hfr. by eapply copy_linear.
  - by apply (backed_linear sp0 T sp l).
Qed.

Lemma perform_all_linear sp0 ops : forall T sp l c,
  linear sp0 T sp l (fst c) (snd c) -> Forall proper ops ->
  exists c' T' sp' l', perform_all ops c = (true, c') /\ linear sp0 T' sp' l' (fst c') (snd c').
Proof.
  induction ops as [|op ops IH]; intros T sp l [hand w] Hl Hops.
  - by exists (hand, w), T, sp, l.
  - apply Forall_cons_1 in Hops as [Hop Hops].
    destruct (perform_linear _ _ _ _ _ _ _ Hl Hop) as (c1 & T1 & sp1 & l1' & Hp & Hl1).
    destruct (IH T1 sp1 l1' c1 Hl1 Hops) as (c' & T' & sp' & l' & Hp' & Hl').
    exists c', T', sp', l'. split; [|done]. cbn [perform_all]. change (perform op (hand, w) = (true, c1)) in Hp. rewrite Hp, Hp'. done.
Qed.

End state.
End client.

(** ** The discipline *)

(** C7: a client that starts with nothing in hand and calls the frame
    allocator, both mapping operations, the frame window and the heap's backing
    in any order, with any arguments of their types, is never stuck: every call
    returns.  Every frame stays in one place: the frames in hand and the free
    frames are distinct, none is a table or behind an address, and each address
    mapped since has a frame to itself, of which no table is made.  No such page
    is writable and executable, and it is user-accessible exactly when its
    address is in the low half.  What was mapped before stays mapped as it was. *)
Theorem frames_are_linear {F} `{FrameAllocator F} root l1 l0 T sp l (w : KernelPaging.t * machine * F) ops :
  kernel_state root l1 l0 T sp l w -> Forall proper ops ->
  exists hand w' T' sp' l', perform_all ops ([], w) = (true, (hand, w')) /\
    kernel_state root l1 l0 T' sp' l' w' /\ sp ⊆ sp' /\ NoDup (hand ++ l') /\ Forall (owned T' l') hand /\
    forall v lf, sp' !! v = Some lf ->
      (forall fr, In fr (hand ++ l') -> l_ppn lf <> PhysFrame.start fr / FRAME_SIZE) /\
      (sp !! v = None -> granted T' sp' l' v lf /\ l_write lf && l_exec lf = false /\
         l_user lf = bool_decide (v < 2 ^ 26)).
Proof.
  intros Hk Hops.
  assert (linear root l1 l0 sp T sp l [] w) as Hl.
  { split; [done|constructor|constructor|by intros v lf fr _ []|done|by left]. }
  destruct (perform_all_linear root l1 l0 sp ops T sp l ([], w) Hl Hops) as ([hand w'] & T' & sp' & l' & Hp & Hl').
  destruct Hl' as [Hk' Hn Ho Hu Hb Hg]. cbn [fst snd] in *.
  exists hand, w', T', sp', l'. split; [exact Hp|]. split; [done|]. split; [done|].
  rewrite List.Forall_forall in Ho. split; [|split; [by apply List.Forall_forall|]].
  - apply NoDup_app. split; [done|]. split; [|apply (g_provides _ _ _ _ _ _ _ (ks_good _ _ _ _ _ _ _ Hk'))].
    intros fr Hin%list_elem_of_In Hin'%list_elem_of_In. by destruct (Ho fr Hin) as (_ & Hni & _).
  - intros v lf Hv. split.
    + intros fr [Hin|Hin]%in_app_or; [by eapply Hu|by eapply (ks_unmapped _ _ _ _ _ _ _ Hk')].
    + intros Hnew. destruct (Hg v lf Hv) as [?|Hgr]; [congruence|]. split; [done|].
      destruct Hgr as (_ & fr & p & q & _ & -> & Hq). cbn [leaf_for l_write l_exec l_user]. split; [by destruct p|].
      destruct q; [rewrite bool_decide_eq_false_2|rewrite bool_decide_eq_true_2]; try done; [|by apply Hq].
      intros Hlow. by apply Hq in Hlow.
Qed.

(** Two frames, one cleared and filled, mapped for the kernel and for a user. *)
Definition sample_operations : list operation :=
  [Take; Take; Clear 0; Copy 0 [x13; x05]; MapUser 0x10000 0 ReadExecute; MapKernel 0xffffffd000000000 0 ReadWrite].

Lemma sample_operations_proper : Forall proper sample_operations.
Proof. repeat constructor; vm_compute; congruence. Qed.

Lemma frames_are_linear_witness :
  exists w' T' sp' l',
    perform_all sample_operations ([], sample_state) = (true, ([], w')) /\
    kernel_state sample_root sample_l1 sample_l0 T' sp' l' w' /\
    sp' !! vpn_of 0x10000 = Some (leaf_for 0x80011000 ReadExecute User) /\
    granted T' sp' l' (vpn_of 0x10000) (leaf_for 0x80011000 ReadExecute User).
Proof.
  destruct (frames_are_linear sample_root sample_l1 sample_l0 tables_2 sample_space sample_frames sample_state
    sample_operations sample_kernel_state sample_operations_proper)
    as (hand & w' & T' & sp' & l' & Hp & Hk & _ & _ & _ & Hg).
  pose proof (f_equal (fun r => fst (snd r)) Hp) as Hh. vm_compute in Hh. subst hand.
  pose proof (translate_represented _ _ _ _ _ _ _ 0x10000 Hk) as Htr.
  assert (translate (mem (hart w')) (satp (hart w')) 0x10000 = Some (leaf_for 0x80011000 ReadExecute User)) as Hval.
  { pose proof (f_equal (fun r => let m := hart (snd (snd r)) in translate (mem m) (satp m) 0x10000) Hp) as E.
    cbn [snd] in E. rewrite <- E. vm_compute. reflexivity. }
  rewrite Hval in Htr. change (canonical 0x10000) with true in Htr.
  exists w', T', sp', l'. split; [exact Hp|]. split; [exact Hk|]. split; [by symmetry|].
  apply (Hg (vpn_of 0x10000)); [by symmetry|]. reflexivity.
Defined.
