(* ===== verification/KStartup.v ===== *)
(** * Startup ([kernel/src/main.rs])

    Reading the timer frequency, installing the allocator, and the wait for the
    first timer interrupts in [run_kernel]. *)

From Stdlib Require Import ZArith Lia Bool.
From Stdlib Require Import Strings.Byte Strings.String.
From stdpp Require Import base list numbers.
From S2P Require Import Prelude FdtScan FdtView FdtViewProofs Fdt KMemory KBootAlloc KMachine KPaging KHeap KKernelPaging.
From S2P Require Import KAsm KTimer KTimerProofs KConsole KLogging KSyscall KTrap KAllocator.
Local Open Scope Z_scope.

Definition CPUS : list byte := list_byte_of_string "cpus".
Definition TIMEBASE_FREQUENCY : list byte := list_byte_of_string "timebase-frequency".

(** [?] on an option. *)
Definition and_then {E A B} (o : outcome E (option A)) (k : A -> outcome E (option B)) : outcome E (option B) :=
  let? a := o in match a with Some a => k a | None => Ok None end.

Definition timer_frequency (f : Fdt.t) : outcome never (option Z) :=
  let? root := Fdt.root f in
  and_then (View.child root CPUS) (fun cpus =>
  and_then (View.property cpus TIMEBASE_FREQUENCY) (fun property =>
    let bytes := View.value property in
    Ok (if negb (zlen bytes =? 4) then None
        else let frequency := be_val bytes in
             if frequency =? 0 then None else Some frequency))).

Section kernel.
Context {W F : Type} `{Environment W} `{Build} `{FrameAllocator F}.

(** [init_kernel_allocator]: the capabilities move into the global state. *)
Definition init_kernel_allocator (paging : KernelPaging.t) (frames : F) : M (system W F) stopped unit :=
  let* s := get in
  let '(o, (paging, m, frames)) := claim_heap (paging, memory_of s, frames) in
  let* _ := put (mkSystem (core s) m (busy s) (slot s) (CLAIMED s)) in
  match o with
  | Ok heap =>
      let* installed := minfallible (initialize heap paging frames) in
      match installed with
      | Ok _ => ret tt
      | _ => on_core halt
      end
  | Err _ => on_core halt
  | Panic => panic
  | OutOfFuel => lift OutOfFuel
  end.

(** The wait of [run_kernel].  Between two tests of the count the hart delivers
    [arrivals i] timer interrupts to the handler, with the frames [frame] of
    the interrupted loop. *)
Section wait.
Context (probe_time_read probe_time_unavailable : Z) (frame : TrapFrame) (arrivals : nat -> nat).

Fixpoint interrupts (n : nat) : M (kernel W) stopped unit :=
  match n with
  | O => ret tt
  | S n' =>
      let* _ := trap_handler probe_time_read probe_time_unavailable frame in
      interrupts n'
  end.

(** [while timer_ticks().wrapping_sub(initial_ticks) < 2 { spin_loop() }], [fuel] tests. *)
Fixpoint wait_ticks (fuel : nat) (i : nat) (initial_ticks : Z) : M (kernel W) stopped unit :=
  match fuel with
  | O => lift OutOfFuel
  | S fuel' =>
      let* _ := interrupts (arrivals i) in
      let* ticks := timer_ticks in
      if wrap (ticks - initial_ticks) <? 2 then wait_ticks fuel' (S i) initial_ticks else ret tt
  end.

End wait.

End kernel.
