(* ===== verification/KMain.v ===== *)
(** * The kernel's start ([kernel/src/main.rs])

    [main] from the entry of the Rust code to the first entry into user mode.
    The capabilities are values that move from call to call; the two claim
    flags, the hart's memory and the global allocator are the state.  A failure
    that the source reports and halts on is the end [Halted]. *)

From Stdlib Require Import ZArith Lia Bool.
From Stdlib Require Import Strings.Byte Strings.String.
From stdpp Require Import base list numbers.
From S2P Require Import Prelude FdtHeader Fdt FdtScan KMemory KBootAlloc KMachine KPaging KHeap KKernelPaging.
From S2P Require Import KAsm KTimer KConsole KLogging KSyscall KTrap KProbe KAllocator KProcess KStartup.
Local Open Scope Z_scope.

#[export] Existing Instance BootFrameAllocator.boot_frame_allocator.

Section main.
Context {W : Type} `{Environment W} `{Build}.
(** The linker's symbols, the trap vector, the labels of the probe, and the
    image the build embeds. *)
Context (l : linker) (trap_entry probe_time_read probe_time_unavailable : Z) (INIT_IMAGE : list byte).

Abbreviation system := (system W BootFrameAllocator.t).

Record boot_state := mkBoot {
  kernel_of : system;
  BOOTSTRAP_PAGING_CLAIMED : bool;
  BOOT_FRAME_ALLOCATOR_CLAIMED : bool;
}.

Definition on_kernel {E A} (m : M system E A) : M boot_state E A :=
  zoom kernel_of (fun k s => mkBoot k (BOOTSTRAP_PAGING_CLAIMED s) (BOOT_FRAME_ALLOCATOR_CLAIMED s)) m.

Definition on_memory_of {E A} (m : M machine E A) : M system E A := zoom memory_of set_memory m.

(** [match result { Ok(value) => value, Err(error) => { ...; arch::halt() } }]. *)
Definition or_halt {E A} (m : M system E A) : M system stopped A :=
  let* result := minfallible (as_result m) in
  match result with
  | Ok value => ret value
  | _ => on_core halt
  end.

Definition some_or_halt {A} (o : option A) : M system stopped A :=
  match o with Some value => ret value | None => on_core halt end.

(** [arch::init_trap]: the vector, with every source masked. *)
Definition init_trap {E} : M (kernel W) E unit :=
  let* k := get in
  put (with_control (with_control (with_control k Sie 0) Sscratch 0) Stvec trap_entry).

(** Memory as the hart reads it; the caller of [from_ptr] ensures that the blob
    can be read. *)
Definition readable (m : machine) : Z -> byte :=
  fun va => match resolve m false va with Some pa => mem m pa | None => x00 end.

Definition claim_bootstrap : M boot_state stopped BootstrapPaging.t :=
  let* s := get in
  let '(o, (claimed, m)) := BootstrapPaging.claim (BOOTSTRAP_PAGING_CLAIMED s, memory_of (kernel_of s)) in
  let* _ := put (mkBoot (set_memory m (kernel_of s)) claimed (BOOT_FRAME_ALLOCATOR_CLAIMED s)) in
  on_kernel (or_halt (lift o)).

Definition claim_frames (fdt : Fdt.t) (kernel dtb : PhysRange.t) : M boot_state stopped BootFrameAllocator.t :=
  let* s := get in
  let '(o, claimed) := BootFrameAllocator.claim fdt kernel dtb (BOOT_FRAME_ALLOCATOR_CLAIMED s) in
  let* _ := put (mkBoot (kernel_of s) (BOOTSTRAP_PAGING_CLAIMED s) claimed) in
  on_kernel (or_halt (lift o)).

(** The transition consumes the bootstrap capability and borrows the frames. *)
Definition enter_kernel (bootstrap : BootstrapPaging.t) (dtb_virtual : VirtAddr.t) (dtb_range : PhysRange.t)
    (frames : BootFrameAllocator.t) : M system stopped (KernelPaging.t * BootFrameAllocator.t) :=
  let* s := get in
  let '(o, (_, m, frames)) := into_kernel (kernel_physical_start l) (kernel_sections l) dtb_virtual dtb_range
                                (bootstrap, memory_of s, frames) in
  let* _ := put (set_memory m s) in
  let* paging := or_halt (lift o) in
  ret (paging, frames).

(** [main] up to its last call. *)
Definition start_kernel (dtb : Z) : M boot_state stopped (Z * InterruptGuard) :=
  let* boot_interrupts := on_kernel (on_core disable) in
  let dtb_phys := PhysAddr.new dtb in
  let kernel_phys_start := kernel_physical_start l in
  let* _ := on_kernel (on_core init_trap) in
  let* _ := on_kernel (on_core time_init) in
  let* bootstrap_paging := claim_bootstrap in
  let* dtb_virtual := on_kernel (or_halt (on_memory_of (BootstrapPaging.map_fdt bootstrap_paging dtb_phys))) in
  let* s := get in
  let* fdt := on_kernel (or_halt (lift (Fdt.from_ptr (readable (memory_of (kernel_of s))) (VirtAddr.as_usize dtb_virtual)))) in
  let* timebase_hz := lift (infallible (timer_frequency fdt)) in
  let* timebase_hz := on_kernel (some_or_halt timebase_hz) in
  let* kernel_range := lift (kernel_range l kernel_phys_start) in
  let* kernel_range := on_kernel (some_or_halt kernel_range) in
  let* dtb_range := on_kernel (some_or_halt
    (PhysRange.from_start_size dtb_phys (Header.total_size (Fdt.header fdt)))) in
  let* frames := claim_frames fdt kernel_range dtb_range in
  let* (kernel_paging, frames) := on_kernel (enter_kernel bootstrap_paging dtb_virtual dtb_range frames) in
  let* _ := on_kernel (init_kernel_allocator kernel_paging frames) in
  ret (timebase_hz, boot_interrupts).

(** [run_kernel] to the call of [enter_user], whose arguments are the result.
    The waiting loop takes [fuel] tests, with [arrivals] timer interrupts
    between them and the frames [frame]. *)
Definition run_kernel (frame : TrapFrame) (arrivals : nat -> nat) (fuel : nat)
    (timebase_hz : Z) (boot_interrupts : InterruptGuard) : M system stopped (TrapFrame * VirtAddr.t) :=
  let* process := or_halt (load_init INIT_IMAGE) in
  let period := from_millis 10 in
  let* _ := or_halt (on_core (timer_init timebase_hz period)) in
  let* initial_ticks := on_core timer_ticks in
  let* _ := on_core (drop_guard boot_interrupts) in
  let* _ := on_core enable in
  let* _ := on_core (wait_ticks probe_time_read probe_time_unavailable frame arrivals fuel 0 initial_ticks) in
  let top := wrap (kernel_stack process + STACK_SIZE) in
  ret (context process, VirtAddr.new top).

Definition main (frame : TrapFrame) (arrivals : nat -> nat) (fuel : nat) (dtb : Z)
    : M boot_state stopped (TrapFrame * VirtAddr.t) :=
  let* (timebase_hz, boot_interrupts) := start_kernel dtb in
  on_kernel (run_kernel frame arrivals fuel timebase_hz boot_interrupts).

End main.
