(* ===== verification/KMainProofs.v ===== *)
(** * The start of the kernel, call by call

    [start_kernel] keeps interrupts masked and the trap vector installed from
    its first calls on; each later call moves a capability or halts.  A
    postcondition of a computation is stated once for both ends. *)

From Stdlib Require Import ZArith Lia Bool.
From Stdlib Require Import Strings.Byte Strings.String.
From stdpp Require Import base list numbers gmap.
From S2P Require Import Prelude FdtHeader FdtStructure FdtTree FdtView FdtViewProofs Fdt FdtScan FdtRegRange FdtReservation FdtStrings.
From S2P Require Import KMemory KBootAlloc KBootFrames KBootProofs KMachine KPaging KPte KTables KMapProofs KRangeProofs KHeap KHeapProofs.
From S2P Require Import KFrameWindow KKernelPaging KWindow KKernelProofs KBackingProofs KBootWindow KBootFdt KTransition KEntry KPlan.
From S2P Require Import KAsm KTimer KTimerProofs KConsole KLogging KSyscall KTrap KProbe KAllocator KAllocatorProofs KProcess KStartup KMain.
Local Open Scope Z_scope.

Import BootFrames.

(** ** The timer frequency *)

(** The value of [/cpus/timebase-frequency], when it is a nonzero word. *)
Definition frequency_of (strings : Strings.t) (t : tree) : option Z :=
  match tree_child t CPUS with
  | Some cpus =>
      match tree_prop strings cpus TIMEBASE_FREQUENCY with
      | Some value => if (zlen value =? 4) && negb (be_val value =? 0) then Some (be_val value) else None
      | None => None
      end
  | None => None
  end.

Lemma timer_frequency_spec mem ptr h tr rs :
  Fdt.describes mem ptr h tr rs ->
  let f := Fdt.built mem ptr h rs in timer_frequency f = Ok (frequency_of (Fdt.strings f) tr).
Proof.
  intros Hd f. destruct (Fdt.root_shows mem ptr h tr rs Hd) as (n & Hroot & Hrep & Hst). fold f in Hroot, Hst.
  unfold timer_frequency, frequency_of. rewrite Hroot. cbn [obind].
  destruct (node_child n tr Hrep CPUS) as (o & Hc & Ho). unfold and_then at 1. rewrite Hc. cbn [obind].
  destruct (tree_child tr CPUS) as [k|]; [|by subst].
  destruct Ho as (c & -> & Hrc & Hsc). unfold and_then. rewrite (node_property c k Hrc). cbn [obind].
  rewrite Hsc, Hst. destruct (tree_prop (Fdt.strings f) k TIMEBASE_FREQUENCY) as [v|]; [|done].
  change (View.value (View.mkProperty ?x ?y)) with y. cbn -[be_val zlen]. destruct (zlen v =? 4); [|done].
  by destruct (be_val v =? 0).
Qed.

Lemma frequency_range strings t hz : frequency_of strings t = Some hz -> 0 < hz <= u32_max.
Proof.
  unfold frequency_of. repeat case_match; try done. intros [= <-]. zbool.
  match goal with H : zlen ?v = 4 |- _ => pose proof (be_val_range v) as Hr; rewrite H in Hr end.
  unfold u32_max. change (256 ^ 4) with (2 ^ 32) in Hr. lia.
Qed.

(** ** Ends *)

Section start.
Context {W : Type} `{Environment W} `{Build}.
Context (l : linker) (trap_entry : Z).

Abbreviation boot_state := (boot_state (W:=W)).

Definition sstatus (s : boot_state) : Z := control (core (kernel_of s)) Sstatus.

(** Interrupts are masked, with the vector installed and every source off. *)
Record masked_state (s : boot_state) : Prop := {
  ms_status : is_u64 (sstatus s);
  ms_masked : Z.testbit (sstatus s) 1 = false;
  ms_sources : control (core (kernel_of s)) Sie = 0;
  ms_scratch : control (core (kernel_of s)) Sscratch = 0;
  ms_vector : control (core (kernel_of s)) Stvec = trap_entry;
}.

(** Before the allocator is installed. *)
Record early (s : boot_state) : Prop := {
  e_masked : masked_state s;
  e_busy : busy (kernel_of s) = false;
  e_slot : slot (kernel_of s) = None;
}.

(** A computation that returns a value of [P], or parks the hart with interrupts
    masked. *)
Definition ends {A} (P : A -> boot_state -> Prop) (r : outcome stopped A * boot_state) : Prop :=
  match r with
  | (Ok a, s) => P a s
  | (Err e, s) => e = Halted /\ masked_state s
  | _ => False
  end.

Lemma ends_bind {A B} (P : A -> boot_state -> Prop) (Q : B -> boot_state -> Prop) m k s :
  ends P (m s) -> (forall a s', P a s' -> ends Q (k a s')) -> ends Q (bind m k s).
Proof. intros Hm Hk. unfold bind. destruct (m s) as [[a|e| |] s']; cbn in *; auto. Qed.

Lemma ends_mono {A} (P Q : A -> boot_state -> Prop) r :
  ends P r -> (forall a s', P a s' -> Q a s') -> ends Q r.
Proof. destruct r as [[a|e| |] s']; cbn; auto. Qed.

Lemma masked_clear v : is_u64 v -> is_u64 (clear_bits v 2) /\ Z.testbit (clear_bits v 2) 1 = false.
Proof.
  intros Hv. change 2 with (2 ^ 1). split; [apply clear_u64; done|].
  rewrite testbit_clear by done. by rewrite andb_false_r.
Qed.

Lemma masked_same s s' :
  masked_state s -> (forall c, control (core (kernel_of s')) c = control (core (kernel_of s)) c) -> masked_state s'.
Proof. intros [] Hc. split; unfold sstatus in *; rewrite Hc; done. Qed.

Lemma halt_ends {A} (P : A -> boot_state -> Prop) s : masked_state s -> ends P (on_kernel (on_core halt) s).
Proof.
  intros [Hs Hm Hi Hc Hv]. cbn. split; [done|]. destruct (masked_clear _ Hs) as [H1 H2]. split; cbn; done.
Qed.

Lemma or_halt_cases {A E} (P : A -> boot_state -> Prop) (m : M (system W BootFrameAllocator.t) E A) s o k :
  m (kernel_of s) = (o, k) -> no_panic o ->
  let s' := mkBoot k (BOOTSTRAP_PAGING_CLAIMED s) (BOOT_FRAME_ALLOCATOR_CLAIMED s) in
  (forall e, o = Err e -> masked_state s') -> (forall a, o = Ok a -> P a s') -> ends P (on_kernel (or_halt m) s).
Proof.
  intros Hm Ho s' Hs Hp. unfold on_kernel, zoom, or_halt, minfallible, as_result, bind. rewrite Hm.
  destruct o as [a|e| |]; try done; cbn [infallible].
  - apply (Hp a eq_refl).
  - apply (halt_ends P s' (Hs e eq_refl)).
Qed.

Lemma or_halt_ends {A E} (P : A -> boot_state -> Prop) (m : M (system W BootFrameAllocator.t) E A) s o k :
  m (kernel_of s) = (o, k) -> no_panic o ->
  let s' := mkBoot k (BOOTSTRAP_PAGING_CLAIMED s) (BOOT_FRAME_ALLOCATOR_CLAIMED s) in
  masked_state s' -> (forall a, o = Ok a -> P a s') -> ends P (on_kernel (or_halt m) s).
Proof. intros Hm Ho s' Hs. by apply (or_halt_cases P m s o k). Qed.

Lemma some_or_halt_ends {A} (P : A -> boot_state -> Prop) o s :
  masked_state s -> (forall a, o = Some a -> P a s) -> ends P (on_kernel (some_or_halt o) s).
Proof.
  intros Hs Hp. destruct o as [a|]; [|by apply halt_ends]. cbn. specialize (Hp a eq_refl). by destruct s.
Qed.

(** ** The first calls *)

Definition initial_guard (s : boot_state) : InterruptGuard := mkGuard (Z.testbit (sstatus s) 1).

Lemma begin_ends s :
  is_u64 (sstatus s) -> busy (kernel_of s) = false -> slot (kernel_of s) = None ->
  exists s', on_kernel (E:=stopped) (on_core disable) s = (Ok (initial_guard s), s') /\
    exists s'', on_kernel (E:=stopped) (on_core (init_trap trap_entry)) s' = (Ok tt, s'') /\
    exists s3, on_kernel (E:=stopped) (on_core time_init) s'' = (Ok tt, s3) /\ early s3 /\
      memory_of (kernel_of s3) = memory_of (kernel_of s) /\
      BOOTSTRAP_PAGING_CLAIMED s3 = BOOTSTRAP_PAGING_CLAIMED s /\
      BOOT_FRAME_ALLOCATOR_CLAIMED s3 = BOOT_FRAME_ALLOCATOR_CLAIMED s.
Proof.
  intros Hs Hb Hsl. destruct s as [[[c st iv tk ut w] m b sl cl] pc fc]. unfold sstatus in *. cbn in *. subst.
  destruct (masked_clear _ Hs) as [H1 H2].
  eexists. split; [cbn; rewrite land_enabled by done; reflexivity|]. eexists. split; [reflexivity|].
  unfold on_kernel, on_core, zoom, time_init, probe, bind, get, put, ret. cbn.
  destruct (st =? UNINITIALIZED); cbn; [destruct (counter_readable w)|]; cbn;
    (eexists; split; [reflexivity|]; split; [split; [by split|done|done]|done]).
Qed.

(** ** The bootstrap capability and the devicetree *)

Lemma early_kept s s' :
  early s -> core (kernel_of s') = core (kernel_of s) -> busy (kernel_of s') = busy (kernel_of s) ->
  slot (kernel_of s') = slot (kernel_of s) -> early s'.
Proof.
  intros [Hm Hb Hsl] Hc Hb' Hs'. split; [|congruence..]. apply (masked_same s); [done|]. intros c. by rewrite Hc.
Qed.

Lemma claim_ends root s :
  early s -> boot_inv root (BootstrapPaging.mk root) (memory_of (kernel_of s)) ->
  ends (fun a s' => a = BootstrapPaging.mk root /\ early s' /\ BOOTSTRAP_PAGING_CLAIMED s = false /\
          memory_of (kernel_of s') = memory_of (kernel_of s) /\
          BOOT_FRAME_ALLOCATOR_CLAIMED s' = BOOT_FRAME_ALLOCATOR_CLAIMED s) (claim_bootstrap s).
Proof.
  intros He Hi. pose proof (b_control _ _ _ Hi) as Hc. pose proof (b_root _ _ _ Hc) as Hr.
  destruct (root_satp_fields _ Hr) as [F1 F2]. pose proof (representable_ppn _ Hr) as Hpp.
  unfold claim_bootstrap. unfold bind at 1. cbn [get]. rewrite bootstrap_claim_spec; rewrite (b_satp _ _ _ Hc).
  2:{ unfold root_satp, is_u64, u64_max. lia. }
  rewrite F1, F2. cbn [Z.eqb Pos.eqb negb].
  destruct (BOOTSTRAP_PAGING_CLAIMED s); unfold bind at 1; cbn [put]; (eapply or_halt_ends; [reflexivity|done| |]);
    try (intros a [= <-]); repeat split; try (eapply early_kept; [exact He|done..]); try done;
    (apply (masked_same s); [apply He|done]).
Qed.

Lemma map_ends root dtb s :
  early s -> is_usize dtb -> boot_inv root (BootstrapPaging.mk root) (memory_of (kernel_of s)) ->
  ends (fun va s' => va = BOOT_FDT_WINDOW_BASE + dtb mod 2 ^ 30 /\ early s' /\
          boot_inv root (BootstrapPaging.mk root) (memory_of (kernel_of s')) /\
          fdt_window (memory_of (kernel_of s')) dtb /\
          BOOT_FRAME_ALLOCATOR_CLAIMED s' = BOOT_FRAME_ALLOCATOR_CLAIMED s)
    (on_kernel (or_halt (on_memory_of (BootstrapPaging.map_fdt (BootstrapPaging.mk root) dtb))) s).
Proof.
  intros He Hd Hi. destruct (map_fdt_spec root _ _ dtb Hi Hd) as (o & m' & Hm & Ho).
  eapply (or_halt_ends _ _ s o (set_memory m' (kernel_of s))).
  - unfold on_memory_of, zoom. by rewrite Hm.
  - by destruct o.
  - apply (masked_same s); [apply He|done].
  - intros va ->. destruct Ho as (-> & Hi' & _ & _ & Hw & _).
    split; [done|]. split; [by eapply early_kept|]. done.
Qed.

(** ** The frames *)

(** The linker places the image, the boot tables within it, and its sections. *)
Record image_placed (root : Z) : Prop := {
  im_start : 0 <= kernel_physical_start_value l;
  im_size : 0 <= kernel_virtual_start l <= kernel_virtual_end l;
  im_sections : Forall section_wf (sections_of (kernel_sections l));
  im_inside p va : in_section (kernel_sections l) p va -> kernel_virtual_start l <= va < kernel_virtual_end l;
  im_root : kernel_physical_start_value l <= root <
    kernel_physical_start_value l + (kernel_virtual_end l - kernel_virtual_start l);
}.

Definition image_range : PhysRange.t :=
  as_range (kernel_physical_start_value l) (kernel_virtual_end l - kernel_virtual_start l).

Lemma kernel_range_spec {E} root o :
  image_placed root -> kernel_range (E:=E) l (kernel_physical_start l) = Ok o ->
  forall r, o = Some r -> r = image_range /\ PhysRange.wf r.
Proof.
  intros [Hs Hz _ _ Hr]. unfold kernel_range, kernel_size, checked_sub.
  rewrite (proj2 (Z.leb_le _ _)) by lia. cbn [expect_some obind]. intros [= <-] r Hsome.
  apply PhysRange.from_start_size_Some in Hsome as (H1 & H2 & ->); [|lia].
  split; [done|]. unfold PhysRange.wf, kernel_physical_start, PhysAddr.new in *. cbn. lia.
Qed.

Lemma kernel_range_ok root {E} : image_placed root -> exists o, kernel_range (E:=E) l (kernel_physical_start l) = Ok o.
Proof.
  intros [_ Hz _ _ _]. unfold kernel_range, kernel_size, checked_sub.
  rewrite (proj2 (Z.leb_le _ _)) by lia. by eexists.
Qed.

(** A source of frames off the image and the devicetree. *)
Lemma overlap_contains r s a :
  PhysRange.wf r -> PhysRange.wf s -> PhysRange.contains r a -> PhysRange.contains s a -> PhysRange.overlaps r s = true.
Proof. intros Hr Hs H1 H2. apply PhysRange.overlaps_iff; [done|done|]. by exists a. Qed.

Definition frames_off (root : Z) (dtb_range : PhysRange.t) (frames : list PhysFrame.t) : Prop :=
  (forall fr, In fr frames -> PhysFrame.start fr <> root) /\
  clear_of frames (kernel_physical_start_value l) (kernel_sections l) dtb_range.

Lemma free_frames_off root dtb_range rsv reserved ram :
  image_placed root -> PhysRange.wf image_range -> PhysRange.wf dtb_range ->
  Forall RegRanges.range_ok ram ->
  frames_off root dtb_range (free_frames (reserved_list image_range dtb_range rsv reserved) ram).
Proof.
  intros Him Hk Hd Hram.
  assert (forall fr pa r, In fr (free_frames (reserved_list image_range dtb_range rsv reserved) ram) ->
    In r [image_range; dtb_range] -> PhysFrame.start fr <= pa < PhysFrame.start fr + FRAME_SIZE ->
    ~ PhysRange.contains r pa) as Hoff.
  { intros fr pa r Hin Hr Hpa Hc.
    pose proof (proj1 (List.Forall_forall _ _) (free_frames_wf (reserved_list image_range dtb_range rsv reserved) ram Hram) fr Hin)
      as (Hf0 & _ & Hf).
    apply free_frames_In in Hin as [_ Hfree].
    assert (PhysRange.overlaps (PhysFrame.bytes_of fr) r = true) as Ho.
    { apply (overlap_contains _ _ pa); [| |exact Hpa|exact Hc].
      - unfold PhysRange.wf, PhysFrame.bytes_of. unfold FRAME_SIZE in *. cbn. lia.
      - by destruct Hr as [<-|[<-|[]]]. }
    rewrite Hfree in Ho; [done|]. unfold reserved_list. destruct Hr as [<-|[<-|[]]]; [by left|by right; left]. }
  split.
  - intros fr Hin Heq. apply (Hoff fr root image_range Hin); [by left|unfold FRAME_SIZE; lia|].
    unfold PhysRange.contains, image_range, as_range. cbn. apply Him.
  - intros fr pa Hin Hpa. split; [apply (Hoff fr pa dtb_range Hin); [by right; left|done]|].
    intros p va Hs Heq. apply (Hoff fr pa image_range Hin); [by left|done|].
    pose proof (im_inside _ Him p va Hs). unfold loaded_at in Heq. cbn in Heq.
    unfold PhysRange.contains, image_range, as_range. cbn. unfold VirtAddr.new in Heq. lia.
Qed.

Lemma frames_ends root mm ptr f dtb_range s :
  early s -> image_placed root -> PhysRange.wf image_range -> PhysRange.wf dtb_range -> Fdt.from_ptr mm ptr = Ok f ->
  ends (fun a s' => early s' /\ memory_of (kernel_of s') = memory_of (kernel_of s) /\
          BOOT_FRAME_ALLOCATOR_CLAIMED s = false /\
          exists frames, provides a frames /\ frames_off root dtb_range frames)
    (claim_frames f image_range dtb_range s).
Proof.
  intros He Him Hk Hd Hf. destruct (BootProofs.from_ptr_lists _ _ _ Hf) as (ram & reserved & rsv & Hl).
  unfold claim_frames. unfold bind at 1. cbn [get].
  destruct (BootFrameAllocator.claim f image_range dtb_range (BOOT_FRAME_ALLOCATOR_CLAIMED s)) as [o claimed] eqn:Hc.
  assert (no_panic o /\ forall a, o = Ok a -> BOOT_FRAME_ALLOCATOR_CLAIMED s = false /\ claimed = true) as [Hnp Hok].
  { rewrite (BootProofs.claim_spec f ram reserved rsv Hl) in Hc.
    destruct (BootProofs.first_overlap_cases ram) as [Hv|(?&?&?&?&?&_&_&Hv)]; rewrite Hv in Hc.
    - destruct (BOOT_FRAME_ALLOCATOR_CLAIMED s); [injection Hc as <- <-; by split|].
      destruct (BootProofs.l_ram _ _ _ _ Hl) as (m & Hm & _). rewrite Hm in Hc. injection Hc as <- <-. by split.
    - injection Hc as <- <-. by split. }
  unfold bind at 1. cbn [put]. eapply or_halt_ends; [reflexivity|exact Hnp| |].
  - apply (masked_same s); [apply He|done].
  - intros a ->. destruct (Hok a eq_refl) as [Hcl ->]. split; [by eapply early_kept|]. split; [done|]. split; [done|].
    rewrite Hcl in Hc. eexists. split; [by apply (BootProofs.claim_provides f ram reserved rsv Hl image_range dtb_range Hk Hd a false)|].
    apply free_frames_off; try done. apply Hl.
Qed.

(** ** The kernel's address space and its allocator *)

(** What the entered space holds. *)
Definition image_mapped (dtb_virtual : Z) (dtb_range : PhysRange.t) (sp : space) : Prop :=
  (forall p va, in_section (kernel_sections l) p va ->
     sp !! vpn_of va = Some (leaf_for (loaded_at (kernel_physical_start_value l) (kernel_sections l) va) p Supervisor)) /\
  (forall x, 0 <= x < PhysRange.end_ dtb_range - PhysRange.start dtb_range ->
     sp !! vpn_of (dtb_virtual + x) = Some (leaf_for (PhysRange.start dtb_range + x) ReadOnly Supervisor)) /\
  (forall va lf, sp !! vpn_of va = Some lf ->
     (exists l0, accounted (kernel_sections l) dtb_virtual dtb_range l0 va lf) /\
     l_user lf = false /\ l_write lf && l_exec lf = false).

Lemma enter_ends root dtb_virtual dtb_range a frames s :
  early s -> image_placed root -> boot_inv root (BootstrapPaging.mk root) (memory_of (kernel_of s)) ->
  is_usize dtb_virtual -> PhysRange.wf dtb_range -> provides a frames -> frames_off root dtb_range frames ->
  ends (fun '(paging, a') s' => early s' /\ exists top l1 l0 T sp frames',
          kernel_state top l1 l0 T sp frames' (paging, memory_of (kernel_of s'), a') /\
          synced (memory_of (kernel_of s')) /\ image_mapped dtb_virtual dtb_range sp)
    (on_kernel (enter_kernel l (BootstrapPaging.mk root) dtb_virtual dtb_range a) s).
Proof.
  intros He Him Hi Hva Hd Hp [Hroot Hclear].
  destruct (into_kernel_plan root (kernel_physical_start_value l) (kernel_sections l) dtb_virtual dtb_range frames
    (BootstrapPaging.mk root, memory_of (kernel_of s), a)) as (o & [[b m'] a'] & Hk & Ho); try done; [apply Him..|].
  cbn [fst snd] in *.
  set (s1 := mkBoot (set_memory m' (kernel_of s)) (BOOTSTRAP_PAGING_CLAIMED s) (BOOT_FRAME_ALLOCATOR_CLAIMED s)).
  assert (early s1) as He1 by (by eapply early_kept).
  assert (on_kernel (enter_kernel l (BootstrapPaging.mk root) dtb_virtual dtb_range a) s =
    (let* paging := on_kernel (or_halt (lift o)) in ret (paging, a')) s1) as ->.
  { unfold on_kernel, zoom, enter_kernel, kernel_physical_start, PhysAddr.new. unfold bind at 1. cbn [get].
    rewrite Hk. unfold bind. cbn [put]. unfold s1. cbn [kernel_of].
    destruct (or_halt (lift o) (set_memory m' (kernel_of s))) as [[] k]; reflexivity. }
  eapply (ends_bind (fun paging s' => o = Ok paging /\ s' = s1)).
  - eapply (or_halt_ends _ _ s1 o (kernel_of s1)); [done|by destruct o|apply He1|]. intros p ->. by split.
  - intros paging s' [-> ->]. cbn [ret ends]. split; [done|].
    destruct Ho as (top & l1 & l0 & T & sp & l' & Hks & Hsh & Hsec & Hdtb & Hall & _ & _).
    exists top, l1, l0, T, sp, l'. split; [exact Hks|]. split; [exact (shows_synced _ _ Hsh)|]. split; [exact Hsec|]. split; [exact Hdtb|].
    intros va lf Hv. destruct (Hall va lf Hv) as (Ha & Hu & Hw). split; [by exists l0|done].
Qed.

Lemma install_ends top l1 l0 T sp frames paging a s :
  early s -> kernel_state top l1 l0 T sp frames (paging, memory_of (kernel_of s), a) -> synced (memory_of (kernel_of s)) ->
  ends (fun _ s' => masked_state s' /\ exists m, serving top l1 l0 sp (kernel_of s') m)
    (on_kernel (init_kernel_allocator paging a) s).
Proof.
  intros He Hk Hsy. pose proof He as [Hm Hb Hsl].
  destruct (claim_heap_spec top l1 l0 sp T sp frames (paging, memory_of (kernel_of s), a) Hk Hsy ltac:(done))
    as (o & [[p' m'] a'] & Hc & Ho).
  set (k1 := set_memory m' (kernel_of s)).
  set (s1 := mkBoot k1 (BOOTSTRAP_PAGING_CLAIMED s) (BOOT_FRAME_ALLOCATOR_CLAIMED s)).
  assert (masked_state s1) as Hm1 by (by apply (masked_same s)).
  unfold on_kernel, zoom, init_kernel_allocator. unfold bind at 1. cbn [get]. rewrite Hc. unfold bind at 1. cbn [put].
  change (mkSystem (core (kernel_of s)) m' (busy (kernel_of s)) (slot (kernel_of s)) (CLAIMED (kernel_of s))) with k1.
  destruct o as [heap|e| |]; try contradiction.
  - destruct Ho as (_ & _ & Hok & _).
    destruct (initialize_spec heap p' a' k1 Hb (ms_status _ Hm1) Hsl) as (k2 & Hin & Hq & Hmem & Hslot).
    rewrite (bind_ok _ _ _ (Ok tt) k2) by (by apply infallible_ok). cbn [ret ends].
    split.
    + apply (masked_same s1); [done|]. intros c. apply (q_core _ _ Hq).
    + exists (mkMemory heap p' a'). split; [cbn [kernel_of]; by rewrite (q_busy _ _ Hq)|].
      split; [apply (quiet_status _ _ Hq), Hm1|]. split; [done|]. cbn [KAllocator.heap KAllocator.paging KAllocator.frames kernel_of].
      rewrite Hmem. exact Hok.
  - apply (halt_ends _ s1 Hm1).
Qed.

(** ** All calls *)

Definition started (dtb : Z) (s : boot_state) (hz : Z) (guard : InterruptGuard) (s' : boot_state) : Prop :=
  guard = initial_guard s /\ 0 < hz <= u32_max /\ masked_state s' /\
  exists size top l1 l0 base m, 0 < size /\ serving top l1 l0 base (kernel_of s') m /\
    image_mapped (BOOT_FDT_WINDOW_BASE + dtb mod 2 ^ 30) (PhysRange.mk dtb (dtb + size)) base.

Lemma start_kernel_ends root dtb s :
  is_u64 (sstatus s) -> busy (kernel_of s) = false -> slot (kernel_of s) = None -> is_usize dtb ->
  boot_inv root (BootstrapPaging.mk root) (memory_of (kernel_of s)) -> image_placed root ->
  ends (fun '(hz, guard) s' => started dtb s hz guard s' /\
          BOOTSTRAP_PAGING_CLAIMED s = false /\ BOOT_FRAME_ALLOCATOR_CLAIMED s = false)
    (start_kernel l trap_entry dtb s).
Proof.
  intros Hs Hb Hsl Hd Hi Him. destruct (begin_ends s Hs Hb Hsl) as (sa & Ha & sb & Hbb & s0 & Hc & He & Hmem & Hpc & Hfc).
  unfold start_kernel. rewrite (bind_ok _ _ _ _ _ Ha), (bind_ok _ _ _ _ _ Hbb), (bind_ok _ _ _ _ _ Hc).
  rewrite <- Hmem in Hi. rewrite <- Hpc, <- Hfc.
  eapply ends_bind; [by apply (claim_ends root)|]. intros a s1 (-> & He1 & Hpf & Hm1 & Hf1). rewrite <- Hm1 in Hi.
  eapply ends_bind; [by apply (map_ends root)|]. intros va s2 (-> & He2 & Hi2 & _ & Hf2).
  unfold bind at 1. cbn [get].
  set (mm := readable (memory_of (kernel_of s2))). set (va := BOOT_FDT_WINDOW_BASE + dtb mod 2 ^ 30) in *.
  assert (is_usize va) as Hva.
  { unfold va. assert (BOOT_FDT_WINDOW_BASE = 2 ^ 64 - 2 ^ 38) as -> by done.
    pose proof (Z.mod_pos_bound dtb (2 ^ 30) ltac:(done)). unfold is_usize, usize_max. lia. }
  eapply (ends_bind (fun f s' => s' = s2 /\ exists h tr rs, f = Fdt.built mm va h rs /\ Fdt.describes mm va h tr rs /\
    Fdt.from_ptr mm va = Ok f)).
  { eapply (or_halt_ends _ _ s2 (Fdt.from_ptr mm va) (kernel_of s2)); [done| |apply (masked_same s2); [apply He2|done]|].
    - by destruct (Fdt.from_ptr_spec mm va) as [(? & ? & ? & -> & _)|[(e & ->) _]].
    - intros f Hf. split; [by destruct s2|].
      destruct (Fdt.from_ptr_spec mm va) as [(h & tr & rs & Hf' & Hdesc)|[(e & Hf') _]]; [|congruence].
      exists h, tr, rs. split; [congruence|done]. }
  intros f s' (-> & h & tr & rs & -> & Hdesc & Hf).
  pose proof (timer_frequency_spec mm va h tr rs Hdesc) as Hfreq. cbn zeta in Hfreq.
  rewrite (bind_ok _ _ _ (frequency_of (Fdt.strings (Fdt.built mm va h rs)) tr) s2) by (by rewrite Hfreq).
  eapply ends_bind; [apply (some_or_halt_ends (fun hz s' => s' = s2 /\ 0 < hz <= u32_max)); [apply He2|]|].
  { intros hz Hz. split; [done|]. by eapply frequency_range. }
  intros hz s' [-> Hhz]. destruct (kernel_range_ok root (E:=stopped) Him) as (kr & Hkr).
  rewrite (bind_ok _ _ _ kr s2) by (by rewrite Hkr).
  eapply ends_bind; [apply (some_or_halt_ends (fun r s' => s' = s2 /\ r = image_range /\ PhysRange.wf r)); [apply He2|]|].
  { intros r Hr. split; [done|]. by apply (kernel_range_spec root kr Him Hkr). }
  intros r s' (-> & -> & Hkwf). change (Header.total_size (Fdt.header (Fdt.built mm va h rs))) with (Header.total_size h).
  pose proof (Fdt.total_u32 mm va h (Fdt.d_header _ _ _ _ _ Hdesc)) as Htot.
  eapply ends_bind; [apply (some_or_halt_ends (fun r s' => s' = s2 /\
    r = PhysRange.mk dtb (dtb + Header.total_size h) /\ PhysRange.wf r /\ 0 < Header.total_size h)); [apply He2|]|].
  { intros r Hr. split; [done|]. apply PhysRange.from_start_size_Some in Hr as (H1 & H2 & ->); [|unfold HEADER_SIZE in Htot; lia].
    split; [done|]. split; [|done]. unfold PhysRange.wf. cbn. unfold is_usize in Hd. unfold PhysAddr.new in *. lia. }
  intros r s' (-> & -> & Hdwf & Hsize).
  eapply ends_bind; [by apply (frames_ends root mm va _ _ s2 He2 Him Hkwf Hdwf Hf)|].
  intros fr s3 (He3 & Hm3 & Hf3 & frames & Hp & Hoff). rewrite <- Hm3 in Hi2.
  eapply ends_bind; [by apply (enter_ends root va _ fr frames s3)|].
  intros [paging fr'] s4 (He4 & top & l1 & l0 & T & sp & frames' & Hk & Hsy & Hmap).
  eapply ends_bind; [by apply (install_ends top l1 l0 T sp frames' paging fr' s4)|].
  intros _ s5 (Hm5 & m & Hserv). cbn [ret ends]. split; [|split; congruence].
  split; [unfold initial_guard; done|]. split; [done|]. split; [done|].
  by exists (Header.total_size h), top, l1, l0, sp, m.
Qed.

End start.
