(* ===== verification/KWaitProofs.v ===== *)
(** * The wait for timer delivery ends

    With a firmware that accepts every deadline, the loop of [run_kernel] ends
    at the first test after the second interrupt, whatever the tick count it
    starts from. *)

From Stdlib Require Import ZArith Lia Bool.
From stdpp Require Import base list numbers.
From S2P Require Import Prelude FdtScan KMemory KBootAlloc KPaging KAsm KTimer KTimerProofs KConsole KLogging KSyscall KTrap.
From S2P Require Import KTrapProofs KTrapSteps KStartup.
Local Open Scope Z_scope.

Section wait.
Context {W : Type} `{Environment W} `{Build}.
Context (probe_time_read probe_time_unavailable : Z) (frame : TrapFrame) (arrivals : nat -> nat).

(** The environment the kernel's timer relies on: the counter stays below the
    point where adding the interval overflows, and the firmware programs every
    deadline. *)
Definition accepting (interval : Z) (inv : W -> Prop) : Prop :=
  forall w, inv w -> exists now w1 w2, rdtime w = (now, w1) /\ now + interval <= u64_max /\
    sbi_call TIME_EID SET_TIMER_FID (now + interval) w1 = (0, w2) /\ inv w2.

(** A configured timer. *)
Record running (interval : Z) (inv : W -> Prop) (k : kernel W) : Prop := {
  run_interval : INTERVAL k = interval;
  run_counter : STATE k = AVAILABLE;
  run_world : inv (world k);
}.

Context (interval : Z) (inv : W -> Prop).
Context (Hinterval : interval <> 0) (Haccept : accepting interval inv).
Context (Hframe : cause frame = TIMER_INTERRUPT).

Lemma handler_step k :
  running interval inv k ->
  exists k', trap_handler probe_time_read probe_time_unavailable frame k = (Ok frame, k') /\
    running interval inv k' /\ TICKS k' = wrap (TICKS k + 1) /\ control k' = control k.
Proof.
  intros [Hi Hs Hw]. destruct (Haccept _ Hw) as (now & w1 & w2 & Hr & Hle & Hc & Hw2).
  assert (armed k (INTERVAL k) (Ok tt) w2) as Ha by (rewrite Hi; split; [done|]; by exists now, w1).
  unfold trap_handler. rewrite Hframe. replace (TIMER_INTERRUPT =? ILLEGAL_INSTRUCTION) with false by done.
  rewrite andb_false_r, andb_false_l, Z.eqb_refl. unfold minfallible, as_result, bind.
  rewrite (handle_interrupt_armed k w2) by (done || by rewrite Hi). cbn [infallible].
  case_match; (eexists; split; [reflexivity|]; split; [by split|done]).
Qed.

Lemma wrap_add x n : wrap (wrap x + n) = wrap (x + n).
Proof. unfold wrap. by rewrite Zplus_mod_idemp_l. Qed.

Lemma wrap_is_u64 x : is_u64 (wrap x).
Proof. unfold is_u64, u64_max, wrap. pose proof (Z.mod_pos_bound x (2 ^ 64) ltac:(lia)). lia. Qed.

Lemma interrupts_spec n k :
  running interval inv k ->
  exists k', interrupts probe_time_read probe_time_unavailable frame n k = (Ok tt, k') /\
    running interval inv k' /\ wrap (TICKS k') = wrap (TICKS k + Z.of_nat n) /\ control k' = control k.
Proof.
  revert k. induction n as [|n IH]; intros k Hk.
  { exists k. split; [done|]. split; [done|]. by rewrite Z.add_0_r. }
  destruct (handler_step k Hk) as (k1 & Hh & Hk1 & Ht & Hc1). destruct (IH k1 Hk1) as (k2 & Hi & Hk2 & Ht2 & Hc2).
  exists k2. cbn [interrupts]. rewrite (bind_ok _ _ _ _ _ Hh). split; [done|]. split; [done|].
  split; [|by rewrite Hc2]. rewrite Ht2, Ht, wrap_add. f_equal. lia.
Qed.

(** Interrupts delivered before test [n]. *)
Definition delivered (i n : nat) : Z := Z.of_nat (sum_list_with arrivals (seq i n)).

Lemma delivered_S i n : delivered i (S n) = Z.of_nat (arrivals i) + delivered (S i) n.
Proof. unfold delivered. cbn. lia. Qed.

Lemma wrap_sub x y : wrap (wrap x - y) = wrap (x - y).
Proof. unfold wrap. by rewrite Zminus_mod_idemp_l. Qed.

(** The loop is at its test [n] with [before] interrupts behind it. *)
Lemma wait_spec spare n : forall i k initial before,
  running interval inv k -> 0 <= before < 2 -> wrap (TICKS k) = wrap (initial + before) ->
  (forall j, Z.of_nat (arrivals j) < 2 ^ 63) ->
  2 <= before + delivered i (S n) -> before + delivered i n < 2 ->
  exists k', wait_ticks probe_time_read probe_time_unavailable frame arrivals (S n + spare) i initial k = (Ok tt, k') /\
    running interval inv k' /\ wrap (TICKS k') = wrap (initial + (before + delivered i (S n))) /\ control k' = control k.
Proof.
  induction n as [|n IH]; intros i k initial before Hk Hb Ht Ha Hge Hlt;
    destruct (interrupts_spec (arrivals i) k Hk) as (k1 & Hi & Hk1 & Ht1 & Hc1); pose proof (Ha i) as Hai.
  all: assert (wrap (TICKS k1) = wrap (initial + (before + Z.of_nat (arrivals i)))) as Hticks
    by (rewrite Ht1, <- wrap_add, Ht, wrap_add; f_equal; lia).
  all: assert (0 <= before + Z.of_nat (arrivals i) < 2 ^ 64) as Hrange by lia.
  all: assert (wrap (TICKS k1 - initial) = before + Z.of_nat (arrivals i)) as Hdiff
    by (rewrite <- wrap_sub, Hticks, wrap_sub; replace (initial + _ - initial) with (before + Z.of_nat (arrivals i)) by lia;
        by apply Z.mod_small).
  all: assert (forall fuel, wait_ticks probe_time_read probe_time_unavailable frame arrivals (S fuel) i initial k =
    (if before + Z.of_nat (arrivals i) <? 2
     then wait_ticks probe_time_read probe_time_unavailable frame arrivals fuel (S i) initial else ret tt) k1) as Hstep
    by (intros fuel; cbn [wait_ticks]; rewrite (bind_ok _ _ _ _ _ Hi), (bind_ok _ _ _ (TICKS k1) k1) by done; by rewrite Hdiff).
  - rewrite delivered_S in Hge |- *. change (delivered (S i) 0) with 0 in *. cbn [Nat.add].
    rewrite Hstep.
    rewrite (proj2 (Z.ltb_ge _ 2)) by lia. exists k1. split; [done|]. split; [done|]. split; [|done]. rewrite Hticks. f_equal. lia.
  - cbn [Nat.add] in *. rewrite Hstep. rewrite delivered_S in Hlt. rewrite (delivered_S i (S n)) in Hge |- *.
    assert (0 <= delivered (S i) n) by (unfold delivered; lia).
    rewrite (proj2 (Z.ltb_lt _ 2)) by lia.
    destruct (IH (S i) k1 initial (before + Z.of_nat (arrivals i)) Hk1) as (k2 & Hw & Hk2 & Ht2 & Hc2); [lia|done|done|lia|lia|].
    exists k2. split; [exact Hw|]. split; [done|]. split; [|by rewrite Hc2]. rewrite Ht2. f_equal. lia.
Qed.

(** The test that ends the loop. *)
Lemma first_crossing bound n :
  0 < bound -> bound <= delivered 0 n -> exists m, (m < n)%nat /\ delivered 0 m < bound <= delivered 0 (S m).
Proof.
  intros Hb. induction n as [|n IH]; intros Hn; [change (delivered 0 0) with 0 in Hn; lia|].
  destruct (Z_lt_le_dec (delivered 0 n) bound) as [Hlt|Hge]; [by exists n; split; [lia|]|].
  destruct (IH Hge) as (m & Hm & Hd). exists m. split; [lia|done].
Qed.

End wait.
