(* ===== verification/KRunProofs.v ===== *)
(** * From the kernel's start to user mode

    [run_kernel] loads the process, configures the timer, waits for two
    interrupts and hands the context and the kernel stack to [enter_user].  Its
    halts happen with interrupts masked; after interrupts are enabled only the
    wait is left. *)

From Stdlib Require Import ZArith Lia Bool.
From Stdlib Require Import Strings.Byte Strings.String.
From stdpp Require Import base list numbers gmap.
From S2P Require Import Prelude FdtScan KMemory KBootAlloc KMachine KPaging KPte KTables KMapProofs KHeap KHeapProofs.
From S2P Require Import KKernelPaging KWindow KKernelProofs KBackingProofs KBootWindow KPlan.
From S2P Require Import KAsm KTimer KTimerProofs KConsole KLogging KSyscall KTrap KAllocator KAllocatorProofs.
From S2P Require Import KProcess KImageProofs KLoadProofs KProcessProofs KTrapSteps KStartup KMain KMainProofs KWaitProofs.
Local Open Scope Z_scope.

Section run.
Context {W : Type} `{Environment W} `{Build}.
Context (l : linker) (trap_entry probe_time_read probe_time_unavailable : Z) (INIT_IMAGE : list byte).

Abbreviation boot_state := (boot_state (W:=W)).
Abbreviation ends := (ends trap_entry).
Abbreviation masked_state := (masked_state trap_entry).

(** A firmware that programs every deadline one interval ahead, on a counter
    that stays that far from its end. *)
Definition reliable (n : Z) : Prop := accepting (W:=W) n (fun _ => True).

Definition period : Duration := from_millis 10.

(** Only the core changed. *)
Definition with_core (k : kernel W) (s : boot_state) : boot_state :=
  mkBoot (mkSystem k (memory_of (kernel_of s)) (busy (kernel_of s)) (slot (kernel_of s)) (CLAIMED (kernel_of s)))
    (BOOTSTRAP_PAGING_CLAIMED s) (BOOT_FRAME_ALLOCATOR_CLAIMED s).

Lemma on_kernel_bind {E A B} (m : M (system W BootFrameAllocator.t) E A) (k : A -> M (system W BootFrameAllocator.t) E B) s :
  on_kernel (bind m k) s = bind (on_kernel m) (fun a => on_kernel (k a)) s.
Proof.
  unfold on_kernel, zoom, bind. destruct (m (kernel_of s)) as [[a|e| |] k1]; done.
Qed.

Lemma serving_core root l1 l0 base (k : kernel W) (s : boot_state) m :
  still_serving root l1 l0 base (kernel_of s) m -> is_u64 (control k Sstatus) ->
  still_serving root l1 l0 base (kernel_of (with_core k s)) m.
Proof. intros (b & (Hb & _ & Hsl & Hok) & Hsub) Hs. exists b. split; [|exact Hsub]. by split. Qed.

(** A computation that ends, and returns a value when [ok] holds. *)
Definition succeeds {A} (ok : Prop) (P : A -> boot_state -> Prop) (r : outcome stopped A * boot_state) : Prop :=
  ends P r /\ (ok -> exists a, fst r = Ok a).

Lemma succeeds_bind {A B} ok (P : A -> boot_state -> Prop) (Q : B -> boot_state -> Prop) m k s :
  succeeds ok P (m s) -> (forall a s', P a s' -> succeeds ok Q (k a s')) -> succeeds ok Q (bind m k s).
Proof.
  intros [Hm Hok] Hk. split; [eapply ends_bind; [exact Hm|]; intros a s' Ha; by apply Hk|].
  intros Hy. destruct (Hok Hy) as [a Ha]. unfold bind. destruct (m s) as [o s'] eqn:E. cbn [fst] in Ha. subst o.
  by apply (Hk a s' Hm).
Qed.

Lemma or_halt_succeeds {A E} ok (P : A -> boot_state -> Prop) (m : M (system W BootFrameAllocator.t) E A) s o k :
  m (kernel_of s) = (o, k) -> ends P (on_kernel (or_halt m) s) -> (ok -> exists a, o = Ok a) ->
  succeeds ok P (on_kernel (or_halt m) s).
Proof.
  intros Hm He Hok. split; [exact He|]. intros [a ->]%Hok. exists a.
  unfold on_kernel, zoom, or_halt, minfallible, as_result, bind. by rewrite Hm.
Qed.

(** Nothing [run_kernel] needs is missing: a valid image not loaded before, with
    room for the process, the counter, and a timer not configured before. *)
Record runnable (s : boot_state) : Prop := {
  rn_claim : CLAIMED (kernel_of s) = false;
  rn_room : exists i m, Image.parse INIT_IMAGE IMAGE_LIMIT = Ok i /\ slot (kernel_of s) = Some m /\
    room m (kernel_of s) i;
  rn_counter : STATE (core (kernel_of s)) = AVAILABLE;
  rn_timer : INTERVAL (core (kernel_of s)) = 0;
}.

(** The process is in place. *)
Definition process_loaded root l1 l0 base (s' : boot_state) (i : Image.t) (p : Process) : Prop :=
  valid IMAGE_LIMIT i /\ INIT_IMAGE = encode i /\
  exists m m', still_serving root l1 l0 base (kernel_of s') m' /\ loaded base m i p (view m' (kernel_of s')).

Lemma process_core root l1 l0 base (k : kernel W) s i p :
  process_loaded root l1 l0 base s i p -> is_u64 (control k Sstatus) ->
  process_loaded root l1 l0 base (with_core k s) i p.
Proof.
  intros (Hv & He & m & m' & Hserv & Hl) Hk. split; [done|]. split; [done|]. exists m, m'.
  split; [by apply serving_core|exact Hl].
Qed.

Lemma load_ends root l1 l0 base m s :
  masked_state s -> serving root l1 l0 base (kernel_of s) m ->
  succeeds (runnable s) (fun p s1 => masked_state s1 /\ same (core (kernel_of s1)) (core (kernel_of s)) /\
      exists i, process_loaded root l1 l0 base s1 i p)
    (on_kernel (or_halt (load_init INIT_IMAGE)) s).
Proof.
  intros Hm Hs. destruct (load_init_spec root l1 l0 INIT_IMAGE base (kernel_of s) m Hs) as (o & k & Hl & Hcore & Ho).
  assert (masked_state (mkBoot k (BOOTSTRAP_PAGING_CLAIMED s) (BOOT_FRAME_ALLOCATOR_CLAIMED s))) as Hm1
    by (apply (masked_same trap_entry s); [done|]; intros c; apply Hcore).
  eapply or_halt_succeeds; [exact Hl| |].
  - eapply or_halt_ends; [exact Hl|by destruct o|exact Hm1|]. intros p ->.
    destruct Ho as (_ & _ & i & m' & Hv & He & Hserv & Hld). split; [done|]. split; [exact Hcore|].
    exists i. split; [done|]. split; [done|]. by exists m, m'.
  - intros [Hc (i & m0 & Hp & Hslot & Hroom) _ _]. destruct o as [p|e| |]; [by exists p|exfalso|done|done].
    assert (m0 = m) as -> by (destruct Hs as (_ & _ & Hsl & _); congruence).
    destruct Ho as [[Hp' _]|(j & Hj & [(Hc' & _)|(_ & _ & _ & Hno & _)])]; [congruence|congruence|].
    apply Hno. by replace j with i by congruence.
Qed.

(** A timer that is not configured, on an available counter and a reliable firmware, is configured. *)
Lemma timer_configures hz (k : kernel W) e k' :
  0 < hz <= u32_max -> (forall n, lasts hz period n -> reliable n) -> STATE k = AVAILABLE -> INTERVAL k = 0 ->
  ~ configured k hz period (Err e) k'.
Proof.
  intros Hz Hr Hav Hi Hc. assert (forall n, lasts hz period n -> 0 < n <= u64_max) as Hn.
  { intros n. unfold lasts. change (as_nanos period) with (10 ^ 7). unfold u32_max, u64_max in *. lia. }
  assert (forall n w', lasts hz period n -> ~ armed k n (Err e) w') as Harm.
  { intros n w' Hl. destruct (Hr n Hl (world k) I) as (now & w1 & w2 & Hrd & Hle & Hsbi & _).
    destruct e; cbn [armed]; intros Ha; repeat match goal with
      | Hx : _ /\ _ |- _ => destruct Hx
      | Hx : exists _, _ |- _ => destruct Hx
      end; try done; try congruence; try lia.
    all: rewrite Hrd in *; simplify_eq; try lia; try congruence. }
  destruct e; cbn [configured] in Hc; try (destruct Hc as (_ & n & w' & Hl & _ & Ha & _); by apply (Harm n w' Hl)).
  - by destruct Hc.
  - destruct Hc as (_ & _ & Hno). destruct (interval_ticks_spec hz period ltac:(lia) ltac:(by vm_compute; repeat split)) as (n & Hl & _).
    by apply (Hno n Hl), Hn.
Qed.

(** The timer is configured, with its source unmasked, or the hart parks. *)
Lemma timer_ends hz s :
  masked_state s -> 0 < hz <= u32_max -> (forall n, lasts hz period n -> reliable n) ->
  succeeds (STATE (core (kernel_of s)) = AVAILABLE /\ INTERVAL (core (kernel_of s)) = 0) (fun _ s' => exists n k, s' = with_core k s /\ lasts hz period n /\ 0 < n /\ running n (fun _ => True) k /\
          control k Sstatus = sstatus s /\ control k Sie = TIMER_ENABLE)
    (on_kernel (or_halt (on_core (timer_init hz period))) s).
Proof.
  intros Hm Hz Hr. assert (duration_ok period) as Hd by (vm_compute; repeat split; congruence).
  destruct (timer_init_spec hz period (core (kernel_of s)) (ms_status _ _ Hm) ltac:(lia) Hd) as (o & k & k2 & Ht & Hsame & Hc).
  destruct Hsame as (Hctl & Hst & Hint & _ & _ & Hw).
  assert (on_core (F:=BootFrameAllocator.t) (timer_init hz period) (kernel_of s) = (o, kernel_of (with_core k s))) as Hon
    by (unfold on_core, zoom; by rewrite Ht).
  apply (or_halt_succeeds _ _ _ s o _ Hon); [eapply (or_halt_cases trap_entry _ _ s o _ Hon); [by destruct o as [[]|[]| |]| |]|].
  - intros e ->. assert (control k2 = control (core (kernel_of s))) as Hk2.
    { destruct e; cbn [configured] in Hc; repeat match goal with
        | Hx : _ /\ _ |- _ => destruct Hx
        | Hx : exists _, _ |- _ => destruct Hx
        end; by subst k2. }
    apply (masked_same trap_entry s); [done|]. intros c. change (control k c = control (core (kernel_of s)) c).
    by rewrite Hctl, Hk2.
  - intros [] ->. destruct Hc as (_ & n & w & Hl & Hn & [Hav _] & ->). exists n, k. split; [done|].
    split; [done|]. split; [lia|]. split; [split; [by rewrite Hint|by rewrite Hst|done]|].
    split; [by rewrite Hctl|]. rewrite Hctl. cbn. by rewrite (ms_sources _ _ Hm).
  - intros [Hav Hi]. destruct o as [[]|e| |]; [by exists tt|exfalso|done|done].
    by apply (timer_configures hz (core (kernel_of s)) e k2).
Qed.

(** What [run_kernel] hands to [enter_user], and the state it leaves. *)
Record user_ready root l1 l0 base hz (s' : boot_state) (i : Image.t) (ready : TrapFrame * VirtAddr.t) : Prop := {
  ur_process : exists p, process_loaded root l1 l0 base s' i p /\ fst ready = context p /\
    snd ready = kernel_stack p + STACK_SIZE;
  ur_enabled : Z.testbit (sstatus s') 1 = true;
  ur_source : control (core (kernel_of s')) Sie = TIMER_ENABLE;
  ur_timer : exists n, lasts hz period n /\ running n (fun _ => True) (core (kernel_of s'));
}.

(** The guard leaves the interrupts as they were at entry, and [enable] enables them. *)
Definition enabled_core (guard : InterruptGuard) (k : kernel W) : kernel W :=
  let k1 := with_control k Sstatus (if was_enabled guard then Z.lor (control k Sstatus) 2 else clear_bits (control k Sstatus) 2) in
  with_control k1 Sstatus (Z.lor (control k1 Sstatus) 2).

Lemma enabled_core_status guard k :
  is_u64 (control k Sstatus) ->
  is_u64 (control (enabled_core guard k) Sstatus) /\ Z.testbit (control (enabled_core guard k) Sstatus) 1 = true /\
  forall c, c <> Sstatus -> control (enabled_core guard k) c = control k c.
Proof.
  intros Hs. unfold enabled_core. cbn [control with_control]. rewrite !decide_True by done.
  assert (forall v, is_u64 v -> is_u64 (Z.lor v 2)) as Hlor by (intros v Hv; by apply (set_u64 v 1)).
  split; [|split].
  - apply Hlor. destruct (was_enabled guard); [by apply Hlor|apply (masked_clear _ Hs)].
  - rewrite Z.lor_spec. change (Z.testbit 2 1) with true. apply orb_true_r.
  - intros c Hc. by rewrite !decide_False by done.
Qed.

Lemma enable_steps guard k s :
  exists k1, on_kernel (E:=stopped) (on_core (drop_guard guard)) (with_core k s) = (Ok tt, with_core k1 s) /\
    on_kernel (E:=stopped) (on_core enable) (with_core k1 s) = (Ok tt, with_core (enabled_core guard k) s).
Proof.
  eexists. split; [|reflexivity]. unfold on_kernel, on_core, zoom, drop_guard. by destruct (was_enabled guard).
Qed.

Lemma run_kernel_succeeds root l1 l0 base m frame arrivals fuel hz guard s :
  masked_state s -> serving root l1 l0 base (kernel_of s) m -> 0 < hz <= u32_max ->
  (forall n, lasts hz period n -> reliable n) -> cause frame = TIMER_INTERRUPT ->
  (forall i, Z.of_nat (arrivals i) < 2 ^ 63) -> 2 <= delivered arrivals 0 fuel ->
  succeeds (runnable s) (fun ready s' => exists i, user_ready root l1 l0 base hz s' i ready)
    (on_kernel (run_kernel probe_time_read probe_time_unavailable INIT_IMAGE frame arrivals fuel hz guard) s).
Proof.
  intros Hm Hs Hhz Hr Hframe Harr (d & Hd & Hd1 & Hd2)%first_crossing; [|done].
  unfold run_kernel. rewrite on_kernel_bind. eapply succeeds_bind; [by apply (load_ends root l1 l0 base m)|].
  intros p s1 (Hm1 & Hcore & i & Hp). cbv zeta. fold period. rewrite on_kernel_bind.
  eapply succeeds_bind.
  { destruct (timer_ends hz s1 Hm1 Hhz Hr) as [He Hok]. split; [exact He|]. intros [_ _ Hav Hint]. apply Hok.
    destruct Hcore as (_ & -> & -> & _). by split. }
  intros [] s2 (n & k & -> & Hl & Hn & Hrun & Hst & Hsie).
  rewrite on_kernel_bind. rewrite (bind_ok _ _ _ (TICKS k) (with_core k s1)) by done.
  destruct (enable_steps guard k s1) as (k1' & Hdrop & Hen).
  rewrite on_kernel_bind, (bind_ok _ _ _ _ _ Hdrop), on_kernel_bind, (bind_ok _ _ _ _ _ Hen).
  assert (is_u64 (control k Sstatus)) as Hu by (rewrite Hst; apply Hm1).
  destruct (enabled_core_status guard k Hu) as (Heu & He1 & Heo). set (k1 := enabled_core guard k) in *.
  assert (running n (fun _ => True) k1) as Hrun1 by (destruct Hrun; by split).
  destruct (wait_spec probe_time_read probe_time_unavailable frame arrivals n (fun _ => True) ltac:(lia) (Hr n Hl) Hframe
    (fuel - S d) d 0 k1 (TICKS k) 0 Hrun1) as (k2 & Hw & Hrun2 & _ & Hc2); [lia|by rewrite Z.add_0_r|done|lia|lia|].
  replace (S d + (fuel - S d))%nat with fuel in Hw by lia.
  rewrite on_kernel_bind. rewrite (bind_ok _ _ _ tt (with_core k2 s1)).
  2:{ unfold on_kernel, on_core, zoom. cbn [with_core kernel_of core]. by rewrite Hw. }
  cbn [on_kernel zoom ret]. split; [|by eexists]. cbn [ends KMainProofs.ends]. exists i.
  pose proof Hp as (_ & _ & m1 & m2 & _ & Hld). destruct (ld_block _ _ _ _ _ Hld) as (Hb1 & _ & Hb2).
  split; cbn [fst snd].
  - exists p. split; [apply (process_core root l1 l0 base k2 s1 i p Hp); by rewrite Hc2|]. split; [done|]. apply Z.mod_small.
    revert Hb1 Hb2. change HEAP_START with 0xffffffe000000000. change HEAP_END with 0xffffffe040000000.
    change STACK_SIZE with 16384. unfold VirtAddr.new. lia.
  - change (Z.testbit (control k2 Sstatus) 1 = true). by rewrite Hc2.
  - change (control k2 Sie = TIMER_ENABLE). by rewrite Hc2, Heo.
  - by exists n.
Qed.

(** ** The whole of [main] *)

(** The hart at the first instruction of the program. *)
Record starts (i : Image.t) (top : Z) (h h' : KAsm.hart) : Prop := {
  st_pc : pc h' = Image.entry i;
  st_user : user h' = true;
  st_stack : reg h' sp = USER_STACK_TOP;
  st_registers r : 0 <= r < 32 -> r <> sp -> reg h' r = 0;
  st_kernel_stack : csrs h' Sscratch = top;
  st_extensions : Z.land (csrs h' Sstatus) EXTENSION_STATE_MASK = 0;
  st_memory x : x < top - frame_size \/ top <= x -> data h' x = data h x;
}.

Lemma context_starts global_pointer i top h :
  valid IMAGE_LIMIT i -> frame_size <= top < 2 ^ 64 ->
  exists h', enter_user global_pointer (UserContext_new (Image.entry i) USER_STACK_TOP) top h = Some (Returned, h') /\
    starts i top h h'.
Proof.
  intros [Vb _ _ Ve _ Vl] Htop. destruct (frame_ceil_spec (Image.base i + zlen (Image.bytes i))) as [_ Hcr].
  set (f := UserContext_new (Image.entry i) USER_STACK_TOP).
  destruct (enter_user_spec global_pointer f top h) as (h' & He & Hr & Hzero & Hpc & Hu & Hss & Hst & _ & Hd); [| done|done|].
  { apply user_context_ok; [|by vm_compute]. revert Vb Ve Vl Hcr. change IMAGE_LIMIT with 0x3fffb000.
    unfold is_u64, u64_max, FRAME_SIZE. lia. }
  exists h'. split; [exact He|]. split; try done.
  - by rewrite Hr.
  - intros r Hr0 Hne. destruct (decide (r = 0)) as [->|Hz]; [done|]. rewrite Hr by lia. by apply user_context_register.
  - by rewrite Hst.
Qed.

(** What [main] leaves when it enters user mode. *)
Definition entered dtb (s' : boot_state) (ready : TrapFrame * VirtAddr.t) : Prop :=
  exists hz size root l1 l0 base i, 0 < hz <= u32_max /\ 0 < size /\
    image_mapped l (BOOT_FDT_WINDOW_BASE + dtb mod 2 ^ 30) (PhysRange.mk dtb (dtb + size)) base /\
    user_ready root l1 l0 base hz s' i ready /\
    forall global_pointer h, exists h',
      enter_user global_pointer (fst ready) (snd ready) h = Some (Returned, h') /\ starts i (snd ready) h h'.

Lemma main_ends root dtb frame arrivals fuel s :
  is_u64 (sstatus s) -> busy (kernel_of s) = false -> slot (kernel_of s) = None -> is_usize dtb ->
  boot_inv root (BootstrapPaging.mk root) (memory_of (kernel_of s)) -> image_placed l root ->
  (forall hz n, 0 < hz <= u32_max -> lasts hz period n -> reliable n) -> cause frame = TIMER_INTERRUPT ->
  (forall i, Z.of_nat (arrivals i) < 2 ^ 63) -> 2 <= delivered arrivals 0 fuel ->
  let r := main l trap_entry probe_time_read probe_time_unavailable INIT_IMAGE frame arrivals fuel dtb s in
  ends (fun ready s' => entered dtb s' ready /\
          BOOTSTRAP_PAGING_CLAIMED s = false /\ BOOT_FRAME_ALLOCATOR_CLAIMED s = false) r /\
  forall started s1, start_kernel l trap_entry dtb s = (Ok started, s1) -> runnable s1 -> exists ready, fst r = Ok ready.
Proof.
  intros Hs Hb Hsl Hd Hi Him Hr Hf Harr Hfuel. unfold main.
  pose proof (start_kernel_ends l trap_entry root dtb s Hs Hb Hsl Hd Hi Him) as Hstart.
  destruct (start_kernel l trap_entry dtb s) as [o s1] eqn:Hst. destruct o as [[hz guard]|e| |]; try done.
  2:{ rewrite (bind_err _ _ _ _ _ Hst). by split. }
  rewrite (bind_ok _ _ _ _ _ Hst).
  destruct Hstart as [(_ & Hhz & Hm & size & top & l1 & l0 & base & m & Hsize & Hserv & Hmap) Hcl].
  destruct (run_kernel_succeeds top l1 l0 base m frame arrivals fuel hz guard s1) as [Hends Hok]; eauto.
  split; [|by intros started s1' [= <- <-] Hrun; apply Hok].
  eapply ends_mono; [exact Hends|].
  intros ready s2 (i & Hready). split; [|exact Hcl]. exists hz, size, top, l1, l0, base, i.
  split; [done|]. split; [done|]. split; [exact Hmap|]. split; [exact Hready|]. intros gp h.
  destruct Hready as [(p & (Hv & _ & m1 & m2 & _ & Hld) & Hctx & Htop) _ _ _].
  rewrite Hctx, (ld_context _ _ _ _ _ Hld). apply context_starts; [done|]. rewrite Htop.
  destruct (ld_block _ _ _ _ _ Hld) as (Hb1 & _ & Hb2). revert Hb1 Hb2.
  change HEAP_START with 0xffffffe000000000. change HEAP_END with 0xffffffe040000000.
  change STACK_SIZE with 16384. unfold frame_size. lia.
Qed.

End run.
