(* ===== verification/KUser.v ===== *)
(** * The user program ([user/init/src/main.rs])

    The program against the kernel's own trap handler: a system call is an
    environment call the handler serves, and timer interrupts arrive between
    two tests of its waiting loop. *)

From Stdlib Require Import ZArith Lia Bool.
From Stdlib Require Import Strings.Byte Strings.String.
From stdpp Require Import base list numbers.
From S2P Require Import Prelude FdtScan KMemory KBootAlloc KPaging KAsm KTimer KTimerProofs KConsole KLogging KSyscall KTrap.
From S2P Require Import KTrapProofs KTrapSteps KStartup KWaitProofs.
Local Open Scope Z_scope.

Definition GREETING : list byte := list_byte_of_string "Hello from user mode" ++ [x0a].
Definition CONFIRMATION : list byte := list_byte_of_string "User timer resume confirmed" ++ [x0a].
Definition PATTERN : Z := 0x13579bdf2468ace0.

(** [rotate_left(1)] and [rotate_right(1)] of a [u64]. *)
Definition rotate_left (v : Z) : Z := Z.lor (wrap (Z.shiftl v 1)) (Z.shiftr v 63).
Definition rotate_right (v : Z) : Z := Z.lor (Z.shiftr v 1) (wrap (Z.shiftl v 63)).

(** The work between two tests: ten thousand passes over the values. *)
Definition pass (values : list Z) : list Z := map (fun value => rotate_right (rotate_left value)) values.
Definition work (values : list Z) : list Z := Nat.iter (Z.to_nat 10000) pass values.

Section program.
Context {W : Type} `{Environment W} `{Build}.
Context (probe_time_read probe_time_unavailable : Z).
(** The registers, pc and status the traps find, and the timer interrupts
    between two tests. *)
Context (context : TrapFrame) (arrivals : nat -> nat).

(** The frame of a trap taken in user mode. *)
Definition trapped (trap_cause : Z) : TrapFrame :=
  mkFrame (registers context) (epc context) (status context) trap_cause 0.

(** [ecall] with [a7] and [a0]; the result is in [a0]. *)
Definition syscall (number argument : Z) : M (kernel W) stopped Z :=
  let* frame := trap_handler probe_time_read probe_time_unavailable
                  (set_register (set_register (trapped USER_ECALL) 17 number) 10 argument) in
  ret (register frame 10).

(** [exit]: [unimp] raises an illegal instruction should the call return. *)
Definition exit {A} (status : Z) : M (kernel W) stopped A :=
  let* _result := syscall EXIT status in
  let* _ := trap_handler probe_time_read probe_time_unavailable (trapped ILLEGAL_INSTRUCTION) in
  panic.

Fixpoint write (bytes : list byte) : M (kernel W) stopped unit :=
  match bytes with
  | [] => ret tt
  | byte :: bytes =>
      let* result := syscall CONSOLE_WRITE_BYTE (u8 byte) in
      let* _ := if negb (result =? 0) then exit 2 else ret tt in
      write bytes
  end.

(** The loop that waits for three timer interrupts, [fuel] tests. *)
Fixpoint wait_loop (fuel : nat) (i : nat) (start : Z) (values : list Z) : M (kernel W) stopped (list Z) :=
  match fuel with
  | O => lift OutOfFuel
  | S fuel' =>
      let* _ := interrupts probe_time_read probe_time_unavailable (trapped TIMER_INTERRUPT) (arrivals i) in
      let* ticks := syscall TIMER_TICKS 0 in
      if wrap (ticks - start) <? 3 then wait_loop fuel' (S i) start (work values) else ret values
  end.

Definition user_main (fuel : nat) : M (kernel W) stopped unit :=
  let* _ := write GREETING in
  let values := replicate 32 PATTERN in
  let* start := syscall TIMER_TICKS 0 in
  let* values := wait_loop fuel 0 start values in
  let* _ := if existsb (fun value => negb (value =? PATTERN)) values then exit 1 else ret tt in
  let* _ := write CONFIRMATION in
  exit 0.

End program.

(** ** The work changes nothing *)

Lemma rotate_back v : is_u64 v -> rotate_right (rotate_left v) = v.
Proof.
  intros Hv. unfold rotate_right, rotate_left, wrap. pose proof (u64_high v) as Hhigh.
  apply Z.bits_inj'. intros n Hn. rewrite Z.lor_spec, Z.shiftr_spec, Z.lor_spec, Z.shiftr_spec by lia.
  destruct (decide (n < 64)) as [Hlt|Hge].
  - rewrite (Z.mod_pow2_bits_low _ 64 n) by lia. rewrite Z.shiftl_spec by lia.
    destruct (decide (n = 63)) as [->|Hne].
    + rewrite Z.mod_pow2_bits_high by lia. rewrite (Hhigh (63 + 1 + 63)) by (done || lia).
      rewrite Z.lor_spec, Z.shiftr_spec, Z.mod_pow2_bits_low, Z.shiftl_spec by lia.
      rewrite (Z.testbit_neg_r v (63 - 63 - 1)) by lia. done.
    + rewrite Z.mod_pow2_bits_low, Z.shiftl_spec by lia. rewrite (Hhigh (n + 1 + 63)) by (done || lia).
      rewrite (Z.testbit_neg_r _ (n - 63)) by lia. rewrite !orb_false_r. f_equal. lia.
  - rewrite !Z.mod_pow2_bits_high by lia. rewrite !Hhigh by (done || lia). done.
Qed.

Lemma work_pattern n : work (replicate n PATTERN) = replicate n PATTERN.
Proof.
  unfold work. assert (pass (replicate n PATTERN) = replicate n PATTERN) as Hp.
  { unfold pass. induction n as [|n IH]; [done|]. cbn [replicate map].
    rewrite IH, rotate_back; [done|]. unfold is_u64, u64_max, PATTERN. lia. }
  generalize (Z.to_nat 10000). intros m. induction m as [|m IH]; [done|]. by rewrite Nat.iter_succ, IH.
Qed.

(** ** System calls *)

Section calls.
Context {W : Type} `{Console W} `{Build}.
Context (probe_time_read probe_time_unavailable : Z) (context : TrapFrame) (arrivals : nat -> nat).

(** A user context: its traps come from user mode. *)
Record user_context : Prop := {
  uc_status : is_u64 (status context);
  uc_origin : Z.testbit (status context) 8 = false;
  uc_pc : epc context + 4 <= usize_max;
  uc_registers : length (registers context) = 32%nat;
}.

Context (Hc : user_context).

Abbreviation syscall := (syscall probe_time_read probe_time_unavailable context).
Abbreviation trapped := (trapped context).

Lemma user_origin number argument trap_cause :
  negb (Z.land (status (set_register (set_register (trapped trap_cause) 17 number) 10 argument)) SUPERVISOR_ORIGIN =? 0) = false /\
  negb (Z.land (status (trapped trap_cause)) SUPERVISOR_ORIGIN =? 0) = false.
Proof.
  pose proof (origin_bit (trapped trap_cause) (uc_status Hc)) as Ho. unfold from_supervisor in Ho.
  assert (negb (Z.land (status (trapped trap_cause)) SUPERVISOR_ORIGIN =? 0) = false) as Hf
    by (rewrite Ho; apply (uc_origin Hc)).
  by split.
Qed.

(** An environment call is the kernel's [handle_syscall] on its arguments. *)
Lemma syscall_eq number argument (k : kernel W) :
  syscall number argument k = handle_syscall number argument k.
Proof.
  destruct (user_origin number argument USER_ECALL) as [Ho _]. unfold KUser.syscall, trap_handler.
  rewrite Ho. cbn [andb negb]. set (frame := set_register (set_register (trapped USER_ECALL) 17 number) 10 argument).
  assert (checked_add usize_max (epc frame) 4 = Some (epc context + 4)) as Hadd
    by (apply checked_add_Some; split; [apply (uc_pc Hc)|done]).
  change (cause frame =? TIMER_INTERRUPT) with false. change (cause frame =? USER_ECALL) with true. cbn [andb].
  rewrite Hadd. pose proof (uc_registers Hc) as Hlen.
  assert (register (with_epc frame (epc context + 4)) 17 = number /\ register (with_epc frame (epc context + 4)) 10 = argument) as [-> ->].
  { unfold register, frame. cbn [with_epc set_register trapped KUser.trapped registers].
    split; rewrite nth_lookup, ?list_lookup_insert_eq by (rewrite ?length_insert; lia); [|done].
    rewrite list_lookup_insert_ne, list_lookup_insert_eq by lia. done. }
  unfold bind. destruct (handle_syscall number argument k) as [[v|e| |] k']; try done. cbn [ret].
  unfold register, set_register. cbn [registers with_epc]. rewrite nth_lookup, list_lookup_insert_eq; [done|].
  unfold frame. cbn. rewrite !length_insert. lia.
Qed.

(** The build does not trace system calls. *)
Context (Hquiet : ~ compiled_in build Trace Syscall) (Hclock : clock_u64 (W:=W)).

Lemma syscall_quiet number argument (k : kernel W) :
  log_at (E:=stopped) Trace Syscall syscall_rs 10 (syscall_text number argument) k = (Ok tt, k).
Proof. by apply log_at_off, not_enabled. Qed.

(** One byte is sent to the firmware once. *)
Lemma put_byte_spec b e (k : kernel W) w :
  sbi_call DBCN_EID DBCN_WRITE_BYTE_FID (u8 b) (world k) = (e, w) ->
  exists r, syscall CONSOLE_WRITE_BYTE (u8 b) k = (Ok r, with_world k w) /\ (r = 0 <-> e = 0).
Proof.
  intros Hsbi. destruct (write_byte_step b k) as (o & k' & Hw & Hk & Ho). pose proof (u8_range b) as Hr.
  assert (w = world k') as ->.
  { rewrite Hsbi in Ho. destruct o as [[]|x| |]; [by injection Ho|destruct Ho as (e' & Ho & _); by injection Ho|done..]. }
  unfold outside in Hk. rewrite <- Hk. exists (match o with Ok _ => 0 | _ => ERROR_IO end). rewrite syscall_eq. unfold handle_syscall.
  rewrite (bind_ok _ _ _ _ _ (syscall_quiet _ _ k)). cbn [Z.eqb Pos.eqb CONSOLE_WRITE_BYTE].
  replace (u8 b <=? 255) with true by lia. unfold bind, minfallible, as_result. rewrite Hw. rewrite Hsbi in Ho.
  destruct o as [[]|x| |]; [injection Ho as ->|destruct Ho as (e' & [= <-] & Hne)|done..]; (split; [done|]); by split.
Qed.

Lemma ticks_eq (k : kernel W) : syscall TIMER_TICKS 0 k = (Ok (USER_TICKS k), k).
Proof. rewrite syscall_eq. unfold handle_syscall. by rewrite (bind_ok _ _ _ _ _ (syscall_quiet _ _ k)). Qed.

(** [exit] leaves two records, and lets interrupts in. *)
Lemma exit_logged code (k : kernel W) :
  exists k1 k2 out1 out2,
    (forall A, exit (A:=A) probe_time_read probe_time_unavailable context code k =
       (Err (Exited code), with_control k2 Sstatus (Z.lor (control k2 Sstatus) 2))) /\
    logged (if code =? 0 then Info else Warn) Process process_rs (if code =? 0 then 150 else 155)
      (exited_text code (USER_TICKS k)) k k1 out1 /\
    logged Info Process process_rs 174 (bs "Kernel idle after user process") k1 k2 out2.
Proof.
  destruct (log_at_logged (E:=stopped) (if code =? 0 then Info else Warn) Process process_rs (if code =? 0 then 150 else 155)
    (exited_text code (USER_TICKS k)) k) as (k1 & out1 & E1 & L1); [by destruct (code =? 0)|done|by destruct (code =? 0)|].
  destruct (log_at_logged (E:=stopped) Info Process process_rs 174 (bs "Kernel idle after user process") k1)
    as (k2 & out2 & E2 & L2); [done..|].
  exists k1, k2, out1, out2. split; [|by split]. intros A. unfold exit. apply bind_err. rewrite syscall_eq.
  unfold handle_syscall. rewrite (bind_ok _ _ _ _ _ (syscall_quiet _ _ k)). cbn [Z.eqb Pos.eqb EXIT CONSOLE_WRITE_BYTE TIMER_TICKS].
  unfold exit_process. rewrite (bind_ok _ _ _ (USER_TICKS k) k) by done.
  rewrite (bind_ok _ _ _ tt k1).
  - unfold idle. by rewrite (bind_ok _ _ _ _ _ E2).
  - destruct (code =? 0) eqn:Hz; [|exact E1]. apply Z.eqb_eq in Hz. subst code. exact E1.
Qed.

Lemma exit_bind {A B} code (f : A -> M (kernel W) stopped B) (k : kernel W) :
  (let* a := exit (A:=A) probe_time_read probe_time_unavailable context code in f a) k =
  exit (A:=B) probe_time_read probe_time_unavailable context code k.
Proof. destruct (exit_logged code k) as (k1 & k2 & o1 & o2 & He & _). by rewrite (bind_err _ _ _ _ _ (He A)), He. Qed.

(** A write sends its bytes, and ends the program when one is rejected. *)
Lemma user_write_spec w bytes w' out :
  prints w bytes w' out -> forall k : kernel W, world k = w ->
  write probe_time_read probe_time_unavailable context bytes k =
    if decide (out = bytes) then (Ok tt, with_world k w')
    else exit probe_time_read probe_time_unavailable context 2 (with_world k w').
Proof.
  induction 1 as [w|w b w1 bytes w' out Hsbi _ IH|w b e w1 bytes Hsbi Hne]; intros k Hk; subst w; cbn [write].
  - rewrite decide_True by done. by destruct k.
  - destruct (put_byte_spec b 0 k w1 Hsbi) as (r & Hs & Hr). rewrite (bind_ok _ _ _ _ _ Hs), (proj2 Hr eq_refl).
    cbn [Z.eqb negb]. rewrite (bind_ok _ _ _ tt (with_world k w1)) by done.
    rewrite (IH (with_world k w1) eq_refl). change (with_world (with_world k w1) w') with (with_world k w').
    destruct (decide (out = bytes)) as [->|Hd]; [by rewrite decide_True|]. rewrite decide_False by congruence. done.
  - destruct (put_byte_spec b e k w1 Hsbi) as (r & Hs & Hr). rewrite (bind_ok _ _ _ _ _ Hs).
    rewrite (proj2 (Z.eqb_neq r 0)) by tauto. cbn [negb]. rewrite decide_False by done.
    apply exit_bind.
Qed.

(** A console that accepts every byte prints all of them. *)
Lemma open_user_write inv bytes (k : kernel W) :
  open_console inv -> inv (world k) ->
  exists k', write probe_time_read probe_time_unavailable context bytes k = (Ok tt, k') /\ outside k k' /\
    printed (world k') = printed (world k) ++ bytes /\ inv (world k').
Proof.
  intros Ho Hi. destruct (prints_total bytes (world k)) as (w & out & Hp).
  destruct (open_prints inv _ _ _ _ Ho Hp Hi) as [-> Hw]. exists (with_world k w).
  rewrite (user_write_spec _ _ _ _ Hp k eq_refl), decide_True by done. split; [done|]. split; [done|].
  split; [|done]. apply (prints_printed _ _ _ _ Hp).
Qed.

(** ** The waiting loop *)

Context (interval : Z) (inv : W -> Prop).
Context (Hinterval : interval <> 0) (Haccept : accepting interval inv).

Lemma user_handler_step (k : kernel W) :
  running interval inv k ->
  exists k', trap_handler probe_time_read probe_time_unavailable (trapped TIMER_INTERRUPT) k =
      (Ok (trapped TIMER_INTERRUPT), k') /\
    running interval inv k' /\ USER_TICKS k' = wrap (USER_TICKS k + 1) /\ printed (world k') = printed (world k).
Proof.
  intros [Hi Hs Hw]. destruct (Haccept _ Hw) as (now & w1 & w2 & Hr & Hle & Hsbi & Hw2).
  assert (armed k (INTERVAL k) (Ok tt) w2) as Ha by (rewrite Hi; split; [done|]; by exists now, w1).
  destruct (user_origin 0 0 TIMER_INTERRUPT) as [_ Ho]. unfold trap_handler. rewrite Ho.
  change (cause (trapped TIMER_INTERRUPT)) with TIMER_INTERRUPT. cbn [andb negb].
  rewrite Z.eqb_refl. unfold minfallible, as_result, bind.
  rewrite (handle_interrupt_armed k w2) by (done || by rewrite Hi). cbn [infallible get put ret].
  eexists. split; [reflexivity|]. split; [by split|]. split; [done|]. cbn.
  pose proof (clock_silent (world k)) as P1. rewrite Hr in P1. pose proof (timer_silent (now + interval) w1) as P2.
  rewrite Hsbi in P2. cbn in P1, P2. by rewrite P2, P1.
Qed.

Lemma user_interrupts_spec n : forall (k : kernel W),
  running interval inv k ->
  exists k', interrupts probe_time_read probe_time_unavailable (trapped TIMER_INTERRUPT) n k = (Ok tt, k') /\
    running interval inv k' /\ wrap (USER_TICKS k') = wrap (USER_TICKS k + Z.of_nat n) /\
    (is_u64 (USER_TICKS k) -> is_u64 (USER_TICKS k')) /\ printed (world k') = printed (world k).
Proof.
  induction n as [|n IH]; intros k Hk.
  { exists k. split; [done|]. split; [done|]. by rewrite Z.add_0_r. }
  destruct (user_handler_step k Hk) as (k1 & Hh & Hk1 & Ht & Hp).
  destruct (IH k1 Hk1) as (k2 & Hi & Hk2 & Ht2 & Hu2 & Hp2).
  exists k2. cbn [interrupts]. rewrite (bind_ok _ _ _ _ _ Hh). split; [exact Hi|]. split; [done|].
  split; [rewrite Ht2, Ht, wrap_add; f_equal; lia|]. split; [|by rewrite Hp2].
  intros _. apply Hu2. rewrite Ht. apply wrap_is_u64.
Qed.

(** The loop is at its test [n] with [before] interrupts behind it; three end it. *)
Lemma user_wait_spec values spare n : forall i (k : kernel W) start before,
  work values = values ->
  running interval inv k -> 0 <= before < 3 -> wrap (USER_TICKS k) = wrap (start + before) ->
  (forall j, Z.of_nat (arrivals j) < 2 ^ 63) ->
  3 <= before + delivered arrivals i (S n) -> before + delivered arrivals i n < 3 ->
  exists k', wait_loop probe_time_read probe_time_unavailable context arrivals (S n + spare) i start values k = (Ok values, k') /\
    running interval inv k' /\ wrap (USER_TICKS k') = wrap (start + (before + delivered arrivals i (S n))) /\
    (is_u64 (USER_TICKS k) -> is_u64 (USER_TICKS k')) /\ printed (world k') = printed (world k).
Proof.
  induction n as [|n IH]; intros i k start before Hwork Hk Hb Ht Ha Hge Hlt;
    destruct (user_interrupts_spec (arrivals i) k Hk) as (k1 & Hi & Hk1 & Ht1 & Hu1 & Hp1); pose proof (Ha i) as Hai.
  all: assert (wrap (USER_TICKS k1) = wrap (start + (before + Z.of_nat (arrivals i)))) as Hticks
    by (rewrite Ht1, <- wrap_add, Ht, wrap_add; f_equal; lia).
  all: assert (wrap (USER_TICKS k1 - start) = before + Z.of_nat (arrivals i)) as Hdiff
    by (rewrite <- wrap_sub, Hticks, wrap_sub; replace (start + _ - start) with (before + Z.of_nat (arrivals i)) by lia;
        apply Z.mod_small; lia).
  all: assert (forall fuel, wait_loop probe_time_read probe_time_unavailable context arrivals (S fuel) i start values k =
    (if before + Z.of_nat (arrivals i) <? 3
     then wait_loop probe_time_read probe_time_unavailable context arrivals fuel (S i) start (work values)
     else ret values) k1) as Hstep
    by (intros fuel; cbn [wait_loop]; rewrite (bind_ok _ _ _ _ _ Hi), (bind_ok _ _ _ _ _ (ticks_eq k1)); by rewrite Hdiff).
  - rewrite delivered_S in Hge |- *. change (delivered arrivals (S i) 0) with 0 in *. cbn [Nat.add].
    rewrite Hstep, (proj2 (Z.ltb_ge _ 3)) by lia. exists k1. split; [done|]. split; [done|].
    split; [rewrite Hticks; f_equal; lia|done].
  - cbn [Nat.add] in *. rewrite Hstep. rewrite delivered_S in Hlt. rewrite (delivered_S arrivals i (S n)) in Hge |- *.
    assert (0 <= delivered arrivals (S i) n) by (unfold delivered; lia).
    rewrite (proj2 (Z.ltb_lt _ 3)) by lia. rewrite Hwork.
    destruct (IH (S i) k1 start (before + Z.of_nat (arrivals i)) Hwork Hk1) as (k2 & Hw & Hk2 & Ht2 & Hu2 & Hp2);
      [lia|done|done|lia|lia|].
    exists k2. split; [exact Hw|]. split; [done|]. split; [rewrite Ht2; f_equal; lia|].
    split; [auto|by rewrite Hp2].
Qed.

Lemma running_outside (k k' : kernel W) :
  running interval inv k -> outside k k' -> inv (world k') -> running interval inv k'.
Proof. intros [Hi Hs _] Ho Hw. rewrite Ho. by split. Qed.

(** ** The whole program *)

Lemma user_main_spec fuel m (k : kernel W) :
  open_console inv -> (forall w, inv w -> inv (snd (rdtime w))) -> running interval inv k -> is_u64 (USER_TICKS k) ->
  (forall j, Z.of_nat (arrivals j) < 2 ^ 63) ->
  (m < fuel)%nat -> delivered arrivals 0 m < 3 <= delivered arrivals 0 (S m) ->
  exists k' t1 t2 exited idling, user_main probe_time_read probe_time_unavailable context arrivals fuel k = (Err (Exited 0), k') /\
    record_layout Info Process process_rs 150 (exited_text 0 (wrap (USER_TICKS k + delivered arrivals 0 (S m)))) (Some t1) exited /\
    record_layout Info Process process_rs 174 (bs "Kernel idle after user process") (Some t2) idling /\
    printed (world k') = printed (world k) ++ GREETING ++ CONFIRMATION ++ exited ++ idling.
Proof.
  intros Ho Hrd Hk Hut Ha Hm [Hd1 Hd2]. unfold user_main.
  destruct (open_user_write inv GREETING k Ho (run_world _ _ _ Hk)) as (k1 & Hw1 & Hk1 & Hp1 & Hi1).
  pose proof (running_outside k k1 Hk Hk1 Hi1) as Hr1. rewrite (bind_ok _ _ _ _ _ Hw1).
  assert (USER_TICKS k1 = USER_TICKS k) as Hut1 by (rewrite Hk1; done).
  rewrite (bind_ok _ _ _ _ _ (ticks_eq k1)).
  destruct (user_wait_spec (replicate 32 PATTERN) (fuel - S m) m 0 k1 (USER_TICKS k1) 0 (work_pattern 32) Hr1)
    as (k2 & Hw2 & Hr2 & Ht2 & Hu2 & Hp2); [lia|by rewrite Z.add_0_r|done|lia|lia|].
  replace (S m + (fuel - S m))%nat with fuel in Hw2 by lia. rewrite (bind_ok _ _ _ _ _ Hw2).
  rewrite (bind_ok _ _ _ tt k2) by reflexivity.
  destruct (open_user_write inv CONFIRMATION k2 Ho (run_world _ _ _ Hr2)) as (k3 & Hw3 & Hk3 & Hp3 & Hi3).
  pose proof (running_outside k2 k3 Hr2 Hk3 Hi3) as Hr3. rewrite (bind_ok _ _ _ _ _ Hw3).
  destruct (exit_logged 0 k3) as (k4 & k5 & out1 & out2 & He & L1 & L2). cbn [Z.eqb] in L1.
  destruct (open_logged inv _ _ _ _ _ _ _ _ Ho Hrd Hi3 L1) as (R1 & Hi4 & Hp4).
  destruct (open_logged inv _ _ _ _ _ _ _ _ Ho Hrd Hi4 L2) as (R2 & Hi5 & Hp5).
  assert (USER_TICKS k3 = wrap (USER_TICKS k + delivered arrivals 0 (S m))) as Hut3.
  { rewrite Hk3. cbn [with_world USER_TICKS]. rewrite Hut1 in Ht2, Hu2. rewrite <- (wrap_id (USER_TICKS k2)) by (destruct (Hu2 Hut) as [Hl Hh]; unfold u64_max in Hh; lia).
    by rewrite Ht2, Z.add_0_l. }
  rewrite Hut3 in R1. pose proof (running_outside k3 k4 Hr3 (proj1 L1) Hi4) as Hr4.
  unfold shown_time in R1, R2. rewrite (run_counter _ _ _ Hr3) in R1. rewrite (run_counter _ _ _ Hr4) in R2.
  cbn [Z.eqb Pos.eqb AVAILABLE] in R1, R2. do 2 eexists. exists (fst (rdtime (world k4))), out1, out2.
  split; [apply He|]. split; [exact R1|]. split; [exact R2|].
  change (printed (world k5) = printed (world k) ++ GREETING ++ CONFIRMATION ++ out1 ++ out2).
  by rewrite Hp5, Hp4, Hp3, Hp2, Hp1, <- !app_assoc.
Qed.

(** When a byte of the greeting is rejected. *)
Lemma user_main_rejected fuel (k : kernel W) w out :
  prints (world k) GREETING w out -> out <> GREETING ->
  exists k' k1 k2 exited idling, user_main probe_time_read probe_time_unavailable context arrivals fuel k = (Err (Exited 2), k') /\
    logged Warn Process process_rs 155 (exited_text 2 (USER_TICKS k)) (with_world k w) k1 exited /\
    logged Info Process process_rs 174 (bs "Kernel idle after user process") k1 k2 idling /\
    printed (world k') = printed (world k) ++ out ++ exited ++ idling.
Proof.
  intros Hp Hne. unfold user_main. pose proof (user_write_spec _ _ _ _ Hp k eq_refl) as Hw.
  rewrite decide_False in Hw by done. destruct (exit_logged 2 (with_world k w)) as (k1 & k2 & o1 & o2 & He & L1 & L2).
  rewrite He in Hw. rewrite (bind_err _ _ _ _ _ Hw). do 5 eexists. split; [reflexivity|]. split; [exact L1|].
  split; [exact L2|]. change (printed (world k2) = printed (world k) ++ out ++ o1 ++ o2).
  by rewrite (logged_printed _ _ _ _ _ _ _ _ L2), (logged_printed _ _ _ _ _ _ _ _ L1), (prints_printed _ _ _ _ Hp), <- !app_assoc.
Qed.

End calls.
