(* ===== verification/KTrapProperties.v ===== *)
(** * What trap handling guarantees

    The theorems about [kernel/src/arch/riscv64/trap.rs], [timer.rs],
    [interrupt.rs] and the wait in [kernel/src/main.rs], with instances on a
    hart interrupted in user mode and a firmware that accepts every deadline. *)

From Stdlib Require Import ZArith Lia Bool.
From Stdlib Require Import Strings.Byte Strings.String.
From stdpp Require Import base list numbers.
From S2P Require Import Prelude FdtScan KMemory KBootAlloc KMachine KPaging KAsm KTimer KTimerProofs.
From S2P Require Import KConsole KLogging KSyscall KTrap KTrapProofs KTrapSteps KProbe KStartup KWaitProofs.
Local Open Scope Z_scope.

(** ** A sample environment *)

(** A counter that advances at every read and a firmware without errors. *)
#[export] Instance sample_environment : Environment Z := {
  sbi_call := fun _ _ _ w => (0, w);
  rdtime := fun w => (w, w + 1);
  counter_readable := fun _ => true;
}.

(** The build of the samples logs nothing verbose. *)
#[local] Instance sample_build : Build := mkFeatures false false (fun _ => false).

Definition sample_kernel : kernel Z := mkKernel (fun _ => 0) AVAILABLE 1000 7 3 5000.

(** A hart in user mode, whose registers hold their numbers. *)
Definition sample_hart : hart :=
  mkHart (fun r => if (0 <=? r) && (r <? 32) then r else 0) (fun _ => x00)
    (fun c => if decide (c = Sscratch) then 0x10000 else if decide (c = Sstatus) then 0x200000022 else 0)
    0x4000 true.

Lemma sample_ready : ready sample_hart.
Proof.
  split; [split| |].
  - intros r. unfold reg, sample_hart. cbn [regs]. repeat case_match; zbool; unfold is_u64, u64_max; lia.
  - intros c. unfold sample_hart. cbn [csrs]. repeat case_decide; unfold is_u64, u64_max; lia.
  - vm_compute. by split.
  - vm_compute. congruence.
Qed.

(** ** Traps *)

(** C10: A trap that returns to the interrupted code is invisible to it.  The
    privilege, the stack-switch register, every register but a0, and every bit
    of the status but the two that record the previous privilege and enable
    state are restored.  A timer interrupt also restores a0 and the pc and is
    counted; a denied counter probe continues at the recovery label; an
    environment call continues after its four bytes with the result in a0. *)
Theorem trap_is_transparent {W} `{Environment W} `{Build} probe_read probe_unavailable gp c v h (k : kernel W) h' k' :
  ready h -> is_u64 c -> is_u64 v -> trap probe_read probe_unavailable gp c v (h, k) (h', k') ->
  user h' = user h /\ csrs h' Sscratch = csrs h Sscratch /\
  (forall n, 0 <= n -> n <> 5 -> n <> 8 -> Z.testbit (csrs h' Sstatus) n = Z.testbit (csrs h Sstatus) n) /\
  (forall r, 0 <= r < 32 -> r <> a0 -> reg h' r = reg h r) /\
  (c = TIMER_INTERRUPT /\ pc h' = pc h /\ reg h' a0 = reg h a0 /\ TICKS k' = wrap (TICKS k + 1) /\
     USER_TICKS k' = (if user h then wrap (USER_TICKS k + 1) else USER_TICKS k) \/
   c = ILLEGAL_INSTRUCTION /\ user h = false /\ pc h = probe_read /\ pc h' = probe_unavailable /\
     reg h' a0 = reg h a0 /\ TICKS k' = TICKS k \/
   c = USER_ECALL /\ user h = true /\ pc h' = pc h + 4 /\
     exists h2, csrs h2 Sscratch = 0 /\
       handle_syscall (reg h a7) (reg h a0) (on_hart_csrs h2 k) = (Ok (reg h' a0), k')).
Proof.
  intros Hready Hc Hv Ht. destruct (trap_resumes _ _ _ _ _ _ _ _ _ Hready Hc Hv Ht)
    as (h2 & f' & Hret & Hss & Hr & Hpc & Hu & Hs & Hst).
  split; [done|]. split; [done|]. split; [done|].
  apply (returned_frame probe_read probe_unavailable c v h h2 k f' k' Hready) in Hret as [Hregs Hcase].
  assert (forall r, 0 <= r < 32 -> r <> a0 -> reg h' r = reg h r) as Hother.
  { intros r Hr0 Hne. rewrite Hr by done. destruct (r =? 0) eqn:E; zbool; [by subst|]. apply Hregs; lia. }
  split; [done|]. rewrite Hpc. rewrite !(Hr a0) by lia. cbn [Z.eqb].
  destruct Hcase as [(-> & -> & -> & Hrest)|[(-> & Hum & Hpr & -> & -> & ->)|(-> & Hum & -> & Hsys)]].
  - left. by destruct Hrest.
  - right. left. by split_and!.
  - right. right. split; [done|]. split; [done|]. split; [done|]. by exists h2.
Qed.

(** The sample interrupted by its timer. *)
Lemma sample_trap :
  exists h' k', trap 0x1000 0x2000 0x3000 TIMER_INTERRUPT 0 (sample_hart, sample_kernel) (h', k').
Proof.
  apply (timer_trap_completes 0x1000 0x2000 0x3000 0 sample_hart sample_kernel 5001).
  - exact sample_ready.
  - by split.
  - done.
  - split; [done|]. exists 5000, 5001. by split.
Qed.

Lemma trap_is_transparent_witness :
  exists h' k', trap 0x1000 0x2000 0x3000 TIMER_INTERRUPT 0 (sample_hart, sample_kernel) (h', k') /\
    user h' = user sample_hart /\ csrs h' Sscratch = csrs sample_hart Sscratch /\
    (forall n, 0 <= n -> n <> 5 -> n <> 8 ->
       Z.testbit (csrs h' Sstatus) n = Z.testbit (csrs sample_hart Sstatus) n) /\
    (forall r, 0 <= r < 32 -> r <> a0 -> reg h' r = reg sample_hart r).
Proof.
  destruct sample_trap as (h' & k' & Ht). exists h', k'. split; [exact Ht|].
  destruct (trap_is_transparent 0x1000 0x2000 0x3000 TIMER_INTERRUPT 0 sample_hart sample_kernel h' k')
    as (H1 & H2 & H3 & H4 & _).
  - exact sample_ready.
  - vm_compute. split; congruence.
  - vm_compute. split; congruence.
  - exact Ht.
  - split; [exact H1|]. split; [exact H2|]. split; [exact H3|exact H4].
Defined.

(** C21: The handler never panics on any frame.  It returns for a denied
    counter probe of the supervisor, for a timer interrupt whose next deadline
    is programmed, and for an environment call of the user; a timer that cannot
    be rearmed and every other trap of the supervisor park the hart; a call of
    exit and every other trap of the user end the process. *)
Theorem trap_handler_exactly {W} `{Environment W} `{Build} probe_read probe_unavailable f (k : kernel W) :
  is_u64 (status f) ->
  exists o k', trap_handler probe_read probe_unavailable f k = (o, k') /\
  match o with
  | Ok f' => returns probe_read probe_unavailable k f f' k'
  | Err Halted =>
      from_supervisor f = true /\ cause f <> TIMER_INTERRUPT /\
        ~ (cause f = ILLEGAL_INSTRUCTION /\ epc f = probe_read) \/
      cause f = TIMER_INTERRUPT /\ exists e, fst (handle_interrupt k) = Err e
  | Err (Exited n) => from_supervisor f = false /\ cause f = USER_ECALL /\ register f 17 = EXIT /\
      n = register f 10
  | Err (Faulted c p v) => from_supervisor f = false /\ c = cause f /\ p = epc f /\ v = value f /\
      cause f <> TIMER_INTERRUPT /\ (cause f = USER_ECALL -> usize_max < epc f + 4)
  | _ => False
  end.
Proof. apply trap_handler_spec. Qed.

Lemma trap_handler_exactly_witness :
  exists o k', trap_handler 0x1000 0x2000 (mkFrame (replicate 32 9) 0x4000 0x22 USER_ECALL 0) sample_kernel = (o, k') /\
  match o with
  | Ok f' => returns 0x1000 0x2000 sample_kernel (mkFrame (replicate 32 9) 0x4000 0x22 USER_ECALL 0) f' k'
  | _ => False
  end.
Proof.
  destruct (trap_handler_exactly 0x1000 0x2000 (mkFrame (replicate 32 9) 0x4000 0x22 USER_ECALL 0) sample_kernel)
    as (o & k' & Hh & Ho).
  - vm_compute. split; congruence.
  - exists o, k'. split; [exact Hh|]. destruct o as [f'| | |]; [exact Ho|discriminate Hh|exact Ho|exact Ho].
Defined.

(** ** The first entry into user mode *)

(** C20: [enter_user] starts a new user context: the hart runs in user mode at
    the entry, with the stack pointer given, every other register clear,
    interrupts enabled, the floating-point and vector extensions off, and the
    top of the kernel stack in [sscratch] for the first trap.  It writes one
    frame below that top and changes no other memory and no other control
    register. *)
Theorem enter_user_exactly global_pointer entry stack top h :
  is_u64 entry -> is_u64 stack -> frame_size <= top < 2 ^ 64 ->
  exists h', enter_user global_pointer (UserContext_new entry stack) top h = Some (Returned, h') /\
    pc h' = entry /\ user h' = true /\ reg h' sp = stack /\
    (forall r, 0 <= r < 32 -> r <> sp -> reg h' r = 0) /\
    Z.testbit (csrs h' Sstatus) 1 = true /\ Z.land (csrs h' Sstatus) EXTENSION_STATE_MASK = 0 /\
    csrs h' Sscratch = top /\
    (forall c, c <> Sepc -> c <> Sstatus -> c <> Sscratch -> csrs h' c = csrs h c) /\
    (forall x, x < top - frame_size \/ top <= x -> data h' x = data h x).
Proof.
  intros He Hs Htop.
  destruct (enter_user_spec global_pointer (UserContext_new entry stack) top h)
    as (h' & Heq & Hr & H0 & Hpc & Hu & Hss & Hst & Hc & Hd); [by apply user_context_ok|done|done|].
  exists h'. split; [exact Heq|]. split; [exact Hpc|]. split; [exact Hu|]. split; [by rewrite Hr|].
  split; [intros r Hr0 Hne|rewrite Hst; by split_and!].
  destruct (decide (r = 0)) as [->|Hz]; [exact H0|]. rewrite Hr by lia. by apply user_context_register.
Qed.

Lemma enter_user_exactly_witness :
  exists h', enter_user 0x3000 (UserContext_new 0x10000 0x40000000) 0x8000 sample_hart = Some (Returned, h') /\
    pc h' = 0x10000 /\ user h' = true /\ reg h' sp = 0x40000000 /\ csrs h' Sscratch = 0x8000.
Proof.
  destruct (enter_user_exactly 0x3000 0x10000 0x40000000 0x8000 sample_hart)
    as (h' & He & Hp & Hu & Hs & _ & _ & _ & Hss & _).
  - vm_compute. split; congruence.
  - vm_compute. split; congruence.
  - vm_compute. split; congruence.
  - exists h'. by split_and!.
Defined.

(** ** The timer *)

(** C23: Initializing the timer never panics and leaves the interrupt state as
    it was.  It succeeds exactly when no interval is configured, the period
    lasts between one and [u64::MAX] ticks rounded up, the counter is available,
    the deadline one interval ahead does not overflow, and the firmware
    programs it; then the interval is stored and the timer source unmasked.
    Every other outcome is the error that names its cause, and configures
    nothing. *)
Theorem timer_init_exactly {W} `{Environment W} hz period (k : kernel W) :
  is_u64 (control k Sstatus) -> 0 <= hz <= u32_max -> duration_ok period ->
  exists o k' k2, timer_init hz period k = (o, k') /\ same k' k2 /\ configured k hz period o k2.
Proof. apply timer_init_spec. Qed.

Definition sample_unconfigured : kernel Z := mkKernel (fun _ => 2) AVAILABLE 0 0 0 5000.

Lemma timer_init_exactly_witness :
  exists o k' k2, timer_init 10000000 (from_millis 10) sample_unconfigured = (o, k') /\ same k' k2 /\
    configured sample_unconfigured 10000000 (from_millis 10) o k2.
Proof.
  apply (timer_init_exactly 10000000 (from_millis 10) sample_unconfigured).
  - vm_compute. split; congruence.
  - vm_compute. split; congruence.
  - vm_compute. repeat split; congruence.
Defined.

(** Ten milliseconds at ten megahertz are a hundred thousand ticks. *)
Example sample_interval : interval_ticks 10000000 (from_millis 10) = Ok 100000.
Proof. reflexivity. Qed.

(** ** Delivery *)

(** C22: Once two timer interrupts have been delivered, the wait of
    [run_kernel] ends: for a configured timer, a firmware that programs every
    deadline and any interrupts between the tests of the loop, [n] tests are
    enough when two interrupts arrive before the last of them, even when the
    tick count wraps around; and the count has then advanced by exactly the
    interrupts delivered. *)
Theorem wait_for_ticks_ends {W} `{Environment W} `{Build} probe_read probe_unavailable frame arrivals interval
    (inv : W -> Prop) (k : kernel W) n :
  running interval inv k -> interval <> 0 -> accepting interval inv -> cause frame = TIMER_INTERRUPT ->
  (forall i, Z.of_nat (arrivals i) < 2 ^ 63) -> 2 <= delivered arrivals 0 n ->
  exists m k', (m < n)%nat /\ delivered arrivals 0 m < 2 <= delivered arrivals 0 (S m) /\
    wait_ticks probe_read probe_unavailable frame arrivals n 0 (TICKS k) k = (Ok tt, k') /\
    running interval inv k' /\ wrap (TICKS k') = wrap (TICKS k + delivered arrivals 0 (S m)).
Proof.
  intros Hk Hi Ha Hf Harr (m & Hm & Hd1 & Hd2)%first_crossing; [|done].
  destruct (wait_spec probe_read probe_unavailable frame arrivals interval inv Hi Ha Hf (n - S m) m 0 k (TICKS k) 0 Hk)
    as (k' & Hw & Hk' & Ht & _); [lia|by rewrite Z.add_0_r|done|lia|lia|].
  exists m, k'. split; [done|]. split; [done|]. replace (S m + (n - S m))%nat with n in Hw by lia. done.
Qed.

Definition sample_timer_frame : TrapFrame := mkFrame (replicate 32 0) 0x8000 0x122 TIMER_INTERRUPT 0.

(** A counter that never comes near its end. *)
Definition sample_clock : Environment Z :=
  {| sbi_call := fun _ _ _ w => (0, w); rdtime := fun w => (w mod 2 ^ 32, w + 1); counter_readable := fun _ => true |}.

Lemma sample_accepting : accepting (H:=sample_clock) 1000 (fun _ => True).
Proof.
  intros w _. exists (w mod 2 ^ 32), (w + 1), (w + 1). split; [done|]. split; [|by split].
  pose proof (Z.mod_pos_bound w (2 ^ 32) ltac:(lia)). unfold u64_max. lia.
Qed.

Lemma wait_for_ticks_ends_witness :
  exists m k', (m < 5)%nat /\ delivered (fun i => if Nat.odd i then 1 else 0)%nat 0 m < 2 <=
      delivered (fun i => if Nat.odd i then 1 else 0)%nat 0 (S m) /\
    wait_ticks (H:=sample_clock) 0x1000 0x2000 sample_timer_frame (fun i => if Nat.odd i then 1 else 0)%nat 5 0
      (TICKS sample_kernel) sample_kernel = (Ok tt, k') /\
    running 1000 (fun _ => True) k' /\
    wrap (TICKS k') = wrap (TICKS sample_kernel + delivered (fun i => if Nat.odd i then 1 else 0)%nat 0 (S m)).
Proof.
  apply (wait_for_ticks_ends (H:=sample_clock) 0x1000 0x2000 sample_timer_frame
    (fun i => if Nat.odd i then 1 else 0)%nat 1000 (fun _ => True) sample_kernel 5).
  - by split.
  - done.
  - exact sample_accepting.
  - done.
  - intros i. by destruct (Nat.odd i).
  - vm_compute. congruence.
Defined.

(** ** The counter *)

(** C25: the probe returns one exactly on a hart whose counter can be read, and
    zero otherwise, after the trap that the denied read takes through the
    kernel's own handler.  Both paths restore the status with its interrupt
    enable, the privilege, the stack-switch register and every register but a0,
    a1 and t1, and change no other state of the kernel.  [init] records the
    result once: a state other than the initial one is kept. *)
Theorem counter_probe_exactly {W} `{Environment W} `{Build} probe_read probe_unavailable gp h (k : kernel W) h' k' :
  ready h -> user h = false -> is_u64 probe_read -> probe_read <> probe_unavailable ->
  probe_time probe_read probe_unavailable gp h k h' k' ->
  reg h' a0 = (if counter_readable (world k) then 1 else 0) /\
  csrs h' Sstatus = csrs h Sstatus /\ user h' = false /\ csrs h' Sscratch = csrs h Sscratch /\
  (forall r, 0 <= r < 32 -> r <> a0 -> r <> a1 -> r <> t1 -> reg h' r = reg h r) /\
  STATE k' = STATE k /\ INTERVAL k' = INTERVAL k /\ TICKS k' = TICKS k /\
  world k' = world (snd (probe (E:=never) k)) /\
  time_init (E:=never) k =
    (Ok tt, if STATE k =? UNINITIALIZED
            then with_STATE (with_world k (world k')) (if reg h' a0 =? 0 then UNAVAILABLE else AVAILABLE)
            else k).
Proof.
  intros Hr Hu Hp Hne Hprobe. unfold time_init, probe, bind, get, put, ret.
  destruct Hprobe as [(Hc & time & w & Ht & Hrun & ->)|(Hc & value & h2 & Hv & Htrap & Hrun)].
  - destruct (complete_spec time h) as (h1 & Hrun' & Ha & Hs & Hus & _ & Hcs & Hregs).
    rewrite Hrun in Hrun'. injection Hrun' as <-. rewrite Hc, Ht, Ha, Hs, Hus, Hcs by done. cbn [snd world with_world].
    split_and!; try done; [intros r _; apply Hregs|]. destruct k as [c s i t u w0]. cbn in *.
    by destruct (s =? UNINITIALIZED); cbn; rewrite ?Hc, ?Ht.
  - destruct (read_trap_spec probe_read probe_unavailable gp value h k h2 k' Hr Hu Hp Hv Htrap)
      as (Hpc & Hus & Hss & Ht1 & Hregs & H1 & H2 & H3 & H4).
    destruct (recover_spec probe_read probe_unavailable h2 Hpc Hne) as (h1 & Hrun' & Ha & Hs & Hu1 & Hcs & Hr1).
    rewrite Hrun in Hrun'. injection Hrun' as <-. rewrite Hc, Ha, Hs, Hu1, Hcs, Ht1, Hss by done.
    split_and!; try done; [intros r Hr0 N1 N2 N3; rewrite Hr1 by done; by apply Hregs|].
    rewrite H4. destruct k as [c s i t u w0]. cbn in *. by destruct (s =? UNINITIALIZED); cbn; rewrite ?Hc.
Qed.

(** A supervisor hart before the probe, with a stack. *)
Definition sample_supervisor : hart :=
  mkHart (fun r => if r =? sp then 0x8000 else 0) (fun _ => x00) (fun c => if decide (c = Sstatus) then 0x200000002 else 0)
    0x4000 false.

Lemma sample_supervisor_ready : ready sample_supervisor.
Proof.
  split; [split| |].
  - intros r. unfold reg, sample_supervisor. cbn [regs]. repeat case_match; zbool; unfold is_u64, u64_max; lia.
  - intros c. unfold sample_supervisor. cbn [csrs]. repeat case_decide; unfold is_u64, u64_max; lia.
  - vm_compute. by split.
  - vm_compute. by split.
Qed.

Lemma counter_probe_exactly_witness :
  exists h' k', probe_time 0x1000 0x1010 0x3000 sample_supervisor sample_kernel h' k' /\
    reg h' a0 = 1 /\ csrs h' Sstatus = 0x200000002.
Proof.
  destruct (complete_spec 5000 sample_supervisor) as (h' & Hrun & _).
  assert (probe_time 0x1000 0x1010 0x3000 sample_supervisor sample_kernel h' (with_world sample_kernel 5001)) as Hp.
  { left. split; [reflexivity|]. exists 5000, 5001. split; [reflexivity|]. split; [exact Hrun|reflexivity]. }
  exists h', (with_world sample_kernel 5001). split; [exact Hp|].
  destruct (counter_probe_exactly 0x1000 0x1010 0x3000 sample_supervisor sample_kernel h' (with_world sample_kernel 5001))
    as (H1 & H2 & _).
  - exact sample_supervisor_ready.
  - reflexivity.
  - vm_compute. split; congruence.
  - discriminate.
  - exact Hp.
  - split; [exact H1|exact H2].
Defined.
