(* ===== verification/KProcessProperties.v ===== *)
(** * What the allocator and the loader guarantee

    The theorems about [kernel/src/memory/allocator.rs] and
    [kernel/src/process], with instances on the sample address space. *)

From Stdlib Require Import ZArith Lia Bool.
From Stdlib Require Import Strings.Byte Strings.String.
From stdpp Require Import base list numbers gmap.
From S2P Require Import Prelude FdtScan KMemory KBootAlloc KMachine KPaging KPte KTables KMapProofs.
From S2P Require Import KHeap KHeapProofs KKernelPaging KWindow KKernelProofs KBackingProofs KKernelSample.
From S2P Require Import KAsm KTimer KTimerProofs KSyscall KTrap KAllocator KAllocatorProofs.
From S2P Require Import KProcess KImageProofs KLoadProofs KProcessProofs KTrapProperties.
Local Open Scope Z_scope.

(** ** User images *)

(** C19: [Image::parse] accepts exactly the encodings of valid images and
    returns the encoded one; it reports a missing image exactly on the empty
    input, and every other input as invalid.  No input makes it panic. *)
Theorem image_parse_exactly bytes limit :
  is_usize limit ->
  match Image.parse bytes limit with
  | Ok i => valid limit i /\ bytes = encode i
  | Err MissingImage => bytes = []
  | Err InvalidImage => bytes <> [] /\ forall i, valid limit i -> bytes <> encode i
  | _ => False
  end.
Proof.
  intros Hl. pose proof (parse_spec bytes limit Hl) as Hp. destruct (Image.parse bytes limit) as [i|[]| |]; try done.
  destruct Hp as [Hne Hno]. split; [done|]. intros i Hi. pose proof (valid_words limit i Hl Hi) as [? ?].
  by apply Hno.
Qed.

Definition sample_image : Image.t :=
  Image.mk 0x10000 0x10002 (map byte_of [1; 2; 3; 4; 5; 6]).

Lemma sample_image_valid : valid IMAGE_LIMIT sample_image.
Proof. split; vm_compute; try congruence; split; congruence. Qed.

Lemma image_parse_exactly_witness :
  match Image.parse (encode sample_image) IMAGE_LIMIT with
  | Ok i => valid IMAGE_LIMIT i /\ encode sample_image = encode i
  | Err MissingImage => encode sample_image = []
  | Err InvalidImage => encode sample_image <> [] /\
      forall i, valid IMAGE_LIMIT i -> encode sample_image <> encode i
  | _ => False
  end.
Proof. apply (image_parse_exactly (encode sample_image) IMAGE_LIMIT). vm_compute. split; congruence. Defined.

(** The encoded image comes back. *)
Example sample_image_parses : Image.parse (encode sample_image) IMAGE_LIMIT = Ok sample_image.
Proof. vm_compute. reflexivity. Qed.

(** C13: Loading a valid image never panics, keeps every translation the hart
    had, and ends in a sound address space.  On success every byte of the image
    is where its user address leads, readable and executable but not writable
    by the user, and nothing outside the image's pages became reachable.  It
    fails only with a paging error whose cause holds: fewer than three frames
    for each page, a frame no entry can name, or a page already mapped at an
    address of the image. *)
Theorem image_load_exactly {F} `{FrameAllocator F} root l1 l0 T sp l (w : KernelPaging.t * machine * F) limit i :
  kernel_state root l1 l0 T sp l w -> valid limit i -> limit <= SV39_LOW_HALF_END ->
  exists o w', Image.load i w = (o, w') /\
    (exists T' sp' l', kernel_state root l1 l0 T' sp' l' w') /\ capability w' = capability w /\
    (forall va lf, translation w va = Some lf -> translation w' va = Some lf) /\
    match o with
    | Ok _ =>
        (forall k, 0 <= k < zlen (Image.bytes i) ->
           exists f, translation w' (Image.base i + k) = Some (leaf_for f ReadExecute User) /\
             mem (KKernelProofs.hart w') (f + (Image.base i + k) mod FRAME_SIZE) =
               nth (Z.to_nat k) (Image.bytes i) x00) /\
        (forall va lf, is_usize va -> translation w' va = Some lf ->
           translation w va = Some lf \/
           Image.base i <= va < frame_ceil (Image.base i + zlen (Image.bytes i)))
    | Err e => exists e', e = Paging e' /\ load_failure sp l (image_list i) e'
    | _ => False
    end.
Proof. apply image_loaded. Qed.

Lemma image_load_exactly_witness :
  exists o w', Image.load sample_image sample_state = (o, w') /\
    (exists T' sp' l', kernel_state sample_root sample_l1 sample_l0 T' sp' l' w') /\
    match o with
    | Ok _ =>
        forall k, 0 <= k < zlen (Image.bytes sample_image) ->
          exists f, translation w' (Image.base sample_image + k) = Some (leaf_for f ReadExecute User) /\
            mem (KKernelProofs.hart w') (f + (Image.base sample_image + k) mod FRAME_SIZE) =
              nth (Z.to_nat k) (Image.bytes sample_image) x00
    | Err e => exists e', e = Paging e' /\ load_failure sample_space sample_frames (image_list sample_image) e'
    | _ => False
    end.
Proof.
  destruct (image_load_exactly sample_root sample_l1 sample_l0 tables_2 sample_space sample_frames sample_state
    IMAGE_LIMIT sample_image) as (o & w' & Hl & Hk & _ & _ & Ho).
  - exact sample_kernel_state.
  - exact sample_image_valid.
  - vm_compute. congruence.
  - exists o, w'. split; [exact Hl|]. split; [exact Hk|]. destruct o as [[]|e| |]; [apply Ho|exact Ho|exact Ho|exact Ho].
Defined.

(** The sample image loads. *)
Example sample_image_loads :
  match Image.load sample_image sample_state with
  | (Ok _, w) => translation w 0x10003 = Some (leaf_for 0x80010000 ReadExecute User)
  | _ => False
  end.
Proof. vm_compute. reflexivity. Qed.

(** ** The global allocator *)

(** C26: The gate of the global allocator.  While it is held, every request is
    refused at once; before installation memory requests are refused and
    installation succeeds; afterwards a second installation is refused, and a
    paging operation runs on the installed capabilities.  Every refusal leaves
    the whole state as it was, and every entry gives back the interrupt state
    and the gate. *)
Theorem allocator_gate_exactly {W F} `{Environment W} `{FrameAllocator F} (s : system W F) layout heap paging frames
    {E R} (op : M (KernelPaging.t * machine * F) E R) :
  status_ok s ->
  if busy s then
    (exists s', alloc layout s = (Ok 0, s') /\ unchanged s s') /\
    (exists s', with_paging op s = (Ok (Err Busy), s') /\ unchanged s s') /\
    (exists s', initialize heap paging frames s = (Ok (Err AllocatorBusy), s') /\ unchanged s s')
  else match slot s with
  | None =>
      (exists s', alloc layout s = (Ok 0, s') /\ unchanged s s') /\
      (exists s', with_paging op s = (Ok (Err MemoryNotInitialized), s') /\ unchanged s s') /\
      (exists s', initialize heap paging frames s = (Ok (Ok tt), s') /\ quiet s s' /\
         memory_of s' = memory_of s /\ slot s' = Some (mkMemory heap paging frames))
  | Some m =>
      (exists s', initialize heap paging frames s = (Ok (Err AllocatorAlreadyInitialized), s') /\ unchanged s s') /\
      (forall o w, op (KAllocator.paging m, memory_of s, KAllocator.frames m) = (o, w) -> no_panic o ->
         exists s', with_paging op s = (Ok (Ok o), s') /\ quiet s s' /\
           slot s' = Some (mkMemory (KAllocator.heap m) (capability w) (snd w)) /\
           memory_of s' = KKernelProofs.hart w)
  end.
Proof.
  intros Hs. destruct (busy s) eqn:Hb.
  - split; [by apply alloc_busy|]. split; [by apply with_paging_busy|by apply initialize_busy].
  - destruct (slot s) as [m|] eqn:Hm.
    + split; [by eapply initialize_again|]. intros o w Ho Hn. by apply (with_paging_spec op s m o w).
    + split; [by apply alloc_missing|]. split; [by apply with_paging_missing|by apply initialize_spec].
Qed.

(** An empty slot over the sample address space. *)
Definition sample_empty : system Z (list PhysFrame.t) :=
  mkSystem sample_unconfigured sample_machine false None false.

Lemma allocator_gate_exactly_witness :
  (exists s', alloc (mkLayout 8 8) sample_empty = (Ok 0, s') /\ unchanged sample_empty s') /\
  (exists s', with_paging (ret (E:=never) tt) sample_empty = (Ok (Err MemoryNotInitialized), s') /\
     unchanged sample_empty s') /\
  (exists s', initialize (KernelHeap.mk HEAP_RANGE HEAP_END HEAP_END) sample_capability sample_frames sample_empty =
     (Ok (Ok tt), s') /\ quiet sample_empty s' /\ memory_of s' = sample_machine /\
     slot s' = Some (mkMemory (KernelHeap.mk HEAP_RANGE HEAP_END HEAP_END) sample_capability sample_frames)).
Proof.
  apply (allocator_gate_exactly sample_empty (mkLayout 8 8) (KernelHeap.mk HEAP_RANGE HEAP_END HEAP_END)
    sample_capability sample_frames (ret (E:=never) tt)).
  vm_compute. split; congruence.
Defined.

(** C11: Once the capabilities of a claimed heap are installed, any sequence of
    requests to the global allocator returns null or blocks that are pairwise
    disjoint and whose every byte is mapped read-write for the supervisor to
    physical memory no other virtual address reaches; what was mapped at the
    claim of the heap stays mapped; no request panics, and the interrupt state
    and the gate come back. *)
Theorem global_blocks_private {W F} `{Environment W} `{FrameAllocator F} root l1 l0 base (s : system W F) m layouts :
  serving root l1 l0 base s m -> Forall layout_ok layouts ->
  exists blocks s', alloc_all layouts s = (Ok blocks, s') /\ quiet s s' /\
    ForallOrdPairs HeapProofs.below blocks /\
    exists m', slot s' = Some m' /\
    let w := (KAllocator.paging m', memory_of s', KAllocator.frames m') in
    backing_inv root l1 l0 base w /\
    forall a layout x, In (a, layout) blocks -> a <= x < a + lsize layout ->
      exists f pa, translation w x = Some (leaf_for f ReadWrite Supervisor) /\
        leads_to w x pa /\ forall va, leads_to w va pa -> va = x.
Proof.
  intros Hs Hls. pose proof Hs as (_ & _ & _ & Hok).
  destruct (blocks_private root l1 l0 base layouts _ _ Hok Hls) as (blocks & h' & w' & Ha & Hp & Hinv & Hb).
  destruct (alloc_all_spec root l1 l0 base layouts s m blocks h' w' Hs Hls Ha) as (s' & Hal & Hq & Hsl & Hme).
  exists blocks, s'. split; [exact Hal|]. split; [exact Hq|]. split; [exact Hp|].
  eexists. split; [exact Hsl|]. cbn [KAllocator.paging KAllocator.frames]. rewrite Hme.
  destruct w' as [[p mm] f]. split; [exact Hinv|exact Hb].
Qed.

Definition sample_serving (h : KernelHeap.t) (w : KernelPaging.t * machine * list PhysFrame.t)
    : system Z (list PhysFrame.t) :=
  mkSystem sample_unconfigured (KKernelProofs.hart w) false (Some (mkMemory h (capability w) (snd w))) false.

Lemma sample_serves h w :
  HeapProofs.heap_ok (backing_inv (F:=list PhysFrame.t) sample_root sample_l1 sample_l0 sample_space) HEAP_RANGE page_backed h w ->
  serving sample_root sample_l1 sample_l0 sample_space (sample_serving h w) (mkMemory h (capability w) (snd w)).
Proof.
  intros Hok. split; [reflexivity|]. split; [vm_compute; split; congruence|]. split; [reflexivity|].
  by destruct w as [[p mm] f].
Qed.

Lemma global_blocks_private_witness :
  exists h w blocks s', alloc_all [mkLayout 5000 16; mkLayout 0 1; mkLayout 8 8] (sample_serving h w) = (Ok blocks, s') /\
    quiet (sample_serving h w) s' /\ ForallOrdPairs HeapProofs.below blocks.
Proof.
  destruct sample_installed as (h & w & Hok & _). exists h, w.
  destruct (global_blocks_private sample_root sample_l1 sample_l0 sample_space (sample_serving h w)
    (mkMemory h (capability w) (snd w)) [mkLayout 5000 16; mkLayout 0 1; mkLayout 8 8])
    as (blocks & s' & Ha & Hq & Hp & _).
  - by apply sample_serves.
  - repeat constructor; cbn; try lia; try (unfold isize_max; lia); [exists 4|exists 0|exists 3]; lia.
  - exists blocks, s'. split; [exact Ha|]. split; [exact Hq|exact Hp].
Defined.

(** ** The process *)

(** C12: [load_init] on a serving allocator never panics, keeps the interrupt
    state, and loads once.  An invalid image and a second call change nothing.
    Otherwise the call is claimed, and the allocator serves on afterwards, its
    pages kept and only user pages added.  It fails, for want of a kernel stack
    or by a paging error, only without [room]: space for the stack in the heap,
    three frames for each page to map, and nothing mapped where the user pages
    go.  So a valid image is loaded when there is room.  A loaded process has its
    context at the entry of the image, a kernel stack of zeros that is aligned,
    below every block the heap gave out and mapped for the supervisor only, the
    image readable and executable, a zeroed user stack readable and writable,
    and no user page beside those two. *)
Theorem load_init_exactly {W F} `{Environment W} `{FrameAllocator F} root l1 l0 base (s : system W F) m image :
  serving root l1 l0 base s m ->
  exists o s', load_init image s = (o, s') /\ same (core s') (core s) /\
  match o with
  | Ok p => CLAIMED s = false /\ CLAIMED s' = true /\
      exists i m', valid IMAGE_LIMIT i /\ image = encode i /\ still_serving root l1 l0 base s' m' /\
        loaded base m i p (view m' s')
  | Err e =>
      Image.parse image IMAGE_LIMIT = Err e /\ s' = s \/
      exists i, Image.parse image IMAGE_LIMIT = Ok i /\
      (CLAIMED s = true /\ e = ProcessAlreadyClaimed /\ s' = s \/
       CLAIMED s = false /\ CLAIMED s' = true /\ (exists m', still_serving root l1 l0 base s' m') /\
         ~ room m s i /\ (e = KernelStackAllocation \/ exists e', e = Paging e'))
  | _ => False
  end.
Proof. apply load_init_spec. Qed.

(** The sample has room for the sample image. *)
Lemma sample_room h w :
  claim_heap sample_state = (Ok h, w) -> KernelHeap.cursor h = HEAP_END -> snd w = drop 3 sample_frames ->
  room (mkMemory h (capability w) (snd w)) (sample_serving h w) sample_image.
Proof.
  intros Hc Hcur Hw. split; [split|].
  - unfold HeapProofs.fits, HeapProofs.block_address, KAllocator.heap. rewrite Hcur. vm_compute. split; congruence.
  - exists (drop 3 sample_frames). cbn [view KAllocator.frames snd]. rewrite Hw. split; [|split].
    + apply list_provides; [repeat constructor; vm_compute; congruence|]. apply (bool_decide_unpack _). vm_compute. exact I.
    + vm_compute. lia.
    + apply List.Forall_forall. repeat constructor; vm_compute; congruence.
  - assert (view (mkMemory h (capability w) (snd w)) (sample_serving h w) = snd (claim_heap sample_state)) as ->
      by (rewrite Hc; by destruct w as [[? ?] ?]).
    assert (forallb (fun page => bool_decide (translation (snd (claim_heap sample_state)) (fst page) = None))
      (user_pages sample_image) = true) as Hall by (vm_compute; reflexivity).
    intros page Hin. rewrite forallb_forall in Hall. exact (bool_decide_eq_true_1 _ (Hall page Hin)).
Qed.

Lemma load_init_exactly_witness :
  exists h w p s', load_init (encode sample_image) (sample_serving h w) = (Ok p, s') /\
    same (core s') (core (sample_serving h w)) /\ CLAIMED s' = true /\
    exists i m', encode sample_image = encode i /\
      loaded sample_space (mkMemory h (capability w) (snd w)) i p (view m' s').
Proof.
  destruct sample_installed as (h & w & Hok & Hc0 & Hcur & Hw). exists h, w.
  destruct (load_init_exactly sample_root sample_l1 sample_l0 sample_space (sample_serving h w)
    (mkMemory h (capability w) (snd w)) (encode sample_image)) as (o & s' & Hl & Hsame & Ho).
  - by apply sample_serves.
  - destruct o as [p|e| |]; [|exfalso|contradiction..].
    + exists p, s'. split; [exact Hl|]. split; [exact Hsame|]. destruct Ho as (_ & Hc & i & m' & _ & He & _ & Hld).
      split; [exact Hc|]. exists i, m'. split; [exact He|exact Hld].
    + destruct Ho as [[Hp _]|(i & Hp & [(Hc & _)|(_ & _ & _ & Hno & _)])]; [| discriminate Hc|].
      * revert Hp. by rewrite sample_image_parses.
      * rewrite sample_image_parses in Hp. injection Hp as <-. by apply Hno, sample_room.
Defined.
