(* ===== verification/KMainProperties.v ===== *)
(** * What the start of the kernel guarantees

    The theorem about [main], from the entry code to the first instruction of
    the user program, with an instance on a small kernel image, a devicetree, a
    user image and the tables the entry code leaves. *)

From Stdlib Require Import ZArith Lia Bool.
From Stdlib Require Import Strings.Byte Strings.String.
From stdpp Require Import base list numbers gmap.
From S2P Require Import Prelude FdtTree FdtReservation FdtEncode Fdt FdtScan KMemory KBootAlloc KMachine KPaging KPte KTables KMapProofs.
From S2P Require Import KHeap KHeapProofs KKernelPaging KWindow KKernelProofs KBackingProofs KBootWindow KBootFdt KTransition KPlan.
From S2P Require Import KAsm KTimer KConsole KLogging KSyscall KTrap KTimerProofs KTrapProperties KAllocator KAllocatorProofs KMain KMainProofs.
From S2P Require Import KProcess KImageProofs KLoadProofs KProcessProofs KProcessProperties KWaitProofs KRunProofs.
Local Open Scope Z_scope.

(** C3: [main], entered as the assembly leaves the hart, with any devicetree
    address, whatever memory holds there and any embedded image, ends in one of
    two ways and never panics: it parks the hart with interrupts masked, or it
    enters user mode.  In the second case both one-shot claims were free, the
    address space still maps every section of the kernel where it was loaded
    with exactly its permissions and the devicetree for reading, and was entered
    with nothing else but the window's page; the only user
    pages are those of the image, with its bytes and executable, and of a zeroed
    stack; the allocator serves on, the timer runs at the rate of the devicetree
    with interrupts enabled, and [enter_user], wherever the hart runs, starts
    the program at its entry in user mode with its stack pointer, cleared
    registers and extensions, and the fresh kernel stack behind [sscratch],
    writing nothing but a frame on that stack.  Once [start_kernel] is done,
    user mode is entered whenever the image is valid and was not loaded before,
    memory has [room] for the process, the counter is available and the timer
    not configured.  The firmware is assumed to
    program every deadline and to deliver two timer interrupts within the
    [fuel] tests of the wait. *)
Theorem kernel_enters_user {W} `{Environment W} `{Build} l trap_entry probe_read probe_unavailable image root dtb frame
    arrivals fuel (s : boot_state (W:=W)) :
  is_u64 (sstatus s) -> busy (kernel_of s) = false -> slot (kernel_of s) = None -> is_usize dtb ->
  boot_inv root (BootstrapPaging.mk root) (memory_of (kernel_of s)) -> image_placed l root ->
  (forall hz n, 0 < hz <= u32_max -> lasts hz period n -> reliable (W:=W) n) -> cause frame = TIMER_INTERRUPT ->
  (forall i, Z.of_nat (arrivals i) < 2 ^ 63) -> 2 <= delivered arrivals 0 fuel ->
  match main l trap_entry probe_read probe_unavailable image frame arrivals fuel dtb s with
  | (Ok ready, s') =>
      entered l image dtb s' ready /\ BOOTSTRAP_PAGING_CLAIMED s = false /\ BOOT_FRAME_ALLOCATOR_CLAIMED s = false
  | (Err e, s') => e = Halted /\ masked_state trap_entry s' /\
      forall started s1, start_kernel l trap_entry dtb s = (Ok started, s1) -> ~ runnable image s1
  | _ => False
  end.
Proof.
  intros Hs Hb Hsl Hd Hi Him Hr Hf Harr Hfuel.
  destruct (main_ends l trap_entry probe_read probe_unavailable image root dtb frame arrivals fuel s
    Hs Hb Hsl Hd Hi Him Hr Hf Harr Hfuel) as [Hends Hruns].
  destruct (main l trap_entry probe_read probe_unavailable image frame arrivals fuel dtb s) as [[ready|e| |] s']; try done.
  destruct Hends as [He Hm]. split; [done|]. split; [done|].
  intros started s1 Hst Hrun. by destruct (Hruns started s1 Hst Hrun) as [ready Hok].
Qed.

(** ** A sample machine *)

(** Its build logs nothing verbose. *)
#[local] Instance board_build : Build := mkFeatures false false (fun _ => false).

Definition board_names : list byte := sample_names ++ cstring "timebase-frequency".

Definition board_tree : tree :=
  Node [] [cells_prop 16 [2]; cells_prop 31 [1]]
    [Node (bs "cpus") [cells_prop 50 [10000000]] []; sample_memory; sample_reserved].

Definition board_blob : list byte :=
  blob_of (Reservations.block sample_reservations) (FdtEncode.encode board_tree) board_names.

Definition board_root : Z := 0x80201000.
Definition board_dtb : Z := 0x82000000.

(** The blob, and the root of the entry code. *)
Definition board_memory : memory :=
  fold_left (fun m e => write_word m (board_root + 8 * fst e) (snd e))
    [(2, pte 0x80000000 IDENTITY_FLAGS); (510, pte 0x80000000 IDENTITY_FLAGS)] (memory_at board_dtb board_blob).

Definition board_machine : machine :=
  mkMachine board_memory (root_satp board_root)
    (fun vp => if vp =? 0x80201 then Some (identity_leaf board_root) else None).

Definition board_linker : linker :=
  mkLinker 0x80200000 0xffffffff80200000 0xffffffff80208000 0xffffffff80202000 0xffffffff80203800
    0xffffffff80204000 0xffffffff80204000 0xffffffff80204000 0xffffffff80204010
    0xffffffff80205000 0xffffffff80205100 0xffffffff80206000 0xffffffff80208000.

Definition board_state : boot_state (W:=Z) :=
  mkBoot (mkSystem (mkKernel (fun c => if decide (c = Sstatus) then 0x200000002 else 0) 0 0 0 0 5000)
            board_machine false None false) false false.

Lemma board_placed : image_placed board_linker board_root.
Proof.
  split.
  - vm_compute. congruence.
  - vm_compute. split; congruence.
  - repeat constructor; vm_compute; congruence.
  - intros p va (r & Hr & Hc). vm_compute in Hr. unfold VirtRange.contains in Hc. cbn [board_linker kernel_virtual_start kernel_virtual_end].
    repeat destruct Hr as [Hr|Hr]; inversion Hr; subst; cbn in Hc; lia.
  - vm_compute. split; congruence.
Qed.

Lemma board_inv : boot_inv board_root (BootstrapPaging.mk board_root) (memory_of (kernel_of board_state)).
Proof. repeat split; vm_compute; congruence. Qed.

Abbreviation board_started := (start_kernel (H:=sample_clock) board_linker 0x1000 board_dtb board_state).

(** The board reaches [run_kernel] with its timebase. *)
Lemma board_starts :
  match fst board_started with
  | Ok (hz, guard) => hz = 10000000 /\ was_enabled guard = true
  | _ => False
  end.
Proof. vm_compute. by split. Qed.

(** A counter of 32 bits and a firmware that programs every deadline. *)
Lemma board_reliable hz n : 0 < hz <= u32_max -> lasts hz period n -> reliable (H:=sample_clock) n.
Proof.
  intros Hhz Hl w _. exists (w mod 2 ^ 32), (w + 1), (w + 1). split; [done|]. split; [|by split].
  pose proof (Z.mod_pos_bound w (2 ^ 32) ltac:(lia)). revert Hl Hhz. unfold lasts, u64_max, u32_max.
  change (as_nanos period) with (10 ^ 7). lia.
Qed.

(** The next frames of an allocator. *)
Fixpoint next_frames {A} `{FrameAllocator A} (n : nat) (a : A) : list PhysFrame.t :=
  match n with
  | O => []
  | S n' =>
      match allocate_frame a with
      | (Ok (Some fr), a') => AllocatedFrame.frame fr :: next_frames n' a'
      | _ => []
      end
  end.

Lemma next_frames_take {A} `{FrameAllocator A} n : forall (a : A) l, provides a l -> next_frames n a = take n l.
Proof.
  induction n as [|n IH]; intros a l Hp; [done|]. cbn [next_frames]. destruct l as [|fr l].
  - by apply provides_nil in Hp as (a' & -> & _).
  - apply provides_cons in Hp as (a' & -> & Hp & _). cbn [take]. f_equal. by apply IH.
Qed.

(** What the sample image needs of the board's kernel. *)
Definition board_checks (k : system Z BootFrameAllocator.t) : bool :=
  match slot k with
  | Some m =>
      negb (CLAIMED k) && (STATE (core k) =? AVAILABLE) && (INTERVAL (core k) =? 0) &&
      (KernelHeap.cursor (KAllocator.heap m) =? HEAP_END) &&
      forallb (fun page => bool_decide (translation (view m k) (fst page) = None)) (user_pages sample_image) &&
      (let frames := next_frames 30 (KAllocator.frames m) in
       (length frames =? 30)%nat && forallb (fun fr => PhysFrame.start fr <=? MAX_PHYSICAL_ADDRESS) frames)
  | None => false
  end.

Lemma board_checked : board_checks (kernel_of (snd board_started)) = true.
Proof. vm_compute. reflexivity. Qed.

(** The state of the board after [start_kernel] serves an allocator. *)
Lemma board_serves started s1 :
  board_started = (Ok started, s1) ->
  exists root l1 l0 base m, serving root l1 l0 base (kernel_of s1) m.
Proof.
  intros Hst. pose proof (start_kernel_ends (H:=sample_clock) board_linker 0x1000 board_root board_dtb board_state) as He.
  rewrite Hst in He. destruct started as [hz guard].
  destruct He as [(_ & _ & _ & size & top & l1 & l0 & base & m & _ & Hs & _) _].
  - vm_compute. split; congruence.
  - reflexivity.
  - reflexivity.
  - vm_compute. split; congruence.
  - exact board_inv.
  - exact board_placed.
  - by exists top, l1, l0, base, m.
Qed.

Lemma board_runnable started s1 : board_started = (Ok started, s1) -> runnable (encode sample_image) s1.
Proof.
  intros Hst. pose proof board_checked as Hc. rewrite Hst in Hc. cbn [snd] in Hc.
  destruct (board_serves started s1 Hst) as (root & l1 & l0 & base & m & Hserv). pose proof Hserv as (_ & _ & Hslot & Hok).
  pose proof (HeapProofs.s_inv _ _ _ _ _ (HeapProofs.h_suffix _ _ _ _ _ Hok)) as (_ & _ & T & sp & l & Hk & _).
  pose proof (g_provides _ _ _ _ _ _ _ (ks_good _ _ _ _ _ _ _ Hk)) as Hp. cbn [snd] in Hp.
  pose proof (next_frames_take 30 (KAllocator.frames m) l Hp) as Hn.
  unfold board_checks in Hc. rewrite Hslot in Hc. cbv zeta in Hc. rewrite Hn in Hc.
  apply andb_true_iff in Hc as [[[[[Hcl Hst']%andb_true_iff Hi]%andb_true_iff Hcur]%andb_true_iff Hfree]%andb_true_iff
    [Hlen Hlow]%andb_true_iff].
  apply Nat.eqb_eq in Hlen. apply Z.eqb_eq in Hst', Hi, Hcur.
  split; [by apply negb_true_iff| |done|done].
  exists sample_image, m. split; [exact sample_image_parses|]. split; [exact Hslot|]. split; [split|].
  - unfold HeapProofs.fits, HeapProofs.block_address. rewrite Hcur. vm_compute. split; congruence.
  - exists l. split; [exact Hp|]. change (3 * (stack_reach + length (user_pages sample_image)))%nat with 30%nat.
    unfold enough. change (3 * (stack_reach + length (user_pages sample_image)))%nat with 30%nat.
    split; [rewrite length_take in Hlen; lia|]. intros fr Hin. rewrite forallb_forall in Hlow. apply Z.leb_le, (Hlow fr Hin).
  - intros page Hin. rewrite forallb_forall in Hfree. exact (bool_decide_eq_true_1 _ (Hfree page Hin)).
Qed.

Lemma kernel_enters_user_witness :
  exists ready s', main (H:=sample_clock) board_linker 0x1000 0x2000 0x3000 (encode sample_image) sample_timer_frame
      (fun _ => 1%nat) 2 board_dtb board_state = (Ok ready, s') /\
    entered board_linker (encode sample_image) board_dtb s' ready.
Proof.
  assert (is_u64 (sstatus board_state) /\ is_usize board_dtb) as [Hs Hd] by (vm_compute; repeat split; congruence).
  assert (forall i : nat, Z.of_nat 1 < 2 ^ 63) as Harr by done.
  assert (2 <= delivered (fun _ => 1%nat) 0 2) as Hfuel by (vm_compute; congruence).
  pose proof (kernel_enters_user (H:=sample_clock) board_linker 0x1000 0x2000 0x3000 (encode sample_image) board_root board_dtb
    sample_timer_frame (fun _ => 1%nat) 2 board_state Hs eq_refl eq_refl Hd board_inv board_placed board_reliable eq_refl
    Harr Hfuel) as Hend.
  pose proof board_starts as Hst. pose proof board_runnable as Hrun. revert Hend Hst Hrun.
  generalize board_started. intros [[started|e| |] s1] Hend Hst Hrun; [|destruct Hst..].
  specialize (Hrun started s1 eq_refl). revert Hend.
  generalize (main (H:=sample_clock) board_linker 0x1000 0x2000 0x3000 (encode sample_image) sample_timer_frame
    (fun _ => 1%nat) 2 board_dtb board_state). intros [[ready|e| |] s'] Hend; [| |destruct Hend..].
  - exists ready, s'. split; [reflexivity|apply Hend].
  - exfalso. destruct Hend as (_ & _ & Hno). exact (Hno started s1 eq_refl Hrun).
Defined.
