(* ===== verification/KOutputProperties.v ===== *)
(** * What the output of the kernel and of the user program is

    The theorems about [kernel/src/logging.rs], [kernel/src/console/sbi.rs] and
    [user/init/src/main.rs], with instances on a firmware whose console accepts
    every byte. *)

From Stdlib Require Import ZArith Lia Bool.
From Stdlib Require Import Strings.Byte Strings.String.
From stdpp Require Import base list numbers.
From S2P Require Import Prelude FdtScan KMemory KBootAlloc KPaging KAsm KTimer KTimerProofs KConsole KLogging.
From S2P Require Import KSyscall KTrap KTrapProofs KTrapSteps KStartup KWaitProofs KUser.
Local Open Scope Z_scope.

(** ** A sample environment *)

(** A counter, and the bytes printed so far. *)
Definition terminal : Type := Z * list byte.

#[export] Instance terminal_environment : Environment terminal := {
  sbi_call := fun extension function argument w =>
    (0, if (extension =? DBCN_EID) && (function =? DBCN_WRITE_BYTE_FID)
        then (fst w, snd w ++ [byte_of argument]) else w);
  rdtime := fun w => (fst w mod 2 ^ 32, (fst w + 1, snd w));
  counter_readable := fun _ => true;
}.

#[export] Instance terminal_console : Console terminal.
Proof.
  refine {| printed := snd |}; [|done..]. intros w b. cbn. by rewrite byte_of_u8.
Defined.

Lemma terminal_open : open_console (fun _ : terminal => True).
Proof. intros w b _. eexists. by split. Qed.

Lemma terminal_accepting : accepting (W:=terminal) 1000 (fun _ => True).
Proof.
  intros w _. do 3 eexists. split; [reflexivity|]. split; [|by split].
  pose proof (Z.mod_pos_bound (fst w) (2 ^ 32) ltac:(lia)). unfold u64_max. lia.
Qed.

Definition sample_terminal : kernel terminal := mkKernel (fun _ => 0) AVAILABLE 1000 7 u64_max (42, []).

(** The build of the samples logs nothing verbose. *)
#[local] Instance terminal_build : Build := mkFeatures false false (fun _ => false).

(** ** Logging *)

(** C40: A log call never fails, whatever the firmware does with its bytes, and
    changes nothing of the kernel but the state of the firmware and the
    counter.  A call the build leaves out does nothing at all: a trace record
    needs the trace feature and its target's, a debug record the debug or the
    trace feature and its target's, the others are always kept.  A call it
    keeps reads the counter when there is one and sends the firmware one line:
    level and target in columns of five and seven, the decimal time in a column
    of twelve, the path below [kernel/src] in one of 32, the line number in one
    of four, and the message.  Each byte of it is sent once, in order, up to and
    with the first one the firmware rejects; what it accepted is what is
    printed, which is the whole line when the firmware accepts every byte. *)
Theorem log_record_exactly {W} `{Console W} f level target file line args (k : kernel W) :
  is_u32 line -> (forall t, shown_time k = Some t -> is_u64 t) ->
  exists k', log f level target file line args k = (Ok tt, k') /\ outside k k' /\
    (compiled_in f level target ->
     exists record out, record_layout level target file line args (shown_time k) record /\
       prints (world (stamped k)) record (world k') out /\ out `prefix_of` record /\
       printed (world k') = printed (world k) ++ out /\
       forall inv, open_console inv -> (forall w, inv w -> inv (snd (rdtime w))) -> inv (world k) -> out = record) /\
    (~ compiled_in f level target -> k' = k).
Proof.
  intros Hl Ht. destruct (enabled f level target) eqn:He.
  - destruct (log_logged f level target file line args k Hl Ht) as (k' & out & Hlog & Hlogged); [by apply enabled_spec|].
    pose proof Hlogged as (Ho & record & Hr & Hp). exists k'. split; [exact Hlog|]. split; [exact Ho|].
    split; [|by intros Hx%not_enabled; rewrite Hx in He]. intros _. exists record, out. split; [exact Hr|]. split; [exact Hp|].
    split; [by eapply prints_prefix|]. split; [by eapply logged_printed|]. intros inv Hopen Hclock Hi.
    destruct (stamped_kept inv k Hclock Hi) as [Hs _]. by destruct (open_prints inv _ _ _ _ Hopen Hp Hs).
  - exists k. split; [unfold log; by rewrite He|]. split; [apply outside_refl|]. split; [|done].
    intros Hx%enabled_spec. by rewrite Hx in He.
Qed.

(** The line of a record. *)
Definition sample_line : list byte :=
  bs "[INFO ][boot   ][          42]                          main.rs:52   | trap handling ready" ++ [x0a].

Lemma log_record_exactly_witness :
  exists k', log build Info Boot (bs "kernel/src/main.rs") 52 (bs "trap handling ready") sample_terminal = (Ok tt, k') /\
    outside sample_terminal k' /\ printed (world k') = sample_line /\
    record_layout Info Boot (bs "kernel/src/main.rs") 52 (bs "trap handling ready") (Some 42) sample_line.
Proof.
  destruct (log_record_exactly build Info Boot (bs "kernel/src/main.rs") 52 (bs "trap handling ready") sample_terminal)
    as (k' & Hlog & Ho & Hin & _).
  - vm_compute. split; congruence.
  - intros t [= <-]. vm_compute. split; congruence.
  - destruct Hin as (record & out & Hr & _ & _ & Hp & Hall); [done|].
    specialize (Hall (fun _ => True) terminal_open (fun _ _ => I) I). subst out.
    assert (printed (world k') = sample_line) as Hline.
    { change k' with (snd (Ok (E:=never) tt, k')). rewrite <- Hlog. vm_compute. reflexivity. }
    exists k'. split; [exact Hlog|]. split; [exact Ho|]. split; [exact Hline|].
    assert (record = sample_line) as <- by (rewrite <- Hline, Hp; reflexivity). exact Hr.
Defined.

(** ** The user program *)

(** C39: In a build that does not trace system calls, with a configured timer
    and a firmware that programs every deadline and accepts every byte, the
    user program prints its greeting and its confirmation and exits with status
    0, whatever its tick count starts from: [fuel] tests of its waiting loop
    are enough when three timer interrupts arrive before the last of them.
    After its own lines the console shows the record of the exit, with status 0
    and the tick count, and that of the idle kernel, and nothing else.  When the
    firmware rejects a byte of the greeting, the program sends nothing more and
    exits with status 2; then the warning of that status and the record of the
    idle kernel are sent, each up to its first rejected byte. *)
Theorem user_program_exits {W} `{Console W} `{Build} probe_read probe_unavailable context arrivals interval
    (inv : W -> Prop) fuel (k : kernel W) :
  user_context context -> clock_u64 (W:=W) -> is_u64 (USER_TICKS k) -> ~ compiled_in build Trace Syscall ->
  (open_console inv -> (forall w, inv w -> inv (snd (rdtime w))) ->
   running interval inv k -> interval <> 0 -> accepting interval inv ->
   (forall i, Z.of_nat (arrivals i) < 2 ^ 63) -> 3 <= delivered arrivals 0 fuel ->
   exists k' m ticks t1 t2 exited idling,
     user_main probe_read probe_unavailable context arrivals fuel k = (Err (Exited 0), k') /\
     (m < fuel)%nat /\ delivered arrivals 0 m < 3 <= delivered arrivals 0 (S m) /\
     numeral 10 (wrap (USER_TICKS k + delivered arrivals 0 (S m))) ticks /\
     record_layout Info Process (bs "kernel/src/process.rs") 150
       (bs "User process exited (status=0, user_timer_interrupts=" ++ ticks ++ bs ")") (Some t1) exited /\
     record_layout Info Process (bs "kernel/src/process.rs") 174 (bs "Kernel idle after user process") (Some t2) idling /\
     printed (world k') = printed (world k) ++ GREETING ++ CONFIRMATION ++ exited ++ idling) /\
  (forall w out, prints (world k) GREETING w out -> out <> GREETING ->
   exists k' k1 k2 ticks exited idling,
     user_main probe_read probe_unavailable context arrivals fuel k = (Err (Exited 2), k') /\
     numeral 10 (USER_TICKS k) ticks /\
     logged Warn Process (bs "kernel/src/process.rs") 155
       (bs "User process exited (status=2, user_timer_interrupts=" ++ ticks ++ bs ")") (with_world k w) k1 exited /\
     logged Info Process (bs "kernel/src/process.rs") 174 (bs "Kernel idle after user process") k1 k2 idling /\
     printed (world k') = printed (world k) ++ out ++ exited ++ idling).
Proof.
  intros Hc Hclock Hut Hquiet. split.
  - intros Ho Hrd Hk Hi Ha Harr (m & Hm & Hd)%first_crossing; [|done].
    destruct (user_main_spec probe_read probe_unavailable context arrivals Hc Hquiet Hclock interval inv Hi Ha fuel m k
      Ho Hrd Hk Hut Harr Hm Hd) as (k' & t1 & t2 & e & i & Hrest).
    exists k', m, (decimal (wrap (USER_TICKS k + delivered arrivals 0 (S m)))), t1, t2, e, i.
    destruct Hrest as (Hmain & He & Hid & Hp). split; [exact Hmain|]. split; [exact Hm|]. split; [exact Hd|].
    split; [apply decimal_numeral, wrap_is_u64|]. by split.
  - intros w out Hp Hne.
    destruct (user_main_rejected probe_read probe_unavailable context arrivals Hc Hquiet Hclock fuel k w out Hp Hne)
      as (k' & k1 & k2 & e & i & Hmain & L1 & L2 & Hpr).
    exists k', k1, k2, (decimal (USER_TICKS k)), e, i. split; [exact Hmain|]. split; [by apply decimal_numeral|].
    by split.
Qed.

Definition sample_context : TrapFrame := mkFrame (replicate 32 7) 0x10000 0x200000022 0 0.

Lemma sample_user_context : user_context sample_context.
Proof. split; [vm_compute; split; congruence|reflexivity|vm_compute; congruence|reflexivity]. Qed.

Lemma terminal_clock : clock_u64 (W:=terminal).
Proof.
  intros w. cbn. pose proof (Z.mod_pos_bound (fst w) (2 ^ 32) ltac:(lia)). unfold is_u64, u64_max. lia.
Qed.

(** Started one tick before the count wraps around. *)
Lemma user_program_exits_witness :
  exists k' m ticks t1 t2 exited idling,
    user_main 0x1000 0x2000 sample_context (fun _ => 1%nat) 4 sample_terminal = (Err (Exited 0), k') /\
    (m < 4)%nat /\ delivered (fun _ => 1%nat) 0 m < 3 <= delivered (fun _ => 1%nat) 0 (S m) /\
    numeral 10 (wrap (USER_TICKS sample_terminal + delivered (fun _ => 1%nat) 0 (S m))) ticks /\
    record_layout Info Process (bs "kernel/src/process.rs") 150
      (bs "User process exited (status=0, user_timer_interrupts=" ++ ticks ++ bs ")") (Some t1) exited /\
    record_layout Info Process (bs "kernel/src/process.rs") 174 (bs "Kernel idle after user process") (Some t2) idling /\
    printed (world k') = GREETING ++ CONFIRMATION ++ exited ++ idling.
Proof.
  apply (proj1 (user_program_exits 0x1000 0x2000 sample_context (fun _ => 1%nat) 1000 (fun _ => True) 4 sample_terminal
    sample_user_context terminal_clock ltac:(vm_compute; split; congruence) ltac:(vm_compute; intros [? _]; congruence))).
  - exact terminal_open.
  - done.
  - by split.
  - done.
  - exact terminal_accepting.
  - done.
  - vm_compute. congruence.
Defined.

(** The whole console, when the three interrupts arrive before the first test. *)
Example sample_console :
  snd (world (snd (user_main 0x1000 0x2000 sample_context (fun _ => 3%nat) 1 sample_terminal))) =
  GREETING ++ CONFIRMATION ++
  bs "[INFO ][process][          45]                       process.rs:150  | User process exited (status=0, user_timer_interrupts=2)" ++ [x0a] ++
  bs "[INFO ][process][          46]                       process.rs:174  | Kernel idle after user process" ++ [x0a].
Proof. vm_compute. reflexivity. Qed.
