(* ===== verification/KSample.v ===== *)
(** * Sample kernel state

    A boot allocator over the sample devicetree, and a small page source that
    meets the contract of [HeapBacking], for evaluating the definitions on
    concrete input. *)

From Stdlib Require Import ZArith Lia Bool.
From stdpp Require Import base list numbers.
From S2P Require Import Prelude FdtReader FdtView FdtMemory FdtReservation Fdt FdtEncode.
From S2P Require Import FdtProperties FdtScan KMemory KBootAlloc KHeap KHeapProofs.
Local Open Scope Z_scope.

(** ** Frames *)

Definition sample_kernel : PhysRange.t := PhysRange.mk 0x80200000 0x80345678.
Definition sample_dtb : PhysRange.t := PhysRange.mk 0x82000000 0x82000400.

Definition sample_claim : outcome BootFrameAllocator.Error BootFrameAllocator.t * bool :=
  BootFrameAllocator.claim sample_value sample_kernel sample_dtb false.

Definition no_ranges : Memory.t :=
  Memory.mk (View.Children.mk (Reader.new []) sample_strings 0 true) None sample_layout.

Definition sample_allocator : BootFrameAllocator.t :=
  Eval vm_compute in
    (match sample_claim with
     | (Ok a, _) => a
     | _ => BootFrameAllocator.mk sample_value no_ranges None sample_kernel sample_dtb
     end).

(** The first frame follows the kernel, which follows the firmware. *)
Example sample_first_frame :
  fst (BootFrameAllocator.allocate sample_allocator) =
    Ok (Some (AllocatedFrame.mk (PhysFrame.mk 0x80346000))).
Proof. vm_compute. reflexivity. Qed.

(** ** Heap pages *)

(** A source of at most [limit] pages. *)
Record Pages := mkPages { pages : list Z; limit : nat }.

Inductive PagesError := NoMorePages.

#[export] Instance pages_backing : HeapBacking Pages PagesError := fun a s =>
  if bool_decide (length (pages s) < limit s)%nat
  then (Ok tt, mkPages (a :: pages s) (limit s))
  else (Err NoMorePages, s).

Definition sample_range : VirtRange.t := VirtRange.mk 0xffffffe000000000 0xffffffe000010000.

#[export] Instance pages_laws :
  HeapBackingLaws (fun _ : Pages => True) sample_range (fun s p => In p (pages s)).
Proof.
  split. intros b a _ _ _ _. unfold map_page, pages_backing. case_bool_decide; cbn.
  - split; [done|]. intros p. split; intros [H1|H1]; auto.
  - by split.
Qed.

Lemma sample_range_proper : HeapProofs.range_proper sample_range.
Proof. vm_compute. repeat split; congruence. Qed.

Definition sample_pages : Pages := mkPages [] 5.

(** The heap after its first page. *)
Definition sample_heap : KernelHeap.t := KernelHeap.mk sample_range 0xffffffe000010000 0xffffffe00000f000.
Definition sample_backed : Pages := mkPages [0xffffffe00000f000] 5.

Example sample_heap_new : KernelHeap.new sample_range sample_pages = (Ok sample_heap, sample_backed).
Proof. vm_compute. reflexivity. Qed.

Lemma sample_heap_ok :
  HeapProofs.heap_ok (fun _ : Pages => True) sample_range (fun s p => In p (pages s))
    sample_heap sample_backed.
Proof.
  split; [split|]; try done; try apply sample_range_proper; cbn; try (unfold FRAME_SIZE in *; lia).
  intros p [Hc1 Hc2] Hm. cbn in *. unfold FRAME_SIZE in *. split; [intros [<-|[]]; lia|].
  intros Hp. left. Z.div_mod_to_equations. lia.
Qed.

(** Three pages for a large block; an oversized request fails; a small one
    shares the lowest page. *)
Definition sample_layouts : list Layout :=
  [mkLayout 10000 64; mkLayout 100000 8; mkLayout 24 8].

Lemma sample_layouts_ok : Forall layout_ok sample_layouts.
Proof.
  repeat constructor; cbn; try lia; try (unfold isize_max; lia); [exists 6|exists 3|exists 3]; lia.
Qed.

Example sample_blocks :
  fst (KernelHeap.allocate_all sample_layouts (sample_heap, sample_backed)) =
    Ok [(0xffffffe00000d8c0, mkLayout 10000 64); (0xffffffe00000d8a8, mkLayout 24 8)].
Proof. vm_compute. reflexivity. Qed.
