(* ===== verification/KProperties.v ===== *)
(** * What the kernel's memory management guarantees

    The theorems about [kernel/src/memory], each with an instance on the
    values of [KSample] where it has hypotheses. *)

From Stdlib Require Import ZArith Lia Bool.
From stdpp Require Import base list numbers.
From S2P Require Import Prelude FdtRegRange FdtMemory FdtReserved FdtReservation Fdt FdtEncode.
From S2P Require Import FdtProperties FdtScan KMemory KBootAlloc KBootFrames KBootProofs KHeap.
From S2P Require Import KHeapProofs KSample.
Local Open Scope Z_scope.

Import BootProofs.

(** ** The boot frame allocator *)

(** C31: Claiming the allocator for a devicetree that [from_ptr] accepts never
    panics.  It succeeds exactly on the first claim with memory ranges no two
    of which overlap; otherwise it reports an overlapping pair of the memory
    ranges and leaves the claim flag alone, or that the flag is already set. *)
Theorem boot_claim_exactly mem ptr f kernel dtb claimed :
  Fdt.from_ptr mem ptr = Ok f ->
  exists ram, (exists s, Fdt.memory_ranges f = Ok s /\ yields Memory.next eq s ram) /\
  match BootFrameAllocator.claim f kernel dtb claimed with
  | (Ok _, claimed') => ForallOrdPairs separate ram /\ claimed = false /\ claimed' = true
  | (Err (BootFrameAllocator.OverlappingMemoryRanges a b), claimed') =>
      claimed' = claimed /\
      exists before r between s after,
        ram = before ++ r :: between ++ s :: after /\
        a = as_range (address r) (size r) /\ b = as_range (address s) (size s) /\
        PhysRange.overlaps a b = true
  | (Err BootFrameAllocator.AlreadyClaimed, claimed') =>
      ForallOrdPairs separate ram /\ claimed = true /\ claimed' = true
  | _ => False
  end.
Proof.
  intros (ram & reserved & rsv & Hl)%from_ptr_lists. exists ram. split; [apply Hl|].
  rewrite (claim_spec f ram reserved rsv Hl). pose proof (first_overlap_Ok ram) as Hok.
  destruct (first_overlap_cases ram) as [Hv|(k & r & l & s & m & Hr & Hs & Hv)]; rewrite Hv in *.
  - destruct claimed; [by split; [apply Hok|]|].
    destruct (l_ram _ _ _ _ Hl) as (s & -> & _). cbn. by split; [apply Hok|].
  - split; [done|]. exists k, r, l, s, m. split; [done|]. split; [done|]. split; [done|].
    by apply not_false_iff_true.
Qed.

Lemma boot_claim_exactly_witness :
  exists ram,
    (exists s, Fdt.memory_ranges sample_value = Ok s /\ yields Memory.next eq s ram) /\
    ForallOrdPairs separate ram /\ false = false /\ true = true.
Proof.
  apply (boot_claim_exactly sample_memory_at sample_base sample_value sample_kernel sample_dtb false).
  vm_compute. reflexivity.
Defined.

(** C4: A claimed allocator hands out, one per call and then [None], every
    complete frame of the memory ranges that touches no byte of the kernel, the
    devicetree blob, a memory reservation or a reserved-memory range; no other
    frame, and none twice.  No call panics or runs on. *)
Theorem boot_allocate_exactly mem ptr f kernel dtb a :
  Fdt.from_ptr mem ptr = Ok f -> PhysRange.wf kernel -> PhysRange.wf dtb ->
  BootFrameAllocator.claim f kernel dtb false = (Ok a, true) ->
  exists ram reserved rsv frames, lists f ram reserved rsv /\
    yields BootFrameAllocator.allocate (fun x frame => AllocatedFrame.frame x = frame) a frames /\
    NoDup frames /\
    forall frame, In frame frames <->
      (PhysFrame.start frame mod FRAME_SIZE = 0 /\
       exists r, In r ram /\ address r <= PhysFrame.start frame /\
                 PhysFrame.start frame + FRAME_SIZE <= address r + size r) /\
      (forall r, In r (reserved_list kernel dtb rsv reserved) ->
                 PhysRange.overlaps (PhysFrame.bytes_of frame) r = false).
Proof.
  intros (ram & reserved & rsv & Hl)%from_ptr_lists Hk Hd Hc.
  destruct (claim_at f ram reserved rsv Hl kernel dtb a false Hc) as (_ & Hsep & Hat).
  exists ram, reserved, rsv, (free_frames (reserved_list kernel dtb rsv reserved) ram).
  split; [done|]. split.
  { pose proof (allocate_iterates f ram reserved rsv Hl kernel dtb Hk Hd).
    by apply (iterates_yields _ _ (alloc_at f reserved rsv kernel dtb)). }
  split; [by apply free_frames_NoDup|]. intros frame. rewrite free_frames_In.
  setoid_rewrite range_frames_In. split.
  - intros [(r & Hr & Hm & Hb) Hfree]. split; [|done]. split; [done|]. by exists r.
  - intros [[Hm (r & Hr & Hb)] Hfree]. split; [|done]. by exists r.
Qed.

Lemma boot_allocate_exactly_witness :
  BootFrameAllocator.claim sample_value sample_kernel sample_dtb false = (Ok sample_allocator, true) /\
  exists ram reserved rsv frames, lists sample_value ram reserved rsv /\
    yields BootFrameAllocator.allocate (fun x frame => AllocatedFrame.frame x = frame)
      sample_allocator frames /\
    NoDup frames /\
    forall frame, In frame frames <->
      (PhysFrame.start frame mod FRAME_SIZE = 0 /\
       exists r, In r ram /\ address r <= PhysFrame.start frame /\
                 PhysFrame.start frame + FRAME_SIZE <= address r + size r) /\
      (forall r, In r (reserved_list sample_kernel sample_dtb rsv reserved) ->
                 PhysRange.overlaps (PhysFrame.bytes_of frame) r = false).
Proof.
  split; [vm_compute; reflexivity|].
  apply (boot_allocate_exactly sample_memory_at sample_base sample_value).
  - vm_compute. reflexivity.
  - vm_compute. repeat split; congruence.
  - vm_compute. repeat split; congruence.
  - vm_compute. reflexivity.
Defined.

(** ** Ranges and alignment *)

(** A physical range is built exactly when it is nonempty with a
    representable end, a frame exactly at an aligned address whose end is
    representable; two ranges overlap exactly when they share an address, and
    distinct frames share none. *)
Theorem ranges_exact start size :
  is_usize start -> 0 <= size ->
  (PhysRange.from_start_size start size =
     if (0 <? size) && (start + size <=? usize_max) then Some (PhysRange.mk start (start + size))
     else None) /\
  (PhysFrame.from_start start =
     if (start mod FRAME_SIZE =? 0) && (start + FRAME_SIZE <=? usize_max)
     then Some (PhysFrame.mk start) else None) /\
  (forall r s, PhysRange.wf r -> PhysRange.wf s ->
     PhysRange.overlaps r s = true <-> exists a, PhysRange.contains r a /\ PhysRange.contains s a) /\
  (forall x y, PhysFrame.wf x -> PhysFrame.wf y -> x <> y ->
     PhysRange.overlaps (PhysFrame.bytes_of x) (PhysFrame.bytes_of y) = false).
Proof.
  intros [Ha _] Hs. split; [|split; [|split; [by apply PhysRange.overlaps_iff|apply PhysFrame.disjoint]]].
  - destruct (_ && _) eqn:E; zbool; [by apply PhysRange.from_start_size_Some|].
    destruct (PhysRange.from_start_size start size) as [r|] eqn:Hr; [|done].
    apply PhysRange.from_start_size_Some in Hr; [|done]. lia.
  - destruct (_ && _) eqn:E; zbool; [by apply PhysFrame.from_start_Some|].
    destruct (PhysFrame.from_start start) as [r|] eqn:Hr; [|done].
    apply PhysFrame.from_start_Some in Hr as [(? & Hm & ?) <-]; [|done].
    rewrite Hm in E. cbn [Z.eqb andb] in E. zbool. lia.
Qed.

Lemma ranges_exact_witness :
  is_usize 0x80200000 /\
  PhysFrame.from_start 0x80200000 = Some (PhysFrame.mk 0x80200000).
Proof.
  split; [vm_compute; split; congruence|].
  apply (ranges_exact 0x80200000 0); vm_compute; [split; congruence|congruence].
Defined.

(** [align_up] is the next frame boundary when it is representable, and
    [align_down] the previous one, with no arithmetic panic. *)
Theorem alignment_exact a :
  is_usize a ->
  (exists up, up mod FRAME_SIZE = 0 /\ a <= up < a + FRAME_SIZE /\
     align_up a = if up <=? usize_max then Some up else None) /\
  (exists down, align_down (E:=never) a = Ok down /\ down mod FRAME_SIZE = 0 /\
     0 <= down <= a /\ a < down + FRAME_SIZE).
Proof.
  intros Ha. destruct (frame_ceil_spec a) as [Hc1 Hc2]. destruct (frame_floor_spec a) as [Hf1 Hf2].
  split.
  - exists (frame_ceil a). split; [done|]. split; [done|]. by apply align_up_spec.
  - exists (frame_floor a). split; [apply align_down_spec, Ha|]. split; [done|]. split; [|lia].
    split; [|lia]. unfold frame_floor, FRAME_SIZE. destruct Ha. Z.div_mod_to_equations. lia.
Qed.

Lemma alignment_exact_witness :
  is_usize 0x80345678 /\
  exists up, up mod FRAME_SIZE = 0 /\ 0x80345678 <= up < 0x80345678 + FRAME_SIZE /\
    align_up 0x80345678 = if up <=? usize_max then Some up else None.
Proof.
  split; [vm_compute; split; congruence|].
  apply (alignment_exact 0x80345678). vm_compute. split; congruence.
Defined.

(** ** The heap *)

Import HeapProofs.

(** Over a proper, unbacked range [KernelHeap::new] backs the highest page
    and starts with the cursor at the end of the range, or reports the
    backing's error; on any other range it reports the range and requests no
    page. *)
Theorem heap_new_exactly {B E} `{HeapBacking B E} inv range backed
    `{!HeapBackingLaws inv range backed} (b : B) :
  VirtRange.wf range -> inv b ->
  (forall p, VirtRange.contains range p -> p mod FRAME_SIZE = 0 -> ~ backed b p) ->
  exists o b', KernelHeap.new range b = (o, b') /\
    match o with
    | Ok h => heap_ok inv range backed h b' /\ KernelHeap.cursor h = VirtRange.end_ range
    | Err (InvalidRange r) => r = range /\ ~ range_proper range /\ b' = b
    | Err (Backing _) => range_proper range /\ inv b'
    | _ => False
    end.
Proof.
  intros Hw Hi Hn.
  destruct ((VirtRange.start range =? 0) || negb (VirtRange.start range mod FRAME_SIZE =? 0) ||
            negb (VirtRange.end_ range mod FRAME_SIZE =? 0)) eqn:Hbad.
  - exists (Err (InvalidRange range)), b. unfold KernelHeap.new, VirtAddr.as_usize. rewrite Hbad.
    split; [done|]. split; [done|]. split; [|done]. intros (_ & H0 & Hs & He).
    rewrite Hs, He in Hbad. destruct (VirtRange.start range =? 0) eqn:E0; zbool; [lia|done].
  - zbool. assert (range_proper range) as Hp by (destruct Hw; split; [done|split; [lia|done]]).
    destruct (heap_new_spec inv range backed b Hp Hi Hn) as (o & b' & Hnew & Ho).
    exists o, b'. split; [done|]. destruct o as [h|e| |]; try done.
    + by destruct Ho as (? & ? & _).
    + by destruct Ho as ((e' & ->) & Hi').
Qed.

Lemma heap_new_exactly_witness :
  VirtRange.wf sample_range /\
  exists o b', KernelHeap.new sample_range sample_pages = (o, b') /\
    match o with
    | Ok h => heap_ok (fun _ : Pages => True) sample_range (fun s p => In p (pages s)) h b' /\
              KernelHeap.cursor h = VirtRange.end_ sample_range
    | Err (InvalidRange r) => r = sample_range /\ ~ range_proper sample_range /\ b' = sample_pages
    | Err (Backing _) => range_proper sample_range /\ True
    | _ => False
    end.
Proof.
  split; [vm_compute; repeat split; congruence|].
  apply (heap_new_exactly (fun _ : Pages => True) sample_range (fun s p => In p (pages s)) sample_pages).
  - vm_compute. repeat split; congruence.
  - exact I.
  - intros p _ _ [].
Defined.

(** C16: A request on a heap in its invariant keeps the invariant, and its
    result is determined: a zero size and a request that does not fit are
    errors that change nothing; a fitting request returns the highest aligned
    address that leaves room below the cursor, every byte of the block inside
    the range and backed, and moves the cursor there, or reports the backing's
    error with the cursor unchanged. *)
Theorem heap_allocate_exactly {B E} `{HeapBacking B E} inv range backed
    `{!HeapBackingLaws inv range backed} h (b : B) layout :
  heap_ok inv range backed h b -> layout_ok layout ->
  exists o h' b', KernelHeap.allocate layout (h, b) = (o, (h', b')) /\
    heap_ok inv range backed h' b' /\
    match o with
    | Ok a =>
        0 < lsize layout /\ fits range h layout /\ a = block_address h layout /\
        KernelHeap.cursor h' = a /\ a mod lalign layout = 0 /\
        a + lsize layout <= KernelHeap.cursor h /\ fully_backed range backed b' a (lsize layout)
    | Err ZeroSizedAllocation => lsize layout = 0 /\ h' = h /\ b' = b
    | Err Exhausted => 0 < lsize layout /\ ~ fits range h layout /\ h' = h /\ b' = b
    | Err (Backing _) => 0 < lsize layout /\ fits range h layout /\
                         KernelHeap.cursor h' = KernelHeap.cursor h
    | _ => False
    end.
Proof.
  intros Hok Hl. destruct (allocate_spec inv range backed h b layout Hok Hl) as
    (o & h' & b' & Ha & Hok' & _ & Ho). by exists o, h', b'.
Qed.

Lemma heap_allocate_exactly_witness :
  exists o h' b', KernelHeap.allocate (mkLayout 10000 64) (sample_heap, sample_backed) = (o, (h', b')) /\
    heap_ok (fun _ : Pages => True) sample_range (fun s p => In p (pages s)) h' b' /\
    match o with
    | Ok a =>
        0 < lsize (mkLayout 10000 64) /\ fits sample_range sample_heap (mkLayout 10000 64) /\
        a = block_address sample_heap (mkLayout 10000 64) /\
        KernelHeap.cursor h' = a /\ a mod lalign (mkLayout 10000 64) = 0 /\
        a + lsize (mkLayout 10000 64) <= KernelHeap.cursor sample_heap /\
        fully_backed sample_range (fun s p => In p (pages s)) b' a (lsize (mkLayout 10000 64))
    | Err ZeroSizedAllocation =>
        lsize (mkLayout 10000 64) = 0 /\ h' = sample_heap /\ b' = sample_backed
    | Err Exhausted =>
        0 < lsize (mkLayout 10000 64) /\ ~ fits sample_range sample_heap (mkLayout 10000 64) /\
        h' = sample_heap /\ b' = sample_backed
    | Err (Backing _) =>
        0 < lsize (mkLayout 10000 64) /\ fits sample_range sample_heap (mkLayout 10000 64) /\
        KernelHeap.cursor h' = KernelHeap.cursor sample_heap
    | _ => False
    end.
Proof.
  apply (heap_allocate_exactly (fun _ : Pages => True) sample_range (fun s p => In p (pages s))
    sample_heap sample_backed (mkLayout 10000 64)).
  - exact sample_heap_ok.
  - exact (Forall_inv sample_layouts_ok).
Defined.

(** C15: The blocks of any sequence of requests on a heap in its invariant are
    pairwise disjoint, each nonempty, aligned as requested and backed
    throughout when the sequence ends, whichever requests failed in between. *)
Theorem heap_blocks_disjoint {B E} `{HeapBacking B E} inv range backed
    `{!HeapBackingLaws inv range backed} h (b : B) layouts :
  heap_ok inv range backed h b -> Forall layout_ok layouts ->
  exists blocks h' b', KernelHeap.allocate_all layouts (h, b) = (Ok blocks, (h', b')) /\
    heap_ok inv range backed h' b' /\
    Forall (usable range backed b' (KernelHeap.cursor h)) blocks /\
    ForallOrdPairs below blocks.
Proof.
  intros Hok Hl. destruct (allocate_all_spec inv range backed layouts h b Hok Hl) as
    (blocks & h' & b' & Ha & Hok' & _ & Hu & Hp). by exists blocks, h', b'.
Qed.

Lemma heap_blocks_disjoint_witness :
  exists blocks h' b',
    KernelHeap.allocate_all sample_layouts (sample_heap, sample_backed) = (Ok blocks, (h', b')) /\
    heap_ok (fun _ : Pages => True) sample_range (fun s p => In p (pages s)) h' b' /\
    Forall (usable sample_range (fun s p => In p (pages s)) b' (KernelHeap.cursor sample_heap)) blocks /\
    ForallOrdPairs below blocks.
Proof.
  apply (heap_blocks_disjoint (fun _ : Pages => True) sample_range (fun s p => In p (pages s))
    sample_heap sample_backed sample_layouts).
  - exact sample_heap_ok.
  - exact sample_layouts_ok.
Defined.
